(* ===== verification/_CoqProject ===== *)
-Q . S2P
Prelude.v
GoStrings.v
Fmt.v
Json.v
Encoding.v
Policy.v
Regexp.v
Models.v
ApiModels.v
Http.v
Operations.v
JsonModels.v
ApiClient.v
NetIP.v
Factory.v
Telemetry.v
WorkQueue.v
BaseController.v
Templates.v
Ignition.v
Manifests.v
Bootstrap.v
Metrics.v
Pager.v
Openstack.v
Certificates.v
KubeClient.v
CertCommands.v
Handlers.v
Scoped.v
Rest.v
Replies.v
Builders.v
Auth.v
Middleware.v
ResponseLog.v
Launch.v
Convergence.v
Refresh.v
Ctl.v
RouteGC.v
Version.v
Iptables.v
Wormhole.v
Ground.v
Store.v
Lifecycle.v
Cluster.v
Clientset.v
Tunnels.v
Operator.v
Server.v
ApiObject.v
Document.v
Commands.v
