(* ===== verification/Prelude.v ===== *)
(** Kubernikus: Kubernetes clusters as a service on OpenStack.

    * The program

    A user asks for a cluster, a kluster, through a REST API (src/cmd/apiserver,
    src/pkg/api).  The API keeps it as a custom resource in the control plane's
    Kubernetes.  An operator (src/cmd/kubernikus, src/pkg/controller) watches
    these resources: the ground controller installs and removes the master of a
    kluster, the launch controller creates and deletes its nodes on OpenStack,
    the route collector removes stale routes.  The nodes and their master are
    joined by a tunnel (src/cmd/wormhole, src/pkg/wormhole).  A command line
    client (src/cmd/kubernikusctl) talks to the API.

    * The library

    A file models a part; its definitions carry the names of the code and, in
    their comments, the lines they translate.
    - Foundations: this file (errors, the monad of computations that return,
      fail or panic, calls to services, weakest preconditions); GoStrings,
      Fmt, Json, Encoding, NetIP, Regexp and Templates (what is used of Go's
      strings, strconv, path, fmt, encoding/json, net, regexp and of its
      template engines).
    - Data: Models and ApiModels (src/pkg/api/models and its validation),
      JsonModels (the same as JSON: types with their tags, MarshalBinary and
      UnmarshalBinary, the codecs of the API), Factory
      (src/pkg/apis/kubernikus: the resource built from a request), Document
      (the schemas and defaults of src/pkg/api/spec).
    - API: Handlers (src/pkg/api/handlers, keystone_auth.go); Http, Operations,
      ApiClient, Rest (the generated server and client of the eleven operations,
      composed into one program); Replies (the client's response values and
      their texts); Builders (URL builders, constructors and setters, with what
      is used of net/url); ApiObject (the object the server is assembled on);
      Policy (LoadPolicy and the vendored policy engine: lexer, tables and
      driver of its parser, checks) and Auth (authorizer.go with
      etc/policy.json); Middleware and
      ResponseLog (src/pkg/util/log, the chain of configure.go); Server (the
      process).
    - Operator: WorkQueue (client-go's rate limited queue, under vendor),
      BaseController with Telemetry and Metrics (the control loop and its
      decorators), Ground and Bootstrap with Manifests (the ground controller
      and what it seeds into a new cluster), Launch and Ignition (the launch
      controller and the user data of a node), RouteGC, Operator (wiring).
    - Services: Openstack, Scoped and Pager (src/pkg/client/openstack on
      gophercloud), KubeClient (src/pkg/client/kubernetes), Clientset
      (src/pkg/generated on client-go's request builder), Certificates
      (src/pkg/util/certificates.go), Version and Iptables (src/pkg/util).
    - Tunnel: Wormhole (the controller of the tunnel server), Tunnels (both
      ends of the wormhole, the forwarded port of the Helm client).
    - Commands: Ctl and Refresh (kubernikusctl), CertCommands and Commands (the
      small commands of the operator binary).
    - Compositions: Rest (a client call meets its handler), Auth (the policy
      in front of every call), Store, Lifecycle and Cluster (API, ground
      controller and launch controller on one store, interleaved call by call),
      Convergence (launch controller against a compute service),
      Tunnels.wormhole_meets, KubeClient and Refresh (what is issued is what is
      read back).

    * How code becomes definitions

    Pure Go functions are functions.  A component with effects has a type of
    calls (an instance of [Iface]): requests to services, files, metrics,
    random numbers.  A [Machine] answers calls from a state of its own; a
    theorem quantifies over all machines, so over every behaviour of the
    services, unless it names a contract (a class such as [Convergence.Cloud],
    [Lifecycle.Shared], [Bootstrap]'s store, [Iptables]' packet filter).  The
    state of a computation ([sys]) is the component's memory, the machine's
    state and the trace of calls; an outcome is a value ([Ret]), an error
    ([Fail]) or a panic ([Panic]).  [wp] is the weakest precondition the
    properties are proved with; [emits] says which calls a computation makes.
    Machine integers keep their width where the code can leave it (replicas
    and pool sizes in Launch, versions, ports, back-off durations); elsewhere
    they are integers.  Maps are finite maps; where the code ranges over a map
    the order is a parameter.  A third-party library is a parameter with the
    laws that are used, and each such theorem has a witness.

    * What is shown
    - Safety: requests stay within the tenant of the principal and pass the
      policy (Rest.request_tenancy, Auth); the ground controller acts only as
      the phase of a kluster says and deletes in order (Ground); whatever is
      deleted was asked for although requests, both controllers and a lagging
      cache interleave (Cluster.deleted_on_request); sockets and tunnels
      (Server, Tunnels).
    - Function: for each operation what it returns and which calls it makes on
      every branch, errors included (Handlers, Launch, Ground, RouteGC,
      Certificates, Scoped, BaseController, Factory, Manifests).
    - Refinement and equivalence: client, transport, router and handler
      (Rest.call_meets_handler), generated requests and the store they reach
      (Clientset.klusters_refine), the packet filter (Iptables), the command
      line client (Ctl), the agreement of the API's tables (Rest.tables_agree)
      and of its document with the generated validators
      (Document.document_enforced).
    - Round trips: the models of the API as JSON, through the whole printer and
      parser (JsonModels.models_come_back), credentials that are issued and refreshed (Refresh),
      versions (Version.parse_String), the files in the user data of a node as a YAML
      reader reads them (Ignition.node_files).
    - Invariants, liveness, termination, bounds: the work queue (WorkQueue),
      the routes of the tunnel (Wormhole), the pod index (Operator), the
      informer factory (Clientset.informers_shared), the convergence of a pool
      (Convergence), the parsing of saved rules (Iptables), back-off
      (WorkQueue.backoff_bounds).
    Where the code does not do what it says, the theorem states what it does;
    some are counterexamples, such as Launch.negative_size_panics,
    Convergence.stopping_hides_surplus and Ignition.domain_injects.

    * Bounds

    Fuel is used where the code repeats.  [Ground.Poll] has 101 units: a wait
    of five seconds checked every fifty milliseconds; KubeClient waits for a
    definition with 121 (a minute, every half second); Iptables tries the locks
    11 times (two seconds, every 200 ms).  The parser of saved rules gets the
    length of its text, which it is shown not to exhaust, and the parser of
    JSON twice the length of its own (Json.parse_advances); the driver of the
    policy's parser never exhausts its fuel (Policy.Oslo.yyParse_ends), nor
    does its lexer on ASCII texts (Policy.Oslo.newLexer_closes).  Endless loops (the
    workers, the sweep of RouteGC, the nanny, waiting for a server) take their
    number of rounds as an argument and are proved for every number.

    * Interleaving

    A component's calls are atomic, everything between two calls may change.
    Lifecycle.Shared states what others may do to the store meanwhile; the
    proofs for every request, for the ground controller and for the launch
    controller hold for all such machines.  Cluster runs any number of them as
    threads, one call at a time in any order: a thread is a program with the
    answers it has got, its next call is the one the program makes when it gets
    them again (Cluster.threads_run: the log consists of runs of the programs).

    * Not modelled

    Log lines beyond those a property is about; the traffic inside TLS
    connections, tunnels and forwarded ports; flags and environment of the
    commands; the transpiler from Container Linux configurations to ignition;
    the decoding of PEM and YAML and of what the API server of
    Kubernetes is sent, which are codecs with laws, and the wording of JSON's
    errors; how REST
    clients are made from a configuration, and the fake clientset of the
    tests; Prometheus' registry and its HTTP handler; string formats of the
    API runtime; the end-to-end tests (src/test) and the import lister for the
    Makefile (src/cmd/go-swagger-deps), which are no part of the program.

    * What could follow

    The conflict of an outdated update at the API server, which Cluster leaves
    to the answers of the services. *)
From Stdlib Require Export Ascii.
From stdpp Require Export base gmap sets list strings pretty.
From Stdlib Require Export ZArith Lia.

(** * Notation scopes *)
Declare Scope go_scope.
Delimit Scope go_scope with go.
#[global] Open Scope string_scope.
#[global] Open Scope list_scope.
#[global] Arguments String.append : simpl nomatch.

(** * Errors

    A Go [error] value.  The constructors are the dynamic types the code
    discriminates on; everything else is a message. *)
Inductive status_reason :=
| ReasonNotFound
| ReasonAlreadyExists
| ReasonOther.

Inductive error :=
| ErrNew (msg : string)                                (** [errors.New], [fmt.Errorf] *)
| ErrStatus (reason : status_reason) (msg : string)    (** [*apierrors.StatusError] *)
| ErrExit (exited : bool) (status : Z) (msg : string). (** [utilexec.ExitError] *)

#[export] Instance status_reason_eq_dec : EqDecision status_reason.
Proof. solve_decision. Defined.
#[export] Instance error_eq_dec : EqDecision error.
Proof. solve_decision. Defined.

(** [err.Error()] *)
Definition Error (e : error) : string :=
  match e with ErrNew m | ErrStatus _ m | ErrExit _ _ m => m end.

(** [apierrors.IsNotFound] and [apierrors.IsAlreadyExists]: only a status
    error carries a reason, so an error wrapped by [fmt.Errorf] loses it. *)
Definition IsNotFound (e : error) : bool :=
  match e with ErrStatus ReasonNotFound _ => true | _ => false end.
Definition IsAlreadyExists (e : error) : bool :=
  match e with ErrStatus ReasonAlreadyExists _ => true | _ => false end.

(** * Outcomes and the state monad

    A Go call that returns [(T, error)] ends in one of three ways: it
    returns normally, it returns a non-nil error, or it panics. *)
Inductive outcome (A : Type) : Type :=
| Ret (a : A)
| Fail (e : error)
| Panic (why : string).
Arguments Ret {_} _.
Arguments Fail {_} _.
Arguments Panic {_} _.

(** The reply of an external call: a value or an error, never a panic. *)
Inductive reply (A : Type) : Type :=
| Ok (a : A)
| Bad (e : error).
Arguments Ok {_} _.
Arguments Bad {_} _.

#[export] Instance outcome_eq_dec {A} `{EqDecision A} : EqDecision (outcome A).
Proof. solve_decision. Defined.
#[export] Instance reply_eq_dec {A} `{EqDecision A} : EqDecision (reply A).
Proof. solve_decision. Defined.

Definition of_reply {A} (r : reply A) : outcome A :=
  match r with Ok a => Ret a | Bad e => Fail e end.

Definition Go (S A : Type) : Type := S -> S * outcome A.

Section Monad.
Context {S : Type}.

#[global] Instance go_ret : MRet (Go S) := fun A a s => (s, Ret a).

#[global] Instance go_bind : MBind (Go S) := fun A B f m s =>
  match m s with
  | (s', Ret a) => f a s'
  | (s', Fail e) => (s', Fail e)
  | (s', Panic w) => (s', Panic w)
  end.

#[global] Instance go_fmap : FMap (Go S) := fun A B f m s =>
  match m s with
  | (s', Ret a) => (s', Ret (f a))
  | (s', Fail e) => (s', Fail e)
  | (s', Panic w) => (s', Panic w)
  end.

Definition fail {A} (e : error) : Go S A := fun s => (s, Fail e).
Definition panic {A} (w : string) : Go S A := fun s => (s, Panic w).
Definition get : Go S S := fun s => (s, Ret s).
Definition modify (f : S -> S) : Go S unit := fun s => (f s, Ret tt).

(** [x, err := m]: the error becomes a value the code inspects. *)
Definition attempt {A} (m : Go S A) : Go S (reply A) := fun s =>
  match m s with
  | (s', Ret a) => (s', Ret (Ok a))
  | (s', Fail e) => (s', Ret (Bad e))
  | (s', Panic w) => (s', Panic w)
  end.

Definition lift_reply {A} (r : reply A) : Go S A := fun s => (s, of_reply r).

(** [fmt.Errorf("msg%s", err)] around a failing computation *)
Definition errorf {A} (msg : string) (m : Go S A) : Go S A :=
  r ← attempt m; match r with Ok a => mret a | Bad err => fail (ErrNew (msg +:+ Error err)) end.

(** [for _, x := range l { if err := f(x); err != nil { return err } }] *)
Fixpoint for_each {A} (f : A -> Go S unit) (l : list A) : Go S unit :=
  match l with
  | [] => mret tt
  | x :: l' => _ ← f x; for_each f l'
  end.

(** The same loop threading an accumulator. *)
Fixpoint for_fold {A B} (f : B -> A -> Go S B) (b : B) (l : list A) : Go S B :=
  match l with
  | [] => mret b
  | x :: l' => b' ← f b x; for_fold f b' l'
  end.
End Monad.

(** * External services

    A component reaches the outside world only through calls of a fixed
    alphabet [C]; [resp c] is the type of the reply to [c].  A [Machine]
    answers calls from a state of its own, so a theorem about an arbitrary
    machine holds for every behaviour of the services, other clients of them
    included. *)
Class Iface (C : Type) := resp : C -> Type.
Class Machine (C E : Type) `{Iface C} := answer : forall c : C, E -> E * reply (resp c).

(** The state a component runs in: its own memory, the state of the services
    and the calls made so far, oldest first. *)
Record sys (S E C : Type) := Sys { mem : S; env : E; trace : list C }.
Arguments Sys {_ _ _} _ _ _.
Arguments mem {_ _ _} _.
Arguments env {_ _ _} _.
Arguments trace {_ _ _} _.

Section Perform.
Context {S E C : Type} `{Machine C E}.

Definition perform (c : C) : Go (sys S E C) (resp c) := fun s =>
  let '(e', r) := answer c (env s) in
  (Sys (mem s) e' (trace s ++ [c]), of_reply r).

Definition get_mem : Go (sys S E C) S := fun s => (s, Ret (mem s)).
Definition set_mem (m : S) : Go (sys S E C) unit := fun s =>
  (Sys m (env s) (trace s), Ret tt).
End Perform.

(** * Reasoning about the monad

    [wp m Q s]: running [m] from [s] ends in an outcome and a state that
    satisfy [Q].  Every computation of the monad ends, so the judgement is one
    of total correctness. *)
Definition wp {S A} (m : Go S A) (Q : outcome A -> S -> Prop) (s : S) : Prop :=
  Q (snd (m s)) (fst (m s)).

Section WP.
Context {S : Type}.

Lemma wp_ret {A} (a : A) (Q : outcome A → S → Prop) s : Q (Ret a) s → wp (mret a) Q s.
Proof. done. Qed.
Lemma wp_fail {A} e (Q : outcome A → S → Prop) s : Q (Fail e) s → wp (fail e) Q s.
Proof. done. Qed.
Lemma wp_panic {A} w (Q : outcome A → S → Prop) s : Q (Panic w) s → wp (panic w) Q s.
Proof. done. Qed.
Lemma wp_lift_reply {A} (r : reply A) Q (s : S) : Q (of_reply r) s → wp (lift_reply r) Q s.
Proof. done. Qed.
Lemma wp_get (Q : outcome S → S → Prop) s : Q (Ret s) s → wp get Q s.
Proof. done. Qed.
Lemma wp_modify f (Q : outcome unit → S → Prop) s : Q (Ret tt) (f s) → wp (modify f) Q s.
Proof. done. Qed.

Lemma wp_bind {A B} (m : Go S A) (f : A → Go S B) Q s :
  wp m (λ o s', match o with
                | Ret a => wp (f a) Q s'
                | Fail e => Q (Fail e) s'
                | Panic w => Q (Panic w) s'
                end) s →
  wp (m ≫= f) Q s.
Proof. unfold wp, mbind, go_bind. destruct (m s) as [s' []]; done. Qed.

Lemma wp_fmap {A B} (f : A → B) (m : Go S A) Q s :
  wp m (λ o s', match o with
                | Ret a => Q (Ret (f a)) s'
                | Fail e => Q (Fail e) s'
                | Panic w => Q (Panic w) s'
                end) s →
  wp (f <$> m) Q s.
Proof. unfold wp, fmap, go_fmap. destruct (m s) as [s' []]; done. Qed.

Lemma wp_attempt {A} (m : Go S A) Q s :
  wp m (λ o s', match o with
                | Ret a => Q (Ret (Ok a)) s'
                | Fail e => Q (Ret (Bad e)) s'
                | Panic w => Q (Panic w) s'
                end) s →
  wp (attempt m) Q s.
Proof. unfold wp, attempt. destruct (m s) as [s' []]; done. Qed.

Lemma wp_mono {A} (m : Go S A) (Q R : outcome A → S → Prop) s :
  wp m Q s → (∀ o s', Q o s' → R o s') → wp m R s.
Proof. unfold wp. eauto. Qed.

Lemma wp_errorf {A} msg (m : Go S A) Q s :
  wp m (λ o s', match o with Fail e => ∀ err, Q (Fail err) s' | _ => Q o s' end) s → wp (errorf msg m) Q s.
Proof.
  intros H. unfold errorf. apply wp_bind, wp_attempt, (wp_mono _ _ _ _ H).
  intros [a|e|w] s' HQ; [apply wp_ret, HQ|apply wp_fail, HQ|exact HQ].
Qed.

(** A loop that keeps [I]: it goes through the whole list, or stops at the
    first error or panic. *)
Lemma wp_for_each {A} (f : A → Go S unit) (I : S → Prop) (Q : outcome unit → S → Prop) l s :
  I s →
  (∀ x s, x ∈ l → I s → wp (f x) (λ o s', match o with Ret _ => I s' | _ => Q o s' end) s) →
  (∀ s, I s → Q (Ret tt) s) →
  wp (for_each f l) Q s.
Proof.
  revert s. induction l as [|x l IH]; intros s Hi Hf Hq; simpl.
  - by apply wp_ret, Hq.
  - apply wp_bind. eapply wp_mono; [apply Hf; [left|done]|].
    intros [[]|e|w] s' H; [|done..]. apply IH; [done| |done].
    intros y s'' Hy. apply Hf. by right.
Qed.

Lemma for_each_app {A} (f : A → Go S unit) l k s :
  for_each f (l ++ k) s = (_ ← for_each f l; for_each f k) s.
Proof.
  revert s. induction l as [|x l IH]; intros s; simpl; [done|].
  unfold mbind, go_bind. destruct (f x s) as [s' [[]|e|w]]; [|done..]. by rewrite IH.
Qed.
End WP.

Section WPSys.
Context {S E C : Type} `{Machine C E}.

(** An external call: the environment decides the reply. *)
Lemma wp_perform (c : C) (Q : outcome (resp c) → sys S E C → Prop) s :
  (∀ e' r, answer c (env s) = (e', r) →
     Q (of_reply r) (Sys (mem s) e' (trace s ++ [c]))) →
  wp (perform c) Q s.
Proof. intros HQ. unfold wp, perform. destruct (answer c (env s)) as [e' r] eqn:?. by apply HQ. Qed.

Lemma wp_get_mem (Q : outcome S → sys S E C → Prop) s : Q (Ret (mem s)) s → wp get_mem Q s.
Proof. done. Qed.
Lemma wp_set_mem m (Q : outcome unit → sys S E C → Prop) s :
  Q (Ret tt) (Sys m (env s) (trace s)) → wp (set_mem m) Q s.
Proof. done. Qed.
End WPSys.

(** [emits P m]: a run of [m] only appends to the trace, and every call it
    makes satisfies [P]. *)
Definition emits {S E C A} (P : C -> Prop) (m : Go (sys S E C) A) : Prop :=
  forall s, exists l, trace (fst (m s)) = trace s ++ l ∧ Forall P l.

Create HintDb emits discriminated.

Section Emits.
Context {S E C : Type} `{Machine C E} (P : C -> Prop).
Implicit Types s : sys S E C.

Lemma emits_ret {A} (a : A) : emits (S:=S) (E:=E) P (mret a).
Proof. intros s. exists []. by rewrite app_nil_r. Qed.
Lemma emits_fail {A} e : emits (S:=S) (E:=E) (A:=A) P (fail e).
Proof. intros s. exists []. by rewrite app_nil_r. Qed.
Lemma emits_panic {A} w : emits (S:=S) (E:=E) (A:=A) P (panic w).
Proof. intros s. exists []. by rewrite app_nil_r. Qed.
Lemma emits_lift_reply {A} (r : reply A) : emits (S:=S) (E:=E) P (lift_reply r).
Proof. intros s. exists []. by rewrite app_nil_r. Qed.
Lemma emits_get_mem : emits (E:=E) P (get_mem (S:=S)).
Proof. intros s. exists []. by rewrite app_nil_r. Qed.
Lemma emits_set_mem m : emits (E:=E) P (set_mem (S:=S) m).
Proof. intros s. exists []. by rewrite app_nil_r. Qed.
Lemma emits_perform (c : C) : P c → emits P (perform (S:=S) c).
Proof.
  intros HP s. exists [c]. unfold perform. destruct (answer c (env s)). simpl.
  split; [done|]. by apply Forall_singleton.
Qed.
Lemma emits_bind {A B} (m : Go (sys S E C) A) (f : A → Go (sys S E C) B) :
  emits P m → (∀ a, emits P (f a)) → emits P (m ≫= f).
Proof.
  intros Hm Hf s. destruct (Hm s) as (l & Hl & Pl). unfold mbind, go_bind.
  destruct (m s) as [s' [a|e|w]]; simpl in *; [|by exists l..].
  destruct (Hf a s') as (k & Hk & Pk). exists (l ++ k).
  rewrite Hk, Hl, app_assoc. split; [done|]. by apply Forall_app.
Qed.
Lemma emits_fmap {A B} (f : A → B) (m : Go (sys S E C) A) : emits P m → emits P (f <$> m).
Proof. intros Hm s. destruct (Hm s) as (l & ? & ?). exists l. unfold fmap, go_fmap. by destruct (m s) as [? []]. Qed.
Lemma emits_attempt {A} (m : Go (sys S E C) A) : emits P m → emits P (attempt m).
Proof. intros Hm s. destruct (Hm s) as (l & ? & ?). exists l. unfold attempt. by destruct (m s) as [? []]. Qed.
Lemma emits_for_each {A} (f : A → Go (sys S E C) unit) l :
  (∀ x, x ∈ l → emits P (f x)) → emits P (for_each f l).
Proof.
  induction l as [|x l IH]; intros Hf; simpl; [apply emits_ret|].
  apply emits_bind; [apply Hf; left|]. intros _. apply IH. intros y Hy. apply Hf. by right.
Qed.
Lemma emits_for_fold {A B} (f : B → A → Go (sys S E C) B) b l :
  (∀ b x, x ∈ l → emits P (f b x)) → emits P (for_fold f b l).
Proof.
  revert b. induction l as [|x l IH]; intros b Hf; simpl; [apply emits_ret|].
  apply emits_bind; [apply Hf; left|]. intros b'. apply IH. intros b'' y Hy. apply Hf. by right.
Qed.
End Emits.

#[export] Hint Resolve emits_ret emits_fail emits_panic emits_lift_reply emits_get_mem
  emits_set_mem emits_bind emits_fmap emits_attempt emits_for_each emits_for_fold : emits.
#[export] Hint Extern 1 (emits _ (perform ?c)) =>
  refine (emits_perform _ c _); cbn; auto : emits.

Lemma emits_weaken {S E C A} (P Q : C → Prop) (m : Go (sys S E C) A) :
  (∀ c, P c → Q c) → emits P m → emits Q m.
Proof.
  intros HPQ Hm s. destruct (Hm s) as (l & ? & ?). exists l.
  split; [done|]. eapply Forall_impl; eauto.
Qed.

(** [picked sel s]: the calls of the trace that [sel] selects, in order. *)
Definition picked {S E C} (sel : C -> bool) (s : sys S E C) : list C := List.filter sel (trace s).

Lemma filter_none {C} (sel : C → bool) l : Forall (λ c, sel c = false) l → List.filter sel l = [].
Proof. induction 1 as [|c l Hc _ IH]; simpl; [done|]. by rewrite Hc. Qed.

(** A computation whose calls are not selected leaves the selection alone. *)
Lemma emits_picked {S E C A} (sel : C → bool) (m : Go (sys S E C) A) s :
  emits (λ c, sel c = false) m → picked sel (fst (m s)) = picked sel s.
Proof.
  intros Hm. destruct (Hm s) as (l & Hl & Pl). unfold picked.
  by rewrite Hl, List.filter_app, (filter_none sel l), app_nil_r.
Qed.

Lemma wp_quiet {S E C A} (sel : C → bool) (m : Go (sys S E C) A) Q s :
  emits (λ c, sel c = false) m →
  (∀ o s', m s = (s', o) → picked sel s' = picked sel s → Q o s') → wp m Q s.
Proof.
  intros Hm HQ. pose proof (emits_picked sel m s Hm) as Hp. unfold wp.
  destruct (m s) as [s' o] eqn:E0. by apply HQ.
Qed.

Lemma picked_snoc {S E C} (sel : C → bool) (m : S) (e : E) l c :
  picked sel (Sys m e (l ++ [c])) = List.filter sel l ++ (if sel c then [c] else []).
Proof. unfold picked. simpl. by rewrite List.filter_app. Qed.

(** Splits the branches of a computation and closes the leaves with the
    lemmas of the database. *)
Ltac emits_step :=
  match goal with
  | |- emits _ (match ?x with _ => _ end) => destruct x
  | |- emits _ (mret _) => apply emits_ret
  | |- emits _ (fail _) => apply emits_fail
  | |- emits _ (panic _) => apply emits_panic
  | |- emits _ (lift_reply _) => apply emits_lift_reply
  | |- emits _ get_mem => apply emits_get_mem
  | |- emits _ (set_mem _) => apply emits_set_mem
  | |- emits _ (_ ≫= _) => apply emits_bind; [|intros ?]
  | |- emits _ (_ <$> _) => apply emits_fmap
  | |- emits _ (attempt _) => apply emits_attempt
  | |- emits _ (for_each _ _) => apply emits_for_each; intros ? ?
  | |- emits _ (for_fold _ _ _) => apply emits_for_fold; intros ? ? ?
  | |- emits _ _ => solve [eauto 2 with emits]
  end.
Ltac emits_solve := repeat emits_step; eauto with emits.

(** Runs a computation symbolically through [wp]. *)
Ltac wp_step :=
  match goal with
  | |- wp (match ?x with _ => _ end) _ _ => destruct x eqn:?
  | |- wp (mret _) _ _ => apply wp_ret
  | |- wp (fail _) _ _ => apply wp_fail
  | |- wp (panic _) _ _ => apply wp_panic
  | |- wp (lift_reply _) _ _ => apply wp_lift_reply
  | |- wp get_mem _ _ => apply wp_get_mem
  | |- wp (set_mem _) _ _ => apply wp_set_mem
  | |- wp get _ _ => apply wp_get
  | |- wp (modify _) _ _ => apply wp_modify
  | |- wp (_ ≫= _) _ _ => apply wp_bind
  | |- wp (_ <$> _) _ _ => apply wp_fmap
  | |- wp (attempt _) _ _ => apply wp_attempt
  | |- wp (errorf _ _) _ _ => apply wp_errorf
  | |- match of_reply ?r with _ => _ end => destruct r; cbn [of_reply]
  | |- wp (perform ?c) ?Q ?s =>
      let e := fresh "e" in let r := fresh "r" in let a := fresh "Ha" in
      refine (wp_perform c Q s _); intros e r a; destruct r; cbn [of_reply mem env trace] in *
  end.
Ltac wp_run := repeat (wp_step; cbn beta iota).

Lemma wp_elim {S A} (m : Go S A) Q s s' o : wp m Q s → m s = (s', o) → Q o s'.
Proof. unfold wp. intros H E0. by rewrite E0 in H. Qed.
Lemma wp_intro {S A} (m : Go S A) Q s : (∀ s' o, m s = (s', o) → Q o s') → wp m Q s.
Proof. unfold wp. destruct (m s). eauto. Qed.
Lemma emits_intro {S E C A} (P : C → Prop) (m : Go (sys S E C) A) :
  (∀ s, ∃ l, trace (fst (m s)) = trace s ++ l ∧ Forall P l) → emits P m.
Proof. done. Qed.
Lemma emits_elim {S E C A} (P : C → Prop) (m : Go (sys S E C) A) s :
  emits P m → ∃ l, trace (fst (m s)) = trace s ++ l ∧ Forall P l.
Proof. intros H. apply H. Qed.
#[global] Opaque wp emits.

(** Running a bind whose first part is known, and an inspected call. *)
Lemma bind_run {S A B} (m : Go S A) (f : A → Go S B) s s' a : m s = (s', Ret a) → (m ≫= f) s = f a s'.
Proof. intros E0. unfold mbind, go_bind. by rewrite E0. Qed.
Lemma attempt_perform {S E C} `{Machine C E} (c : C) (s : sys S E C) e r :
  answer c (env s) = (e, r) → attempt (perform c) s = (Sys (mem s) e (trace s ++ [c]), Ret r).
Proof. intros E0. unfold attempt, perform. rewrite E0. by destruct r. Qed.

(** One inspected call at the head of a run whose reply is known *)
Ltac go_call H :=
  refine (eq_trans (bind_run _ _ _ _ _ (attempt_perform _ _ _ _ H)) _); cbn beta iota; cbn [mem env trace].

(** Membership in a literal list *)
Ltac in_list := solve [repeat (apply list_elem_of_here || apply list_elem_of_further)].

(** Evaluates the combinators of the monad in a goal about one run. *)
Ltac go_eval :=
  cbv beta iota zeta delta [mbind mret go_bind go_ret attempt fail panic lift_reply get modify
    get_mem set_mem of_reply mem env trace fst snd].
