(* ===== verification/GoStrings.v ===== *)
(** The string and integer functions of the Go standard library that the
    program uses ([strings], [strconv]), as executable functions on
    [String.string], with the round trips the components rely on.  A Go string
    is a sequence of bytes; so is a [string] here. *)
From S2P Require Import Prelude.

(** * Character classes *)
Definition is_digit (c : ascii) : bool :=
  let n := N_of_ascii c in (48 <=? n)%N && (n <=? 57)%N.
Definition is_lower (c : ascii) : bool :=
  let n := N_of_ascii c in (97 <=? n)%N && (n <=? 122)%N.
Definition is_upper (c : ascii) : bool :=
  let n := N_of_ascii c in (65 <=? n)%N && (n <=? 90)%N.

(** The regexp class [\s]: tab, newline, form feed, carriage return, space. *)
Definition is_re_space (c : ascii) : bool :=
  let n := N_of_ascii c in
  (n =? 9)%N || (n =? 10)%N || (n =? 12)%N || (n =? 13)%N || (n =? 32)%N.

(** [unicode.IsSpace] on a byte below 128 ([strings.Fields], [TrimSpace]):
    [\s] and the vertical tab. *)
Definition is_go_space (c : ascii) : bool :=
  is_re_space c || (N_of_ascii c =? 11)%N.

Definition newline : ascii := ascii_of_N 10.
Definition dquote : ascii := ascii_of_N 34.
(** A text between quotes, as [%q] prints one without special characters *)
Definition quoted (s : string) : string := String dquote (s +:+ String dquote "").

(** * Generic string recursion *)
Fixpoint str_all (P : ascii -> bool) (s : string) : bool :=
  match s with
  | EmptyString => true
  | String c s' => P c && str_all P s'
  end.

Definition str_has (c : ascii) (s : string) : bool :=
  negb (str_all (fun d => negb (bool_decide (d = c))) s).

(** The longest prefix whose characters satisfy [P], and the rest. *)
Fixpoint span (P : ascii -> bool) (s : string) : string * string :=
  match s with
  | EmptyString => ("", "")
  | String c s' =>
      if P c then let '(a, b) := span P s' in (String c a, b) else ("", s)
  end.

Definition drop_while (P : ascii -> bool) (s : string) : string := snd (span P s).

(** * [strings] *)
Definition HasPrefix (s p : string) : bool := String.prefix p s.

Fixpoint Contains (s sub : string) : bool :=
  String.prefix sub s ||
  match s with
  | EmptyString => false
  | String _ s' => Contains s' sub
  end.

(** [strings.Split(s, sep)] for a one-byte separator. *)
Fixpoint Split (c : ascii) (s : string) : list string :=
  match s with
  | EmptyString => [""]
  | String d s' =>
      if decide (d = c) then "" :: Split c s'
      else match Split c s' with
           | [] => [String d ""]
           | w :: ws => String d w :: ws
           end
  end.

Fixpoint Join (l : list string) (sep : string) : string :=
  match l with
  | [] => ""
  | [w] => w
  | w :: ws => w +:+ sep +:+ Join ws sep
  end.

(** [strings.Fields] *)
Definition Fields (s : string) : list string :=
  let fix go (s : string) (cur : string) : list string :=
    match s with
    | EmptyString => if decide (cur = "") then [] else [cur]
    | String c s' =>
        if is_go_space c
        then (if decide (cur = "") then go s' "" else cur :: go s' "")
        else go s' (cur +:+ String c "")
    end in
  go s "".

Fixpoint str_rev_app (s acc : string) : string :=
  match s with
  | EmptyString => acc
  | String c s' => str_rev_app s' (String c acc)
  end.
Definition str_rev (s : string) : string := str_rev_app s "".

Definition TrimRightFunc (P : ascii -> bool) (s : string) : string :=
  str_rev (drop_while P (str_rev s)).
Definition TrimFunc (P : ascii -> bool) (s : string) : string :=
  TrimRightFunc P (drop_while P s).
(** [strings.Trim(s, cutset)] for a one-byte cutset. *)
Definition Trim (s : string) (c : ascii) : string :=
  TrimFunc (fun d => bool_decide (d = c)) s.
Definition TrimSpace (s : string) : string := TrimFunc is_go_space s.

Definition HasSuffix (s suf : string) : bool := String.prefix (str_rev suf) (str_rev s).

Definition lower (c : ascii) : ascii :=
  if is_upper c then ascii_of_N (N_of_ascii c + 32) else c.
Definition upper (c : ascii) : ascii :=
  if is_lower c then ascii_of_N (N_of_ascii c - 32) else c.
Fixpoint ToLower (s : string) : string :=
  match s with EmptyString => "" | String c s' => String (lower c) (ToLower s') end.

(** [strings.Replace(s, old, new, -1)] for a non-empty [old]; [skip] bytes
    belong to the last occurrence. *)
Fixpoint Replace_go (old new s : string) (skip : nat) : string :=
  match s with
  | EmptyString => ""
  | String c s' =>
      match skip with
      | S skip => Replace_go old new s' skip
      | O => if String.prefix old s then new +:+ Replace_go old new s' (String.length old - 1)
             else String c (Replace_go old new s' 0)
      end
  end.
Definition Replace (s old new : string) : string := Replace_go old new s 0.

(** * [path] *)
Definition slash : ascii := "/"%char.

(** The elements kept so far, last first *)
Fixpoint clean_go (rooted : bool) (out : list string) (l : list string) : list string :=
  match l with
  | [] => rev out
  | w :: l' =>
      if decide (w = "" ∨ w = ".") then clean_go rooted out l'
      else if decide (w = "..") then
        match out with
        | [] => clean_go rooted (if rooted then [] else [".."]) l'
        | top :: out' => clean_go rooted (if decide (top = "..") then ".." :: out else out') l'
        end
      else clean_go rooted (w :: out) l'
  end.
Definition path_Clean (p : string) : string :=
  match p with
  | EmptyString => "."
  | String c p' =>
      if decide (c = slash) then "/" +:+ Join (clean_go true [] (Split slash p')) "/"
      else match clean_go false [] (Split slash p) with [] => "." | l => Join l "/" end
  end.
(** [path.Join] of two elements *)
Definition path_Join (a b : string) : string :=
  if decide (a = "") then (if decide (b = "") then "" else path_Clean b)
  else path_Clean (a +:+ "/" +:+ b).

(** * [strconv] *)
Definition digit_val (c : ascii) : N := N_of_ascii c - 48.

Fixpoint digits_val (acc : N) (s : string) : option N :=
  match s with
  | EmptyString => Some acc
  | String c s' => if is_digit c then digits_val (acc * 10 + digit_val c) s' else None
  end.

(** [strconv.ParseUint(s, 10, 0)] on a 64-bit platform: [None] stands for the
    syntax and the range error. *)
Definition ParseUint (s : string) : option N :=
  if decide (s = "") then None
  else match digits_val 0 s with
       | Some n => if (n <? 2 ^ 64)%N then Some n else None
       | None => None
       end.

(** [strconv.Itoa], and [%d] of a [uint] *)
Definition Itoa (z : Z) : string := pretty z.
Definition Utoa (n : N) : string := pretty n.

(** * Machine integers *)

(** A Go [int] or [int64]: two's complement, 64 bits. *)
Definition wrap64 (z : Z) : Z := ((z + 2 ^ 63) mod 2 ^ 64 - 2 ^ 63)%Z.
Definition in_int64 (z : Z) : Prop := (- 2 ^ 63 <= z < 2 ^ 63)%Z.

(** * Lemmas *)
Lemma wrap64_id z : in_int64 z → wrap64 z = z.
Proof. unfold wrap64, in_int64. intros H. rewrite Z.mod_small; lia. Qed.

Lemma wrap64_in z : in_int64 (wrap64 z).
Proof.
  unfold wrap64, in_int64.
  pose proof (Z.mod_pos_bound (z + 2 ^ 63) (2 ^ 64) ltac:(lia)). lia.
Qed.

Lemma str_app_nil_r (s : string) : s +:+ "" = s.
Proof. induction s as [|c s IH]; simpl; [done|]. by rewrite IH. Qed.

Lemma str_app_assoc (a b c : string) : (a +:+ b) +:+ c = a +:+ (b +:+ c).
Proof. induction a as [|x a IH]; simpl; [done|]. by rewrite IH. Qed.

Lemma str_length_app (a b : string) :
  String.length (a +:+ b) = String.length a + String.length b.
Proof. induction a as [|c a IH]; simpl; [done|]. by rewrite IH. Qed.

Lemma str_app_eq_nil a b : a +:+ b = "" → a = "" ∧ b = "".
Proof. destruct a; simpl; [done | discriminate]. Qed.

Lemma str_app_inv_head (a b c : string) : a +:+ b = a +:+ c → b = c.
Proof. induction a as [|x a IH]; simpl; [done|]. intros H. apply IH. by injection H. Qed.

Lemma string_prefix_app (p s : string) : String.prefix p (p +:+ s) = true.
Proof.
  induction p as [|c p IH]; simpl; [by destruct s|].
  destruct (ascii_dec c c); [done | congruence].
Qed.

Lemma string_prefix_inv p s : String.prefix p s = true → ∃ r, s = p +:+ r.
Proof.
  revert s. induction p as [|c p IH]; intros s H; [by exists s|].
  destruct s as [|d s]; simpl in H; [discriminate|].
  destruct (ascii_dec c d) as [->|]; [|discriminate].
  destruct (IH s H) as [r ->]. by exists r.
Qed.

Lemma Contains_of_prefix s b : String.prefix b s = true → Contains s b = true.
Proof. intros H. destruct s; unfold Contains; fold Contains; by rewrite H. Qed.

Lemma Contains_cons c s b : Contains s b = true → Contains (String c s) b = true.
Proof. intros H. unfold Contains; fold Contains. rewrite H. apply orb_true_r. Qed.

Lemma Contains_app_l a s b : Contains s b = true → Contains (a +:+ s) b = true.
Proof. intros H. induction a as [|c a IH]; [done|]. by apply Contains_cons. Qed.

Lemma Contains_prefix s b : Contains (b +:+ s) b = true.
Proof. apply Contains_of_prefix, string_prefix_app. Qed.

Lemma Contains_suffix a b : Contains (a +:+ b) b = true.
Proof. apply Contains_app_l. rewrite <- (str_app_nil_r b) at 1. apply Contains_prefix. Qed.

Lemma Contains_inv s b : Contains s b = true → ∃ x y, s = x +:+ b +:+ y.
Proof.
  induction s as [|c s IH]; cbn -[String.prefix]; intros H;
    apply orb_true_iff in H as [H|H]; try discriminate.
  - apply string_prefix_inv in H as [r ->]. by exists "", r.
  - apply string_prefix_inv in H as [r ->]. by exists "", r.
  - destruct (IH H) as (x & y & ->). by exists (String c x), y.
Qed.

Lemma Contains_app_r s a b : Contains s b = true → Contains (s +:+ a) b = true.
Proof.
  intros (x & y & ->)%Contains_inv. rewrite !str_app_assoc.
  apply Contains_app_l, Contains_prefix.
Qed.

Lemma Split_nonempty c s : Split c s ≠ [].
Proof. destruct s as [|d s]; simpl; [done|]. case_decide; [done|]. by destruct (Split c s). Qed.

Lemma Split_no_sep c w : str_has c w = false → Split c w = [w].
Proof.
  unfold str_has. rewrite negb_false_iff.
  induction w as [|d w IH]; simpl; [done|]. intros [Hd Hw]%andb_true_iff.
  case_decide as E; [subst; by rewrite bool_decide_true in Hd|]. by rewrite (IH Hw).
Qed.

Lemma Split_app c w s :
  str_has c w = false → Split c (w +:+ String c s) = w :: Split c s.
Proof.
  unfold str_has. rewrite negb_false_iff.
  induction w as [|d w IH]; simpl.
  - intros _. by rewrite decide_True.
  - intros [Hd Hw]%andb_true_iff.
    case_decide as E; [subst; by rewrite bool_decide_true in Hd|]. by rewrite (IH Hw).
Qed.

(** [Split] inverts [Join] on words that do not hold the separator. *)
Lemma Split_Join c l :
  l ≠ [] → Forall (fun w => str_has c w = false) l →
  Split c (Join l (String c "")) = l.
Proof.
  induction l as [|w l IH]; intros Hne Hl; [done|].
  inversion Hl as [|? ? Hw Hl']; subst.
  destruct l as [|w' l]; simpl; [by apply Split_no_sep|].
  rewrite Split_app by done. f_equal. apply IH; done.
Qed.

Lemma Join_Split c s : Join (Split c s) (String c "") = s.
Proof.
  induction s as [|d s IH]; [done|]. cbn [Split]. pose proof (Split_nonempty c s) as Hne. case_decide as Hd.
  - subst d. destruct (Split c s) as [|w ws] eqn:Hs; [done|]. cbn [Join]. by rewrite <- IH.
  - destruct (Split c s) as [|w ws]; [done|]. rewrite <- IH. by destruct ws.
Qed.

Lemma span_all P a b :
  str_all P a = true → span P b = ("", b) → span P (a +:+ b) = (a, b).
Proof.
  intros Ha Hb. induction a as [|c a IH]; simpl in *; [done|].
  apply andb_true_iff in Ha as [Hc Ha]. by rewrite Hc, (IH Ha).
Qed.

Lemma str_all_app P a b : str_all P (a +:+ b) = str_all P a && str_all P b.
Proof. induction a as [|c a IH]; simpl; [done|]. by rewrite IH, andb_assoc. Qed.
Lemma str_has_app c a b : str_has c (a +:+ b) = str_has c a || str_has c b.
Proof. unfold str_has. by rewrite str_all_app, negb_andb. Qed.

Lemma str_all_weaken (P Q : ascii -> bool) s :
  (∀ c, P c = true → Q c = true) → str_all P s = true → str_all Q s = true.
Proof.
  intros HPQ. induction s as [|c s IH]; simpl; [done|].
  intros [Hc Hs]%andb_true_iff. by rewrite (HPQ _ Hc), (IH Hs).
Qed.

(** ** Decimal numerals *)
Lemma pretty_N_char_digit n :
  (n < 10)%N → is_digit (pretty_N_char n) = true ∧ digit_val (pretty_N_char n) = n.
Proof.
  intros H.
  assert (n = 0 ∨ n = 1 ∨ n = 2 ∨ n = 3 ∨ n = 4 ∨ n = 5 ∨ n = 6 ∨ n = 7 ∨ n = 8 ∨ n = 9)%N
    as Hn by lia.
  destruct_or! Hn; subst; by vm_compute.
Qed.

Lemma digits_val_app a b acc :
  digits_val acc (a +:+ b) = v ← digits_val acc a; digits_val v b.
Proof.
  revert acc. induction a as [|c a IH]; intros acc; simpl; [done|].
  destruct (is_digit c); [apply IH | done].
Qed.

Lemma HasPrefix_char k s :
  HasPrefix s (String k "") = match s with String c _ => bool_decide (k = c) | "" => false end.
Proof.
  unfold HasPrefix. destruct s as [|c s]; simpl; [done|].
  destruct (ascii_dec k c) as [->|Hk].
  - rewrite bool_decide_true by done. by destruct s.
  - by rewrite bool_decide_false.
Qed.

Lemma HasPrefix_char_app k d s : d ≠ "" →
  HasPrefix (d +:+ s) (String k "") = HasPrefix d (String k "").
Proof. rewrite !HasPrefix_char. by destruct d. Qed.

Lemma pretty_go_spec x : ∀ s, ∃ d,
  pretty_N_go x s = d +:+ s ∧ str_all is_digit d = true ∧
  digits_val 0 d = Some x ∧ ((0 < x)%N → HasPrefix d "0" = false ∧ d ≠ "").
Proof.
  induction (N.lt_wf_0 x) as [x _ IH]. intros s.
  destruct (decide (x = 0%N)) as [->|Hx].
  { exists "". rewrite pretty_N_go_0. split_and!; [done..|lia]. }
  rewrite pretty_N_go_step by lia.
  set (k := pretty_N_char (x `mod` 10)).
  destruct (pretty_N_char_digit (x `mod` 10) ltac:(apply N.mod_lt; lia)) as [Hd Hv].
  fold k in Hd, Hv. pose proof (N.div_mod x 10 ltac:(lia)) as Hdm.
  destruct (IH (x `div` 10)%N ltac:(apply N.div_lt; lia) (String k s))
    as (d & Eq & Hall & Hval & Hpre).
  exists (d +:+ String k ""). split_and!.
  - by rewrite Eq, str_app_assoc.
  - rewrite str_all_app, Hall. simpl. by rewrite Hd.
  - rewrite digits_val_app, Hval. simpl. rewrite Hd, Hv. f_equal. lia.
  - intros _. destruct (decide (x `div` 10 = 0)%N) as [Hq|Hq].
    + rewrite Hq, pretty_N_go_0 in Eq. destruct d as [|c d].
      * split; [|done]. rewrite HasPrefix_char.
        apply bool_decide_false. intros E. rewrite <- E in Hv.
        assert (x `mod` 10 = 0)%N by (by rewrite <- Hv). lia.
      * exfalso. pose proof (f_equal String.length Eq) as HL. simpl in HL.
        rewrite str_length_app in HL. simpl in HL. lia.
    + assert (0 < x `div` 10)%N as Hq0 by (destruct (x `div` 10)%N; [done|lia]); destruct (Hpre Hq0) as [Hp Hn]. split.
      * by rewrite HasPrefix_char_app.
      * by destruct d.
Qed.

Lemma Utoa_spec n :
  str_all is_digit (Utoa n) = true ∧ digits_val 0 (Utoa n) = Some n ∧ Utoa n ≠ "" ∧
  (HasPrefix (Utoa n) "0" = true → Utoa n = "0").
Proof.
  unfold Utoa, pretty, pretty_N. case_decide as Hn; [by subst|].
  destruct (pretty_go_spec n "") as (d & Eq & Hall & Hval & Hpre).
  rewrite Eq, str_app_nil_r. assert (0 < n)%N as Hn0 by (destruct n; [done|lia]); destruct (Hpre Hn0) as [Hp Hne].
  rewrite Hp. by split_and!.
Qed.

Lemma ParseUint_Utoa n : (n < 2 ^ 64)%N → ParseUint (Utoa n) = Some n.
Proof.
  intros Hn. destruct (Utoa_spec n) as (_ & Hv & Hne & _).
  unfold ParseUint. rewrite decide_False by done. rewrite Hv.
  by apply N.ltb_lt in Hn as ->.
Qed.

(** ** Clean paths *)

(** An element that [path.Clean] keeps *)
Definition plain_element (w : string) : Prop := w ≠ "" ∧ w ≠ "." ∧ w ≠ ".." ∧ str_has slash w = false.

Lemma clean_go_plain rooted out l : Forall plain_element l → clean_go rooted out l = rev out ++ l.
Proof.
  intros Hl. revert out. induction Hl as [|w l (H1 & H2 & H3 & _) _ IH]; intros out; simpl.
  - by rewrite app_nil_r.
  - rewrite decide_False, decide_False by naive_solver. rewrite IH. simpl. by rewrite <- app_assoc.
Qed.

Lemma path_Clean_plain l : l ≠ [] → Forall plain_element l → path_Clean ("/" +:+ Join l "/") = "/" +:+ Join l "/".
Proof.
  intros Hne Hl. change ("/" +:+ Join l "/") with (String slash (Join l "/")). unfold path_Clean.
  rewrite decide_True by done. change "/" with (String slash "") at 3.
  rewrite Split_Join; [|done|]; [by rewrite clean_go_plain|].
  eapply Forall_impl; [exact Hl|]. by intros w (_ & _ & _ & ?).
Qed.

Lemma path_Join_root q : path_Join "/" (String slash q) = path_Clean (String slash q).
Proof. reflexivity. Qed.

Lemma str_rev_app_spec s acc : str_rev_app s acc = str_rev s +:+ acc.
Proof.
  unfold str_rev. revert acc. induction s as [|c s IH]; intros acc; simpl; [done|].
  by rewrite IH, (IH (String c "")), str_app_assoc.
Qed.
Lemma str_rev_app_distr a b : str_rev (a +:+ b) = str_rev b +:+ str_rev a.
Proof.
  induction a as [|c a IH]; simpl; [by rewrite str_app_nil_r|].
  unfold str_rev; simpl. rewrite (str_rev_app_spec (a +:+ b)), (str_rev_app_spec a), IH. by rewrite str_app_assoc.
Qed.
Lemma str_all_rev P s : str_all P (str_rev s) = str_all P s.
Proof.
  induction s as [|c s IH]; [done|]. change (String c s) with (String c "" +:+ s).
  rewrite str_rev_app_distr, !str_all_app, IH. simpl. apply andb_comm.
Qed.

(** What does not hold a character does not end in it. *)
Lemma HasSuffix_char a w c : w ≠ "" → str_has c w = false → HasSuffix (a +:+ w) (String c "") = false.
Proof.
  intros Hne Hw. unfold str_has in Hw. apply negb_false_iff in Hw. rewrite <- str_all_rev in Hw.
  unfold HasSuffix. rewrite str_rev_app_distr. change (str_rev (String c "")) with (String c "").
  assert (str_rev w ≠ "") as Hr.
  { destruct w as [|d w]; [done|]. change (String d w) with (String d "" +:+ w). rewrite str_rev_app_distr.
    intros [_ [=]]%str_app_eq_nil. }
  destruct (str_rev w) as [|d r]; [done|]. simpl in *. apply andb_true_iff in Hw as [Hd _].
  destruct (ascii_dec c d) as [->|]; [|done]. by rewrite bool_decide_true in Hd.
Qed.
