(* ===== verification/Fmt.v ===== *)
(** [fmt.Sprintf] of the Go standard library with string arguments, as the
    program uses it: also with texts from outside as formats, where any
    directive may occur but there is no argument for it.  The code points of
    [unicode/utf8] come first. *)
From S2P Require Import Prelude GoStrings.
Local Open Scope N_scope.

(** * [unicode/utf8] *)
Definition byte_in (lo hi : N) (c : ascii) : bool := (lo <=? N_of_ascii c) && (N_of_ascii c <=? hi).
Definition continuation (c : ascii) : bool := byte_in 128 191 c.
(** The bytes a rune goes on with after its first byte, the second within
    narrower bounds: [first] and [acceptRanges] of the package *)
Definition rune_shape (c : ascii) : option (N * N * nat) :=
  if byte_in 194 223 c then Some (128, 191, 0%nat)
  else if byte_in 224 224 c then Some (160, 191, 1%nat)
  else if byte_in 237 237 c then Some (128, 159, 1%nat)
  else if byte_in 225 239 c then Some (128, 191, 1%nat)
  else if byte_in 240 240 c then Some (144, 191, 2%nat)
  else if byte_in 241 243 c then Some (128, 191, 2%nat)
  else if byte_in 244 244 c then Some (128, 143, 2%nat)
  else None.
Fixpoint continuations (n : nat) (s : string) : option (string * string) :=
  match n, s with
  | O, _ => Some ("", s)
  | S n', String c s' => if continuation c then (λ x, (String c (fst x), snd x)) <$> continuations n' s' else None
  | _, _ => None
  end.
(** What is written for a byte that begins no rune: U+FFFD *)
Definition RuneError : string := String (ascii_of_N 239) (String (ascii_of_N 191) (String (ascii_of_N 189) "")).
(** The first rune of a text, as it is written again, and the rest *)
Definition first_rune (s : string) : option (string * string) :=
  match s with
  | EmptyString => None
  | String c s' =>
      Some (if byte_in 0 127 c then (String c "", s')
            else match rune_shape c, s' with
                 | Some (lo, hi, n), String d s'' =>
                     if byte_in lo hi d
                     then match continuations n s'' with
                          | Some (more, rest) => (String c (String d more), rest)
                          | None => (RuneError, s')
                          end
                     else (RuneError, s')
                 | _, _ => (RuneError, s')
                 end)
  end.

(** * Directives *)
Definition percent : ascii := "%"%char.
Definition is_flag (c : ascii) : bool := bool_decide (c ∈ ["#"; "0"; "+"; "-"; " "]%char).

(** [parsenum]: a number that gets too large uses up the text. *)
Fixpoint parsenum_go (num : N) (isnum : bool) (s : string) : option N * string :=
  match s with
  | String c s' =>
      if is_digit c then if 1000000 <? num then (None, "") else parsenum_go (num * 10 + digit_val c) true s'
      else ((if isnum then Some num else None), s)
  | EmptyString => ((if isnum then Some num else None), "")
  end.
Definition parsenum (s : string) : option N * string := parsenum_go 0 false s.

(** What goes on through a directive: the rest of the format, the number of
    the next argument, whether an index came last, whether it was good, whether
    there was any, and what was written about bad widths. *)
Record directive := {
  d_rest : string; d_arg : nat; d_after : bool; d_good : bool; d_reordered : bool; d_out : string }.
Definition with_rest (s : string) (d : directive) : directive :=
  {| d_rest := s; d_arg := d_arg d; d_after := d_after d; d_good := d_good d; d_reordered := d_reordered d; d_out := d_out d |}.
Definition spoiled (d : directive) : directive :=
  {| d_rest := d_rest d; d_arg := d_arg d; d_after := d_after d; d_good := false; d_reordered := d_reordered d; d_out := d_out d |}.

(** [argNumber]: an index in brackets *)
Definition argNumber (args : nat) (d : directive) : directive :=
  match d_rest d with
  | String "["%char s =>
      let bad rest ok := {| d_rest := rest; d_arg := d_arg d; d_after := ok; d_good := false; d_reordered := true; d_out := d_out d |} in
      if (String.length s <? 2)%nat then bad s false
      else
        let '(inner, rest) := span (λ c, negb (bool_decide (c = "]"%char))) s in
        match rest with
        | EmptyString => bad s false
        | String _ rest =>
            match parsenum inner with
            | (Some n, EmptyString) =>
                if (1 <=? n) && (n <=? N.of_nat args)
                then {| d_rest := rest; d_arg := N.to_nat n - 1; d_after := true; d_good := d_good d; d_reordered := true; d_out := d_out d |}
                else bad rest true
            | _ => bad rest false
            end
        end
  | _ => {| d_rest := d_rest d; d_arg := d_arg d; d_after := false; d_good := d_good d; d_reordered := d_reordered d; d_out := d_out d |}
  end.
(** A width or precision of an argument: no string is a number. *)
Definition from_argument (args : nat) (complaint s : string) (d : directive) : directive :=
  {| d_rest := s; d_arg := if decide (d_arg d < args)%nat then S (d_arg d) else d_arg d; d_after := false; d_good := d_good d;
     d_reordered := d_reordered d; d_out := d_out d +:+ complaint |}.
Definition width (args : nat) (d : directive) : directive :=
  match d_rest d with
  | String "*"%char s => from_argument args "%!(BADWIDTH)" s d
  | s => let '(n, rest) := parsenum s in
         with_rest rest (if d_after d && bool_decide (is_Some n) then spoiled d else d)
  end.
Definition precision (args : nat) (d : directive) : directive :=
  match d_rest d with
  | String "."%char s =>
      let d := argNumber args (with_rest s (if d_after d then spoiled d else d)) in
      match d_rest d with
      | String "*"%char s => from_argument args "%!(BADPREC)" s d
      | s => with_rest (snd (parsenum s)) d
      end
  | _ => d
  end.

(** ** [doPrintf] *)

(** A string as [%s] and [%v] print it; a verb that does not fit names it.  The
    other verbs for strings do not occur. *)
Definition printArg (verb arg : string) : string :=
  if decide (verb = "s" ∨ verb = "v") then arg else "%!" +:+ verb +:+ "(string=" +:+ arg +:+ ")".

(** The part of a directive before its verb, with an index, a width and a
    precision *)
Definition before_verb (args n : nat) (reordered : bool) (s : string) : directive :=
  let d := argNumber args {| d_rest := s; d_arg := n; d_after := false; d_good := true; d_reordered := reordered; d_out := "" |} in
  let d := precision args (width args d) in
  if d_after d then d else argNumber args d.
Definition extra (a : list string) (n : nat) (reordered : bool) : string :=
  if reordered then ""
  else if decide (n < length a)%nat then "%!(EXTRA " +:+ Join ((λ x, "string=" +:+ x) <$> drop n a) ", " +:+ ")" else "".
(** A lower case verb for which there is an argument, right after the flags *)
Definition simple (a : list string) (n : nat) (s : string) : option (string * string) :=
  match s with
  | String c s' => if is_lower c then (λ x, (printArg (String c "") x, s')) <$> a !! n else None
  | EmptyString => None
  end.

Fixpoint doPrintf (fuel : nat) (a : list string) (n : nat) (reordered : bool) (format : string) : string :=
  match fuel with
  | O => ""
  | S fuel =>
      let '(text, rest) := span (λ c, negb (bool_decide (c = percent))) format in
      text +:+
      match rest with
      | EmptyString => extra a n reordered
      | String _ rest =>
          let s := drop_while is_flag rest in
          match simple a n s with
          | Some (out, s) => out +:+ doPrintf fuel a (S n) reordered s
          | None =>
              let d := before_verb (length a) n reordered s in
              d_out d +:+
              match first_rune (d_rest d) with
              | None => "%!(NOVERB)" +:+ extra a (d_arg d) (d_reordered d)
              | Some (verb, rest) =>
                  if decide (verb = "%") then "%" +:+ doPrintf fuel a (d_arg d) (d_reordered d) rest
                  else if negb (d_good d) then "%!" +:+ verb +:+ "(BADINDEX)" +:+ doPrintf fuel a (d_arg d) (d_reordered d) rest
                  else match a !! d_arg d with
                       | None => "%!" +:+ verb +:+ "(MISSING)" +:+ doPrintf fuel a (d_arg d) (d_reordered d) rest
                       | Some x => printArg verb x +:+ doPrintf fuel a (S (d_arg d)) (d_reordered d) rest
                       end
              end
          end
      end
  end.
(** Every directive uses up its per cent sign. *)
Definition Sprintf (format : string) (a : list string) : string := doPrintf (S (String.length format)) a 0 false format.
Arguments Sprintf : simpl never.

(** * Plain texts *)
Definition no_percent (s : string) : Prop := str_has percent s = false.
Lemma span_whole P s : str_all P s = true → span P s = (s, "").
Proof. induction s as [|c s IH]; [done|]. cbn. intros [-> Hs]%andb_prop. by rewrite IH. Qed.
Lemma span_stop P p c s : str_all P p = true → P c = false → span P (p +:+ String c s) = (p, String c s).
Proof. intros Hp Hc. induction p as [|d p IH]; cbn; [by rewrite Hc|]. cbn in Hp. apply andb_prop in Hp as [-> Hp]. by rewrite IH. Qed.
Lemma no_percent_all s : no_percent s → str_all (λ c, negb (bool_decide (c = percent))) s = true.
Proof. unfold no_percent, str_has. by destruct (str_all _ s). Qed.

Lemma doPrintf_end fuel a n re s : no_percent s → doPrintf (S fuel) a n re s = s +:+ extra a n re.
Proof. intros Hs%no_percent_all. cbn [doPrintf]. by rewrite span_whole. Qed.
Lemma doPrintf_simple fuel a n re p s out s' : no_percent p → simple a n (drop_while is_flag s) = Some (out, s') →
  doPrintf (S fuel) a n re (p +:+ String percent s) = p +:+ out +:+ doPrintf fuel a (S n) re s'.
Proof. intros Hp%no_percent_all Hs. cbn [doPrintf]. rewrite span_stop by done. by rewrite Hs. Qed.

(** A format without directives is its text. *)
Lemma Sprintf_plain s : no_percent s → Sprintf s [] = s.
Proof. intros Hs. unfold Sprintf. rewrite doPrintf_end by done. apply str_app_nil_r. Qed.
(** One string between two plain texts *)
Lemma Sprintf_s p q x : no_percent p → no_percent q → Sprintf (p +:+ "%s" +:+ q) [x] = p +:+ x +:+ q.
Proof.
  intros Hp Hq. unfold Sprintf. rewrite str_length_app. cbn [String.append String.length]. rewrite Nat.add_succ_r.
  change (String "%" (String "s" q)) with (String percent (String "s" q)).
  rewrite (doPrintf_simple _ [x] 0 false p (String "s" q) x q) by done. rewrite doPrintf_end by done. by rewrite str_app_nil_r.
Qed.
(** Anything else is not: a sign takes what follows for its verb. *)
Example Sprintf_demo :
  Sprintf "a%20b" [] = "a%!b(MISSING)" ∧ Sprintf "100%" [] = "100%!(NOVERB)" ∧ Sprintf "%[1]s %.3d%%" [] = "%!s(BADINDEX) %!d(MISSING)%".
Proof. vm_compute. done. Qed.
