(* ===== verification/Json.v ===== *)
(** [encoding/json] of the Go standard library: JSON texts as the encoder
    writes them and as the scanner and the decoder read them.  What the
    decoders of the program's types make of a value that was read is in
    Encoding.v. *)
From S2P Require Import Prelude GoStrings Fmt.
Local Open Scope N_scope.

(** A number is an integer, or the literal of one with a fraction or an
    exponent.  Strings are the bytes they stand for. *)
Inductive json :=
| JNull
| JBool (b : bool)
| JInt (z : Z)
| JNumber (literal : string)
| JString (s : string)
| JArray (l : list json)
| JObject (fields : list (string * json)).

Definition backslash : ascii := ascii_of_N 92.
Definition hex_digit (n : N) : ascii := ascii_of_N (if n <? 10 then 48 + n else 87 + n).
Definition hex_value (c : ascii) : option N :=
  let n := N_of_ascii c in
  if byte_in 48 57 c then Some (n - 48)
  else if byte_in 97 102 c then Some (n - 87)
  else if byte_in 65 70 c then Some (n - 55)
  else None.

(** * Writing *)

(** [htmlSafeSet] *)
Definition html_safe (c : ascii) : bool :=
  byte_in 32 127 c && negb (bool_decide (c ∈ [dquote; backslash; "&"; "<"; ">"]%char)).
(** U+2028 and U+2029: their last byte *)
Definition line_separator (r : string) : option ascii :=
  match r with
  | String a (String b (String c "")) =>
      if (N_of_ascii a =? 226) && (N_of_ascii b =? 128) && byte_in 168 169 c then Some (hex_digit (N_of_ascii c - 160)) else None
  | _ => None
  end.
Definition escaped (c : ascii) : string := String backslash (String c "").
(** One rune, or a byte that begins none *)
Definition quote_rune (valid : bool) (r : string) : string :=
  match r with
  | String c "" =>
      if html_safe c then r
      else if decide (c = dquote ∨ c = backslash) then escaped c
      else if N_of_ascii c =? 10 then escaped "n"
      else if N_of_ascii c =? 13 then escaped "r"
      else if N_of_ascii c =? 9 then escaped "t"
      else escaped "u" +:+ "00" +:+ String (hex_digit (N_of_ascii c / 16)) (String (hex_digit (N_of_ascii c mod 16)) "")
  | _ =>
      if negb valid then escaped "u" +:+ "fffd"
      else match line_separator r with Some d => escaped "u" +:+ "202" +:+ String d "" | None => r end
  end.
Fixpoint quote_go (fuel : nat) (s : string) : string :=
  match fuel with
  | O => ""
  | S fuel =>
      match first_rune s with
      | None => ""
      | Some (r, rest) => quote_rune (HasPrefix s r) r +:+ quote_go fuel rest
      end
  end.
(** [encodeState.string], with the escapes for HTML *)
Definition quote (s : string) : string := String dquote (quote_go (String.length s) s +:+ String dquote "").

Fixpoint commas (l : list string) : string :=
  match l with [] => "" | [x] => x | x :: l => x +:+ String "," (commas l) end.
(** A text without white space *)
Fixpoint print (j : json) : string :=
  match j with
  | JNull => "null"
  | JBool true => "true"
  | JBool false => "false"
  | JInt z => Itoa z
  | JNumber literal => literal
  | JString s => quote s
  | JArray l => String "[" (commas (print <$> l) +:+ "]")
  | JObject fields => String "{" (commas ((λ '(k, v), quote k +:+ String ":" (print v)) <$> fields) +:+ "}")
  end.

(** * Reading *)

(** A value and the rest of the text; a text that is wrong, or that ends too
    early.  [Stuck] is the end of the fuel. *)
Inductive parsed (A : Type) := Parsed (a : A) (rest : string) | Wrong | Ended | Stuck.
Arguments Parsed {_} _ _.
Arguments Wrong {_}.
Arguments Ended {_}.
Arguments Stuck {_}.
Definition parsed_bind {A B} (f : A -> string -> parsed B) (p : parsed A) : parsed B :=
  match p with Parsed a rest => f a rest | Wrong => Wrong | Ended => Ended | Stuck => Stuck end.
Definition parsed_map {A B} (f : A -> B) (p : parsed A) : parsed B := parsed_bind (λ a rest, Parsed (f a) rest) p.

(** [isSpace] *)
Definition is_space (c : ascii) : bool := let n := N_of_ascii c in (n =? 32) || (n =? 9) || (n =? 13) || (n =? 10).
Definition skip_space (s : string) : string := drop_while is_space s.

(** ** Strings *)

(** [utf8.EncodeRune] of a code point that is one *)
Definition encode_rune (n : N) : string :=
  let tail k := ascii_of_N (128 + k mod 64) in
  if n <? 128 then String (ascii_of_N n) ""
  else if n <? 2048 then String (ascii_of_N (192 + n / 64)) (String (tail n) "")
  else if n <? 65536 then String (ascii_of_N (224 + n / 4096)) (String (tail (n / 64)) (String (tail n) ""))
  else String (ascii_of_N (240 + n / 262144)) (String (tail (n / 4096)) (String (tail (n / 64)) (String (tail n) ""))).

(** Four digits after an escape's [u] *)
Definition hex4 (s : string) : parsed N :=
  let digit s := match s with
                 | EmptyString => Ended
                 | String c s => match hex_value c with Some n => Parsed n s | None => Wrong end
                 end in
  parsed_bind (λ a s, parsed_bind (λ b s, parsed_bind (λ c s, parsed_bind (λ d s,
    Parsed (((a * 16 + b) * 16 + c) * 16 + d) s) (digit s)) (digit s)) (digit s)) (digit s).
Definition is_surrogate (n : N) : bool := (55296 <=? n) && (n <? 57344).
(** [utf16.DecodeRune]: a pair of surrogates *)
Definition decode_pair (a b : N) : option N :=
  if (55296 <=? a) && (a <? 56320) && (56320 <=? b) && (b <? 57344)
  then Some ((a - 55296) * 1024 + (b - 56320) + 65536) else None.
(** The rune of an escape [u]; a surrogate without its partner is U+FFFD. *)
Definition unicode_escape (s : string) : parsed string :=
  parsed_bind (λ a s,
    if is_surrogate a
    then match s with
         | String b (String u s') =>
             match (if (bool_decide (b = backslash)) && (bool_decide (u = "u"%char)) then hex4 s' else Wrong) with
             | Parsed n s'' => match decode_pair a n with Some r => Parsed (encode_rune r) s'' | None => Parsed RuneError s end
             | _ => Parsed RuneError s
             end
         | _ => Parsed RuneError s
         end
    else Parsed (encode_rune a) s) (hex4 s).
(** After a backslash *)
Definition escape (s : string) : parsed string :=
  match s with
  | EmptyString => Ended
  | String c s' =>
      if decide (c = dquote ∨ c = backslash ∨ c = "/"%char) then Parsed (String c "") s'
      else if decide (c = "b"%char) then Parsed (String (ascii_of_N 8) "") s'
      else if decide (c = "f"%char) then Parsed (String (ascii_of_N 12) "") s'
      else if decide (c = "n"%char) then Parsed (String (ascii_of_N 10) "") s'
      else if decide (c = "r"%char) then Parsed (String (ascii_of_N 13) "") s'
      else if decide (c = "t"%char) then Parsed (String (ascii_of_N 9) "") s'
      else if decide (c = "u"%char) then unicode_escape s'
      else Wrong
  end.
(** What follows an opening quote, up to the closing one.  A control
    character is wrong; a byte that begins no rune is U+FFFD. *)
Fixpoint unquote (fuel : nat) (s : string) : parsed string :=
  match fuel with
  | O => Stuck
  | S fuel =>
      match s with
      | EmptyString => Ended
      | String c s' =>
          if decide (c = dquote) then Parsed "" s'
          else if decide (c = backslash)
          then parsed_bind (λ r rest, parsed_map (String.append r) (unquote fuel rest)) (escape s')
          else if N_of_ascii c <? 32 then Wrong
          else match first_rune s with
               | Some (r, rest) => parsed_map (String.append r) (unquote fuel rest)
               | None => Ended
               end
      end
  end.

(** ** Numbers *)
Definition digits1 (s : string) : parsed string :=
  match span is_digit s with
  | (EmptyString, EmptyString) => Ended
  | (EmptyString, _) => Wrong
  | (d, rest) => Parsed d rest
  end.
Definition integer_part (s : string) : parsed string :=
  match s with
  | String "0" rest => Parsed "0" rest
  | _ => digits1 s
  end.
Definition fraction (s : string) : parsed string :=
  match s with
  | String "." rest => parsed_map (String ".") (digits1 rest)
  | _ => Parsed "" s
  end.
Definition exponent (s : string) : parsed string :=
  match s with
  | String c rest =>
      if decide (c = "e" ∨ c = "E")%char
      then match rest with
           | String sign rest' =>
               if decide (sign = "+" ∨ sign = "-")%char
               then parsed_map (λ d, String c (String sign d)) (digits1 rest')
               else parsed_map (String c) (digits1 rest)
           | EmptyString => Ended
           end
      else Parsed "" s
  | EmptyString => Parsed "" s
  end.
Definition number_of (minus : bool) (int frac exp : string) : json :=
  if decide (frac +:+ exp = "")
  then JInt (let n := Z.of_N (default 0 (digits_val 0 int)) in (if minus then - n else n)%Z)
  else JNumber ((if minus then "-" else "") +:+ int +:+ frac +:+ exp).
Definition number (s : string) : parsed json :=
  let '(minus, s) := match s with String "-" s' => (true, s') | _ => (false, s) end in
  parsed_bind (λ int s, parsed_bind (λ frac s, parsed_map (λ exp, number_of minus int frac exp) (exponent s)) (fraction s)) (integer_part s).

(** ** Values *)

(** The text after a character it begins with *)
Definition peek (c : ascii) (s : string) : option string :=
  match s with String d rest => if decide (d = c) then Some rest else None | EmptyString => None end.

(** The rest of a literal *)
Fixpoint literal {A} (v : A) (l s : string) : parsed A :=
  match l, s with
  | EmptyString, _ => Parsed v s
  | _, EmptyString => Ended
  | String c l', String d s' => if decide (c = d) then literal v l' s' else Wrong
  end.

Fixpoint value (fuel : nat) (s : string) : parsed json :=
  match fuel with
  | O => Stuck
  | S fuel =>
      match skip_space s with
      | EmptyString => Ended
      | String c rest =>
          if decide (c = dquote) then parsed_map JString (unquote fuel rest)
          else if decide (c = "["%char) then
            match peek "]" (skip_space rest) with
            | Some rest => Parsed (JArray []) rest
            | None => parsed_map JArray (elements fuel rest)
            end
          else if decide (c = "{"%char) then
            match peek "}" (skip_space rest) with
            | Some rest => Parsed (JObject []) rest
            | None => parsed_map JObject (members fuel rest)
            end
          else if decide (c = "t"%char) then literal (JBool true) "rue" rest
          else if decide (c = "f"%char) then literal (JBool false) "alse" rest
          else if decide (c = "n"%char) then literal JNull "ull" rest
          else if is_digit c || bool_decide (c = "-"%char) then number (String c rest)
          else Wrong
      end
  end
(** The elements of an array that has some, with the closing bracket *)
with elements (fuel : nat) (s : string) : parsed (list json) :=
  match fuel with
  | O => Stuck
  | S fuel =>
      parsed_bind (λ v rest,
        match skip_space rest with
        | EmptyString => Ended
        | String c rest =>
            if decide (c = ","%char) then parsed_map (cons v) (elements fuel rest)
            else if decide (c = "]"%char) then Parsed [v] rest
            else Wrong
        end) (value fuel s)
  end
(** The members of an object *)
with members (fuel : nat) (s : string) : parsed (list (string * json)) :=
  match fuel with
  | O => Stuck
  | S fuel =>
      match skip_space s with
      | EmptyString => Ended
      | String q rest =>
          if decide (q = dquote) then
            parsed_bind (λ k rest,
              match skip_space rest with
              | EmptyString => Ended
              | String colon rest =>
                  if decide (colon = ":"%char) then
                    parsed_bind (λ v rest,
                      match skip_space rest with
                      | EmptyString => Ended
                      | String c rest =>
                          if decide (c = ","%char) then parsed_map (cons (k, v)) (members fuel rest)
                          else if decide (c = "}"%char) then Parsed [(k, v)] rest
                          else Wrong
                      end) (value fuel rest)
                  else Wrong
              end) (unquote fuel rest)
          else Wrong
      end
  end.
(** Every call has used up a byte since the last but one. *)
Definition parse (s : string) : parsed json := value (2 * String.length s + 2) s.


(** * Every text is read to an end *)
Definition advances {A} (n : nat) (p : parsed A) : Prop :=
  match p with Parsed _ rest => (String.length rest < n)%nat | Stuck => False | _ => True end.

Lemma advances_le {A} n m (p : parsed A) : advances n p → (n ≤ m)%nat → advances m p.
Proof. destruct p; cbn; intros; try done; lia. Qed.
Lemma advances_bind {A B} n m (f : A → string → parsed B) p :
  advances n p → (∀ a rest, (String.length rest < n)%nat → advances m (f a rest)) → advances m (parsed_bind f p).
Proof. destruct p; cbn; auto. Qed.
Lemma advances_map {A B} n (f : A → B) p : advances n p → advances n (parsed_map f p).
Proof. intros H. by eapply advances_bind. Qed.
#[export] Hint Resolve advances_map : core.
(** A match on a character, bit by bit *)
Ltac by_bits := repeat (match goal with |- advances _ (match ?x with _ => _ end) => destruct x end; try (cbn; lia); try done).

Lemma span_length P s : (String.length (fst (span P s)) + String.length (snd (span P s)) = String.length s)%nat.
Proof. induction s as [|c s IH]; [done|]. cbn. destruct (P c); [|done]. destruct (span P s). cbn in *. lia. Qed.
Lemma skip_space_length s : (String.length (skip_space s) ≤ String.length s)%nat.
Proof. unfold skip_space, drop_while. pose proof (span_length is_space s). lia. Qed.

Lemma continuations_app n : ∀ s more rest, continuations n s = Some (more, rest) →
  s = more +:+ rest ∧ ∀ t, continuations n (more +:+ t) = Some (more, t).
Proof.
  induction n as [|n IH]; intros s more rest; cbn; [by intros [= <- <-]|].
  destruct s as [|c s]; [done|]. destruct (continuation c) eqn:Hc; [|done].
  destruct (continuations n s) as [[m r]|] eqn:Hs; [|done]. intros [= <- <-].
  destruct (IH _ _ _ Hs) as [-> Ht]. split; [done|]. intros t. cbn. by rewrite Hc, Ht.
Qed.

(** The first rune is an ASCII character, several bytes that make a rune
    whatever follows, or the replacement of one byte. *)
Inductive rune_case : string -> string -> string -> Prop :=
| RuneAscii c rest : byte_in 0 127 c = true -> rune_case (String c rest) (String c "") rest
| RuneLong c d more rest : byte_in 0 127 c = false -> (∀ t, first_rune (String c (String d more) +:+ t) = Some (String c (String d more), t)) ->
    rune_case (String c (String d more) +:+ rest) (String c (String d more)) rest
| RuneBroken c rest : HasPrefix (String c rest) RuneError = false -> rune_case (String c rest) RuneError rest.

Lemma broken_case c rest : byte_in 0 127 c = false → first_rune (String c rest) = Some (RuneError, rest) →
  rune_case (String c rest) RuneError rest.
Proof.
  intros Hc Hf. destruct (HasPrefix (String c rest) RuneError) eqn:Hp; [|by constructor].
  apply string_prefix_inv in Hp as [x Hx]. rewrite Hx in Hf. cbn in Hf. injection Hf as Hf.
  pose proof (f_equal String.length Hx) as HL. rewrite <- Hf in HL. cbn in HL. lia.
Qed.
Lemma first_rune_case s r rest : first_rune s = Some (r, rest) → rune_case s r rest.
Proof.
  destruct s as [|c s]; [done|]. intros H. pose proof H as Hf. cbn in H.
  destruct (byte_in 0 127 c) eqn:Hc; [injection H as <- <-; by constructor|].
  destruct (rune_shape c) as [[[lo hi] n]|] eqn:Hs; [|injection H as <- <-; by apply broken_case].
  destruct s as [|d s]; [injection H as <- <-; by apply broken_case|].
  destruct (byte_in lo hi d) eqn:Hd; [|injection H as <- <-; by apply broken_case].
  destruct (continuations n s) as [[more x]|] eqn:Hn; [|injection H as <- <-; by apply broken_case].
  injection H as <- <-. destruct (continuations_app _ _ _ _ Hn) as [-> Ht].
  apply (RuneLong c d more x Hc). intros t. cbn. by rewrite Hc, Hs, Hd, Ht.
Qed.
Lemma first_rune_length s r rest : first_rune s = Some (r, rest) → (String.length rest < String.length s)%nat.
Proof. intros [c x _|c d m x _ _|c x _]%first_rune_case; cbn; rewrite ?str_length_app; lia. Qed.
Lemma first_rune_None s : first_rune s = None → s = "".
Proof. by destruct s. Qed.

Lemma hex4_advances s : advances (S (String.length s)) (hex4 s).
Proof.
  unfold hex4. do 4 (destruct s as [|? s]; [exact I|]; cbn [parsed_bind]; destruct (hex_value _); [cbn [parsed_bind]|exact I]).
  cbn. lia.
Qed.
Lemma unicode_escape_advances s : advances (S (String.length s)) (unicode_escape s).
Proof.
  unfold unicode_escape. eapply advances_bind; [apply hex4_advances|]. intros a x Hx.
  destruct (is_surrogate a); [|cbn; lia]. destruct x as [|b [|u x]]; try (cbn in *; lia).
  destruct (bool_decide (b = backslash) && bool_decide (u = "u"%char)); [|cbn in *; lia].
  pose proof (hex4_advances x) as H4. destruct (hex4 x); cbn in *; try lia. destruct (decode_pair a a0); cbn; lia.
Qed.
Lemma escape_advances s : advances (S (String.length s)) (escape s).
Proof.
  unfold escape. destruct s as [|c s]; [exact I|]. repeat case_decide; try exact I; try (cbn; lia).
  eapply advances_le; [apply unicode_escape_advances|cbn; lia].
Qed.
Lemma unquote_advances fuel : ∀ s, (String.length s < fuel)%nat → advances (String.length s) (unquote fuel s).
Proof.
  induction fuel as [|fuel IH]; intros s Hs; [lia|]. cbn [unquote]. destruct s as [|c s]; [exact I|].
  cbn [String.length] in *. destruct (decide (c = dquote)); [cbn; lia|]. destruct (decide (c = backslash)).
  - eapply advances_bind; [apply escape_advances|]. intros r rest Hr. apply advances_map.
    eapply advances_le; [apply IH|]; lia.
  - destruct (N_of_ascii c <? 32); [exact I|]. destruct (first_rune (String c s)) as [[r rest]|] eqn:Hf; [|exact I].
    apply first_rune_length in Hf. cbn in Hf. apply advances_map. eapply advances_le; [apply IH|]; lia.
Qed.

Lemma digits1_advances s : advances (String.length s) (digits1 s).
Proof.
  unfold digits1. pose proof (span_length is_digit s). destruct (span is_digit s) as [[|c d] rest]; cbn in *; [by destruct rest|lia].
Qed.
Lemma integer_part_advances s : advances (String.length s) (integer_part s).
Proof.
  pose proof (digits1_advances s) as H. unfold integer_part. destruct s as [|c s]; [done|].
  by_bits.
Qed.
Lemma fraction_advances s : advances (S (String.length s)) (fraction s).
Proof.
  unfold fraction. destruct s as [|c s]; [cbn; lia|].
  by_bits. apply advances_map. eapply advances_le; [apply digits1_advances|cbn; lia].
Qed.
Lemma exponent_advances s : advances (S (String.length s)) (exponent s).
Proof.
  unfold exponent. destruct s as [|c s]; [cbn; lia|]. case_decide; [|cbn; lia]. destruct s as [|d s]; [exact I|].
  case_decide; apply advances_map; (eapply advances_le; [apply digits1_advances|cbn; lia]).
Qed.
Lemma number_advances s : advances (String.length s) (number s).
Proof.
  unfold number. set (x := match s with String "-" s' => (true, s') | _ => (false, s) end).
  assert (String.length (snd x) ≤ String.length s)%nat as Hx.
  { subst x. destruct s as [|c s]; [done|]. repeat (match goal with |- context [match ?y with _ => _ end] => destruct y end; cbn; try lia). }
  destruct x as [minus r]. cbn in Hx. eapply advances_bind; [apply integer_part_advances|]. intros int r1 H1.
  eapply advances_bind; [apply fraction_advances|]. intros frac r2 H2. apply advances_map.
  eapply advances_le; [apply exponent_advances|lia].
Qed.
Lemma literal_advances {A} (v : A) l : ∀ s, advances (S (String.length s)) (literal v l s).
Proof.
  induction l as [|c l IH]; intros s; cbn; [destruct s; cbn; lia|]. destruct s as [|d s]; [exact I|].
  case_decide; [|exact I]. eapply advances_le; [apply IH|cbn; lia].
Qed.
Lemma peek_Some c s rest : peek c s = Some rest → s = String c rest.
Proof. destruct s as [|d s]; [done|]. cbn. case_decide; [|done]. by intros [= <-]; subst. Qed.

(** The fuel of a text is enough: whatever it is, the scanner gets to a value
    and a shorter rest, to an error or to the end. *)
Lemma value_advances fuel :
  (∀ s, (2 * String.length s + 1 ≤ fuel)%nat → advances (String.length s) (value fuel s)) ∧
  (∀ s, (2 * String.length s + 2 ≤ fuel)%nat → advances (String.length s) (elements fuel s)) ∧
  (∀ s, (2 * String.length s + 2 ≤ fuel)%nat → advances (String.length s) (members fuel s)).
Proof.
  induction fuel as [|fuel (IHv & IHe & IHm)]; [split_and!; intros; lia|].
  split_and!; intros s Hs; pose proof (skip_space_length s) as Hskip.
  - cbn [value]. destruct (skip_space s) as [|c rest]; [exact I|]. cbn in Hskip.
    pose proof (skip_space_length rest) as Hr.
    destruct (decide (c = dquote)).
    { apply advances_map. eapply advances_le; [apply unquote_advances|]; lia. }
    destruct (decide (c = "["%char)).
    { destruct (peek _ (skip_space rest)) as [r|] eqn:Hp; [apply peek_Some in Hp; cbn; rewrite Hp in Hr; cbn in Hr; lia|].
      apply advances_map. eapply advances_le; [apply IHe|]; lia. }
    destruct (decide (c = "{"%char)).
    { destruct (peek _ (skip_space rest)) as [r|] eqn:Hp; [apply peek_Some in Hp; cbn; rewrite Hp in Hr; cbn in Hr; lia|].
      apply advances_map. eapply advances_le; [apply IHm|]; lia. }
    repeat (case_decide; [eapply advances_le; [apply literal_advances|lia]|]).
    destruct (is_digit c || bool_decide (c = "-"%char)); [|exact I]. eapply advances_le; [apply number_advances|cbn; lia].
  - cbn [elements]. eapply advances_bind; [apply IHv; lia|]. intros v rest Hr. cbn in Hr.
    pose proof (skip_space_length rest). destruct (skip_space rest) as [|c rest']; [exact I|]. cbn in *.
    repeat case_decide; try exact I; [|cbn; lia]. apply advances_map. eapply advances_le; [apply IHe|]; lia.
  - cbn [members]. destruct (skip_space s) as [|q rest]; [exact I|]. cbn in Hskip. case_decide; [|exact I].
    eapply advances_bind; [apply unquote_advances; lia|]. intros k r1 H1.
    pose proof (skip_space_length r1). destruct (skip_space r1) as [|colon r2]; [exact I|]. cbn in *. case_decide; [|exact I].
    eapply advances_bind; [apply IHv; lia|]. intros v r3 H3.
    pose proof (skip_space_length r3). destruct (skip_space r3) as [|c r4]; [exact I|]. cbn in *.
    repeat case_decide; try exact I; [|cbn; lia]. apply advances_map. eapply advances_le; [apply IHm|]; lia.
Qed.
Lemma parse_advances s : advances (String.length s) (parse s).
Proof. unfold parse. apply value_advances. lia. Qed.

(** White space alone is no value. *)
Lemma parse_blank s : skip_space s = "" → parse s = Ended.
Proof. intros Hs. unfold parse. rewrite Nat.add_comm. cbn [Nat.add value]. by rewrite Hs. Qed.

(** * Reading what was written *)

(** ** Strings *)

(** A text with every byte that begins no rune replaced: what is read again *)
Fixpoint coerce_go (fuel : nat) (s : string) : string :=
  match fuel with
  | O => ""
  | S fuel => match first_rune s with Some (r, rest) => r +:+ coerce_go fuel rest | None => "" end
  end.
Definition coerce (s : string) : string := coerce_go (String.length s) s.
Definition utf8 (s : string) : bool := bool_decide (coerce s = s).

(** What is written for one rune is read as that rune. *)
Lemma unquote_ascii fuel v c t : byte_in 0 127 c = true →
  unquote (S fuel) (quote_rune v (String c "") +:+ t) = parsed_map (String.append (String c "")) (unquote fuel t).
Proof. intros Hc. destruct c as [[] [] [] [] [] [] [] []]; try discriminate Hc; reflexivity. Qed.
Lemma byte_eq c n : N_of_ascii c = n → c = ascii_of_N n.
Proof. intros <-. symmetry. apply ascii_N_embedding. Qed.
Lemma line_separator_Some r d : line_separator r = Some d →
  r = encode_rune 8232 ∧ d = "8"%char ∨ r = encode_rune 8233 ∧ d = "9"%char.
Proof.
  unfold line_separator. destruct r as [|a [|b [|c [|]]]]; try done. destruct (_ && _) eqn:H; [|done]. intros [= <-].
  apply andb_prop in H as [[Ha%N.eqb_eq%byte_eq Hb%N.eqb_eq%byte_eq]%andb_prop [H1%N.leb_le H2%N.leb_le]%andb_prop]. subst a b.
  assert (N_of_ascii c = 168 ∨ N_of_ascii c = 169) as [->%byte_eq| ->%byte_eq] by lia; [left|right]; done.
Qed.
Lemma unquote_long fuel c d more t : byte_in 0 127 c = false →
  (∀ t, first_rune (String c (String d more) +:+ t) = Some (String c (String d more), t)) →
  unquote (S fuel) (quote_rune true (String c (String d more)) +:+ t) = parsed_map (String.append (String c (String d more))) (unquote fuel t).
Proof.
  intros Hc Hr. unfold quote_rune. cbn [negb]. destruct (line_separator _) as [x|] eqn:Hl.
  { apply line_separator_Some in Hl as [[-> ->]|[-> ->]]; reflexivity. }
  specialize (Hr t). cbn [String.append] in *. cbn [unquote].
  rewrite !decide_False by (intros ->; discriminate Hc). rewrite Hr.
  destruct (N_of_ascii c <? 32) eqn:Hn; [|done]. apply N.ltb_lt in Hn. apply andb_false_iff in Hc as [Hc%N.leb_gt|Hc%N.leb_gt]; lia.
Qed.
Lemma unquote_rune fuel s r rest t : first_rune s = Some (r, rest) →
  unquote (S fuel) (quote_rune (HasPrefix s r) r +:+ t) = parsed_map (String.append r) (unquote fuel t).
Proof.
  intros [c x Hc|c d more x Hc Hr|c x ->]%first_rune_case; [by apply unquote_ascii| |reflexivity].
  unfold HasPrefix. rewrite string_prefix_app. by apply unquote_long.
Qed.

Lemma parsed_map_map {A B C} (f : A → B) (g : B → C) p : parsed_map g (parsed_map f p) = parsed_map (g ∘ f) p.
Proof. by destruct p. Qed.

(** A runes takes as much fuel to read as to write. *)
Lemma unquote_quote_go n : ∀ s fuel t, (String.length s ≤ n)%nat → (n < fuel)%nat →
  unquote fuel (quote_go n s +:+ String dquote t) = Parsed (coerce_go n s) t.
Proof.
  induction n as [|n IH]; intros s fuel t Hs Hf; (destruct fuel as [|fuel]; [lia|]); [done|]. cbn [quote_go coerce_go].
  destruct (first_rune s) as [[r rest]|] eqn:Hr; [|done]. rewrite str_app_assoc, (unquote_rune _ _ _ rest) by done.
  apply first_rune_length in Hr. rewrite IH; [done|lia..].
Qed.
Lemma quote_rune_length s r rest : first_rune s = Some (r, rest) →
  (String.length s ≤ String.length (quote_rune (HasPrefix s r) r) + String.length rest)%nat.
Proof.
  intros [c x Hc|c d more x Hc Hr|c x ->]%first_rune_case.
  - unfold quote_rune. cbn [String.length].
    repeat (match goal with |- context [if ?x then _ else _] => destruct x end); cbn; lia.
  - unfold HasPrefix. rewrite string_prefix_app, str_length_app. unfold quote_rune. cbn [negb].
    destruct (line_separator _) as [y|] eqn:Hl; [|lia]. apply line_separator_Some in Hl as [[-> ->]|[-> ->]]; cbn; lia.
  - cbn. lia.
Qed.
Lemma quote_go_length n : ∀ s, (String.length s ≤ n)%nat → (String.length s ≤ String.length (quote_go n s))%nat.
Proof.
  induction n as [|n IH]; intros s Hs; cbn; [lia|]. destruct (first_rune s) as [[r rest]|] eqn:Hr.
  - pose proof (quote_rune_length _ _ _ Hr). apply first_rune_length in Hr. rewrite str_length_app. specialize (IH rest). lia.
  - apply first_rune_None in Hr as ->. cbn. lia.
Qed.
Lemma quote_length s : (String.length s + 2 ≤ String.length (quote s))%nat.
Proof. unfold quote. cbn. rewrite str_length_app. pose proof (quote_go_length _ s ltac:(reflexivity)). cbn. lia. Qed.
Lemma unquote_quote fuel s t : (String.length s < fuel)%nat →
  unquote fuel (quote_go (String.length s) s +:+ String dquote t) = Parsed (coerce s) t.
Proof. intros H. by apply unquote_quote_go. Qed.

(** ** Numbers *)

(** A text that does not go on with a number *)
Definition stops (t : string) : Prop :=
  match t with String c _ => negb (is_digit c || bool_decide (c ∈ ["."; "e"; "E"]%char)) = true | EmptyString => True end.

Lemma stops_digits t : stops t → span is_digit t = ("", t).
Proof. destruct t as [|c t]; [done|]. cbn. destruct (is_digit c); [done|]. by destruct (span is_digit t). Qed.
Lemma stops_fraction t : stops t → fraction t = Parsed "" t.
Proof. destruct t as [|c t]; [done|]. intros H. destruct c as [[] [] [] [] [] [] [] []]; try reflexivity. discriminate H. Qed.
Lemma stops_exponent t : stops t → exponent t = Parsed "" t.
Proof. destruct t as [|c t]; [done|]. intros H. unfold exponent. case_decide as Hc; [|done]. by destruct Hc as [-> | ->]. Qed.
Lemma integer_part_Utoa n t : stops t → integer_part (Utoa n +:+ t) = Parsed (Utoa n) t.
Proof.
  intros Ht. destruct (Utoa_spec n) as (Hd & Hv & Hne & H0).
  assert (digits1 (Utoa n +:+ t) = Parsed (Utoa n) t) as H1.
  { unfold digits1. rewrite span_all; [by destruct (Utoa n)|done|by apply stops_digits]. }
  rewrite HasPrefix_char in H0. destruct (Utoa n) as [|c d] eqn:E; [done|]. cbn [String.append] in *.
  destruct (decide ("0"%char = c)) as [<-|Hc].
  - rewrite bool_decide_true in H0 by done. specialize (H0 eq_refl). injection H0 as ->. reflexivity.
  - rewrite <- H1. unfold integer_part. destruct c as [[] [] [] [] [] [] [] []]; try reflexivity. by destruct Hc.
Qed.
Lemma number_Itoa z t : stops t → number (Itoa z +:+ t) = Parsed (JInt z) t.
Proof.
  intros Ht. unfold number. assert (∀ n m, parsed_bind (λ int s, parsed_bind (λ frac s, parsed_map (λ exp, number_of m int frac exp) (exponent s)) (fraction s))
    (integer_part (Utoa n +:+ t)) = Parsed (JInt (if m then - Z.of_N n else Z.of_N n)%Z) t) as H.
  { intros n m. rewrite integer_part_Utoa by done. cbn. rewrite stops_fraction by done. cbn. rewrite stops_exponent by done. cbn.
    unfold number_of. cbn. destruct (Utoa_spec n) as (_ & -> & _). done. }
  destruct z as [|p|p].
  - exact (H 0 false).
  - pose proof (H (N.pos p) false) as Hp. change (Itoa (Z.pos p)) with (Utoa (N.pos p)).
    destruct (Utoa_spec (N.pos p)) as (Hd & _ & Hne & _). destruct (Utoa (N.pos p)) as [|c d]; [done|]. cbn in Hd.
    apply andb_prop in Hd as [Hc _]. refine (eq_trans _ Hp).
    destruct c as [[] [] [] [] [] [] [] []]; try discriminate Hc; reflexivity.
  - exact (H (N.pos p) true).
Qed.

(** ** Values *)

(** Strings and keys as they are read again *)
Fixpoint reread (j : json) : json :=
  match j with
  | JString s => JString (coerce s)
  | JArray l => JArray (reread <$> l)
  | JObject fields => JObject ((λ '(k, v), (coerce k, reread v)) <$> fields)
  | _ => j
  end.
(** Every number is an integer. *)
Fixpoint integral (j : json) : bool :=
  match j with
  | JNumber _ => false
  | JArray l => forallb integral l
  | JObject fields => forallb (λ '(_, v), integral v) fields
  | _ => true
  end.

Lemma json_ind' (P : json → Prop) :
  P JNull → (∀ b, P (JBool b)) → (∀ z, P (JInt z)) → (∀ s, P (JNumber s)) → (∀ s, P (JString s)) →
  (∀ l, Forall P l → P (JArray l)) → (∀ fs, Forall (λ '(_, v), P v) fs → P (JObject fs)) → ∀ j, P j.
Proof.
  intros Hn Hb Hi Hu Hs Ha Ho. fix IH 1. intros [| | | | |l|fs];
    [exact Hn|apply Hb|apply Hi|apply Hu|apply Hs| |].
  - apply Ha. induction l as [|j l IHl]; constructor; [apply IH|apply IHl].
  - apply Ho. induction fs as [|[k v] fs IHl]; constructor; [apply IH|apply IHl].
Qed.

(** What a value begins with: neither white space nor a closing bracket *)
Definition opening (s : string) : Prop :=
  match s with String c _ => is_space c = false ∧ c ≠ "]"%char | EmptyString => False end.
Lemma opening_app s t : opening s → opening (s +:+ t).
Proof. by destruct s. Qed.
Lemma skip_char c s : is_space c = false → skip_space (String c s) = String c s.
Proof. intros Hc. unfold skip_space, drop_while. cbn. by rewrite Hc. Qed.
Lemma opening_skip s : opening s → skip_space s = s.
Proof. destruct s as [|c s]; [done|]. intros [Hc _]. by apply skip_char. Qed.
Lemma opening_peek s : opening s → peek "]" s = None.
Proof. destruct s as [|c s]; [done|]. intros [_ Hc]. cbn. by rewrite decide_False. Qed.
Lemma digit_opening c s : is_digit c = true → opening (String c s).
Proof. destruct c as [[] [] [] [] [] [] [] []]; try discriminate; by split. Qed.
Lemma Itoa_opening z : opening (Itoa z).
Proof.
  destruct z as [|p|p]; [by split| |by split]. change (Itoa (Z.pos p)) with (Utoa (N.pos p)).
  destruct (Utoa_spec (N.pos p)) as (Hd & _ & Hne & _). destruct (Utoa (N.pos p)); [done|]. cbn in Hd.
  apply andb_prop in Hd as [Hc _]. by apply digit_opening.
Qed.
Lemma print_opening j : integral j = true → opening (print j).
Proof. destruct j as [|[]| | | | |]; try done. intros _. apply Itoa_opening. Qed.

Lemma Itoa_first z : ∃ c s, Itoa z = String c s ∧ (is_digit c || bool_decide (c = "-"%char)) = true.
Proof.
  destruct z as [|p|p]; [by do 2 eexists| |by do 2 eexists]. change (Itoa (Z.pos p)) with (Utoa (N.pos p)).
  destruct (Utoa_spec (N.pos p)) as (Hd & _ & Hne & _). destruct (Utoa (N.pos p)) as [|c d]; [done|]. cbn in Hd.
  apply andb_prop in Hd as [Hc _]. do 2 eexists. split; [done|]. by rewrite Hc.
Qed.
Lemma value_number fuel c s : (is_digit c || bool_decide (c = "-"%char)) = true → value (S fuel) (String c s) = number (String c s).
Proof. destruct c as [[] [] [] [] [] [] [] []]; try discriminate; reflexivity. Qed.

Definition reads (j : json) : Prop := integral j = true → ∀ fuel t, stops t → (2 * String.length (print j) + 1 ≤ fuel)%nat →
  value fuel (print j +:+ t) = Parsed (reread j) t.

Lemma commas_cons x l t : commas (x :: l) +:+ t = x +:+ match l with [] => t | _ => String "," (commas l +:+ t) end.
Proof. destruct l as [|y l]; [done|]. cbn [commas]. by rewrite str_app_assoc. Qed.
Lemma commas_length x l : (String.length (commas (x :: l)) = String.length x + match l with [] => 0 | _ => 1 + String.length (commas l) end)%nat.
Proof. destruct l as [|y l]; cbn [commas]; [lia|]. by rewrite str_length_app. Qed.

Lemma elements_read l : Forall reads l → l ≠ [] → forallb integral l = true → ∀ fuel t,
  (2 * String.length (commas (print <$> l)) + 2 ≤ fuel)%nat →
  elements fuel (commas (print <$> l) +:+ String "]" t) = Parsed (reread <$> l) t.
Proof.
  induction 1 as [|j l Hj Hl IH]; intros Hne Hi fuel t Hf; [done|]. cbn in Hi. apply andb_prop in Hi as [Hi Hil].
  cbn [fmap list_fmap] in *. rewrite commas_cons. rewrite commas_length in Hf. destruct fuel as [|fuel]; [lia|].
  cbn [elements]. destruct l as [|j' l]; cbn [fmap list_fmap] in *.
  - rewrite (Hj Hi) by (cbn; lia || done). reflexivity.
  - rewrite (Hj Hi) by (cbn; lia || done). cbn [parsed_bind]. rewrite skip_char, decide_True by done.
    rewrite IH by (done || lia). done.
Qed.

Definition member '((k, v) : string * json) : string := quote k +:+ String ":" (print v).
Lemma print_object fs : print (JObject fs) = String "{" (commas (member <$> fs) +:+ "}").
Proof. reflexivity. Qed.
Definition reread_member '((k, v) : string * json) : string * json := (coerce k, reread v).
Lemma members_read fs : Forall (λ '(_, v), reads v) fs → fs ≠ [] → forallb (λ '(_, v), integral v) fs = true → ∀ fuel t,
  (2 * String.length (commas (member <$> fs)) + 2 ≤ fuel)%nat →
  members fuel (commas (member <$> fs) +:+ String "}" t) = Parsed (reread_member <$> fs) t.
Proof.
  induction 1 as [|[k v] fs Hv Hfs IH]; intros Hne Hi fuel t Hf; [done|]. cbn in Hi. apply andb_prop in Hi as [Hi Hil].
  cbn [fmap list_fmap] in *. rewrite commas_cons. rewrite commas_length in Hf. destruct fuel as [|fuel]; [lia|].
  pose proof (quote_length k) as Hk. unfold member in Hf at 1. rewrite str_length_app in Hf. cbn [String.length] in Hf.
  cbn [members]. unfold member at 1, quote. cbn [String.append]. rewrite skip_char, decide_True by done.
  rewrite !str_app_assoc. cbn [String.append]. rewrite unquote_quote by lia. cbn [parsed_bind]. rewrite skip_char, decide_True by done.
  destruct fs as [|m fs]; cbn [fmap list_fmap] in *.
  - rewrite (Hv Hi) by (cbn; lia || done). reflexivity.
  - rewrite (Hv Hi) by (cbn; lia || done). cbn [parsed_bind]. rewrite skip_char, decide_True by done.
    rewrite IH by (done || lia). done.
Qed.

Lemma value_read j : reads j.
Proof.
  induction j as [|[]|z|s|s|l IH|fs IH] using json_ind'; intros Hi fuel t Ht Hf; (destruct fuel as [|fuel]; [lia|]); try reflexivity.
  - destruct (Itoa_first z) as (c & d & Hz & Hc). cbn [print reread]. pose proof (number_Itoa z t Ht) as Hn.
    rewrite Hz in *. cbn [String.append] in *. by rewrite value_number.
  - done.
  - cbn [print reread] in *. pose proof (quote_length s). unfold quote. cbn [String.append value].
    rewrite skip_char, decide_True by done. rewrite str_app_assoc. cbn [String.append]. rewrite unquote_quote by lia. done.
  - cbn [print reread String.append value] in *. rewrite skip_char by done. rewrite decide_False, decide_True by done.
    cbn [String.length] in Hf. rewrite str_length_app in Hf. cbn [String.length] in Hf. cbn in Hi. rewrite str_app_assoc.
    destruct l as [|j l]; [done|]. assert (opening (commas (print <$> j :: l) +:+ String "]" t)) as Ho.
    { cbn [fmap list_fmap]. rewrite commas_cons. apply opening_app, print_opening. by apply andb_prop in Hi as [? _]. }
    cbn [String.append]. rewrite opening_skip, opening_peek by done. rewrite elements_read by (done || lia). done.
  - rewrite print_object in *. cbn [reread String.append value]. rewrite skip_char by done. rewrite !decide_False, decide_True by done.
    cbn [String.length] in Hf. rewrite str_length_app in Hf. cbn [String.length] in Hf. rewrite str_app_assoc.
    destruct fs as [|m fs]; [done|]. cbn [String.append].
    assert (∀ u, skip_space (commas (member <$> m :: fs) +:+ u) = commas (member <$> m :: fs) +:+ u ∧ peek "}" (commas (member <$> m :: fs) +:+ u) = None) as Ho.
    { intros u. cbn [fmap list_fmap]. rewrite commas_cons. destruct m as [k v]. split; [by apply skip_char|done]. }
    rewrite (proj1 (Ho _)), (proj2 (Ho _)). rewrite members_read by (done || lia). done.
Qed.
(** A value that was written is read back up to what cannot be a text, and
    the rest of the input is left. *)
Lemma parse_print j t : integral j = true → stops t → parse (print j +:+ t) = Parsed (reread j) t.
Proof. intros Hi Ht. unfold parse. apply value_read; [done..|]. rewrite str_length_app. lia. Qed.
