(* ===== verification/Encoding.v ===== *)
(** The struct decoders and encoders of [encoding/json], which work on any
    type by reflection: a Go type is a value of [gotype] with the fields and
    the tags of its structs, a Go value one of [goval].  The value that a text
    is decoded into matters: what the text does not mention is kept, also in
    the hidden part of a slice's array.

    The types of strfmt bring their own decoder, the interface [Customs]; the
    wording of errors is the interface [JsonTexts].  The version of Go is that
    of the build, 1.9: an error of a type's own decoder ends the decoding, any
    other is kept while it goes on. *)
From S2P Require Import Prelude GoStrings Fmt Json.

(** * Types and values *)
Inductive custom := DateTime | URI.
Inductive gotype :=
| TString | TBool | TInt64
| TCustom (c : custom)
| TPtr (t : gotype)
| TSlice (t : gotype)
| TStruct (name : string) (fields : list (string * bool * gotype)).   (** key, [omitempty], type *)
Abbreviation field := (string * bool * gotype)%type.
Definition f_key (f : field) : string := f.1.1.
Definition f_omitempty (f : field) : bool := f.1.2.
Definition f_type (f : field) : gotype := f.2.

(** A slice shows the first elements of its array; the others come back when
    it grows.  Custom values are their texts. *)
Inductive goval :=
| VString (s : string) | VBool (b : bool) | VInt (z : Z)
| VText (s : string)
| VPtr (v : option goval)
| VSlice (isnil : bool) (shown hidden : list goval)
| VStruct (vs : list goval).

(** The zero time is not the zero of the epoch. *)
Definition zero_custom (c : custom) : string := match c with DateTime => "0001-01-01T00:00:00.000Z" | URI => "" end.
Fixpoint zero_value (t : gotype) : goval :=
  match t with
  | TString => VString ""
  | TBool => VBool false
  | TInt64 => VInt 0
  | TCustom c => VText (zero_custom c)
  | TPtr _ => VPtr None
  | TSlice _ => VSlice true [] []
  | TStruct _ fields => VStruct ((λ f, zero_value f.2) <$> fields)
  end.

(** * Encoding *)

(** [isEmptyValue] *)
Definition is_empty (t : gotype) (v : goval) : bool :=
  match t, v with
  | TString, VString s => bool_decide (s = "")
  | TBool, VBool b => negb b
  | TInt64, VInt z => bool_decide (z = 0%Z)
  | TCustom URI, VText s => bool_decide (s = "")
  | TPtr _, VPtr x => bool_decide (x = None)
  | TSlice _, VSlice _ shown _ => bool_decide (length shown = 0%nat)
  | _, _ => false
  end.

(** [structEncoder.encode]: the fields in the order of the struct, those that
    are to be omitted left out.  Where value and type do not fit, which the
    reflection rules out, the result is null. *)
Fixpoint encode (t : gotype) (v : goval) : json :=
  match t, v with
  | TString, VString s => JString s
  | TBool, VBool b => JBool b
  | TInt64, VInt z => JInt z
  | TCustom _, VText s => JString s
  | TPtr t, VPtr (Some v) => encode t v
  | TSlice t, VSlice isnil shown _ => if isnil then JNull else JArray (encode t <$> shown)
  | TStruct _ fields, VStruct vs =>
      JObject ((fix go (fields : list field) (vs : list goval) : list (string * json) :=
                  match fields, vs with
                  | (key, omitempty, t) :: fields, v :: vs =>
                      (if omitempty && is_empty t v then [] else [(key, encode t v)]) ++ go fields vs
                  | _, _ => []
                  end) fields vs)
  | _, _ => JNull
  end.
Fixpoint encode_fields (fields : list field) (vs : list goval) : list (string * json) :=
  match fields, vs with
  | (key, omitempty, t) :: fields, v :: vs =>
      (if omitempty && is_empty t v then [] else [(key, encode t v)]) ++ encode_fields fields vs
  | _, _ => []
  end.

(** * Keys *)

(** [equalFoldRight], [asciiEqualFold] and [simpleLetterEqualFold] for a name
    of ASCII letters: the case does not matter, and the long s and the Kelvin
    sign stand for s and k. *)
Fixpoint equalFold (name key : string) : bool :=
  match name, key with
  | EmptyString, EmptyString => true
  | String c name', String d key' =>
      if bool_decide (lower c = lower d) then equalFold name' key'
      else match key' with
           | String e key'' =>
               if bool_decide (lower c = "s"%char) && bool_decide (d = ascii_of_N 197) && bool_decide (e = ascii_of_N 191)
               then equalFold name' key''
               else match key'' with
                    | String f key''' =>
                        if bool_decide (lower c = "k"%char) && bool_decide (d = ascii_of_N 226) && bool_decide (e = ascii_of_N 132)
                           && bool_decide (f = ascii_of_N 170)
                        then equalFold name' key''' else false
                    | EmptyString => false
                    end
           | EmptyString => false
           end
  | _, _ => false
  end.
(** The field of a key: the one with that name, or else the first whose name
    differs in case only *)
Definition find_field (key : string) (fields : list field) : option (nat * gotype) :=
  match list_find (λ f, f_key f = key) fields with
  | Some (i, f) => Some (i, f_type f)
  | None => (λ '(i, f), (i, f_type f)) <$> list_find (λ f, equalFold (f_key f) key = true) fields
  end.

(** * Decoding *)

(** What goes wrong when the text is JSON, and when it is not: what the error
    names, and the text it was found in *)
Inductive json_error :=
| UnmarshalTypeError (value : string) (t : gotype)
| Custom (e : error)
| SyntaxError
| UnexpectedEnd.

(** A value with the first of the errors that were saved, or the error that
    ended the decoding *)
Inductive decoded (A : Type) := Decoded (a : A) (saved : option json_error) | Aborted (e : json_error).
Arguments Decoded {_} _ _.
Arguments Aborted {_} _.
Definition decoded_bind {A B} (f : A -> decoded B) (d : decoded A) : decoded B :=
  match d with
  | Aborted e => Aborted e
  | Decoded a saved =>
      match f a with
      | Aborted e => Aborted e
      | Decoded b saved' => Decoded b (match saved with Some e => Some e | None => saved' end)
      end
  end.
Definition decoded_map {A B} (f : A -> B) (d : decoded A) : decoded B := decoded_bind (λ a, Decoded (f a) None) d.

(** What kind of value an error names *)
Definition kind_name (j : json) : string :=
  match j with
  | JNull => "null" | JBool _ => "bool" | JString _ => "string" | JArray _ => "array" | JObject _ => "object"
  | JInt _ | JNumber _ => "number"
  end.
(** A number that does not fit is named with its literal. *)
Definition mismatch {A} (j : json) (t : gotype) (a : A) : decoded A :=
  Decoded a (Some (UnmarshalTypeError (kind_name j) t)).

(** strfmt's [UnmarshalJSON] *)
Class Customs := UnmarshalJSON : custom -> json -> reply string.

Section Decode.
Context `{!Customs}.

(** [strconv.ParseInt] of a literal, and the value it is stored to *)
Definition decode_int (j : json) (v : goval) : decoded goval :=
  match j with
  | JInt z => if decide (in_int64 z) then Decoded (VInt z) None else Decoded v (Some (UnmarshalTypeError ("number " +:+ Itoa z) TInt64))
  | JNumber literal => Decoded v (Some (UnmarshalTypeError ("number " +:+ literal) TInt64))
  | _ => mismatch j TInt64 v
  end.

(** The elements of a slice's array, of which [array] makes use again *)
Definition slice_array (v : goval) : list goval := match v with VSlice _ shown hidden => shown ++ hidden | _ => [] end.
Definition pointed (t : gotype) (v : goval) : goval := match v with VPtr (Some x) => x | _ => zero_value t end.
Definition struct_fields (v : goval) : list goval := match v with VStruct vs => vs | _ => [] end.

(** [decodeState.value]: [null] sets pointers and slices to nil and leaves
    anything else alone.  The elements of an array are decoded one by one into
    those of the slice's array, and zero values past its end; the members of an
    object one by one into the fields. *)
Fixpoint decode (j : json) : gotype -> goval -> decoded goval :=
  fix at_type (t : gotype) (v : goval) {struct t} : decoded goval :=
    match t with
    | TCustom c => match UnmarshalJSON c j with Ok s => Decoded (VText s) None | Bad e => Aborted (Custom e) end
    | TPtr t =>
        match j with
        | JNull => Decoded (VPtr None) None
        | _ => decoded_map (λ x, VPtr (Some x)) (at_type t (pointed t v))
        end
    | TSlice t' =>
        match j with
        | JNull => Decoded (VSlice true [] []) None
        | JArray [] => Decoded (VSlice false [] []) None
        | JArray l =>
            decoded_map (λ shown, VSlice false shown (drop (length l) (slice_array v)))
              ((fix go (l : list json) (olds : list goval) : decoded (list goval) :=
                  match l with
                  | [] => Decoded [] None
                  | j :: l => decoded_bind (λ x, decoded_map (cons x) (go l (tail olds))) (decode j t' (default (zero_value t') (head olds)))
                  end) l (slice_array v))
        | _ => mismatch j t v
        end
    | TStruct _ fields =>
        match j with
        | JNull => Decoded v None
        | JObject members =>
            decoded_map VStruct
              ((fix go (members : list (string * json)) (vs : list goval) : decoded (list goval) :=
                  match members with
                  | [] => Decoded vs None
                  | (key, j) :: members =>
                      match find_field key fields with
                      | None => go members vs
                      | Some (i, t) => decoded_bind (λ x, go members (<[i:=x]> vs)) (decode j t (default (zero_value t) (vs !! i)))
                      end
                  end) members (struct_fields v))
        | _ => mismatch j t v
        end
    | TString => match j with JNull => Decoded v None | JString s => Decoded (VString s) None | _ => mismatch j t v end
    | TBool => match j with JNull => Decoded v None | JBool b => Decoded (VBool b) None | _ => mismatch j t v end
    | TInt64 => match j with JNull => Decoded v None | _ => decode_int j v end
    end.
Fixpoint decode_list (t : gotype) (l : list json) (olds : list goval) : decoded (list goval) :=
  match l with
  | [] => Decoded [] None
  | j :: l => decoded_bind (λ x, decoded_map (cons x) (decode_list t l (tail olds))) (decode j t (default (zero_value t) (head olds)))
  end.
Fixpoint decode_members (fields : list field) (members : list (string * json)) (vs : list goval) : decoded (list goval) :=
  match members with
  | [] => Decoded vs None
  | (key, j) :: members =>
      match find_field key fields with
      | None => decode_members fields members vs
      | Some (i, t) =>
          decoded_bind (λ x, decode_members fields members (<[i:=x]> vs)) (decode j t (default (zero_value t) (vs !! i)))
      end
  end.
End Decode.

(** * Well formed types and values *)
Lemma gotype_ind' (P : gotype → Prop) :
  P TString → P TBool → P TInt64 → (∀ c, P (TCustom c)) → (∀ t, P t → P (TPtr t)) → (∀ t, P t → P (TSlice t)) →
  (∀ name fields, Forall (λ f, P (f_type f)) fields → P (TStruct name fields)) → ∀ t, P t.
Proof.
  intros Hs Hb Hi Hc Hp Hl Hf. fix IH 1. intros [| | |c|t|t|name fields]; [exact Hs|exact Hb|exact Hi|apply Hc| | |].
  - apply Hp, IH.
  - apply Hl, IH.
  - apply Hf. induction fields as [|f fields IHf]; constructor; [apply IH|apply IHf].
Qed.

(** The keys of a struct differ and are texts, a pointer is to a value that is
    not written as null. *)
Definition null_like (t : gotype) : bool := match t with TPtr _ | TSlice _ => true | _ => false end.
Fixpoint sound (t : gotype) : bool :=
  match t with
  | TPtr t => negb (null_like t) && sound t
  | TSlice t => sound t
  | TStruct _ fields =>
      bool_decide (NoDup (f_key <$> fields)) && forallb utf8 (f_key <$> fields) && forallb (λ f, sound f.2) fields
  | _ => true
  end.

(** The values of a type: integers within 64 bits, a nil slice without an
    array. *)
Fixpoint shaped (t : gotype) (v : goval) : Prop :=
  match t, v with
  | TString, VString _ | TBool, VBool _ | TCustom _, VText _ => True
  | TInt64, VInt z => in_int64 z
  | TPtr t, VPtr x => match x with Some v => shaped t v | None => True end
  | TSlice t, VSlice isnil shown hidden => (isnil = true → shown = [] ∧ hidden = []) ∧ Forall (shaped t) (shown ++ hidden)
  | TStruct _ fields, VStruct vs =>
      (fix go (fields : list field) (vs : list goval) : Prop :=
         match fields, vs with
         | [], [] => True
         | (_, _, t) :: fields, v :: vs => shaped t v ∧ go fields vs
         | _, _ => False
         end) fields vs
  | _, _ => False
  end.
Lemma shaped_struct name fields vs : shaped (TStruct name fields) (VStruct vs) ↔ Forall2 (λ f v, shaped (f_type f) v) fields vs.
Proof.
  cbn. revert vs. induction fields as [|[[k o] t] fields IH]; intros [|v vs]; split; intros H; try done; try (by constructor); try by inversion H.
  - constructor; [apply H|apply IH, H].
  - inversion H; subst. split; [done|by apply IH].
Qed.
Lemma zero_shaped t : shaped t (zero_value t).
Proof.
  induction t as [| | |c|t _|t _|name fields IH] using gotype_ind'; try done.
  - change (zero_value (TStruct name fields)) with (VStruct ((λ f, zero_value f.2) <$> fields)). apply shaped_struct.
    induction IH; constructor; done.
Qed.

Lemma decoded_bind_Decoded {A B} (f : A → decoded B) d b e :
  decoded_bind f d = Decoded b e → ∃ a e1 e2, d = Decoded a e1 ∧ f a = Decoded b e2 ∧ e = match e1 with Some x => Some x | None => e2 end.
Proof. destruct d as [a e1|]; [|done]. cbn. destruct (f a) as [b' e2|] eqn:Hf; [|done]. intros [= <- <-]. by exists a, e1, e2. Qed.
Lemma decoded_map_Decoded {A B} (f : A → B) d b e : decoded_map f d = Decoded b e → ∃ a, d = Decoded a e ∧ b = f a.
Proof. intros (a & e1 & e2 & -> & [= <- <-] & ->)%decoded_bind_Decoded. exists a. by destruct e1. Qed.
Lemma decoded_bind_ext {A B} (f g : A → decoded B) d : (∀ a, f a = g a) → decoded_bind f d = decoded_bind g d.
Proof. intros H. destruct d; [|done]. cbn. by rewrite H. Qed.
Lemma decoded_bind_None {A B} (f : A → decoded B) a : decoded_bind f (Decoded a None) = f a.
Proof. cbn. by destruct (f a). Qed.
Lemma decoded_map_None {A B} (f : A → B) a : decoded_map f (Decoded a None) = Decoded (f a) None.
Proof. done. Qed.

Lemma find_field_Some key fields i t : find_field key fields = Some (i, t) → ∃ f, fields !! i = Some f ∧ f_type f = t.
Proof.
  unfold find_field. destruct (list_find _ fields) as [[j f]|] eqn:Hf.
  - intros [= <- <-]. apply list_find_Some in Hf as (? & _). by exists f.
  - destruct (list_find (λ f, equalFold _ _ = true) fields) as [[j f]|] eqn:Hg; [|done]. intros [= <- <-].
    apply list_find_Some in Hg as (? & _). by exists f.
Qed.
Lemma find_field_exact fields i f : NoDup (f_key <$> fields) → fields !! i = Some f → find_field (f_key f) fields = Some (i, f_type f).
Proof.
  intros Hnd Hi. unfold find_field.
  assert (list_find (λ g, f_key g = f_key f) fields = Some (i, f)) as ->; [|done].
  apply list_find_Some. split_and!; [done..|]. intros j g Hj Hlt Heq.
  apply (NoDup_lookup _ i j (f_key f)) in Hnd; [lia| |]; rewrite list_lookup_fmap; [by rewrite Hi|by rewrite Hj, <- Heq].
Qed.

Section Decoded.
Context `{!Customs}.

Lemma decode_list_fix t l : ∀ olds,
  (fix go (l : list json) (olds : list goval) : decoded (list goval) :=
     match l with
     | [] => Decoded [] None
     | j :: l => decoded_bind (λ x, decoded_map (cons x) (go l (tail olds))) (decode j t (default (zero_value t) (head olds)))
     end) l olds = decode_list t l olds.
Proof. induction l as [|j l IH]; intros olds; [done|]. cbn. apply decoded_bind_ext. intros x. by rewrite IH. Qed.
Lemma decode_array t j l v : decode (JArray (j :: l)) (TSlice t) v =
  decoded_map (λ shown, VSlice false shown (drop (length (j :: l)) (slice_array v))) (decode_list t (j :: l) (slice_array v)).
Proof. rewrite <- decode_list_fix. reflexivity. Qed.
Lemma decode_members_fix fields members : ∀ vs,
  (fix go (members : list (string * json)) (vs : list goval) : decoded (list goval) :=
     match members with
     | [] => Decoded vs None
     | (key, j) :: members =>
         match find_field key fields with
         | None => go members vs
         | Some (i, t) => decoded_bind (λ x, go members (<[i:=x]> vs)) (decode j t (default (zero_value t) (vs !! i)))
         end
     end) members vs = decode_members fields members vs.
Proof.
  induction members as [|[key j] ms IH]; intros vs; [done|]. cbn. destruct (find_field key fields) as [[i t]|]; [|done].
  apply decoded_bind_ext. intros x. apply IH.
Qed.
Lemma decode_object name fields members v : decode (JObject members) (TStruct name fields) v =
  decoded_map VStruct (decode_members fields members (struct_fields v)).
Proof. rewrite <- decode_members_fix. reflexivity. Qed.

(** Decoding keeps the type of what is decoded into, whatever the text: in
    particular no integer leaves its width. *)
Definition keeps_shape (j : json) : Prop := ∀ t v v' e, shaped t v → decode j t v = Decoded v' e → shaped t v'.

Lemma array_shaped t v : shaped (TSlice t) v → Forall (shaped t) (slice_array v).
Proof. destruct v; try done. by intros [_ Ha]. Qed.
Lemma pointed_shaped t v : shaped (TPtr t) v → shaped t (pointed t v).
Proof. destruct v as [| | | |[x|]| |]; try done. intros _. apply zero_shaped. Qed.
Lemma decode_list_shaped t l : Forall keeps_shape l → ∀ olds news e, Forall (shaped t) olds →
  decode_list t l olds = Decoded news e → Forall (shaped t) news.
Proof.
  induction 1 as [|j l Hj _ IH]; intros olds news e Ho; cbn; [by intros [= <- _]|].
  intros (x & e1 & e2 & Hx & (ys & Hys & ->)%decoded_map_Decoded & _)%decoded_bind_Decoded. constructor.
  - eapply Hj; [|exact Hx]. destruct Ho as [|o olds Ho _]; [apply zero_shaped|exact Ho].
  - eapply IH; [|exact Hys]. by destruct Ho.
Qed.
Lemma decode_members_shaped fields ms : Forall (λ '(_, j), keeps_shape j) ms → ∀ vs vs' e,
  Forall2 (λ f v, shaped (f_type f) v) fields vs → decode_members fields ms vs = Decoded vs' e → Forall2 (λ f v, shaped (f_type f) v) fields vs'.
Proof.
  induction 1 as [|[key j] ms Hj _ IH]; intros vs vs' e Hvs; cbn; [by intros [= <- _]|].
  destruct (find_field key fields) as [[i t]|] eqn:Hf; [|by eapply IH].
  intros (x & e1 & e2 & Hx & Hms & _)%decoded_bind_Decoded. eapply IH; [|exact Hms].
  apply find_field_Some in Hf as (f & Hfi & <-).
  destruct (Forall2_lookup_l _ _ _ _ _ Hvs Hfi) as (v & Hv & Hs). rewrite Hv in Hx.
  rewrite <- (list_insert_id fields i f Hfi). apply Forall2_insert; [done|]. by eapply Hj.
Qed.
Lemma decode_shaped j : keeps_shape j.
Proof.
  induction j as [|b|z|s|s|l IH|ms IH] using json_ind'; intros t; induction t as [| | |c|t IHt|t _|name fields _] using gotype_ind';
    intros v v' e Hv; try (cbn; intros [= <- _]; done).
  all: try (cbn; destruct (UnmarshalJSON c _); by intros [= <- _]).
  all: try (intros (x & Hx & ->)%decoded_map_Decoded; eapply IHt; [by apply pointed_shaped|exact Hx]).
  - cbn. case_decide; by intros [= <- _].
  - destruct l as [|j l]; [cbn; intros [= <- _]; split; [done|constructor]|].
    rewrite decode_array. intros (x & Hx & ->)%decoded_map_Decoded. pose proof (array_shaped _ _ Hv) as Ha.
    split; [done|]. apply Forall_app. split; [by eapply decode_list_shaped|by apply Forall_drop].
  - rewrite decode_object. intros (x & Hx & ->)%decoded_map_Decoded. apply shaped_struct.
    destruct v as [| | | | | |vs]; try done. apply shaped_struct in Hv. by eapply decode_members_shaped.
Qed.
End Decoded.

(** * Texts *)

(** [json.Marshal] *)
Definition Marshal (t : gotype) (v : goval) : string := print (encode t v).
(** [Encoder.Encode], which ends the value with a new line *)
Definition Encode (t : gotype) (v : goval) : string := Marshal t v +:+ String newline "".

Section Unmarshal.
Context `{!Customs}.
Definition stored (d : decoded goval) : goval + json_error :=
  match d with
  | Decoded v None => inl v
  | Decoded _ (Some e) | Aborted e => inr e
  end.
(** [json.Unmarshal]: the whole text has to be one value. *)
Definition Unmarshal (t : gotype) (b : string) (v : goval) : goval + json_error :=
  match parse b with
  | Parsed j rest => if decide (skip_space rest = "") then stored (decode j t v) else inr SyntaxError
  | Wrong => inr SyntaxError
  | Ended | Stuck => inr UnexpectedEnd
  end.
(** [Decoder.Decode]: the first value counts; [None] is [io.EOF], of a text
    with none. *)
Definition Decode (t : gotype) (b : string) (v : goval) : option (goval + json_error) :=
  match parse b with
  | Parsed j _ => Some (stored (decode j t v))
  | Wrong => Some (inr SyntaxError)
  | Ended | Stuck => if decide (skip_space b = "") then None else Some (inr UnexpectedEnd)
  end.

(** * Round trips *)

(** The values that survive: their strings are texts, their slices hide
    nothing, what is omitted is the zero value and strfmt reads its own texts. *)
Fixpoint clean (t : gotype) (v : goval) : Prop :=
  match t, v with
  | TString, VString s => utf8 s = true
  | TBool, VBool _ => True
  | TInt64, VInt z => in_int64 z
  | TCustom c, VText s => utf8 s = true ∧ UnmarshalJSON c (JString s) = Ok s
  | TPtr t, VPtr x => match x with Some v => clean t v | None => True end
  | TSlice t, VSlice isnil shown hidden => hidden = [] ∧ (isnil = true → shown = []) ∧ Forall (clean t) shown
  | TStruct _ fields, VStruct vs =>
      (fix go (fields : list field) (vs : list goval) : Prop :=
         match fields, vs with
         | [], [] => True
         | (_, omitempty, t) :: fields, v :: vs => (clean t v ∧ (omitempty && is_empty t v = true → v = zero_value t)) ∧ go fields vs
         | _, _ => False
         end) fields vs
  | _, _ => False
  end.
Definition clean_field (f : field) (v : goval) : Prop :=
  clean (f_type f) v ∧ (f_omitempty f && is_empty (f_type f) v = true → v = zero_value (f_type f)).
Lemma clean_struct name fields vs : clean (TStruct name fields) (VStruct vs) ↔ Forall2 clean_field fields vs.
Proof.
  cbn. revert vs. induction fields as [|[[k o] t] fields IH]; intros [|v vs]; split; intros Hc; try done; try (by constructor); try by inversion Hc.
  - constructor; [apply Hc|apply IH, Hc].
  - inversion Hc; subst. split; [done|by apply IH].
Qed.
Lemma encode_struct name fields vs : encode (TStruct name fields) (VStruct vs) = JObject (encode_fields fields vs).
Proof. reflexivity. Qed.

Lemma clean_inv t v : clean t v →
  match t with
  | TString => ∃ s, v = VString s ∧ utf8 s = true
  | TBool => ∃ b, v = VBool b
  | TInt64 => ∃ z, v = VInt z ∧ in_int64 z
  | TCustom c => ∃ s, v = VText s ∧ utf8 s = true ∧ UnmarshalJSON c (JString s) = Ok s
  | TPtr t => v = VPtr None ∨ ∃ x, v = VPtr (Some x) ∧ clean t x
  | TSlice t => v = VSlice true [] [] ∨ ∃ l, v = VSlice false l [] ∧ Forall (clean t) l
  | TStruct _ fields => ∃ vs, v = VStruct vs ∧ Forall2 clean_field fields vs
  end.
Proof.
  destruct t, v; try done; intros Hc; try (by eexists).
  - destruct v as [x|]; [right; by exists x|by left].
  - destruct Hc as (-> & Hn & Hs). destruct isnil; [left; by rewrite Hn|right; by exists shown].
  - exists vs. split; [done|]. by apply (clean_struct name).
Qed.

Lemma encode_not_null t v : null_like t = false → clean t v → encode t v ≠ JNull.
Proof. by destruct t, v. Qed.

(** ** The text of a clean value *)
Lemma encode_integral t : ∀ v, integral (encode t v) = true.
Proof.
  induction t as [| | |c|t IH|t IH|name fields IH] using gotype_ind'; intros v; destruct v; try done.
  - destruct v as [x|]; [apply IH|done].
  - cbn. destruct isnil; [done|]. cbn. by induction shown as [|x l IHl]; cbn; rewrite ?IH.
  - rewrite encode_struct. cbn. revert vs. induction IH as [|[[k o] t] fields Ht _ IHf]; intros [|v vs]; try done.
    cbn. destruct (o && is_empty t v); cbn; [apply IHf|]. cbn in Ht. by rewrite Ht, IHf.
Qed.
Lemma coerce_utf8 s : utf8 s = true → coerce s = s.
Proof. apply bool_decide_eq_true. Qed.

Lemma sound_struct name fields : sound (TStruct name fields) = true →
  NoDup (f_key <$> fields) ∧ Forall (λ f, utf8 (f_key f) = true ∧ sound (f_type f) = true) fields.
Proof.
  cbn. intros [[Hnd%bool_decide_eq_true Hu]%andb_prop Hs]%andb_prop. split; [done|]. clear Hnd.
  induction fields as [|f fields IH]; [done|]. cbn in *. apply andb_prop in Hu as [? ?]. apply andb_prop in Hs as [? ?]. by constructor; auto.
Qed.

Lemma reread_encode t : sound t = true → ∀ v, clean t v → reread (encode t v) = encode t v.
Proof.
  induction t as [| | |c|t IH|t IH|name fields IH] using gotype_ind'; intros Ht v Hc%clean_inv.
  - destruct Hc as (s & -> & Hs). cbn. by rewrite coerce_utf8.
  - by destruct Hc as [b ->].
  - by destruct Hc as (z & -> & _).
  - destruct Hc as (s & -> & Hs & _). cbn. by rewrite coerce_utf8.
  - cbn in Ht. apply andb_prop in Ht as [_ Ht]. destruct Hc as [->|(x & -> & Hx)]; [done|]. by apply IH.
  - destruct Hc as [->|(l & -> & Hl)]; [done|]. cbn. f_equal. induction Hl as [|x l Hx _ IHl]; [done|]. cbn. by rewrite IH, IHl.
  - destruct Hc as (vs & -> & Hvs). rewrite encode_struct. cbn. f_equal. apply sound_struct in Ht as [_ Ht].
    induction Hvs as [|[[k o] t] v fields vs [Hv _] _ IHf]; [done|]. inversion IH; subst. inversion Ht as [|? ? [Hk Hs]]; subst. cbn in *.
    rewrite fmap_app, IHf by done. f_equal. destruct (o && is_empty t v); [done|]. cbn. rewrite coerce_utf8 by done. do 3 f_equal. auto.
Qed.

(** ** Decoding it *)
Definition comes_back (t : gotype) : Prop := ∀ v, clean t v → decode (encode t v) t (zero_value t) = Decoded v None.

Lemma decode_list_encoded t l : comes_back t → Forall (clean t) l → decode_list t (encode t <$> l) [] = Decoded l None.
Proof. intros Ht. induction 1 as [|v l Hv _ IH]; [done|]. cbn. by rewrite Ht, decoded_bind_None, IH. Qed.

(** The fields before are there already, those after are zero. *)
Lemma decode_members_encoded fields vs : Forall2 clean_field fields vs → Forall (λ f, comes_back (f_type f)) fields → ∀ before past,
  NoDup (f_key <$> before ++ fields) → length before = length past →
  decode_members (before ++ fields) (encode_fields fields vs) (past ++ ((λ f, zero_value (f_type f)) <$> fields)) = Decoded (past ++ vs) None.
Proof.
  induction 1 as [|f v fields vs [Hv Ho] _ IH]; intros Hcb before past Hnd Hlen; [done|].
  inversion Hcb as [|? ? Hf Hcb']; subst. destruct f as [[k o] t]. unfold f_type, f_omitempty in *. cbn in Hv, Ho, Hf.
  assert (∀ d, past ++ d :: ((λ f : field, zero_value f.2) <$> fields) = (past ++ [d]) ++ ((λ f : field, zero_value f.2) <$> fields)) as Happ
    by (intros; by rewrite <- app_assoc).
  assert (decode_members (before ++ (k, o, t) :: fields) (encode_fields fields vs) ((past ++ [v]) ++ ((λ f : field, zero_value f.2) <$> fields)) =
          Decoded (past ++ v :: vs) None) as Hnext.
  { replace (before ++ (k, o, t) :: fields) with ((before ++ [(k, o, t)]) ++ fields) in * by (by rewrite <- app_assoc).
    rewrite IH; [by rewrite <- app_assoc|done|done|]. rewrite !length_app. cbn. lia. }
  cbn [encode_fields]. destruct (o && is_empty t v) eqn:Hom.
  - cbn. rewrite Happ. rewrite <- (Ho eq_refl). exact Hnext.
  - cbn. rewrite (find_field_exact _ (length before) (k, o, t)) by (done || by apply list_lookup_middle). cbn.
    rewrite Hlen, list_lookup_middle by done. cbn. rewrite Hf by done. cbn. rewrite <- (Nat.add_0_r (length past)), insert_app_r. cbn.
    rewrite Happ, Hnext. done.
Qed.

Lemma decode_encode t : sound t = true → comes_back t.
Proof.
  induction t as [| | |c|t IH|t IH|name fields IH] using gotype_ind'; intros Ht v Hc; pose proof Hc as Hinv%clean_inv.
  - by destruct Hinv as (s & -> & _).
  - by destruct Hinv as [b ->].
  - destruct Hinv as (z & -> & Hz). cbn. by rewrite decide_True.
  - destruct Hinv as (s & -> & _ & Hs). cbn. by rewrite Hs.
  - cbn in Ht. apply andb_prop in Ht as [Hn Ht]. destruct Hinv as [->|(x & -> & Hx)]; [done|].
    specialize (IH Ht x Hx). pose proof (encode_not_null t x ltac:(by apply negb_true_iff) Hx) as Hnn.
    cbn [encode]. destruct (encode t x); [done|..]; cbn in *; by rewrite IH.
  - destruct Hinv as [->|([|x l] & -> & Hl)]; [done..|]. pose proof (decode_list_encoded t (x :: l) (IH Ht) Hl) as Hd.
    cbn [encode fmap list_fmap] in *. rewrite decode_array. cbn [slice_array zero_value app]. by rewrite Hd.
  - destruct Hinv as (vs & -> & Hvs). rewrite encode_struct, decode_object. apply sound_struct in Ht as [Hnd Ht].
    assert (Forall (λ f, comes_back (f_type f)) fields) as Hcb; [|exact (f_equal (decoded_map VStruct) (decode_members_encoded fields vs Hvs Hcb [] [] Hnd eq_refl))].
    clear -IH Ht. induction IH; [done|]. inversion Ht as [|? ? [_ ?]]; subst. constructor; auto.
Qed.

(** What [Marshal] writes and what [Encode] writes are read back as the value,
    also when more follows what was encoded. *)
Lemma parse_encoded t v rest : sound t = true → clean t v → stops rest → parse (Marshal t v +:+ rest) = Parsed (encode t v) rest.
Proof.
  intros Ht Hv Hr. unfold Marshal. rewrite parse_print by (done || apply encode_integral). by rewrite reread_encode.
Qed.
Lemma Unmarshal_Marshal t v : sound t = true → clean t v → Unmarshal t (Marshal t v) (zero_value t) = inl v.
Proof.
  intros Ht Hv. unfold Unmarshal. rewrite <- (str_app_nil_r (Marshal t v)), parse_encoded by done. cbn.
  by rewrite decode_encode.
Qed.
Lemma Decode_Encode t v rest : sound t = true → clean t v → Decode t (Encode t v +:+ rest) (zero_value t) = Some (inl v).
Proof.
  intros Ht Hv. unfold Decode, Encode. rewrite str_app_assoc, parse_encoded by done. cbn. by rewrite decode_encode.
Qed.
Lemma Decode_empty t v : Decode t "" v = None.
Proof. reflexivity. Qed.

(** ** Any text *)

(** A decoder gets to the end of every text, and what it makes of one has the
    type it decodes into. *)
Lemma Unmarshal_shaped t b v v' : shaped t v → Unmarshal t b v = inl v' → shaped t v'.
Proof.
  unfold Unmarshal. intros Hv. destruct (parse b) as [j rest| | |]; try done. case_decide; [|done].
  destruct (decode j t v) as [x [e|]|e] eqn:Hd; try done. intros [= <-]. by eapply decode_shaped.
Qed.
Lemma Decode_shaped t b v v' : shaped t v → Decode t b v = Some (inl v') → shaped t v'.
Proof.
  unfold Decode. intros Hv. destruct (parse b) as [j rest| | |]; try done; try by case_decide.
  destruct (decode j t v) as [x [e|]|e] eqn:Hd; try done. intros [= <-]. by eapply decode_shaped.
Qed.
Lemma Unmarshal_prefix t b v v' : Unmarshal t b v = inl v' → Decode t b v = Some (inl v').
Proof.
  unfold Unmarshal, Decode. destruct (parse b); try done. case_decide; [|done]. by intros ->.
Qed.
End Unmarshal.
