(* ===== verification/Policy.v ===== *)
(** The policy of the API: [LoadPolicy] of pkg/api/auth/authorizer.go on the
    text of etc/policy.json, and the engine under
    vendor/github.com/databus23/goslo.policy that decides by it: its lexer, the
    tables and the driver of its generated parser, and its checks. *)
From S2P Require Import Prelude GoStrings Fmt Json Encoding.
Local Open Scope Z_scope.

(** * The engine *)
Module Oslo.

(** ** The lexer *)

(** [itemType], src/vendor/github.com/databus23/goslo.policy/lex.go:82-100 *)
Inductive itemType :=
| itemError | itemEOF | itemAnd | itemOr | itemNot | itemTrueCheck | itemFalseCheck | itemLeftParen | itemRightParen
| itemString | itemConstString | itemVariable | itemColon | itemBool | itemNumber.
#[export] Instance itemType_eq_dec : EqDecision itemType.
Proof. solve_decision. Defined.
(** [item], src/vendor/github.com/databus23/goslo.policy/lex.go:58-62 *)
Record item := { typ : itemType; i_pos : Z; val : string }.
(** [items], src/vendor/github.com/databus23/goslo.policy/lex.go:102-110 *)
Definition items (word : string) : option itemType :=
  list_to_map (M:=gmap string itemType)
    [("and", itemAnd); ("not", itemNot); ("or", itemOr); ("!", itemFalseCheck); ("@", itemTrueCheck);
     ("True", itemConstString); ("False", itemConstString)] !! word.

(** What is left of the input is its suffix; the channel is in the result of
    the run.
    [lexer], src/vendor/github.com/databus23/goslo.policy/lex.go:118-127 *)
Record lexer := { input : string; pos : Z; start : Z; width : Z }.

(** A slice of a string; [None] is a panic. *)
Definition slice (s : string) (i j : Z) : option string :=
  if decide (0 ≤ i ≤ j ∧ j ≤ Z.of_nat (String.length s))
  then Some (String.substring (Z.to_nat i) (Z.to_nat (j - i)) s) else None.
Definition len (s : string) : Z := Z.of_nat (String.length s).

(** The rune, or [None] for [eof]
    [next], src/vendor/github.com/databus23/goslo.policy/lex.go:130-139 *)
Definition next (l : lexer) : option (option string * lexer) :=
  if decide (len (input l) ≤ pos l) then Some (None, {| input := input l; pos := pos l; start := start l; width := 0 |})
  else
    rest ← slice (input l) (pos l) (len (input l));
    '(r, tail) ← first_rune rest;
    let w := len rest - len tail in
    Some (Some r, {| input := input l; pos := pos l + w; start := start l; width := w |}).
(** [backup], src/vendor/github.com/databus23/goslo.policy/lex.go:142-144 *)
Definition backup (l : lexer) : lexer := {| input := input l; pos := pos l - width l; start := start l; width := width l |}.
(** [ignore], src/vendor/github.com/databus23/goslo.policy/lex.go:153-155 *)
Definition ignore (l : lexer) : lexer := {| input := input l; pos := pos l; start := pos l; width := width l |}.
(** [emit], src/vendor/github.com/databus23/goslo.policy/lex.go:147-150 *)
Definition emit (t : itemType) (l : lexer) : option (item * lexer) :=
  v ← slice (input l) (start l) (pos l);
  Some ({| typ := t; i_pos := start l; val := v |}, ignore l).
(** The width of the rune that was looked at is the one that stays.
    [peek], src/vendor/github.com/databus23/goslo.policy/lex.go:158-162 *)
Definition peek (l : lexer) : option (option string * lexer) := '(r, l) ← next l; Some (r, backup l).

(** [isSpace], src/vendor/github.com/databus23/goslo.policy/lex.go:282-284 *)
Definition isSpace (r : option string) : bool := bool_decide (r = Some " " ∨ r = Some (String (ascii_of_N 9) "")).
Definition is_newline (r : option string) : bool := bool_decide (r = Some (String newline "")).

(** The functions of the state machine, while they loop *)
Inductive stateFn := LexRule | LexItem | LexVariable | LexQuotedString (delimiter : option string).
(** One turn of the loop of a state: on to the next, with what was sent, or
    the last item; [None] is a panic of the goroutine. *)
Inductive turn := Next (st : stateFn) (l : lexer) (sent : option item) | Last (i : item).
Definition to_rule (sent : item * lexer) : turn := Next LexRule (snd sent) (Some (fst sent)).
(** [errorf], src/vendor/github.com/databus23/goslo.policy/lex.go:166-169 *)
Definition lex_errorf (l : lexer) (text : string) : turn := Last {| typ := itemError; i_pos := start l; val := text |}.

(** [lexRule], src/vendor/github.com/databus23/goslo.policy/lex.go:179-204 *)
Definition lexRule (l : lexer) : option turn :=
  '(r, l) ← next l;
  if decide (r = None) then '(i, _) ← emit itemEOF l; Some (Last i)
  else if isSpace r then Some (Next LexRule (ignore l) None)
  else
    '(variable, l) ← (if decide (r = Some "%") then '(p, l) ← peek l; Some (bool_decide (p = Some "("), l) else Some (false, l));
    if (variable : bool) then '(_, l) ← next l; Some (Next LexVariable (ignore l) None)
    else if decide (r = Some "(") then to_rule <$> emit itemLeftParen l
    else if decide (r = Some ")") then to_rule <$> emit itemRightParen l
    else if decide (r = Some ":") then to_rule <$> emit itemColon l
    else if decide (r = Some (String dquote "") ∨ r = Some "'") then Some (Next (LexQuotedString r) (ignore l) None)
    else Some (Next LexItem (backup l) None).

(** [^[-+]?\d+$] *)
Definition is_integer (word : string) : bool :=
  let digits s := bool_decide (s ≠ "") && str_all is_digit s in
  match word with
  | String c s => if decide (c = "-"%char ∨ c = "+"%char) then digits s else digits word
  | EmptyString => false
  end.
Definition ends_item (r : option string) : bool :=
  isSpace r || bool_decide (r = None ∨ r = Some ":" ∨ r = Some ")" ∨ r = Some "(").
(** [lexItem], src/vendor/github.com/databus23/goslo.policy/lex.go:207-226 *)
Definition lexItem (l : lexer) : option turn :=
  '(r, l) ← next l;
  if ends_item r then
    let l := backup l in
    word ← slice (input l) (start l) (pos l);
    to_rule <$> emit (match items word with
                      | Some i => i
                      | None => if is_integer word then itemConstString else itemString
                      end) l
  else Some (Next LexItem l None).

(** [lexVariable], src/vendor/github.com/databus23/goslo.policy/lex.go:228-245 *)
Definition lexVariable (l : lexer) : option turn :=
  '(r, l) ← next l;
  if isSpace r || bool_decide (r = None) then Some (lex_errorf l "unterminated variable")
  else
    '(found, l) ← (if decide (r = Some ")") then '(p, l) ← peek l; Some (bool_decide (p = Some "s"), l) else Some (false, l));
    if (found : bool) then
      '(i, l) ← emit itemVariable (backup l);
      '(_, l) ← next l; '(_, l) ← next l;
      Some (Next LexRule (ignore l) (Some i))
    else Some (Next LexVariable l None).

(** [lexQuotedString], src/vendor/github.com/databus23/goslo.policy/lex.go:247-270 *)
Definition lexQuotedString (delimiter : option string) (l : lexer) : option turn :=
  let unterminated l := Some (lex_errorf l "unterminated character constant") in
  '(r, l) ← next l;
  if decide (r = Some (String backslash "")) then
    '(r, l) ← next l;
    if bool_decide (r = None) || is_newline r then unterminated l else Some (Next (LexQuotedString delimiter) l None)
  else if bool_decide (r = None) || is_newline r then unterminated l
  else if decide (r = delimiter) then
    '(i, l) ← emit itemConstString (backup l);
    '(_, l) ← next l;
    Some (Next LexRule (ignore l) (Some i))
  else Some (Next (LexQuotedString delimiter) l None).

Definition lex_turn (st : stateFn) (l : lexer) : option turn :=
  match st with
  | LexRule => lexRule l
  | LexItem => lexItem l
  | LexVariable => lexVariable l
  | LexQuotedString d => lexQuotedString d l
  end.

(** The items that are sent before the channel is closed, the goroutine
    panics, or the fuel is used up *)
Inductive lexed := Closed (l : list item) | LexPanic (l : list item) | LexFuel.
Definition lexed_cons (sent : option item) (r : lexed) : lexed :=
  match sent with
  | None => r
  | Some i => match r with Closed l => Closed (i :: l) | LexPanic l => LexPanic (i :: l) | LexFuel => LexFuel end
  end.
(** [run], src/vendor/github.com/databus23/goslo.policy/lex.go:172-177 *)
Fixpoint run (fuel : nat) (st : stateFn) (l : lexer) : lexed :=
  match fuel with
  | O => LexFuel
  | S fuel =>
      match lex_turn st l with
      | None => LexPanic []
      | Some (Last i) => Closed [i]
      | Some (Next st l sent) => lexed_cons sent (run fuel st l)
      end
  end.
(** [newLexer], src/vendor/github.com/databus23/goslo.policy/lex.go:272-279 *)
Definition newLexer (rule : string) : lexed :=
  run (S (3 * String.length rule + 3)) LexRule {| input := rule; pos := 0; start := 0; width := 0 |}.

Example lex_words : (λ l, match l with Closed l => Some ((λ i, (typ i, val i)) <$> l) | _ => None end)
  (newLexer "role:admin or (not user_id:%(target.id)s and 'a b':-12)") =
  Some [(itemString, "role"); (itemColon, ":"); (itemString, "admin"); (itemOr, "or"); (itemLeftParen, "("); (itemNot, "not");
    (itemString, "user_id"); (itemColon, ":"); (itemVariable, "target.id"); (itemAnd, "and"); (itemConstString, "a b"); (itemColon, ":");
    (itemConstString, "-12"); (itemRightParen, ")"); (itemEOF, "")].
Proof. vm_compute. reflexivity. Qed.

(** ** Rules *)

(** What the parser makes of a rule: its closures as data
    [rule], src/vendor/github.com/databus23/goslo.policy/policy.go:11-11 *)
Inductive rule :=
| RTrue
| RFalse
| RNot (f : rule)
| ROr (left right : rule)
| RAnd (left right : rule)
| RGenericCheck (key match_ : string) (isVariable : bool)
| RCheckVariable (variable match_ : string).
#[export] Instance rule_eq_dec : EqDecision rule.
Proof. solve_decision. Defined.

(** ** The generated parser *)

(** [yyExca], src/vendor/github.com/databus23/goslo.policy/parser.go:56-60 *)
Definition yyExca : list (Z * Z) := [(-1, 1); (1, -1); (-2, 0)].
Definition yyLast : Z := 25.
(** [yyAct], src/vendor/github.com/databus23/goslo.policy/parser.go:70-75 *)
Definition yyAct : list Z :=
  [4; 22; 8; 9; 21; 19; 20; 3; 2; 6; 7; 18; 12; 13; 11; 11; 10; 11; 10; 16; 17; 15; 14; 1; 5].
(** [yyPact], src/vendor/github.com/databus23/goslo.policy/parser.go:76-81 *)
Definition yyPact : list Z :=
  [-4; -1000; 8; -4; -4; -1000; 14; 13; -1000; -1000; -4; -4; -1000; 6; -8; -11; 5; -1000; -1000; -1000; -1000; -1000; -1000].
(** [yyPgo], src/vendor/github.com/databus23/goslo.policy/parser.go:82-85 *)
Definition yyPgo : list Z := [0; 24; 8; 23].
(** [yyR1], src/vendor/github.com/databus23/goslo.policy/parser.go:86-90 *)
Definition yyR1 : list Z := [0; 3; 3; 2; 2; 2; 2; 2; 1; 1; 1; 1; 1; 1].
(** [yyR2], src/vendor/github.com/databus23/goslo.policy/parser.go:91-95 *)
Definition yyR2 : list Z := [0; 0; 1; 2; 3; 3; 3; 1; 3; 3; 3; 3; 1; 1].
(** [yyChk], src/vendor/github.com/databus23/goslo.policy/parser.go:96-101 *)
Definition yyChk : list Z :=
  [-1000; -3; -2; 11; 4; -1; 13; 14; 6; 7; 10; 9; -2; -2; 8; 8; -2; -2; 5; 13; 14; 12; 12].
(** [yyDef], src/vendor/github.com/databus23/goslo.policy/parser.go:102-107 *)
Definition yyDef : list Z := [1; -2; 2; 0; 0; 7; 0; 0; 12; 13; 0; 0; 3; 0; 0; 0; 5; 6; 4; 8; 9; 10; 11].
(** [yyTok1], src/vendor/github.com/databus23/goslo.policy/parser.go:108-117 *)
Definition yyTok1 : list Z :=
  [1; 3; 3; 3; 3; 3; 3; 3; 3; 3;
   3; 3; 3; 3; 3; 3; 3; 3; 3; 3;
   3; 3; 3; 3; 3; 3; 3; 3; 3; 3;
   3; 3; 3; 7; 3; 3; 3; 3; 3; 3;
   4; 5; 3; 3; 3; 3; 3; 3; 3; 3;
   3; 3; 3; 3; 3; 3; 3; 3; 8; 3;
   3; 3; 3; 3; 6].
(** [yyTok2], src/vendor/github.com/databus23/goslo.policy/parser.go:118-121 *)
Definition yyTok2 : list Z := [2; 3; 9; 10; 11; 12; 13; 14; 15; 16].
Definition yyPrivate : Z := 57344.
Definition yyFlag : Z := -1000.
Definition yyEOFCode : Z := 1.
Definition yyErrCode : Z := 2.
(** An index out of range is a panic. *)
Definition at_ (table : list Z) (i : Z) : option Z := if decide (0 ≤ i) then table !! Z.to_nat i else None.

(** The token of an item; the numbers are the generated constants.
    [Lex], src/vendor/github.com/databus23/goslo.policy/lex.go:14-52 *)
Definition Lex (t : itemType) : Z :=
  match t with
  | itemEOF => 0
  | itemLeftParen => 40
  | itemRightParen => 41
  | itemTrueCheck => 64
  | itemFalseCheck => 33
  | itemColon => 58
  | itemAnd => 57346
  | itemOr => 57347
  | itemNot => 57348
  | itemVariable => 57349
  | itemString => 57350
  | itemConstString => 57351
  | itemNumber => 57352
  | itemBool => 57353
  | itemError => 1
  end.
(** Its number in the tables; no token needs [yyTok3].
    [yylex1], src/vendor/github.com/databus23/goslo.policy/parser.go:158-191 *)
Definition yylex1 (char : Z) : Z :=
  let c := if decide (char ≤ 0) then default 0 (at_ yyTok1 0)
           else if decide (char < Z.of_nat (length yyTok1)) then default 0 (at_ yyTok1 char)
           else if decide (yyPrivate ≤ char < yyPrivate + Z.of_nat (length yyTok2)) then default 0 (at_ yyTok2 (char - yyPrivate))
           else 0 in
  if decide (c = 0) then default 0 (at_ yyTok2 1) else c.

(** [yySymType], src/vendor/github.com/databus23/goslo.policy/parser.go:15-21 *)
Record yySymType := { f : option rule; str : string }.
Definition yyZero : yySymType := {| f := None; str := "" |}.

(** The variables of the driver: the stack with its states, its top first; the
    items to come, and whether the lexer panics after them; what the parser
    left in the lexer, [inl] an error's text *)
Record yy := {
  yyS : list (Z * yySymType); yystate : Z; yyVAL : yySymType; yychar : Z; yylval : yySymType; Errflag : Z;
  feed : list item; panics : bool; parseResult : option (unit + rule) }.

(** A token of a channel that is closed is the zero item. *)
Definition lookahead (p : yy) : option yy :=
  if decide (0 ≤ yychar p) then Some p
  else
    let read t v l :=
      {| yyS := yyS p; yystate := yystate p; yyVAL := yyVAL p; yychar := yylex1 (Lex t); yylval := {| f := None; str := v |};
         Errflag := Errflag p; feed := l; panics := panics p; parseResult := parseResult p |} in
    match feed p with
    | i :: l => Some (read (typ i) (val i) l)
    | [] => if panics p then None else Some (read itemError "" [])
    end.

(** Where the driver goes: to [yystack], to [yynewstate], or it returns. *)
Inductive move := Stack (p : yy) | NewState (p : yy) | Return0 (p : yy) | Return1.

(** The pieces of the state that a shift and a reduction change *)
Definition shifted (p : yy) (n : Z) : yy :=
  {| yyS := yyS p; yystate := n; yyVAL := yylval p; yychar := -1; yylval := yylval p;
     Errflag := if decide (0 < Errflag p) then Errflag p - 1 else Errflag p;
     feed := feed p; panics := panics p; parseResult := parseResult p |}.
Definition reduced (p : yy) (stack : list (Z * yySymType)) (st : Z) (v : yySymType) (res : option (unit + rule)) : yy :=
  {| yyS := stack; yystate := st; yyVAL := v; yychar := yychar p; yylval := yylval p; Errflag := Errflag p;
     feed := feed p; panics := panics p; parseResult := res |}.
Definition failed (p : yy) (stack : list (Z * yySymType)) (st : Z) (char flag : Z) (res : option (unit + rule)) : yy :=
  {| yyS := stack; yystate := st; yyVAL := yyVAL p; yychar := char; yylval := yylval p; Errflag := flag;
     feed := feed p; panics := panics p; parseResult := res |}.

(** The semantic actions: the value of the left hand side and the result.  The
    value is [$1]'s where an action sets none, and the grammar gives every
    operand a rule.
    [yyParse], src/vendor/github.com/databus23/goslo.policy/parser.go:349-425 *)
Definition action (n : Z) (stack : list (Z * yySymType)) (v : yySymType) (res : option (unit + rule)) :
    option (yySymType * option (unit + rule)) :=
  let S0 := default yyZero (stack.*2 !! 0%nat) in
  let S1 := default yyZero (stack.*2 !! 1%nat) in
  let S2 := default yyZero (stack.*2 !! 2%nat) in
  let sets r := Some ({| f := Some r; str := str v |}, res) in
  match n with
  | 1 => Some (v, Some (inr RTrue))
  | 2 => r ← f S0; Some (v, Some (inr r))
  | 3 => r ← f S0; sets (RNot r)
  | 4 => r ← f S1; sets r
  | 5 => left ← f S2; right ← f S0; sets (ROr left right)
  | 6 => left ← f S2; right ← f S0; sets (RAnd left right)
  | 7 => Some ({| f := f S0; str := str v |}, res)
  | 8 | 9 => sets (RGenericCheck (str S2) (str S0) false)
  | 10 => sets (RGenericCheck (str S2) (str S0) true)
  | 11 => sets (RCheckVariable (str S0) (str S2))
  | 12 => sets RTrue
  | 13 => sets RFalse
  | _ => Some (v, res)
  end.

(** A reduction: the goto table is consulted with the state below.  Nothing
    reads what an empty production leaves as its value.
    [yyParse], src/vendor/github.com/databus23/goslo.policy/parser.go:328-347 *)
Definition reduce (p : yy) (n : Z) : option yy :=
  k ← at_ yyR2 n;
  let v := default yyZero ((yyS p).*2 !! Z.to_nat (k - 1)) in
  let below := drop (Z.to_nat k) (yyS p) in
  '(exposed, _) ← head below;
  nt ← at_ yyR1 n;
  g ← at_ yyPgo nt;
  let j := g + exposed + 1 in
  st ← (if decide (yyLast ≤ j) then at_ yyAct g
        else st ← at_ yyAct j; chk ← at_ yyChk st; if decide (chk = - nt) then Some st else at_ yyAct g);
  '(v, res) ← action n (yyS p) (if decide (k = 0) then yyZero else v) (parseResult p);
  Some (reduced p below st v res).

(** The states are popped until one shifts the error token.
    [yyParse], src/vendor/github.com/databus23/goslo.policy/parser.go:292-310 *)
Fixpoint recover (stack : list (Z * yySymType)) (st : Z) : option (option (list (Z * yySymType) * Z)) :=
  match stack with
  | [] => Some None
  | (s, v) :: below =>
      n ← at_ yyPact s;
      let n := n + yyErrCode in
      if decide (0 ≤ n < yyLast) then
        st ← at_ yyAct n;
        chk ← at_ yyChk st;
        if decide (chk = yyErrCode) then Some (Some (stack, st)) else recover below st
      else recover below st
  end.
(** [yyParse], src/vendor/github.com/databus23/goslo.policy/parser.go:277-320 *)
Definition syntax_error (p : yy) : option move :=
  if decide (Errflag p = 3) then
    if decide (yychar p = yyEOFCode) then Some Return1
    else Some (NewState (failed p (yyS p) (yystate p) (-1) 3 (parseResult p)))
  else
    let res := if decide (Errflag p = 0) then Some (inl tt) else parseResult p in
    found ← recover (yyS p) (yystate p);
    match found with
    | Some (stack, st) => Some (Stack (failed p stack st (yychar p) 3 res))
    | None => Some Return1
    end.

(** The exceptions of a state: those after its entry, up to the next state's *)
Fixpoint exceptions (st : Z) (l : list (Z * Z)) : option (list (Z * Z)) :=
  match l with
  | [] => None
  | (a, b) :: l => if decide (a = -1 ∧ b = st) then Some l else exceptions st l
  end.
Fixpoint exception (char : Z) (l : list (Z * Z)) : option Z :=
  match l with
  | [] => None
  | (a, b) :: l => if decide (a < 0 ∨ a = char) then Some b else exception char l
  end.
(** [yydefault]: the default action of a state
    [yyParse], src/vendor/github.com/databus23/goslo.policy/parser.go:250-276 *)
Definition yydefault (p : yy) : option move :=
  n ← at_ yyDef (yystate p);
  let act (p : yy) (n : Z) : option move := if decide (n = 0) then syntax_error p else Stack <$> reduce p n in
  if decide (n = -2) then
    p ← lookahead p;
    n ← exceptions (yystate p) yyExca ≫= exception (yychar p);
    if decide (n < 0) then Some (Return0 p) else act p n
  else act p n.
(** [yynewstate]: a shift, or the default action
    [yyParse], src/vendor/github.com/databus23/goslo.policy/parser.go:227-248 *)
Definition yynewstate (p : yy) : option move :=
  n ← at_ yyPact (yystate p);
  if decide (n ≤ yyFlag) then yydefault p
  else
    p ← lookahead p;
    let n := n + yychar p in
    if decide (0 ≤ n < yyLast) then
      n ← at_ yyAct n;
      chk ← at_ yyChk n;
      if decide (chk = yychar p) then Some (Stack (shifted p n)) else yydefault p
    else yydefault p.
(** [yystack]: the state and the value are put onto the stack.
    [yyParse], src/vendor/github.com/databus23/goslo.policy/parser.go:212-225 *)
Definition yystack (p : yy) : yy :=
  {| yyS := (yystate p, yyVAL p) :: yyS p; yystate := yystate p; yyVAL := yyVAL p; yychar := yychar p; yylval := yylval p;
     Errflag := Errflag p; feed := feed p; panics := panics p; parseResult := parseResult p |}.

Inductive parsed_rule := Rule (r : rule) | SyntaxErr | ParsePanic | ParseFuel.
#[export] Instance parsed_rule_eq_dec : EqDecision parsed_rule.
Proof. solve_decision. Defined.
(** The driver; [p] has its state and value on the stack.  What is returned
    with 0 is asserted to be a rule.
    [yyParse], src/vendor/github.com/databus23/goslo.policy/parser.go:193-211 *)
Fixpoint drive (fuel : nat) (p : yy) : parsed_rule :=
  match fuel with
  | O => ParseFuel
  | S fuel =>
      match yynewstate p with
      | None => ParsePanic
      | Some (Stack p) => drive fuel (yystack p)
      | Some (NewState p) => drive fuel p
      | Some (Return0 p) => match parseResult p with Some (inr r) => Rule r | _ => ParsePanic end
      | Some Return1 => SyntaxErr
      end
  end.
Definition yyStart (l : list item) (panics : bool) : yy :=
  yystack {| yyS := []; yystate := 0; yyVAL := yyZero; yychar := -1; yylval := yyZero; Errflag := 0;
             feed := l; panics := panics; parseResult := None |}.
Definition yyParse (l : list item) (panics : bool) : parsed_rule :=
  drive (5 * length l + 4) (yyStart l panics).
Definition parse_rule (text : string) : parsed_rule :=
  match newLexer text with
  | Closed l => yyParse l false
  | LexPanic l => yyParse l true
  | LexFuel => ParseFuel
  end.

Example rule_precedence : parse_rule "role:a or not rule:b and ('x':%(y)s or @) and user_id:%(z)s" =
  Rule (ROr (RGenericCheck "role" "a" false)
    (RAnd (RAnd (RNot (RGenericCheck "rule" "b" false)) (ROr (RCheckVariable "y" "x") RTrue)) (RGenericCheck "user_id" "z" true))).
Proof. vm_compute. reflexivity. Qed.
Example rule_empty : parse_rule "" = Rule RTrue.
Proof. vm_compute. reflexivity. Qed.
Example rule_wrong : parse_rule "role:a role:b" = SyntaxErr ∧ parse_rule "role" = SyntaxErr ∧ parse_rule "(@" = SyntaxErr.
Proof. vm_compute. done. Qed.

(** ** The parser returns *)

(** What is left to do: the tokens, and more for a symbol of the stack the
    lower it is in the grammar *)
Definition weight (st : Z) : nat :=
  match at_ yyChk st with
  | Some c => if decide (4 ≤ c) then 4 else if decide (c = -1) then 3 else if decide (c = -2) then 2 else 1
  | None => 1
  end.
Definition stack_weight (l : list (Z * yySymType)) : nat := sum_list (weight <$> l.*1).
Definition at_start (st : Z) : nat := if decide (st = 0) then 2 else 0.
Definition ahead (char : Z) : nat := if decide (4 ≤ char) then 5 else 0.
Definition left_to_do (p : yy) : nat :=
  (5 * length (feed p) + ahead (yychar p) + stack_weight (yyS p) + at_start (yystate p))%nat.
(** The driver between its moves: no error has been found. *)
Definition proceeds (p : yy) : Prop := Errflag p = 0 ∧ ∃ v below, yyS p = (yystate p, v) :: below.

Lemma at_elem l i x : at_ l i = Some x → x ∈ l.
Proof. unfold at_. case_decide; [apply list_elem_of_lookup_2|done]. Qed.
Lemma at_below l i x : at_ l i = Some x → In i (Z.of_nat <$> seq 0 (length l)).
Proof.
  unfold at_. case_decide; [|done]. intros Hlt%lookup_lt_Some. apply list_elem_of_In, list_elem_of_fmap.
  exists (Z.to_nat i). split; [lia|]. apply elem_of_seq. lia.
Qed.
Lemma weight_pos st : (1 ≤ weight st)%nat.
Proof. unfold weight. repeat case_match; lia. Qed.
(** A property of all entries of a table is checked entry by entry. *)
Lemma at_forall (P : Z → Prop) `{!∀ x, Decision (P x)} l i x : bool_decide (Forall P l) = true → at_ l i = Some x → P x.
Proof. intros Hall%bool_decide_eq_true Hx%at_elem. rewrite Forall_forall in Hall. auto. Qed.
Lemma chk_token i c : at_ yyChk i = Some c → c < 0 ∨ 4 ≤ c.
Proof. apply (at_forall (λ c, c < 0 ∨ 4 ≤ c)). reflexivity. Qed.

(** No state shifts the error token. *)
Lemma recover_never stack st : recover stack st = Some None ∨ recover stack st = None.
Proof.
  revert st. induction stack as [|[s v] below IH]; intros st; cbn; [by left|].
  destruct (at_ yyPact s) as [n|]; cbn; [|by right]. case_decide; [|apply IH].
  destruct (at_ yyAct _) as [a|]; cbn; [|by right]. destruct (at_ yyChk a) as [c|] eqn:Hc; cbn; [|by right].
  apply chk_token in Hc. unfold yyErrCode. case_decide; [lia|apply IH].
Qed.

Lemma lookahead_spec p p' : lookahead p = Some p' → proceeds p →
  proceeds p' ∧ 0 ≤ yychar p' ∧ (left_to_do p' ≤ left_to_do p)%nat ∧ yystate p' = yystate p.
Proof.
  unfold lookahead, left_to_do. case_decide; [by intros [= <-]|]. intros Hp [He Hs].
  assert (∀ t, 0 ≤ yylex1 (Lex t)) as Hchar by (by intros []).
  destruct (feed p) as [|i l] eqn:Hf; [destruct (panics p); [done|]|]; injection Hp as <-; cbn [feed yychar yyS yystate];
    (split_and!; [by split|first [apply Hchar|apply (Hchar itemError)]| |done]).
  - assert (ahead (yylex1 1) = 0%nat) as -> by reflexivity. lia.
  - assert (ahead (yylex1 (Lex (typ i))) ≤ 5)%nat by (unfold ahead; case_decide; lia). cbn [length]. lia.
Qed.

(** The state a reduction goes to is one of its left hand side. *)
Lemma goto_symbol g nt j st : at_ yyAct g ≫= at_ yyChk = Some (- nt) →
  (if decide (yyLast ≤ j) then at_ yyAct g
   else st ← at_ yyAct j; chk ← at_ yyChk st; if decide (chk = - nt) then Some st else at_ yyAct g) = Some st →
  at_ yyChk st = Some (- nt).
Proof.
  intros Hg. case_decide; [intros Hs; by rewrite Hs in Hg|].
  destruct (at_ yyAct j) as [a|]; cbn; [|done]. destruct (at_ yyChk a) as [c|] eqn:Hc; cbn; [|done].
  case_decide; [intros [= <-]; by subst|]. intros Hs. by rewrite Hs in Hg.
Qed.

Lemma reduce_inv p n p' : reduce p n = Some p' → ∃ k nt g exposed w below st v res,
  at_ yyR2 n = Some k ∧ at_ yyR1 n = Some nt ∧ at_ yyPgo nt = Some g ∧ drop (Z.to_nat k) (yyS p) = (exposed, w) :: below ∧
  (at_ yyAct g ≫= at_ yyChk = Some (- nt) → at_ yyChk st = Some (- nt)) ∧ p' = reduced p ((exposed, w) :: below) st v res.
Proof.
  unfold reduce. intros (k & Hk & Hr)%bind_Some. apply bind_Some in Hr as ([exposed w] & Hh & Hr).
  apply bind_Some in Hr as (nt & Hnt & Hr). apply bind_Some in Hr as (g & Hg & Hr). apply bind_Some in Hr as (st & Hst & Hr).
  apply bind_Some in Hr as ([v res] & _ & [= <-]). destruct (drop _ _) as [|x below] eqn:Hd; [done|]. injection Hh as ->.
  exists k, nt, g, exposed, w, below, st, v, res. split_and!; try done. intros Hgoto. by eapply goto_symbol.
Qed.
Lemma symbol_weight st c : at_ yyChk st = Some c → c < 0 → weight st = if decide (c = -1) then 3%nat else if decide (c = -2) then 2%nat else 1%nat.
Proof. unfold weight. intros -> ?. by rewrite decide_False by lia. Qed.
Lemma symbol_not_start st c : at_ yyChk st = Some c → c ≠ -1000 → at_start st = 0%nat.
Proof. unfold at_start. intros Hc Hn. case_decide; [subst; by injection Hc as <-|done]. Qed.

(** The weight of a state that is known *)
Ltac weigh := repeat match goal with
  | |- context [weight 0] => change (weight 0) with 1%nat
  | |- context [weight (Z.of_nat ?n)] => let x := eval vm_compute in (weight (Z.of_nat n)) in change (weight (Z.of_nat n)) with x
  | |- context [at_start (Z.of_nat ?n)] => let x := eval vm_compute in (at_start (Z.of_nat n)) in change (at_start (Z.of_nat n)) with x
  | |- context [if ?d then ?x else ?y] => let v := eval vm_compute in (if d then x else y) in change (if d then x else y) with v
  end.
Lemma reduce_less p n p' : at_ yyDef (yystate p) = Some n → n ≠ 0 → proceeds p → reduce p n = Some p' →
  proceeds (yystack p') ∧ (left_to_do (yystack p') < left_to_do p)%nat.
Proof.
  intros Hn H0 (He & v & below & Hs) (k & nt & g & exposed & w & below' & st & v' & res & Hk & Hnt & Hg & Hd & Hst & ->)%reduce_inv.
  split; [split; [done|by eexists _, _]|]. unfold left_to_do. rewrite Hs in *. clear Hs. pose proof (at_below _ _ _ Hn) as Hin. cbn in Hin.
  destruct_or! Hin; try done; rewrite <- Hin in *; injection Hn as <-; try done.
  all: injection Hk as <-; injection Hnt as <-; injection Hg as <-; specialize (Hst eq_refl).
  all: pose proof (symbol_weight _ _ Hst eq_refl) as Hw; pose proof (symbol_not_start _ _ Hst ltac:(done)) as Hz.
  all: unfold stack_weight, reduced, yystack in *; cbn [yyS yystate yychar feed fmap list_fmap fst sum_list foldr]; rewrite Hw, Hz.
  all: destruct below as [|[s1 w1] [|[s2 w2] below]]; simplify_eq/=; rewrite ?drop_0 in *; simplify_eq/=.
  all: weigh; unfold id; repeat match goal with |- context [weight ?s] => pose proof (weight_pos s); generalize dependent (weight s); intros end; lia.
Qed.

Lemma exception_spec st char m : exceptions st yyExca ≫= exception char = Some m → m < 0 ∨ m = 0.
Proof. cbn. repeat (case_decide; cbn; try done); intros [= <-]; auto with lia. Qed.
Lemma yydefault_less p : proceeds p →
  match yydefault p with
  | Some (Stack p') => proceeds (yystack p') ∧ (left_to_do (yystack p') < left_to_do p)%nat
  | Some (NewState _) => False
  | _ => True
  end.
Proof.
  intros Hp. unfold yydefault. destruct (at_ yyDef (yystate p)) as [n|] eqn:Hn; cbn [mbind option_bind]; [|done].
  assert (∀ p, proceeds p → match syntax_error p with Some (Stack _ | NewState _) => False | _ => True end) as Herr.
  { intros q [He _]. unfold syntax_error. rewrite decide_False by lia. by destruct (recover_never (yyS q) (yystate q)) as [-> | ->]. }
  case_decide.
  - destruct (lookahead p) as [q|] eqn:Hq; cbn [mbind option_bind]; [|done].
    apply lookahead_spec in Hq as (Hproc & _ & _ & _); [|done].
    destruct (exceptions (yystate q) yyExca ≫= exception (yychar q)) as [m|] eqn:Hm; cbn [mbind option_bind]; [|done]. case_decide; [done|].
    apply exception_spec in Hm as [?| ->]; [lia|]. rewrite decide_True by done. specialize (Herr _ Hproc). by repeat case_match.
  - case_decide; [specialize (Herr _ Hp); by repeat case_match|]. destruct (reduce p n) as [q|] eqn:Hr; cbn; [|done].
    by eapply reduce_less.
Qed.
Lemma yynewstate_less p : proceeds p →
  match yynewstate p with
  | Some (Stack p') => proceeds (yystack p') ∧ (left_to_do (yystack p') < left_to_do p)%nat
  | Some (NewState _) => False
  | _ => True
  end.
Proof.
  intros Hp. unfold yynewstate. destruct (at_ yyPact _) as [n|]; cbn [mbind option_bind]; [|done].
  case_decide; [by apply yydefault_less|]. destruct (lookahead p) as [q|] eqn:Hq; cbn [mbind option_bind]; [|done].
  apply lookahead_spec in Hq as (Hproc & Hchar & Hle & _); [|done].
  assert (match yydefault q with
    | Some (Stack p') => proceeds (yystack p') ∧ (left_to_do (yystack p') < left_to_do p)%nat
    | Some (NewState _) => False
    | _ => True
    end) as Hdef by (pose proof (yydefault_less q Hproc); repeat case_match; naive_solver lia).
  case_decide; [|done]. destruct (at_ yyAct _) as [m|]; cbn [mbind option_bind]; [|done].
  destruct (at_ yyChk m) as [c|] eqn:Hc; cbn [mbind option_bind]; [|done]. case_decide as Hcc; [|done].
  pose proof (chk_token _ _ Hc) as Htok. pose proof (symbol_not_start _ _ Hc ltac:(lia)) as Hz.
  destruct Hproc as [He Hs]. split; [split; [|by eexists _, _]|].
  - unfold shifted, yystack. cbn [Errflag]. rewrite decide_False; lia.
  - enough (left_to_do (yystack (shifted q m)) < left_to_do q)%nat by lia. unfold left_to_do, shifted, yystack, stack_weight, ahead.
    cbn [yyS yystate yychar feed fmap list_fmap fst sum_list foldr]. rewrite Hz, decide_False, decide_True by lia.
    assert (weight m = 4%nat) as -> by (unfold weight; rewrite Hc; by rewrite decide_True by lia). unfold id. cbn. lia.
Qed.

(** Whatever the items are, the driver comes to an end within its fuel. *)
Lemma yyParse_ends l panics : yyParse l panics ≠ ParseFuel.
Proof.
  unfold yyParse. assert (∀ fuel p, proceeds p → (left_to_do p < fuel)%nat → drive fuel p ≠ ParseFuel) as Hd.
  - induction fuel as [|fuel IH]; intros p Hp Hf; [lia|]. cbn [drive]. pose proof (yynewstate_less p Hp) as Hn.
    destruct (yynewstate p) as [[q|q|q|]|]; try done; [apply IH; naive_solver lia|]. by destruct (parseResult q) as [[]|].
  - apply Hd; [split; [done|by eexists _, _]|]. unfold left_to_do. cbn -[Nat.mul]. change (ahead (-1)) with 0%nat. weigh. change (at_start 0) with 2%nat. lia.
Qed.

(** ** The lexer of an ASCII text closes the channel *)
Section Ascii.
Context (text : string) (Htext : str_all (byte_in 0 127) text = true).
Notation at_pos p s w := {| input := text; pos := p; start := s; width := w |}.

Definition char_at (i : Z) : option string := (λ c, String c "") <$> String.get (Z.to_nat i) text.

Lemma get_lt (s : string) n c : String.get n s = Some c → (n < String.length s)%nat.
Proof. revert n. induction s as [|d s IH]; intros [|n]; cbn; try done; [lia|]. intros ?%IH. lia. Qed.
Lemma get_None (s : string) n : String.get n s = None → (String.length s ≤ n)%nat.
Proof. revert n. induction s as [|d s IH]; intros [|n]; cbn; try done; [lia|]. intros ?%IH. lia. Qed.
Lemma substring_cons (s : string) n m c : String.get n s = Some c → (n < m)%nat → m = String.length s →
  String.substring n (m - n) s = String c (String.substring (S n) (m - S n) s).
Proof.
  intros Hc Hn ->. revert n Hc Hn. induction s as [|d s IH]; [done|]. intros [|n]; cbn; intros Hc Hn.
  - injection Hc as ->. f_equal. by rewrite Nat.sub_0_r.
  - rewrite IH by (done || lia). done.
Qed.
Lemma substring_length (s : string) n m : (n + m ≤ String.length s)%nat → String.length (String.substring n m s) = m.
Proof. revert n m. induction s as [|d s IH]; intros [|n] [|m]; cbn; intros Hl; rewrite ?IH; lia. Qed.
Lemma get_ascii (s : string) n c : str_all (byte_in 0 127) s = true → String.get n s = Some c → byte_in 0 127 c = true.
Proof. revert n. induction s as [|d s IH]; intros [|n]; cbn; try done; intros [Hd Hs]%andb_true_iff; [by intros [= <-]|by apply IH]. Qed.

Lemma next_at p s w : 0 ≤ p ≤ len text →
  next (at_pos p s w) = Some (match char_at p with Some r => (Some r, at_pos (p + 1) s 1) | None => (None, at_pos p s 0) end) ∧
  (p < len text ↔ is_Some (char_at p)).
Proof.
  intros Hp. unfold next, char_at, len in *. cbn [input pos start width]. destruct (String.get _ _) as [c|] eqn:Hc; cbn [fmap option_fmap option_map].
  - pose proof (get_lt _ _ _ Hc). split; [|split; [by eexists|lia]]. rewrite decide_False by lia. unfold slice.
    rewrite decide_True by lia. cbn [mbind option_bind].
    replace (Z.to_nat (Z.of_nat (String.length text) - p)) with (String.length text - Z.to_nat p)%nat by lia.
    rewrite (substring_cons _ _ _ c) by (done || lia). cbn [first_rune]. rewrite (get_ascii _ _ _ Htext Hc). cbn [mbind option_bind].
    cbn [String.length]. do 4 f_equal; lia.
  - pose proof (get_None _ _ Hc). split; [by rewrite decide_True by lia|split; [lia|by intros [? [=]]]].
Qed.
Lemma emit_at t p s w : 0 ≤ s ≤ p → p ≤ len text → ∃ v, slice text s p = Some v ∧
  emit t (at_pos p s w) = Some ({| typ := t; i_pos := s; val := v |}, at_pos p p w).
Proof. intros Hs Hp. unfold emit, slice, len in *. cbn [input pos start]. rewrite decide_True by lia. by eexists. Qed.

(** Where a state begins, and what is left to do there *)
Definition lexes (st : stateFn) (l : lexer) : Prop :=
  input l = text ∧ 0 ≤ start l ≤ pos l ∧ pos l ≤ len text ∧
  (st = LexRule → start l = pos l) ∧
  (st = LexItem → start l = pos l → ends_item (char_at (pos l)) = false ∧ is_Some (char_at (pos l))).
Definition left_to_lex (st : stateFn) (l : lexer) : Z :=
  3 * (len text - pos l) + match st with LexItem => if decide (pos l = start l) then 1 else 3 | _ => 2 end.

(** A turn that keeps this and leaves less than [n] to do *)
Definition turns (n : Z) (o : option turn) : Prop :=
  match o with
  | None => False
  | Some (Last _) => True
  | Some (Next st l _) => lexes st l ∧ left_to_lex st l < n
  end.
Ltac lex_simpl := unfold ignore, backup; cbn [input pos start width].
Lemma turns_next n st p s w sent : st ≠ LexItem → (st = LexRule → s = p) → 0 ≤ s ≤ p → p ≤ len text → 3 * (len text - p) + 2 < n →
  turns n (Some (Next st (at_pos p s w) sent)).
Proof. intros Hst Hrule ???. unfold turns, lexes, left_to_lex. cbn [input pos start]. destruct st; try done; (split; [split_and!; done || lia|lia]). Qed.
Lemma turns_emit n t p s w : 0 ≤ s ≤ p → p ≤ len text → 3 * (len text - p) + 2 < n → turns n (to_rule <$> emit t (at_pos p s w)).
Proof. intros Hs Hp Hn. destruct (emit_at t p s w Hs Hp) as (v & _ & ->). by apply turns_next; [| |lia..]. Qed.
(** An item begins where it is, or behind its first character. *)
Lemma turns_item n p s w : 0 ≤ s ≤ p → p ≤ len text →
  (s = p → ends_item (char_at p) = false ∧ is_Some (char_at p)) → 3 * (len text - p) + (if decide (p = s) then 1 else 3) < n →
  turns n (Some (Next LexItem (at_pos p s w) None)).
Proof. intros Hs Hp Hi Hn. unfold turns, lexes, left_to_lex. cbn [input pos start]. split; [split_and!; (done || lia || auto)|done]. Qed.

Lemma peek_at p s w : 0 ≤ p ≤ len text → ∃ w', peek (at_pos p s w) = Some (char_at p, at_pos p s w') ∧
  (is_Some (char_at p) → w' = 1) ∧ (char_at p = None → w' = 0 ∧ p = len text).
Proof.
  intros Hp. unfold peek. destruct (next_at p s w Hp) as [-> Hlt]. destruct (char_at p) as [r|]; cbn [mbind option_bind].
  - exists 1. lex_simpl. split; [by replace (p + 1 - 1) with p by lia|by split].
  - exists 0. lex_simpl. split; [by rewrite Z.sub_0_r|]. split; [by intros [? [=]]|]. intros _. split; [done|].
    destruct (decide (p < len text)) as [[? [=]]%Hlt|]; lia.
Qed.

Lemma lexRule_turns p w : 0 ≤ p ≤ len text → turns (3 * (len text - p) + 2) (lexRule (at_pos p p w)).
Proof.
  intros Hp. unfold lexRule. destruct (next_at p p w Hp) as [-> Hlt]. destruct (char_at p) as [r|] eqn:Hr; cbn [mbind option_bind].
  2:{ rewrite decide_True by done. destruct (emit_at itemEOF p p 0) as (v & _ & ->); [lia..|]. exact I. }
  apply proj2 in Hlt. specialize (Hlt ltac:(by eexists)). rewrite decide_False by done.
  destruct (isSpace (Some r)) eqn:Hsp; [lex_simpl; apply turns_next; done || lia|].
  assert (∀ w', w' = 0 ∨ w' = 1 → (w' = 0 → r = "%" ∧ p + 1 = len text) → let l := at_pos (p + 1) p w' in turns (3 * (len text - p) + 2)
    (if decide (Some r = Some "(") then to_rule <$> emit itemLeftParen l
     else if decide (Some r = Some ")") then to_rule <$> emit itemRightParen l
     else if decide (Some r = Some ":") then to_rule <$> emit itemColon l
     else if decide (Some r = Some (String dquote "") ∨ Some r = Some "'") then Some (Next (LexQuotedString (Some r)) (ignore l) None)
     else Some (Next LexItem (backup l) None))) as Hrest.
  { intros w' Hw' H0. cbn zeta. do 3 (case_decide; [apply turns_emit; lia|]). case_decide; [lex_simpl; apply turns_next; done || lia|].
    lex_simpl. destruct Hw' as [-> | ->]; apply turns_item; try lia; try (case_decide; lia).
    intros _. replace (p + 1 - 1) with p by lia. rewrite Hr. split; [|by eexists]. unfold ends_item. rewrite Hsp. cbn.
    apply bool_decide_eq_false. naive_solver. }
  destruct (decide (Some r = Some "%")) as [Hpc|Hpc]; cbn [mbind option_bind]; [|by apply Hrest; [right|]].
  destruct (peek_at (p + 1) p 1) as (w' & -> & Hw1 & Hw0); [lia|]. cbn [mbind option_bind].
  destruct (char_at (p + 1)) as [r'|] eqn:Hr'.
  - specialize (Hw1 ltac:(by eexists)). subst w'. case_bool_decide; [|by apply Hrest; [right|]].
    destruct (next_at (p + 1) p 1) as [-> Hlt']; [lia|]. rewrite Hr'. cbn [mbind option_bind].
    apply proj2 in Hlt'. specialize (Hlt' ltac:(by eexists)). lex_simpl. apply turns_next; done || lia.
  - destruct (Hw0 eq_refl) as [-> Hend]. rewrite bool_decide_false by done. apply Hrest; [by left|]. split; [congruence|done].
Qed.
Lemma lexItem_turns p s w : 0 ≤ s ≤ p → p ≤ len text → (s = p → ends_item (char_at p) = false ∧ is_Some (char_at p)) →
  turns (left_to_lex LexItem (at_pos p s w)) (lexItem (at_pos p s w)).
Proof.
  intros Hs Hp Hi. unfold lexItem, left_to_lex. cbn [pos start]. destruct (next_at p s w) as [-> Hlt]; [lia|].
  destruct (decide (p = s)) as [->|Hne].
  - destruct (Hi eq_refl) as [He [r Hr]]. rewrite Hr in *. cbn [mbind option_bind]. rewrite He.
    apply proj2 in Hlt. specialize (Hlt ltac:(by eexists)). apply turns_item; try lia. case_decide; lia.
  - destruct (char_at p) as [r|]; cbn [mbind option_bind].
    + apply proj2 in Hlt. specialize (Hlt ltac:(by eexists)). destruct (ends_item (Some r)).
      * lex_simpl. replace (p + 1 - 1) with p by lia.
        destruct (emit_at itemEOF p s 1) as (v & -> & _); [lia..|]. cbn [mbind option_bind]. apply turns_emit; lia.
      * apply turns_item; try lia. case_decide; lia.
    + change (ends_item None) with true. cbn iota. lex_simpl. rewrite Z.sub_0_r.
      destruct (emit_at itemEOF p s 1) as (v & -> & _); [lia..|]. cbn [mbind option_bind]. apply turns_emit; lia.
Qed.
(** A character is read. *)
Lemma read_at p s w r : 0 ≤ p ≤ len text → char_at p = Some r → next (at_pos p s w) = Some (Some r, at_pos (p + 1) s 1) ∧ p + 1 ≤ len text.
Proof. intros Hp Hr. destruct (next_at p s w Hp) as [-> Hlt]. rewrite Hr in *. split; [done|]. enough (p < len text) by lia. apply Hlt. by eexists. Qed.
Lemma eof_at p s w : 0 ≤ p ≤ len text → char_at p = None → next (at_pos p s w) = Some (None, at_pos p s 0).
Proof. intros Hp Hr. destruct (next_at p s w Hp) as [-> _]. by rewrite Hr. Qed.
Lemma lexVariable_turns p s w : 0 ≤ s ≤ p → p ≤ len text → turns (3 * (len text - p) + 2) (lexVariable (at_pos p s w)).
Proof.
  intros Hs Hp. unfold lexVariable. destruct (char_at p) as [r|] eqn:Hr.
  2:{ rewrite eof_at by (done || lia). exact I. }
  destruct (read_at p s w r) as [-> Hlt]; [lia|done|]. cbn [mbind option_bind]. destruct (_ || _); [exact I|].
  destruct (decide (Some r = Some ")")); cbn [mbind option_bind]; [|apply turns_next; done || lia].
  destruct (peek_at (p + 1) s 1) as (w' & -> & Hw1 & _); [lia|]. cbn [mbind option_bind].
  case_bool_decide as Hpk; [|apply turns_next; done || lia]. rewrite Hw1 by (rewrite Hpk; by eexists). lex_simpl.
  replace (p + 1 - 1) with p by lia. destruct (emit_at itemVariable p s 1) as (v & _ & ->); [lia..|]. cbn [mbind option_bind].
  destruct (read_at p p 1 r) as [-> _]; [lia|done|]. cbn [mbind option_bind].
  destruct (read_at (p + 1) p 1 "s") as [-> Hlt']; [lia|done|]. cbn [mbind option_bind]. lex_simpl. apply turns_next; done || lia.
Qed.
Lemma lexQuotedString_turns d p s w : 0 ≤ s ≤ p → p ≤ len text → turns (3 * (len text - p) + 2) (lexQuotedString d (at_pos p s w)).
Proof.
  intros Hs Hp. unfold lexQuotedString. destruct (char_at p) as [r|] eqn:Hr.
  2:{ rewrite eof_at by (done || lia). exact I. }
  destruct (read_at p s w r) as [-> Hlt]; [lia|done|]. cbn [mbind option_bind].
  destruct (decide (Some r = Some (String backslash ""))).
  - destruct (char_at (p + 1)) as [r'|] eqn:Hr'.
    + destruct (read_at (p + 1) s 1 r') as [-> Hlt']; [lia|done|]. cbn [mbind option_bind]. destruct (_ || _); [exact I|].
      apply turns_next; done || lia.
    + rewrite eof_at by (done || lia). exact I.
  - destruct (_ || _); [exact I|]. case_decide; [|apply turns_next; done || lia]. lex_simpl. replace (p + 1 - 1) with p by lia.
    destruct (emit_at itemConstString p s 1) as (v & _ & ->); [lia..|]. cbn [mbind option_bind].
    destruct (read_at p p 1 r) as [-> _]; [lia|done|]. cbn [mbind option_bind]. lex_simpl. apply turns_next; done || lia.
Qed.

Lemma lex_turn_turns st l : lexes st l → turns (left_to_lex st l) (lex_turn st l).
Proof.
  destruct l as [i p s w]. intros (Hi & Hs & Hp & Hrule & Hitem). cbn [input pos start] in *. subst i. destruct st; cbn [lex_turn].
  - rewrite Hrule by done. apply lexRule_turns. lia.
  - apply lexItem_turns; auto.
  - by apply lexVariable_turns.
  - by apply lexQuotedString_turns.
Qed.
Lemma run_closes fuel st l : lexes st l → (0 ≤ left_to_lex st l < Z.of_nat fuel) → ∃ emitted, run fuel st l = Closed emitted ∧ (length emitted ≤ fuel)%nat.
Proof.
  revert st l. induction fuel as [|fuel IH]; intros st l Hl Hf; [lia|]. cbn [run]. pose proof (lex_turn_turns st l Hl) as Ht.
  destruct (lex_turn st l) as [[st' l' sent|i]|]; [|by exists [i]; split; [done|cbn; lia]|done]. destruct Ht as [Hl' Hlt].
  destruct (IH st' l' Hl') as (emitted & -> & Hlen).
  - split; [|lia]. destruct Hl' as (_ & _ & Hp & _). unfold left_to_lex. destruct st'; try case_decide; lia.
  - destruct sent as [i|]; cbn; [exists (i :: emitted)|exists emitted]; (split; [done|cbn; lia]).
Qed.

(** An ASCII text is lexed to an end within the fuel, without a panic. *)
Lemma newLexer_closes : ∃ emitted, newLexer text = Closed emitted.
Proof.
  destruct (run_closes (S (3 * String.length text + 3)) LexRule {| input := text; pos := 0; start := 0; width := 0 |})
    as (emitted & H & _); [| |by exists emitted].
  - unfold lexes, len. cbn [input pos start]. split_and!; done || lia.
  - unfold left_to_lex, len. cbn [pos]. cbv iota. lia.
Qed.
End Ascii.

Lemma parse_rule_ends text : str_all (byte_in 0 127) text = true → parse_rule text ≠ ParseFuel.
Proof. intros H. unfold parse_rule. destruct (newLexer_closes text H) as [emitted ->]. apply yyParse_ends. Qed.

(** ** Decisions *)

(** The loggers are not set.
    [Context], src/vendor/github.com/databus23/goslo.policy/policy.go:64-76 *)
Record Context := { c_Auth : gmap string string; c_Roles : list string; c_Request : gmap string string }.

(** [RoleCheck], src/vendor/github.com/databus23/goslo.policy/policy.go:88-95 *)
Definition RoleCheck (c : Context) (key match_ : string) : bool := existsb (λ r, bool_decide (r = match_)) (c_Roles c).
(** [HTTPCheck], src/vendor/github.com/databus23/goslo.policy/policy.go:98-100 *)
Definition HTTPCheck (c : Context) (key match_ : string) : bool := false.
(** [DefaultCheck], src/vendor/github.com/databus23/goslo.policy/policy.go:105-111 *)
Definition DefaultCheck (c : Context) (key match_ : string) : bool :=
  match c_Auth c !! key with None => false | Some cred => bool_decide (cred = match_) end.
(** The checks are those that [NewEnforcer] registers; [RuleCheck] decides by
    another rule, so it is given.
    [genericCheck], src/vendor/github.com/databus23/goslo.policy/policy.go:113-141 *)
Definition genericCheck (RuleCheck : string -> option bool) (c : Context) (key match_ : string) (isVariable : bool) : option bool :=
  match (if isVariable then c_Request c !! match_ else Some match_) with
  | None => Some false
  | Some match_ =>
      if decide (key = "rule") then RuleCheck match_
      else if decide (key = "role") then Some (RoleCheck c key match_)
      else if decide (key = "http") then Some (HTTPCheck c key match_)
      else Some (DefaultCheck c key match_)
  end.
(** [checkVariable], src/vendor/github.com/databus23/goslo.policy/policy.go:143-158 *)
Definition checkVariable (c : Context) (variable match_ : string) : bool :=
  match c_Request c !! variable with None => false | Some v => bool_decide (v = match_) end.
(** The closures of the parser
    [yyParse], src/vendor/github.com/databus23/goslo.policy/parser.go:349-425 *)
Fixpoint call (RuleCheck : string -> option bool) (c : Context) (r : rule) : option bool :=
  match r with
  | RTrue => Some true
  | RFalse => Some false
  | RNot f => negb <$> call RuleCheck c f
  | ROr l r => b ← call RuleCheck c l; if (b : bool) then Some true else call RuleCheck c r
  | RAnd l r => b ← call RuleCheck c l; if (b : bool) then call RuleCheck c r else Some false
  | RGenericCheck key match_ isVariable => genericCheck RuleCheck c key match_ isVariable
  | RCheckVariable variable match_ => Some (checkVariable c variable match_)
  end.
(** The fuel is for rules that name rules; [None] is that of a circle, in
    which the code never returns.
    [RuleCheck], src/vendor/github.com/databus23/goslo.policy/policy.go:79-85 *)
Fixpoint RuleCheck (fuel : nat) (rules : gmap string rule) (c : Context) (match_ : string) : option bool :=
  match fuel with
  | O => None
  | S fuel => match rules !! match_ with None => Some false | Some r => call (RuleCheck fuel rules c) c r end
  end.
(** [Enforce], src/vendor/github.com/databus23/goslo.policy/policy.go:23-28 *)
Definition Enforce (fuel : nat) (rules : gmap string rule) (rule : string) (c : Context) : option bool :=
  match rules !! rule with None => Some false | Some r => call (RuleCheck fuel rules c) c r end.

(** More fuel changes no decision. *)
Lemma call_more f g c r b : (∀ m b, f m = Some b → g m = Some b) → call f c r = Some b → call g c r = Some b.
Proof.
  intros Hfg. revert b. induction r as [| |r IHr|l IHl r IHr|l IHl r IHr|key m var|v m]; intros b; cbn [call]; try done.
  - destruct (call f c r) as [x|]; [|done]. by rewrite (IHr x).
  - destruct (call f c l) as [x|]; [|done]. rewrite (IHl x) by done. destruct x; cbn; auto.
  - destruct (call f c l) as [x|]; [|done]. rewrite (IHl x) by done. destruct x; cbn; auto.
  - unfold genericCheck. destruct (if var then _ else _); [|done]. case_decide; auto.
Qed.
Lemma RuleCheck_more fuel fuel' rules c m b : (fuel ≤ fuel')%nat → RuleCheck fuel rules c m = Some b → RuleCheck fuel' rules c m = Some b.
Proof.
  revert fuel' m b. induction fuel as [|fuel IH]; intros [|fuel'] m b Hle; try done; [lia|]. cbn.
  destruct (rules !! m); [|done]. apply call_more. intros m' b'. apply IH. lia.
Qed.
Lemma Enforce_more fuel fuel' rules id c b : (fuel ≤ fuel')%nat → Enforce fuel rules id c = Some b → Enforce fuel' rules id c = Some b.
Proof. unfold Enforce. intros Hle. destruct (rules !! id); [|done]. apply call_more. intros m b'. by apply RuleCheck_more. Qed.

(** Rules that name only rules of a lower rank *)
Fixpoint names_only (P : string -> bool) (r : rule) : bool :=
  match r with
  | RNot r => names_only P r
  | ROr l r | RAnd l r => names_only P l && names_only P r
  | RGenericCheck key match_ isVariable => negb (bool_decide (key = "rule")) || (negb isVariable && P match_)
  | _ => true
  end.
Definition ranked (rank : string -> nat) (rules : gmap string rule) : bool :=
  forallb (λ '(name, r), names_only (λ m, (rank m <? rank name)%nat) r) (map_to_list rules).
Lemma call_decides f c P r : (∀ m, P m = true → is_Some (f m)) → names_only P r = true → is_Some (call f c r).
Proof.
  intros Hf. induction r as [| |r IHr|l IHl r IHr|l IHl r IHr|key m var|v m]; cbn [names_only call]; intros Hp; try by eexists.
  - destruct (IHr Hp) as [b ->]. by eexists.
  - apply andb_true_iff in Hp as [Hl Hr]. destruct (IHl Hl) as [[] ->]; cbn; [by eexists|auto].
  - apply andb_true_iff in Hp as [Hl Hr]. destruct (IHl Hl) as [[] ->]; cbn; [auto|by eexists].
  - unfold genericCheck. case_bool_decide as Hk.
    + apply andb_true_iff in Hp as [Hv Hm]. destruct var; [done|]. rewrite decide_True by done. auto.
    + destruct (if var then _ else _); [|by eexists]. rewrite decide_False by done. repeat case_decide; by eexists.
Qed.
(** Such rules always come to a decision. *)
Lemma ranked_decides rank rules c fuel id : ranked rank rules = true → (rank id ≤ fuel)%nat → is_Some (Enforce fuel rules id c).
Proof.
  intros Hr. unfold ranked in Hr. rewrite forallb_forall in Hr.
  assert (∀ name r, rules !! name = Some r → names_only (λ m, (rank m <? rank name)%nat) r = true) as Hn.
  { intros name r Hl%elem_of_map_to_list. by apply (Hr (name, r)), list_elem_of_In. }
  assert (∀ fuel m, (rank m < fuel)%nat → is_Some (RuleCheck fuel rules c m)) as Hc.
  { clear fuel. induction fuel as [|fuel IH]; intros m Hm; [lia|]. cbn. destruct (rules !! m) as [r|] eqn:Hl; [|by eexists].
    eapply call_decides, Hn, Hl. intros m' Hlt%Nat.ltb_lt. apply IH. lia. }
  intros Hf. unfold Enforce. destruct (rules !! id) as [r|] eqn:Hl; [|by eexists].
  eapply call_decides, Hn, Hl. intros m Hlt%Nat.ltb_lt. apply Hc. lia.
Qed.

(** What comes of the rules; which of several wrong ones is named depends on
    the order they are taken in. *)
Inductive engine := Engine (rules : gmap string rule) | BadRule (name : string) | EnginePanic (name : string) | EngineFuel (name : string).
(** [order] is what a range over the map yields.
    [NewEnforcer], src/vendor/github.com/databus23/goslo.policy/policy.go:43-61 *)
Fixpoint NewEnforcer_go (order : list (string * string)) (rules : gmap string rule) : engine :=
  match order with
  | [] => Engine rules
  | (name, text) :: order =>
      match parse_rule text with
      | Rule r => NewEnforcer_go order (<[name := r]> rules)
      | SyntaxErr => BadRule name
      | ParsePanic => EnginePanic name
      | ParseFuel => EngineFuel name
      end
  end.
Definition NewEnforcer (order : list (string * string)) : engine := NewEnforcer_go order ∅.

Lemma NewEnforcer_go_lookup order rules en : NoDup order.*1 → NewEnforcer_go order rules = Engine en →
  (∀ name text, (name, text) ∈ order → ∃ r, parse_rule text = Rule r ∧ en !! name = Some r) ∧
  (∀ name, name ∉ order.*1 → en !! name = rules !! name).
Proof.
  revert rules. induction order as [|[n t] order IH]; intros rules Hnd; cbn.
  - intros [= ->]. split; [by intros ?? ?%list_elem_of_In|done].
  - apply NoDup_cons in Hnd as [Hn Hnd]. destruct (parse_rule t) as [r| | |] eqn:Hr; try done. intros He.
    destruct (IH _ Hnd He) as [Hin Hout]. split.
    + intros name text [[= -> ->]|Hl]%elem_of_cons; [|by apply Hin]. exists r. split; [done|]. rewrite Hout by done. apply lookup_insert_eq.
    + intros name [Hne Hno]%not_elem_of_cons. rewrite Hout by done. by apply lookup_insert_ne.
Qed.
(** In whatever order the rules are taken, each is what its text says. *)
Lemma NewEnforcer_lookup (m : gmap string string) order en name : order ≡ₚ map_to_list m → NewEnforcer order = Engine en →
  match m !! name with
  | Some text => ∃ r, parse_rule text = Rule r ∧ en !! name = Some r
  | None => en !! name = None
  end.
Proof.
  intros Ho He. destruct (NewEnforcer_go_lookup order ∅ en) as [Hin Hout]; [rewrite Ho; apply NoDup_fst_map_to_list|done|].
  destruct (m !! name) as [text|] eqn:Hm; [apply Hin; rewrite Ho; by apply elem_of_map_to_list|].
  rewrite Hout; [apply lookup_empty|]. rewrite Ho. intros ([n t] & -> & Hl)%list_elem_of_fmap. apply elem_of_map_to_list in Hl. cbn in Hm. congruence.
Qed.
End Oslo.

(** * The policy file *)

(** An element of a [map[string]string]: it starts as the empty string, and
    [null] leaves it at that. *)
Definition decode_text (j : json) : decoded string :=
  match j with JNull => Decoded "" None | JString s => Decoded s None | _ => mismatch j TString "" end.
(** The members are stored one by one: the last of a key counts, and what is
    no string leaves an empty one. *)
Fixpoint decode_texts (members : list (string * json)) (m : gmap string string) : decoded (gmap string string) :=
  match members with
  | [] => Decoded m None
  | (k, j) :: members => decoded_bind (λ s, decode_texts members (<[k := s]> m)) (decode_text j)
  end.
Inductive load_error := NotOpened (e : error) | NoValue | NotJson (e : json_error) | NotAMap (kind : string).
(** [Decoder.Decode] into a nil map; a nil map and an empty one are the same
    to who ranges over it. *)
Definition decode_rules (text : string) : gmap string string + load_error :=
  match parse text with
  | Parsed JNull _ => inl ∅
  | Parsed (JObject members) _ =>
      match decode_texts members ∅ with
      | Decoded m None => inl m
      | Decoded _ (Some e) | Aborted e => inr (NotJson e)
      end
  | Parsed j _ => inr (NotAMap (kind_name j))
  | Wrong => inr (NotJson SyntaxError)
  | Ended | Stuck => if decide (skip_space text = "") then inr NoValue else inr (NotJson UnexpectedEnd)
  end.
(** [Open] replies with what can be read of the file.
    [LoadPolicy], src/pkg/api/auth/authorizer.go:34-46 *)
Definition LoadPolicy (Open : string -> reply string) (policyFile : string) : gmap string string + load_error :=
  match Open policyFile with
  | Bad e => inr (NotOpened e)
  | Ok text => decode_rules text
  end.

(** Text with apostrophes for quotation marks *)
Fixpoint quoting (s : string) : string :=
  match s with
  | EmptyString => ""
  | String c s => String (if decide (c = "'"%char) then dquote else c) (quoting s)
  end.
(** The text of etc/policy.json *)
Definition policy_json : string := quoting "{
  'kubernetes_admin': 'role:kubernetes_admin',
  'kubernetes_user': 'role:kubernetes_member or role:kubernetes_admin',

  'GetOpenstackMetadata': 'rule:kubernetes_admin',
  'ListClusters': 'rule:kubernetes_user',
  'CreateCluster': 'rule:kubernetes_admin',
  'ShowCluster': 'rule:kubernetes_user',
  'TerminateCluster': 'rule:kubernetes_admin',
  'UpdateCluster': 'rule:kubernetes_admin',
  'GetClusterCredentials': 'rule:kubernetes_user',
  'GetClusterEvents': 'rule:kubernetes_user',
  'GetClusterInfo': 'rule:kubernetes_user'
}
".

(** A map of texts is read back as it is written. *)
Definition write_rules (m : list (string * string)) : string := print (JObject ((λ '(k, v), (k, JString v)) <$> m)).
Lemma decode_texts_strings l m : NoDup l.*1 →
  decode_texts ((λ '(k, v), (k, JString v)) <$> l) m = Decoded (list_to_map l ∪ m) None.
Proof.
  revert m. induction l as [|[k v] l IH]; intros m Hnd; cbn; [by rewrite (left_id_L ∅ (∪))|].
  apply NoDup_cons in Hnd as [Hk Hnd]. cbn in Hk. unfold decoded_bind. cbn. rewrite IH by done. cbn. f_equal.
  rewrite <- insert_union_l, insert_union_r by (by apply not_elem_of_list_to_map_1). done.
Qed.
Lemma LoadPolicy_written Open file l : NoDup l.*1 → Forall (λ '(k, v), utf8 k = true ∧ utf8 v = true) l → Open file = Ok (write_rules l) →
  LoadPolicy Open file = inl (list_to_map l).
Proof.
  intros Hnd Hutf Ho. unfold LoadPolicy. rewrite Ho. unfold decode_rules, write_rules.
  rewrite <- (str_app_nil_r (print _)), parse_print; [|cbn; by apply forallb_forall; intros [k j] ([k' v] & [= <- <-] & _)%in_map_iff|done].
  cbn [reread]. rewrite <- list_fmap_compose.
  assert ((λ '(k, v), (coerce k, reread v)) ∘ (λ '(k, v), (k, JString v)) <$> l = (λ '(k, v), (k, JString v)) <$> l) as ->.
  { apply list_fmap_ext. intros i [k v] Hi%list_elem_of_lookup_2. rewrite Forall_forall in Hutf. destruct (Hutf _ Hi) as [Hk Hv].
    unfold utf8 in *. apply bool_decide_eq_true in Hk, Hv. cbn. by rewrite Hk, Hv. }
  by rewrite decode_texts_strings, (right_id_L ∅ (∪)).
Qed.
