(* ===== verification/Regexp.v ===== *)
(** The fully anchored patterns of [validate.Pattern]: regular expressions over
    bytes, their language, and the derivative matcher that
    [regexp.MatchString] is modelled by, with the proof that the two agree. *)
From S2P Require Import Prelude GoStrings.

Inductive re : Type :=
| REmp
| REps
| RCls (P : ascii -> bool)
| RSeq (a b : re)
| RAlt (a b : re)
| RStar (a : re).

Declare Scope re_scope.
Delimit Scope re_scope with re.
Infix "⋅" := RSeq (at level 40, left associativity) : re_scope.
Infix "⊕" := RAlt (at level 50, left associativity) : re_scope.

(** One given byte, a range of bytes, [r?]. *)
Definition rchr (c : ascii) : re := RCls (fun d => bool_decide (d = c)).
Definition rrange (lo hi : ascii) : re :=
  RCls (fun d => (N_of_ascii lo <=? N_of_ascii d)%N && (N_of_ascii d <=? N_of_ascii hi)%N).
Definition ropt (r : re) : re := RAlt REps r.

(** The language of a pattern. *)
Inductive matches : re -> string -> Prop :=
| m_eps : matches REps ""
| m_cls P c : P c = true -> matches (RCls P) (String c "")
| m_seq a b s t : matches a s -> matches b t -> matches (RSeq a b) (s +:+ t)
| m_alt_l a b s : matches a s -> matches (RAlt a b) s
| m_alt_r a b s : matches b s -> matches (RAlt a b) s
| m_star_nil a : matches (RStar a) ""
| m_star_app a s t : matches a s -> matches (RStar a) t -> matches (RStar a) (s +:+ t).

Fixpoint nullable (r : re) : bool :=
  match r with
  | REmp | RCls _ => false
  | REps | RStar _ => true
  | RSeq a b => nullable a && nullable b
  | RAlt a b => nullable a || nullable b
  end.

Fixpoint deriv (c : ascii) (r : re) : re :=
  match r with
  | REmp | REps => REmp
  | RCls P => if P c then REps else REmp
  | RSeq a b =>
      if nullable a then RAlt (RSeq (deriv c a) b) (deriv c b) else RSeq (deriv c a) b
  | RAlt a b => RAlt (deriv c a) (deriv c b)
  | RStar a => RSeq (deriv c a) (RStar a)
  end.

(** [regexp.MustCompile("^r$").MatchString(s)] *)
Fixpoint MatchString (r : re) (s : string) : bool :=
  match s with
  | EmptyString => nullable r
  | String c s' => MatchString (deriv c r) s'
  end.

(** * Correctness of the matcher *)
Lemma matches_seq_inv a b s :
  matches (RSeq a b) s → ∃ u v, s = u +:+ v ∧ matches a u ∧ matches b v.
Proof. inversion 1; subst; eauto. Qed.

Lemma matches_alt_inv a b s : matches (RAlt a b) s → matches a s ∨ matches b s.
Proof. inversion 1; subst; auto. Qed.

Lemma matches_eps_inv s : matches REps s → s = "".
Proof. by inversion 1. Qed.

Lemma matches_cls_inv P s : matches (RCls P) s → ∃ c, s = String c "" ∧ P c = true.
Proof. inversion 1; subst; eauto. Qed.

Create HintDb re.
#[export] Hint Constructors matches : re.

Lemma matches_star_cons a c s :
  matches (RStar a) (String c s) →
  ∃ u v, s = u +:+ v ∧ matches a (String c u) ∧ matches (RStar a) v.
Proof.
  remember (RStar a) as r eqn:Er. remember (String c s) as w eqn:Ew.
  intros H. revert Er s Ew. induction H; intros Er w Ew; simplify_eq.
  destruct s as [|d s]; simpl in Ew.
  - by apply IHmatches2.
  - simplify_eq. eauto.
Qed.

Lemma nullable_correct r : nullable r = true ↔ matches r "".
Proof.
  split.
  - induction r; simpl; intros H; try discriminate; eauto with re.
    + apply andb_true_iff in H as [H1 H2]. apply (m_seq _ _ "" ""); auto.
    + apply orb_true_iff in H as [H|H]; auto with re.
  - remember "" as s eqn:Es. intros H. revert Es.
    induction H; intros Es; simpl; try done.
    + apply str_app_eq_nil in Es as [-> ->]. by rewrite IHmatches1, IHmatches2.
    + by rewrite IHmatches.
    + rewrite IHmatches by done. apply orb_true_r.
Qed.

Lemma deriv_sound r c s : matches (deriv c r) s → matches r (String c s).
Proof.
  revert s. induction r; simpl; intros s H; try by inversion H.
  - destruct (P c) eqn:E; [|by inversion H].
    apply matches_eps_inv in H as ->. by constructor.
  - assert (∀ s, matches (RSeq (deriv c r1) r2) s → matches (RSeq r1 r2) (String c s)) as Hseq.
    { intros s' (u & v & -> & Hu & Hv)%matches_seq_inv.
      apply (m_seq _ _ (String c u) v); auto. }
    destruct (nullable r1) eqn:N; [|auto].
    apply matches_alt_inv in H as [H|H]; [auto|].
    apply (m_seq _ _ "" (String c s)); [by apply nullable_correct | auto].
  - apply matches_alt_inv in H as [H|H]; auto with re.
  - apply matches_seq_inv in H as (u & v & -> & Hu & Hv).
    apply (m_star_app _ (String c u) v); auto.
Qed.

Lemma deriv_complete r c s : matches r (String c s) → matches (deriv c r) s.
Proof.
  revert s. induction r; simpl; intros s H; try by inversion H.
  - apply matches_cls_inv in H as (d & Heq & Hd). simplify_eq. rewrite Hd. constructor.
  - apply matches_seq_inv in H as (u & v & Heq & Hu & Hv). destruct u as [|d u]; simpl in Heq.
    + subst v. apply nullable_correct in Hu. rewrite Hu. apply m_alt_r; auto.
    + injection Heq as <- ->. assert (matches (RSeq (deriv c r1) r2) (u +:+ v)) by auto with re.
      destruct (nullable r1); auto with re.
  - apply matches_alt_inv in H as [H|H]; auto with re.
  - apply matches_star_cons in H as (u & v & -> & Hu & Hv). auto with re.
Qed.

Lemma MatchString_correct r s : MatchString r s = true ↔ matches r s.
Proof.
  revert r. induction s as [|c s IH]; intros r; simpl.
  - apply nullable_correct.
  - rewrite IH. split; [apply deriv_sound | apply deriv_complete].
Qed.

(** The language of a starred class is the strings made of its characters. *)
Lemma matches_star_cls P s : matches (RStar (RCls P)) s ↔ str_all P s = true.
Proof.
  split.
  - remember (RStar (RCls P)) as r eqn:Er. intros H. revert Er.
    induction H; intros Er; simplify_eq; [done|].
    apply matches_cls_inv in H as (c & -> & Hc). simpl. by rewrite Hc, IHmatches2.
  - induction s as [|c s IH]; simpl; [constructor|].
    intros [Hc Hs]%andb_true_iff. apply (m_star_app _ (String c "") s); auto with re.
Qed.
