(* ===== verification/Models.v ===== *)
(** [pkg/api/models] and [pkg/apis/kubernikus/v1]: the resources the API, the
    operator and the store exchange, and the request validation that
    go-swagger generated for them.

    A Go slice is a list; a nil slice and an empty one are not told apart,
    since the code only ever ranges over them or takes their length once a
    resource is built.  JSON does tell them apart: JsonModels.Layout.  [int64] fields are integers of [Z]. *)
From S2P Require Import Prelude GoStrings Regexp.

(** * Resources *)

(** [NodePoolConfig], src/pkg/api/models/node_pool_config.go:14-24 *)
Record NodePoolConfig := { Repair : bool; Upgrade : bool }.

(** [NodePool], src/pkg/api/models/node_pool.go:18-39 *)
Record NodePool := {
  np_Config : NodePoolConfig;
  np_Flavor : string;
  np_Image : string;
  np_Name : string;
  np_Size : Z }.

(** [OpenstackSpec], src/pkg/api/models/openstack_spec.go:17-33 *)
Record OpenstackSpec := {
  LBSubnetID : string;
  NetworkID : string;
  ProjectID : string;
  RouterID : string;
  SecurityGroupID : string }.

(** [KlusterSpec], src/pkg/api/models/kluster_spec.go:18-46 *)
Record KlusterSpec := {
  AdvertiseAddress : string;
  ClusterCIDR : string;
  DNSAddress : string;
  DNSDomain : string;
  spec_Name : string;
  NodePools : list NodePool;
  Openstack : OpenstackSpec;
  ServiceCIDR : string }.

(** [NodePoolInfo], src/pkg/api/models/node_pool_info.go:17-33 *)
Record NodePoolInfo := {
  npi_Healthy : Z;
  npi_Name : string;
  npi_Running : Z;
  npi_Schedulable : Z;
  npi_Size : Z }.

(** [type KlusterPhase string] and its constants *)
Abbreviation KlusterPhase := string (only parsing).
Definition KlusterPhasePending : KlusterPhase := "Pending".
Definition KlusterPhaseCreating : KlusterPhase := "Creating".
Definition KlusterPhaseRunning : KlusterPhase := "Running".
Definition KlusterPhaseTerminating : KlusterPhase := "Terminating".
(** [klusterPhaseEnum], src/pkg/api/models/kluster_phase.go:19-43 *)
Definition klusterPhaseEnum : list KlusterPhase :=
  [KlusterPhasePending; KlusterPhaseCreating; KlusterPhaseRunning; KlusterPhaseTerminating].

(** [KlusterStatus], src/pkg/api/models/kluster_status.go:17-36 *)
Record KlusterStatus := {
  Apiserver : string;
  Message : string;
  st_NodePools : list NodePoolInfo;
  Phase : KlusterPhase;
  st_Version : string;
  Wormhole : string }.

(** [models.Kluster], the body of an API request
    [Kluster], src/pkg/api/models/kluster.go:18-30 *)
Record KlusterModel := {
  mk_Name : string;
  mk_Spec : KlusterSpec;
  mk_Status : KlusterStatus }.

(** The part of [metav1.ObjectMeta] the program reads or writes *)
Record ObjectMeta := {
  Name : string;
  Namespace : string;
  UID : string;
  Labels : gmap string string;
  Annotations : gmap string string }.

(** [v1.Kluster], the custom resource
    [Kluster], src/pkg/apis/kubernikus/v1/kluster.go:14-19 *)
Record Kluster := {
  Meta : ObjectMeta;
  Spec : KlusterSpec;
  Status : KlusterStatus }.

(** [models.Principal], the authenticated user
    [Principal], src/pkg/api/models/principal.go:17-36 *)
Record Principal := {
  pr_Account : string;
  AuthURL : string;
  Domain : string;
  pr_ID : string;
  pr_Name : string;
  Roles : list string }.

#[export] Instance NodePoolConfig_eq_dec : EqDecision NodePoolConfig.
Proof. solve_decision. Defined.
#[export] Instance NodePool_eq_dec : EqDecision NodePool.
Proof. solve_decision. Defined.
#[export] Instance OpenstackSpec_eq_dec : EqDecision OpenstackSpec.
Proof. solve_decision. Defined.
#[export] Instance KlusterSpec_eq_dec : EqDecision KlusterSpec.
Proof. solve_decision. Defined.
#[export] Instance NodePoolInfo_eq_dec : EqDecision NodePoolInfo.
Proof. solve_decision. Defined.
#[export] Instance KlusterStatus_eq_dec : EqDecision KlusterStatus.
Proof. solve_decision. Defined.
#[export] Instance ObjectMeta_eq_dec : EqDecision ObjectMeta.
Proof. solve_decision. Defined.
#[export] Instance Kluster_eq_dec : EqDecision Kluster.
Proof. solve_decision. Defined.

(** * Zero values and field updates *)
Definition zero_OpenstackSpec : OpenstackSpec :=
  {| LBSubnetID := ""; NetworkID := ""; ProjectID := ""; RouterID := ""; SecurityGroupID := "" |}.
Definition zero_KlusterSpec : KlusterSpec :=
  {| AdvertiseAddress := ""; ClusterCIDR := ""; DNSAddress := ""; DNSDomain := "";
     spec_Name := ""; NodePools := []; Openstack := zero_OpenstackSpec; ServiceCIDR := "" |}.
Definition zero_KlusterStatus : KlusterStatus :=
  {| Apiserver := ""; Message := ""; st_NodePools := []; Phase := ""; st_Version := ""; Wormhole := "" |}.
Definition zero_ObjectMeta : ObjectMeta :=
  {| Name := ""; Namespace := ""; UID := ""; Labels := ∅; Annotations := ∅ |}.

Definition set_Spec (f : KlusterSpec -> KlusterSpec) (k : Kluster) : Kluster :=
  {| Meta := Meta k; Spec := f (Spec k); Status := Status k |}.
Definition set_Status (f : KlusterStatus -> KlusterStatus) (k : Kluster) : Kluster :=
  {| Meta := Meta k; Spec := Spec k; Status := f (Status k) |}.
Definition set_Openstack (f : OpenstackSpec -> OpenstackSpec) (k : Kluster) : Kluster :=
  set_Spec (fun s =>
    {| AdvertiseAddress := AdvertiseAddress s; ClusterCIDR := ClusterCIDR s;
       DNSAddress := DNSAddress s; DNSDomain := DNSDomain s; spec_Name := spec_Name s;
       NodePools := NodePools s; Openstack := f (Openstack s); ServiceCIDR := ServiceCIDR s |}) k.
Definition with_NodePools (ps : list NodePool) (s : KlusterSpec) : KlusterSpec :=
  {| AdvertiseAddress := AdvertiseAddress s; ClusterCIDR := ClusterCIDR s;
     DNSAddress := DNSAddress s; DNSDomain := DNSDomain s; spec_Name := spec_Name s;
     NodePools := ps; Openstack := Openstack s; ServiceCIDR := ServiceCIDR s |}.
Definition with_spec_Name (n : string) (s : KlusterSpec) : KlusterSpec :=
  {| AdvertiseAddress := AdvertiseAddress s; ClusterCIDR := ClusterCIDR s;
     DNSAddress := DNSAddress s; DNSDomain := DNSDomain s; spec_Name := n;
     NodePools := NodePools s; Openstack := Openstack s; ServiceCIDR := ServiceCIDR s |}.
Definition with_phase (p : KlusterPhase) (m : string) (s : KlusterStatus) : KlusterStatus :=
  {| Apiserver := Apiserver s; Message := m; st_NodePools := st_NodePools s; Phase := p;
     st_Version := st_Version s; Wormhole := Wormhole s |}.
Definition with_st_NodePools (l : list NodePoolInfo) (s : KlusterStatus) : KlusterStatus :=
  {| Apiserver := Apiserver s; Message := Message s; st_NodePools := l; Phase := Phase s;
     st_Version := st_Version s; Wormhole := Wormhole s |}.
Definition with_Image (i : string) (p : NodePool) : NodePool :=
  {| np_Config := np_Config p; np_Flavor := np_Flavor p; np_Image := i;
     np_Name := np_Name p; np_Size := np_Size p |}.

(** [kluster.Account()]: the [account] label, empty when it is missing.
    [Account], src/pkg/apis/kubernikus/v1/kluster.go:27-29 *)
Definition Account (k : Kluster) : string := default "" (Labels (Meta k) !! "account").

(** [cache.MetaNamespaceKeyFunc] on an object with metadata *)
Definition MetaNamespaceKey (m : ObjectMeta) : string :=
  if decide (Namespace m = "") then Name m else Namespace m +:+ "/" +:+ Name m.

(** * Validation

    [Validation] is an [*errors.Validation] of go-openapi, with the field it
    names; [Composite] is the error [CompositeValidationError] builds. *)
Inductive vkind := VRequired | VPattern | VMinimum | VMaximum | VEnum.
Inductive verr :=
| Validation (name : string) (kind : vkind)
| Composite (errs : list verr).

(** [ve.ValidateName(name)]: only a plain validation error without a name
    takes the name of the enclosing property. *)
Definition ValidateName (name : string) (e : verr) : verr :=
  match e with
  | Validation n k => if decide (n = "") then Validation name k else e
  | Composite _ => e
  end.

(** [if len(res) > 0 { return CompositeValidationError(res...) }] over the
    errors of the properties, in order. *)
Definition composite (l : list (option verr)) : option verr :=
  match omap id l with [] => None | errs => Some (Composite errs) end.

(** A request is accepted when every property is. *)
Lemma composite_None l : composite l = None ↔ Forall (fun o => o = None) l.
Proof.
  unfold composite. induction l as [|[e|] l IH]; simpl.
  - by rewrite Forall_nil.
  - rewrite Forall_cons. split; [done | by intros [? _]].
  - rewrite Forall_cons. naive_solver.
Qed.

Definition RequiredString (name data : string) : option verr :=
  if decide (data = "") then Some (Validation name VRequired) else None.
Definition Pattern (name data : string) (r : re) : option verr :=
  if MatchString r data then None else Some (Validation name VPattern).
Definition MinimumInt (name : string) (data min : Z) : option verr :=
  if (data <? min)%Z then Some (Validation name VMinimum) else None.
Definition MaximumInt (name : string) (data max : Z) : option verr :=
  if (max <? data)%Z then Some (Validation name VMaximum) else None.

Section Patterns.
Local Open Scope re_scope.
Local Abbreviation d := (rrange "0" "9").

(** The pattern of [NodePool.Name]: a lower case letter, then lower case
    letters and digits. *)
Definition re_pool_name : re :=
  rrange "a" "z" ⋅ ropt (RStar (RCls (fun c => is_lower c || is_digit c))).

(** The pattern of [Kluster.Name]: the same, with dashes inside. *)
Definition re_kluster_name : re :=
  rrange "a" "z" ⋅
  ropt (RStar (RCls (fun c => bool_decide (c = "-"%char) || is_lower c || is_digit c)) ⋅
        RCls (fun c => is_lower c || is_digit c)).

(** [[0-9]|[1-9][0-9]|1[0-9]{2}|2[0-4][0-9]|25[0-5]] *)
Definition re_octet : re :=
  d ⊕ rrange "1" "9" ⋅ d ⊕ rchr "1" ⋅ d ⋅ d ⊕ rchr "2" ⋅ rrange "0" "4" ⋅ d
    ⊕ rchr "2" ⋅ rchr "5" ⋅ rrange "0" "5".

(** [\/([0-9]|[1-2][0-9]|3[0-2])] *)
Definition re_masklen : re :=
  d ⊕ rrange "1" "2" ⋅ d ⊕ rchr "3" ⋅ rrange "0" "2".

Definition re_cidr : re :=
  (re_octet ⋅ rchr ".") ⋅ (re_octet ⋅ rchr ".") ⋅ (re_octet ⋅ rchr ".") ⋅ re_octet ⋅
  (rchr "/" ⋅ re_masklen).
End Patterns.

Module NodePoolValidate.
(** [NodePoolConfig.Validate] has no property to check.
    [validateConfig], src/pkg/api/models/node_pool.go:71-85 *)
Definition validateConfig (m : NodePool) : option verr := None.

(** [validateFlavor], src/pkg/api/models/node_pool.go:87-94 *)
Definition validateFlavor (m : NodePool) : option verr := RequiredString "flavor" (np_Flavor m).

(** [validateName], src/pkg/api/models/node_pool.go:96-107 *)
Definition validateName (m : NodePool) : option verr :=
  match RequiredString "name" (np_Name m) with
  | Some e => Some e
  | None => Pattern "name" (np_Name m) re_pool_name
  end.

(** [validateSize], src/pkg/api/models/node_pool.go:109-124 *)
Definition validateSize (m : NodePool) : option verr :=
  if (np_Size m =? 0)%Z then None
  else match MinimumInt "size" (np_Size m) 0 with
       | Some e => Some e
       | None => MaximumInt "size" (np_Size m) 127
       end.

(** [Validate], src/pkg/api/models/node_pool.go:42-69 *)
Definition Validate (m : NodePool) : option verr :=
  composite [validateConfig m; validateFlavor m; validateName m; validateSize m].
End NodePoolValidate.

Module KlusterSpecValidate.
(** [validateClusterCIDR], src/pkg/api/models/kluster_spec.go:78-89 *)
Definition validateClusterCIDR (m : KlusterSpec) : option verr :=
  if decide (ClusterCIDR m = "") then None else Pattern "clusterCIDR" (ClusterCIDR m) re_cidr.

(** The generated code returns nil on both branches: the items of the
    array are not validated.
    [validateNodePools], src/pkg/api/models/kluster_spec.go:91-98 *)
Definition validateNodePools (m : KlusterSpec) : option verr := None.

(** [OpenstackSpec.Validate] has no property to check.
    [validateOpenstack], src/pkg/api/models/kluster_spec.go:100-114 *)
Definition validateOpenstack (m : KlusterSpec) : option verr := None.

(** [validateServiceCIDR], src/pkg/api/models/kluster_spec.go:116-127 *)
Definition validateServiceCIDR (m : KlusterSpec) : option verr :=
  if decide (ServiceCIDR m = "") then None else Pattern "serviceCIDR" (ServiceCIDR m) re_cidr.

(** [Validate], src/pkg/api/models/kluster_spec.go:49-76 *)
Definition Validate (m : KlusterSpec) : option verr :=
  composite [validateClusterCIDR m; validateNodePools m; validateOpenstack m; validateServiceCIDR m].
End KlusterSpecValidate.

Module KlusterStatusValidate.
(** [validateNodePools], src/pkg/api/models/kluster_status.go:58-65 *)
Definition validateNodePools (m : KlusterStatus) : option verr := None.

(** [validateKlusterPhaseEnum], src/pkg/api/models/kluster_phase.go:45-50 *)
Definition validateKlusterPhaseEnum (path : string) (value : KlusterPhase) : option verr :=
  if decide (value ∈ klusterPhaseEnum) then None else Some (Validation path VEnum).

(** [KlusterPhase.Validate]
    [Validate], src/pkg/api/models/kluster_phase.go:53-65 *)
Definition PhaseValidate (m : KlusterPhase) : option verr := validateKlusterPhaseEnum "" m.

(** [validatePhase], src/pkg/api/models/kluster_status.go:67-81 *)
Definition validatePhase (m : KlusterStatus) : option verr :=
  if decide (Phase m = "") then None else ValidateName "phase" <$> PhaseValidate (Phase m).

(** [Validate], src/pkg/api/models/kluster_status.go:39-56 *)
Definition Validate (m : KlusterStatus) : option verr :=
  composite [validateNodePools m; validatePhase m].
End KlusterStatusValidate.

Module KlusterValidate.
(** [validateName], src/pkg/api/models/kluster.go:57-68 *)
Definition validateName (m : KlusterModel) : option verr :=
  match RequiredString "name" (mk_Name m) with
  | Some e => Some e
  | None => Pattern "name" (mk_Name m) re_kluster_name
  end.

(** [validateSpec], src/pkg/api/models/kluster.go:70-84 *)
Definition validateSpec (m : KlusterModel) : option verr :=
  if decide (mk_Spec m = zero_KlusterSpec) then None
  else ValidateName "spec" <$> KlusterSpecValidate.Validate (mk_Spec m).

(** [validateStatus], src/pkg/api/models/kluster.go:86-100 *)
Definition validateStatus (m : KlusterModel) : option verr :=
  if decide (mk_Status m = zero_KlusterStatus) then None
  else ValidateName "status" <$> KlusterStatusValidate.Validate (mk_Status m).

(** [Validate], src/pkg/api/models/kluster.go:33-55 *)
Definition Validate (m : KlusterModel) : option verr :=
  composite [validateName m; validateSpec m; validateStatus m].
End KlusterValidate.
