(* ===== verification/ApiModels.v ===== *)
(** [pkg/api/models]: the bodies of the API's replies, with the request and
    reply validation that go-swagger generated for them.

    A pointer is an option, so [null] elements of a decoded array are kept.  A
    nil slice and an empty one are told apart only where the code does. *)
From S2P Require Import Prelude GoStrings Models.

(** * OpenStack metadata *)

(** [Flavor], src/pkg/api/models/openstack_metadata.go:192-199 *)
Record Flavor := { fl_ID : string; fl_Name : string }.
(** [KeyPair], src/pkg/api/models/openstack_metadata.go:231-235 *)
Record KeyPair := { kp_Name : string }.
(** [Subnet], src/pkg/api/models/openstack_metadata.go:415-425 *)
Record Subnet := { sn_CIDR : string; sn_ID : string; sn_Name : string }.
(** [Network], src/pkg/api/models/openstack_metadata.go:341-351 *)
Record Network := { nw_ID : string; nw_Name : string; Subnets : list (option Subnet) }.
(** [Router], src/pkg/api/models/openstack_metadata.go:267-277 *)
Record Router := { ro_ID : string; ro_Name : string; Networks : list (option Network) }.
(** [SecurityGroup], src/pkg/api/models/openstack_metadata.go:457-464 *)
Record SecurityGroup := { sg_ID : string; sg_Name : string }.
(** [OpenstackMetadata], src/pkg/api/models/openstack_metadata.go:19-32 *)
Record OpenstackMetadata := {
  Flavors : list (option Flavor);
  KeyPairs : list (option KeyPair);
  Routers : list (option Router);
  SecurityGroups : list (option SecurityGroup) }.

(** The loop the generated code repeats for every array of objects: nil items
    are skipped, the first invalid one ends it, and only a plain validation
    error takes the name of the item. *)
Fixpoint validate_items {A} (prefix : string) (validate : A -> option verr) (i : N) (l : list (option A)) : option verr :=
  match l with
  | [] => None
  | None :: l' => validate_items prefix validate (i + 1) l'
  | Some x :: l' =>
      match validate x with
      | Some e => Some (ValidateName (prefix +:+ "." +:+ Utoa i) e)
      | None => validate_items prefix validate (i + 1) l'
      end
  end.

Module MetadataValidate.
(** [Flavor.Validate], src/pkg/api/models/openstack_metadata.go:202-209 *)
Definition Flavor (m : Flavor) : option verr := composite [].
(** [KeyPair.Validate], src/pkg/api/models/openstack_metadata.go:238-245 *)
Definition KeyPair (m : KeyPair) : option verr := composite [].
(** [Subnet.Validate], src/pkg/api/models/openstack_metadata.go:428-435 *)
Definition Subnet (m : Subnet) : option verr := composite [].
(** [SecurityGroup.Validate], src/pkg/api/models/openstack_metadata.go:467-474 *)
Definition SecurityGroup (m : SecurityGroup) : option verr := composite [].

(** [validateSubnets], src/pkg/api/models/openstack_metadata.go:368-393 *)
Definition validateSubnets (m : Network) : option verr := validate_items "subnets" Subnet 0 (Subnets m).
(** [Network.Validate], src/pkg/api/models/openstack_metadata.go:354-366 *)
Definition Network (m : Network) : option verr := composite [validateSubnets m].
(** [validateNetworks], src/pkg/api/models/openstack_metadata.go:294-319 *)
Definition validateNetworks (m : Router) : option verr := validate_items "networks" Network 0 (Networks m).
(** [Router.Validate], src/pkg/api/models/openstack_metadata.go:280-292 *)
Definition Router (m : Router) : option verr := composite [validateNetworks m].

(** [validateFlavors], src/pkg/api/models/openstack_metadata.go:64-89 *)
Definition validateFlavors (m : OpenstackMetadata) : option verr := validate_items "flavors" Flavor 0 (Flavors m).
(** [validateKeyPairs], src/pkg/api/models/openstack_metadata.go:91-116 *)
Definition validateKeyPairs (m : OpenstackMetadata) : option verr := validate_items "keyPairs" KeyPair 0 (KeyPairs m).
(** [validateRouters], src/pkg/api/models/openstack_metadata.go:118-143 *)
Definition validateRouters (m : OpenstackMetadata) : option verr := validate_items "routers" Router 0 (Routers m).
(** [validateSecurityGroups], src/pkg/api/models/openstack_metadata.go:145-170 *)
Definition validateSecurityGroups (m : OpenstackMetadata) : option verr :=
  validate_items "securityGroups" SecurityGroup 0 (SecurityGroups m).
(** [OpenstackMetadata.Validate], src/pkg/api/models/openstack_metadata.go:35-62 *)
Definition Validate (m : OpenstackMetadata) : option verr :=
  composite [validateFlavors m; validateKeyPairs m; validateRouters m; validateSecurityGroups m].
End MetadataValidate.

(** * Information about a cluster *)

(** [Link], src/pkg/api/models/kluster_info.go:123-130 *)
Record Link := { lk_Platform : string; lk_Link : string }.
(** [Binaries], src/pkg/api/models/kluster_info.go:70-77 *)
Record Binaries := { Links : list Link; bin_Name : string }.
(** [KlusterInfo], src/pkg/api/models/kluster_info.go:17-24 *)
Record KlusterInfo := { ki_Binaries : list Binaries; SetupCommand : string }.

(** Time stamps are the text [strfmt.DateTime] prints.
    [Event], src/pkg/api/models/event.go:20-39 *)
Record Event := { ev_First : string; ev_Last : string; ev_Message : string; ev_Reason : string; ev_Count : Z; ev_Type : string }.
(** [eventTypeTypePropEnum], src/pkg/api/models/event.go:56-74 *)
Definition eventTypeTypePropEnum : list string := ["Normal"; "Warning"].

Module EventValidate.
(** [validateTypeEnum], src/pkg/api/models/event.go:76-81 *)
Definition validateTypeEnum (path value : string) : option verr :=
  if decide (value ∈ eventTypeTypePropEnum) then None else Some (Validation path VEnum).
(** [validateType], src/pkg/api/models/event.go:83-95 *)
Definition validateType (m : Event) : option verr :=
  if decide (ev_Type m = "") then None else validateTypeEnum "type" (ev_Type m).
(** [Event.Validate], src/pkg/api/models/event.go:42-54 *)
Definition Validate (m : Event) : option verr := composite [validateType m].
End EventValidate.

(** * Errors, versions and credentials *)

(** [models.Error]
    [Error], src/pkg/api/models/error.go:19-31 *)
Record ErrorModel := { er_Code : option Z; er_HelpURL : string; er_Message : option string }.

Module ErrorValidate.
(** [validateCode], src/pkg/api/models/error.go:53-60 *)
Definition validateCode (m : ErrorModel) : option verr :=
  match er_Code m with None => Some (Validation "code" VRequired) | Some _ => None end.
(** [validateMessage], src/pkg/api/models/error.go:62-69 *)
Definition validateMessage (m : ErrorModel) : option verr :=
  match er_Message m with None => Some (Validation "message" VRequired) | Some _ => None end.
(** [Error.Validate], src/pkg/api/models/error.go:34-51 *)
Definition Validate (m : ErrorModel) : option verr := composite [validateCode m; validateMessage m].
End ErrorValidate.

(** [APIVersions], src/pkg/api/models/api_versions.go:18-23 *)
Record APIVersions := { Versions : list string }.
(** [Info], src/pkg/api/models/info.go:17-21 *)
Record InfoModel := { in_Version : string }.
(** [Credentials], src/pkg/api/models/credentials.go:17-21 *)
Record Credentials := { Kubeconfig : string }.

(** ** Their validators *)
Module BodyValidate.
(** Nothing is checked in a list, nil or not.
    [validateLinks], src/pkg/api/models/kluster_info.go:94-101 *)
Definition validateLinks (m : Binaries) : option verr := None.
(** [Binaries.Validate], src/pkg/api/models/kluster_info.go:80-92 *)
Definition Binaries (m : Binaries) : option verr := composite [validateLinks m].
(** [validateBinaries], src/pkg/api/models/kluster_info.go:41-48 *)
Definition validateBinaries (m : KlusterInfo) : option verr := None.
(** [KlusterInfo.Validate], src/pkg/api/models/kluster_info.go:27-39 *)
Definition KlusterInfo (m : KlusterInfo) : option verr := composite [validateBinaries m].
(** [Link.Validate], src/pkg/api/models/kluster_info.go:133-140 *)
Definition Link (m : Link) : option verr := composite [].
(** [Required] wants a slice that is not nil, which the record does not tell.
    [validateVersions], src/pkg/api/models/api_versions.go:40-47 *)
Definition validateVersions (isnil : bool) (m : APIVersions) : option verr :=
  if isnil then Some (Validation "versions" VRequired) else None.
(** [APIVersions.Validate], src/pkg/api/models/api_versions.go:26-38 *)
Definition APIVersions (isnil : bool) (m : APIVersions) : option verr := composite [validateVersions isnil m].
(** [Credentials.Validate], src/pkg/api/models/credentials.go:24-31 *)
Definition Credentials (m : Credentials) : option verr := composite [].
(** [Info.Validate], src/pkg/api/models/info.go:24-31 *)
Definition Info (m : InfoModel) : option verr := composite [].
(** [NodePoolConfig.Validate], src/pkg/api/models/node_pool_config.go:27-34 *)
Definition NodePoolConfig (m : NodePoolConfig) : option verr := composite [].
(** [NodePoolInfo.Validate], src/pkg/api/models/node_pool_info.go:36-43 *)
Definition NodePoolInfo (m : NodePoolInfo) : option verr := composite [].
(** [OpenstackSpec.Validate], src/pkg/api/models/openstack_spec.go:36-43 *)
Definition OpenstackSpec (m : OpenstackSpec) : option verr := composite [].
(** [validateRoles], src/pkg/api/models/principal.go:53-60 *)
Definition validateRoles (m : Principal) : option verr := None.
(** [Principal.Validate], src/pkg/api/models/principal.go:39-51 *)
Definition Principal (m : Principal) : option verr := composite [validateRoles m].
End BodyValidate.
