(* ===== verification/Http.v ===== *)
(** The HTTP layer under the API: requests, response writers, bodies, and what
    the generated code uses of the go-openapi runtime.

    A body is the text on the wire.  How a value is encoded belongs to the JSON
    codec, the interface [Codec]; an instance comes with the laws below for
    the values it encodes faithfully.  JsonModels has the instances the program
    runs with. *)
From S2P Require Import Prelude GoStrings Models ApiModels.
Local Open Scope Z_scope.

(** * Codecs *)

(** [Consumer.Consume]: a value, [io.EOF] or another error *)
Inductive consumed (A : Type) := Consumed (a : A) | EOF | NotConsumed (e : error).
Arguments Consumed {_} _.
Arguments EOF {_}.
Arguments NotConsumed {_} _.

(** What one type needs of [runtime.JSONProducer] and [runtime.JSONConsumer];
    [zero] is the value a decoder starts from. *)
Class Codec (A : Type) := {
  Produce : A -> reply string;
  Consume : string -> consumed A;
  zero : A }.

(** A decoder finds no value in an empty text. *)
Class CodecLaws (A : Type) `{!Codec A} := consume_empty : Consume (A:=A) "" = EOF.

(** The value survives being sent. *)
Definition faithful {A} `{!Codec A} (a : A) : Prop := ∃ b, Produce a = Ok b ∧ Consume b = Consumed a.

Lemma faithful_nonempty {A} `{!Codec A, !CodecLaws A} (a : A) b :
  Produce a = Ok b → Consume b = Consumed a → b ≠ "".
Proof. intros _ H ->. by rewrite consume_empty in H. Qed.

(** * Requests and responses *)
Record HTTPRequest := {
  rq_Method : string;
  rq_Path : string;                       (** [URL.EscapedPath()] *)
  rq_Header : gmap string string;         (** by canonical name *)
  rq_Body : option string;                (** [None]: [runtime.HasBody] is false *)
  rq_Scheme : string;
  rq_Host : string }.
Record HTTPResponse := { rs_Code : Z; rs_Type : string; rs_Body : string }.

Abbreviation RouteParams := (list (string * string)) (only parsing).
(** [RouteParams.GetOK], the values and whether the name is present
    [GetOK], src/vendor/github.com/go-openapi/runtime/middleware/router.go:56-63 *)
Fixpoint GetOK (r : RouteParams) (name : string) : list string * bool :=
  match r with
  | [] => ([], false)
  | (n, v) :: r' => if decide (n = name) then ([v], true) else GetOK r' name
  end.

(** * Response writers

    Only the first status code counts; writing a body sets 200. *)
Record ResponseWriter := { rw_Type : string; rw_Code : option Z; rw_Body : string }.
Definition WriteHeader (code : Z) : Go ResponseWriter unit :=
  modify (fun w => {| rw_Type := rw_Type w; rw_Code := Some (default code (rw_Code w)); rw_Body := rw_Body w |}).
Definition SetContentType (t : string) : Go ResponseWriter unit :=
  modify (fun w => {| rw_Type := t; rw_Code := rw_Code w; rw_Body := rw_Body w |}).
Definition Write (b : string) : Go ResponseWriter unit :=
  modify (fun w => {| rw_Type := rw_Type w; rw_Code := Some (default 200 (rw_Code w)); rw_Body := rw_Body w +:+ b |}).

(** [if err := producer.Produce(rw, payload); err != nil { panic(err) }] *)
Definition produce {A} `{!Codec A} (payload : A) : Go ResponseWriter unit :=
  match Produce payload with
  | Ok b => Write b
  | Bad err => panic (Error err)
  end.
(** The same for a pointer: nothing is written for nil. *)
Definition produce_ptr {A} `{!Codec A} (payload : option A) : Go ResponseWriter unit :=
  match payload with Some p => produce p | None => mret tt end.

(** What the server sends once the handler has returned *)
Definition sent (w : ResponseWriter) : HTTPResponse :=
  {| rs_Code := default 200 (rw_Code w); rs_Type := rw_Type w; rs_Body := rw_Body w |}.
Definition fresh_writer : ResponseWriter := {| rw_Type := ""; rw_Code := None; rw_Body := "" |}.

(** * Errors of the server

    [errors.Required], [errors.NewParseError] and the error of the body's
    validation, as [BindRequest] collects them *)
Inductive bind_error :=
| Required (name in_ : string)
| ParseError (name in_ : string) (reason : error)
| Invalid (e : verr)
| BadContent (code : Z) (msg : string).   (** of the content type *)
Inductive serve_error :=
| EComposite (errs : list bind_error)
| EApi (code : Z) (msg : string)
| EPlain (e : error).                     (** any other error *)

(** [asHTTPCode], src/vendor/github.com/go-openapi/errors/api.go:145-150 *)
Definition asHTTPCode (input : Z) : Z := if 600 <=? input then 422 else input.

(** The codes of the leaves; those of validations are 600 and more. *)
Definition vkind_code (k : vkind) : Z :=
  match k with VRequired => 602 | VPattern => 605 | VEnum => 606 | VMaximum => 608 | VMinimum => 609 end.
Fixpoint verr_codes (e : verr) : list Z :=
  match e with
  | Validation _ k => [vkind_code k]
  | Composite es => es ≫= verr_codes
  end.
Definition bind_codes (e : bind_error) : list Z :=
  match e with
  | Required _ _ => [602]
  | ParseError _ _ _ => [400]
  | Invalid v => verr_codes v
  | BadContent c _ => [c]
  end.

(** The code of an error: the first of a composite decides.  [None] is the
    index out of range of an empty composite. *)
Definition error_code (e : serve_error) : option Z :=
  match e with
  | EComposite errs => head (errs ≫= bind_codes)
  | EApi code _ => Some code
  | EPlain _ => Some 500
  end.

Section ServeError.
(** The text of an error, and [errorAsJSON] *)
Context (error_text : serve_error -> string) (errorAsJSON : Z -> string -> string).
(** The status is the code cut to a status of HTTP; the body keeps the code.
    [ServeError], src/vendor/github.com/go-openapi/errors/api.go:115-143 *)
Definition ServeError (e : serve_error) : Go ResponseWriter unit :=
  _ ← SetContentType "application/json";
  match error_code e with
  | None => panic "runtime error: index out of range"
  | Some c => _ ← WriteHeader (asHTTPCode c); Write (errorAsJSON c (error_text e))
  end.
End ServeError.

(** * Requests of a client *)
Record ClientRequest := {
  cr_PathParams : gmap string string;
  cr_Header : gmap string string;
  cr_Payload : option (reply string) }.   (** produced when the request is built *)
Definition new_request : ClientRequest := {| cr_PathParams := ∅; cr_Header := ∅; cr_Payload := None |}.
(** The timeout bounds the exchange and is not sent. *)
Definition SetTimeout : Go ClientRequest unit := mret tt.
Definition SetPathParam (name value : string) : Go ClientRequest unit :=
  modify (fun r => {| cr_PathParams := <[name := value]> (cr_PathParams r); cr_Header := cr_Header r; cr_Payload := cr_Payload r |}).
(** [http.CanonicalHeaderKey] of a valid name: capitals at the start and after
    a dash *)
Fixpoint canonical_go (start : bool) (s : string) : string :=
  match s with
  | EmptyString => ""
  | String c s' => String (if start then upper c else lower c) (canonical_go (bool_decide (c = "-"%char)) s')
  end.
Definition CanonicalHeaderKey (s : string) : string := canonical_go true s.
Definition SetHeaderParam (name value : string) : Go ClientRequest unit :=
  modify (fun r => {| cr_PathParams := cr_PathParams r; cr_Header := <[CanonicalHeaderKey name := value]> (cr_Header r);
                      cr_Payload := cr_Payload r |}).
Definition SetBodyParam {A} `{!Codec A} (payload : A) : Go ClientRequest unit :=
  modify (fun r => {| cr_PathParams := cr_PathParams r; cr_Header := cr_Header r; cr_Payload := Some (Produce payload) |}).

(** The error of a call: what the server replied, or anything else *)
Inductive client_error :=
| CDefault (code : Z) (payload : ErrorModel)
| CUnknown (code : Z)                     (** [runtime.NewAPIError] *)
| COther (e : error).
Inductive call_result (A : Type) := Returned (a : A) | Refused (e : client_error).
Arguments Returned {_} _.
Arguments Refused {_} _.

(** The body of a reply; an empty one leaves the zero value. *)
Definition read_payload {A} `{!Codec A} (body : string) : reply A :=
  match Consume body with
  | Consumed a => Ok a
  | EOF => Ok zero
  | NotConsumed e => Bad e
  end.

(** * Reading back what was written *)
Section Laws.
Context {A : Type} `{!Codec A, !CodecLaws A}.

Lemma read_empty : read_payload (A:=A) "" = Ok zero.
Proof. unfold read_payload. by rewrite consume_empty. Qed.

Lemma read_produced (a : A) b : Produce a = Ok b → faithful a → read_payload b = Ok a.
Proof. intros H (b' & H' & Hc). unfold read_payload. assert (b' = b) as -> by congruence. by rewrite Hc. Qed.
End Laws.
