(* ===== verification/Operations.v ===== *)
(** [pkg/api/rest/operations]: the operations of the API on the server.

    For every operation: binding a request to its parameters, writing its
    responses, the steps from the request to the handler and back, and the URL
    it is reached at.  The parts of the go-openapi middleware the generated
    code relies on come first. *)
From S2P Require Import Prelude GoStrings Models ApiModels Http.
Local Open Scope Z_scope.

(** * The middleware *)

(** What a context is configured with: the authenticator and the authorizer of
    the API, the text of an error and its JSON, the parsing of a media type and
    the negotiation of the response format. *)
Record MiddlewareContext := {
  KeystoneAuth : string -> reply Principal;
  APIAuthorizer : HTTPRequest -> Principal -> option error;
  error_text : serve_error -> string;
  errorAsJSON : Z -> string -> string;
  ParseMediaType : string -> option string;
  accepts_json : HTTPRequest -> bool }.

(** With the one scheme of the API, a token in a header
    [Authorize], src/vendor/github.com/go-openapi/runtime/middleware/context.go:376-413 *)
Definition Authorize (ctx : MiddlewareContext) (r : HTTPRequest) : serve_error + option Principal :=
  let token := default "" (rq_Header r !! "X-Auth-Token") in
  if decide (token = "") then inl (EApi 401 "unauthenticated for invalid credentials")
  else match KeystoneAuth ctx token with
       | Bad err => inl (EApi 401 (Error err))
       | Ok usr =>
           match APIAuthorizer ctx r usr with
           | Some err => inl (EApi 403 (Error err))
           | None => inr (Some usr)
           end
       end.

(** The content type of a request with a body must be the one of the API.
    [BindValidRequest], src/vendor/github.com/go-openapi/runtime/middleware/context.go:252-297 *)
Definition BindValidRequest {P} (ctx : MiddlewareContext) (r : HTTPRequest) (bound : list bind_error + P) : serve_error + P :=
  let res :=
    match rq_Body r with
    | None => []
    | Some _ =>
        match ParseMediaType ctx (default "application/octet-stream" (rq_Header r !! "Content-Type")) with
        | None => [BadContent 400 "malformed content type"]
        | Some mt => if decide (ToLower mt = "application/json") then [] else [BadContent 415 "unsupported media type"]
        end
    end in
  match res with
  | [] => match bound with inl errs => inl (EComposite errs) | inr params => inr params end
  | _ => inl (EComposite res)
  end.

(** A response is rendered on a fresh writer; a panic is left to the server. *)
Definition rendered {S} (m : Go ResponseWriter unit) : Go S HTTPResponse := fun s =>
  match m fresh_writer with
  | (w, Ret _) => (s, Ret (sent w))
  | (_, Fail e) => (s, Fail e)
  | (_, Panic why) => (s, Panic why)
  end.
(** [Respond], src/vendor/github.com/go-openapi/runtime/middleware/context.go:445-474 *)
Definition Respond {S} (ctx : MiddlewareContext) (r : HTTPRequest) (write : Go ResponseWriter unit) : Go S HTTPResponse :=
  rendered (_ ← SetContentType (if accepts_json ctx r then "application/json" else ""); write).
Definition RespondError {S} (ctx : MiddlewareContext) (err : serve_error) : Go S HTTPResponse :=
  rendered (ServeError (error_text ctx) (errorAsJSON ctx) err).

(** * Shared parts of the operations *)

(** What a handler answers with: the response of the documented success, or
    the default response with its status code *)
Inductive Responder (P : Type) :=
| Success (payload : P)
| Default (code : Z) (payload : option ErrorModel).
Arguments Success {_} _.
Arguments Default {_} _ _.

(** The codecs of the bodies of the API *)
Class ApiCodecs := {
  kluster_codec :: Codec KlusterModel; klusters_codec :: Codec (list (option KlusterModel));
  credentials_codec :: Codec Credentials; events_codec :: Codec (list (option Event));
  info_codec :: Codec KlusterInfo; metadata_codec :: Codec OpenstackMetadata;
  version_codec :: Codec InfoModel; versions_codec :: Codec APIVersions; error_codec :: Codec ErrorModel }.

(** The body of a request: its errors, and the cluster when there is none *)
Definition bind_body `{!ApiCodecs} (r : HTTPRequest) : list bind_error * option KlusterModel :=
  match rq_Body r with
  | None => ([Required "body" "body"], None)
  | Some b =>
      match Consume b with
      | EOF => ([Required "body" "body"], None)
      | NotConsumed err => ([ParseError "body" "body" err], None)
      | Consumed body =>
          match KlusterValidate.Validate body with
          | Some err => ([Invalid err], None)
          | None => ([], Some body)
          end
      end
  end.

Module CreateCluster.
(** [CreateClusterParams], src/pkg/api/rest/operations/create_cluster_parameters.go:30-40 *)
Record Params := { HTTPRequest_ : HTTPRequest; Body : option KlusterModel }.
Section Op.
Context `{!ApiCodecs}.

(** [BindRequest], src/pkg/api/rest/operations/create_cluster_parameters.go:44-76 *)
Definition BindRequest (r : HTTPRequest) (route : RouteParams) : list bind_error + Params :=
  let '(res, body) := bind_body r in
  match res with [] => inr {| HTTPRequest_ := r; Body := body |} | _ => inl res end.

(** [CreateClusterCreated.WriteResponse], src/pkg/api/rest/operations/create_cluster_responses.go:48-57 *)
Definition WriteCreated (payload : option KlusterModel) : Go ResponseWriter unit :=
  _ ← WriteHeader 201; produce_ptr payload.
(** [CreateClusterDefault.WriteResponse], src/pkg/api/rest/operations/create_cluster_responses.go:106-115 *)
Definition WriteDefault (code : Z) (payload : option ErrorModel) : Go ResponseWriter unit :=
  _ ← WriteHeader code; produce_ptr payload.
Definition WriteResponse (o : Responder (option KlusterModel)) : Go ResponseWriter unit :=
  match o with Success p => WriteCreated p | Default c e => WriteDefault c e end.

(** [ServeHTTP], src/pkg/api/rest/operations/create_cluster.go:44-73 *)
Definition ServeHTTP {S} (ctx : MiddlewareContext) (Handler : Params -> option Principal -> Go S (Responder (option KlusterModel)))
    (r : HTTPRequest) (route : RouteParams) : Go S HTTPResponse :=
  match Authorize ctx r with
  | inl err => RespondError ctx err
  | inr principal =>
      match BindValidRequest ctx r (BindRequest r route) with
      | inl err => RespondError ctx err
      | inr params => res ← Handler params principal; Respond ctx r (WriteResponse res)
      end
  end.

(** [CreateClusterURL.Build], src/pkg/api/rest/operations/create_cluster_urlbuilder.go:35-44 *)
Definition Build (basePath : string) : reply string := Ok (path_Join basePath "/api/v1/clusters").
End Op.
End CreateCluster.

Module GetClusterCredentials.
(** [GetClusterCredentialsParams], src/pkg/api/rest/operations/get_cluster_credentials_parameters.go:28-39 *)
Record Params := { HTTPRequest_ : HTTPRequest; Name : string }.
Section Op.
Context `{!ApiCodecs}.

(** [bindName], src/pkg/api/rest/operations/get_cluster_credentials_parameters.go:58-71 *)
Definition bindName (rawData : list string) : string := default "" (last rawData).
(** [BindRequest], src/pkg/api/rest/operations/get_cluster_credentials_parameters.go:43-56 *)
Definition BindRequest (r : HTTPRequest) (route : RouteParams) : list bind_error + Params :=
  let '(rName, _) := GetOK route "name" in
  inr {| HTTPRequest_ := r; Name := bindName rName |}.

(** [GetClusterCredentialsOK.WriteResponse], src/pkg/api/rest/operations/get_cluster_credentials_responses.go:48-57 *)
Definition WriteOK (payload : option Credentials) : Go ResponseWriter unit :=
  _ ← WriteHeader 200; produce_ptr payload.
(** [GetClusterCredentialsDefault.WriteResponse], src/pkg/api/rest/operations/get_cluster_credentials_responses.go:106-115 *)
Definition WriteDefault (code : Z) (payload : option ErrorModel) : Go ResponseWriter unit :=
  _ ← WriteHeader code; produce_ptr payload.
Definition WriteResponse (o : Responder (option Credentials)) : Go ResponseWriter unit :=
  match o with Success p => WriteOK p | Default c e => WriteDefault c e end.

(** [ServeHTTP], src/pkg/api/rest/operations/get_cluster_credentials.go:44-73 *)
Definition ServeHTTP {S} (ctx : MiddlewareContext) (Handler : Params -> option Principal -> Go S (Responder (option Credentials)))
    (r : HTTPRequest) (route : RouteParams) : Go S HTTPResponse :=
  match Authorize ctx r with
  | inl err => RespondError ctx err
  | inr principal =>
      match BindValidRequest ctx r (BindRequest r route) with
      | inl err => RespondError ctx err
      | inr params => res ← Handler params principal; Respond ctx r (WriteResponse res)
      end
  end.

(** [GetClusterCredentialsURL.Build], src/pkg/api/rest/operations/get_cluster_credentials_urlbuilder.go:40-55 *)
Definition Build (basePath name : string) : reply string :=
  if decide (name = "") then Bad (ErrNew "Name is required on GetClusterCredentialsURL")
  else Ok (path_Join basePath (Replace "/api/v1/clusters/{name}/credentials" "{name}" name)).
End Op.
End GetClusterCredentials.

Module GetClusterEvents.
(** [GetClusterEventsParams], src/pkg/api/rest/operations/get_cluster_events_parameters.go:28-39 *)
Record Params := { HTTPRequest_ : HTTPRequest; Name : string }.
Section Op.
Context `{!ApiCodecs}.

(** [bindName], src/pkg/api/rest/operations/get_cluster_events_parameters.go:58-71 *)
Definition bindName (rawData : list string) : string := default "" (last rawData).
(** [BindRequest], src/pkg/api/rest/operations/get_cluster_events_parameters.go:43-56 *)
Definition BindRequest (r : HTTPRequest) (route : RouteParams) : list bind_error + Params :=
  let '(rName, _) := GetOK route "name" in
  inr {| HTTPRequest_ := r; Name := bindName rName |}.

(** [GetClusterEventsOK.WriteResponse], src/pkg/api/rest/operations/get_cluster_events_responses.go:48-60 *)
Definition WriteOK (payload : option (list (option Event))) : Go ResponseWriter unit :=
  _ ← WriteHeader 200; produce (default [] payload).
(** [GetClusterEventsDefault.WriteResponse], src/pkg/api/rest/operations/get_cluster_events_responses.go:109-118 *)
Definition WriteDefault (code : Z) (payload : option ErrorModel) : Go ResponseWriter unit :=
  _ ← WriteHeader code; produce_ptr payload.
Definition WriteResponse (o : Responder (option (list (option Event)))) : Go ResponseWriter unit :=
  match o with Success p => WriteOK p | Default c e => WriteDefault c e end.

(** [ServeHTTP], src/pkg/api/rest/operations/get_cluster_events.go:44-73 *)
Definition ServeHTTP {S} (ctx : MiddlewareContext) (Handler : Params -> option Principal -> Go S (Responder (option (list (option Event)))))
    (r : HTTPRequest) (route : RouteParams) : Go S HTTPResponse :=
  match Authorize ctx r with
  | inl err => RespondError ctx err
  | inr principal =>
      match BindValidRequest ctx r (BindRequest r route) with
      | inl err => RespondError ctx err
      | inr params => res ← Handler params principal; Respond ctx r (WriteResponse res)
      end
  end.

(** [GetClusterEventsURL.Build], src/pkg/api/rest/operations/get_cluster_events_urlbuilder.go:40-55 *)
Definition Build (basePath name : string) : reply string :=
  if decide (name = "") then Bad (ErrNew "Name is required on GetClusterEventsURL")
  else Ok (path_Join basePath (Replace "/api/v1/clusters/{name}/events" "{name}" name)).
End Op.
End GetClusterEvents.

Module GetClusterInfo.
(** [GetClusterInfoParams], src/pkg/api/rest/operations/get_cluster_info_parameters.go:28-39 *)
Record Params := { HTTPRequest_ : HTTPRequest; Name : string }.
Section Op.
Context `{!ApiCodecs}.

(** [bindName], src/pkg/api/rest/operations/get_cluster_info_parameters.go:58-71 *)
Definition bindName (rawData : list string) : string := default "" (last rawData).
(** [BindRequest], src/pkg/api/rest/operations/get_cluster_info_parameters.go:43-56 *)
Definition BindRequest (r : HTTPRequest) (route : RouteParams) : list bind_error + Params :=
  let '(rName, _) := GetOK route "name" in
  inr {| HTTPRequest_ := r; Name := bindName rName |}.

(** [GetClusterInfoOK.WriteResponse], src/pkg/api/rest/operations/get_cluster_info_responses.go:48-57 *)
Definition WriteOK (payload : option KlusterInfo) : Go ResponseWriter unit :=
  _ ← WriteHeader 200; produce_ptr payload.
(** [GetClusterInfoDefault.WriteResponse], src/pkg/api/rest/operations/get_cluster_info_responses.go:106-115 *)
Definition WriteDefault (code : Z) (payload : option ErrorModel) : Go ResponseWriter unit :=
  _ ← WriteHeader code; produce_ptr payload.
Definition WriteResponse (o : Responder (option KlusterInfo)) : Go ResponseWriter unit :=
  match o with Success p => WriteOK p | Default c e => WriteDefault c e end.

(** [ServeHTTP], src/pkg/api/rest/operations/get_cluster_info.go:44-73 *)
Definition ServeHTTP {S} (ctx : MiddlewareContext) (Handler : Params -> option Principal -> Go S (Responder (option KlusterInfo)))
    (r : HTTPRequest) (route : RouteParams) : Go S HTTPResponse :=
  match Authorize ctx r with
  | inl err => RespondError ctx err
  | inr principal =>
      match BindValidRequest ctx r (BindRequest r route) with
      | inl err => RespondError ctx err
      | inr params => res ← Handler params principal; Respond ctx r (WriteResponse res)
      end
  end.

(** [GetClusterInfoURL.Build], src/pkg/api/rest/operations/get_cluster_info_urlbuilder.go:40-55 *)
Definition Build (basePath name : string) : reply string :=
  if decide (name = "") then Bad (ErrNew "Name is required on GetClusterInfoURL")
  else Ok (path_Join basePath (Replace "/api/v1/clusters/{name}/info" "{name}" name)).
End Op.
End GetClusterInfo.

Module GetOpenstackMetadata.
(** [GetOpenstackMetadataParams], src/pkg/api/rest/operations/get_openstack_metadata_parameters.go:26-30 *)
Record Params := { HTTPRequest_ : HTTPRequest }.
Section Op.
Context `{!ApiCodecs}.

(** [BindRequest], src/pkg/api/rest/operations/get_openstack_metadata_parameters.go:34-42 *)
Definition BindRequest (r : HTTPRequest) (route : RouteParams) : list bind_error + Params :=
  inr {| HTTPRequest_ := r |}.

(** [GetOpenstackMetadataOK.WriteResponse], src/pkg/api/rest/operations/get_openstack_metadata_responses.go:48-57 *)
Definition WriteOK (payload : option OpenstackMetadata) : Go ResponseWriter unit :=
  _ ← WriteHeader 200; produce_ptr payload.
(** [GetOpenstackMetadataDefault.WriteResponse], src/pkg/api/rest/operations/get_openstack_metadata_responses.go:106-115 *)
Definition WriteDefault (code : Z) (payload : option ErrorModel) : Go ResponseWriter unit :=
  _ ← WriteHeader code; produce_ptr payload.
Definition WriteResponse (o : Responder (option OpenstackMetadata)) : Go ResponseWriter unit :=
  match o with Success p => WriteOK p | Default c e => WriteDefault c e end.

(** [ServeHTTP], src/pkg/api/rest/operations/get_openstack_metadata.go:44-73 *)
Definition ServeHTTP {S} (ctx : MiddlewareContext) (Handler : Params -> option Principal -> Go S (Responder (option OpenstackMetadata)))
    (r : HTTPRequest) (route : RouteParams) : Go S HTTPResponse :=
  match Authorize ctx r with
  | inl err => RespondError ctx err
  | inr principal =>
      match BindValidRequest ctx r (BindRequest r route) with
      | inl err => RespondError ctx err
      | inr params => res ← Handler params principal; Respond ctx r (WriteResponse res)
      end
  end.

(** [GetOpenstackMetadataURL.Build], src/pkg/api/rest/operations/get_openstack_metadata_urlbuilder.go:35-44 *)
Definition Build (basePath : string) : reply string := Ok (path_Join basePath "/api/v1/openstack/metadata").
End Op.
End GetOpenstackMetadata.

Module Info.
(** [InfoParams], src/pkg/api/rest/operations/info_parameters.go:26-30 *)
Record Params := { HTTPRequest_ : HTTPRequest }.
Section Op.
Context `{!ApiCodecs}.

(** [BindRequest], src/pkg/api/rest/operations/info_parameters.go:34-42 *)
Definition BindRequest (r : HTTPRequest) (route : RouteParams) : list bind_error + Params :=
  inr {| HTTPRequest_ := r |}.

(** [InfoOK.WriteResponse], src/pkg/api/rest/operations/info_responses.go:48-57 *)
Definition WriteOK (payload : option InfoModel) : Go ResponseWriter unit :=
  _ ← WriteHeader 200; produce_ptr payload.
Definition WriteResponse (o : option InfoModel) : Go ResponseWriter unit := WriteOK o.

(** [ServeHTTP], src/pkg/api/rest/operations/info.go:42-58 *)
Definition ServeHTTP {S} (ctx : MiddlewareContext) (Handler : Params -> Go S (option InfoModel))
    (r : HTTPRequest) (route : RouteParams) : Go S HTTPResponse :=
  match BindValidRequest ctx r (BindRequest r route) with
  | inl err => RespondError ctx err
  | inr params => res ← Handler params; Respond ctx r (WriteResponse res)
  end.

(** [InfoURL.Build], src/pkg/api/rest/operations/info_urlbuilder.go:35-44 *)
Definition Build (basePath : string) : reply string := Ok (path_Join basePath "/info").
End Op.
End Info.

Module ListAPIVersions.
(** [ListAPIVersionsParams], src/pkg/api/rest/operations/list_api_versions_parameters.go:26-30 *)
Record Params := { HTTPRequest_ : HTTPRequest }.
Section Op.
Context `{!ApiCodecs}.

(** [BindRequest], src/pkg/api/rest/operations/list_api_versions_parameters.go:34-42 *)
Definition BindRequest (r : HTTPRequest) (route : RouteParams) : list bind_error + Params :=
  inr {| HTTPRequest_ := r |}.

(** [ListAPIVersionsOK.WriteResponse], src/pkg/api/rest/operations/list_api_versions_responses.go:48-57 *)
Definition WriteOK (payload : option APIVersions) : Go ResponseWriter unit :=
  _ ← WriteHeader 200; produce_ptr payload.
Definition WriteResponse (o : option APIVersions) : Go ResponseWriter unit := WriteOK o.

(** [ServeHTTP], src/pkg/api/rest/operations/list_api_versions.go:42-58 *)
Definition ServeHTTP {S} (ctx : MiddlewareContext) (Handler : Params -> Go S (option APIVersions))
    (r : HTTPRequest) (route : RouteParams) : Go S HTTPResponse :=
  match BindValidRequest ctx r (BindRequest r route) with
  | inl err => RespondError ctx err
  | inr params => res ← Handler params; Respond ctx r (WriteResponse res)
  end.

(** [ListAPIVersionsURL.Build], src/pkg/api/rest/operations/list_api_versions_urlbuilder.go:35-44 *)
Definition Build (basePath : string) : reply string := Ok (path_Join basePath "/api").
End Op.
End ListAPIVersions.

Module ListClusters.
(** [ListClustersParams], src/pkg/api/rest/operations/list_clusters_parameters.go:26-30 *)
Record Params := { HTTPRequest_ : HTTPRequest }.
Section Op.
Context `{!ApiCodecs}.

(** [BindRequest], src/pkg/api/rest/operations/list_clusters_parameters.go:34-42 *)
Definition BindRequest (r : HTTPRequest) (route : RouteParams) : list bind_error + Params :=
  inr {| HTTPRequest_ := r |}.

(** [ListClustersOK.WriteResponse], src/pkg/api/rest/operations/list_clusters_responses.go:48-60 *)
Definition WriteOK (payload : option (list (option KlusterModel))) : Go ResponseWriter unit :=
  _ ← WriteHeader 200; produce (default [] payload).
(** [ListClustersDefault.WriteResponse], src/pkg/api/rest/operations/list_clusters_responses.go:109-118 *)
Definition WriteDefault (code : Z) (payload : option ErrorModel) : Go ResponseWriter unit :=
  _ ← WriteHeader code; produce_ptr payload.
Definition WriteResponse (o : Responder (option (list (option KlusterModel)))) : Go ResponseWriter unit :=
  match o with Success p => WriteOK p | Default c e => WriteDefault c e end.

(** [ServeHTTP], src/pkg/api/rest/operations/list_clusters.go:44-73 *)
Definition ServeHTTP {S} (ctx : MiddlewareContext) (Handler : Params -> option Principal -> Go S (Responder (option (list (option KlusterModel)))))
    (r : HTTPRequest) (route : RouteParams) : Go S HTTPResponse :=
  match Authorize ctx r with
  | inl err => RespondError ctx err
  | inr principal =>
      match BindValidRequest ctx r (BindRequest r route) with
      | inl err => RespondError ctx err
      | inr params => res ← Handler params principal; Respond ctx r (WriteResponse res)
      end
  end.

(** [ListClustersURL.Build], src/pkg/api/rest/operations/list_clusters_urlbuilder.go:35-44 *)
Definition Build (basePath : string) : reply string := Ok (path_Join basePath "/api/v1/clusters").
End Op.
End ListClusters.

Module ShowCluster.
(** [ShowClusterParams], src/pkg/api/rest/operations/show_cluster_parameters.go:28-39 *)
Record Params := { HTTPRequest_ : HTTPRequest; Name : string }.
Section Op.
Context `{!ApiCodecs}.

(** [bindName], src/pkg/api/rest/operations/show_cluster_parameters.go:58-71 *)
Definition bindName (rawData : list string) : string := default "" (last rawData).
(** [BindRequest], src/pkg/api/rest/operations/show_cluster_parameters.go:43-56 *)
Definition BindRequest (r : HTTPRequest) (route : RouteParams) : list bind_error + Params :=
  let '(rName, _) := GetOK route "name" in
  inr {| HTTPRequest_ := r; Name := bindName rName |}.

(** [ShowClusterOK.WriteResponse], src/pkg/api/rest/operations/show_cluster_responses.go:48-57 *)
Definition WriteOK (payload : option KlusterModel) : Go ResponseWriter unit :=
  _ ← WriteHeader 200; produce_ptr payload.
(** [ShowClusterDefault.WriteResponse], src/pkg/api/rest/operations/show_cluster_responses.go:106-115 *)
Definition WriteDefault (code : Z) (payload : option ErrorModel) : Go ResponseWriter unit :=
  _ ← WriteHeader code; produce_ptr payload.
Definition WriteResponse (o : Responder (option KlusterModel)) : Go ResponseWriter unit :=
  match o with Success p => WriteOK p | Default c e => WriteDefault c e end.

(** [ServeHTTP], src/pkg/api/rest/operations/show_cluster.go:44-73 *)
Definition ServeHTTP {S} (ctx : MiddlewareContext) (Handler : Params -> option Principal -> Go S (Responder (option KlusterModel)))
    (r : HTTPRequest) (route : RouteParams) : Go S HTTPResponse :=
  match Authorize ctx r with
  | inl err => RespondError ctx err
  | inr principal =>
      match BindValidRequest ctx r (BindRequest r route) with
      | inl err => RespondError ctx err
      | inr params => res ← Handler params principal; Respond ctx r (WriteResponse res)
      end
  end.

(** [ShowClusterURL.Build], src/pkg/api/rest/operations/show_cluster_urlbuilder.go:40-55 *)
Definition Build (basePath name : string) : reply string :=
  if decide (name = "") then Bad (ErrNew "Name is required on ShowClusterURL")
  else Ok (path_Join basePath (Replace "/api/v1/clusters/{name}" "{name}" name)).
End Op.
End ShowCluster.

Module TerminateCluster.
(** [TerminateClusterParams], src/pkg/api/rest/operations/terminate_cluster_parameters.go:28-39 *)
Record Params := { HTTPRequest_ : HTTPRequest; Name : string }.
Section Op.
Context `{!ApiCodecs}.

(** [bindName], src/pkg/api/rest/operations/terminate_cluster_parameters.go:58-71 *)
Definition bindName (rawData : list string) : string := default "" (last rawData).
(** [BindRequest], src/pkg/api/rest/operations/terminate_cluster_parameters.go:43-56 *)
Definition BindRequest (r : HTTPRequest) (route : RouteParams) : list bind_error + Params :=
  let '(rName, _) := GetOK route "name" in
  inr {| HTTPRequest_ := r; Name := bindName rName |}.

(** [TerminateClusterAccepted.WriteResponse], src/pkg/api/rest/operations/terminate_cluster_responses.go:32-37 *)
Definition WriteAccepted : Go ResponseWriter unit := _ ← SetContentType ""; WriteHeader 202.
(** [TerminateClusterDefault.WriteResponse], src/pkg/api/rest/operations/terminate_cluster_responses.go:86-95 *)
Definition WriteDefault (code : Z) (payload : option ErrorModel) : Go ResponseWriter unit :=
  _ ← WriteHeader code; produce_ptr payload.
Definition WriteResponse (o : Responder (unit)) : Go ResponseWriter unit :=
  match o with Success _ => WriteAccepted | Default c e => WriteDefault c e end.

(** [ServeHTTP], src/pkg/api/rest/operations/terminate_cluster.go:44-73 *)
Definition ServeHTTP {S} (ctx : MiddlewareContext) (Handler : Params -> option Principal -> Go S (Responder (unit)))
    (r : HTTPRequest) (route : RouteParams) : Go S HTTPResponse :=
  match Authorize ctx r with
  | inl err => RespondError ctx err
  | inr principal =>
      match BindValidRequest ctx r (BindRequest r route) with
      | inl err => RespondError ctx err
      | inr params => res ← Handler params principal; Respond ctx r (WriteResponse res)
      end
  end.

(** [TerminateClusterURL.Build], src/pkg/api/rest/operations/terminate_cluster_urlbuilder.go:40-55 *)
Definition Build (basePath name : string) : reply string :=
  if decide (name = "") then Bad (ErrNew "Name is required on TerminateClusterURL")
  else Ok (path_Join basePath (Replace "/api/v1/clusters/{name}" "{name}" name)).
End Op.
End TerminateCluster.

Module UpdateCluster.
(** [UpdateClusterParams], src/pkg/api/rest/operations/update_cluster_parameters.go:32-48 *)
Record Params := { HTTPRequest_ : HTTPRequest; Body : option KlusterModel; Name : string }.
Section Op.
Context `{!ApiCodecs}.

(** [bindName], src/pkg/api/rest/operations/update_cluster_parameters.go:91-104 *)
Definition bindName (rawData : list string) : string := default "" (last rawData).
(** [BindRequest], src/pkg/api/rest/operations/update_cluster_parameters.go:52-89 *)
Definition BindRequest (r : HTTPRequest) (route : RouteParams) : list bind_error + Params :=
  let '(res, body) := bind_body r in
  let '(rName, _) := GetOK route "name" in
  match res with [] => inr {| HTTPRequest_ := r; Body := body; Name := bindName rName |} | _ => inl res end.

(** [UpdateClusterOK.WriteResponse], src/pkg/api/rest/operations/update_cluster_responses.go:48-57 *)
Definition WriteOK (payload : option KlusterModel) : Go ResponseWriter unit :=
  _ ← WriteHeader 200; produce_ptr payload.
(** [UpdateClusterDefault.WriteResponse], src/pkg/api/rest/operations/update_cluster_responses.go:106-115 *)
Definition WriteDefault (code : Z) (payload : option ErrorModel) : Go ResponseWriter unit :=
  _ ← WriteHeader code; produce_ptr payload.
Definition WriteResponse (o : Responder (option KlusterModel)) : Go ResponseWriter unit :=
  match o with Success p => WriteOK p | Default c e => WriteDefault c e end.

(** [ServeHTTP], src/pkg/api/rest/operations/update_cluster.go:44-73 *)
Definition ServeHTTP {S} (ctx : MiddlewareContext) (Handler : Params -> option Principal -> Go S (Responder (option KlusterModel)))
    (r : HTTPRequest) (route : RouteParams) : Go S HTTPResponse :=
  match Authorize ctx r with
  | inl err => RespondError ctx err
  | inr principal =>
      match BindValidRequest ctx r (BindRequest r route) with
      | inl err => RespondError ctx err
      | inr params => res ← Handler params principal; Respond ctx r (WriteResponse res)
      end
  end.

(** [UpdateClusterURL.Build], src/pkg/api/rest/operations/update_cluster_urlbuilder.go:40-55 *)
Definition Build (basePath name : string) : reply string :=
  if decide (name = "") then Bad (ErrNew "Name is required on UpdateClusterURL")
  else Ok (path_Join basePath (Replace "/api/v1/clusters/{name}" "{name}" name)).
End Op.
End UpdateCluster.
