(* ===== verification/JsonModels.v ===== *)
(** [pkg/api/models] as JSON: the Go type of every model with the tags of its
    fields, what the generated code makes bytes of them with, and the codecs of
    the API's bodies.

    The records of the models do not tell nil slices from empty ones, but JSON
    does (null or an empty array).  How a record lies in memory is the
    interface [Layout]: anything a value of its Go type that stands for the
    record.  The instances here make every slice.  Only the server and the
    client end of the API are here; what is kept in the API server of
    Kubernetes is not the program's encoding. *)
From S2P Require Import Prelude GoStrings Models ApiModels Fmt Json Encoding Http Operations.

(** * Reading values *)
Definition string_of (v : goval) : string := match v with VString s | VText s => s | _ => "" end.
Definition int_of (v : goval) : Z := match v with VInt z => z | _ => 0%Z end.
Definition bool_of (v : goval) : bool := match v with VBool b => b | _ => false end.
Definition pointer_of {A} (f : goval -> A) (v : goval) : option A := match v with VPtr x => f <$> x | _ => None end.
Definition slice_of {A} (f : goval -> A) (v : goval) : list A := match v with VSlice _ shown _ => f <$> shown | _ => [] end.
Definition v_field (v : goval) (i : nat) : goval := default (VStruct []) (struct_fields v !! i).

(** A type of the program: its Go type, and the record a value stands for *)
Class Model (A : Type) := { ty : gotype; ty_sound : sound ty = true; of_val : goval -> A }.
Arguments ty _ {_}.
Class Layout (A : Type) `{!Model A} := { to_val : A -> goval; of_to_val a : of_val (to_val a) = a }.

(** * The models *)
(** [NodePoolConfig], src/pkg/api/models/node_pool_config.go:17-24 *)
Definition t_NodePoolConfig : gotype := TStruct "NodePoolConfig"
  [("repair", true, TBool);
   ("upgrade", true, TBool)].
#[export] Instance NodePoolConfig_model : Model NodePoolConfig := {|
  ty := t_NodePoolConfig; ty_sound := eq_refl;
  of_val v := {|
     Repair := bool_of (v_field v 0);
     Upgrade := bool_of (v_field v 1) |} |}.
(** [NodePool], src/pkg/api/models/node_pool.go:18-39 *)
Definition t_NodePool : gotype := TStruct "NodePool"
  [("config", true, ty NodePoolConfig);
   ("flavor", false, TString);
   ("image", true, TString);
   ("name", false, TString);
   ("size", false, TInt64)].
#[export] Instance NodePool_model : Model NodePool := {|
  ty := t_NodePool; ty_sound := eq_refl;
  of_val v := {|
     np_Config := of_val (v_field v 0);
     np_Flavor := string_of (v_field v 1);
     np_Image := string_of (v_field v 2);
     np_Name := string_of (v_field v 3);
     np_Size := int_of (v_field v 4) |} |}.
(** [OpenstackSpec], src/pkg/api/models/openstack_spec.go:17-33 *)
Definition t_OpenstackSpec : gotype := TStruct "OpenstackSpec"
  [("lbSubnetID", true, TString);
   ("networkID", true, TString);
   ("projectID", true, TString);
   ("routerID", true, TString);
   ("securityGroupID", true, TString)].
#[export] Instance OpenstackSpec_model : Model OpenstackSpec := {|
  ty := t_OpenstackSpec; ty_sound := eq_refl;
  of_val v := {|
     LBSubnetID := string_of (v_field v 0);
     NetworkID := string_of (v_field v 1);
     ProjectID := string_of (v_field v 2);
     RouterID := string_of (v_field v 3);
     SecurityGroupID := string_of (v_field v 4) |} |}.
(** [KlusterSpec], src/pkg/api/models/kluster_spec.go:18-46 *)
Definition t_KlusterSpec : gotype := TStruct "KlusterSpec"
  [("advertiseAddress", true, TString);
   ("clusterCIDR", true, TString);
   ("dnsAddress", true, TString);
   ("dnsDomain", true, TString);
   ("name", true, TString);
   ("nodePools", false, TSlice (ty NodePool));
   ("openstack", true, ty OpenstackSpec);
   ("serviceCIDR", true, TString)].
#[export] Instance KlusterSpec_model : Model KlusterSpec := {|
  ty := t_KlusterSpec; ty_sound := eq_refl;
  of_val v := {|
     AdvertiseAddress := string_of (v_field v 0);
     ClusterCIDR := string_of (v_field v 1);
     DNSAddress := string_of (v_field v 2);
     DNSDomain := string_of (v_field v 3);
     spec_Name := string_of (v_field v 4);
     NodePools := slice_of of_val (v_field v 5);
     Openstack := of_val (v_field v 6);
     ServiceCIDR := string_of (v_field v 7) |} |}.
(** [NodePoolInfo], src/pkg/api/models/node_pool_info.go:17-33 *)
Definition t_NodePoolInfo : gotype := TStruct "NodePoolInfo"
  [("healthy", false, TInt64);
   ("name", true, TString);
   ("running", false, TInt64);
   ("schedulable", false, TInt64);
   ("size", false, TInt64)].
#[export] Instance NodePoolInfo_model : Model NodePoolInfo := {|
  ty := t_NodePoolInfo; ty_sound := eq_refl;
  of_val v := {|
     npi_Healthy := int_of (v_field v 0);
     npi_Name := string_of (v_field v 1);
     npi_Running := int_of (v_field v 2);
     npi_Schedulable := int_of (v_field v 3);
     npi_Size := int_of (v_field v 4) |} |}.
(** [KlusterStatus], src/pkg/api/models/kluster_status.go:17-36 *)
Definition t_KlusterStatus : gotype := TStruct "KlusterStatus"
  [("apiserver", true, TString);
   ("message", true, TString);
   ("nodePools", false, TSlice (ty NodePoolInfo));
   ("phase", true, TString);
   ("version", true, TString);
   ("wormhole", true, TString)].
#[export] Instance KlusterStatus_model : Model KlusterStatus := {|
  ty := t_KlusterStatus; ty_sound := eq_refl;
  of_val v := {|
     Apiserver := string_of (v_field v 0);
     Message := string_of (v_field v 1);
     st_NodePools := slice_of of_val (v_field v 2);
     Phase := string_of (v_field v 3);
     st_Version := string_of (v_field v 4);
     Wormhole := string_of (v_field v 5) |} |}.
(** [Kluster], src/pkg/api/models/kluster.go:18-30 *)
Definition t_KlusterModel : gotype := TStruct "Kluster"
  [("name", false, TString);
   ("spec", true, ty KlusterSpec);
   ("status", true, ty KlusterStatus)].
#[export] Instance KlusterModel_model : Model KlusterModel := {|
  ty := t_KlusterModel; ty_sound := eq_refl;
  of_val v := {|
     mk_Name := string_of (v_field v 0);
     mk_Spec := of_val (v_field v 1);
     mk_Status := of_val (v_field v 2) |} |}.
(** [Principal], src/pkg/api/models/principal.go:17-36 *)
Definition t_Principal : gotype := TStruct "Principal"
  [("account", true, TString);
   ("authUrl", true, TString);
   ("domain", true, TString);
   ("id", true, TString);
   ("name", true, TString);
   ("roles", false, TSlice TString)].
#[export] Instance Principal_model : Model Principal := {|
  ty := t_Principal; ty_sound := eq_refl;
  of_val v := {|
     pr_Account := string_of (v_field v 0);
     AuthURL := string_of (v_field v 1);
     Domain := string_of (v_field v 2);
     pr_ID := string_of (v_field v 3);
     pr_Name := string_of (v_field v 4);
     Roles := slice_of string_of (v_field v 5) |} |}.
(** [Flavor], src/pkg/api/models/openstack_metadata.go:192-199 *)
Definition t_Flavor : gotype := TStruct "Flavor"
  [("id", true, TString);
   ("name", true, TString)].
#[export] Instance Flavor_model : Model Flavor := {|
  ty := t_Flavor; ty_sound := eq_refl;
  of_val v := {|
     fl_ID := string_of (v_field v 0);
     fl_Name := string_of (v_field v 1) |} |}.
(** [KeyPair], src/pkg/api/models/openstack_metadata.go:231-235 *)
Definition t_KeyPair : gotype := TStruct "KeyPair"
  [("name", true, TString)].
#[export] Instance KeyPair_model : Model KeyPair := {|
  ty := t_KeyPair; ty_sound := eq_refl;
  of_val v := {|
     kp_Name := string_of (v_field v 0) |} |}.
(** [Subnet], src/pkg/api/models/openstack_metadata.go:415-425 *)
Definition t_Subnet : gotype := TStruct "Subnet"
  [("CIDR", true, TString);
   ("id", true, TString);
   ("name", true, TString)].
#[export] Instance Subnet_model : Model Subnet := {|
  ty := t_Subnet; ty_sound := eq_refl;
  of_val v := {|
     sn_CIDR := string_of (v_field v 0);
     sn_ID := string_of (v_field v 1);
     sn_Name := string_of (v_field v 2) |} |}.
(** [Network], src/pkg/api/models/openstack_metadata.go:341-351 *)
Definition t_Network : gotype := TStruct "Network"
  [("id", true, TString);
   ("name", true, TString);
   ("subnets", false, TSlice (TPtr (ty Subnet)))].
#[export] Instance Network_model : Model Network := {|
  ty := t_Network; ty_sound := eq_refl;
  of_val v := {|
     nw_ID := string_of (v_field v 0);
     nw_Name := string_of (v_field v 1);
     Subnets := slice_of (pointer_of of_val) (v_field v 2) |} |}.
(** [Router], src/pkg/api/models/openstack_metadata.go:267-277 *)
Definition t_Router : gotype := TStruct "Router"
  [("id", true, TString);
   ("name", true, TString);
   ("networks", false, TSlice (TPtr (ty Network)))].
#[export] Instance Router_model : Model Router := {|
  ty := t_Router; ty_sound := eq_refl;
  of_val v := {|
     ro_ID := string_of (v_field v 0);
     ro_Name := string_of (v_field v 1);
     Networks := slice_of (pointer_of of_val) (v_field v 2) |} |}.
(** [SecurityGroup], src/pkg/api/models/openstack_metadata.go:457-464 *)
Definition t_SecurityGroup : gotype := TStruct "SecurityGroup"
  [("id", true, TString);
   ("name", true, TString)].
#[export] Instance SecurityGroup_model : Model SecurityGroup := {|
  ty := t_SecurityGroup; ty_sound := eq_refl;
  of_val v := {|
     sg_ID := string_of (v_field v 0);
     sg_Name := string_of (v_field v 1) |} |}.
(** [OpenstackMetadata], src/pkg/api/models/openstack_metadata.go:19-32 *)
Definition t_OpenstackMetadata : gotype := TStruct "OpenstackMetadata"
  [("flavors", false, TSlice (TPtr (ty Flavor)));
   ("keyPairs", false, TSlice (TPtr (ty KeyPair)));
   ("routers", false, TSlice (TPtr (ty Router)));
   ("securityGroups", false, TSlice (TPtr (ty SecurityGroup)))].
#[export] Instance OpenstackMetadata_model : Model OpenstackMetadata := {|
  ty := t_OpenstackMetadata; ty_sound := eq_refl;
  of_val v := {|
     Flavors := slice_of (pointer_of of_val) (v_field v 0);
     KeyPairs := slice_of (pointer_of of_val) (v_field v 1);
     Routers := slice_of (pointer_of of_val) (v_field v 2);
     SecurityGroups := slice_of (pointer_of of_val) (v_field v 3) |} |}.
(** [Link], src/pkg/api/models/kluster_info.go:123-130 *)
Definition t_Link : gotype := TStruct "Link"
  [("link", true, TString);
   ("platform", true, TString)].
#[export] Instance Link_model : Model Link := {|
  ty := t_Link; ty_sound := eq_refl;
  of_val v := {|
     lk_Link := string_of (v_field v 0);
     lk_Platform := string_of (v_field v 1) |} |}.
(** [Binaries], src/pkg/api/models/kluster_info.go:70-77 *)
Definition t_Binaries : gotype := TStruct "Binaries"
  [("links", false, TSlice (ty Link));
   ("name", true, TString)].
#[export] Instance Binaries_model : Model Binaries := {|
  ty := t_Binaries; ty_sound := eq_refl;
  of_val v := {|
     Links := slice_of of_val (v_field v 0);
     bin_Name := string_of (v_field v 1) |} |}.
(** [KlusterInfo], src/pkg/api/models/kluster_info.go:17-24 *)
Definition t_KlusterInfo : gotype := TStruct "KlusterInfo"
  [("binaries", false, TSlice (ty Binaries));
   ("setupCommand", true, TString)].
#[export] Instance KlusterInfo_model : Model KlusterInfo := {|
  ty := t_KlusterInfo; ty_sound := eq_refl;
  of_val v := {|
     ki_Binaries := slice_of of_val (v_field v 0);
     SetupCommand := string_of (v_field v 1) |} |}.
(** [Event], src/pkg/api/models/event.go:20-39 *)
Definition t_Event : gotype := TStruct "Event"
  [("count", false, TInt64);
   ("firstTimestamp", true, TCustom DateTime);
   ("lastTimestamp", true, TCustom DateTime);
   ("message", true, TString);
   ("reason", true, TString);
   ("type", true, TString)].
#[export] Instance Event_model : Model Event := {|
  ty := t_Event; ty_sound := eq_refl;
  of_val v := {|
     ev_Count := int_of (v_field v 0);
     ev_First := string_of (v_field v 1);
     ev_Last := string_of (v_field v 2);
     ev_Message := string_of (v_field v 3);
     ev_Reason := string_of (v_field v 4);
     ev_Type := string_of (v_field v 5) |} |}.
(** [Error], src/pkg/api/models/error.go:19-31 *)
Definition t_ErrorModel : gotype := TStruct "Error"
  [("code", false, TPtr TInt64);
   ("helpUrl", true, TCustom URI);
   ("message", false, TPtr TString)].
#[export] Instance ErrorModel_model : Model ErrorModel := {|
  ty := t_ErrorModel; ty_sound := eq_refl;
  of_val v := {|
     er_Code := pointer_of int_of (v_field v 0);
     er_HelpURL := string_of (v_field v 1);
     er_Message := pointer_of string_of (v_field v 2) |} |}.
(** [APIVersions], src/pkg/api/models/api_versions.go:18-23 *)
Definition t_APIVersions : gotype := TStruct "APIVersions"
  [("versions", false, TSlice TString)].
#[export] Instance APIVersions_model : Model APIVersions := {|
  ty := t_APIVersions; ty_sound := eq_refl;
  of_val v := {|
     Versions := slice_of string_of (v_field v 0) |} |}.
(** [Info], src/pkg/api/models/info.go:17-21 *)
Definition t_InfoModel : gotype := TStruct "Info"
  [("version", true, TString)].
#[export] Instance InfoModel_model : Model InfoModel := {|
  ty := t_InfoModel; ty_sound := eq_refl;
  of_val v := {|
     in_Version := string_of (v_field v 0) |} |}.
(** [Credentials], src/pkg/api/models/credentials.go:17-21 *)
Definition t_Credentials : gotype := TStruct "Credentials"
  [("kubeconfig", true, TString)].
#[export] Instance Credentials_model : Model Credentials := {|
  ty := t_Credentials; ty_sound := eq_refl;
  of_val v := {|
     Kubeconfig := string_of (v_field v 0) |} |}.
(** The lists of pointers that the API replies with *)
#[export] Instance Klusters_model : Model (list (option KlusterModel)) :=
  {| ty := TSlice (TPtr t_KlusterModel); ty_sound := eq_refl; of_val := slice_of (pointer_of of_val) |}.
#[export] Instance Events_model : Model (list (option Event)) :=
  {| ty := TSlice (TPtr t_Event); ty_sound := eq_refl; of_val := slice_of (pointer_of of_val) |}.

(** * Bytes *)

(** The text of an error: it names the type decoded into and where in the
    input it was. *)
Class JsonTexts := json_text : gotype -> string -> json_error -> string.

Section Binary.
Context {A : Type} `{!Model A}.

(** [swag.WriteJSON], which is [json.Marshal] for the models; a nil pointer
    has no bytes.
    [MarshalBinary], src/pkg/api/models/kluster.go:103-108 *)
Definition MarshalBinary `{!Layout A} (m : option A) : reply string :=
  match m with None => Ok "" | Some m => Ok (Marshal (ty A) (to_val m)) end.
(** [swag.ReadJSON] into a new value, which replaces the receiver's when there
    was no error
    [Kluster.UnmarshalBinary], src/pkg/api/models/kluster.go:111-118 *)
Definition UnmarshalBinary {Cu : Customs} {Tx : JsonTexts} (b : string) : reply A :=
  match Unmarshal (ty A) b (zero_value (ty A)) with
  | inl v => Ok (of_val v)
  | inr e => Bad (ErrNew (json_text (ty A) b e))
  end.
(** [runtime.JSONProducer] and [runtime.JSONConsumer] *)
Definition json_codec `{!Layout A} {Cu : Customs} {Tx : JsonTexts} : Codec A := {|
  Produce a := Ok (Encode (ty A) (to_val a));
  Consume b :=
    match Decode (ty A) b (zero_value (ty A)) with
    | None => EOF
    | Some (inl v) => Consumed (of_val v)
    | Some (inr e) => NotConsumed (ErrNew (json_text (ty A) b e))
    end;
  zero := of_val (zero_value (ty A)) |}.

(** What JSON carries whole: texts, integers of 64 bits, time stamps that
    strfmt reads as it writes them *)
Definition written `{!Layout A} {Cu : Customs} (a : A) : Prop := clean (ty A) (to_val a).
End Binary.
Arguments json_codec _ {_ _ _ _}.

(** The codecs of the API's bodies *)
Definition json_codecs {Cu : Customs} {Tx : JsonTexts} `{!Layout KlusterModel, !Layout (list (option KlusterModel)), !Layout Credentials,
    !Layout (list (option Event)), !Layout KlusterInfo, !Layout OpenstackMetadata, !Layout InfoModel, !Layout APIVersions, !Layout ErrorModel} : ApiCodecs := {|
  kluster_codec := json_codec KlusterModel; klusters_codec := json_codec (list (option KlusterModel));
  credentials_codec := json_codec Credentials; events_codec := json_codec (list (option Event));
  info_codec := json_codec KlusterInfo; metadata_codec := json_codec OpenstackMetadata;
  version_codec := json_codec InfoModel; versions_codec := json_codec APIVersions; error_codec := json_codec ErrorModel |}.

Section Models.
Context {Cu : Customs} {Tx : JsonTexts}.
(** [NodePoolConfig.MarshalBinary], src/pkg/api/models/node_pool_config.go:37-42 *)
Definition NodePoolConfig_MarshalBinary `{!Layout NodePoolConfig} : option NodePoolConfig -> reply string := MarshalBinary.
(** [NodePoolConfig.UnmarshalBinary], src/pkg/api/models/node_pool_config.go:45-52 *)
Definition NodePoolConfig_UnmarshalBinary : string -> reply NodePoolConfig := UnmarshalBinary.
(** [NodePool.MarshalBinary], src/pkg/api/models/node_pool.go:127-132 *)
Definition NodePool_MarshalBinary `{!Layout NodePool} : option NodePool -> reply string := MarshalBinary.
(** [NodePool.UnmarshalBinary], src/pkg/api/models/node_pool.go:135-142 *)
Definition NodePool_UnmarshalBinary : string -> reply NodePool := UnmarshalBinary.
(** [OpenstackSpec.MarshalBinary], src/pkg/api/models/openstack_spec.go:46-51 *)
Definition OpenstackSpec_MarshalBinary `{!Layout OpenstackSpec} : option OpenstackSpec -> reply string := MarshalBinary.
(** [OpenstackSpec.UnmarshalBinary], src/pkg/api/models/openstack_spec.go:54-61 *)
Definition OpenstackSpec_UnmarshalBinary : string -> reply OpenstackSpec := UnmarshalBinary.
(** [KlusterSpec.MarshalBinary], src/pkg/api/models/kluster_spec.go:130-135 *)
Definition KlusterSpec_MarshalBinary `{!Layout KlusterSpec} : option KlusterSpec -> reply string := MarshalBinary.
(** [KlusterSpec.UnmarshalBinary], src/pkg/api/models/kluster_spec.go:138-145 *)
Definition KlusterSpec_UnmarshalBinary : string -> reply KlusterSpec := UnmarshalBinary.
(** [NodePoolInfo.MarshalBinary], src/pkg/api/models/node_pool_info.go:46-51 *)
Definition NodePoolInfo_MarshalBinary `{!Layout NodePoolInfo} : option NodePoolInfo -> reply string := MarshalBinary.
(** [NodePoolInfo.UnmarshalBinary], src/pkg/api/models/node_pool_info.go:54-61 *)
Definition NodePoolInfo_UnmarshalBinary : string -> reply NodePoolInfo := UnmarshalBinary.
(** [KlusterStatus.MarshalBinary], src/pkg/api/models/kluster_status.go:84-89 *)
Definition KlusterStatus_MarshalBinary `{!Layout KlusterStatus} : option KlusterStatus -> reply string := MarshalBinary.
(** [KlusterStatus.UnmarshalBinary], src/pkg/api/models/kluster_status.go:92-99 *)
Definition KlusterStatus_UnmarshalBinary : string -> reply KlusterStatus := UnmarshalBinary.
(** [Kluster.MarshalBinary], src/pkg/api/models/kluster.go:103-108 *)
Definition KlusterModel_MarshalBinary `{!Layout KlusterModel} : option KlusterModel -> reply string := MarshalBinary.
(** [Kluster.UnmarshalBinary], src/pkg/api/models/kluster.go:111-118 *)
Definition KlusterModel_UnmarshalBinary : string -> reply KlusterModel := UnmarshalBinary.
(** [Principal.MarshalBinary], src/pkg/api/models/principal.go:63-68 *)
Definition Principal_MarshalBinary `{!Layout Principal} : option Principal -> reply string := MarshalBinary.
(** [Principal.UnmarshalBinary], src/pkg/api/models/principal.go:71-78 *)
Definition Principal_UnmarshalBinary : string -> reply Principal := UnmarshalBinary.
(** [Flavor.MarshalBinary], src/pkg/api/models/openstack_metadata.go:212-217 *)
Definition Flavor_MarshalBinary `{!Layout Flavor} : option Flavor -> reply string := MarshalBinary.
(** [Flavor.UnmarshalBinary], src/pkg/api/models/openstack_metadata.go:220-227 *)
Definition Flavor_UnmarshalBinary : string -> reply Flavor := UnmarshalBinary.
(** [KeyPair.MarshalBinary], src/pkg/api/models/openstack_metadata.go:248-253 *)
Definition KeyPair_MarshalBinary `{!Layout KeyPair} : option KeyPair -> reply string := MarshalBinary.
(** [KeyPair.UnmarshalBinary], src/pkg/api/models/openstack_metadata.go:256-263 *)
Definition KeyPair_UnmarshalBinary : string -> reply KeyPair := UnmarshalBinary.
(** [Subnet.MarshalBinary], src/pkg/api/models/openstack_metadata.go:438-443 *)
Definition Subnet_MarshalBinary `{!Layout Subnet} : option Subnet -> reply string := MarshalBinary.
(** [Subnet.UnmarshalBinary], src/pkg/api/models/openstack_metadata.go:446-453 *)
Definition Subnet_UnmarshalBinary : string -> reply Subnet := UnmarshalBinary.
(** [Network.MarshalBinary], src/pkg/api/models/openstack_metadata.go:396-401 *)
Definition Network_MarshalBinary `{!Layout Network} : option Network -> reply string := MarshalBinary.
(** [Network.UnmarshalBinary], src/pkg/api/models/openstack_metadata.go:404-411 *)
Definition Network_UnmarshalBinary : string -> reply Network := UnmarshalBinary.
(** [Router.MarshalBinary], src/pkg/api/models/openstack_metadata.go:322-327 *)
Definition Router_MarshalBinary `{!Layout Router} : option Router -> reply string := MarshalBinary.
(** [Router.UnmarshalBinary], src/pkg/api/models/openstack_metadata.go:330-337 *)
Definition Router_UnmarshalBinary : string -> reply Router := UnmarshalBinary.
(** [SecurityGroup.MarshalBinary], src/pkg/api/models/openstack_metadata.go:477-482 *)
Definition SecurityGroup_MarshalBinary `{!Layout SecurityGroup} : option SecurityGroup -> reply string := MarshalBinary.
(** [SecurityGroup.UnmarshalBinary], src/pkg/api/models/openstack_metadata.go:485-492 *)
Definition SecurityGroup_UnmarshalBinary : string -> reply SecurityGroup := UnmarshalBinary.
(** [OpenstackMetadata.MarshalBinary], src/pkg/api/models/openstack_metadata.go:173-178 *)
Definition OpenstackMetadata_MarshalBinary `{!Layout OpenstackMetadata} : option OpenstackMetadata -> reply string := MarshalBinary.
(** [OpenstackMetadata.UnmarshalBinary], src/pkg/api/models/openstack_metadata.go:181-188 *)
Definition OpenstackMetadata_UnmarshalBinary : string -> reply OpenstackMetadata := UnmarshalBinary.
(** [Link.MarshalBinary], src/pkg/api/models/kluster_info.go:143-148 *)
Definition Link_MarshalBinary `{!Layout Link} : option Link -> reply string := MarshalBinary.
(** [Link.UnmarshalBinary], src/pkg/api/models/kluster_info.go:151-158 *)
Definition Link_UnmarshalBinary : string -> reply Link := UnmarshalBinary.
(** [Binaries.MarshalBinary], src/pkg/api/models/kluster_info.go:104-109 *)
Definition Binaries_MarshalBinary `{!Layout Binaries} : option Binaries -> reply string := MarshalBinary.
(** [Binaries.UnmarshalBinary], src/pkg/api/models/kluster_info.go:112-119 *)
Definition Binaries_UnmarshalBinary : string -> reply Binaries := UnmarshalBinary.
(** [KlusterInfo.MarshalBinary], src/pkg/api/models/kluster_info.go:51-56 *)
Definition KlusterInfo_MarshalBinary `{!Layout KlusterInfo} : option KlusterInfo -> reply string := MarshalBinary.
(** [KlusterInfo.UnmarshalBinary], src/pkg/api/models/kluster_info.go:59-66 *)
Definition KlusterInfo_UnmarshalBinary : string -> reply KlusterInfo := UnmarshalBinary.
(** [Event.MarshalBinary], src/pkg/api/models/event.go:98-103 *)
Definition Event_MarshalBinary `{!Layout Event} : option Event -> reply string := MarshalBinary.
(** [Event.UnmarshalBinary], src/pkg/api/models/event.go:106-113 *)
Definition Event_UnmarshalBinary : string -> reply Event := UnmarshalBinary.
(** [Error.MarshalBinary], src/pkg/api/models/error.go:72-77 *)
Definition ErrorModel_MarshalBinary `{!Layout ErrorModel} : option ErrorModel -> reply string := MarshalBinary.
(** [Error.UnmarshalBinary], src/pkg/api/models/error.go:80-87 *)
Definition ErrorModel_UnmarshalBinary : string -> reply ErrorModel := UnmarshalBinary.
(** [APIVersions.MarshalBinary], src/pkg/api/models/api_versions.go:50-55 *)
Definition APIVersions_MarshalBinary `{!Layout APIVersions} : option APIVersions -> reply string := MarshalBinary.
(** [APIVersions.UnmarshalBinary], src/pkg/api/models/api_versions.go:58-65 *)
Definition APIVersions_UnmarshalBinary : string -> reply APIVersions := UnmarshalBinary.
(** [Info.MarshalBinary], src/pkg/api/models/info.go:34-39 *)
Definition InfoModel_MarshalBinary `{!Layout InfoModel} : option InfoModel -> reply string := MarshalBinary.
(** [Info.UnmarshalBinary], src/pkg/api/models/info.go:42-49 *)
Definition InfoModel_UnmarshalBinary : string -> reply InfoModel := UnmarshalBinary.
(** [Credentials.MarshalBinary], src/pkg/api/models/credentials.go:34-39 *)
Definition Credentials_MarshalBinary `{!Layout Credentials} : option Credentials -> reply string := MarshalBinary.
(** [Credentials.UnmarshalBinary], src/pkg/api/models/credentials.go:42-49 *)
Definition Credentials_UnmarshalBinary : string -> reply Credentials := UnmarshalBinary.
End Models.

(** * Laying out *)
Definition made {A} (f : A -> goval) (l : list A) : goval := VSlice false (f <$> l) [].
Definition NodePoolConfig_val (m : NodePoolConfig) : goval := VStruct [VBool (Repair m); VBool (Upgrade m)].
Definition NodePool_val (m : NodePool) : goval := VStruct [NodePoolConfig_val (np_Config m); VString (np_Flavor m); VString (np_Image m); VString (np_Name m); VInt (np_Size m)].
Definition OpenstackSpec_val (m : OpenstackSpec) : goval := VStruct [VString (LBSubnetID m); VString (NetworkID m); VString (ProjectID m); VString (RouterID m); VString (SecurityGroupID m)].
Definition KlusterSpec_val (m : KlusterSpec) : goval := VStruct [VString (AdvertiseAddress m); VString (ClusterCIDR m); VString (DNSAddress m); VString (DNSDomain m); VString (spec_Name m); made NodePool_val (NodePools m); OpenstackSpec_val (Openstack m); VString (ServiceCIDR m)].
Definition NodePoolInfo_val (m : NodePoolInfo) : goval := VStruct [VInt (npi_Healthy m); VString (npi_Name m); VInt (npi_Running m); VInt (npi_Schedulable m); VInt (npi_Size m)].
Definition KlusterStatus_val (m : KlusterStatus) : goval := VStruct [VString (Apiserver m); VString (Message m); made NodePoolInfo_val (st_NodePools m); VString (Phase m); VString (st_Version m); VString (Wormhole m)].
Definition KlusterModel_val (m : KlusterModel) : goval := VStruct [VString (mk_Name m); KlusterSpec_val (mk_Spec m); KlusterStatus_val (mk_Status m)].
Definition Principal_val (m : Principal) : goval := VStruct [VString (pr_Account m); VString (AuthURL m); VString (Domain m); VString (pr_ID m); VString (pr_Name m); made VString (Roles m)].
Definition Flavor_val (m : Flavor) : goval := VStruct [VString (fl_ID m); VString (fl_Name m)].
Definition KeyPair_val (m : KeyPair) : goval := VStruct [VString (kp_Name m)].
Definition Subnet_val (m : Subnet) : goval := VStruct [VString (sn_CIDR m); VString (sn_ID m); VString (sn_Name m)].
Definition Network_val (m : Network) : goval := VStruct [VString (nw_ID m); VString (nw_Name m); made (λ x, VPtr (Subnet_val <$> x)) (Subnets m)].
Definition Router_val (m : Router) : goval := VStruct [VString (ro_ID m); VString (ro_Name m); made (λ x, VPtr (Network_val <$> x)) (Networks m)].
Definition SecurityGroup_val (m : SecurityGroup) : goval := VStruct [VString (sg_ID m); VString (sg_Name m)].
Definition OpenstackMetadata_val (m : OpenstackMetadata) : goval := VStruct [made (λ x, VPtr (Flavor_val <$> x)) (Flavors m); made (λ x, VPtr (KeyPair_val <$> x)) (KeyPairs m); made (λ x, VPtr (Router_val <$> x)) (Routers m); made (λ x, VPtr (SecurityGroup_val <$> x)) (SecurityGroups m)].
Definition Link_val (m : Link) : goval := VStruct [VString (lk_Link m); VString (lk_Platform m)].
Definition Binaries_val (m : Binaries) : goval := VStruct [made Link_val (Links m); VString (bin_Name m)].
Definition KlusterInfo_val (m : KlusterInfo) : goval := VStruct [made Binaries_val (ki_Binaries m); VString (SetupCommand m)].
Definition Event_val (m : Event) : goval := VStruct [VInt (ev_Count m); VText (ev_First m); VText (ev_Last m); VString (ev_Message m); VString (ev_Reason m); VString (ev_Type m)].
Definition ErrorModel_val (m : ErrorModel) : goval := VStruct [VPtr (VInt <$> er_Code m); VText (er_HelpURL m); VPtr (VString <$> er_Message m)].
Definition APIVersions_val (m : APIVersions) : goval := VStruct [made VString (Versions m)].
Definition InfoModel_val (m : InfoModel) : goval := VStruct [VString (in_Version m)].
Definition Credentials_val (m : Credentials) : goval := VStruct [VString (Kubeconfig m)].
Definition pointers {A} (f : A -> goval) (l : list (option A)) : goval := made (λ x, VPtr (f <$> x)) l.

Lemma slice_made {A} (f : A → goval) (g : goval → A) l : (∀ x, g (f x) = x) → slice_of g (made f l) = l.
Proof. intros Hgf. cbn. induction l as [|x l IH]; cbn; [done|]. by rewrite Hgf, IH. Qed.
Lemma pointer_made {A} (f : A → goval) (g : goval → A) (x : option A) : (∀ x, g (f x) = x) → pointer_of g (VPtr (f <$> x)) = x.
Proof. intros Hgf. destruct x; cbn; by rewrite ?Hgf. Qed.
Ltac laid_out :=
  intros []; cbn -[slice_of made pointer_of]; f_equal;
  try solve [ match goal with |- _ = ?c => exact (of_to_val c) end
            | apply slice_made; intros x; first [reflexivity | exact (of_to_val x) | apply pointer_made; intros y; exact (of_to_val y)]
            | apply pointer_made; reflexivity ].
#[export, refine] Instance NodePoolConfig_layout : Layout NodePoolConfig := {| to_val := NodePoolConfig_val |}.
Proof. laid_out. Defined.
#[export, refine] Instance NodePool_layout : Layout NodePool := {| to_val := NodePool_val |}.
Proof. laid_out. Defined.
#[export, refine] Instance OpenstackSpec_layout : Layout OpenstackSpec := {| to_val := OpenstackSpec_val |}.
Proof. laid_out. Defined.
#[export, refine] Instance KlusterSpec_layout : Layout KlusterSpec := {| to_val := KlusterSpec_val |}.
Proof. laid_out. Defined.
#[export, refine] Instance NodePoolInfo_layout : Layout NodePoolInfo := {| to_val := NodePoolInfo_val |}.
Proof. laid_out. Defined.
#[export, refine] Instance KlusterStatus_layout : Layout KlusterStatus := {| to_val := KlusterStatus_val |}.
Proof. laid_out. Defined.
#[export, refine] Instance KlusterModel_layout : Layout KlusterModel := {| to_val := KlusterModel_val |}.
Proof. laid_out. Defined.
#[export, refine] Instance Principal_layout : Layout Principal := {| to_val := Principal_val |}.
Proof. laid_out. Defined.
#[export, refine] Instance Flavor_layout : Layout Flavor := {| to_val := Flavor_val |}.
Proof. laid_out. Defined.
#[export, refine] Instance KeyPair_layout : Layout KeyPair := {| to_val := KeyPair_val |}.
Proof. laid_out. Defined.
#[export, refine] Instance Subnet_layout : Layout Subnet := {| to_val := Subnet_val |}.
Proof. laid_out. Defined.
#[export, refine] Instance Network_layout : Layout Network := {| to_val := Network_val |}.
Proof. laid_out. Defined.
#[export, refine] Instance Router_layout : Layout Router := {| to_val := Router_val |}.
Proof. laid_out. Defined.
#[export, refine] Instance SecurityGroup_layout : Layout SecurityGroup := {| to_val := SecurityGroup_val |}.
Proof. laid_out. Defined.
#[export, refine] Instance OpenstackMetadata_layout : Layout OpenstackMetadata := {| to_val := OpenstackMetadata_val |}.
Proof. laid_out. Defined.
#[export, refine] Instance Link_layout : Layout Link := {| to_val := Link_val |}.
Proof. laid_out. Defined.
#[export, refine] Instance Binaries_layout : Layout Binaries := {| to_val := Binaries_val |}.
Proof. laid_out. Defined.
#[export, refine] Instance KlusterInfo_layout : Layout KlusterInfo := {| to_val := KlusterInfo_val |}.
Proof. laid_out. Defined.
#[export, refine] Instance Event_layout : Layout Event := {| to_val := Event_val |}.
Proof. laid_out. Defined.
#[export, refine] Instance ErrorModel_layout : Layout ErrorModel := {| to_val := ErrorModel_val |}.
Proof. laid_out. Defined.
#[export, refine] Instance APIVersions_layout : Layout APIVersions := {| to_val := APIVersions_val |}.
Proof. laid_out. Defined.
#[export, refine] Instance InfoModel_layout : Layout InfoModel := {| to_val := InfoModel_val |}.
Proof. laid_out. Defined.
#[export, refine] Instance Credentials_layout : Layout Credentials := {| to_val := Credentials_val |}.
Proof. laid_out. Defined.
#[export, refine] Instance Klusters_layout : Layout (list (option KlusterModel)) := {| to_val := pointers KlusterModel_val |}.
Proof. intros l. apply slice_made. intros x. apply pointer_made. intros y. exact (of_to_val y). Defined.
#[export, refine] Instance Events_layout : Layout (list (option Event)) := {| to_val := pointers Event_val |}.
Proof. intros l. apply slice_made. intros x. apply pointer_made. intros y. exact (of_to_val y). Defined.

(** * What is sent comes back *)
Section RoundTrip.
Context {Cu : Customs} {Tx : JsonTexts} {A : Type} `{!Model A, !Layout A}.

(** Bytes that one end makes are read by the other as the same record, with
    anything behind them where a stream is read. *)
Lemma Consume_Produce (a : A) rest : written a →
  ∃ b, Produce (Codec:=json_codec A) a = Ok b ∧ Consume (Codec:=json_codec A) (b +:+ rest) = Consumed a.
Proof.
  intros Ha. eexists. split; [reflexivity|]. cbn. rewrite Decode_Encode by (done || apply ty_sound). by rewrite of_to_val.
Qed.
Lemma written_faithful (a : A) : written a → faithful (Codec0:=json_codec A) a.
Proof.
  intros Ha. destruct (Consume_Produce a "" Ha) as (b & Hb & Hc). exists b. split; [done|]. by rewrite str_app_nil_r in Hc.
Qed.
Lemma Unmarshal_Marshal_binary (a : A) : written a → ∃ b, MarshalBinary (Some a) = Ok b ∧ UnmarshalBinary b = Ok a.
Proof.
  intros Ha. eexists. split; [reflexivity|]. unfold UnmarshalBinary. rewrite Unmarshal_Marshal by (done || apply ty_sound). by rewrite of_to_val.
Qed.
#[export] Instance json_laws : CodecLaws A (Codec0:=json_codec A).
Proof. reflexivity. Qed.
End RoundTrip.

(** ** What JSON carries of a cluster *)
Definition pool_texts (p : NodePool) : list string := [np_Flavor p; np_Image p; np_Name p].
Definition info_sizes (i : NodePoolInfo) : list Z := [npi_Healthy i; npi_Running i; npi_Schedulable i; npi_Size i].
Definition spec_texts (m : KlusterSpec) : list string :=
  [AdvertiseAddress m; ClusterCIDR m; DNSAddress m; DNSDomain m; spec_Name m; ServiceCIDR m;
   LBSubnetID (Openstack m); NetworkID (Openstack m); ProjectID (Openstack m); RouterID (Openstack m); SecurityGroupID (Openstack m)].
Definition status_texts (m : KlusterStatus) : list string := [Apiserver m; Message m; Phase m; st_Version m; Wormhole m].
Definition kluster_texts (m : KlusterModel) : list string :=
  mk_Name m :: spec_texts (mk_Spec m) ++ (NodePools (mk_Spec m) ≫= pool_texts) ++
  status_texts (mk_Status m) ++ (npi_Name <$> st_NodePools (mk_Status m)).
Definition kluster_sizes (m : KlusterModel) : list Z :=
  (np_Size <$> NodePools (mk_Spec m)) ++ (st_NodePools (mk_Status m) ≫= info_sizes).
(** It is made of texts, and its numbers are those of Go. *)
Definition textual (m : KlusterModel) : Prop :=
  Forall (λ s, utf8 s = true) (kluster_texts m) ∧ Forall in_int64 (kluster_sizes m).

Section Written.
Context {Cu : Customs}.
Lemma clean_string_field k o s : utf8 s = true → clean_field (k, o, TString) (VString s).
Proof. intros Hs. split; [done|]. cbn. by intros [_ ->%bool_decide_eq_true]%andb_prop. Qed.
Lemma clean_bool_field k o b : clean_field (k, o, TBool) (VBool b).
Proof. split; [done|]. by destruct o, b. Qed.
Lemma clean_int_field k o z : in_int64 z → clean_field (k, o, TInt64) (VInt z).
Proof. intros Hz. split; [done|]. cbn. by intros [_ ->%bool_decide_eq_true]%andb_prop. Qed.
Lemma clean_struct_field k o name fields v : clean (TStruct name fields) v → clean_field (k, o, TStruct name fields) v.
Proof. intros Hv. split; [done|]. destruct v; cbn; by rewrite ?andb_false_r. Qed.
Lemma clean_made {A} t (f : A → goval) l : Forall (λ x, clean t (f x)) l → clean (TSlice t) (made f l).
Proof. intros Hl. cbn. split_and!; [done..|]. by apply Forall_fmap. Qed.
Lemma clean_made_field {A} k t (f : A → goval) l : Forall (λ x, clean t (f x)) l → clean_field (k, false, TSlice t) (made f l).
Proof. intros Hl. split; [by apply clean_made|done]. Qed.

(** Field by field *)
Ltac by_fields :=
  refine (proj2 (clean_struct _ _ _) _); repeat (refine (proj2 (Forall2_cons _ _ _ _ _) (conj _ _))); [..|exact (List.Forall2_nil _)];
  first [ apply clean_string_field | apply clean_bool_field | apply clean_int_field | apply clean_made_field | apply clean_struct_field ]; try done.

Lemma pool_clean p : Forall (λ s, utf8 s = true) (pool_texts p) → in_int64 (np_Size p) → clean t_NodePool (NodePool_val p).
Proof. unfold pool_texts. rewrite !Forall_cons. intros (? & ? & ? & _) Hs. by_fields. by_fields. Qed.
Lemma info_clean i : utf8 (npi_Name i) = true → Forall in_int64 (info_sizes i) → clean t_NodePoolInfo (NodePoolInfo_val i).
Proof. unfold info_sizes. rewrite !Forall_cons. intros ? (? & ? & ? & ? & _). by_fields. Qed.
Lemma Forall_concat {A B} (P : B → Prop) (f : A → list B) l : Forall P (l ≫= f) → Forall (λ x, Forall P (f x)) l.
Proof. induction l as [|x l IH]; [constructor|]. cbn. intros [? ?]%Forall_app. constructor; auto. Qed.
Lemma textual_written m : textual m → written m.
Proof.
  unfold textual, kluster_texts, spec_texts, status_texts, kluster_sizes. rewrite !Forall_cons, !Forall_app, !Forall_cons, !Forall_fmap.
  intros [(? & (? & ? & ? & ? & ? & ? & ? & ? & ? & ? & ? & _) & Hp%Forall_concat & (? & ? & ? & ? & ? & _) & Hi)
          [Hps His%Forall_concat]].
  unfold written. by_fields; by_fields.
  - eapply Forall_impl; [exact (proj2 (Forall_and _ _) (conj Hp Hps))|]. intros p [? ?]. by apply pool_clean.
  - by_fields.
  - eapply Forall_impl; [exact (proj2 (Forall_and _ _) (conj Hi His))|]. intros i [? ?]. by apply info_clean.
Qed.
End Written.

(** * Property *)
Section Property.
Context {Cu : Customs} {Tx : JsonTexts} {A : Type} `{!Model A, !Layout A}.

(** C18: what either end makes bytes of the other reads back, for every model:
    [UnmarshalBinary] inverts [MarshalBinary], and the consumer inverts the
    producer whatever follows on the stream, for a record made of texts, 64 bit
    integers and time stamps strfmt reads; a nil model has no bytes.  Any other
    input comes to an end too: a body without a value is [io.EOF], where
    [UnmarshalBinary] reports an error, and what is read from any bytes is a
    value of the model's Go type, so that no integer leaves its 64 bits. *)
Theorem models_come_back :
  (∀ a : A, written a → ∃ b, MarshalBinary (Some a) = Ok b ∧ UnmarshalBinary b = Ok a) ∧
  (∀ (a : A) rest, written a →
     ∃ b, Produce (Codec:=json_codec A) a = Ok b ∧ Consume (Codec:=json_codec A) (b +:+ rest) = Consumed a) ∧
  MarshalBinary (A:=A) None = Ok "" ∧
  (∀ b, skip_space b = "" → Consume (Codec:=json_codec A) b = EOF ∧ ∃ e, UnmarshalBinary (A:=A) b = Bad e) ∧
  (∀ b (a : A), UnmarshalBinary b = Ok a → Consume (Codec:=json_codec A) b = Consumed a) ∧
  (∀ b (a : A), Consume (Codec:=json_codec A) b = Consumed a → ∃ v, shaped (ty A) v ∧ a = of_val v).
Proof.
  split_and!; [apply Unmarshal_Marshal_binary|apply Consume_Produce|done| | |].
  - intros b Hb. cbn. unfold Decode, UnmarshalBinary, Unmarshal.
    rewrite (parse_blank b Hb), decide_True by done. split; [done|by eexists].
  - intros b a. unfold UnmarshalBinary. destruct (Unmarshal _ _ _) as [v|e] eqn:Hu; [|done]. intros [= <-].
    cbn. by rewrite (Unmarshal_prefix _ _ _ _ Hu).
  - intros b a. cbn. destruct (Decode _ _ _) as [[v|e]|] eqn:Hd; [|done..]. intros [= <-].
    exists v. split; [|done]. by eapply Decode_shaped, Hd; apply zero_shaped.
Qed.
End Property.

(** * Concrete exchanges *)

Definition demo_customs : Customs := λ c j, match j with JString s => Ok s | _ => Bad (ErrNew "parse error: expected string") end.
Definition demo_texts : JsonTexts := λ t b e,
  match e with
  | UnmarshalTypeError value _ => "json: cannot unmarshal " +:+ value
  | Custom e => Error e
  | SyntaxError => "invalid character"
  | UnexpectedEnd => "unexpected EOF"
  end.
Definition demo_model : KlusterModel :=
  {| mk_Name := "k"; mk_Status := zero_KlusterStatus;
     mk_Spec := with_NodePools [{| np_Config := {| Repair := true; Upgrade := false |}; np_Flavor := "m1"; np_Image := "coreos"; np_Name := "a<b"; np_Size := -1 |}] zero_KlusterSpec |}.
Lemma models_come_back_witness :
  ∃ b, MarshalBinary (Some demo_model) = Ok b ∧ UnmarshalBinary (Cu:=demo_customs) (Tx:=demo_texts) b = Ok demo_model.
Proof.
  refine (proj1 (models_come_back (Cu:=demo_customs) (Tx:=demo_texts) (A:=KlusterModel)) demo_model _).
  apply textual_written. split.
  - apply (bool_decide_unpack _). vm_compute. exact I.
  - cbn. repeat constructor; unfold in_int64; lia.
Defined.
