(* ===== verification/ApiClient.v ===== *)
(** [pkg/api/client]: the operations of the API as a client calls them.

    For every operation: writing its parameters to a request, reading the
    response, and the call.  The transport of the go-openapi runtime comes
    first; the network itself is an argument. *)
From S2P Require Import Prelude GoStrings Models ApiModels Http Operations.
Local Open Scope Z_scope.

(** * The transport *)

(** A transport with what it needs of [net/url]: the path of a parsed
    reference, and the escaped form a server sees of a path *)
Record Transport := {
  Scheme : string; Host : string; BasePath : string;
  ParseURL : string -> reply string;
  EscapedPath : string -> string }.

(** Only the base path is normalised.
    [New], src/vendor/github.com/go-openapi/runtime/client/runtime.go:135-167 *)
Definition rooted (basePath : string) : string := if HasPrefix basePath "/" then basePath else "/" +:+ basePath.

(** [selectScheme], src/vendor/github.com/go-openapi/runtime/client/runtime.go:190-207 *)
Definition selectScheme (schemes : list string) : string :=
  match schemes with
  | [] => ""
  | scheme :: rest =>
      if bool_decide (scheme ≠ "https") && negb (bool_decide (rest = [])) && bool_decide ("https" ∈ schemes) then "https" else scheme
  end.
(** [pickScheme], src/vendor/github.com/go-openapi/runtime/client/runtime.go:180-188 *)
Definition pickScheme (configured schemes : list string) : string :=
  if decide (selectScheme configured ≠ "") then selectScheme configured
  else if decide (selectScheme schemes ≠ "") then selectScheme schemes else "http".

(** [TransportConfig], src/pkg/api/client/kubernikus_client.go:75-79 *)
Record TransportConfig := { cfg_Host : string; cfg_BasePath : string; cfg_Schemes : list string }.
(** [DefaultTransportConfig], src/pkg/api/client/kubernikus_client.go:65-71 *)
Definition DefaultTransportConfig : TransportConfig := {| cfg_Host := "localhost"; cfg_BasePath := "/"; cfg_Schemes := ["https"] |}.
(** [WithHost], src/pkg/api/client/kubernikus_client.go:83-86 *)
Definition WithHost (host : string) (cfg : TransportConfig) : TransportConfig :=
  {| cfg_Host := host; cfg_BasePath := cfg_BasePath cfg; cfg_Schemes := cfg_Schemes cfg |}.
(** [WithBasePath], src/pkg/api/client/kubernikus_client.go:90-93 *)
Definition WithBasePath (basePath : string) (cfg : TransportConfig) : TransportConfig :=
  {| cfg_Host := cfg_Host cfg; cfg_BasePath := basePath; cfg_Schemes := cfg_Schemes cfg |}.
(** [WithSchemes], src/pkg/api/client/kubernikus_client.go:97-100 *)
Definition WithSchemes (schemes : list string) (cfg : TransportConfig) : TransportConfig :=
  {| cfg_Host := cfg_Host cfg; cfg_BasePath := cfg_BasePath cfg; cfg_Schemes := schemes |}.

(** Every operation asks for https.  The last two arguments are [net/url]'s.
    [NewHTTPClientWithConfig], src/pkg/api/client/kubernikus_client.go:39-51 *)
Definition NewHTTPClientWithConfig (cfg : option TransportConfig) (parse : string -> reply string) (escape : string -> string) : Transport :=
  let cfg := default DefaultTransportConfig cfg in
  {| Scheme := pickScheme (cfg_Schemes cfg) ["https"]; Host := cfg_Host cfg; BasePath := cfg_BasePath cfg;
     ParseURL := parse; EscapedPath := escape |}.

Definition CanHaveBody (method : string) : bool :=
  bool_decide (method ∈ ["POST"; "PUT"; "PATCH"; "DELETE"]).

(** The request without the base path.  At most one path parameter is set, so
    the order of the replacements does not matter.
    [BuildHTTP], src/vendor/github.com/go-openapi/runtime/client/request.go:76-206 *)
Definition BuildHTTP (t : Transport) (method pathPattern mediaType : string) (req : ClientRequest) : reply HTTPRequest :=
  let path := map_fold (fun k v p => Replace p ("{" +:+ k +:+ "}") v) pathPattern (cr_PathParams req) in
  match ParseURL t path with
  | Bad err => Bad err
  | Ok url_path =>
      let typed := <["Content-Type" := mediaType]> (cr_Header req) in
      let build header body :=
        Ok {| rq_Method := method; rq_Path := url_path; rq_Header := header; rq_Body := body;
              rq_Scheme := Scheme t; rq_Host := Host t |} in
      match cr_Payload req with
      | Some (Bad err) => Bad err
      | Some (Ok b) => build typed (if decide (b = "") then None else Some b)
      | None =>
          build (if CanHaveBody method && bool_decide (default "" (cr_Header req !! "Content-Type") = "")
                 then typed else cr_Header req) None
      end
  end.

(** The base path before the path, a trailing slash kept *)
Definition on_base (t : Transport) (path : string) : string :=
  let joined := path_Join (rooted (BasePath t)) path in
  if decide (path = "" ∨ path = "/") then joined
  else if HasSuffix path "/" then joined +:+ "/" else joined.

(** The request of an operation: the writers fill it in, then it is built. *)
Definition request_of (t : Transport) (method pathPattern : string) (params : Go ClientRequest unit)
    (auth : option (Go ClientRequest unit)) : outcome HTTPRequest :=
  let prepare :=
    _ ← SetHeaderParam "Accept" "application/json";
    _ ← match auth with Some a => a | None => mret tt end;
    params in
  match prepare new_request with
  | (_, Panic why) => Panic why
  | (_, Fail err) => Fail err
  | (request, Ret _) =>
      match BuildHTTP t method pathPattern "application/json" request with
      | Bad err => Fail err
      | Ok req =>
          Ret {| rq_Method := rq_Method req; rq_Path := EscapedPath t (on_base t (rq_Path req));
                 rq_Header := rq_Header req; rq_Body := rq_Body req; rq_Scheme := rq_Scheme req; rq_Host := rq_Host req |}
      end
  end.

(** [Submit], src/vendor/github.com/go-openapi/runtime/client/runtime.go:211-330 *)
Definition Submit {S} (t : Transport) (do : HTTPRequest -> Go S (reply HTTPResponse)) (method pathPattern : string)
    (params : Go ClientRequest unit) (auth : option (Go ClientRequest unit)) : Go S (reply HTTPResponse) :=
  match request_of t method pathPattern params auth with
  | Panic why => panic why
  | Fail err => mret (Bad err)
  | Ret req =>
      r ← do req;
      mret match r with
      | Bad err => Bad err
      | Ok res => if decide (rs_Type res = "" ∨ rs_Type res = "application/json") then Ok res
                  else Bad (ErrNew ("no consumer: " +:+ quoted (rs_Type res)))
      end
  end.

(** What [ReadResponse] returns as an [interface{}] and an error *)
Inductive reading (A : Type) :=
| Result (a : A)
| DefaultResult (code : Z) (e : ErrorModel)
| NoResult (err : client_error).
Arguments Result {_} _.
Arguments DefaultResult {_} _ _.
Arguments NoResult {_} _.

(** [if response.Code()/100 == 2 { return result, nil }; return nil, result] *)
Definition read_default {A} (code : Z) (payload : reply ErrorModel) : reading A :=
  match payload with
  | Bad err => NoResult (COther err)
  | Ok e => if Z.quot code 100 =? 2 then DefaultResult code e else NoResult (CDefault code e)
  end.
Definition read_success {A} (payload : reply A) : reading A :=
  match payload with Bad err => NoResult (COther err) | Ok p => Result p end.

(** [if err != nil { return nil, err }; assert the type of the result, nil] *)
Definition asserted {S A} (submitted : reply HTTPResponse) (read : HTTPResponse -> reading A) : Go S (call_result A) :=
  match submitted with
  | Bad err => mret (Refused (COther err))
  | Ok response =>
      match read response with
      | NoResult err => mret (Refused err)
      | Result a => mret (Returned a)
      | DefaultResult _ _ => panic "interface conversion: the default response is not the successful one"
      end
  end.

Module ClientCreateCluster.
(** [CreateClusterParams], src/pkg/api/client/operations/create_cluster_parameters.go:65-73 *)
Record Params := { Body : option KlusterModel }.
Section Op.
Context `{!ApiCodecs}.

(** [WriteToRequest], src/pkg/api/client/operations/create_cluster_parameters.go:120-137 *)
Definition WriteToRequest (o : Params) : Go ClientRequest unit :=
  _ ← SetTimeout;
  match Body o with Some b => SetBodyParam b | None => mret tt end.

(** [readResponse], src/pkg/api/client/operations/create_cluster_responses.go:64-74 *)
Definition readCreated (response : HTTPResponse) : reply KlusterModel := read_payload (rs_Body response).
(** [readResponse], src/pkg/api/client/operations/create_cluster_responses.go:102-112 *)
Definition readDefault (response : HTTPResponse) : reply ErrorModel := read_payload (rs_Body response).
(** [ReadResponse], src/pkg/api/client/operations/create_cluster_responses.go:25-45 *)
Definition ReadResponse (response : HTTPResponse) : reading KlusterModel :=
  if rs_Code response =? 201 then read_success (readCreated response)
  else read_default (rs_Code response) (readDefault response).

(** [CreateCluster], src/pkg/api/client/operations/operations_client.go:30-54 *)
Definition call {S} (t : Transport) (do : HTTPRequest -> Go S (reply HTTPResponse)) (params : Params) (authInfo : Go ClientRequest unit) : Go S (call_result KlusterModel) :=
  r ← Submit t do "POST" "/api/v1/clusters" (WriteToRequest params) (Some authInfo);
  asserted r ReadResponse.
End Op.
End ClientCreateCluster.

Module ClientGetClusterCredentials.
(** [GetClusterCredentialsParams], src/pkg/api/client/operations/get_cluster_credentials_parameters.go:63-71 *)
Record Params := { Name : string }.
Section Op.
Context `{!ApiCodecs}.

(** [WriteToRequest], src/pkg/api/client/operations/get_cluster_credentials_parameters.go:118-134 *)
Definition WriteToRequest (o : Params) : Go ClientRequest unit :=
  _ ← SetTimeout;
  SetPathParam "name" (Name o).

(** [readResponse], src/pkg/api/client/operations/get_cluster_credentials_responses.go:64-74 *)
Definition readOK (response : HTTPResponse) : reply Credentials := read_payload (rs_Body response).
(** [readResponse], src/pkg/api/client/operations/get_cluster_credentials_responses.go:102-112 *)
Definition readDefault (response : HTTPResponse) : reply ErrorModel := read_payload (rs_Body response).
(** [ReadResponse], src/pkg/api/client/operations/get_cluster_credentials_responses.go:25-45 *)
Definition ReadResponse (response : HTTPResponse) : reading Credentials :=
  if rs_Code response =? 200 then read_success (readOK response)
  else read_default (rs_Code response) (readDefault response).

(** [GetClusterCredentials], src/pkg/api/client/operations/operations_client.go:59-83 *)
Definition call {S} (t : Transport) (do : HTTPRequest -> Go S (reply HTTPResponse)) (params : Params) (authInfo : Go ClientRequest unit) : Go S (call_result Credentials) :=
  r ← Submit t do "GET" "/api/v1/clusters/{name}/credentials" (WriteToRequest params) (Some authInfo);
  asserted r ReadResponse.
End Op.
End ClientGetClusterCredentials.

Module ClientGetClusterEvents.
(** [GetClusterEventsParams], src/pkg/api/client/operations/get_cluster_events_parameters.go:63-71 *)
Record Params := { Name : string }.
Section Op.
Context `{!ApiCodecs}.

(** [WriteToRequest], src/pkg/api/client/operations/get_cluster_events_parameters.go:118-134 *)
Definition WriteToRequest (o : Params) : Go ClientRequest unit :=
  _ ← SetTimeout;
  SetPathParam "name" (Name o).

(** [readResponse], src/pkg/api/client/operations/get_cluster_events_responses.go:64-72 *)
Definition readOK (response : HTTPResponse) : reply (list (option Event)) := read_payload (rs_Body response).
(** [readResponse], src/pkg/api/client/operations/get_cluster_events_responses.go:100-110 *)
Definition readDefault (response : HTTPResponse) : reply ErrorModel := read_payload (rs_Body response).
(** [ReadResponse], src/pkg/api/client/operations/get_cluster_events_responses.go:25-45 *)
Definition ReadResponse (response : HTTPResponse) : reading (list (option Event)) :=
  if rs_Code response =? 200 then read_success (readOK response)
  else read_default (rs_Code response) (readDefault response).

(** [GetClusterEvents], src/pkg/api/client/operations/operations_client.go:88-112 *)
Definition call {S} (t : Transport) (do : HTTPRequest -> Go S (reply HTTPResponse)) (params : Params) (authInfo : Go ClientRequest unit) : Go S (call_result (list (option Event))) :=
  r ← Submit t do "GET" "/api/v1/clusters/{name}/events" (WriteToRequest params) (Some authInfo);
  asserted r ReadResponse.
End Op.
End ClientGetClusterEvents.

Module ClientGetClusterInfo.
(** [GetClusterInfoParams], src/pkg/api/client/operations/get_cluster_info_parameters.go:63-71 *)
Record Params := { Name : string }.
Section Op.
Context `{!ApiCodecs}.

(** [WriteToRequest], src/pkg/api/client/operations/get_cluster_info_parameters.go:118-134 *)
Definition WriteToRequest (o : Params) : Go ClientRequest unit :=
  _ ← SetTimeout;
  SetPathParam "name" (Name o).

(** [readResponse], src/pkg/api/client/operations/get_cluster_info_responses.go:64-74 *)
Definition readOK (response : HTTPResponse) : reply KlusterInfo := read_payload (rs_Body response).
(** [readResponse], src/pkg/api/client/operations/get_cluster_info_responses.go:102-112 *)
Definition readDefault (response : HTTPResponse) : reply ErrorModel := read_payload (rs_Body response).
(** [ReadResponse], src/pkg/api/client/operations/get_cluster_info_responses.go:25-45 *)
Definition ReadResponse (response : HTTPResponse) : reading KlusterInfo :=
  if rs_Code response =? 200 then read_success (readOK response)
  else read_default (rs_Code response) (readDefault response).

(** [GetClusterInfo], src/pkg/api/client/operations/operations_client.go:117-141 *)
Definition call {S} (t : Transport) (do : HTTPRequest -> Go S (reply HTTPResponse)) (params : Params) (authInfo : Go ClientRequest unit) : Go S (call_result KlusterInfo) :=
  r ← Submit t do "GET" "/api/v1/clusters/{name}/info" (WriteToRequest params) (Some authInfo);
  asserted r ReadResponse.
End Op.
End ClientGetClusterInfo.

Module ClientGetOpenstackMetadata.
(** [GetOpenstackMetadataParams], src/pkg/api/client/operations/get_openstack_metadata_parameters.go:63-67 *)
Definition Params : Type := unit.
Section Op.
Context `{!ApiCodecs}.

(** [WriteToRequest], src/pkg/api/client/operations/get_openstack_metadata_parameters.go:103-114 *)
Definition WriteToRequest (o : Params) : Go ClientRequest unit :=
  SetTimeout.

(** [readResponse], src/pkg/api/client/operations/get_openstack_metadata_responses.go:64-74 *)
Definition readOK (response : HTTPResponse) : reply OpenstackMetadata := read_payload (rs_Body response).
(** [readResponse], src/pkg/api/client/operations/get_openstack_metadata_responses.go:102-112 *)
Definition readDefault (response : HTTPResponse) : reply ErrorModel := read_payload (rs_Body response).
(** [ReadResponse], src/pkg/api/client/operations/get_openstack_metadata_responses.go:25-45 *)
Definition ReadResponse (response : HTTPResponse) : reading OpenstackMetadata :=
  if rs_Code response =? 200 then read_success (readOK response)
  else read_default (rs_Code response) (readDefault response).

(** [GetOpenstackMetadata], src/pkg/api/client/operations/operations_client.go:146-170 *)
Definition call {S} (t : Transport) (do : HTTPRequest -> Go S (reply HTTPResponse)) (params : Params) (authInfo : Go ClientRequest unit) : Go S (call_result OpenstackMetadata) :=
  r ← Submit t do "GET" "/api/v1/openstack/metadata" (WriteToRequest params) (Some authInfo);
  asserted r ReadResponse.
End Op.
End ClientGetOpenstackMetadata.

Module ClientInfo.
(** [InfoParams], src/pkg/api/client/operations/info_parameters.go:63-67 *)
Definition Params : Type := unit.
Section Op.
Context `{!ApiCodecs}.

(** [WriteToRequest], src/pkg/api/client/operations/info_parameters.go:103-114 *)
Definition WriteToRequest (o : Params) : Go ClientRequest unit :=
  SetTimeout.

(** [readResponse], src/pkg/api/client/operations/info_responses.go:57-67 *)
Definition readOK (response : HTTPResponse) : reply InfoModel := read_payload (rs_Body response).
(** [ReadResponse], src/pkg/api/client/operations/info_responses.go:25-38 *)
Definition ReadResponse (response : HTTPResponse) : reading InfoModel :=
  if rs_Code response =? 200 then read_success (readOK response)
  else NoResult (CUnknown (rs_Code response)).

(** [Info], src/pkg/api/client/operations/operations_client.go:175-198 *)
Definition call {S} (t : Transport) (do : HTTPRequest -> Go S (reply HTTPResponse)) (params : Params) : Go S (call_result InfoModel) :=
  r ← Submit t do "GET" "/info" (WriteToRequest params) None;
  asserted r ReadResponse.
End Op.
End ClientInfo.

Module ClientListAPIVersions.
(** [ListAPIVersionsParams], src/pkg/api/client/operations/list_api_versions_parameters.go:63-67 *)
Definition Params : Type := unit.
Section Op.
Context `{!ApiCodecs}.

(** [WriteToRequest], src/pkg/api/client/operations/list_api_versions_parameters.go:103-114 *)
Definition WriteToRequest (o : Params) : Go ClientRequest unit :=
  SetTimeout.

(** [readResponse], src/pkg/api/client/operations/list_api_versions_responses.go:57-67 *)
Definition readOK (response : HTTPResponse) : reply APIVersions := read_payload (rs_Body response).
(** [ReadResponse], src/pkg/api/client/operations/list_api_versions_responses.go:25-38 *)
Definition ReadResponse (response : HTTPResponse) : reading APIVersions :=
  if rs_Code response =? 200 then read_success (readOK response)
  else NoResult (CUnknown (rs_Code response)).

(** [ListAPIVersions], src/pkg/api/client/operations/operations_client.go:203-226 *)
Definition call {S} (t : Transport) (do : HTTPRequest -> Go S (reply HTTPResponse)) (params : Params) : Go S (call_result APIVersions) :=
  r ← Submit t do "GET" "/api" (WriteToRequest params) None;
  asserted r ReadResponse.
End Op.
End ClientListAPIVersions.

Module ClientListClusters.
(** [ListClustersParams], src/pkg/api/client/operations/list_clusters_parameters.go:63-67 *)
Definition Params : Type := unit.
Section Op.
Context `{!ApiCodecs}.

(** [WriteToRequest], src/pkg/api/client/operations/list_clusters_parameters.go:103-114 *)
Definition WriteToRequest (o : Params) : Go ClientRequest unit :=
  SetTimeout.

(** [readResponse], src/pkg/api/client/operations/list_clusters_responses.go:64-72 *)
Definition readOK (response : HTTPResponse) : reply (list (option KlusterModel)) := read_payload (rs_Body response).
(** [readResponse], src/pkg/api/client/operations/list_clusters_responses.go:100-110 *)
Definition readDefault (response : HTTPResponse) : reply ErrorModel := read_payload (rs_Body response).
(** [ReadResponse], src/pkg/api/client/operations/list_clusters_responses.go:25-45 *)
Definition ReadResponse (response : HTTPResponse) : reading (list (option KlusterModel)) :=
  if rs_Code response =? 200 then read_success (readOK response)
  else read_default (rs_Code response) (readDefault response).

(** [ListClusters], src/pkg/api/client/operations/operations_client.go:231-255 *)
Definition call {S} (t : Transport) (do : HTTPRequest -> Go S (reply HTTPResponse)) (params : Params) (authInfo : Go ClientRequest unit) : Go S (call_result (list (option KlusterModel))) :=
  r ← Submit t do "GET" "/api/v1/clusters" (WriteToRequest params) (Some authInfo);
  asserted r ReadResponse.
End Op.
End ClientListClusters.

Module ClientShowCluster.
(** [ShowClusterParams], src/pkg/api/client/operations/show_cluster_parameters.go:63-71 *)
Record Params := { Name : string }.
Section Op.
Context `{!ApiCodecs}.

(** [WriteToRequest], src/pkg/api/client/operations/show_cluster_parameters.go:118-134 *)
Definition WriteToRequest (o : Params) : Go ClientRequest unit :=
  _ ← SetTimeout;
  SetPathParam "name" (Name o).

(** [readResponse], src/pkg/api/client/operations/show_cluster_responses.go:64-74 *)
Definition readOK (response : HTTPResponse) : reply KlusterModel := read_payload (rs_Body response).
(** [readResponse], src/pkg/api/client/operations/show_cluster_responses.go:102-112 *)
Definition readDefault (response : HTTPResponse) : reply ErrorModel := read_payload (rs_Body response).
(** [ReadResponse], src/pkg/api/client/operations/show_cluster_responses.go:25-45 *)
Definition ReadResponse (response : HTTPResponse) : reading KlusterModel :=
  if rs_Code response =? 200 then read_success (readOK response)
  else read_default (rs_Code response) (readDefault response).

(** [ShowCluster], src/pkg/api/client/operations/operations_client.go:260-284 *)
Definition call {S} (t : Transport) (do : HTTPRequest -> Go S (reply HTTPResponse)) (params : Params) (authInfo : Go ClientRequest unit) : Go S (call_result KlusterModel) :=
  r ← Submit t do "GET" "/api/v1/clusters/{name}" (WriteToRequest params) (Some authInfo);
  asserted r ReadResponse.
End Op.
End ClientShowCluster.

Module ClientTerminateCluster.
(** [TerminateClusterParams], src/pkg/api/client/operations/terminate_cluster_parameters.go:63-71 *)
Record Params := { Name : string }.
Section Op.
Context `{!ApiCodecs}.

(** [WriteToRequest], src/pkg/api/client/operations/terminate_cluster_parameters.go:118-134 *)
Definition WriteToRequest (o : Params) : Go ClientRequest unit :=
  _ ← SetTimeout;
  SetPathParam "name" (Name o).

(** [readResponse], src/pkg/api/client/operations/terminate_cluster_responses.go:63-66 *)
Definition readAccepted (response : HTTPResponse) : reply unit := Ok tt.
(** [readResponse], src/pkg/api/client/operations/terminate_cluster_responses.go:94-104 *)
Definition readDefault (response : HTTPResponse) : reply ErrorModel := read_payload (rs_Body response).
(** [ReadResponse], src/pkg/api/client/operations/terminate_cluster_responses.go:25-45 *)
Definition ReadResponse (response : HTTPResponse) : reading unit :=
  if rs_Code response =? 202 then read_success (readAccepted response)
  else read_default (rs_Code response) (readDefault response).

(** [TerminateCluster], src/pkg/api/client/operations/operations_client.go:289-313 *)
Definition call {S} (t : Transport) (do : HTTPRequest -> Go S (reply HTTPResponse)) (params : Params) (authInfo : Go ClientRequest unit) : Go S (call_result unit) :=
  r ← Submit t do "DELETE" "/api/v1/clusters/{name}" (WriteToRequest params) (Some authInfo);
  asserted r ReadResponse.
End Op.
End ClientTerminateCluster.

Module ClientUpdateCluster.
(** [UpdateClusterParams], src/pkg/api/client/operations/update_cluster_parameters.go:65-75 *)
Record Params := { Body : option KlusterModel; Name : string }.
Section Op.
Context `{!ApiCodecs}.

(** [WriteToRequest], src/pkg/api/client/operations/update_cluster_parameters.go:133-155 *)
Definition WriteToRequest (o : Params) : Go ClientRequest unit :=
  _ ← SetTimeout;
  _ ← match Body o with Some b => SetBodyParam b | None => mret tt end;
  SetPathParam "name" (Name o).

(** [readResponse], src/pkg/api/client/operations/update_cluster_responses.go:64-74 *)
Definition readOK (response : HTTPResponse) : reply KlusterModel := read_payload (rs_Body response).
(** [readResponse], src/pkg/api/client/operations/update_cluster_responses.go:102-112 *)
Definition readDefault (response : HTTPResponse) : reply ErrorModel := read_payload (rs_Body response).
(** [ReadResponse], src/pkg/api/client/operations/update_cluster_responses.go:25-45 *)
Definition ReadResponse (response : HTTPResponse) : reading KlusterModel :=
  if rs_Code response =? 200 then read_success (readOK response)
  else read_default (rs_Code response) (readDefault response).

(** [UpdateCluster], src/pkg/api/client/operations/operations_client.go:318-342 *)
Definition call {S} (t : Transport) (do : HTTPRequest -> Go S (reply HTTPResponse)) (params : Params) (authInfo : Go ClientRequest unit) : Go S (call_result KlusterModel) :=
  r ← Submit t do "PUT" "/api/v1/clusters/{name}" (WriteToRequest params) (Some authInfo);
  asserted r ReadResponse.
End Op.
End ClientUpdateCluster.
