(* ===== verification/NetIP.v ===== *)
(** The part of Go's [net] package the program uses ([ParseCIDR],
    [IPNet.Contains], [IP.To4], [IP.String], [SplitHostPort]) and [strconv.Atoi], and [pkg/util/ip], which indexes
    into a subnet.  An [IP] or [IPMask] is a list of bytes, a byte an integer
    of [Z]; [big.Int] is [Z]. *)
From S2P Require Import Prelude GoStrings.
Local Open Scope Z_scope.

Definition IP := list Z.
Record IPNet := { net_IP : IP; net_Mask : IP }.

(** * [net] *)

(** [dtoi]: the decimal number at the front of [s], below [0xFFFFFF]. *)
Definition dtoi (s : string) : option (Z * string) :=
  let '(ds, rest) := span is_digit s in
  if decide (ds = "") then None
  else match digits_val 0 ds with
       | Some n => if Z.of_N n <? 16777215 then Some (Z.of_N n, rest) else None
       | None => None
       end.

(** [parseIPv4]: [k] octets remain; the ones after the first follow a dot. *)
Fixpoint parse_octets (k : nat) (first : bool) (s : string) (acc : IP) : option IP :=
  match k with
  | O => if decide (s = "") then Some acc else None
  | S k' =>
      match s with
      | EmptyString => None
      | String c s' =>
          if negb first && negb (bool_decide (c = "."%char)) then None
          else match dtoi (if first then s else s') with
               | Some (n, rest) => if n <=? 255 then parse_octets k' false rest (acc ++ [n]) else None
               | None => None
               end
      end
  end.
Definition parseIPv4 (s : string) : option IP := parse_octets 4 true s [].

(** [xtoi]: the hexadecimal number at the front of [s], below [0xFFFFFF]. *)
Definition hex_digit (c : ascii) : option Z :=
  let n := Z.of_N (N_of_ascii c) in
  if (48 <=? n) && (n <=? 57) then Some (n - 48)
  else if (97 <=? n) && (n <=? 102) then Some (n - 87)
  else if (65 <=? n) && (n <=? 70) then Some (n - 55)
  else None.
Fixpoint hex_val (acc : Z) (s : string) : Z :=
  match s with
  | EmptyString => acc
  | String c s' => match hex_digit c with Some d => hex_val (acc * 16 + d) s' | None => acc end
  end.
Definition xtoi (s : string) : option (Z * string) :=
  let '(ds, rest) := span (fun c => bool_decide (is_Some (hex_digit c))) s in
  if decide (ds = "") then None
  else let n := hex_val 0 ds in if n <? 16777215 then Some (n, rest) else None.

(** The groups of [parseIPv6]; [e] is the position of the ellipsis.  Each turn
    appends two bytes, so eight turns are enough. *)
Fixpoint parse_groups (fuel : nat) (s : string) (e : option nat) (acc : IP) : option (IP * option nat) :=
  match fuel with
  | O => if decide (s = "") then Some (acc, e) else None
  | S fuel' =>
      match xtoi s with
      | None => None
      | Some (n, rest) =>
          if 65535 <? n then None
          else match rest with
          | String "."%char _ =>
              if bool_decide (e = None) && negb (length acc =? 12)%nat then None
              else if (16 <? length acc + 4)%nat then None
              else match parseIPv4 s with Some ip4 => Some (acc ++ ip4, e) | None => None end
          | EmptyString => Some (acc ++ [n / 256; n mod 256], e)
          | String c rest' =>
              let acc' := acc ++ [n / 256; n mod 256] in
              if negb (bool_decide (c = ":"%char)) || bool_decide (rest' = "") then None
              else match rest' with
              | String ":"%char rest'' =>
                  match e with
                  | Some _ => None
                  | None =>
                      let e' := Some (length acc') in
                      if decide (rest'' = "") then Some (acc', e')
                      else parse_groups fuel' rest'' e' acc'
                  end
              | _ => parse_groups fuel' rest' e acc'
              end
          end
      end
  end.

Definition parseIPv6 (s : string) : option IP :=
  let lead := HasPrefix s "::" in
  let s' := if lead then match s with String _ (String _ r) => r | _ => "" end else s in
  if lead && bool_decide (s' = "") then Some (replicate 16 0)
  else match parse_groups 8 s' (if lead then Some 0%nat else None) [] with
       | None => None
       | Some (ip, e) =>
           if (length ip <? 16)%nat
           then match e with
                | None => None
                | Some i => Some (take i ip ++ replicate (16 - length ip) 0 ++ drop i ip)
                end
           else match e with Some _ => None | None => Some ip end
       end.

(** [CIDRMask(ones, 8 * len)] *)
Fixpoint CIDRMask (ones : Z) (len : nat) : IP :=
  match len with
  | O => []
  | S len' =>
      if 8 <=? ones then 255 :: CIDRMask (ones - 8) len'
      else (255 - Z.shiftr 255 ones) :: CIDRMask 0 len'
  end.

Definition and_bytes (a b : IP) : IP := zip_with Z.land a b.
Definition or_not_bytes (a m : IP) : IP := zip_with (fun x y => Z.lor x (255 - y)) a m.

(** [net.ParseCIDR], its second result.  An IPv4 network has four bytes. *)
Definition ParseCIDR (s : string) : option IPNet :=
  let '(addr, slash_mask) := span (fun c => negb (bool_decide (c = "/"%char))) s in
  match slash_mask with
  | EmptyString => None
  | String _ mask =>
      let '(ip, iplen) :=
        match parseIPv4 addr with
        | Some ip => (Some ip, 4%nat)
        | None => (parseIPv6 addr, 16%nat)
        end in
      match ip, dtoi mask with
      | Some ip, Some (n, rest) =>
          if bool_decide (rest = "") && (n <=? 8 * Z.of_nat iplen)
          then let m := CIDRMask n iplen in Some {| net_IP := and_bytes ip m; net_Mask := m |}
          else None
      | _, _ => None
      end
  end.

(** [IP.To4]: a four byte address, or a sixteen byte one in [::ffff:0:0/96]. *)
Definition To4 (ip : IP) : option IP :=
  if (length ip =? 4)%nat then Some ip
  else if (length ip =? 16)%nat && bool_decide (take 12 ip = replicate 10 0 ++ [255; 255])
  then Some (drop 12 ip) else None.

Definition networkNumberAndMask (n : IPNet) : option (IP * IP) :=
  match To4 (net_IP n) with
  | Some ip =>
      if (length (net_Mask n) =? 4)%nat then Some (ip, net_Mask n)
      else if (length (net_Mask n) =? 16)%nat then Some (ip, drop 12 (net_Mask n))
      else None
  | None =>
      if (length (net_IP n) =? 16)%nat && (length (net_Mask n) =? 16)%nat
      then Some (net_IP n, net_Mask n) else None
  end.

(** [(n *IPNet) Contains(ip)] *)
Definition net_contains (n : IPNet) (ip : IP) : bool :=
  match networkNumberAndMask n with
  | None => false
  | Some (nn, m) =>
      let ip := default ip (To4 ip) in
      (length ip =? length nn)%nat && bool_decide (and_bytes nn m = and_bytes ip m)
  end.

Definition dotted (ip : IP) : string := Join (Itoa <$> ip) ".".

(** [IP.String] for an address of sixteen bytes: the longest run of zero
    groups, if it is longer than one group, is written [::]. *)
Fixpoint groups (ip : IP) : list Z :=
  match ip with a :: b :: r => (a * 256 + b) :: groups r | _ => [] end.
Fixpoint zero_run (gs : list Z) : nat :=
  match gs with 0 :: gs' => S (zero_run gs') | _ => 0%nat end.
Definition longest_run (gs : list Z) : nat * nat :=
  fold_left (fun best i =>
    let r := zero_run (drop i gs) in if (snd best <? r)%nat then (i, r) else best)
    (seq 0 (length gs)) (0%nat, 0%nat).
Definition hex_char (d : Z) : ascii := ascii_of_N (Z.to_N (if d <? 10 then d + 48 else d + 87)).
Fixpoint hex_go (fuel : nat) (z : Z) (acc : string) : string :=
  match fuel with
  | O => acc
  | S f => let acc := String (hex_char (z mod 16)) acc in if z <? 16 then acc else hex_go f (z / 16) acc
  end.
Definition hex (z : Z) : string := hex_go 4 z "".
Definition string6 (ip : IP) : string :=
  let gs := groups ip in
  let '(i, r) := longest_run gs in
  if (1 <? r)%nat
  then Join (hex <$> take i gs) ":" +:+ "::" +:+ Join (hex <$> drop (i + r) gs) ":"
  else Join (hex <$> gs) ":".

Definition ip_String (ip : IP) : string :=
  if decide (ip = []) then "<nil>"
  else match To4 ip with
       | Some ip4 => dotted ip4
       | None =>
           if (length ip =? 16)%nat then string6 ip
           else "?" +:+ Join ((fun b => String (hex_char (b / 16)) (String (hex_char (b mod 16)) "")) <$> ip) ""
       end.

(** * Ports *)

Fixpoint IndexByte (c : ascii) (s : string) : option nat :=
  match s with
  | EmptyString => None
  | String d s' => if decide (d = c) then Some 0%nat else S <$> IndexByte c s'
  end.
Fixpoint LastIndexByte (c : ascii) (s : string) : option nat :=
  match s with
  | EmptyString => None
  | String d s' =>
      match LastIndexByte c s' with
      | Some i => Some (S i)
      | None => if decide (d = c) then Some 0%nat else None
      end
  end.
Definition str_from (i : nat) (s : string) : string := String.substring i (String.length s) s.
(** [net.SplitHostPort]: the host without brackets, and the port *)
Definition SplitHostPort (hostport : string) : reply (string * string) :=
  let refuse (why : string) := Bad (ErrNew ("address " +:+ hostport +:+ ": " +:+ why)) in
  match LastIndexByte ":" hostport with
  | None => refuse "missing port in address"
  | Some i =>
      let rest (host : string) (j k : nat) :=
        if str_has "[" (str_from j hostport) then refuse "unexpected '[' in address"
        else if str_has "]" (str_from k hostport) then refuse "unexpected ']' in address"
        else Ok (host, str_from (S i) hostport) in
      if HasPrefix hostport "[" then
        match IndexByte "]" hostport with
        | None => refuse "missing ']' in address"
        | Some e =>
            if decide (S e = String.length hostport) then refuse "missing port in address"
            else if decide (S e = i) then rest (String.substring 1 (e - 1) hostport) 1%nat (S e)
            else if decide (String.get (S e) hostport = Some ":"%char) then refuse "too many colons in address"
            else refuse "missing port in address"
        end
      else
        let host := String.substring 0 i hostport in
        if str_has ":" host then refuse "too many colons in address" else rest host 0%nat 0%nat
  end.

(** [strconv.Atoi]: the sign, the digits and the range of an [int] *)
Definition Atoi (s : string) : option Z :=
  let '(neg, ds) := match s with
    | String c s' => if decide (c = "-"%char) then (true, s') else if decide (c = "+"%char) then (false, s') else (false, s)
    | EmptyString => (false, s) end in
  if decide (ds = "") then None
  else match digits_val 0 ds with
       | None => None
       | Some n => let z := if neg : bool then - Z.of_N n else Z.of_N n in
                   if (- 2 ^ 63 <=? z) && (z <? 2 ^ 63) then Some z else None
       end.

(** * [pkg/util/ip] *)

(** The value of a big-endian byte string, and [big.Int.Bytes], the shortest
    byte string of an absolute value. *)
Definition be_val (b : IP) : Z := fold_left (fun acc x => acc * 256 + x) b 0.
Fixpoint be_bytes (fuel : nat) (z : Z) (acc : IP) : IP :=
  match fuel with
  | O => acc
  | S f => if z =? 0 then acc else be_bytes f (z / 256) (z mod 256 :: acc)
  end.
Definition Bytes (z : Z) : IP := be_bytes (S (Z.to_nat (Z.log2 (Z.abs z)))) (Z.abs z) [].

Definition To16 (ip : IP) : IP :=
  if (length ip =? 4)%nat then replicate 10 0 ++ [255; 255] ++ ip
  else if (length ip =? 16)%nat then ip else [].

(** [bigForIP], src/pkg/util/ip/ip.go:21-27 *)
Definition bigForIP (ip : IP) : Z :=
  be_val (match To4 ip with Some b => b | None => To16 ip end).

(** [addIPOffset], src/pkg/util/ip/ip.go:31-33 *)
Definition addIPOffset (base : Z) (offset : Z) : IP := Bytes (base + offset).

(** [None] is the "subnet too small" error.
    [GetIndexedIP], src/pkg/util/ip/ip.go:12-18 *)
Definition GetIndexedIP (subnet : IPNet) (index : Z) : option IP :=
  let ip := addIPOffset (bigForIP (net_IP subnet)) index in
  if net_contains subnet ip then Some ip else None.

(** * IPv4 networks as intervals

    For an address of four bytes the functions above are arithmetic on the
    32-bit value of the address. *)
Definition is_byte (z : Z) : Prop := 0 <= z < 256.
Definition wf4 (ip : IP) : Prop := length ip = 4%nat ∧ Forall is_byte ip.

Definition byte_land_table : bool :=
  forallb (fun x => forallb (fun j => Z.land x (256 - 2 ^ j) =? x / 2 ^ j * 2 ^ j)
             [0; 1; 2; 3; 4; 5; 6; 7; 8]) (Z.of_nat <$> seq 0 256).

Lemma byte_land x j : is_byte x → 0 <= j <= 8 → Z.land x (256 - 2 ^ j) = x / 2 ^ j * 2 ^ j.
Proof.
  unfold is_byte. intros Hx Hj.
  assert (byte_land_table = true) as T by (vm_compute; reflexivity).
  unfold byte_land_table in T. rewrite forallb_forall in T.
  specialize (T x). rewrite forallb_forall in T. apply Z.eqb_eq, T.
  - apply list_elem_of_In, list_elem_of_fmap. exists (Z.to_nat x).
    split; [lia|]. apply elem_of_seq. lia.
  - simpl. lia.
Qed.

Lemma wf4_inv ip : wf4 ip → ∃ a b c d,
  ip = [a; b; c; d] ∧ is_byte a ∧ is_byte b ∧ is_byte c ∧ is_byte d.
Proof.
  intros [Hl Hb]. destruct ip as [|a [|b [|c [|d [|]]]]]; try discriminate.
  rewrite !Forall_cons in Hb. destruct Hb as (?&?&?&?&_). by exists a, b, c, d.
Qed.

Lemma be_val_4 a b c d : be_val [a; b; c; d] = a * 16777216 + b * 65536 + c * 256 + d.
Proof. unfold be_val. simpl. lia. Qed.

Lemma be_val_range ip : wf4 ip → 0 <= be_val ip < 2 ^ 32.
Proof. intros (a & b & c & d & -> & Ha & Hb & Hc & Hd)%wf4_inv. rewrite be_val_4. unfold is_byte in *. lia. Qed.

Definition range_33 : list Z := Eval vm_compute in (Z.of_nat <$> seq 0 33).
Lemma in_range_33 n : 0 <= n <= 32 → In n range_33.
Proof.
  intros H. change range_33 with (Z.of_nat <$> seq 0 33).
  apply list_elem_of_In, list_elem_of_fmap. exists (Z.to_nat n).
  split; [lia|]. apply elem_of_seq. lia.
Qed.

Lemma byte_land_k x m j : is_byte x → 0 <= j <= 8 → m = 256 - 2 ^ j → Z.land x m = x / 2 ^ j * 2 ^ j.
Proof. intros Hx Hj ->. by apply byte_land. Qed.
Lemma byte_land_full x : is_byte x → Z.land x 255 = x.
Proof.
  intros Hx. rewrite (byte_land_k x 255 0 Hx) by lia.
  change (2 ^ 0) with 1. by rewrite Z.div_1_r, Z.mul_1_r.
Qed.
Lemma byte_land_zero x : Z.land x 0 = 0.
Proof. apply Z.land_0_r. Qed.

(** Rewrites every masked byte of the goal to its arithmetic form. *)
Ltac land_byte :=
  match goal with
  | |- context [Z.land ?x 0] => rewrite (byte_land_zero x)
  | H : is_byte ?x |- context [Z.land ?x 255] => rewrite (byte_land_full x H)
  | H : is_byte ?x |- context [Z.land ?x 254] => rewrite (byte_land_k x 254 1 H) by lia
  | H : is_byte ?x |- context [Z.land ?x 252] => rewrite (byte_land_k x 252 2 H) by lia
  | H : is_byte ?x |- context [Z.land ?x 248] => rewrite (byte_land_k x 248 3 H) by lia
  | H : is_byte ?x |- context [Z.land ?x 240] => rewrite (byte_land_k x 240 4 H) by lia
  | H : is_byte ?x |- context [Z.land ?x 224] => rewrite (byte_land_k x 224 5 H) by lia
  | H : is_byte ?x |- context [Z.land ?x 192] => rewrite (byte_land_k x 192 6 H) by lia
  | H : is_byte ?x |- context [Z.land ?x 128] => rewrite (byte_land_k x 128 7 H) by lia
  end.
Ltac eval_mask :=
  repeat match goal with
  | |- context [CIDRMask ?n 4] =>
      let v := eval vm_compute in (CIDRMask n 4) in change (CIDRMask n 4) with v
  | |- context [2 ^ (32 - ?n)] =>
      let v := eval vm_compute in (2 ^ (32 - n)) in change (2 ^ (32 - n)) with v
  end.
Ltac div_lia := unfold is_byte in *; Z.to_euclidean_division_equations; lia.

(** Masking an IPv4 address keeps the [n] leading bits. *)
Lemma and_bytes_4 ip n : wf4 ip → 0 <= n <= 32 →
  wf4 (and_bytes ip (CIDRMask n 4)) ∧
  be_val (and_bytes ip (CIDRMask n 4)) = be_val ip / 2 ^ (32 - n) * 2 ^ (32 - n).
Proof.
  intros (a & b & c & d & -> & Ha & Hb & Hc & Hd)%wf4_inv Hn.
  apply in_range_33 in Hn. simpl in Hn. unfold wf4. rewrite be_val_4.
  destruct_or! Hn; try done; subst n; eval_mask;
    unfold and_bytes; cbn [zip_with]; rewrite be_val_4, !Forall_cons; repeat land_byte; simpl;
    (split; [split_and!; try done; div_lia | div_lia]).
Qed.

Lemma be_val_inj a b : wf4 a → wf4 b → be_val a = be_val b → a = b.
Proof.
  intros (?&?&?&?&->&?&?&?&?)%wf4_inv (?&?&?&?&->&?&?&?&?)%wf4_inv.
  rewrite !be_val_4. unfold is_byte in *. intros. repeat f_equal; lia.
Qed.

Lemma length_CIDRMask n k : length (CIDRMask n k) = k.
Proof. revert n. induction k as [|k IH]; intros n; simpl; [done|]. destruct (8 <=? n); simpl; by rewrite IH. Qed.

(** An IPv4 network of prefix length [n] contains exactly the addresses that
    agree with it on the [n] leading bits. *)
Lemma net_contains_4 a ip n : wf4 a → wf4 ip → 0 <= n <= 32 →
  net_contains {| net_IP := a; net_Mask := CIDRMask n 4 |} ip =
  (be_val a / 2 ^ (32 - n) =? be_val ip / 2 ^ (32 - n)).
Proof.
  intros Ha Hip Hn. pose proof (proj1 Ha) as La. pose proof (proj1 Hip) as Lip.
  unfold net_contains, networkNumberAndMask, To4. cbn [net_IP net_Mask].
  rewrite La, Lip, length_CIDRMask. cbn -[and_bytes be_val Z.div Z.pow CIDRMask]. rewrite La, Lip.
  cbn -[and_bytes be_val Z.div Z.pow CIDRMask].
  destruct (and_bytes_4 a n Ha Hn) as [Wa Va]. destruct (and_bytes_4 ip n Hip Hn) as [Wip Vip].
  assert (0 < 2 ^ (32 - n)) by (apply Z.pow_pos_nonneg; lia).
  destruct (Z.eqb_spec (be_val a / 2 ^ (32 - n)) (be_val ip / 2 ^ (32 - n))) as [E|E].
  - apply bool_decide_true, be_val_inj; [done..|]. by rewrite Va, Vip, E.
  - apply bool_decide_false. intros Heq. apply E.
    rewrite Heq in Va. rewrite Va in Vip. by apply Z.mul_reg_r in Vip; [|lia].
Qed.

(** The shortest byte string of a value that needs four bytes. *)
Lemma Bytes_4 z : 2 ^ 24 <= z < 2 ^ 32 → wf4 (Bytes z) ∧ be_val (Bytes z) = z.
Proof.
  intros Hz. unfold Bytes. rewrite Z.abs_eq by lia.
  assert (24 <= Z.log2 z) by (apply Z.log2_le_pow2; lia).
  replace (S (Z.to_nat (Z.log2 z))) with (5 + (Z.to_nat (Z.log2 z) - 4))%nat by lia.
  set (k := (Z.to_nat (Z.log2 z) - 4)%nat). cbn [be_bytes Nat.add].
  assert (∀ x, 0 < x → (x =? 0) = false) as Hnz by (intros; apply Z.eqb_neq; lia).
  rewrite !Hnz by div_lia.
  replace (z / 256 / 256 / 256 / 256) with 0 by div_lia. cbn [Z.eqb].
  unfold wf4. rewrite be_val_4, !Forall_cons. split; [split_and!; try done|]; div_lia.
Qed.

(** A network of prefix length [n] whose first address is the multiple [b] of
    [2^(32-n)]. *)
Definition net4 (a : IP) (n : Z) : IPNet := {| net_IP := a; net_Mask := CIDRMask n 4 |}.
Definition aligned (a : IP) (n : Z) : Prop :=
  wf4 a ∧ 0 <= n <= 32 ∧ be_val a mod 2 ^ (32 - n) = 0.

Lemma net_contains_aligned a ip n : aligned a n → wf4 ip →
  net_contains (net4 a n) ip = true ↔ be_val a <= be_val ip < be_val a + 2 ^ (32 - n).
Proof.
  intros (Ha & Hn & Hal) Hip. unfold net4. rewrite net_contains_4, Z.eqb_eq by done.
  assert (0 < 2 ^ (32 - n)) by (apply Z.pow_pos_nonneg; lia).
  pose proof (Z.div_mod (be_val a) (2 ^ (32 - n)) ltac:(lia)).
  pose proof (Z.div_mod (be_val ip) (2 ^ (32 - n)) ltac:(lia)).
  pose proof (Z.mod_pos_bound (be_val ip) (2 ^ (32 - n)) ltac:(lia)).
  set (p := 2 ^ (32 - n)) in *. split; intros; nia.
Qed.

(** What [ParseCIDR] returns for an IPv4 network is aligned. *)
Lemma and_bytes_aligned a n : wf4 a → 0 <= n <= 32 → aligned (and_bytes a (CIDRMask n 4)) n.
Proof.
  intros Ha Hn. destruct (and_bytes_4 a n Ha Hn) as [W V]. split_and!; [done | lia | lia |].
  rewrite V. apply Z.mod_mul. assert (0 < 2 ^ (32 - n)) by (apply Z.pow_pos_nonneg; lia). lia.
Qed.

(** ** The last address of an aligned network *)
Definition byte_lor_table : bool :=
  forallb (fun x => forallb (fun j => Z.lor x (2 ^ j - 1) =? x / 2 ^ j * 2 ^ j + (2 ^ j - 1))
             [0; 1; 2; 3; 4; 5; 6; 7; 8]) (Z.of_nat <$> seq 0 256).
Lemma byte_lor x k j : is_byte x → 0 <= j <= 8 → k = 2 ^ j - 1 → Z.lor x k = x / 2 ^ j * 2 ^ j + (2 ^ j - 1).
Proof.
  unfold is_byte. intros Hx Hj ->.
  assert (byte_lor_table = true) as T by (vm_compute; reflexivity).
  unfold byte_lor_table in T. rewrite forallb_forall in T.
  specialize (T x). rewrite forallb_forall in T. apply Z.eqb_eq, T.
  - apply list_elem_of_In, list_elem_of_fmap. exists (Z.to_nat x).
    split; [lia|]. apply elem_of_seq. lia.
  - simpl. lia.
Qed.

Ltac lor_byte :=
  match goal with
  | H : is_byte ?x |- context [Z.lor ?x 0] => rewrite (byte_lor x 0 0 H) by lia
  | H : is_byte ?x |- context [Z.lor ?x 1] => rewrite (byte_lor x 1 1 H) by lia
  | H : is_byte ?x |- context [Z.lor ?x 3] => rewrite (byte_lor x 3 2 H) by lia
  | H : is_byte ?x |- context [Z.lor ?x 7] => rewrite (byte_lor x 7 3 H) by lia
  | H : is_byte ?x |- context [Z.lor ?x 15] => rewrite (byte_lor x 15 4 H) by lia
  | H : is_byte ?x |- context [Z.lor ?x 31] => rewrite (byte_lor x 31 5 H) by lia
  | H : is_byte ?x |- context [Z.lor ?x 63] => rewrite (byte_lor x 63 6 H) by lia
  | H : is_byte ?x |- context [Z.lor ?x 127] => rewrite (byte_lor x 127 7 H) by lia
  | H : is_byte ?x |- context [Z.lor ?x 255] => rewrite (byte_lor x 255 8 H) by lia
  end.

Ltac eval_not :=
  match goal with |- context [Z.lor ?x (255 - ?y)] =>
    let v := eval vm_compute in (255 - y) in change (Z.lor x (255 - y)) with (Z.lor x v) end.

Lemma or_not_4 ip n : wf4 ip → 0 <= n <= 32 →
  wf4 (or_not_bytes ip (CIDRMask n 4)) ∧
  be_val (or_not_bytes ip (CIDRMask n 4)) = be_val ip / 2 ^ (32 - n) * 2 ^ (32 - n) + 2 ^ (32 - n) - 1.
Proof.
  intros (a & b & c & d & -> & Ha & Hb & Hc & Hd)%wf4_inv Hn.
  apply in_range_33 in Hn. simpl in Hn. unfold wf4. rewrite be_val_4.
  destruct_or! Hn; try done; subst n; eval_mask;
    unfold or_not_bytes; cbn [zip_with]; repeat eval_not;
    rewrite be_val_4, !Forall_cons; repeat lor_byte; simpl;
    (split; [split_and!; try done; div_lia | div_lia]).
Qed.
Lemma or_not_last a n : aligned a n →
  wf4 (or_not_bytes a (CIDRMask n 4)) ∧
  be_val (or_not_bytes a (CIDRMask n 4)) = be_val a + 2 ^ (32 - n) - 1.
Proof.
  intros (Ha & Hn & Hal). destruct (or_not_4 a n Ha Hn) as [W V]. split; [done|].
  assert (0 < 2 ^ (32 - n)) by (apply Z.pow_pos_nonneg; lia).
  pose proof (Z.div_mod (be_val a) (2 ^ (32 - n)) ltac:(lia)). lia.
Qed.
