(* ===== verification/Factory.v ===== *)
(** [pkg/apis/kubernikus/factory.go] and [v1/kluster.go]: how a cluster
    resource is built from the specification of an API request, and the service
    addresses derived from its service network. *)
From S2P Require Import Prelude GoStrings Regexp Models NetIP.
Local Open Scope Z_scope.

(** The defaults of [swagger.yml], which the package reads from the document
    embedded by [pkg/api/spec]. *)
Definition DEFAULT_CLUSTER_CIDR : string := "198.19.0.0/16".
Definition DEFAULT_SERVICE_CIDR : string := "198.18.128.0/17".
Definition DEFAULT_ADVERTISE_ADDRESS : string := "1.1.1.1".
Definition DEFAULT_DOMAIN : string := "cluster.local".
Definition DEFAULT_IMAGE : string := "coreos-stable-amd64".

Definition or_default (v d : string) : string := if decide (v = "") then d else v.

Definition err_missing_name : error := ErrNew "unabled to create cluster. missing name".
Definition err_parse_cidr (s : string) : error := ErrNew ("invalid CIDR address: " +:+ s).
Definition err_subnet_small (index : Z) : error :=
  ErrNew ("can't generate IP with index " +:+ Itoa index +:+ " from subnet. subnet too small").

Definition pool_info (p : NodePool) : NodePoolInfo :=
  {| npi_Healthy := 0; npi_Name := np_Name p; npi_Running := 0; npi_Schedulable := 0;
     npi_Size := np_Size p |}.

Section Factory.
(** [version.GitCommit], set when the binary is linked *)
Context (GitCommit : string).

(** [KlusterFor], src/pkg/apis/kubernikus/factory.go:33-96 *)
Definition KlusterFor (spec : KlusterSpec) : reply Kluster :=
  if decide (spec_Name spec = "") then Bad err_missing_name
  else
    let serviceCIDR := or_default (ServiceCIDR spec) DEFAULT_SERVICE_CIDR in
    match ParseCIDR serviceCIDR with
    | None => Bad (err_parse_cidr serviceCIDR)
    | Some net =>
        match GetIndexedIP net 2 with
        | None => Bad (err_subnet_small 2)
        | Some dnsip =>
            Ok {| Meta := {| Name := spec_Name spec; Namespace := ""; UID := "";
                             Labels := ∅; Annotations := ∅ |};
                  Spec := {| AdvertiseAddress := or_default (AdvertiseAddress spec) DEFAULT_ADVERTISE_ADDRESS;
                             ClusterCIDR := or_default (ClusterCIDR spec) DEFAULT_CLUSTER_CIDR;
                             DNSAddress := or_default (DNSAddress spec) (ip_String dnsip);
                             DNSDomain := or_default (DNSDomain spec) DEFAULT_DOMAIN;
                             spec_Name := spec_Name spec;
                             NodePools := NodePools spec;
                             Openstack := Openstack spec;
                             ServiceCIDR := serviceCIDR |};
                  Status := {| Apiserver := ""; Message := "";
                               st_NodePools := pool_info <$> NodePools spec;
                               Phase := KlusterPhasePending;
                               st_Version := GitCommit; Wormhole := "" |} |}
        end
    end.
End Factory.

(** [(spec Kluster) ApiServiceIP()]
    [ApiServiceIP], src/pkg/apis/kubernikus/v1/kluster.go:31-42 *)
Definition ApiServiceIP (k : Kluster) : reply IP :=
  match ParseCIDR (ServiceCIDR (Spec k)) with
  | None => Bad (err_parse_cidr (ServiceCIDR (Spec k)))
  | Some net =>
      match GetIndexedIP net 1 with
      | None => Bad (err_subnet_small 1)
      | Some ip => Ok ip
      end
  end.

(** * Addresses indexed in a subnet *)

Lemma GetIndexedIP_val a n i : aligned a n → 2 ^ 24 <= be_val a + i < 2 ^ 32 →
  GetIndexedIP (net4 a n) i =
  if decide (0 <= i < 2 ^ (32 - n)) then Some (Bytes (be_val a + i)) else None.
Proof.
  intros Hal Hr. pose proof Hal as (Ha & _).
  destruct (Bytes_4 _ Hr) as [Wb Vb].
  unfold GetIndexedIP, addIPOffset, bigForIP. cbn [net_IP net4].
  unfold To4. rewrite (proj1 Ha). cbn [Nat.eqb].
  pose proof (net_contains_aligned a (Bytes (be_val a + i)) n Hal Wb) as Hc.
  rewrite Vb in Hc.
  destruct (net_contains _ _) eqn:E; case_decide; try done; exfalso.
  - apply proj1 in Hc. specialize (Hc eq_refl). lia.
  - apply proj2 in Hc. by specialize (Hc ltac:(lia)).
Qed.

(** * The CIDR pattern and the CIDR parser agree *)

Lemma rrange_digit lo hi s :
  (48 <= N_of_ascii lo)%N → (N_of_ascii hi <= 57)%N → matches (rrange lo hi) s →
  ∃ c, s = String c "" ∧ is_digit c = true ∧
       (N_of_ascii lo - 48 <= digit_val c <= N_of_ascii hi - 48)%N.
Proof.
  intros Hl Hh (c & -> & [H1 H2]%andb_true_iff)%matches_cls_inv.
  apply N.leb_le in H1, H2. exists c. unfold is_digit, digit_val. split_and!; try done; try lia.
  apply andb_true_iff. rewrite !N.leb_le. lia.
Qed.

Lemma rchr_inv k s : matches (rchr k) s → s = String k "".
Proof. intros (c & -> & H)%matches_cls_inv. by apply bool_decide_eq_true in H as ->. Qed.

(** A decimal number written without sign: what [dtoi] reads. *)
Definition decimal (s : string) (n : N) : Prop :=
  s ≠ "" ∧ str_all is_digit s = true ∧ digits_val 0 s = Some n.

Ltac inv_re :=
  repeat match goal with
  | H : matches (RAlt _ _) _ |- _ => apply matches_alt_inv in H as [H|H]
  | H : matches (RSeq _ _) _ |- _ =>
      let H1 := fresh H in apply matches_seq_inv in H as (? & ? & -> & H1 & H)
  | H : matches (rchr _) _ |- _ => apply rchr_inv in H as ->
  | H : matches (rrange _ _) _ |- _ =>
      let Hd := fresh "Hd" in let Hv := fresh "Hv" in
      apply rrange_digit in H as (? & -> & Hd & Hv); [|done|done]
  end.

(** Evaluates the digits that are literal characters. *)
Ltac eval_digits :=
  repeat match goal with
  | |- context [is_digit (Ascii ?a ?b ?c ?d ?e ?f ?g ?h)] =>
      change (is_digit (Ascii a b c d e f g h)) with true
  | |- context [digit_val (Ascii ?a ?b ?c ?d ?e ?f ?g ?h)] =>
      let v := eval vm_compute in (digit_val (Ascii a b c d e f g h)) in
      change (digit_val (Ascii a b c d e f g h)) with v
  | H : context [N_of_ascii (Ascii ?a ?b ?c ?d ?e ?f ?g ?h)] |- _ =>
      let v := eval vm_compute in (N_of_ascii (Ascii a b c d e f g h)) in
      change (N_of_ascii (Ascii a b c d e f g h)) with v in H
  end.

Ltac decimal_digits :=
  unfold decimal; cbn -[is_digit digit_val N_of_ascii N.mul N.add];
  repeat match goal with H : is_digit _ = true |- _ => rewrite H; clear H end;
  eval_digits; cbn -[digit_val N.mul N.add N.sub];
  eexists; split; [split_and!; done | lia].

Lemma re_octet_decimal s : matches re_octet s → ∃ n, decimal s n ∧ (n <= 255)%N.
Proof. unfold re_octet. intros H. inv_re; decimal_digits. Qed.

Lemma re_masklen_decimal s : matches re_masklen s → ∃ n, decimal s n ∧ (n <= 32)%N.
Proof. unfold re_masklen. intros H. inv_re; decimal_digits. Qed.

Definition stops (s : string) : Prop := span is_digit s = ("", s).

Lemma dtoi_decimal s n rest :
  decimal s n → (n < 16777215)%N → stops rest → dtoi (s +:+ rest) = (Some (Z.of_N n, rest)).
Proof.
  intros (Hne & Hall & Hv) Hn Hst. unfold dtoi.
  rewrite (span_all is_digit s rest Hall Hst), decide_False, Hv by done.
  assert ((Z.of_N n <? 16777215) = true) as -> by (apply Z.ltb_lt; lia). done.
Qed.

Lemma decimal_cons s n : decimal s n → ∃ c r, s = String c r.
Proof. intros (Hne & _ & _). destruct s; [done|eauto]. Qed.

(** One turn of the octet loop, and its end. *)
Lemma parse_octets_step k first s n rest acc :
  decimal s n → (n <= 255)%N → stops rest →
  parse_octets (S k) first ((if first then "" else ".") +:+ (s +:+ rest)) acc =
  parse_octets k false rest (acc ++ [Z.of_N n]).
Proof.
  intros Hs Hn Hst. destruct (decimal_cons _ _ Hs) as (c & r & Es).
  assert (dtoi (s +:+ rest) = (Some (Z.of_N n, rest))) as Hd by (apply dtoi_decimal; [done|lia|done]).
  assert ((Z.of_N n <=? 255) = true) as Hle by (apply Z.leb_le; lia).
  destruct first; simpl.
  - rewrite Es in *. simpl in *. by rewrite Hd, Hle.
  - by rewrite Hd, Hle.
Qed.

Lemma parse_octets_dotted o1 o2 o3 o4 n1 n2 n3 n4 :
  decimal o1 n1 → decimal o2 n2 → decimal o3 n3 → decimal o4 n4 →
  (n1 <= 255)%N → (n2 <= 255)%N → (n3 <= 255)%N → (n4 <= 255)%N →
  parseIPv4 (o1 +:+ "." +:+ o2 +:+ "." +:+ o3 +:+ "." +:+ o4) =
  Some [Z.of_N n1; Z.of_N n2; Z.of_N n3; Z.of_N n4].
Proof.
  intros. unfold parseIPv4.
  pose proof (parse_octets_step 3 true o1 n1 ("." +:+ o2 +:+ "." +:+ o3 +:+ "." +:+ o4) []) as E1.
  pose proof (parse_octets_step 2 false o2 n2 ("." +:+ o3 +:+ "." +:+ o4) [Z.of_N n1]) as E2.
  pose proof (parse_octets_step 1 false o3 n3 ("." +:+ o4) [Z.of_N n1; Z.of_N n2]) as E3.
  pose proof (parse_octets_step 0 false o4 n4 "" [Z.of_N n1; Z.of_N n2; Z.of_N n3]) as E4.
  rewrite str_app_nil_r in E4. cbn [app String.append] in E1, E2, E3, E4 |- *.
  rewrite E1, E2, E3, E4 by done. done.
Qed.

Lemma no_slash_decimal s n : decimal s n →
  str_all (fun c => negb (bool_decide (c = "/"%char))) s = true.
Proof.
  intros (_ & H & _). revert H. apply str_all_weaken. intros c Hc.
  apply negb_true_iff, bool_decide_false. by intros ->.
Qed.

(** The two shapes of an octet of the pattern. *)
Lemma octet_dot s : matches (RSeq re_octet (rchr ".")) s →
  ∃ o n, s = o +:+ "." ∧ decimal o n ∧ (n <= 255)%N.
Proof.
  intros (o & t & -> & Ho & ->%rchr_inv)%matches_seq_inv.
  apply re_octet_decimal in Ho as (n & Ho & Hn). eauto.
Qed.

Lemma re_cidr_inv s : matches re_cidr s → ∃ o1 o2 o3 o4 m n1 n2 n3 n4 k,
  s = (o1 +:+ "." +:+ o2 +:+ "." +:+ o3 +:+ "." +:+ o4) +:+ ("/" +:+ m) ∧
  decimal o1 n1 ∧ decimal o2 n2 ∧ decimal o3 n3 ∧ decimal o4 n4 ∧ decimal m k ∧
  (n1 <= 255)%N ∧ (n2 <= 255)%N ∧ (n3 <= 255)%N ∧ (n4 <= 255)%N ∧ (k <= 32)%N.
Proof.
  unfold re_cidr.
  intros (s1 & s2 & -> & H & (t & m & -> & ->%rchr_inv & Hm)%matches_seq_inv)%matches_seq_inv.
  apply matches_seq_inv in H as (s3 & o4 & -> & H & H4).
  apply matches_seq_inv in H as (s4 & s5 & -> & H & (o3 & n3 & -> & D3 & L3)%octet_dot).
  apply matches_seq_inv in H as
    (s6 & s7 & -> & (o1 & n1 & -> & D1 & L1)%octet_dot & (o2 & n2 & -> & D2 & L2)%octet_dot).
  apply re_octet_decimal in H4 as (n4 & D4 & L4). apply re_masklen_decimal in Hm as (k & Dm & Lk).
  exists o1, o2, o3, o4, m, n1, n2, n3, n4, k. rewrite !str_app_assoc. by split_and!.
Qed.

(** Every string the API accepts as a network is parsed to an IPv4 network. *)
Lemma re_cidr_parses s : matches re_cidr s →
  ∃ a n, aligned a n ∧ ParseCIDR s = Some (net4 a n).
Proof.
  intros (o1 & o2 & o3 & o4 & m & n1 & n2 & n3 & n4 & k & -> & D1 & D2 & D3 & D4 & Dm & ?&?&?&?&?)%re_cidr_inv.
  set (ip := [Z.of_N n1; Z.of_N n2; Z.of_N n3; Z.of_N n4]).
  assert (wf4 ip) as Hip.
  { split; [done|]. subst ip. rewrite !Forall_cons. unfold is_byte. split_and!; try done; lia. }
  exists (and_bytes ip (CIDRMask (Z.of_N k) 4)), (Z.of_N k).
  split; [apply and_bytes_aligned; [done|lia]|].
  unfold ParseCIDR. rewrite (span_all _ _ ("/" +:+ m)).
  - change ("/" +:+ m) with (String "/" m). cbn iota beta. rewrite parse_octets_dotted with (n1:=n1) (n2:=n2) (n3:=n3) (n4:=n4) by done.
    rewrite <- (str_app_nil_r m), (dtoi_decimal m k "") by (done || lia).
    assert ((Z.of_N k <=? 8 * Z.of_nat 4) = true) as -> by (apply Z.leb_le; lia). done.
  - rewrite !str_all_app.
    by rewrite !(no_slash_decimal _ _ D1), !(no_slash_decimal _ _ D2),
      !(no_slash_decimal _ _ D3), !(no_slash_decimal _ _ D4).
  - done.
Qed.

(** * Properties of the factory *)

(** The service network a request asks for, after defaulting. *)
Definition service_cidr (spec : KlusterSpec) : string := or_default (ServiceCIDR spec) DEFAULT_SERVICE_CIDR.

Lemma KlusterFor_inv GitCommit spec k : KlusterFor GitCommit spec = Ok k →
  Phase (Status k) = KlusterPhasePending ∧ NodePools (Spec k) = NodePools spec ∧
  st_NodePools (Status k) = pool_info <$> NodePools spec.
Proof.
  unfold KlusterFor. case_decide; [done|]. destruct (ParseCIDR _); [|done].
  destruct (GetIndexedIP _ _); [|done]. by intros [= <-].
Qed.


