(* ===== verification/Telemetry.v ===== *)
(** Metrics and log lines, and the decorators that emit them around an
    operation ([pkg/controller/base/instrumenting.go], [logging.go]).

    A metric vector is named by its kind; the label is the method.  A log line
    is its message and its key-value pairs; the duration and the verbosity are
    left out. *)
From S2P Require Import Prelude GoStrings Models.

Inductive metric_kind := Latency | Total | Successful | Failed.
Inductive TelemetryCall :=
| Metric (kind : metric_kind) (method : string)
| Log (msg : string) (keyvals : list (string * string)).

#[export] Instance metric_kind_eq_dec : EqDecision metric_kind.
Proof. solve_decision. Defined.
#[export] Instance TelemetryCall_eq_dec : EqDecision TelemetryCall.
Proof. solve_decision. Defined.

(** [defer f]: [f] runs after [m] in every case and sees how [m] ended; a
    panic of [f] replaces the outcome. *)
Definition defer {S A} (f : outcome A -> Go S unit) (m : Go S A) : Go S A := fun s =>
  let '(s1, o) := m s in
  let '(s2, o2) := f o s1 in
  (s2, match o2 with Panic w => Panic w | _ => o end).

Lemma wp_defer {S A} (f : outcome A → Go S unit) (m : Go S A) Q s :
  wp m (λ o s1, wp (f o) (λ o2 s2, match o2 with Panic w => Q (Panic w) s2 | _ => Q o s2 end) s1) s →
  wp (defer f m) Q s.
Proof.
  intros H. apply wp_intro. intros s2 o. unfold defer.
  destruct (m s) as [s1 o1] eqn:E1. destruct (f o1 s1) as [s3 o3] eqn:E3. intros [= <- <-].
  pose proof (wp_elim _ _ _ _ _ (wp_elim _ _ _ _ _ H E1) E3) as HQ. simpl in HQ. by destruct o3.
Qed.

(** The text of the [err] value of a log line *)
Definition err_text {A} (o : outcome A) : string := match o with Fail e => Error e | _ => "" end.
Definition bool_text (b : bool) : string := if b then "true" else "false".

(** The reconcilers a controller is built from
    [Reconciler], src/pkg/controller/base/controller.go:30-32 *)
Definition Reconciler (S : Type) : Type := Kluster -> Go S bool.

Section Decorators.
(** How a telemetry call is made in the component at hand *)
Context {S : Type} (tel : TelemetryCall -> Go S unit).

(** The deferred function of every instrumented method.  A method that panics
    leaves its named error nil and is counted as successful. *)
Definition observe {A} (method : string) (o : outcome A) : Go S unit :=
  _ ← tel (Metric Latency method);
  _ ← tel (Metric Total method);
  match o with
  | Fail _ => tel (Metric Failed method)
  | _ => tel (Metric Successful method)
  end.
Definition instrumented {A} (method : string) (m : Go S A) : Go S A := defer (observe method) m.

(** [InstrumentingReconciler.Reconcile], src/pkg/controller/base/instrumenting.go:20-45 *)
Definition InstrumentingReconciler (r : Reconciler S) : Reconciler S := fun kluster =>
  instrumented "Reconcile" (r kluster).

(** [LoggingReconciler.Reconcile], src/pkg/controller/base/logging.go:18-30 *)
Definition LoggingReconciler (r : Reconciler S) : Reconciler S := fun kluster =>
  defer (fun o => tel (Log "reconciled kluster"
    [("kluster", spec_Name (Spec kluster)); ("project", Account kluster);
     ("requeue", bool_text (match o with Ret b => b | _ => false end)); ("err", err_text o)]))
    (r kluster).
End Decorators.

(** ** What the decorators keep

    [tel] is transparent when it always returns and a client-chosen view of
    the state does not see it. *)
Class Transparent {S V} (tel : TelemetryCall -> Go S unit) (view : S -> V) : Prop :=
  transparent : forall t s, snd (tel t s) = Ret tt ∧ view (fst (tel t s)) = view s.

Section Transparency.
Context {S V : Type} (tel : TelemetryCall -> Go S unit) (view : S -> V) `{!Transparent tel view}.

Lemma wp_tel t (Q : outcome unit → S → Prop) s :
  (∀ s', view s' = view s → Q (Ret tt) s') → wp (tel t) Q s.
Proof.
  intros HQ. apply wp_intro. intros s' o E0. destruct (transparent (tel:=tel) (view:=view) t s) as [H1 H2].
  rewrite E0 in *. simpl in *. subst o. by apply HQ.
Qed.

Lemma wp_observe {A} method (o : outcome A) Q s :
  (∀ s', view s' = view s → Q (Ret tt) s') → wp (observe tel method o) Q s.
Proof.
  intros HQ. unfold observe. apply wp_bind, wp_tel. intros s1 H1. apply wp_bind, wp_tel. intros s2 H2.
  destruct o; apply wp_tel; intros s3 H3; apply HQ; congruence.
Qed.

(** Decorating an operation changes neither its outcome nor the view. *)
Lemma wp_instrumented {A} method (m : Go S A) Q s :
  wp m (λ o s1, ∀ s2, view s2 = view s1 → Q o s2) s → wp (instrumented tel method m) Q s.
Proof.
  intros Hm. apply wp_defer. eapply wp_mono; [exact Hm|]. intros o s1 HQ. by apply wp_observe.
Qed.
Lemma wp_logged {A} (f : outcome A → TelemetryCall) (m : Go S A) Q s :
  wp m (λ o s1, ∀ s2, view s2 = view s1 → Q o s2) s → wp (defer (λ o, tel (f o)) m) Q s.
Proof.
  intros Hm. apply wp_defer. eapply wp_mono; [exact Hm|]. intros o s1 HQ. by apply wp_tel.
Qed.
End Transparency.
