(* ===== verification/WorkQueue.v ===== *)
(** The rate limited work queue of [k8s.io/client-go/util/workqueue], vendored
    with the program, on string keys: [queue.go], [delaying_queue.go],
    [default_rate_limiters.go] and [rate_limitting_queue.go].

    A queue operation holds the lock of the queue, so an execution is a
    sequence of operations; the step relation [qstep] lets any client perform
    any of them, [Done] only for an item it is processing.  The goroutine of
    the delaying queue is the step [Fire].  Durations and times are
    nanoseconds. *)
From S2P Require Import Prelude.
Local Open Scope Z_scope.

(** [Type], src/vendor/k8s.io/client-go/util/workqueue/queue.go:45-67 *)
Record queue := {
  items : list string;            (** the field [queue] *)
  dirty : gset string;
  processing : gset string;
  shuttingDown : bool;
  failures : gmap string nat;     (** of the rate limiter *)
  waiting : gmap string Z;        (** of the delaying queue: when an item is ready *)
  now : Z }.

Definition new_queue : queue :=
  {| items := []; dirty := ∅; processing := ∅; shuttingDown := false; failures := ∅;
     waiting := ∅; now := 0 |}.

Definition set_core (l : list string) (d p : gset string) (q : queue) : queue :=
  {| items := l; dirty := d; processing := p; shuttingDown := shuttingDown q;
     failures := failures q; waiting := waiting q; now := now q |}.
Definition set_failures (f : gmap string nat) (q : queue) : queue :=
  {| items := items q; dirty := dirty q; processing := processing q; shuttingDown := shuttingDown q;
     failures := f; waiting := waiting q; now := now q |}.
Definition set_waiting (w : gmap string Z) (q : queue) : queue :=
  {| items := items q; dirty := dirty q; processing := processing q; shuttingDown := shuttingDown q;
     failures := failures q; waiting := w; now := now q |}.

(** [Add], src/vendor/k8s.io/client-go/util/workqueue/queue.go:87-106 *)
Definition Add (item : string) (q : queue) : queue :=
  if shuttingDown q then q
  else if decide (item ∈ dirty q) then q
  else let d := {[item]} ∪ dirty q in
       if decide (item ∈ processing q) then set_core (items q) d (processing q) q
       else set_core (items q ++ [item]) d (processing q) q.

Inductive get_result :=
| Blocked                              (** [Get] waits *)
| Shutdown
| Item (item : string) (q : queue).

(** [Get], src/vendor/k8s.io/client-go/util/workqueue/queue.go:120-139 *)
Definition Get (q : queue) : get_result :=
  match items q with
  | [] => if shuttingDown q then Shutdown else Blocked
  | item :: rest => Item item (set_core rest (dirty q ∖ {[item]}) ({[item]} ∪ processing q) q)
  end.

(** [Done], src/vendor/k8s.io/client-go/util/workqueue/queue.go:144-155 *)
Definition Done (item : string) (q : queue) : queue :=
  let p := processing q ∖ {[item]} in
  if decide (item ∈ dirty q) then set_core (items q ++ [item]) (dirty q) p q
  else set_core (items q) (dirty q) p q.

(** [ShutDown], src/vendor/k8s.io/client-go/util/workqueue/queue.go:160-165 *)
Definition ShutDown (q : queue) : queue :=
  {| items := items q; dirty := dirty q; processing := processing q; shuttingDown := true;
     failures := failures q; waiting := waiting q; now := now q |}.

(** An item that is waiting already keeps the earlier of the two times.
    [insert], src/vendor/k8s.io/client-go/util/workqueue/delaying_queue.go:243-257 *)
Definition insert_waiting (item : string) (readyAt : Z) (w : gmap string Z) : gmap string Z :=
  match w !! item with
  | Some existing => if decide (readyAt < existing) then <[item := readyAt]> w else w
  | None => <[item := readyAt]> w
  end.

(** [AddAfter], src/vendor/k8s.io/client-go/util/workqueue/delaying_queue.go:144-163 *)
Definition AddAfter (item : string) (duration : Z) (q : queue) : queue :=
  if shuttingDown q then q
  else if duration <=? 0 then Add item q
  else set_waiting (insert_waiting item (now q + duration) (waiting q)) q.

(** The waiting loop adds an entry whose time has come.
    [waitingLoop], src/vendor/k8s.io/client-go/util/workqueue/delaying_queue.go:171-240 *)
Definition Fire (item : string) (q : queue) : option queue :=
  match waiting q !! item with
  | Some readyAt =>
      if decide (readyAt <= now q) then Some (set_waiting (delete item (waiting q)) (Add item q)) else None
  | None => None
  end.

(** * The rate limiter *)
Section RateLimiter.
Context (baseDelay maxDelay : Z).

Definition maxInt64 : Z := 2 ^ 63 - 1.

(** The floating point product is exact: a base below 2^53 times a power of
    two.
    [When], src/vendor/k8s.io/client-go/util/workqueue/default_rate_limiters.go:89-108 *)
Definition backoff (exp : nat) : Z :=
  let b := baseDelay * 2 ^ Z.of_nat exp in
  if maxInt64 <? b then maxDelay
  else if maxDelay <? b then maxDelay else b.

(** [NumRequeues], src/vendor/k8s.io/client-go/util/workqueue/default_rate_limiters.go:110-115 *)
Definition NumRequeues (item : string) (q : queue) : nat := default 0%nat (failures q !! item).

(** [Forget], src/vendor/k8s.io/client-go/util/workqueue/default_rate_limiters.go:117-122 *)
Definition Forget (item : string) (q : queue) : queue := set_failures (delete item (failures q)) q.

(** [AddRateLimited], src/vendor/k8s.io/client-go/util/workqueue/rate_limitting_queue.go:59-61 *)
Definition AddRateLimited (item : string) (q : queue) : queue :=
  let n := NumRequeues item q in
  AddAfter item (backoff n) (set_failures (<[item := S n]> (failures q)) q).

(** * Executions *)
Inductive label :=
| LAdd (item : string) | LGet (item : string) | LDone (item : string) | LShutDown
| LAddAfter (item : string) (d : Z) | LAddRateLimited (item : string) | LForget (item : string)
| LFire (item : string) | LTime (t : Z).

Inductive qstep : queue → label → queue → Prop :=
| step_add x q : qstep q (LAdd x) (Add x q)
| step_get x q q' : Get q = Item x q' → qstep q (LGet x) q'
| step_done x q : x ∈ processing q → qstep q (LDone x) (Done x q)
| step_shutdown q : qstep q LShutDown (ShutDown q)
| step_add_after x d q : qstep q (LAddAfter x d) (AddAfter x d q)
| step_rate_limited x q : qstep q (LAddRateLimited x) (AddRateLimited x q)
| step_forget x q : qstep q (LForget x) (Forget x q)
| step_fire x q q' : Fire x q = Some q' → qstep q (LFire x) q'
| step_time t q : now q <= t → qstep q (LTime t)
    {| items := items q; dirty := dirty q; processing := processing q; shuttingDown := shuttingDown q;
       failures := failures q; waiting := waiting q; now := t |}.

Inductive qsteps : queue → list label → queue → Prop :=
| qsteps_nil q : qsteps q [] q
| qsteps_cons q1 l q2 ls q3 : qstep q1 l q2 → qsteps q2 ls q3 → qsteps q1 (l :: ls) q3.

(** An item is queued, once, exactly when it is dirty and nobody processes it. *)
Definition queue_inv (q : queue) : Prop :=
  NoDup (items q) ∧ ∀ x, x ∈ items q ↔ x ∈ dirty q ∧ x ∉ processing q.

Lemma new_queue_inv : queue_inv new_queue.
Proof. split; [constructor | set_solver]. Qed.

Lemma Add_inv x q : queue_inv q → queue_inv (Add x q).
Proof.
  intros [Hnd Hi]. unfold Add. destruct (shuttingDown q); [done|].
  case_decide as Hd; [done|]. case_decide as Hp; split; simpl.
  - done.
  - intros y. rewrite Hi. set_solver.
  - apply NoDup_app. split_and!; [done | | apply NoDup_singleton].
    intros y Hy ->%list_elem_of_singleton. set_solver.
  - intros y. rewrite elem_of_app, list_elem_of_singleton, Hi. set_solver.
Qed.

Lemma Get_inv q x q' : Get q = Item x q' → queue_inv q → queue_inv q' ∧ x ∉ processing q ∧ x ∈ dirty q.
Proof.
  unfold Get. destruct (items q) as [|y rest] eqn:Hq; [by destruct (shuttingDown q)|].
  intros [= <- <-] [Hnd Hi]. rewrite Hq in *. apply NoDup_cons in Hnd as [Hn Hnd].
  assert (y ∈ dirty q ∧ y ∉ processing q) as [Hd Hp] by (apply Hi; left).
  split; [|done]. split; [done|]. simpl. intros z.
  specialize (Hi z). rewrite elem_of_cons in Hi. set_solver.
Qed.

Lemma Done_inv x q : x ∈ processing q → queue_inv q → queue_inv (Done x q).
Proof.
  intros Hx [Hnd Hi]. unfold Done. case_decide as Hd; split; simpl.
  - apply NoDup_app. split_and!; [done | | apply NoDup_singleton].
    intros y Hy ->%list_elem_of_singleton. set_solver.
  - intros y. rewrite elem_of_app, list_elem_of_singleton, Hi.
    destruct (decide (y = x)); set_solver.
  - done.
  - intros y. rewrite Hi. destruct (decide (y = x)); set_solver.
Qed.

Lemma AddAfter_inv x d q : queue_inv q → queue_inv (AddAfter x d q).
Proof.
  intros Hq. unfold AddAfter. destruct (shuttingDown q); [done|].
  destruct (d <=? 0); [by apply Add_inv | done].
Qed.

Lemma Fire_Some x q q' : Fire x q = Some q' → q' = set_waiting (delete x (waiting q)) (Add x q).
Proof. unfold Fire. destruct (waiting q !! x); [|done]. case_decide; naive_solver. Qed.

Lemma qstep_inv q l q' : qstep q l q' → queue_inv q → queue_inv q'.
Proof.
  destruct 1; intros Hq; try done.
  - by apply Add_inv.
  - by eapply Get_inv.
  - by apply Done_inv.
  - by apply AddAfter_inv.
  - by apply AddAfter_inv.
  - apply Fire_Some in H as ->. by apply (Add_inv x) in Hq.
Qed.

Lemma qsteps_inv q ls q' : qsteps q ls q' → queue_inv q → queue_inv q'.
Proof. induction 1; eauto using qstep_inv. Qed.

Lemma Add_dirty x y q : x ∈ dirty q → x ∈ dirty (Add y q).
Proof. unfold Add. intros. repeat case_match; simpl; set_solver. Qed.

(** Only [Get] takes an item from the dirty set. *)
Lemma qstep_dirty q l q' x : qstep q l q' → l ≠ LGet x → x ∈ dirty q → x ∈ dirty q'.
Proof.
  destruct 1; intros Hl Hd; try done.
  - by apply Add_dirty.
  - unfold Get in H. destruct (items q) as [|z rest]; [by destruct (shuttingDown q)|].
    injection H as <- <-. simpl. assert (x ≠ z) by congruence. set_solver.
  - unfold Done. by case_decide.
  - unfold AddAfter. repeat case_match; try done. by apply Add_dirty.
  - unfold AddRateLimited, AddAfter. simpl. repeat case_match; try done. by apply Add_dirty.
  - apply Fire_Some in H as ->. simpl. by apply Add_dirty.
Qed.

(** C13: in every execution from an empty queue an item is queued at most
    once, exactly when it was added and not taken since and no worker is
    processing it; so two workers never process one item at a time. *)
Theorem queue_exclusive ls q : qsteps new_queue ls q →
  queue_inv q ∧ ∀ x q', Get q = Item x q' → x ∉ processing q ∧ x ∈ processing q' ∧ x ∉ items q'.
Proof.
  intros Hs. assert (queue_inv q) as Hq by (eapply qsteps_inv; [done | apply new_queue_inv]).
  split; [done|]. intros x q' Hg. destruct (Get_inv q x q' Hg Hq) as ([_ Hi] & Hp & _).
  split; [done|]. assert (x ∈ processing q') as Hx.
  { unfold Get in Hg. destruct (items q); [by destruct (shuttingDown q)|].
    injection Hg as <- <-. simpl. set_solver. }
  split; [done|]. rewrite Hi. naive_solver.
Qed.

(** C26: no addition is lost.  After an item was added to a queue that is not
    shutting down, and as long as no worker takes it, it is marked dirty; it is
    in the queue unless a worker is still processing it, and the [Done] of that
    worker puts it back. *)
Theorem queue_no_lost_add ls1 q x ls2 q' :
  qsteps new_queue ls1 q → shuttingDown q = false →
  qsteps (Add x q) ls2 q' → LGet x ∉ ls2 →
  x ∈ dirty q' ∧ (x ∉ processing q' → x ∈ items q') ∧ (x ∈ processing q' → x ∈ items (Done x q')).
Proof.
  intros H1 Hsd H2 Hno.
  assert (queue_inv q') as [Hnd Hi].
  { eapply qsteps_inv; [done|]. apply Add_inv. eapply qsteps_inv; [done | apply new_queue_inv]. }
  assert (x ∈ dirty (Add x q)) as Hd.
  { unfold Add. rewrite Hsd. repeat case_decide; simpl; set_solver. }
  assert (x ∈ dirty q') as Hd'.
  { clear -Hd H2 Hno. induction H2 as [|q1 l q2 ls q3 Hs _ IH]; [done|].
    apply not_elem_of_cons in Hno as [Hl Hno]. apply IH; [done|]. eapply qstep_dirty; [done|congruence|done]. }
  split_and!; [done | by rewrite Hi |]. intros _. unfold Done. rewrite decide_True by done.
  simpl. set_solver.
Qed.

Lemma backoff_step : 0 < baseDelay <= maxDelay → maxDelay <= maxInt64 →
  ∀ n, backoff 0 = baseDelay ∧ baseDelay <= backoff n <= maxDelay ∧
       backoff (S n) = Z.min maxDelay (2 * backoff n) ∧ backoff n <= backoff (S n).
Proof.
  intros Hb Hm n.
  assert (∀ k, backoff k = Z.min maxDelay (baseDelay * 2 ^ Z.of_nat k)) as Hk.
  { intros k. unfold backoff. destruct (Z.ltb_spec maxInt64 (baseDelay * 2 ^ Z.of_nat k)); [lia|].
    destruct (Z.ltb_spec maxDelay (baseDelay * 2 ^ Z.of_nat k)); lia. }
  rewrite !Hk. replace (2 ^ Z.of_nat (S n)) with (2 * 2 ^ Z.of_nat n) by (rewrite Nat2Z.inj_succ, Z.pow_succ_r; lia).
  assert (1 <= 2 ^ Z.of_nat n) by (assert (0 < 2 ^ Z.of_nat n) by (apply Z.pow_pos_nonneg; lia); lia).
  change (2 ^ Z.of_nat 0) with 1. nia.
Qed.

End RateLimiter.

Lemma queue_exclusive_witness :
  qsteps 5 300 new_queue [LAdd "a"; LGet "a"] (set_core [] ∅ {["a"]} new_queue) ∧
  ("a" : string) ∉ items (set_core [] ∅ {["a"]} new_queue).
Proof.
  assert (qsteps 5 300 new_queue [LAdd "a"] (Add "a" new_queue)) as H by (repeat econstructor).
  split.
  - econstructor; [constructor|]. econstructor; [|constructor]. constructor. vm_compute. reflexivity.
  - destruct (queue_exclusive 5 300 _ _ H) as [_ Hx].
    apply (Hx "a" (set_core [] ∅ {["a"]} new_queue)). vm_compute. reflexivity.
Defined.

Lemma queue_no_lost_add_witness :
  ("a" : string) ∈ items (Done "a" (Add "a" (set_core [] ∅ {["a"]} new_queue))).
Proof.
  assert (qsteps 5 300 new_queue [LAdd "a"; LGet "a"] (set_core [] ∅ {["a"]} new_queue)) as H.
  { econstructor; [constructor|]. econstructor; [|constructor]. constructor. vm_compute. reflexivity. }
  destruct (queue_no_lost_add 5 300 _ _ "a" [] _ H eq_refl (qsteps_nil _ _ _)) as (_ & _ & H3).
  - apply not_elem_of_nil.
  - apply H3. vm_compute. reflexivity.
Defined.

