(* ===== verification/BaseController.v ===== *)
(** [pkg/controller/base/controller.go]: the control loop shared by the
    controllers.  It moves keys of klusters through a rate limited work queue
    and hands the klusters to a reconciler.

    The state is the queue, the informer's store of klusters and the state
    [St] of the reconciler. *)
From S2P Require Import Prelude Models Telemetry WorkQueue.
Local Open Scope Z_scope.

Definition second : Z := 1000000000.
(** [BASE_DELAY], src/pkg/controller/base/controller.go:18-22 *)
Definition BASE_DELAY : Z := 5 * second.
Definition MAX_DELAY : Z := 300 * second.
Definition KLUSTER_RECHECK_INTERVAL : Z := 5 * 60 * second.

Definition ErrUnkownKluster : error := ErrNew "unkown kluster".

(** [controller], src/pkg/controller/base/controller.go:34-42 *)
Record controller (St : Type) := Controller { cqueue : queue; indexer : gmap string Kluster; cstate : St }.
Arguments Controller {_} _ _ _.
Arguments cqueue {_} _.
Arguments indexer {_} _.
Arguments cstate {_} _.

Section Controller.
Context {St : Type} (reconciler : Reconciler St).
Abbreviation M := (Go (controller St)).

Definition with_queue (f : queue -> queue) : M unit :=
  modify (fun c => Controller (f (cqueue c)) (indexer c) (cstate c)).

(** A computation of the reconciler, in the state of the controller *)
Definition lift {A} (m : Go St A) : M A := fun c =>
  let '(s', o) := m (cstate c) in (Controller (cqueue c) (indexer c) s', o).

Definition key_of (k : Kluster) : string := MetaNamespaceKey (Meta k).

(** The event handlers: the store has changed and the key is queued.
    [NewController], src/pkg/controller/base/controller.go:44-75 *)
Definition on_event (key : string) (obj : option Kluster) : M unit :=
  _ ← modify (fun c => Controller (cqueue c) (partial_alter (fun _ => obj) key (indexer c)) (cstate c));
  with_queue (Add key).

(** [requeueKluster], src/pkg/controller/base/controller.go:129-141 *)
Definition requeueKluster (kluster : Kluster) : M unit := with_queue (Add (key_of kluster)).

(** [requeueAllKlusters], src/pkg/controller/base/controller.go:108-127 *)
Definition requeueAllKlusters : M unit :=
  c ← get; for_each requeueKluster (snd <$> map_to_list (indexer c)).

(** [processNextWorkItem] after the item was taken from the queue. *)
Definition processItem (key : string) : M unit :=
  c ← get;
  r ← attempt (match indexer c !! key with
               | None => fail ErrUnkownKluster
               | Some kluster => lift (reconciler kluster)
               end);
  match r with
  | Ok false => with_queue (Forget key)
  | Ok true => with_queue (AddAfter key BASE_DELAY)
  | Bad _ =>
      c' ← get;
      if decide (NumRequeues key (cqueue c') < 5)%nat
      then with_queue (AddRateLimited BASE_DELAY MAX_DELAY key)
      else with_queue (Forget key)
  end.

Inductive worker_result := Quit | Continue | Waiting.

(** [processNextWorkItem], src/pkg/controller/base/controller.go:148-196 *)
Definition processNextWorkItem : M worker_result :=
  c ← get;
  match Get (cqueue c) with
  | Blocked => mret Waiting
  | Shutdown => mret Quit
  | Item key q =>
      _ ← with_queue (fun _ => q);
      _ ← defer (fun _ => with_queue (Done key)) (processItem key);
      mret Continue
  end.

(** [runWorker], for at most [fuel] items: it stops when the queue shuts down
    or runs empty.
    [runWorker], src/pkg/controller/base/controller.go:143-146 *)
Fixpoint runWorker (fuel : nat) : M worker_result :=
  match fuel with
  | O => mret Continue
  | S fuel' =>
      r ← processNextWorkItem;
      match r with Continue => runWorker fuel' | _ => mret r end
  end.
End Controller.

(** * The queue a reconciliation leaves *)

Section Outcome.
Context {St : Type} (reconciler : Reconciler St).
Implicit Types c : controller St.

(** What becomes of a key: the queue operation chosen for the outcome. *)
Definition next_queue (key : string) (r : reply bool) (q : queue) : queue :=
  match r with
  | Ok false => Forget key q
  | Ok true => AddAfter key BASE_DELAY q
  | Bad _ => if decide (NumRequeues key q < 5)%nat then AddRateLimited BASE_DELAY MAX_DELAY key q else Forget key q
  end.

Arguments next_queue : simpl never.

(** The outcome of the reconciler, or the error for an unknown kluster. *)
Definition reconciled (key : string) c : St * outcome bool :=
  match indexer c !! key with
  | None => (cstate c, Fail ErrUnkownKluster)
  | Some k => reconciler k (cstate c)
  end.

Lemma processItem_run key c :
  processItem reconciler key c =
  match reconciled key c with
  | (s', Ret b) => (Controller (next_queue key (Ok b) (cqueue c)) (indexer c) s', Ret tt)
  | (s', Fail e) => (Controller (next_queue key (Bad e) (cqueue c)) (indexer c) s', Ret tt)
  | (s', Panic w) => (Controller (cqueue c) (indexer c) s', Panic w)
  end.
Proof.
  destruct c as [q ix s]. unfold processItem, reconciled, mbind, go_bind, get, attempt.
  cbn [cqueue indexer cstate]. destruct (ix !! key) as [k|].
  - unfold lift. cbn [cqueue indexer cstate]. destruct (reconciler k s) as [s' [[]|e|w]]; try done.
    unfold with_queue, modify, next_queue. cbn [cqueue indexer cstate]. by case_decide.
  - unfold fail, with_queue, modify, next_queue. cbn [cqueue indexer cstate]. by case_decide.
Qed.

Lemma processNext_run c key q : Get (cqueue c) = Item key q →
  processNextWorkItem reconciler c =
  match reconciled key c with
  | (s', Ret b) => (Controller (Done key (next_queue key (Ok b) q)) (indexer c) s', Ret Continue)
  | (s', Fail e) => (Controller (Done key (next_queue key (Bad e) q)) (indexer c) s', Ret Continue)
  | (s', Panic w) => (Controller (Done key q) (indexer c) s', Panic w)
  end.
Proof.
  intros Hg. unfold processNextWorkItem, defer, mbind, go_bind, get. rewrite Hg.
  unfold with_queue at 1, modify. rewrite processItem_run.
  assert (reconciled key (Controller q (indexer c) (cstate c)) = reconciled key c) as -> by done.
  by destruct (reconciled key c) as [s' [b|e|w]].
Qed.
End Outcome.

(** ** The failure count *)

Lemma NumRequeues_Add x y q : NumRequeues x (Add y q) = NumRequeues x q.
Proof. unfold Add, NumRequeues. repeat case_match; done. Qed.
Lemma NumRequeues_AddAfter x y d q : NumRequeues x (AddAfter y d q) = NumRequeues x q.
Proof. unfold AddAfter. repeat case_match; try done. apply NumRequeues_Add. Qed.
Lemma NumRequeues_Done x y q : NumRequeues x (Done y q) = NumRequeues x q.
Proof. unfold Done, NumRequeues. by case_decide. Qed.
Lemma NumRequeues_Forget x y q : NumRequeues x (Forget y q) = if decide (x = y) then 0%nat else NumRequeues x q.
Proof.
  unfold Forget, NumRequeues. simpl. case_decide as Hxy; [subst|].
  - by rewrite lookup_delete_eq.
  - by rewrite lookup_delete_ne.
Qed.
Lemma NumRequeues_AddRateLimited x y q :
  NumRequeues x (AddRateLimited BASE_DELAY MAX_DELAY y q) =
  if decide (x = y) then S (NumRequeues x q) else NumRequeues x q.
Proof.
  unfold AddRateLimited. rewrite NumRequeues_AddAfter. unfold NumRequeues. simpl.
  case_decide as Hxy; [subst|]; [by rewrite lookup_insert_eq | by rewrite lookup_insert_ne].
Qed.

Lemma NumRequeues_next x key r q : NumRequeues x (next_queue key r q) =
  if decide (x = key) then
    match r with
    | Ok true => NumRequeues x q
    | Ok false => 0%nat
    | Bad _ => if decide (NumRequeues key q < 5)%nat then S (NumRequeues x q) else 0%nat
    end
  else NumRequeues x q.
Proof.
  unfold next_queue. destruct r as [[]|e]; [| |destruct (decide (NumRequeues key q < 5)%nat)];
    rewrite ?NumRequeues_AddAfter, ?NumRequeues_Forget, ?NumRequeues_AddRateLimited;
    by destruct (decide (x = key)).
Qed.

(** * Executions of a controller

    Other clients of the queue are the informer's event handlers, the recheck
    timer and the passing of time. *)
Section Executions.
Context {St : Type} (reconciler : Reconciler St).

Inductive cstep : controller St → controller St → Prop :=
| cstep_process c : cstep c (fst (processNextWorkItem reconciler c))
| cstep_event key obj c : cstep c (fst (on_event key obj c))
| cstep_recheck c : cstep c (fst (requeueAllKlusters c))
| cstep_fire x q' c : Fire x (cqueue c) = Some q' → cstep c (Controller q' (indexer c) (cstate c))
| cstep_time t q' c : qstep BASE_DELAY MAX_DELAY (cqueue c) (LTime t) q' →
    cstep c (Controller q' (indexer c) (cstate c))
| cstep_shutdown c : cstep c (Controller (ShutDown (cqueue c)) (indexer c) (cstate c)).

Inductive creach : controller St → Prop :=
| creach_init ix s : creach (Controller new_queue ix s)
| creach_step c c' : creach c → cstep c c' → creach c'.

Lemma with_queue_loop l c :
  fst (for_each (requeueKluster (St:=St)) l c) =
  Controller (fold_left (fun q k => Add (key_of k) q) l (cqueue c)) (indexer c) (cstate c).
Proof.
  revert c. induction l as [|k l IH]; intros c; simpl; [by destruct c|].
  unfold mbind, go_bind, requeueKluster, with_queue, modify. simpl. by rewrite IH.
Qed.

(** A property of the queue that the single operations keep holds in every
    reachable state. *)
Lemma creach_queue (P : queue → Prop) :
  P new_queue →
  (∀ q x, P q → P (Add x q)) →
  (∀ q x q' r, P q → Get q = Item x q' → P (Done x (next_queue x r q'))) →
  (∀ q x q', P q → Get q = Item x q' → P (Done x q')) →
  (∀ q x q', P q → Fire x q = Some q' → P q') →
  (∀ q t q', P q → qstep BASE_DELAY MAX_DELAY q (LTime t) q' → P q') →
  (∀ q, P q → P (ShutDown q)) →
  ∀ c, creach c → P (cqueue c).
Proof.
  intros H0 HAdd Hproc Hpan Hfire Htime Hsd c. induction 1 as [|c c' _ IH Hs]; [done|].
  destruct Hs as [c|key obj c|c|x q' c HF|t q' c HT|c]; simpl; eauto.
  - destruct (Get (cqueue c)) as [| |key q] eqn:Hg.
    + unfold processNextWorkItem, mbind, go_bind, get. by rewrite Hg.
    + unfold processNextWorkItem, mbind, go_bind, get. by rewrite Hg.
    + rewrite (processNext_run _ _ _ _ Hg).
      destruct (reconciled reconciler key c) as [s' [b|e|w]]; cbn [fst cqueue]; eauto.
  - unfold requeueAllKlusters, mbind, go_bind, get. rewrite with_queue_loop. simpl.
    generalize (snd <$> map_to_list (indexer c)). intros l. revert IH. generalize (cqueue c).
    induction l as [|k l IHl]; intros q Hq; simpl; eauto.
Qed.
End Executions.

(** * Properties *)

(** C20: what one turn of the worker does with the key it takes, for every
    reconciler that does not panic.  Afterwards nobody processes the key.
    Without an error its failures are forgotten if no requeue was asked for,
    and otherwise it is added again after five seconds with its failures kept.
    After an error it is added again with the delay of its failure count, which
    grows by one, unless it failed five times already: then it is dropped and
    its failures are forgotten. *)
Theorem processNextWorkItem_outcome {St} (reconciler : Reconciler St) c key q :
  Get (cqueue c) = Item key q → shuttingDown q = false →
  (∀ w, snd (reconciled reconciler key c) ≠ Panic w) →
  let c' := fst (processNextWorkItem reconciler c) in
  let o := snd (reconciled reconciler key c) in
  let n := NumRequeues key q in
  key ∉ processing (cqueue c') ∧
  NumRequeues key (cqueue c') =
    match o with Ret true => n | Ret false => 0%nat | _ => if decide (n < 5)%nat then S n else 0%nat end ∧
  waiting (cqueue c') =
    match o with
    | Ret true => insert_waiting key (now q + 5 * second) (waiting q)
    | Ret false => waiting q
    | _ => if decide (n < 5)%nat
           then insert_waiting key (now q + backoff BASE_DELAY MAX_DELAY n) (waiting q)
           else waiting q
    end.
Proof.
  intros Hg Hsd Hnp. cbv zeta. rewrite (processNext_run _ _ _ _ Hg).
  assert (∀ r, key ∉ processing (Done key r)) as HD
    by (intros r; unfold Done; case_decide; simpl; set_solver).
  assert (∀ r, waiting (Done key r) = waiting r) as HW by (intros r; unfold Done; by case_decide).
  assert (0 < backoff BASE_DELAY MAX_DELAY (NumRequeues key q)) as Hb.
  { destruct (backoff_step BASE_DELAY MAX_DELAY) with (n := NumRequeues key q) as (_ & [? _] & _);
      unfold BASE_DELAY, MAX_DELAY, maxInt64, second in *; lia. }
  destruct (reconciled reconciler key c) as [s' [b|e|w]] eqn:Hr; cbn [fst snd cqueue] in *; [| |naive_solver].
  - rewrite HW, NumRequeues_Done, NumRequeues_next, decide_True by done.
    split; [done|]. split; [by destruct b|]. destruct b; unfold next_queue; [|done].
    unfold AddAfter. rewrite Hsd. by vm_compute (BASE_DELAY <=? 0).
  - rewrite HW, NumRequeues_Done, NumRequeues_next, decide_True by done.
    split; [done|]. split; [done|]. unfold next_queue. case_decide; [|done].
    unfold AddRateLimited, AddAfter. cbn [shuttingDown set_failures]. rewrite Hsd.
    rewrite (proj2 (Z.leb_gt _ _) Hb). done.
Qed.

(** Every pending delay ends within [MAX_DELAY]. *)
Definition waiting_bounded (q : queue) : Prop :=
  ∀ key t, waiting q !! key = Some t → t <= now q + MAX_DELAY.

Lemma waiting_bounded_core q q' :
  waiting q' = waiting q → now q' = now q → waiting_bounded q → waiting_bounded q'.
Proof. unfold waiting_bounded. by intros -> ->. Qed.

Lemma Add_core x q : waiting (Add x q) = waiting q ∧ now (Add x q) = now q.
Proof. unfold Add. repeat case_match; done. Qed.
Lemma Done_core x q : waiting (Done x q) = waiting q ∧ now (Done x q) = now q.
Proof. unfold Done. case_decide; done. Qed.
Lemma Get_core q x q' : Get q = Item x q' →
  waiting q' = waiting q ∧ now q' = now q ∧ failures q' = failures q.
Proof. unfold Get. destruct (items q); [by destruct (shuttingDown q)|]. by intros [= <- <-]. Qed.

Lemma waiting_bounded_AddAfter x d q :
  d <= MAX_DELAY → waiting_bounded q → waiting_bounded (AddAfter x d q).
Proof.
  intros Hd Hw. unfold AddAfter. destruct (shuttingDown q); [done|].
  destruct (d <=? 0); [by apply (waiting_bounded_core q); [apply Add_core..|]|].
  intros key t. unfold insert_waiting. simpl. repeat case_match; try apply Hw.
  all: rewrite lookup_insert_Some; intros [[_ <-]|[_ Hk]]; [lia | by eapply Hw].
Qed.

Lemma backoff_range n : 0 < backoff BASE_DELAY MAX_DELAY n <= MAX_DELAY.
Proof.
  destruct (backoff_step BASE_DELAY MAX_DELAY) with (n := n) as (_ & [? ?] & _);
    unfold BASE_DELAY, MAX_DELAY, maxInt64, second in *; lia.
Qed.

Lemma next_queue_inv key r q : queue_inv q → queue_inv (next_queue key r q).
Proof.
  intros Hq. unfold next_queue. destruct r as [[]|e]; [by apply AddAfter_inv|done|].
  case_decide; [|done]. by apply AddAfter_inv.
Qed.
Lemma next_queue_processing key r q : processing (next_queue key r q) = processing q.
Proof. unfold next_queue, AddRateLimited, AddAfter, Add, Forget. repeat (case_match; simpl; try done). Qed.
Lemma waiting_bounded_next key r q : waiting_bounded q → waiting_bounded (next_queue key r q).
Proof.
  intros Hq. unfold next_queue. destruct r as [[]|e]; [|done|].
  - apply waiting_bounded_AddAfter; [by unfold BASE_DELAY, MAX_DELAY, second|done].
  - case_decide; [|done]. apply waiting_bounded_AddAfter; [apply backoff_range | done].
Qed.

Definition bounded (q : queue) : Prop :=
  queue_inv q ∧ (∀ key, NumRequeues key q <= 5)%nat ∧ waiting_bounded q.

Lemma bounded_Add q x : bounded q → bounded (Add x q).
Proof.
  intros (H1 & H2 & H3). split_and!; [by apply Add_inv | |].
  - intros key. by rewrite NumRequeues_Add.
  - by apply (waiting_bounded_core q); [apply Add_core..|].
Qed.

Lemma bounded_Get q x q' : bounded q → Get q = Item x q' → bounded q' ∧ x ∈ processing q'.
Proof.
  intros (H1 & H2 & H3) Hg. destruct (Get_core _ _ _ Hg) as (E1 & E2 & E3). split.
  - split_and!; [by eapply Get_inv | | by apply (waiting_bounded_core q)].
    intros key. unfold NumRequeues. rewrite E3. apply H2.
  - unfold Get in Hg. destruct (items q); [by destruct (shuttingDown q)|]. injection Hg as <- <-. simpl. set_solver.
Qed.

Lemma bounded_Done x q : x ∈ processing q → bounded q → bounded (Done x q).
Proof.
  intros Hx (H1 & H2 & H3). split_and!; [by apply Done_inv | |].
  - intros key. by rewrite NumRequeues_Done.
  - by apply (waiting_bounded_core q); [apply Done_core..|].
Qed.

Lemma bounded_next key r q : bounded q → bounded (next_queue key r q).
Proof.
  intros (H1 & H2 & H3). split_and!; [by apply next_queue_inv | | by apply waiting_bounded_next].
  intros x. rewrite NumRequeues_next. pose proof (H2 x). pose proof (H2 key).
  destruct (decide (x = key)) as [->|]; [|done].
  destruct r as [[]|e]; [done|lia|]. case_decide; lia.
Qed.

(** The retries of every key are bounded.  In every reachable state of a
    controller the queue is consistent, each key has failed at most five times
    since it was last forgotten, and every delay that is pending ends within
    five minutes. *)
Theorem controller_bounded {St} (reconciler : Reconciler St) c : creach reconciler c →
  queue_inv (cqueue c) ∧
  (∀ key, NumRequeues key (cqueue c) <= 5)%nat ∧
  (∀ key t, waiting (cqueue c) !! key = Some t → t <= now (cqueue c) + 300 * second).
Proof.
  apply (creach_queue _ bounded); fold bounded.
  - split_and!; [apply new_queue_inv | | done]. intros key. unfold NumRequeues. cbn [failures new_queue].
    rewrite lookup_empty. simpl. lia.
  - intros; by apply bounded_Add.
  - intros q x q' r Hq Hg. destruct (bounded_Get _ _ _ Hq Hg). apply bounded_Done; [|by apply bounded_next].
    by rewrite next_queue_processing.
  - intros q x q' Hq Hg. destruct (bounded_Get _ _ _ Hq Hg). by apply bounded_Done.
  - intros q x q' Hq ->%Fire_Some. apply (bounded_Add _ x) in Hq as (H1 & H2 & H3).
    split_and!; [done..|]. intros key t. simpl. rewrite lookup_delete_Some. intros [_ Hk].
    rewrite <- (proj1 (Add_core x q)) in Hk. by apply (H3 key).
  - intros q t q' (H1 & H2 & H3) Ht. inversion Ht; subst. split_and!; [done..|].
    intros key t'. cbn [waiting now]. intros Hk. specialize (H3 key t' Hk). lia.
  - done.
Qed.

(** ** Witnesses *)
Definition demo_kl : Kluster := {| Meta := {| Name := "k"; Namespace := "n"; UID := ""; Labels := ∅; Annotations := ∅ |};
  Spec := zero_KlusterSpec; Status := zero_KlusterStatus |}.
Definition failing : Reconciler nat := fun _ n => (S n, Fail (ErrNew "no")).
Definition demo_controller : controller nat :=
  Controller (Add "n/k" new_queue) {["n/k" := demo_kl]} 0%nat.

Lemma processNextWorkItem_outcome_witness :
  NumRequeues "n/k" (cqueue (fst (processNextWorkItem failing demo_controller))) = 1%nat ∧
  waiting (cqueue (fst (processNextWorkItem failing demo_controller))) = {["n/k" := 5 * second]}.
Proof.
  refine (match processNextWorkItem_outcome failing demo_controller "n/k"
    (set_core [] ∅ {["n/k"]} new_queue) _ _ _ with conj _ (conj H1 H2) => conj H1 H2 end).
  - vm_compute. reflexivity.
  - reflexivity.
  - intros w. vm_compute. discriminate.
Defined.

Lemma controller_bounded_witness :
  (NumRequeues "n/k" (cqueue (fst (processNextWorkItem failing demo_controller))) <= 5)%nat.
Proof.
  refine (proj1 (proj2 (controller_bounded failing _ _)) "n/k").
  refine (creach_step _ demo_controller _ _ (cstep_process _ _)).
  exact (creach_step _ _ _ (creach_init _ ∅ 0%nat) (cstep_event _ "n/k" (Some demo_kl) _)).
Defined.
