(* ===== verification/Templates.v ===== *)
(** The template engines of the Go library, [text/template] and
    [html/template], and the function [indent] of sprig under [vendor], as far
    as the templates of the program use them: text, and actions that print a
    field of a struct of strings, possibly piped through functions.

    A template outside of this fragment is refused; the theorems about the
    templates show that theirs are not.  The texts of the engines' errors are
    left out.  The second half of the file reads a rendered document line by
    line, by a check on the lines of its template. *)
From S2P Require Import Prelude GoStrings NetIP.

(** A raw string literal of Go holds no back quote; here one stands for the
    double quote. *)
Definition back_quote : ascii := ascii_of_N 96.
Fixpoint raw (s : string) : string :=
  match s with
  | EmptyString => ""
  | String c s' => String (if decide (c = back_quote) then dquote else c) (raw s')
  end.

(** * Parsing *)

(** [.Field | function 1 2 | ...] *)
Record pipeline := { pl_field : string; pl_calls : list (string * list Z) }.
Inductive node :=
| NText (s : string)
| NAction (p : pipeline).

#[export] Instance pipeline_eq_dec : EqDecision pipeline.
Proof. solve_decision. Defined.
#[export] Instance node_eq_dec : EqDecision node.
Proof. solve_decision. Defined.

Inductive token := TText (s : string) | TAction (s : string).

Definition text_token (t : string) (l : list token) : list token :=
  if decide (t = "") then l else TText t :: l.

(** What comes before the next delimiter, and the tokens after it.  An action
    ends on its line. *)
Fixpoint lex (inside : bool) (s : string) : option (string * list token) :=
  match s with
  | EmptyString => if inside then None else Some ("", [])
  | String c s' =>
      match c, s' with
      | "{"%char, String "{"%char r =>
          if inside then None else
          match lex true r with Some (a, l) => Some ("", TAction a :: l) | None => None end
      | "}"%char, String "}"%char r =>
          if inside then match lex false r with Some (t, l) => Some ("", text_token t l) | None => None end
          else match lex false s' with Some (t, l) => Some (String c t, l) | None => None end
      | _, _ =>
          if inside && bool_decide (c = newline) then None else
          match lex inside s' with Some (t, l) => Some (String c t, l) | None => None end
      end
  end.

Definition is_alnum (c : ascii) : bool := is_lower c || is_upper c || is_digit c || bool_decide (c = "_"%char).
Definition is_identifier (s : string) : bool :=
  match s with
  | EmptyString => false
  | String c _ => negb (is_digit c) && str_all is_alnum s
  end.

Definition FuncMap := list (string * (list Z -> string -> option string)).
Definition find_func (funcs : FuncMap) (name : string) : option (list Z -> string -> option string) :=
  snd <$> List.find (fun f => bool_decide (fst f = name)) funcs.

(** The parser knows the names of the functions. *)
Definition parse_call (funcs : FuncMap) (s : string) : option (string * list Z) :=
  match Fields s with
  | name :: args =>
      match find_func funcs name with
      | Some _ => args ← mapM Atoi args; Some (name, args)
      | None => None
      end
  | [] => None
  end.
Definition parse_action (funcs : FuncMap) (s : string) : option node :=
  match Split "|" s with
  | first :: calls =>
      match Fields first with
      | [String "."%char f] =>
          if is_identifier f then calls ← mapM (parse_call funcs) calls; Some (NAction {| pl_field := f; pl_calls := calls |})
          else None
      | _ => None
      end
  | [] => None
  end.
Definition parse_token (funcs : FuncMap) (t : token) : option node :=
  match t with TText s => Some (NText s) | TAction s => parse_action funcs s end.
(** [template.New(name).Funcs(funcs).Parse(text)] *)
Definition Parse (funcs : FuncMap) (text : string) : option (list node) :=
  '(t, l) ← lex false text; mapM (parse_token funcs) (text_token t l).

(** * Execution *)

(** A struct whose fields are strings *)
Abbreviation fields := (list (string * string)).
Definition field (data : fields) (name : string) : option string :=
  snd <$> List.find (fun f => bool_decide (fst f = name)) data.

Fixpoint eval_calls (funcs : FuncMap) (calls : list (string * list Z)) (v : string) : option string :=
  match calls with
  | [] => Some v
  | (name, args) :: calls =>
      match find_func funcs name with
      | Some f => v ← f args v; eval_calls funcs calls v
      | None => None
      end
  end.
(** A missing field ends the execution with an error. *)
Definition eval (funcs : FuncMap) (data : fields) (p : pipeline) : option string :=
  v ← field data (pl_field p); eval_calls funcs (pl_calls p) v.

(** The engine, with the escaper of the values *)
Fixpoint Execute_with (escape : string -> string) (funcs : FuncMap) (t : list node) (data : fields) : option string :=
  match t with
  | [] => Some ""
  | NText s :: t => (String.append s) <$> Execute_with escape funcs t data
  | NAction p :: t => v ← eval funcs data p; (String.append (escape v)) <$> Execute_with escape funcs t data
  end.
(** [text/template] *)
Definition Execute : FuncMap -> list node -> fields -> option string := Execute_with id.

(** [html/template] escapes every value for its context.  A text without an
    opening angle bracket never leaves the context of text. *)
Definition html_char (c : ascii) : string :=
  match N_of_ascii c with
  | 0 => String (ascii_of_N 239) (String (ascii_of_N 191) (String (ascii_of_N 189) ""))
  | 34 => "&#34;"
  | 38 => "&amp;"
  | 39 => "&#39;"
  | 43 => "&#43;"
  | 60 => "&lt;"
  | 62 => "&gt;"
  | _ => String c ""
  end%N.
Fixpoint htmlescaper (s : string) : string :=
  match s with
  | EmptyString => ""
  | String c s' => html_char c +:+ htmlescaper s'
  end.
Definition in_text_context (n : node) : bool :=
  match n with NText s => negb (str_has "<" s) | NAction _ => true end.
Definition html_Execute (t : list node) (data : fields) : option string :=
  if forallb in_text_context t then Execute_with htmlescaper [] t data else None.

(** * The functions of sprig *)
Fixpoint Repeat (s : string) (n : nat) : string :=
  match n with O => "" | S n => s +:+ Repeat s n end.
(** [indent], src/vendor/github.com/Masterminds/sprig/strings.go:104-107 *)
Definition indent (spaces : Z) (v : string) : string :=
  let pad := Repeat " " (Z.to_nat spaces) in
  pad +:+ Replace v (String newline "") (String newline pad).
(** Of the functions the template uses one.  A wrong number of arguments is
    an error; a negative count makes [strings.Repeat] panic. *)
Definition TxtFuncMap : FuncMap :=
  [("indent", fun args v => match args with [n] => if (0 <=? n)%Z then Some (indent n v) else None | _ => None end)].

(** * Execution succeeds *)

(** The calls the node template makes *)
Definition indent_of (p : pipeline) : option Z :=
  match pl_calls p with [(f, [n])] => if decide (f = "indent") then Some n else None | _ => None end.
Definition well_called (p : pipeline) : bool :=
  match pl_calls p with
  | [] => true
  | _ => match indent_of p with Some n => (0 <=? n)%Z | None => false end
  end.
Definition action_ok (names : list string) (n : node) : bool :=
  match n with
  | NText _ => true
  | NAction p => existsb (String.eqb (pl_field p)) names && well_called p
  end.

(** The text of a template whose pipelines have the values [ev] *)
Fixpoint render (ev : pipeline -> string) (t : list node) : string :=
  match t with
  | [] => ""
  | NText s :: t => s +:+ render ev t
  | NAction p :: t => ev p +:+ render ev t
  end.
(** The value of a well called pipeline *)
Definition value (data : fields) (p : pipeline) : string :=
  let v := default "" (field data (pl_field p)) in
  match indent_of p with Some n => indent n v | None => v end.

Lemma field_some data name : existsb (String.eqb name) (fst <$> data) = true → is_Some (field data name).
Proof.
  unfold field. induction data as [|[a v] data IH]; simpl; [done|]. case_bool_decide as E; [by eexists|].
  intros [H%String.eqb_eq|H]%orb_true_iff; [by subst|auto].
Qed.
Lemma eval_value data p :
  action_ok (fst <$> data) (NAction p) = true → eval TxtFuncMap data p = Some (value data p).
Proof.
  intros [[v Hv]%field_some Hw]%andb_true_iff. unfold eval, value. rewrite Hv. simpl.
  unfold well_called in Hw. destruct p as [f [|c l]]; cbn [pl_calls pl_field] in *; [done|].
  destruct (indent_of _) as [n|] eqn:Hi; [|done].
  unfold indent_of in Hi. cbn [pl_calls] in Hi.
  destruct c as [g [|m [|]]], l; try done. case_decide; [|done]. subst. injection Hi as ->. simpl. by rewrite Hw.
Qed.
Lemma Execute_render esc t data :
  forallb (action_ok (fst <$> data)) t = true →
  Execute_with esc TxtFuncMap t data = Some (render (λ p, esc (value data p)) t).
Proof.
  induction t as [|[s|p] t IH]; [done|..]; cbn [forallb]; intros [Hn Ht]%andb_true_iff; cbn [Execute_with render].
  - by rewrite IH.
  - rewrite (eval_value data p Hn). simpl. by rewrite IH.
Qed.
Lemma render_app ev a b : render ev (a ++ b) = render ev a +:+ render ev b.
Proof. induction a as [|[s|p] a IH]; cbn; [done|..]; by rewrite IH, str_app_assoc. Qed.

(** * Documents as lines *)
#[local] Arguments newline : simpl never.
Definition lines (s : string) : list string := Split newline s.

(** Joins two texts given as lines: the last line of the first goes on. *)
Fixpoint glue {A} (op : A -> A -> A) (a b : list A) : list A :=
  match a with
  | [] => b
  | [x] => match b with [] => [x] | y :: b => op x y :: b end
  | x :: a => x :: glue op a b
  end.

Lemma glue_cons {A} op (x : A) a b : a ≠ [] → glue op (x :: a) b = x :: glue op a b.
Proof. by destruct a. Qed.
Lemma glue_nonempty {A} op (a b : list A) : a ≠ [] → glue op a b ≠ [].
Proof. destruct a as [|x [|y a]], b; done. Qed.
Lemma glue_app {A} op (a b c : list A) : b ≠ [] → glue op (a ++ b) c = a ++ glue op b c.
Proof.
  intros Hb. induction a as [|x a IH]; [done|]. rewrite <- app_comm_cons, glue_cons, IH; [done|]. by destruct a.
Qed.
Lemma glue_app_r {A} op (a b c : list A) : a ≠ [] → b ≠ [] → glue op a (b ++ c) = glue op a b ++ c.
Proof.
  intros Ha Hb. induction a as [|x [|y a] IH]; [done|by destruct b|].
  rewrite !glue_cons by done. by rewrite IH.
Qed.

Lemma lines_nonempty s : lines s ≠ [].
Proof. apply Split_nonempty. Qed.
Lemma lines_app a b : lines (a +:+ b) = glue String.append (lines a) (lines b).
Proof.
  unfold lines. induction a as [|c a IH]; cbn.
  - pose proof (Split_nonempty newline b). by destruct (Split newline b).
  - pose proof (Split_nonempty newline a) as Ha. case_decide.
    + rewrite glue_cons by done. by rewrite IH.
    + rewrite IH. destruct (Split newline a) as [|w [|u ws]]; [done| |done].
      simpl. by destruct (Split newline b).
Qed.
Lemma lines_single s : str_has newline s = false → lines s = [s].
Proof. apply Split_no_sep. Qed.

Lemma lines_all_single s : Forall (λ w, str_has newline w = false) (lines s).
Proof.
  unfold lines. induction s as [|c s IH]; cbn; [by repeat constructor|].
  case_decide as Hc; [by constructor|]. destruct (Split newline s) as [|w ws] eqn:E; [by apply Split_nonempty in E|].
  inversion IH as [|? ? Hw Hws]; subst. constructor; [|done]. unfold str_has in *. cbn. by rewrite bool_decide_false.
Qed.

(** The lines of a template *)
Fixpoint template_lines (t : list node) : list (list node) :=
  match t with
  | [] => [[]]
  | NText s :: t => glue app ((fun w => [NText w]) <$> lines s) (template_lines t)
  | n :: t => glue app [[n]] (template_lines t)
  end.
Definition rendered (ev : pipeline -> string) (l : list (list node)) : list string :=
  concat ((fun x => lines (render ev x)) <$> l).

Lemma rendered_cons ev x l : rendered ev (x :: l) = lines (render ev x) ++ rendered ev l.
Proof. done. Qed.
Lemma rendered_nonempty ev l : l ≠ [] → rendered ev l ≠ [].
Proof.
  destruct l as [|x l]; [done|]. intros _ H. unfold rendered in H. cbn in H.
  by apply app_nil in H as [H%lines_nonempty _].
Qed.
Lemma rendered_glue ev a b : a ≠ [] → b ≠ [] → rendered ev (glue app a b) = glue String.append (rendered ev a) (rendered ev b).
Proof.
  intros Ha Hb. induction a as [|x [|y a] IH]; [done| |].
  - destruct b as [|z b]; [done|]. unfold rendered. cbn [glue fmap list_fmap concat]. rewrite app_nil_r, render_app, lines_app.
    rewrite glue_app_r; [done|apply lines_nonempty|apply lines_nonempty].
  - rewrite glue_cons, (rendered_cons ev x), IH, (rendered_cons ev x) by done.
    rewrite glue_app; [done|by apply rendered_nonempty].
Qed.
Lemma template_lines_nonempty t : template_lines t ≠ [].
Proof.
  destruct t as [|[s|p] t]; [done|..]; apply glue_nonempty; [|done].
  intros H%fmap_nil_inv. by apply lines_nonempty in H.
Qed.
Lemma lines_render ev t : lines (render ev t) = rendered ev (template_lines t).
Proof.
  induction t as [|[s|p] t IH]; [done|..]; cbn [render template_lines].
  - rewrite lines_app, IH, rendered_glue; [|intros H%fmap_nil_inv; by apply lines_nonempty in H|apply template_lines_nonempty].
    f_equal. pose proof (lines_all_single s) as Hs.
    induction Hs as [|w ws Hw Hws IHw]; [done|]. rewrite fmap_cons, rendered_cons, <- IHw. cbn [render].
    by rewrite str_app_nil_r, (lines_single w Hw).
  - rewrite lines_app, IH, rendered_glue; [|done|apply template_lines_nonempty].
    f_equal. unfold rendered. cbn. by rewrite app_nil_r, str_app_nil_r.
Qed.

(** * Finding a line *)

(** What follows the first line that is [target] *)
Fixpoint after (target : string) (l : list string) : option (list string) :=
  match l with
  | [] => None
  | s :: l => if decide (s = target) then Some l else after target l
  end.

Definition padding (n : Z) : string := Repeat " " (Z.to_nat n).
(** The text a line starts with whatever the values, and whether it is all *)
Fixpoint start (x : list node) : string * bool :=
  match x with
  | [] => ("", true)
  | NText s :: x => let '(a, b) := start x in (s +:+ a, b)
  | NAction p :: _ => (match indent_of p with Some n => padding n | None => "" end, false)
  end.
(** No line this line of a template is rendered to is [target]. *)
Definition differs (target : string) (x : list node) : bool :=
  (if snd (start x) then bool_decide (fst (start x) ≠ target) else negb (String.prefix (fst (start x)) target)) &&
  forallb (fun n => match n with
                    | NAction p => match indent_of p with Some n => negb (String.prefix (padding n) target) | None => true end
                    | NText _ => true
                    end) x.
Definition is_literal (target : string) (x : list node) : bool := snd (start x) && bool_decide (fst (start x) = target).
(** The same search on the lines of a template *)
Fixpoint template_after (target : string) (l : list (list node)) : option (list (list node)) :=
  match l with
  | [] => None
  | x :: l => if is_literal target x then Some l else if differs target x then template_after target l else None
  end.

(** The values that are not indented are single lines. *)
Definition on_lines (ev : pipeline -> string) (n : node) : Prop :=
  match n with
  | NText s => str_has newline s = false
  | NAction p => match indent_of p with
                 | Some n => ∃ v, ev p = indent n v
                 | None => str_has newline (ev p) = false
                 end
  end.

Lemma str_has_Repeat c n : c ≠ " "%char → str_has c (Repeat " " n) = false.
Proof. intros Hc. induction n as [|n IH]; [done|]. cbn [Repeat]. rewrite str_has_app, IH. unfold str_has. cbn. by rewrite bool_decide_false. Qed.

Lemma Replace_newline pad v : Replace v (String newline "") (String newline pad) = match lines v with
  | w :: ws => w +:+ fold_right (fun x acc => String newline (pad +:+ x) +:+ acc) "" ws | [] => "" end.
Proof.
  unfold Replace, lines. induction v as [|c v IH]; [done|]. cbn.
  destruct (decide (c = newline)) as [->|Hc].
  - assert (String.prefix "" v = true) as Hp by (by destruct v).
    destruct (ascii_dec newline newline); [|done]. rewrite Hp. cbn. rewrite IH.
    destruct (Split newline v) as [|w ws] eqn:E; [by apply Split_nonempty in E|]. cbn.
    by rewrite str_app_assoc.
  - destruct (ascii_dec newline c); [by subst|]. rewrite IH.
    destruct (Split newline v) as [|w ws] eqn:E; [by apply Split_nonempty in E|]. done.
Qed.

(** Indenting a text indents its lines. *)
Lemma lines_indent n v : lines (indent n v) = String.append (padding n) <$> lines v.
Proof.
  unfold indent. change (Repeat " " (Z.to_nat n)) with (padding n).
  assert (Hp : str_has newline (padding n) = false) by (by apply str_has_Repeat).
  rewrite Replace_newline, lines_app, (lines_single _ Hp).
  pose proof (lines_all_single v) as Hs.
  destruct (lines v) as [|w ws] eqn:Hl; [by apply lines_nonempty in Hl|]. clear Hl.
  inversion Hs as [|? ? Hw Hws]; subst. clear Hs. rewrite lines_app, (lines_single _ Hw). cbn [fmap list_fmap].
  revert w Hw. induction Hws as [|u us Hu Hus IH]; intros w Hw; [cbn; by rewrite str_app_nil_r|].
  cbn [fold_right fmap list_fmap].
  assert (∀ b, lines (String newline b) = "" :: lines b) as Hn by (intros; unfold lines; cbn; by rewrite decide_True).
  change (String newline (padding n +:+ u) +:+ ?r) with (String newline ((padding n +:+ u) +:+ r)).
  rewrite Hn. cbn [glue]. rewrite str_app_nil_r. f_equal. rewrite str_app_assoc.
  rewrite lines_app, (lines_single _ Hp), lines_app, (lines_single _ Hu). apply IH. done.
Qed.

Lemma prefix_app_l p a b : String.prefix p a = true → String.prefix p (a +:+ b) = true.
Proof. intros [r ->]%string_prefix_inv. rewrite str_app_assoc. apply string_prefix_app. Qed.
Lemma Forall_glue (P : string → Prop) a h t : a ≠ [] → (∀ x y, P x → P (x +:+ y)) → Forall P a → Forall P t →
  Forall P (glue String.append a (h :: t)).
Proof.
  intros Ha HP H Ht. induction H as [|x [|y a] Hx Hl IH]; [done|constructor; auto|].
  rewrite glue_cons by done. constructor; auto.
Qed.
Lemma glue_single h t x : glue String.append [x] (h :: t) = (x +:+ h) :: t.
Proof. done. Qed.

(** The lines of one line of a template *)
Definition indented_by (x : list node) (l : string) : Prop :=
  ∃ p n, NAction p ∈ x ∧ indent_of p = Some n ∧ String.prefix (padding n) l = true.
Lemma lines_of_line ev x : Forall (on_lines ev) x → ∃ h t, lines (render ev x) = h :: t ∧
  String.prefix (fst (start x)) h = true ∧ (snd (start x) = true → h = fst (start x) ∧ t = []) ∧ Forall (indented_by x) t.
Proof.
  induction 1 as [|n x Hn _ (h & t & Hl & Hp & Hc & Ht)]; [by exists "", []|].
  assert (Forall (indented_by (n :: x)) t) as Ht'.
  { eapply Forall_impl; [exact Ht|]. intros l (p & m & ? & ? & ?). exists p, m. split; [by right|done]. }
  destruct n as [s|p]; cbn [on_lines] in Hn; cbn [render start]; rewrite lines_app, Hl.
  - rewrite (lines_single _ Hn), glue_single. exists (s +:+ h), t. destruct (start x) as [a b]. cbn [fst snd] in *.
    split_and!; [done| |intros Hb; by destruct (Hc Hb) as [-> ->]|done].
    apply string_prefix_inv in Hp as [r ->]. rewrite <- str_app_assoc. apply string_prefix_app.
  - destruct (indent_of p) as [n|] eqn:Hi; cbn [fst snd].
    + destruct Hn as [v ->]. rewrite lines_indent.
      destruct (lines v) as [|w ws] eqn:Hv; [by apply lines_nonempty in Hv|]. clear Hv. rewrite fmap_cons.
      destruct ws as [|u us]; [rewrite fmap_nil, glue_single; eexists _, t; split_and!; [done| |done|done]; rewrite str_app_assoc; apply string_prefix_app|].
      rewrite glue_cons by done. eexists _, _. split_and!; [done|apply string_prefix_app|done|].
      apply Forall_glue; [done| | |done].
      * intros a b (q & m & ? & ? & ?). exists q, m. split_and!; [done..|by apply prefix_app_l].
      * apply Forall_fmap, Forall_true. intros a. exists p, n. split_and!; [left|done|apply string_prefix_app].
    + rewrite (lines_single _ Hn), glue_single. exists (ev p +:+ h), t. split_and!; [done|apply (string_prefix_app ""%string)|done..].
Qed.

Lemma differs_sound ev target x : Forall (on_lines ev) x → differs target x = true → target ∉ lines (render ev x).
Proof.
  intros Hx [H1 H2]%andb_true_iff Hin. destruct (lines_of_line ev x Hx) as (h & t & Hl & Hp & Hc & Ht).
  rewrite Hl in Hin. apply elem_of_cons in Hin as [<-|Hin].
  - destruct (snd (start x)); [destruct (Hc eq_refl) as [E _]; by case_bool_decide|by rewrite Hp in H1].
  - eapply Forall_forall in Ht as (p & n & Hp' & Hi & Hpre); [|exact Hin].
    rewrite forallb_forall in H2. specialize (H2 (NAction p)). cbn in H2. rewrite Hi, Hpre in H2.
    discriminate H2. by apply list_elem_of_In.
Qed.
Lemma after_skip target a b : target ∉ a → after target (a ++ b) = after target b.
Proof. induction a as [|x a IH]; [done|]. intros [Hx Ha]%not_elem_of_cons. cbn. rewrite decide_False by done. by apply IH. Qed.

(** What the search on a template finds, the search on the document does. *)
Lemma template_after_sound ev target l rest : Forall (Forall (on_lines ev)) l →
  template_after target l = Some rest → after target (rendered ev l) = Some (rendered ev rest) ∧ Forall (Forall (on_lines ev)) rest.
Proof.
  induction 1 as [|x l Hx Hl IH]; [done|]. cbn [template_after]. rewrite rendered_cons.
  destruct (is_literal target x) eqn:E.
  - intros [= ->]. split; [|done]. apply andb_true_iff in E as [E1 E2%bool_decide_eq_true].
    destruct (lines_of_line ev x Hx) as (h & t & -> & _ & Hc & _). destruct (Hc E1) as [-> ->].
    cbn. by rewrite decide_True.
  - destruct (differs target x) eqn:D; [|done]. intros H. rewrite after_skip by by apply differs_sound. by apply IH.
Qed.

(** * Block scalars of YAML

    [block_scalar parent l]: the literal scalar with the indicator [|-] whose
    text begins with the lines [l], below a key in column [parent]. *)
Definition is_space_char (c : ascii) : bool := bool_decide (c = " "%char).
Definition is_blank_line : string -> bool := str_all is_space_char.
Fixpoint width (l : string) : nat :=
  match l with String c l => if is_space_char c then S (width l) else 0 | EmptyString => 0 end.
Fixpoint str_drop (n : nat) (s : string) : string :=
  match n, s with S n, String _ s => str_drop n s | _, _ => s end.
(** The first line that is not blank decides about the indentation. *)
Fixpoint block_width (l : list string) : nat :=
  match l with [] => 0 | x :: l => if is_blank_line x then block_width l else width x end.
Fixpoint block_lines (n : nat) (l : list string) : list string :=
  match l with
  | [] => []
  | x :: l => if is_blank_line x || (n <=? width x)%nat then str_drop n x :: block_lines n l else []
  end.
Definition chomp : string -> string := TrimRightFunc (fun c => bool_decide (c = newline)).
Definition block_scalar (parent : nat) (l : list string) : string :=
  let n := block_width l in
  if (n <=? parent)%nat then "" else chomp (Join (block_lines n l) (String newline "")).

Lemma str_rev_involutive s : str_rev (str_rev s) = s.
Proof.
  induction s as [|c s IH]; [done|]. change (String c s) with (String c "" +:+ s) at 1.
  by rewrite !str_rev_app_distr, IH.
Qed.
Lemma chomp_newline s : chomp (s +:+ String newline "") = chomp s.
Proof. unfold chomp, TrimRightFunc. rewrite str_rev_app_distr. unfold drop_while. cbn. by destruct (span _ (str_rev s)). Qed.
Lemma chomp_line a b : b ≠ "" → str_has newline b = false → chomp (a +:+ b) = a +:+ b.
Proof.
  intros Hb Hn. unfold chomp, TrimRightFunc. rewrite <- (str_rev_involutive (a +:+ b)) at 2. f_equal.
  rewrite str_rev_app_distr. unfold str_has in Hn. apply negb_false_iff in Hn. rewrite <- str_all_rev in Hn.
  destruct (str_rev b) as [|c r] eqn:E; [apply (f_equal str_rev) in E; by rewrite str_rev_involutive in E|].
  cbn in Hn. apply andb_true_iff in Hn as [Hc _]. unfold drop_while. cbn. by destruct (bool_decide _).
Qed.

Lemma width_padding n w : width (Repeat " " n +:+ w) = (n + width w)%nat.
Proof. induction n as [|n IH]; [done|]. cbn. by rewrite IH. Qed.
Lemma drop_padding n w : str_drop n (Repeat " " n +:+ w) = w.
Proof. induction n as [|n IH]; [by destruct w|]. exact IH. Qed.
Lemma blank_padding n w : is_blank_line (Repeat " " n +:+ w) = is_blank_line w.
Proof. induction n as [|n IH]; [done|]. exact IH. Qed.
Lemma blank_width w : is_blank_line w = false → width w ≠ 0%nat → ∃ r, w = String " " r.
Proof. destruct w as [|c w]; [done|]. cbn. unfold is_space_char. case_bool_decide; [subst; eauto|done]. Qed.
Lemma block_lines_padding n l rest :
  block_lines n ((String.append (Repeat " " n) <$> l) ++ rest) = l ++ block_lines n rest.
Proof.
  induction l as [|w l IH]; [done|]. cbn [fmap list_fmap app block_lines].
  rewrite blank_padding, width_padding, drop_padding, IH. by rewrite (proj2 (Nat.leb_le n (n + width w))), orb_true_r by lia.
Qed.

(** An indented text that does not begin with a blank is read back. *)
Lemma block_scalar_indent (n : nat) parent c v next rest :
  (parent < n)%nat → is_space_char c = false → c ≠ newline → is_blank_line next = false → (width next < n)%nat →
  block_scalar parent (lines (indent (Z.of_nat n) (String c v)) ++ next :: rest) = chomp (String c v).
Proof.
  intros Hn Hc Hnl Hnext Hw. rewrite lines_indent. unfold padding. rewrite Nat2Z.id. unfold block_scalar.
  assert (∃ w ws, lines (String c v) = String c w :: ws) as (w & ws & Hl).
  { unfold lines. cbn. rewrite decide_False by done. destruct (Split newline v); eauto. }
  assert (block_width ((String.append (Repeat " " n) <$> lines (String c v)) ++ next :: rest) = n) as ->.
  { rewrite Hl. cbn [fmap list_fmap app block_width]. rewrite blank_padding, width_padding. cbn. rewrite Hc. cbn. lia. }
  rewrite (proj2 (Nat.leb_gt n parent)) by done. rewrite block_lines_padding. cbn [block_lines].
  rewrite Hnext, (proj2 (Nat.leb_gt n (width next))) by done. cbn [orb]. rewrite app_nil_r.
  f_equal. apply Join_Split.
Qed.

(** The inline contents of the file [path] of a Container Linux
    configuration; an entry of the list of files is a line of its own width. *)
Definition inline_of (path : string) (document : string) : option string :=
  l ← after ("    - path: " +:+ path) (lines document);
  l ← after "        inline: |-" l;
  Some (block_scalar 8 l).

Lemma inline_of_template ev t path l1 l2 : Forall (Forall (on_lines ev)) (template_lines t) →
  template_after ("    - path: " +:+ path) (template_lines t) = Some l1 →
  template_after "        inline: |-" l1 = Some l2 →
  inline_of path (render ev t) = Some (block_scalar 8 (rendered ev l2)).
Proof.
  intros Ht H1 H2. unfold inline_of. rewrite lines_render.
  destruct (template_after_sound ev _ _ _ Ht H1) as [-> Hl1]. simpl.
  by destruct (template_after_sound ev _ _ _ Hl1 H2) as [-> _].
Qed.

(** What a template has below the file [path] *)
Definition file_lines (t : list node) (path : string) : list (list node) :=
  default [] (l ← template_after ("    - path: " +:+ path) (template_lines t); template_after "        inline: |-" l).
Lemma inline_of_file ev t path x l : Forall (Forall (on_lines ev)) (template_lines t) → file_lines t path = x :: l →
  inline_of path (render ev t) = Some (block_scalar 8 (rendered ev (x :: l))) ∧ Forall (Forall (on_lines ev)) (x :: l).
Proof.
  intros Hl Hf. unfold file_lines in Hf.
  destruct (template_after ("    - path: " +:+ path) _) as [l1|] eqn:H1; [|done]. cbn in Hf.
  destruct (template_after "        inline: |-" l1) as [l2|] eqn:H2; [|done]. cbn in Hf. subst l2.
  split; [by apply (inline_of_template _ _ _ l1)|].
  destruct (template_after_sound ev _ _ _ Hl H1) as [_ Hl1]. by destruct (template_after_sound ev _ _ _ Hl1 H2).
Qed.

(** A part of a template without indented values *)
Definition plain_line (x : list node) : bool :=
  forallb (fun n => match n with NAction p => bool_decide (indent_of p = None) | NText _ => true end) x.
Lemma rendered_plain ev l : Forall (Forall (on_lines ev)) l → forallb plain_line l = true → rendered ev l = render ev <$> l.
Proof.
  induction 1 as [|x l Hx Hl IH]; [done|]. cbn [forallb]. intros [Hp H]%andb_true_iff. rewrite rendered_cons, fmap_cons, IH by done.
  destruct (lines_of_line ev x Hx) as (h & t & Hr & _ & _ & Ht). rewrite Hr. destruct t as [|u t].
  - rewrite <- (Join_Split newline (render ev x)). fold (lines (render ev x)). by rewrite Hr.
  - inversion Ht as [|? ? (p & n & Hin & Hi & _) _]; subst. unfold plain_line in Hp. rewrite forallb_forall in Hp.
    specialize (Hp (NAction p)). cbn in Hp. rewrite Hi in Hp. discriminate Hp. by apply list_elem_of_In.
Qed.

(** ** The two kinds of files of the node template *)
Section Files.
Context (ev : pipeline → string) (t : list node) (Ht : Forall (Forall (on_lines ev)) (template_lines t)).

(** A text that begins with something else than blanks *)
Definition starts_text (v : string) : Prop :=
  match v with String c _ => is_space_char c = false ∧ c ≠ newline | EmptyString => False end.

(** One indented value *)
Lemma indented_file path x w rest v : starts_text v →
  file_lines t path = x :: [NText ("    - " +:+ w)] :: rest → str_has newline w = false → is_blank_line w = false →
  lines (render ev x) = lines (indent 10 v) →
  inline_of path (render ev t) = Some (chomp v).
Proof.
  intros Hv Hf Hw Hb Hx. destruct (inline_of_file ev t path _ _ Ht Hf) as [-> _]. clear Hf.
  rewrite !rendered_cons, Hx. cbn [render]. rewrite str_app_nil_r, (lines_single ("    - " +:+ w)) by (rewrite str_has_app; by apply orb_false_iff).
  destruct v as [|c v]; [done|]. destruct Hv as [Hc Hn]. change 10%Z with (Z.of_nat 10). f_equal.
  apply block_scalar_indent; [lia|done..| |].
  - unfold is_blank_line in *. by rewrite str_all_app.
  - assert (width ("    - " +:+ w) = 4%nat) as -> by (vm_compute; reflexivity). lia.
Qed.

(** Lines of the template, without the empty texts *)
Definition node_text (n : node) : string := match n with NText s => s | NAction p => ev p end.
Fixpoint show (x : list node) : string :=
  match x with
  | [] => ""
  | [n] => node_text n
  | n :: x => node_text n +:+ show x
  end.
Definition compact (x : list node) : list node := List.filter (fun n => bool_decide (n ≠ NText "")) x.
Lemma show_compact x : show (compact x) = render ev x.
Proof.
  assert (∀ n x, show (n :: x) = node_text n +:+ show x) as Hs by (intros n [|m y]; [by rewrite str_app_nil_r|done]).
  induction x as [|n x IH]; [done|]. unfold compact in *. cbn [List.filter]. case_bool_decide as Hn.
  - rewrite Hs, IH. by destruct n.
  - by rewrite IH, Hn.
Qed.
Lemma plain_file path text : file_lines t path ≠ [] → forallb plain_line (file_lines t path) = true →
  block_width ((show ∘ compact) <$> file_lines t path) = 10%nat →
  Join (block_lines 10 ((show ∘ compact) <$> file_lines t path)) (String newline "") = text →
  inline_of path (render ev t) = Some (chomp text).
Proof.
  assert ((show ∘ compact) <$> file_lines t path = render ev <$> file_lines t path) as -> by (apply list_fmap_ext; intros; apply show_compact).
  destruct (file_lines t path) as [|x l] eqn:Hf; [done|]. intros _ Hp Hw Hj.
  destruct (inline_of_file ev t path x l Ht Hf) as [-> Hl]. clear Hf.
  rewrite rendered_plain by done. unfold block_scalar. rewrite Hw. cbn [Nat.leb]. by rewrite Hj.
Qed.
End Files.
