(* ===== verification/Ignition.v ===== *)
(** [pkg/templates]: the user data of a node.

    The node template with its text, the values it is rendered with and the
    document that comes out, which [GenerateNode] of [Launch] hands to the
    transpiler of Container Linux configurations. *)
From S2P Require Import Prelude GoStrings Models Templates.

(** * The template *)
(** The template: users, reboots, metadata and docker.
    [Node], src/pkg/templates/node.go:5-49 *)
Definition Node_system : string := raw "
passwd:
  users:
    - name:          core
      password_hash: xyTGJkB462ewk
      ssh_authorized_keys: 
        - `ssh-rsa AAAAB3NzaC1yc2EAAAABIwAAAQEAvFapuevZeHFpFn438XMjvEQYd0wt7+tzUdAkMiSd007Tx1h79Xm9ZziDDUe4W6meinVOq93MAS/ER27hoVWGo2H/vn/Cz5M8xr2j5rQODnrF3RmfrJTbZAWaDN0JTq2lFjmCHhZJNhr+VQP1uw4z2ofMBP6MLybnLmm9ukzxFYZqCCyfEEUTCMA9SWywtTpGQp8VLM4INCxzBSCuyt3SO6PBvJSo4HoKg/sLvmRwpCVZth48PI0EUbJ72wp88Cw3bv8CLce2TOkLMwkE6NRN55w2aOyqP1G3vixHa6YcVaLlkQhJoJsBwE3rX5603y2KjOhMomqHfXxXn/3GKTWlsQ== michael.j.schmidt@gmail.com`

locksmith:
  reboot_strategy: `reboot`

systemd:
  units:
    - name: iptables-restore.service
      enable: true
    - name: ccloud-metadata.service
      contents: |
        [Unit]
        Description=Converged Cloud Metadata Agent

        [Service]
        Type=oneshot
        ExecStart=/usr/bin/coreos-metadata --provider=openstack-metadata --attributes=/run/metadata/coreos --ssh-keys=core --hostname=/etc/hostname
    - name: ccloud-metadata-hostname.service
      enable: true
      contents: |
        [Unit]
        Description=Workaround for coreos-metadata hostname bug
        Requires=ccloud-metadata.service
        After=ccloud-metadata.service

        [Service]
        Type=oneshot
        EnvironmentFile=/run/metadata/coreos
        ExecStart=/usr/bin/hostnamectl set-hostname ${COREOS_OPENSTACK_HOSTNAME}
        
        [Install]
        WantedBy=multi-user.target
    - name: docker.service
      enable: true
      dropins:
        - name: 20-docker-opts.conf
          contents: |
            [Service]
            Environment=`DOCKER_OPTS=--log-opt max-size=5m --log-opt max-file=5 --ip-masq=false --iptables=false --bridge=none`
".
(** The template: the kubelet.
    [Node], src/pkg/templates/node.go:50-91 *)
Definition Node_kubelet : string := raw "    - name: kubelet.service
      enable: true
      contents: |
        [Unit]
        Description=Kubelet via Hyperkube ACI

        [Service]
        Environment=`RKT_RUN_ARGS=--uuid-file-save=/var/run/kubelet-pod.uuid \
          --inherit-env \
          --dns=host \
          --net=host \
          --volume var-lib-cni,kind=host,source=/var/lib/cni \
          --volume var-log,kind=host,source=/var/log \
          --mount volume=var-lib-cni,target=/var/lib/cni \
          --mount volume=var-log,target=/var/log`
        Environment=`KUBELET_IMAGE_TAG=v1.7.5_coreos.0`
        Environment=`KUBELET_IMAGE_URL=quay.io/coreos/hyperkube`
        ExecStartPre=/bin/mkdir -p /etc/kubernetes/manifests
        ExecStartPre=/bin/mkdir -p /var/lib/cni
        ExecStartPre=-/usr/bin/rkt rm --uuid-file=/var/run/kubelet-pod.uuid
        ExecStart=/usr/lib/coreos/kubelet-wrapper \
          --cert-dir=/var/lib/kubelet/pki \
          --cloud-config=/etc/kubernetes/openstack/openstack.config \
          --cloud-provider=openstack \
          --require-kubeconfig \
          --bootstrap-kubeconfig=/etc/kubernetes/bootstrap/kubeconfig \
          --network-plugin=kubenet \
          --lock-file=/var/run/lock/kubelet.lock \
          --exit-on-lock-contention \
          --pod-manifest-path=/etc/kubernetes/manifests \
          --allow-privileged \
          --cluster-dns={{ .ClusterDNSAddress }} \
          --cluster-domain={{ .ClusterDomain }} \
          --client-ca-file=/etc/kubernetes/certs/kubelet-clients-ca.pem \
          --non-masquerade-cidr=0.0.0.0/0 \
          --anonymous-auth=false
        ExecStop=-/usr/bin/rkt stop --uuid-file=/var/run/kubelet-pod.uuid
        Restart=always
        RestartSec=10

        [Install]
        WantedBy=multi-user.target
".
(** The template: the wormhole client, kube-proxy and the certificates.
    [Node], src/pkg/templates/node.go:92-166 *)
Definition Node_services : string := raw "    - name: wormhole.service
      contents: |
        [Unit]
        Description=Kubernikus Wormhole
        Requires=network-online.target
        After=network-online.target
        [Service]
        Slice=machine.slice
        ExecStartPre=/usr/bin/rkt fetch --insecure-options=image --pull-policy=new docker://{{ .KubernikusImage }}:{{ .KubernikusImageTag }}
        ExecStart=/usr/bin/rkt run \
          --inherit-env \
          --net=host \
          --dns=host \
          --volume var-lib-kubelet,kind=host,source=/var/lib/kubelet,readOnly=true \
          --mount volume=var-lib-kubelet,target=/var/lib/kubelet \
          --volume etc-kubernetes-certs,kind=host,source=/etc/kubernetes/certs,readOnly=true \
          --mount volume=etc-kubernetes-certs,target=/etc/kubernetes/certs \
          docker://{{ .KubernikusImage }}:{{ .KubernikusImageTag }} \
          --exec wormhole -- client --listen {{ .ApiserverIP }}:6443 --kubeconfig=/var/lib/kubelet/kubeconfig
        ExecStopPost=/usr/bin/rkt gc --mark-only
        KillMode=mixed
        Restart=always
        RestartSec=10s
    - name: wormhole.path
      enable: true
      contents: |
        [Path]
        PathExists=/var/lib/kubelet/kubeconfig
        [Install]
        WantedBy=multi-user.target
    - name: kube-proxy.service
      enable: true
      contents: |
        [Unit]
        Description=Kube-Proxy
        Requires=network-online.target
        After=network-online.target
        [Service]
        Slice=machine.slice
        ExecStart=/usr/bin/rkt run \
          --trust-keys-from-https \
          --inherit-env \
          --net=host \
          --dns=host \
          --volume etc-kubernetes,kind=host,source=/etc/kubernetes,readOnly=true \
          --mount volume=etc-kubernetes,target=/etc/kubernetes \
          --volume lib-modules,kind=host,source=/lib/modules,readOnly=true \
          --mount volume=lib-modules,target=/lib/modules \
          --stage1-from-dir=stage1-fly.aci \
          quay.io/coreos/hyperkube:v1.7.5_coreos.0 \
          --exec=hyperkube \
          -- \
          proxy \
          --config=/etc/kubernetes/kube-proxy/config
        ExecStopPost=/usr/bin/rkt gc --mark-only
        KillMode=mixed
        Restart=always
        RestartSec=10s
        [Install]
        WantedBy=multi-user.target
    - name: updatecertificates.service
      command: start
      enable: true
      contents: |
        [Unit]
        Description=Update the certificates w/ self-signed root CAs
        ConditionPathIsSymbolicLink=!/etc/ssl/certs/48b11003.0
        Before=early-docker.service docker.service
        [Service]
        ExecStart=/usr/sbin/update-ca-certificates
        RemainAfterExit=yes
        Type=oneshot
        [Install]
        WantedBy=multi-user.target

".
(** The template: the address of the API server.
    [Node], src/pkg/templates/node.go:167-182 *)
Definition Node_network : string := raw "networkd:
  units:
    - name: 50-kubernikus.netdev
      contents: |
        [NetDev]
        Description=Kubernikus Dummy Interface
        Name=kubernikus
        Kind=dummy
    - name: 51-kubernikus.network
      contents: |
        [Match]
        Name=kubernikus
        [Network]
        DHCP=no
        Address={{ .ApiserverIP }}/32

".
(** The template: the authority of the company.
    [Node], src/pkg/templates/node.go:183-225 *)
Definition Node_SAPNetCA : string := raw "storage:
  files:
    - path: /etc/ssl/certs/SAPNetCA_G2.pem
      filesystem: root
      mode: 0644
      contents:
        inline: |-
          -----BEGIN CERTIFICATE-----
          MIIGPTCCBCWgAwIBAgIKYQ4GNwAAAAAADDANBgkqhkiG9w0BAQsFADBOMQswCQYD
          VQQGEwJERTERMA8GA1UEBwwIV2FsbGRvcmYxDzANBgNVBAoMBlNBUCBBRzEbMBkG
          A1UEAwwSU0FQIEdsb2JhbCBSb290IENBMB4XDTE1MDMxNzA5MjQ1MVoXDTI1MDMx
          NzA5MzQ1MVowRDELMAkGA1UEBhMCREUxETAPBgNVBAcMCFdhbGxkb3JmMQwwCgYD
          VQQKDANTQVAxFDASBgNVBAMMC1NBUE5ldENBX0cyMIICIjANBgkqhkiG9w0BAQEF
          AAOCAg8AMIICCgKCAgEAjuP7Hj/1nVWfsCr8M/JX90s88IhdTLaoekrxpLNJ1W27
          ECUQogQF6HCu/RFD4uIoanH0oGItbmp2p8I0XVevHXnisxQGxBdkjz+a6ZyOcEVk
          cEGTcXev1i0R+MxM8Y2WW/LGDKKkYOoVRvA5ChhTLtX2UXnBLcRdf2lMMvEHd/nn
          KWEQ47ENC+uXd6UPxzE+JqVSVaVN+NNbXBJrI1ddNdEE3/++PSAmhF7BSeNWscs7
          w0MoPwHAGMvMHe9pas1xD3RsRFQkV01XiJqqUbf1OTdYAoUoXo9orPPrO7FMfXjZ
          RbzwzFtdKRlAFnKZOVf95MKlSo8WzhffKf7pQmuabGSLqSSXzIuCpxuPlNy7kwCX
          j5m8U1xGN7L2vlalKEG27rCLx/n6ctXAaKmQo3FM+cHim3ko/mOy+9GDwGIgToX3
          5SQPnmCSR19H3nYscT06ff5lgWfBzSQmBdv//rjYkk2ZeLnTMqDNXsgT7ac6LJlj
          WXAdfdK2+gvHruf7jskio29hYRb2//ti5jD3NM6LLyovo1GOVl0uJ0NYLsmjDUAJ
          dqqNzBocy/eV3L2Ky1L6DvtcQ1otmyvroqsL5JxziP0/gRTj/t170GC/aTxjUnhs
          7vDebVOT5nffxFsZwmolzTIeOsvM4rAnMu5Gf4Mna/SsMi9w/oeXFFc/b1We1a0C
          AwEAAaOCASUwggEhMAsGA1UdDwQEAwIBBjAdBgNVHQ4EFgQUOCSvjXUS/Dg/N4MQ
          r5A8/BshWv8wHwYDVR0jBBgwFoAUg8dB/Q4mTynBuHmOhnrhv7XXagMwSwYDVR0f
          BEQwQjBAoD6gPIY6aHR0cDovL2NkcC5wa2kuY28uc2FwLmNvbS9jZHAvU0FQJTIw
          R2xvYmFsJTIwUm9vdCUyMENBLmNybDBWBggrBgEFBQcBAQRKMEgwRgYIKwYBBQUH
          MAKGOmh0dHA6Ly9haWEucGtpLmNvLnNhcC5jb20vYWlhL1NBUCUyMEdsb2JhbCUy
          MFJvb3QlMjBDQS5jcnQwGQYJKwYBBAGCNxQCBAweCgBTAHUAYgBDAEEwEgYDVR0T
          AQH/BAgwBgEB/wIBADANBgkqhkiG9w0BAQsFAAOCAgEAGdBNALO509FQxcPhMCwE
          /eymAe9f2u6hXq0hMlQAuuRbpnxr0+57lcw/1eVFsT4slceh7+CHGCTCVHK1ELAd
          XQeibeQovsVx80BkugEG9PstCJpHnOAoWGjlZS2uWz89Y4O9nla+L9SCuK7tWI5Y
          +QuVhyGCD6FDIUCMlVADOLQV8Ffcm458q5S6eGViVa8Y7PNpvMyFfuUTLcUIhrZv
          eh4yjPSpz5uvQs7p/BJLXilEf3VsyXX5Q4ssibTS2aH2z7uF8gghfMvbLi7sS7oj
          XBEylxyaegwOBLtlmcbII8PoUAEAGJzdZ4kFCYjqZBMgXK9754LMpvkXDTVzy4OP
          emK5Il+t+B0VOV73T4yLamXG73qqt8QZndJ3ii7NGutv4SWhVYQ4s7MfjRwbFYlB
          z/N5eH3veBx9lJbV6uXHuNX3liGS8pNVNKPycfwlaGEbD2qZE0aZRU8OetuH1kVp
          jGqvWloPjj45iCGSCbG7FcY1gPVTEAreLjyINVH0pPve1HXcrnCV4PALT6HvoZoF
          bCuBKVgkSSoGgmasxjjjVIfMiOhkevDya52E5m0WnM1LD3ZoZzavsDSYguBP6MOV
          ViWNsVHocptphbEgdwvt3B75CDN4kf6MNZg2/t8bRhEQyK1FRy8NMeBnbRFnnEPe
          7HJNBB1ZTjnrxJAgCQgNBIQ=
          -----END CERTIFICATE-----
".
(** The template: all other files.
    [Node], src/pkg/templates/node.go:226-381 *)
Definition Node_files : string := raw "    - path: /var/lib/iptables/rules-save
      filesystem: root
      mode: 0644
      contents: 
        inline: |
          *nat
          :PREROUTING ACCEPT [0:0]
          :INPUT ACCEPT [0:0]
          :OUTPUT ACCEPT [0:0]
          :POSTROUTING ACCEPT [0:0]
          -A POSTROUTING -p tcp ! -d {{ .ClusterCIDR }} -m addrtype ! --dst-type LOCAL -j MASQUERADE --to-ports 32000-65000
          -A POSTROUTING -p udp ! -d {{ .ClusterCIDR }} -m addrtype ! --dst-type LOCAL -j MASQUERADE --to-ports 32000-65000
          -A POSTROUTING -p icmp ! -d {{ .ClusterCIDR }} -m addrtype ! --dst-type LOCAL -j MASQUERADE
          COMMIT
    - path: /etc/sysctl.d/10-enable-icmp-redirects
      filesystem: root
      mode: 0644
      contents:
        inline: |-
          net.ipv4.conf.all.accept_redirects=1
    - path: /etc/coreos/docker-1.12
      filesystem: root
      contents:
        inline: yes
    - path: /etc/kubernetes/certs/kubelet-clients-ca.pem
      filesystem: root
      mode: 0644
      contents: 
        inline: |-
{{ .KubeletClientsCA | indent 10 }}
    - path: /etc/kubernetes/certs/apiserver-clients-system-kube-proxy-key.pem
      filesystem: root
      mode: 0644
      contents: 
        inline: |-
{{ .ApiserverClientsSystemKubeProxyKey | indent 10 }}
    - path: /etc/kubernetes/certs/apiserver-clients-system-kube-proxy.pem
      filesystem: root
      mode: 0644
      contents: 
        inline: |-
{{ .ApiserverClientsSystemKubeProxy | indent 10 }}    
    - path: /etc/kubernetes/certs/tls-ca.pem
      filesystem: root
      mode: 0644
      contents:
        inline: |-
{{ .TLSCA | indent 10 }}
    - path: /etc/kubernetes/bootstrap/kubeconfig
      filesystem: root
      mode: 0644
      contents: 
        inline: |-
          apiVersion: v1
          kind: Config
          clusters:
            - name: local
              cluster:
                 certificate-authority: /etc/kubernetes/certs/tls-ca.pem
                 server: {{ .ApiserverURL }}
          contexts:
            - name: local 
              context:
                cluster: local
                user: local 
          current-context: local
          users:
            - name: local
              user:
                token: {{ .BootstrapToken }} 
    - path: /etc/kubernetes/kube-proxy/kubeconfig
      filesystem: root
      mode: 0644
      contents: 
        inline: |-
          apiVersion: v1
          kind: Config
          clusters:
            - name: local
              cluster:
                 certificate-authority: /etc/kubernetes/certs/tls-ca.pem
                 server: {{ .ApiserverURL }}
          contexts:
            - name: local 
              context:
                cluster: local
                user: local 
          current-context: local
          users:
            - name: local
              user:
                client-certificate: /etc/kubernetes/certs/apiserver-clients-system-kube-proxy.pem 
                client-key: /etc/kubernetes/certs/apiserver-clients-system-kube-proxy-key.pem 
    - path: /etc/kubernetes/kube-proxy/config
      filesystem: root
      mode: 0644
      contents: 
        inline: |-
          apiVersion: componentconfig/v1alpha1
          kind: KubeProxyConfiguration
          bindAddress: 0.0.0.0
          clientConnection:
            acceptContentTypes: ``
            burst: 10
            contentType: application/vnd.kubernetes.protobuf
            kubeconfig: `/etc/kubernetes/kube-proxy/kubeconfig`
            qps: 5
          clusterCIDR: `{{ .ClusterCIDR }}`
          configSyncPeriod: 15m0s
          conntrack:
            max: 0
            maxPerCore: 32768
            min: 131072
            tcpCloseWaitTimeout: 1h0m0s
            tcpEstablishedTimeout: 24h0m0s
          enableProfiling: false
          featureGates: ``
          healthzBindAddress: 0.0.0.0:10256
          hostnameOverride: ``
          iptables:
            masqueradeAll: false
            masqueradeBit: 14
            minSyncPeriod: 0s
            syncPeriod: 30s
          metricsBindAddress: 127.0.0.1:10249
          mode: ``
          oomScoreAdj: -999
          portRange: ``
          resourceContainer: /kube-proxy
          udpTimeoutMilliseconds: 250ms
    - path: /etc/kubernetes/openstack/openstack.config
      filesystem: root
      mode: 0644
      contents: 
        inline: |-
          [Global]
          auth-url = {{ .OpenstackAuthURL }}
          username = {{ .OpenstackUsername }}
          password = {{ .OpenstackPassword }}
          domain-name = {{ .OpenstackDomain }}
          region = {{ .OpenstackRegion }}

          [LoadBalancer]
          lb-version=v2
          subnet-id = {{ .OpenstackLBSubnetID }}
          create-monitor = yes
          monitor-delay = 1m
          monitor-timeout = 30s
          monitor-max-retries = 3

          [BlockStorage]
          trust-device-path = no

          [Route]
          router-id = {{ .OpenstackRouterID }}
".

Definition NodeTemplate : string := Node_system +:+ Node_kubelet +:+ Node_services +:+ Node_network +:+ Node_SAPNetCA +:+ Node_files.

(** * The values *)
(** The values the node template is rendered with
    [data], src/pkg/templates/ignition.go:52-70 *)
Record NodeData := {
  TLSCA : string; KubeletClientsCA : string; ApiserverClientsSystemKubeProxy : string;
  ApiserverClientsSystemKubeProxyKey : string; ClusterDomain : string; ClusterDNSAddress : string;
  nd_ClusterCIDR : string; ApiserverURL : string; ApiserverIP : string; BootstrapToken : string;
  OpenstackAuthURL : string; OpenstackUsername : string; OpenstackPassword : string;
  OpenstackDomain : string; OpenstackRegion : string; OpenstackLBSubnetID : string;
  OpenstackRouterID : string; KubernikusImage : string; KubernikusImageTag : string }.

(** The fields as the engine finds them by reflection *)
Definition node_fields (d : NodeData) : fields :=
  [("TLSCA", TLSCA d); ("KubeletClientsCA", KubeletClientsCA d);
   ("ApiserverClientsSystemKubeProxy", ApiserverClientsSystemKubeProxy d);
   ("ApiserverClientsSystemKubeProxyKey", ApiserverClientsSystemKubeProxyKey d);
   ("ClusterDomain", ClusterDomain d); ("ClusterDNSAddress", ClusterDNSAddress d); ("ClusterCIDR", nd_ClusterCIDR d);
   ("ApiserverURL", ApiserverURL d); ("ApiserverIP", ApiserverIP d); ("BootstrapToken", BootstrapToken d);
   ("OpenstackAuthURL", OpenstackAuthURL d); ("OpenstackUsername", OpenstackUsername d);
   ("OpenstackPassword", OpenstackPassword d); ("OpenstackDomain", OpenstackDomain d);
   ("OpenstackRegion", OpenstackRegion d); ("OpenstackLBSubnetID", OpenstackLBSubnetID d);
   ("OpenstackRouterID", OpenstackRouterID d); ("KubernikusImage", KubernikusImage d);
   ("KubernikusImageTag", KubernikusImageTag d)].


(** [requiredNodeSecrets], src/pkg/templates/ignition.go:24-37 *)
Definition requiredNodeSecrets : list string :=
  ["tls-ca.pem"; "kubelet-clients-ca.pem"; "apiserver-clients-system-kube-proxy.pem";
   "apiserver-clients-system-kube-proxy-key.pem"; "bootstrapToken"; "openstack-auth-url";
   "openstack-username"; "openstack-password"; "openstack-domain-name"; "openstack-region"].

(** The first required field a secret lacks
    [GenerateNode], src/pkg/templates/ignition.go:40-44 *)
Fixpoint missing_field (fields : list string) (secret : gmap string string) : option string :=
  match fields with
  | [] => None
  | f :: fs => match secret !! f with None => Some f | Some _ => missing_field fs secret end
  end.

Lemma missing_field_None l secret : missing_field l secret = None → Forall (λ f, is_Some (secret !! f)) l.
Proof. induction l as [|f l IH]; cbn; [by constructor|]. destruct (secret !! f) eqn:E; [|done]. intros H. constructor; [by rewrite E|auto]. Qed.

(** [data], src/pkg/templates/ignition.go:72-90 *)
Definition node_data (GitCommit : string) (k : Kluster) (secret : gmap string string) : NodeData :=
  let get f := default "" (secret !! f) in
  {| TLSCA := get "tls-ca.pem";
     KubeletClientsCA := get "kubelet-clients-ca.pem";
     ApiserverClientsSystemKubeProxy := get "apiserver-clients-system-kube-proxy.pem";
     ApiserverClientsSystemKubeProxyKey := get "apiserver-clients-system-kube-proxy-key.pem";
     BootstrapToken := get "bootstrapToken";
     nd_ClusterCIDR := ClusterCIDR (Spec k);
     ClusterDNSAddress := DNSAddress (Spec k);
     ClusterDomain := DNSDomain (Spec k);
     ApiserverURL := Apiserver (Status k);
     ApiserverIP := AdvertiseAddress (Spec k);
     OpenstackAuthURL := get "openstack-auth-url";
     OpenstackUsername := get "openstack-username";
     OpenstackPassword := get "openstack-password";
     OpenstackDomain := get "openstack-domain-name";
     OpenstackRegion := get "openstack-region";
     OpenstackLBSubnetID := LBSubnetID (Openstack (Spec k));
     OpenstackRouterID := RouterID (Openstack (Spec k));
     KubernikusImage := "sapcc/kubernikus";
     KubernikusImageTag := GitCommit |}.

(** The document for the values
    [GenerateNode], src/pkg/templates/ignition.go:46-49 *)
Definition node_yaml (d : NodeData) : option string :=
  t ← Parse TxtFuncMap NodeTemplate; Execute TxtFuncMap t (node_fields d).

(** * The template is one *)
Definition Node_nodes : list node := default [] (Parse TxtFuncMap NodeTemplate).
Lemma Parse_Node : Parse TxtFuncMap NodeTemplate = Some Node_nodes.
Proof. vm_compute. reflexivity. Qed.

(** The fields whose values go into the middle of a line *)
Definition line_fields : list string :=
  ["ClusterDomain"; "ClusterDNSAddress"; "ClusterCIDR"; "ApiserverURL"; "ApiserverIP"; "BootstrapToken"; "OpenstackAuthURL";
   "OpenstackUsername"; "OpenstackPassword"; "OpenstackDomain"; "OpenstackRegion"; "OpenstackLBSubnetID"; "OpenstackRouterID";
   "KubernikusImage"; "KubernikusImageTag"].

Definition node_value (d : NodeData) : pipeline -> string := value (node_fields d).

(** Whatever the values are, there is a document. *)
Lemma node_yaml_render d : node_yaml d = Some (render (node_value d) Node_nodes).
Proof.
  unfold node_yaml. rewrite Parse_Node. cbn [mbind option_bind]. apply (Execute_render id). vm_compute. reflexivity.
Qed.

(** The values of the fields [line_fields] are single lines. *)
Definition single_lines (d : NodeData) : Prop :=
  Forall (λ f, str_has newline (default "" (field (node_fields d) f)) = false) line_fields.

Definition node_on_line (n : node) : bool :=
  match n with
  | NText s => negb (str_has newline s)
  | NAction p => match indent_of p with Some _ => true | None => existsb (String.eqb (pl_field p)) line_fields end
  end.
Lemma Node_on_lines d : single_lines d → Forall (Forall (on_lines (node_value d))) (template_lines Node_nodes).
Proof.
  intros Hd. assert (forallb (forallb node_on_line) (template_lines Node_nodes) = true) as H by (vm_compute; reflexivity).
  revert H. generalize (template_lines Node_nodes). intros l H. rewrite forallb_forall in H. apply Forall_forall. intros x Hx%list_elem_of_In. specialize (H x Hx).
  rewrite forallb_forall in H. apply Forall_forall. intros n Hn%list_elem_of_In. specialize (H n Hn).
  destruct n as [s|p]; cbn [on_lines node_on_line] in *; [by apply negb_true_iff|]. unfold node_value, value.
  destruct (indent_of p); [eauto|]. apply existsb_exists in H as (f & Hf & ->%String.eqb_eq).
  unfold single_lines in Hd. rewrite Forall_forall in Hd. apply Hd. by apply list_elem_of_In.
Qed.

(** * The files of a node *)

(** The contents of [openstack.config] and of the first kubeconfig *)
Definition openstack_config (d : NodeData) : string :=
  raw "[Global]
auth-url = " +:+ OpenstackAuthURL d +:+ raw "
username = " +:+ OpenstackUsername d +:+ raw "
password = " +:+ OpenstackPassword d +:+ raw "
domain-name = " +:+ OpenstackDomain d +:+ raw "
region = " +:+ OpenstackRegion d +:+ raw "

[LoadBalancer]
lb-version=v2
subnet-id = " +:+ OpenstackLBSubnetID d +:+ raw "
create-monitor = yes
monitor-delay = 1m
monitor-timeout = 30s
monitor-max-retries = 3

[BlockStorage]
trust-device-path = no

[Route]
" +:+ "router-id = " +:+ OpenstackRouterID d.
Definition bootstrap_kubeconfig (d : NodeData) : string :=
  raw "apiVersion: v1
kind: Config
clusters:
  - name: local
    cluster:
       certificate-authority: /etc/kubernetes/certs/tls-ca.pem
       server: " +:+ ApiserverURL d +:+ raw "
contexts:
  - name: local 
    context:
      cluster: local
      user: local 
current-context: local
users:
  - name: local
    user:
      token: " +:+ BootstrapToken d +:+ " ".

(** The single lines in the terms of the resources *)
Definition line_values (GitCommit : string) (k : Kluster) (secret : gmap string string) : list string :=
  let get f := default "" (secret !! f) in
  [DNSDomain (Spec k); DNSAddress (Spec k); ClusterCIDR (Spec k); Apiserver (Status k); AdvertiseAddress (Spec k);
   get "bootstrapToken"; get "openstack-auth-url"; get "openstack-username"; get "openstack-password";
   get "openstack-domain-name"; get "openstack-region"; LBSubnetID (Openstack (Spec k)); RouterID (Openstack (Spec k)); GitCommit].
Lemma single_lines_data GitCommit k secret :
  Forall (λ v, str_has newline v = false) (line_values GitCommit k secret) → single_lines (node_data GitCommit k secret).
Proof.
  intros H. repeat (apply Forall_cons in H as [? H]). unfold single_lines. repeat constructor; try done.
Qed.

(** Where the certificates are in the template *)
Definition certs : string := "/etc/kubernetes/certs/".
Definition cert_line (f : string) (suffix : string) : list node :=
  [NText ""; NAction {| pl_field := f; pl_calls := [("indent", [10%Z])] |}; NText suffix].
Definition cert_entry (path f suffix next : string) : Prop :=
  file_lines Node_nodes (certs +:+ path) = cert_line f suffix :: [NText ("    - path: " +:+ next)] :: drop 2 (file_lines Node_nodes (certs +:+ path)).
Lemma kubelet_entry : cert_entry "kubelet-clients-ca.pem" "KubeletClientsCA" "" (certs +:+ "apiserver-clients-system-kube-proxy-key.pem").
Proof. vm_compute. reflexivity. Qed.
Lemma key_entry : cert_entry "apiserver-clients-system-kube-proxy-key.pem" "ApiserverClientsSystemKubeProxyKey" "" (certs +:+ "apiserver-clients-system-kube-proxy.pem").
Proof. vm_compute. reflexivity. Qed.
Lemma proxy_entry : cert_entry "apiserver-clients-system-kube-proxy.pem" "ApiserverClientsSystemKubeProxy" "    " (certs +:+ "tls-ca.pem").
Proof. vm_compute. reflexivity. Qed.
Lemma tls_entry : cert_entry "tls-ca.pem" "TLSCA" "" "/etc/kubernetes/bootstrap/kubeconfig".
Proof. vm_compute. reflexivity. Qed.

Lemma lines_indent_suffix n v w : str_has newline w = false → lines (indent n v +:+ w) = lines (indent n (v +:+ w)).
Proof.
  intros Hw. rewrite lines_app, !lines_indent, lines_app, (lines_single w Hw).
  pose proof (lines_nonempty v) as Hv. induction (lines v) as [|x [|y l] IH]; [done|cbn; by rewrite str_app_assoc|].
  rewrite glue_cons, !fmap_cons by done. rewrite glue_cons by done. f_equal. by apply IH.
Qed.

Lemma cert_file d path f suffix next : single_lines d → cert_entry path f suffix next →
  str_has newline suffix = false → str_has newline next = false →
  ∀ v, field (node_fields d) f = Some v → starts_text v →
  inline_of (certs +:+ path) (render (node_value d) Node_nodes) = Some (chomp (v +:+ suffix)).
Proof.
  unfold cert_entry. generalize (Node_on_lines d). generalize (drop 2 (file_lines Node_nodes (certs +:+ path))). generalize Node_nodes.
  intros t rest Ht Hd He Hs Hn v Hv Hst. refine (indented_file (node_value d) t (Ht Hd) _ _ ("path: " +:+ next) rest _ _ He _ eq_refl _).
  - by destruct v.
  - by rewrite str_has_app.
  - cbn [cert_line render]. rewrite str_app_nil_r. unfold node_value, value. cbn [indent_of pl_calls pl_field].
    rewrite decide_True, Hv by done. by apply lines_indent_suffix.
Qed.

Lemma kubeconfig_file d : single_lines d →
  inline_of "/etc/kubernetes/bootstrap/kubeconfig" (render (node_value d) Node_nodes) = Some (bootstrap_kubeconfig d).
Proof.
  intros H. transitivity (Some (chomp (bootstrap_kubeconfig d))).
  - apply plain_file; [by apply Node_on_lines|vm_compute; done|vm_compute; reflexivity..].
  - f_equal. unfold bootstrap_kubeconfig. rewrite <- !str_app_assoc. by apply chomp_line.
Qed.
Lemma openstack_file d : single_lines d →
  inline_of "/etc/kubernetes/openstack/openstack.config" (render (node_value d) Node_nodes) = Some (openstack_config d).
Proof.
  intros H. transitivity (Some (chomp (openstack_config d +:+ String newline ""))).
  - apply plain_file; [by apply Node_on_lines|vm_compute; done|vm_compute; reflexivity|vm_compute; reflexivity|].
    unfold openstack_config. rewrite !str_app_assoc. vm_compute. reflexivity.
  - f_equal. rewrite chomp_newline. unfold openstack_config. rewrite <- !str_app_assoc, (str_app_assoc _ "router-id = ").
    apply chomp_line; [done|]. rewrite str_has_app. unfold single_lines in H. rewrite Forall_forall in H.
    apply (H "OpenstackRouterID"). by in_list.
Qed.

(** C11: the user data of a node is rendered for every kluster and secret.
    If the values that go into lines are lines and the certificates begin
    with a text, then the files of the document hold: the certificates as they
    are in the secret, up to the line ends at their end, the certificate of
    kube-proxy with four blanks more; a kubeconfig with the URL of the API
    server and the bootstrap token; the configuration of the cloud provider
    with the account of the kluster. *)
Theorem node_files GitCommit k secret : ∃ yaml,
  node_yaml (node_data GitCommit k secret) = Some yaml ∧
  (Forall (λ v, str_has newline v = false) (line_values GitCommit k secret) →
   (∀ path name, (path, name) ∈ [("kubelet-clients-ca.pem", "kubelet-clients-ca.pem"); ("tls-ca.pem", "tls-ca.pem");
       ("apiserver-clients-system-kube-proxy-key.pem", "apiserver-clients-system-kube-proxy-key.pem")] →
     ∀ v, secret !! name = Some v → starts_text v → inline_of (certs +:+ path) yaml = Some (chomp v)) ∧
   (∀ v, secret !! "apiserver-clients-system-kube-proxy.pem" = Some v → starts_text v →
     inline_of (certs +:+ "apiserver-clients-system-kube-proxy.pem") yaml = Some (v +:+ "    ")) ∧
   inline_of "/etc/kubernetes/bootstrap/kubeconfig" yaml = Some (bootstrap_kubeconfig (node_data GitCommit k secret)) ∧
   inline_of "/etc/kubernetes/openstack/openstack.config" yaml = Some (openstack_config (node_data GitCommit k secret))).
Proof.
  set (d := node_data GitCommit k secret). exists (render (node_value d) Node_nodes). split; [apply node_yaml_render|].
  intros H%single_lines_data. pose proof (Node_on_lines d H) as Ht.
  split_and!.
  - assert (∀ f v, secret !! f = Some v → default "" (secret !! f) = v) as Hg by (by intros f v ->).
    intros path name Hin v Hv%Hg Hst. rewrite <- (str_app_nil_r v).
    repeat (apply elem_of_cons in Hin as [[= -> ->]|Hin]); [..|by apply not_elem_of_nil in Hin];
      [eapply cert_file; [done|apply kubelet_entry|..]|eapply cert_file; [done|apply tls_entry|..]|eapply cert_file; [done|apply key_entry|..]];
      try done; cbn; by rewrite Hv.
  - intros v Hv Hst. rewrite <- (chomp_line v "    ") by done. eapply cert_file; [done|apply proxy_entry|done|done| |done].
    cbn. by rewrite Hv.
  - by apply kubeconfig_file.
  - by apply openstack_file.
Qed.

(** * Concrete values *)
Definition demo_node_spec (domain : string) : KlusterSpec :=
  {| AdvertiseAddress := "1.1.1.1"; ClusterCIDR := "3.3.3.3/24"; DNSAddress := "2.2.2.2"; DNSDomain := domain; spec_Name := "test";
     NodePools := []; Openstack := {| LBSubnetID := "lb-id"; NetworkID := ""; ProjectID := ""; RouterID := "router-id"; SecurityGroupID := "" |};
     ServiceCIDR := "" |}.
Definition demo_node_kluster (domain : string) : Kluster :=
  {| Meta := zero_ObjectMeta; Spec := demo_node_spec domain;
     Status := {| Apiserver := "https://apiserver.somewhere"; Message := ""; st_NodePools := []; Phase := ""; st_Version := ""; Wormhole := "" |} |}.
Definition demo_node_secret : gmap string string :=
  list_to_map ((λ f, (f, "[DATA for " +:+ f +:+ "]")) <$> requiredNodeSecrets).

Lemma node_files_witness : ∃ yaml,
  node_yaml (node_data "git" (demo_node_kluster "cluster.local") demo_node_secret) = Some yaml ∧
  inline_of "/etc/kubernetes/certs/tls-ca.pem" yaml = Some "[DATA for tls-ca.pem]".
Proof.
  destruct (node_files "git" (demo_node_kluster "cluster.local") demo_node_secret) as (yaml & Hy & H).
  exists yaml. split; [exact Hy|]. destruct H as (Hc & _); [by repeat constructor|].
  exact (Hc "tls-ca.pem" "tls-ca.pem" ltac:(in_list) "[DATA for tls-ca.pem]" eq_refl ltac:(split; [reflexivity|discriminate])).
Defined.

(** The DNS domain of a specification is not validated: a line end in it puts
    units of the requester's choice into the user data. *)
Definition demo_domain : string := "x
    - name: other.service
      enable: true
      contents: |
        [Service]
        ExecStart=/bin/true \".
Lemma domain_injects :
  KlusterSpecValidate.Validate (demo_node_spec demo_domain) = None ∧
  (yaml ← node_yaml (node_data "git" (demo_node_kluster demo_domain) demo_node_secret); after "    - name: other.service" (lines yaml)) ≠ None.
Proof. split; vm_compute; done. Qed.

(** The document is reasoned about with the lemmas above, not by computation. *)
#[global] Opaque node_yaml Node_nodes.
