(* ===== verification/Manifests.v ===== *)
(** [pkg/controller/ground/bootstrap/dns/manifests.go] and [RenderManifest]:
    the manifests of kube-dns.

    They are rendered with [html/template], which escapes the values as for a
    page of HTML. *)
From S2P Require Import Prelude GoStrings Templates.

(** The manifest of the deployment
    [KubeDNSDeployment_v20171016], src/pkg/controller/ground/bootstrap/dns/manifests.go:4-158 *)
Definition KubeDNSDeployment_v20171016 : string := raw "
apiVersion: extensions/v1beta1
kind: Deployment
metadata:
  name: kube-dns
  namespace: kube-system
  labels:
    k8s-app: kube-dns
    kubernetes.io/cluster-service: `true`
    addonmanager.kubernetes.io/mode: Reconcile
spec:
  # replicas: not specified here:
  # 1. In order to make Addon Manager do not reconcile this replicas parameter.
  # 2. Default is 1.
  # 3. Will be tuned in real time if DNS horizontal auto-scaling is turned on.
  strategy:
    rollingUpdate:
      maxSurge: 10%
      maxUnavailable: 0
  selector:
    matchLabels:
      k8s-app: kube-dns
  template:
    metadata:
      labels:
        k8s-app: kube-dns
      annotations:
        scheduler.alpha.kubernetes.io/critical-pod: ''
    spec:
      tolerations:
      - key: `CriticalAddonsOnly`
        operator: `Exists`
      volumes:
      - name: kube-dns-config
        configMap:
          name: kube-dns
          optional: true
      containers:
      - name: kubedns
        image: {{ .Repository }}/k8s-dns-kube-dns-amd64:{{ .Version }}
        resources:
          # TODO: Set memory limits when we've profiled the container for large
          # clusters, then set request = limit to keep this container in
          # guaranteed class. Currently, this container falls into the
          # `burstable` category so the kubelet doesn't backoff from restarting it.
          limits:
            memory: 170Mi
          requests:
            cpu: 100m
            memory: 70Mi
        livenessProbe:
          httpGet:
            path: /healthcheck/kubedns
            port: 10054
            scheme: HTTP
          initialDelaySeconds: 60
          timeoutSeconds: 5
          successThreshold: 1
          failureThreshold: 5
        readinessProbe:
          httpGet:
            path: /readiness
            port: 8081
            scheme: HTTP
          # we poll on pod startup for the Kubernetes master service and
          # only setup the /readiness HTTP server once that's available.
          initialDelaySeconds: 3
          timeoutSeconds: 5
        args:
        - --domain={{ .Domain }}.
        - --dns-port=10053
        - --config-dir=/kube-dns-config
        - --v=2
        env:
        - name: PROMETHEUS_PORT
          value: `10055`
        ports:
        - containerPort: 10053
          name: dns-local
          protocol: UDP
        - containerPort: 10053
          name: dns-tcp-local
          protocol: TCP
        - containerPort: 10055
          name: metrics
          protocol: TCP
        volumeMounts:
        - name: kube-dns-config
          mountPath: /kube-dns-config
      - name: dnsmasq
        image: {{ .Repository }}/k8s-dns-dnsmasq-nanny-amd64:{{ .Version }}
        livenessProbe:
          httpGet:
            path: /healthcheck/dnsmasq
            port: 10054
            scheme: HTTP
          initialDelaySeconds: 60
          timeoutSeconds: 5
          successThreshold: 1
          failureThreshold: 5
        args:
        - -v=2
        - -logtostderr
        - -configDir=/etc/k8s/dns/dnsmasq-nanny
        - -restartDnsmasq=true
        - --
        - -k
        - --cache-size=1000
        - --no-negcache
        - --log-facility=-
        - --server=/{{ .Domain }}/127.0.0.1#10053
        - --server=/in-addr.arpa/127.0.0.1#10053
        - --server=/ip6.arpa/127.0.0.1#10053
        ports:
        - containerPort: 53
          name: dns
          protocol: UDP
        - containerPort: 53
          name: dns-tcp
          protocol: TCP
        # see: https://github.com/kubernetes/kubernetes/issues/29055 for details
        resources:
          requests:
            cpu: 150m
            memory: 20Mi
        volumeMounts:
        - name: kube-dns-config
          mountPath: /etc/k8s/dns/dnsmasq-nanny
      - name: sidecar
        image: {{ .Repository }}/k8s-dns-sidecar-amd64:{{ .Version }}
        livenessProbe:
          httpGet:
            path: /metrics
            port: 10054
            scheme: HTTP
          initialDelaySeconds: 60
          timeoutSeconds: 5
          successThreshold: 1
          failureThreshold: 5
        args:
        - --v=2
        - --logtostderr
        - --probe=kubedns,127.0.0.1:10053,kubernetes.default.svc.{{ .Domain }},5,A
        - --probe=dnsmasq,127.0.0.1:53,kubernetes.default.svc.{{ .Domain }},5,A
        ports:
        - containerPort: 10054
          name: metrics
          protocol: TCP
        resources:
          requests:
            memory: 20Mi
            cpu: 10m
      dnsPolicy: Default  # Don't use cluster DNS.
      serviceAccountName: kube-dns
".

(** The manifest of the service
    [KubeDNSService_v20171016], src/pkg/controller/ground/bootstrap/dns/manifests.go:160-186 *)
Definition KubeDNSService_v20171016 : string := raw "
apiVersion: v1
kind: Service
metadata:
  name: kube-dns
  namespace: kube-system
  labels:
    k8s-app: kube-dns
    kubernetes.io/cluster-service: `true`
    addonmanager.kubernetes.io/mode: Reconcile
    kubernetes.io/name: `KubeDNS`
  # Without this resourceVersion value, an update of the Service between versions will yield:
  #   Service `kube-dns` is invalid: metadata.resourceVersion: Invalid value: ``: must be specified for an update
  resourceVersion: `0`
spec:
  selector:
    k8s-app: kube-dns
  clusterIP: {{ .ClusterIP }}
  ports:
  - name: dns
    port: 53
    protocol: UDP
  - name: dns-tcp
    port: 53
    protocol: TCP
".

(** [RenderManifest], src/pkg/controller/ground/bootstrap/dns/dns.go:218-229 *)
Definition RenderManifest (strtmpl : string) (obj : fields) : reply string :=
  match Parse [] strtmpl with
  | None => Bad (ErrNew "error when parsing template")
  | Some tmpl =>
      match html_Execute tmpl obj with
      | None => Bad (ErrNew "error when executing template")
      | Some buf => Ok buf
      end
  end.

(** * What is rendered *)
Definition deployment_fields (repository version domain : string) : fields :=
  [("Repository", repository); ("Version", version); ("Domain", domain)].
Definition deployment_nodes : list node := default [] (Parse [] KubeDNSDeployment_v20171016).
Definition service_nodes : list node := default [] (Parse [] KubeDNSService_v20171016).
Lemma Parse_deployment : Parse [] KubeDNSDeployment_v20171016 = Some deployment_nodes.
Proof. vm_compute. reflexivity. Qed.
Lemma Parse_service : Parse [] KubeDNSService_v20171016 = Some service_nodes.
Proof. vm_compute. reflexivity. Qed.

(** A template without functions *)
Lemma Execute_no_functions esc t data :
  forallb (λ n, match n with NText _ => true | NAction p => existsb (String.eqb (pl_field p)) (fst <$> data) && bool_decide (pl_calls p = []) end) t = true →
  Execute_with esc [] t data = Some (render (λ p, esc (value data p)) t).
Proof.
  induction t as [|[s|p] t IH]; [done|..]; cbn [forallb]; intros [Hn Ht]%andb_true_iff; cbn [Execute_with render].
  - by rewrite IH.
  - apply andb_true_iff in Hn as [[v Hv]%field_some Hc%bool_decide_eq_true].
    assert (value data p = v) as -> by (unfold value, indent_of; by rewrite Hc, Hv).
    unfold eval. rewrite Hc, Hv. cbn. by rewrite IH.
Qed.

Definition escaped (data : fields) (p : pipeline) : string := htmlescaper (value data p).
Lemma render_deployment repository version domain :
  RenderManifest KubeDNSDeployment_v20171016 (deployment_fields repository version domain) =
    Ok (render (escaped (deployment_fields repository version domain)) deployment_nodes).
Proof.
  unfold RenderManifest. rewrite Parse_deployment. unfold html_Execute.
  assert (forallb in_text_context deployment_nodes = true) as -> by (vm_compute; reflexivity).
  rewrite Execute_no_functions by (vm_compute; reflexivity). reflexivity.
Qed.
Lemma render_service ip :
  RenderManifest KubeDNSService_v20171016 [("ClusterIP", ip)] = Ok (render (escaped [("ClusterIP", ip)]) service_nodes).
Proof.
  unfold RenderManifest. rewrite Parse_service. unfold html_Execute.
  assert (forallb in_text_context service_nodes = true) as -> by (vm_compute; reflexivity).
  rewrite Execute_no_functions by (vm_compute; reflexivity). reflexivity.
Qed.

(** What the escaper leaves alone *)
Definition html_plain (s : string) : bool := str_all (fun c => String.eqb (html_char c) (String c "")) s.
Lemma htmlescaper_plain s : html_plain s = true → htmlescaper s = s.
Proof.
  induction s as [|c s IH]; [done|]. cbn. intros [->%String.eqb_eq H]%andb_true_iff. cbn. by rewrite IH.
Qed.

(** A line of a template with its values is a line of the document. *)
Lemma line_rendered ev t x : x ∈ template_lines t → str_has newline (render ev x) = false → render ev x ∈ lines (render ev t).
Proof.
  intros Hx Hn. rewrite lines_render. unfold rendered. apply list_elem_of_In, in_concat. exists (lines (render ev x)).
  rewrite (lines_single _ Hn). split; [|by left]. apply list_elem_of_In, list_elem_of_fmap. exists x. by rewrite (lines_single _ Hn).
Qed.
Lemma has_line ev t x s : bool_decide (x ∈ template_lines t) = true → render ev x = s → str_has newline s = false →
  s ∈ lines (render ev t).
Proof. intros Hx%bool_decide_eq_true <- Hn. by apply line_rendered. Qed.
Lemma htmlescaper_line s : str_has newline s = false → str_has newline (htmlescaper s) = false.
Proof.
  induction s as [|c s IH]; [done|]. intros H. change (String c s) with (String c "" +:+ s) in H.
  rewrite str_has_app in H. apply orb_false_iff in H as [Hc Hs]. cbn [htmlescaper]. rewrite str_has_app, (IH Hs), orb_false_r.
  destruct c as [[] [] [] [] [] [] [] []]; done.
Qed.

Definition act (f : string) : node := NAction {| pl_field := f; pl_calls := [] |}.
Ltac find_line l :=
  refine (has_line _ _ l _ _ _ _); [vm_compute; reflexivity | cbn; rewrite ?str_app_nil_r; reflexivity |
    rewrite ?str_has_app; repeat match goal with H : str_has newline _ = false |- _ => rewrite H; clear H end; reflexivity].


(** The defaults come out unchanged; a version with build metadata does not. *)
Lemma defaults_plain : html_plain "gcr.io/google_containers" = true ∧ html_plain "1.14.5" = true ∧ htmlescaper "1.14.5+sap" = "1.14.5&#43;sap".
Proof. vm_compute. done. Qed.

(** Rendering is reasoned about with the lemmas above, not by computation. *)
#[global] Opaque RenderManifest.
