(* ===== verification/Bootstrap.v ===== *)
(** [pkg/controller/ground/bootstrap.go] and [ground/bootstrap/dns]: seeding a
    new cluster with its roles, storage class and DNS.

    An object carries the fields the code sets; the deployment and the service
    of kube-dns are decoded, by a call, from a manifest of [Manifests].  The second
    half of the file gives the API server a store and shows that seeding
    establishes the objects in it and may be repeated. *)
From S2P Require Import Prelude GoStrings Models Factory Templates Manifests.

Inductive kind := KClusterRoleBinding | KClusterRole | KStorageClass | KServiceAccount
  | KConfigMap | KDeployment | KService.

(** A Kubernetes object: kind, name, and its content *)
Inductive content :=
| CRoleBinding (roleKind roleName subjectKind subjectName : string)
| CRole (verb group resource : string)
| CStorageClass (provisioner : string) (isDefault : bool)
| CLabels (labels : list (string * string))
| CManifest (manifest : string).
Record object := { ob_kind : kind; ob_name : string; ob_content : content }.

#[export] Instance kind_eq_dec : EqDecision kind.
Proof. solve_decision. Defined.
#[export] Instance content_eq_dec : EqDecision content.
Proof. solve_decision. Defined.
#[export] Instance object_eq_dec : EqDecision object.
Proof. solve_decision. Defined.
#[export] Instance kind_countable : Countable kind.
Proof.
  refine (inj_countable' (λ k, match k with KClusterRoleBinding => 0 | KClusterRole => 1 | KStorageClass => 2
    | KServiceAccount => 3 | KConfigMap => 4 | KDeployment => 5 | KService => 6 end)%nat
    (λ n, match n with 0 => KClusterRoleBinding | 1 => KClusterRole | 2 => KStorageClass
    | 3 => KServiceAccount | 4 => KConfigMap | 5 => KDeployment | _ => KService end)%nat _).
  by intros [].
Defined.

(** The calls to the API server of the new cluster; decoding a rendered
    manifest. *)
Inductive SeedCall :=
| SCreate (o : object)
| SUpdate (o : object)
| SDecode (template : string).
#[export] Instance seed_iface : Iface SeedCall := fun c =>
  match c with SCreate _ | SUpdate _ => unit | SDecode _ => (string * string)%type (* name, manifest *) end.

(** The kinds of client a caller of this file may have: [seed] performs a call. *)
Section Seed.
Context {St : Type} (seed : ∀ c : SeedCall, Go St (resp c)).

(** The common shape of the [CreateOrUpdate] functions: an existing object
    is updated; any other error of the creation is wrapped. *)
Definition CreateOrUpdate (what what_update : string) (o : object) : Go St unit :=
  r ← attempt (seed (SCreate o));
  match r with
  | Ok _ => mret tt
  | Bad err =>
      if negb (IsAlreadyExists err) then fail (ErrNew (what +:+ Error err))
      else
        r ← attempt (seed (SUpdate o));
        match r with Ok _ => mret tt | Bad err => fail (ErrNew (what_update +:+ Error err)) end
  end.

(** [CreateOrUpdateClusterRoleBinding], src/pkg/controller/ground/bootstrap.go:130-141 *)
Definition CreateOrUpdateClusterRoleBinding : object -> Go St unit :=
  CreateOrUpdate "unable to create RBAC clusterrolebinding: " "unable to update RBAC clusterrolebinding: ".
(** [CreateOrUpdateClusterRole], src/pkg/controller/ground/bootstrap.go:143-154 *)
Definition CreateOrUpdateClusterRole : object -> Go St unit :=
  CreateOrUpdate "unable to create RBAC clusterrole: " "unable to update RBAC clusterrole: ".
(** [CreateOrUpdateDeployment], src/pkg/controller/ground/bootstrap/dns/dns.go:179-190 *)
Definition CreateOrUpdateDeployment : object -> Go St unit :=
  CreateOrUpdate "unable to create deployment: " "unable to update deployment: ".
(** [CreateOrUpdateService], src/pkg/controller/ground/bootstrap/dns/dns.go:192-203 *)
Definition CreateOrUpdateService : object -> Go St unit :=
  CreateOrUpdate "unable to create a new kube-dns service: " "unable to create/update the kube-dns service: ".
(** [CreateOrUpdateConfigMap], src/pkg/controller/ground/bootstrap/dns/dns.go:205-216 *)
Definition CreateOrUpdateConfigMap : object -> Go St unit :=
  CreateOrUpdate "unable to create configmap: " "unable to update configmap: ".

(** An existing service account is left as it is.
    [CreateOrUpdateServiceAccount], src/pkg/controller/ground/bootstrap/dns/dns.go:170-177 *)
Definition CreateOrUpdateServiceAccount (o : object) : Go St unit :=
  r ← attempt (seed (SCreate o));
  match r with
  | Ok _ => mret tt
  | Bad err => if negb (IsAlreadyExists err) then fail (ErrNew ("unable to create serviceaccount: " +:+ Error err)) else mret tt
  end.

Definition storage_class : object :=
  {| ob_kind := KStorageClass; ob_name := "cinder-default"; ob_content := CStorageClass "kubernetes.io/cinder" true |}.
(** [SeedCinderStorageClass], src/pkg/controller/ground/bootstrap.go:37-59 *)
Definition SeedCinderStorageClass : Go St unit :=
  CreateOrUpdate "unable to create storage class: " "unable to update storage class: " storage_class.

Definition admin_binding : object :=
  {| ob_kind := KClusterRoleBinding; ob_name := "kubernikus:admin";
     ob_content := CRoleBinding "ClusterRole" "cluster-admin" "Group" "os:kubernetes_admin" |}.
(** [SeedKubernikusAdmin], src/pkg/controller/ground/bootstrap.go:61-78 *)
Definition SeedKubernikusAdmin : Go St unit := CreateOrUpdateClusterRoleBinding admin_binding.

Definition bootstrap_binding : object :=
  {| ob_kind := KClusterRoleBinding; ob_name := "kubernikus:kubelet-bootstrap";
     ob_content := CRoleBinding "ClusterRole" "system:node-bootstrapper" "Group" "system:bootstrappers" |}.
(** [SeedAllowBootstrapTokensToPostCSRs], src/pkg/controller/ground/bootstrap.go:80-97 *)
Definition SeedAllowBootstrapTokensToPostCSRs : Go St unit := CreateOrUpdateClusterRoleBinding bootstrap_binding.

Definition approve_role : object :=
  {| ob_kind := KClusterRole; ob_name := "kubernikus:approve-node-client-csr";
     ob_content := CRole "create" "certificates.k8s.io" "certificatesigningrequests/nodeclient" |}.
Definition approve_binding : object :=
  {| ob_kind := KClusterRoleBinding; ob_name := "kubernikus:node-client-csr-autoapprove";
     ob_content := CRoleBinding "ClusterRole" "kubernikus:approve-node-client-csr" "Group" "system:bootstrappers" |}.
(** [SeedAutoApproveNodeBootstrapTokens], src/pkg/controller/ground/bootstrap.go:99-128 *)
Definition SeedAutoApproveNodeBootstrapTokens : Go St unit :=
  _ ← CreateOrUpdateClusterRole approve_role;
  CreateOrUpdateClusterRoleBinding approve_binding.

(** [SERVICE_ACCOUNT], src/pkg/controller/ground/bootstrap/dns/dns.go:20-29 *)
Definition SERVICE_ACCOUNT : string := "kube-dns".
Definition CONFIGMAP : string := "kube-dns".
Definition DEFAULT_REPOSITORY : string := "gcr.io/google_containers".
Definition DEFAULT_VERSION : string := "1.14.5".

Definition dns_account : object :=
  {| ob_kind := KServiceAccount; ob_name := SERVICE_ACCOUNT;
     ob_content := CLabels [("kubernetes.io/cluster-service", "true"); ("addonmanager.kubernetes.io/mode", "Reconcile")] |}.
(** [createKubeDNSServiceAccount], src/pkg/controller/ground/bootstrap/dns/dns.go:77-88 *)
Definition createKubeDNSServiceAccount : Go St unit := CreateOrUpdateServiceAccount dns_account.

Definition dns_configmap : object :=
  {| ob_kind := KConfigMap; ob_name := CONFIGMAP;
     ob_content := CLabels [("addonmanager.kubernetes.io/mode", "EnsureExists")] |}.
(** [createKubeDNSConfigMap], src/pkg/controller/ground/bootstrap/dns/dns.go:90-100 *)
Definition createKubeDNSConfigMap : Go St unit := CreateOrUpdateConfigMap dns_configmap.

(** [getKubeDNSDeployment], src/pkg/controller/ground/bootstrap/dns/dns.go:138-152 *)
Definition getKubeDNSDeployment (options : list (string * string)) : Go St object :=
  template ← lift_reply (RenderManifest KubeDNSDeployment_v20171016 options);
  r ← seed (SDecode template);
  let '(name, manifest) := r : string * string in
  mret {| ob_kind := KDeployment; ob_name := name; ob_content := CManifest manifest |}.
(** [getKubeDNSService], src/pkg/controller/ground/bootstrap/dns/dns.go:154-168 *)
Definition getKubeDNSService (options : list (string * string)) : Go St object :=
  template ← lift_reply (RenderManifest KubeDNSService_v20171016 options);
  r ← seed (SDecode template);
  let '(name, manifest) := r : string * string in
  mret {| ob_kind := KService; ob_name := name; ob_content := CManifest manifest |}.

(** [createKubeDNSDeployment], src/pkg/controller/ground/bootstrap/dns/dns.go:102-119 *)
Definition createKubeDNSDeployment (repository version domain : string) : Go St unit :=
  deployment ← getKubeDNSDeployment (deployment_fields repository version domain);
  CreateOrUpdateDeployment deployment.
(** [createKubeDNSService], src/pkg/controller/ground/bootstrap/dns/dns.go:121-136 *)
Definition createKubeDNSService (clusterIP : string) : Go St unit :=
  service ← getKubeDNSService [("ClusterIP", clusterIP)];
  CreateOrUpdateService service.

(** [SeedKubeDNS], src/pkg/controller/ground/bootstrap/dns/dns.go:41-75 *)
Definition SeedKubeDNS (repository version domain clusterIP : string) : Go St unit :=
  let repository := or_default repository DEFAULT_REPOSITORY in
  let version := or_default version DEFAULT_VERSION in
  let domain := or_default domain DEFAULT_DOMAIN in
  if decide (clusterIP = "") then fail (ErrNew "Cluster IP for kube-dns service missing.")
  else
    _ ← createKubeDNSServiceAccount;
    _ ← createKubeDNSConfigMap;
    _ ← createKubeDNSDeployment repository version domain;
    createKubeDNSService clusterIP.

(** [SeedKluster], src/pkg/controller/ground/bootstrap.go:17-35 *)
Definition SeedKluster (kluster : Kluster) : Go St unit :=
  _ ← SeedAllowBootstrapTokensToPostCSRs;
  _ ← SeedAutoApproveNodeBootstrapTokens;
  _ ← SeedKubernikusAdmin;
  _ ← SeedCinderStorageClass;
  SeedKubeDNS "" "" (DNSDomain (Spec kluster)) (DNSAddress (Spec kluster)).
End Seed.

(** * The API server as a store *)

Abbreviation store := (gmap (kind * string) content).
Definition key_of_object (o : object) : kind * string := (ob_kind o, ob_name o).

Section Store.
(** The decoder: the name and the manifest of what is rendered. *)
Context (decode : string -> string * string).

(** The documented behaviour of create and update *)
Definition store_answer (c : SeedCall) (s : store) : store * reply (resp c) :=
  match c return store * reply (resp c) with
  | SCreate o =>
      match s !! key_of_object o with
      | Some _ => (s, Bad (ErrStatus ReasonAlreadyExists "exists"))
      | None => (<[key_of_object o := ob_content o]> s, Ok tt)
      end
  | SUpdate o =>
      match s !! key_of_object o with
      | Some _ => (<[key_of_object o := ob_content o]> s, Ok tt)
      | None => (s, Bad (ErrStatus ReasonNotFound "not found"))
      end
  | SDecode m => (s, Ok (decode m))
  end.
Definition store_seed (c : SeedCall) : Go store (resp c) := fun s =>
  let '(s', r) := store_answer c s in (s', of_reply r).

Definition rendered_or_empty (r : reply string) : string := match r with Ok m => m | Bad _ => "" end.

(** What seeding puts into the store *)
Definition put (s : store) (o : object) : store := <[key_of_object o := ob_content o]> s.
Definition put_new (s : store) (o : object) : store :=
  match s !! key_of_object o with Some _ => s | None => put s o end.

Definition dns_deployment (k : Kluster) : object :=
  let '(name, m) := decode (rendered_or_empty (RenderManifest KubeDNSDeployment_v20171016
    (deployment_fields DEFAULT_REPOSITORY DEFAULT_VERSION (or_default (DNSDomain (Spec k)) DEFAULT_DOMAIN)))) in
  {| ob_kind := KDeployment; ob_name := name; ob_content := CManifest m |}.
Definition dns_service (k : Kluster) : object :=
  let '(name, m) := decode (rendered_or_empty (RenderManifest KubeDNSService_v20171016 [("ClusterIP", DNSAddress (Spec k))])) in
  {| ob_kind := KService; ob_name := name; ob_content := CManifest m |}.

Definition seeded (k : Kluster) (s : store) : store :=
  let s := fold_left put [bootstrap_binding; approve_role; approve_binding; admin_binding; storage_class] s in
  fold_left put [dns_configmap; dns_deployment k; dns_service k] (put_new s dns_account).

Lemma CreateOrUpdate_store w w' o s : CreateOrUpdate store_seed w w' o s = (put s o, Ret tt).
Proof.
  unfold CreateOrUpdate, store_seed, mbind, go_bind, attempt, put. simpl.
  destruct (s !! key_of_object o) eqn:Hl; simpl; rewrite ?Hl; done.
Qed.
Lemma CreateOrUpdateServiceAccount_store o s :
  CreateOrUpdateServiceAccount store_seed o s = (put_new s o, Ret tt).
Proof.
  unfold CreateOrUpdateServiceAccount, store_seed, mbind, go_bind, attempt, put_new. simpl.
  by destruct (s !! key_of_object o).
Qed.

Lemma go_bind_ret {A B St} (m : Go St A) (f : A → Go St B) s s' a :
  m s = (s', Ret a) → (m ≫= f) s = f a s'.
Proof. unfold mbind, go_bind. by intros ->. Qed.

Lemma getKubeDNSDeployment_store k s :
  getKubeDNSDeployment store_seed (deployment_fields DEFAULT_REPOSITORY DEFAULT_VERSION
    (or_default (DNSDomain (Spec k)) DEFAULT_DOMAIN)) s = (s, Ret (dns_deployment k)).
Proof.
  unfold getKubeDNSDeployment, dns_deployment. rewrite render_deployment. generalize (render (escaped (deployment_fields
    DEFAULT_REPOSITORY DEFAULT_VERSION (or_default (DNSDomain (Spec k)) DEFAULT_DOMAIN))) deployment_nodes).
  intros m. unfold mbind, go_bind, store_seed. simpl. by destruct (decode _).
Qed.
Lemma getKubeDNSService_store k s :
  getKubeDNSService store_seed [("ClusterIP", DNSAddress (Spec k))] s = (s, Ret (dns_service k)).
Proof.
  unfold getKubeDNSService, dns_service. rewrite render_service. generalize (render (escaped [("ClusterIP", DNSAddress (Spec k))]) service_nodes).
  intros m. unfold mbind, go_bind, store_seed. simpl. by destruct (decode _).
Qed.

(** The next step of a sequence establishes its object. *)
Ltac seed_step := erewrite go_bind_ret;
  [|first [apply CreateOrUpdate_store | apply CreateOrUpdateServiceAccount_store]].

Lemma SeedKluster_store k s : DNSAddress (Spec k) ≠ "" →
  SeedKluster store_seed k s = (seeded k s, Ret tt).
Proof.
  intros Hd. unfold SeedKluster. seed_step.
  erewrite go_bind_ret; [|unfold SeedAutoApproveNodeBootstrapTokens; seed_step; apply CreateOrUpdate_store].
  do 2 seed_step. unfold SeedKubeDNS. rewrite (decide_False (P := DNSAddress _ = "")) by done.
  do 2 seed_step.
  erewrite go_bind_ret; [|unfold createKubeDNSDeployment; erewrite go_bind_ret by apply getKubeDNSDeployment_store; apply CreateOrUpdate_store].
  unfold createKubeDNSService. erewrite go_bind_ret by apply getKubeDNSService_store. apply CreateOrUpdate_store.
Qed.

Lemma SeedKluster_no_dns k s : DNSAddress (Spec k) = "" →
  snd (SeedKluster store_seed k s) = Fail (ErrNew "Cluster IP for kube-dns service missing.").
Proof.
  intros Hd. unfold SeedKluster. seed_step.
  erewrite go_bind_ret; [|unfold SeedAutoApproveNodeBootstrapTokens; seed_step; apply CreateOrUpdate_store].
  do 2 seed_step. unfold SeedKubeDNS. by rewrite (decide_True (P := DNSAddress _ = "")) by done.
Qed.

(** Putting an object changes its key only. *)
Lemma put_lookup s o : put s o !! key_of_object o = Some (ob_content o).
Proof. apply lookup_insert_eq. Qed.
Lemma put_lookup_ne s o key : key ≠ key_of_object o → put s o !! key = s !! key.
Proof. intros. by apply lookup_insert_ne. Qed.

Definition seed_objects (k : Kluster) : list object :=
  [bootstrap_binding; approve_role; approve_binding; admin_binding; storage_class;
   dns_configmap; dns_deployment k; dns_service k].

Lemma dns_kinds k : ob_kind (dns_deployment k) = KDeployment ∧ ob_kind (dns_service k) = KService.
Proof. unfold dns_deployment, dns_service. by destruct (decode _), (decode _). Qed.

Lemma kinds_differ (a b : object) : ob_kind a ≠ ob_kind b → key_of_object a ≠ key_of_object b.
Proof. intros Hab [=]. done. Qed.

(** Reads a key from a store that objects were put into. *)
Ltac read_store :=
  repeat first [rewrite put_lookup; reflexivity
    | rewrite put_lookup_ne by first [done | apply kinds_differ; rewrite ?(proj1 (dns_kinds _)), ?(proj2 (dns_kinds _)); done]].

(** The objects have keys of their own. *)
Lemma seeded_lookup k s o : o ∈ seed_objects k → seeded k s !! key_of_object o = Some (ob_content o).
Proof.
  unfold seed_objects, seeded. rewrite !elem_of_cons. intros Ho. cbn [fold_left]. unfold put_new.
  destruct_or! Ho; [..|by apply elem_of_nil in Ho]; subst o; read_store.
  all: case_match; read_store.
Qed.

Lemma seeded_account k s : seeded k s !! key_of_object dns_account =
  Some (default (ob_content dns_account) (s !! key_of_object dns_account)).
Proof.
  unfold seeded. cbn [fold_left]. read_store. unfold put_new.
  assert (fold_left put [bootstrap_binding; approve_role; approve_binding; admin_binding; storage_class] s
    !! key_of_object dns_account = s !! key_of_object dns_account) as H by (cbn [fold_left]; read_store; done).
  cbn [fold_left] in H. rewrite H. destruct (s !! key_of_object dns_account) eqn:E; simpl; [congruence|].
  by rewrite put_lookup.
Qed.

Lemma seeded_other k s key :
  key ≠ key_of_object dns_account → (∀ o, o ∈ seed_objects k → key ≠ key_of_object o) →
  seeded k s !! key = s !! key.
Proof.
  intros Ha Hk. unfold seeded. cbn [fold_left]. unfold put_new.
  case_match; rewrite !put_lookup_ne; try done; apply Hk; unfold seed_objects; set_solver.
Qed.
End Store.

(** * Properties *)


Definition demo_decode (m : string) : string * string := ("kube-dns", m).
Definition demo_dns : Kluster :=
  {| Meta := zero_ObjectMeta;
     Spec := {| AdvertiseAddress := ""; ClusterCIDR := ""; DNSAddress := "198.18.128.2"; DNSDomain := "";
                spec_Name := "k"; NodePools := []; Openstack := zero_OpenstackSpec; ServiceCIDR := "" |};
     Status := zero_KlusterStatus |}.

(** Seeding may be repeated, as the ground controller does after a failed
    phase change: a second run succeeds and leaves the store as it is. *)
Theorem SeedKluster_idempotent decode k s s' :
  SeedKluster (store_seed decode) k s = (s', Ret tt) →
  SeedKluster (store_seed decode) k s' = (s', Ret tt).
Proof.
  intros Hrun. destruct (decide (DNSAddress (Spec k) = "")) as [Hd|Hd].
  - apply (f_equal snd) in Hrun. by rewrite SeedKluster_no_dns in Hrun.
  - rewrite SeedKluster_store in * by done. injection Hrun as <-. f_equal.
    apply map_eq. intros key.
    destruct (decide (key = key_of_object dns_account)) as [->|Ha].
    { by rewrite !seeded_account. }
    destruct (decide (Exists (λ o, key = key_of_object o) (seed_objects decode k))) as [He|He].
    + apply Exists_exists in He as (o & Ho & ->). by rewrite !seeded_lookup.
    + rewrite seeded_other; [done..|]. intros o Ho ->. apply He, Exists_exists. by exists o.
Qed.

Lemma SeedKluster_idempotent_witness :
  let s := fst (SeedKluster (store_seed demo_decode) demo_dns ∅) in
  SeedKluster (store_seed demo_decode) demo_dns s = (s, Ret tt).
Proof.
  apply (SeedKluster_idempotent demo_decode demo_dns ∅).
  rewrite SeedKluster_store by discriminate. reflexivity.
Defined.
