(* ===== verification/Metrics.v ===== *)
(** [pkg/controller/metrics/metrics.go]: the gauges that describe a kluster.

    A gauge vector is a finite map from label values to numbers; the functions
    are given the operation that sets a gauge, so that a controller can make it
    a call, and are proved against the map. *)
From S2P Require Import Prelude Models.
Local Open Scope Z_scope.

Inductive gauge := kluster_info | kluster_status_phase | node_pool_size | node_pool_status.
#[export] Instance gauge_eq_dec : EqDecision gauge.
Proof. solve_decision. Defined.
#[export] Instance gauge_countable : Countable gauge.
Proof.
  refine (inj_countable' (λ g, match g with kluster_info => 0 | kluster_status_phase => 1
    | node_pool_size => 2 | node_pool_status => 3 end)%nat
    (λ n, match n with 0 => kluster_info | 1 => kluster_status_phase | 2 => node_pool_size
    | _ => node_pool_status end)%nat _).
  by intros [].
Defined.

(** [klusterPhases], src/pkg/controller/metrics/metrics.go:20-25 *)
Definition klusterPhases : list KlusterPhase :=
  [KlusterPhasePending; KlusterPhaseCreating; KlusterPhaseRunning; KlusterPhaseTerminating].

(** [boolToFloat64], src/pkg/controller/metrics/metrics.go:146-151 *)
Definition boolToFloat64 (b : bool) : Z := if b then 1 else 0.
(** [getCreatorFromAnnotations], src/pkg/controller/metrics/metrics.go:153-159 *)
Definition getCreatorFromAnnotations (annotations : gmap string string) : string :=
  match annotations !! "creator" with None => "NA" | Some creator => creator end.
(** [getAccountFromLabels], src/pkg/controller/metrics/metrics.go:161-167 *)
Definition getAccountFromLabels (labels : gmap string string) : string :=
  match labels !! "account" with None => "NA" | Some account => account end.

Section Setters.
Context {St : Type} (set_gauge : gauge -> list string -> Z -> Go St unit).

(** [SetMetricKlusterInfo], src/pkg/controller/metrics/metrics.go:72-82 *)
Definition SetMetricKlusterInfo (namespace name version projectID : string)
    (annotations labels : gmap string string) : Go St unit :=
  set_gauge kluster_info
    [namespace; name; version; getCreatorFromAnnotations annotations; getAccountFromLabels labels; projectID] 1.

(** [SetMetricKlusterStatusPhase], src/pkg/controller/metrics/metrics.go:91-100 *)
Definition SetMetricKlusterStatusPhase (klusterName : string) (klusterPhase : KlusterPhase) : Go St unit :=
  for_each (fun phase =>
    set_gauge kluster_status_phase [klusterName; phase] (boolToFloat64 (bool_decide (klusterPhase = phase))))
    klusterPhases.

(** [SetMetricKlusterTerminated], src/pkg/controller/metrics/metrics.go:102-110 *)
Definition SetMetricKlusterTerminated (klusterName : string) : Go St unit :=
  for_each (fun phase => set_gauge kluster_status_phase [klusterName; phase] 0) klusterPhases.

(** [setMetricNodePoolSize], src/pkg/controller/metrics/metrics.go:115-122 *)
Definition setMetricNodePoolSize (klusterID nodePoolName imageName flavorName : string) (size : Z) : Go St unit :=
  set_gauge node_pool_size [klusterID; nodePoolName; imageName; flavorName] size.

(** A nil map has no entries.
    [setMetricNodePoolStatus], src/pkg/controller/metrics/metrics.go:130-140 *)
Definition setMetricNodePoolStatus (klusterID nodePoolName : string) (status : gmap string Z) : Go St unit :=
  for_each (fun '(s, v) => set_gauge node_pool_status [klusterID; nodePoolName; s] v) (map_to_list status).
End Setters.

(** * Against a registry *)
Abbreviation registry := (gmap (gauge * list string) Z).
Definition set_in_registry (g : gauge) (labels : list string) (v : Z) : Go registry unit :=
  modify <[(g, labels) := v]>.

Lemma set_loop {A} (g : gauge) (f : A → list string) (v : A → Z) (l : list A) (s : registry) :
  for_each (λ x, set_in_registry g (f x) (v x)) l s =
  (fold_left (λ (s : registry) (x : A), <[(g, f x) := v x]> s) l s, Ret tt).
Proof. revert s. induction l as [|x l IH]; intros s; simpl; [done|]. unfold mbind, go_bind. simpl. apply IH. Qed.

(** The gauge of a phase *)
Definition phase_gauge (name : string) (p : KlusterPhase) : gauge * list string := (kluster_status_phase, [name; p]).

(** The phase gauges of a kluster form an indicator.  After the phase was
    recorded, the gauge of that phase is 1 and those of the other three are 0,
    after termination all four are 0, and the gauges of other klusters are left
    alone. *)
Theorem phase_metric_indicator (name phase p : string) (s : registry) :
  p ∈ klusterPhases →
  fst (SetMetricKlusterStatusPhase set_in_registry name phase s) !! phase_gauge name p =
    Some (if decide (p = phase) then 1 else 0) ∧
  fst (SetMetricKlusterTerminated set_in_registry name s) !! phase_gauge name p = Some 0 ∧
  ∀ other q : string, other ≠ name →
    fst (SetMetricKlusterStatusPhase set_in_registry name phase s) !! phase_gauge other q = s !! phase_gauge other q.
Proof.
  intros Hp. unfold SetMetricKlusterStatusPhase, SetMetricKlusterTerminated, phase_gauge, klusterPhases in *.
  rewrite !set_loop. cbn [fst fold_left].
  split_and!.
  - rewrite !elem_of_cons in Hp. destruct_or! Hp; [..|by apply elem_of_nil in Hp]; subst p.
    all: rewrite ?(lookup_insert_ne _ (_, [name; _])) by done; rewrite lookup_insert_eq; f_equal;
      unfold boolToFloat64; case_decide; [subst; by rewrite bool_decide_true | rewrite bool_decide_false by congruence; done].
  - rewrite !elem_of_cons in Hp. destruct_or! Hp; [..|by apply elem_of_nil in Hp]; subst p.
    all: rewrite ?(lookup_insert_ne _ (_, [name; _])) by done; by rewrite lookup_insert_eq.
  - intros other q Hne. rewrite !lookup_insert_ne by congruence. done.
Qed.

Lemma phase_metric_indicator_witness :
  fst (SetMetricKlusterStatusPhase set_in_registry "k" KlusterPhaseRunning ∅) !! phase_gauge "k" "Pending" = Some 0.
Proof.
  refine (proj1 (phase_metric_indicator "k" KlusterPhaseRunning "Pending" ∅ _)). unfold klusterPhases. left.
Defined.
