(* ===== verification/Pager.v ===== *)
(** The paged listings of gophercloud that every OpenStack client of the
    program iterates over.  A listing is the sequence of its pages, as far as
    the service would deliver them; a page that cannot be fetched or decoded
    is an error. *)
From S2P Require Import Prelude.

Abbreviation pager A := (list (reply (list A))).

(** A page that is empty ends the listing before the handler sees it; the
    handler's boolean asks for the next page.
    [Pager.EachPage], src/vendor/github.com/gophercloud/gophercloud/pagination/pager.go:86-122 *)
Fixpoint EachPage {S A B} (handler : B -> list A -> Go S (B * bool)) (b : B) (p : pager A) : Go S B :=
  match p with
  | [] => mret b
  | Bad e :: _ => fail e
  | Ok [] :: _ => mret b
  | Ok page :: rest =>
      '(b', ok) ← handler b page;
      if (ok : bool) then EachPage handler b' rest else mret b'
  end.

(** What a handler that always asks for the next page gets to see *)
Fixpoint listed {A} (p : pager A) : reply (list A) :=
  match p with
  | [] | Ok [] :: _ => Ok []
  | Bad e :: _ => Bad e
  | Ok page :: rest => match listed rest with Ok l => Ok (page ++ l) | Bad e => Bad e end
  end.

Lemma emits_EachPage {S E C A B} (P : C → Prop) (h : B → list A → Go (sys S E C) (B * bool)) b p :
  (∀ b page, emits P (h b page)) → emits P (EachPage h b p).
Proof.
  intros Hh. revert b. induction p as [|[[|x page]|e] p IH]; intros b; simpl; by emits_solve.
Qed.

(** A handler that only accumulates sees the pages of [listed] in order. *)
Lemma EachPage_fold {S A B} (P : A → Prop) (h : B → list A → Go S (B * bool)) (g : B → list A → B)
    (b : B) (p : pager A) (s : S) l :
  (∀ b page, Forall P page → h b page s = (s, Ret (g b page, true))) →
  (∀ b x y, g b (x ++ y) = g (g b x) y) → (∀ b, g b [] = b) → listed p = Ok l → Forall P l →
  EachPage h b p s = (s, Ret (g b l)).
Proof.
  intros Hh Happ Hnil. revert b l. induction p as [|[[|x page]|e] p IH]; intros b l; cbn [listed EachPage].
  - intros [= <-] _. by rewrite Hnil.
  - intros [= <-] _. by rewrite Hnil.
  - destruct (listed p) as [l'|e] eqn:Hl; [|done]. intros [= <-].
    rewrite app_comm_cons, Forall_app. intros [Hp Hl'].
    unfold mbind, go_bind. rewrite Hh by done. rewrite (IH _ l') by done. by rewrite Happ.
  - done.
Qed.

(** A listing that fails makes the iteration fail or panic, whatever a handler
    that leaves the state alone makes of the pages before. *)
Lemma EachPage_bad {S A B} (h : B → list A → Go S (B * bool)) (b : B) (p : pager A) (s : S) e :
  (∀ b page s, fst (h b page s) = s ∧ match snd (h b page s) with Ret (_, ok) => ok = true | _ => True end) →
  listed p = Bad e → ∃ o, EachPage h b p s = (s, o) ∧ ∀ b', o ≠ Ret b'.
Proof.
  intros Hh. revert b. induction p as [|[[|x page]|e'] p IH]; intros b; cbn [listed EachPage]; try done.
  - destruct (listed p) as [l'|e''] eqn:Hl; [done|]. intros [= ->].
    destruct (Hh b (x :: page) s) as [Hs Hok]. unfold mbind, go_bind.
    destruct (h b (x :: page) s) as [s' [[b1 ok]|e1|w]]; cbn in Hs, Hok |- *; subst s'; [|by eexists..].
    subst ok. by apply IH.
  - intros [= ->]. by eexists.
Qed.
