(* ===== verification/Openstack.v ===== *)
(** [pkg/client/openstack]: the interface the controllers use ([Client]) and
    its implementation over gophercloud.

    The implementation keeps the provider clients and the name caches of the
    Go [client] in its memory and reaches Keystone, Nova and Neutron through
    the calls of [GCall].  A paged listing is one call whose reply is the
    sequence of its pages; a page that cannot be fetched or decoded is an
    error.  Log output is not modelled. *)
From S2P Require Import Prelude GoStrings Models Pager.
Local Open Scope Z_scope.

(** * Data of the interface *)

(** [Project], src/pkg/client/openstack/client.go:70-75 *)
Record Project := { pj_ID : string; pj_Name : string; pj_Domain : string; pj_DomainID : string }.
(** [Subnet], src/pkg/client/openstack/client.go:87-90 *)
Record Subnet := { sn_ID : string; sn_CIDR : string }.
(** [Network], src/pkg/client/openstack/client.go:82-85 *)
Record Network := { nw_ID : string; nw_Subnets : list Subnet }.
(** [Router], src/pkg/client/openstack/client.go:77-80 *)
Record Router := { rt_ID : string; rt_Networks : list Network }.

(** A server with its extended status: [Node] and [StateExt]
    [Node], src/pkg/client/openstack/client.go:92-95 *)
Record Node := { nd_ID : string; TaskState : string; VMState : string; PowerState : Z }.

#[export] Instance Project_eq_dec : EqDecision Project.
Proof. solve_decision. Defined.
#[export] Instance Subnet_eq_dec : EqDecision Subnet.
Proof. solve_decision. Defined.
#[export] Instance Network_eq_dec : EqDecision Network.
Proof. solve_decision. Defined.
#[export] Instance Router_eq_dec : EqDecision Router.
Proof. solve_decision. Defined.
#[export] Instance Node_eq_dec : EqDecision Node.
Proof. solve_decision. Defined.

Definition creating_task (n : Node) : bool :=
  bool_decide (TaskState n ∈ ["spawning"; "scheduling"; "networking"; "block_device_mapping"]).

(** [Starting], src/pkg/client/openstack/client.go:97-112 *)
Definition Starting (n : Node) : bool :=
  if creating_task n then true
  else if negb (bool_decide (TaskState n = "")) then false
  else bool_decide (VMState n = "building").

(** [Stopping], src/pkg/client/openstack/client.go:114-124 *)
Definition Stopping (n : Node) : bool :=
  if creating_task n then false else negb (bool_decide (TaskState n = "")).

(** [Running], src/pkg/client/openstack/client.go:126-158 *)
Definition Running (n : Node) : bool :=
  if Starting n || Stopping n then false
  else if 1 <? PowerState n then false
  else bool_decide (VMState n = "active").

(** The methods of the interface, as the calls its clients make.
    [Client], src/pkg/client/openstack/client.go:56-68 *)
Inductive OpenstackCall :=
| OsCreateNode (k : Kluster) (p : NodePool) (userData : string)
| OsDeleteNode (k : Kluster) (id : string)
| OsGetNodes (k : Kluster) (p : NodePool)
| OsGetProject (id : string)
| OsGetRegion
| OsGetRouters (project_id : string)
| OsDeleteUser (username domain : string)
| OsCreateKlusterServiceUser (username password domain projectID : string)
| OsGetKubernikusCatalogEntry
| OsGetSecurityGroupID (project_id name : string).

#[export] Instance openstack_iface : Iface OpenstackCall := fun c =>
  match c with
  | OsCreateNode _ _ _ => string
  | OsDeleteNode _ _ => unit
  | OsGetNodes _ _ => list Node
  | OsGetProject _ => Project
  | OsGetRegion => string
  | OsGetRouters _ => list Router
  | OsDeleteUser _ _ => unit
  | OsCreateKlusterServiceUser _ _ _ _ => unit
  | OsGetKubernikusCatalogEntry => string
  | OsGetSecurityGroupID _ _ => string
  end.

(** ** A node is in at most one of the three states *)
Definition one_of (a b c : bool) : nat := Nat.b2n a + Nat.b2n b + Nat.b2n c.

Lemma Running_excl n : Running n = true → Starting n = false ∧ Stopping n = false.
Proof. unfold Running. destruct (Starting n), (Stopping n); naive_solver. Qed.
Lemma Starting_excl n : Starting n = true → Stopping n = false.
Proof. unfold Starting, Stopping. destruct (creating_task n), (bool_decide (TaskState n = "")); naive_solver. Qed.
Lemma states_disjoint n : (one_of (Running n) (Starting n) (Stopping n) <= 1)%nat.
Proof.
  unfold one_of. pose proof (Running_excl n) as Hr. pose proof (Starting_excl n) as Hs.
  destruct (Running n), (Starting n), (Stopping n); simpl; try lia;
    (destruct Hr; done) || by (specialize (Hs eq_refl)).
Qed.

(** * gophercloud *)

(** The credentials a provider client was authenticated with stand for the
    provider client. *)
Record Provider := {
  IdentityEndpoint : string;
  pv_Username : string;
  pv_Password : string;
  pv_DomainName : string;
  ScopeProjectID : string;
  ScopeProjectName : string;
  ScopeDomainName : string }.
#[export] Instance Provider_eq_dec : EqDecision Provider.
Proof. solve_decision. Defined.

Inductive service := IdentityV3 | ComputeV2 | NetworkV2.

Record CreateOpts := {
  co_Name : string; FlavorName : string; ImageName : string; co_Networks : list string;
  UserData : string; SecurityGroups : list string }.

Record Endpoint := { Interface : string; URL : string }.
Record CatalogEntry := { ce_Type : string; Endpoints : list Endpoint }.

Inductive GCall :=
| NewClient (endpoint : string)
| AuthenticateV3 (p : Provider)
| NewService (s : service) (p : Provider)
| SecretData (name : string)
| GenerateName (base : string)
| ProjectsGet (id : string)
| DomainsGet (id : string)
| RoutersList (tenant : string)
| PortsList (device owner : string)
| NetworksGet (id : string)
| SubnetsGet (id : string)
| RolesList
| UsersList (domainID name : string)
| UsersUpdate (id password projectID : string)
| UsersCreate (name domainID password projectID : string)
| UsersDelete (id : string)
| AssignToUserInProject (projectID userID roleID : string)
| DomainsList (name : string)
| ServersList (name : string)
| ServersCreate (opts : CreateOpts)
| ServersDelete (id : string)
| ServicesList (type : string)
| EndpointsList (availability serviceID : string)
| TokenCatalog (p : Provider)
| SecurityGroupsList (name tenant : string).

#[export] Instance gophercloud_iface : Iface GCall := fun c =>
  match c with
  | NewClient _ | AuthenticateV3 _ | NewService _ _ => unit
  | SecretData _ => gmap string string
  | GenerateName _ => string
  | ProjectsGet _ => (string * string)%type        (* name, domain id *)
  | DomainsGet _ => string                         (* name *)
  | RoutersList _ => pager string
  | PortsList _ _ => pager string                  (* network ids *)
  | NetworksGet _ => (string * list string)%type   (* id, subnet ids *)
  | SubnetsGet _ => Subnet
  | RolesList => pager (string * string)           (* name, id *)
  | UsersList _ _ => pager string                  (* user ids *)
  | UsersUpdate _ _ _ | UsersCreate _ _ _ _ => string
  | UsersDelete _ | AssignToUserInProject _ _ _ => unit
  | DomainsList _ => pager string
  | ServersList _ => pager Node
  | ServersCreate _ => string
  | ServersDelete _ => unit
  | ServicesList _ => pager string                 (* service ids *)
  | EndpointsList _ _ => pager string              (* regions *)
  | TokenCatalog _ => list CatalogEntry
  | SecurityGroupsList _ _ => pager string         (* group ids *)
  end.

(** * The client *)

(** The fields of the Go struct.  [klusterClients] and the name caches are
    [sync.Map]s.
    [client], src/pkg/client/openstack/client.go:37-54 *)
Record client := {
  klusterClients : gmap string Provider;
  adminProviderClient : option Provider;
  authURL : string;
  authUsername : string;
  authPassword : string;
  authDomain : string;
  authProject : string;
  authProjectDomain : string;
  domainNameToID : gmap string string;
  roleNameToID : gmap string string }.

Definition set_klusterClients (f : gmap string Provider -> gmap string Provider) (c : client) : client :=
  {| klusterClients := f (klusterClients c); adminProviderClient := adminProviderClient c;
     authURL := authURL c; authUsername := authUsername c; authPassword := authPassword c;
     authDomain := authDomain c; authProject := authProject c;
     authProjectDomain := authProjectDomain c; domainNameToID := domainNameToID c;
     roleNameToID := roleNameToID c |}.
Definition set_adminProviderClient (p : option Provider) (c : client) : client :=
  {| klusterClients := klusterClients c; adminProviderClient := p;
     authURL := authURL c; authUsername := authUsername c; authPassword := authPassword c;
     authDomain := authDomain c; authProject := authProject c;
     authProjectDomain := authProjectDomain c; domainNameToID := domainNameToID c;
     roleNameToID := roleNameToID c |}.
Definition set_domainNameToID (f : gmap string string -> gmap string string) (c : client) : client :=
  {| klusterClients := klusterClients c; adminProviderClient := adminProviderClient c;
     authURL := authURL c; authUsername := authUsername c; authPassword := authPassword c;
     authDomain := authDomain c; authProject := authProject c;
     authProjectDomain := authProjectDomain c; domainNameToID := f (domainNameToID c);
     roleNameToID := roleNameToID c |}.
Definition set_roleNameToID (f : gmap string string -> gmap string string) (c : client) : client :=
  {| klusterClients := klusterClients c; adminProviderClient := adminProviderClient c;
     authURL := authURL c; authUsername := authUsername c; authPassword := authPassword c;
     authDomain := authDomain c; authProject := authProject c;
     authProjectDomain := authProjectDomain c; domainNameToID := domainNameToID c;
     roleNameToID := f (roleNameToID c) |}.

Definition serviceUserRoles : list string := ["network_admin"; "member"].

Definition err_secret (ns name : string) (e : error) : error :=
  ErrNew ("Couldn't retrieve secret " +:+ ns +:+ "/" +:+ name +:+ ": " +:+ Error e).

(** The credentials of the operator *)
Definition admin_options (c : client) : Provider :=
  {| IdentityEndpoint := authURL c; pv_Username := authUsername c; pv_Password := authPassword c;
     pv_DomainName := authDomain c; ScopeProjectID := "";
     ScopeProjectName := authProject c; ScopeDomainName := authProjectDomain c |}.

(** The credentials stored for a kluster; a missing key is the empty string. *)
Definition kluster_options (d : gmap string string) : Provider :=
  {| IdentityEndpoint := default "" (d !! "openstack-auth-url");
     pv_Username := default "" (d !! "openstack-username");
     pv_Password := default "" (d !! "openstack-password");
     pv_DomainName := default "" (d !! "openstack-domain-name");
     ScopeProjectID := default "" (d !! "openstack-project-id");
     ScopeProjectName := ""; ScopeDomainName := "" |}.

Section Client.
Context {E : Type} `{!Machine GCall E}.
Abbreviation M := (Go (sys client E GCall)).

Definition call (c : GCall) : M (resp c) := perform c.
Definition update (f : client -> client) : M unit := c ← get_mem; set_mem (f c).

(** The event handler [NewClient] registers: the client of a kluster that
    was deleted is dropped.
    [NewClient], src/pkg/client/openstack/client.go:170-195 *)
Definition on_kluster_delete (k : Kluster) : M unit :=
  update (set_klusterClients (delete (UID (Meta k)))).

(** [adminClient], src/pkg/client/openstack/client.go:197-227 *)
Definition adminClient : M Provider :=
  c ← get_mem;
  match adminProviderClient c with
  | Some p => mret p
  | None =>
      _ ← call (NewClient (authURL c));
      let provider := admin_options c in
      _ ← call (AuthenticateV3 provider);
      _ ← update (set_adminProviderClient (Some provider));
      mret provider
  end.

(** [klusterClientFor], src/pkg/client/openstack/client.go:229-273 *)
Definition klusterClientFor (k : Kluster) : M Provider :=
  let secret_name := Name (Meta k) in
  c ← get_mem;
  match klusterClients c !! UID (Meta k) with
  | Some p => mret p
  | None =>
      r ← attempt (call (SecretData secret_name));
      match r with
      | Bad e => fail (err_secret (Namespace (Meta k)) secret_name e)
      | Ok d =>
          let provider := kluster_options d in
          _ ← call (NewClient (IdentityEndpoint provider));
          _ ← call (AuthenticateV3 provider);
          _ ← update (set_klusterClients (insert (UID (Meta k)) provider));
          mret provider
      end
  end.

(** [GetProject], src/pkg/client/openstack/client.go:275-296 *)
Definition GetProject (id : string) : M Project :=
  provider ← adminClient;
  _ ← call (NewService IdentityV3 provider);
  project ← call (ProjectsGet id);
  let '(name, domainID) := project : string * string in
  domain ← call (DomainsGet domainID);
  mret {| pj_ID := id; pj_Name := name; pj_Domain := domain; pj_DomainID := domainID |}.

(** [getRouterNetworks], src/pkg/client/openstack/client.go:506-519 *)
Definition getRouterNetworks (routerID : string) : M (list string) :=
  p ← call (PortsList routerID "network:router_interface");
  EachPage (fun networks page => mret (networks ++ page, true)) [] p.

(** The two inner loops of [GetRouters]: a network with its subnets. *)
Definition routerNetwork (networkID : string) : M Network :=
  network ← call (NetworksGet networkID);
  let '(id, subnetIDs) := network : string * list string in
  subnets ← for_fold (fun acc subnetID =>
    subnet ← call (SubnetsGet subnetID); mret (acc ++ [subnet])) [] subnetIDs;
  mret {| nw_ID := id; nw_Subnets := subnets |}.

(** [GetRouters], src/pkg/client/openstack/client.go:298-346 *)
Definition GetRouters (project_id : string) : M (list Router) :=
  provider ← adminClient;
  _ ← call (NewService NetworkV2 provider);
  p ← call (RoutersList project_id);
  EachPage (fun resultRouters page =>
    rs ← for_fold (fun acc routerID =>
      networkIDs ← getRouterNetworks routerID;
      networks ← for_fold (fun ns networkID =>
        n ← routerNetwork networkID; mret (ns ++ [n])) [] networkIDs;
      mret (acc ++ [{| rt_ID := routerID; rt_Networks := networks |}])) resultRouters page;
    mret (rs, true)) [] p.

Definition err_role (roleName : string) : error := ErrNew ("Role " +:+ roleName +:+ " not found").

(** [getRoleID], src/pkg/client/openstack/client.go:348-371 *)
Definition getRoleID (roleName : string) : M string :=
  c ← get_mem;
  match roleNameToID c !! roleName with
  | Some id => mret id
  | None =>
      p ← call RolesList;
      _ ← EachPage (fun _ page =>
        _ ← for_each (fun '(name, id) => update (set_roleNameToID (insert name id))) page;
        mret (tt, true)) tt p;
      c' ← get_mem;
      match roleNameToID c' !! roleName with
      | Some id => mret id
      | None => fail (err_role roleName)
      end
  end.

(** [getUserByName], src/pkg/client/openstack/client.go:373-396 *)
Definition getUserByName (username domainID : string) : M (option string) :=
  p ← call (UsersList domainID username);
  EachPage (fun user page =>
    match page with
    | [] => mret (user, false)
    | [u] => mret (Some u, false)
    | _ => fail (ErrNew "More then one user found")
    end) None p.

(** The error of the listing is dropped: the client then loads a domain that
    is not in its cache and the type assertion on the missing value panics.
    [getDomainID], src/pkg/client/openstack/client.go:479-504 *)
Definition getDomainID (domainName : string) : M string :=
  c ← get_mem;
  match domainNameToID c !! domainName with
  | Some id => mret id
  | None =>
      match adminProviderClient c with
      | None => panic "nil provider client"
      | Some provider =>
          _ ← call (NewService IdentityV3 provider);
          _ ← attempt (p ← call (DomainsList domainName);
                       EachPage (fun _ page =>
                         match page with
                         | [] => fail (ErrNew ("Domain " +:+ domainName +:+ " not found"))
                         | [id] => _ ← update (set_domainNameToID (insert domainName id)); mret (tt, false)
                         | _ => fail (ErrNew "More then one domain found")
                         end) tt p);
          c' ← get_mem;
          match domainNameToID c' !! domainName with
          | Some id => mret id
          | None => panic "interface conversion: interface is nil, not string"
          end
      end
  end.

(** [CreateKlusterServiceUser], src/pkg/client/openstack/client.go:398-447 *)
Definition CreateKlusterServiceUser (username password domain projectID : string) : M unit :=
  provider ← adminClient;
  _ ← call (NewService IdentityV3 provider);
  domainID ← getDomainID domain;
  user ← getUserByName username domainID;
  userID ← match user with
           | Some id => call (UsersUpdate id password projectID)
           | None => call (UsersCreate username domainID password projectID)
           end;
  for_each (fun roleName =>
    roleID ← getRoleID roleName;
    call (AssignToUserInProject projectID userID roleID)) serviceUserRoles.

(** [DeleteUser], src/pkg/client/openstack/client.go:449-477 *)
Definition DeleteUser (username domainName : string) : M unit :=
  provider ← adminClient;
  _ ← call (NewService IdentityV3 provider);
  domainID ← getDomainID domainName;
  p ← call (UsersList domainID username);
  EachPage (fun _ page =>
    match page with
    | [] => mret (tt, false)
    | [u] => _ ← call (UsersDelete u); mret (tt, false)
    | _ => fail (ErrNew "Multiple users found")
    end) tt p.

(** The handler overwrites the nodes of the previous page.
    [GetNodes], src/pkg/client/openstack/client.go:521-551 *)
Definition GetNodes (k : Kluster) (pool : NodePool) : M (list Node) :=
  provider ← klusterClientFor k;
  _ ← call (NewService ComputeV2 provider);
  p ← call (ServersList (spec_Name (Spec k) +:+ "-" +:+ np_Name pool +:+ "-"));
  EachPage (fun _ page => mret (page, true)) [] p.

(** [CreateNode], src/pkg/client/openstack/client.go:553-598 *)
Definition CreateNode (k : Kluster) (pool : NodePool) (userData : string) : M string :=
  let base := spec_Name (Spec k) +:+ "-" +:+ np_Name pool +:+ "-" in
  _ ← call (GenerateName base);
  provider ← klusterClientFor k;
  _ ← call (NewService ComputeV2 provider);
  name ← call (GenerateName base);
  call (ServersCreate
    {| co_Name := name; FlavorName := np_Flavor pool; ImageName := np_Image pool;
       co_Networks := [NetworkID (Openstack (Spec k))]; UserData := userData;
       SecurityGroups := [SecurityGroupID (Openstack (Spec k))] |}).

(** [DeleteNode], src/pkg/client/openstack/client.go:600-627 *)
Definition DeleteNode (k : Kluster) (ID : string) : M unit :=
  provider ← klusterClientFor k;
  _ ← call (NewService ComputeV2 provider);
  call (ServersDelete ID).

(** The handlers of [GetRegion]: the first entry of the first page.  A page
    that is not empty has a first entry. *)
Definition first_entry (acc : string) (page : list string) : M (string * bool) :=
  if decide (acc = "") then
    match page with
    | x :: _ => mret (x, true)
    | [] => panic "index out of range"
    end
  else mret (acc, true).

(** [GetRegion], src/pkg/client/openstack/client.go:629-687 *)
Definition GetRegion : M string :=
  provider ← adminClient;
  _ ← call (NewService IdentityV3 provider);
  p ← call (ServicesList "compute");
  computeServiceID ← EachPage first_entry "" p;
  if decide (computeServiceID = "") then fail (ErrNew "Couldn't find a compute service. Bailing out.")
  else
    q ← call (EndpointsList "public" computeServiceID);
    region ← EachPage first_entry "" q;
    if decide (region = "") then fail (ErrNew "Couldn't find the region. Bailing out.")
    else mret region.

(** The first public endpoint of a service of type [kubernikus] *)
Fixpoint public_url (es : list Endpoint) : option string :=
  match es with
  | [] => None
  | e :: es' => if decide (Interface e = "public") then Some (URL e) else public_url es'
  end.
Fixpoint catalog_url (entries : list CatalogEntry) : option string :=
  match entries with
  | [] => None
  | s :: rest =>
      if decide (ce_Type s = "kubernikus")
      then match public_url (Endpoints s) with Some u => Some u | None => catalog_url rest end
      else catalog_url rest
  end.

(** Without an entry the result is the empty string and no error.
    [GetKubernikusCatalogEntry], src/pkg/client/openstack/client.go:695-722 *)
Definition GetKubernikusCatalogEntry : M string :=
  provider ← adminClient;
  _ ← call (NewService IdentityV3 provider);
  catalog ← call (TokenCatalog provider);
  mret (default "" (catalog_url catalog)).

(** [GetSecurityGroupID], src/pkg/client/openstack/client.go:723-752 *)
Definition GetSecurityGroupID (project_id name : string) : M string :=
  provider ← adminClient;
  _ ← call (NewService NetworkV2 provider);
  p ← call (SecurityGroupsList name project_id);
  EachPage (fun group page =>
    match page with
    | [] => fail (ErrNew "Security group not found")
    | [id] => mret (id, false)
    | _ => fail (ErrNew "Multiple security groups with the same name found")
    end) "" p.

(** The client serves the interface. *)
Definition serve (c : OpenstackCall) : M (resp c) :=
  match c with
  | OsCreateNode k p u => CreateNode k p u
  | OsDeleteNode k id => DeleteNode k id
  | OsGetNodes k p => GetNodes k p
  | OsGetProject id => GetProject id
  | OsGetRegion => GetRegion
  | OsGetRouters id => GetRouters id
  | OsDeleteUser u d => DeleteUser u d
  | OsCreateKlusterServiceUser u p d i => CreateKlusterServiceUser u p d i
  | OsGetKubernikusCatalogEntry => GetKubernikusCatalogEntry
  | OsGetSecurityGroupID p n => GetSecurityGroupID p n
  end.
End Client.

(** * Properties *)

Section ClientProperties.
Context {E : Type} `{!Machine GCall E}.
Implicit Types s : sys client E GCall.

Lemma emits_call (P : GCall → Prop) c : P c → emits P (call (E:=E) c).
Proof. apply emits_perform. Qed.
Lemma emits_update (P : GCall → Prop) f : emits P (update (E:=E) f).
Proof. unfold update. emits_solve. Qed.
Lemma wp_call (c : GCall) (Q : outcome (resp c) → sys client E GCall → Prop) s :
  (∀ e' r, answer c (env s) = (e', r) → Q (of_reply r) (Sys (mem s) e' (trace s ++ [c]))) →
  wp (call c) Q s.
Proof. apply wp_perform. Qed.
Lemma wp_update f (Q : outcome unit → sys client E GCall → Prop) s :
  Q (Ret tt) (Sys (f (mem s)) (env s) (trace s)) → wp (update f) Q s.
Proof. done. Qed.
End ClientProperties.

#[export] Hint Resolve emits_update : emits.
#[export] Hint Extern 1 (emits _ (call ?c)) =>
  refine (emits_call _ c _); cbn; auto : emits.

Ltac the_call := match goal with |- wp (call ?c) ?Q ?s => refine (wp_call c Q s _) end.
Ltac os_step :=
  match goal with
  | |- wp (call ?c) ?Q ?s =>
      let e := fresh "e" in let r := fresh "r" in let a := fresh "Ha" in
      refine (wp_call c Q s _); intros e r a; cbn [resp gophercloud_iface] in r; destruct r; cbn [of_reply mem env trace] in *
  | |- wp (update _) _ _ => apply wp_update; cbn [mem env trace]
  | _ => wp_step
  end.
Ltac os_run := repeat (os_step; cbn beta iota).

Section ClientSpecs.
Context {E : Type} `{!Machine GCall E}.
Implicit Types s : sys client E GCall.

(** What a successful [klusterClientFor] guarantees: the provider is in the
    cache, and it was there before or was built from the kluster's secret and
    authenticated.  A failure leaves the memory alone. *)
Lemma klusterClientFor_spec k s :
  wp (klusterClientFor k) (λ o s',
    match o with
    | Ret p =>
        (s' = s ∧ klusterClients (mem s) !! UID (Meta k) = Some p) ∨
        (klusterClients (mem s) !! UID (Meta k) = None ∧
         mem s' = set_klusterClients (insert (UID (Meta k)) p) (mem s) ∧
         ∃ d, p = kluster_options d ∧
              trace s' = trace s ++ [SecretData (Name (Meta k)); NewClient (IdentityEndpoint p); AuthenticateV3 p])
    | Fail _ => mem s' = mem s ∧ klusterClients (mem s) !! UID (Meta k) = None
    | Panic _ => False
    end) s.
Proof.
  unfold klusterClientFor. os_run; [by left| |done..].
  right. split_and!; [done..|]. eexists. split; [done|]. by rewrite <- !app_assoc.
Qed.

(** A provider client is authenticated at most once per kluster.  After a
    successful [klusterClientFor], asking again for a kluster with that UID
    makes no call and returns the same provider client, until the kluster is
    deleted; then the next request reads the secret again. *)
Theorem klusterClientFor_cached k k' s s' p :
  klusterClientFor k s = (s', Ret p) → UID (Meta k') = UID (Meta k) →
  klusterClientFor k' s' = (s', Ret p) ∧
  klusterClients (mem (fst (on_kluster_delete k' s'))) !! UID (Meta k) = None.
Proof.
  intros Hrun Huid. pose proof (wp_elim _ _ _ _ _ (klusterClientFor_spec k s) Hrun) as Hs. simpl in Hs.
  assert (klusterClients (mem s') !! UID (Meta k) = Some p) as Hin.
  { destruct Hs as [[-> ?]|(_ & -> & _)]; [done|]. apply lookup_insert_eq. }
  split; [|rewrite <- Huid; apply lookup_delete_eq].
  unfold klusterClientFor, mbind, go_bind, get_mem. by rewrite Huid, Hin.
Qed.

(** ** Users *)

(** The calls that change something in Keystone *)
Definition changes_users (c : GCall) : bool :=
  match c with
  | UsersUpdate _ _ _ | UsersCreate _ _ _ _ | UsersDelete _ | AssignToUserInProject _ _ _ => true
  | _ => false
  end.
Abbreviation quiet := (emits (fun c => changes_users c = false)).

Lemma quiet_EachPage {A B} (h : B → list A → Go (sys client E GCall) (B * bool)) b p :
  (∀ b page, quiet (h b page)) → quiet (EachPage h b p).
Proof. apply emits_EachPage. Qed.
Lemma quiet_adminClient : quiet (adminClient (E:=E)).
Proof. unfold adminClient. by emits_solve. Qed.
Lemma quiet_getDomainID d : quiet (getDomainID (E:=E) d).
Proof.
  unfold getDomainID. emits_solve; try done. apply quiet_EachPage. intros ? [|? []]; emits_solve.
Qed.
Lemma quiet_getUserByName u d : quiet (getUserByName (E:=E) u d).
Proof.
  unfold getUserByName. emits_solve; try done. apply quiet_EachPage. intros ? [|? []]; emits_solve.
Qed.
Lemma quiet_getRoleID r : quiet (getRoleID (E:=E) r).
Proof.
  unfold getRoleID. emits_solve; try done. apply quiet_EachPage. intros. emits_solve.
Qed.

(** [getRoleID] answers from the cache it leaves behind. *)
Lemma getRoleID_cached r s :
  wp (getRoleID r) (λ o s', ∀ id, o = Ret id → roleNameToID (mem s') !! r = Some id) s.
Proof.
  unfold getRoleID. apply wp_bind, wp_get_mem.
  destruct (roleNameToID (mem s) !! r) as [id|] eqn:Hc; [by apply wp_ret; intros ? [= ->]|].
  apply wp_bind. eapply wp_mono with (Q := λ _ _, True); [done|]. intros [p|e|w] s1 _; try done.
  apply wp_bind. eapply wp_mono with (Q := λ _ _, True); [done|]. intros [[]|e|w] s2 _; try done.
  apply wp_bind, wp_get_mem. destruct (roleNameToID (mem s2) !! r) eqn:Hc2;
    [apply wp_ret | by apply wp_fail]. by intros ? [= ->].
Qed.

(** The call that wrote the user, and the id Keystone replied with *)
Definition wrote_user (username password projectID : string) (w : GCall) (uid : string) : Prop :=
  (∃ id e e', w = UsersUpdate id password projectID ∧
     answer (UsersUpdate id password projectID) e = (e', Ok uid)) ∨
  (∃ dom e e', w = UsersCreate username dom password projectID ∧
     answer (UsersCreate username dom password projectID) e = (e', Ok uid)).

(** A role id [getRoleID] found for the name at some point of the run *)
Definition resolved_role (name id : string) : Prop :=
  ∃ s s', getRoleID (E:=E) name s = (s', Ret id).

Lemma write_user_spec user username password dom projectID s :
  wp (match user with
      | Some id => call (UsersUpdate id password projectID)
      | None => call (UsersCreate username dom password projectID)
      end)
    (λ o s', ∃ w, picked changes_users s' = picked changes_users s ++ [w] ∧
       ∀ uid, o = Ret uid → wrote_user username password projectID w uid) s.
Proof.
  destruct user as [id|].
  all: the_call; intros e' r Ha; eexists.
  all: rewrite picked_snoc; split; [done|]; intros uid Hr.
  all: cbn [resp gophercloud_iface] in r; destruct r as [a|]; [injection Hr as ->|done].
  all: [> left | right]; eauto 6.
Qed.

Lemma assign_roles_spec projectID uid roles s :
  wp (for_each (λ roleName, roleID ← getRoleID roleName;
        call (AssignToUserInProject projectID uid roleID)) roles)
    (λ o s', ∃ ids,
       picked changes_users s' = picked changes_users s ++ (AssignToUserInProject projectID uid <$> ids) ∧
       (length ids <= length roles)%nat ∧
       (o = Ret tt → Forall2 resolved_role roles ids)) s.
Proof.
  revert s. induction roles as [|role roles IH]; intros s; simpl.
  { apply wp_ret. exists []. rewrite app_nil_r. split_and!; [done..|constructor]. }
  apply wp_bind, wp_bind, (wp_quiet changes_users); [apply quiet_getRoleID|].
  intros [id|?|?] s1 R1 H1;
    try (exists []; rewrite app_nil_r; split_and!; [done | simpl; lia | done]).
  the_call. intros e r _.
  assert (picked changes_users (Sys (mem s1) e (trace s1 ++ [AssignToUserInProject projectID uid id])) =
    picked changes_users s ++ [AssignToUserInProject projectID uid id]) as H2
    by (rewrite picked_snoc; unfold picked in *; by rewrite H1).
  cbn [resp gophercloud_iface] in r; destruct r as [[]|]; cbn [of_reply];
    [|exists [id]; split_and!; [done | simpl; lia | done]].
  eapply wp_mono; [apply IH|]. intros o s3 (ids & H3 & Hl & Hr). exists (id :: ids).
  rewrite H3, H2, <- app_assoc. split_and!; [done | simpl; lia |].
  intros Ho. constructor; [by exists s, s1 | by apply Hr].
Qed.

(** A service user that was created or updated without error has been
    written once and holds exactly the roles [network_admin] and [member] in
    the project, assigned in this order to the user Keystone replied with; on
    an error or a panic either nothing was changed, or the user was written
    and at most these two roles were assigned. *)
Theorem CreateKlusterServiceUser_changes username password domain projectID s :
  wp (CreateKlusterServiceUser username password domain projectID) (λ o s',
    match o with
    | Ret _ => ∃ w uid ids,
        picked changes_users s' = picked changes_users s ++ w :: (AssignToUserInProject projectID uid <$> ids) ∧
        wrote_user username password projectID w uid ∧
        Forall2 resolved_role ["network_admin"; "member"] ids
    | _ => picked changes_users s' = picked changes_users s ∨ ∃ w uid ids,
        picked changes_users s' = picked changes_users s ++ w :: (AssignToUserInProject projectID uid <$> ids) ∧
        (length ids <= 2)%nat
    end) s.
Proof.
  unfold CreateKlusterServiceUser.
  apply wp_bind, (wp_quiet changes_users); [apply quiet_adminClient|].
  intros [prov|?|?] s1 _ H1; [|by left..].
  apply wp_bind, (wp_quiet changes_users); [by emits_solve|].
  intros [[]|?|?] s2 _ H2; [|left; congruence..].
  apply wp_bind, (wp_quiet changes_users); [apply quiet_getDomainID|].
  intros [dom|?|?] s3 _ H3; [|left; congruence..].
  apply wp_bind, (wp_quiet changes_users); [apply quiet_getUserByName|].
  intros [user|?|?] s4 _ H4; [|left; congruence..].
  apply wp_bind. eapply wp_mono; [apply write_user_spec|]. intros o5 s5 (w & H5 & Hwrote).
  rewrite H4, H3, H2, H1 in H5.
  destruct o5 as [uid|?|?]; [|right; exists w, "", []; by split; [|simpl; lia]..].
  eapply wp_mono; [apply assign_roles_spec|]. intros o s6 (ids & H6 & Hl & Hr).
  rewrite H5, <- app_assoc in H6.
  destruct o as [[]|?|?]; [|right; by exists w, uid, ids..].
  exists w, uid, ids. split_and!; [done | by apply Hwrote | by apply Hr].
Qed.

(** What a listing of users says: nobody, or exactly one user on its first page *)
Definition listed_none (username : string) : Prop :=
  ∃ dom e e' p, answer (UsersList dom username) e = (e', Ok p) ∧ (p = [] ∨ ∃ r, p = Ok [] :: r).
Definition listed_one (username id : string) : Prop :=
  ∃ dom e e' r, answer (UsersList dom username) e = (e', Ok (Ok [id] :: r)).

Lemma delete_page_spec username dom e0 e1 p s :
  answer (UsersList dom username) e0 = (e1, Ok p) →
  wp (EachPage (fun _ page =>
    match page with
    | [] => mret (tt, false)
    | [u] => _ ← call (UsersDelete u); mret (tt, false)
    | _ => fail (ErrNew "Multiple users found")
    end) tt p)
    (λ o s', (picked changes_users s' = picked changes_users s ∧ (o = Ret tt → listed_none username)) ∨
       ∃ id, picked changes_users s' = picked changes_users s ++ [UsersDelete id] ∧ listed_one username id) s.
Proof.
  intros Ha. destruct p as [|[[|u [|u2 us]]|err] rest]; cbn [EachPage].
  - apply wp_ret. left. split; [done|]. intros _. exists dom, e0, e1, []. auto.
  - apply wp_ret. left. split; [done|]. intros _. exists dom, e0, e1, (Ok [] :: rest). eauto.
  - apply wp_bind, wp_bind. the_call. intros e2 r _.
    assert (listed_one username u) by (by exists dom, e0, e1, rest).
    assert (picked changes_users (Sys (mem s) e2 (trace s ++ [UsersDelete u])) =
      picked changes_users s ++ [UsersDelete u]) by (by rewrite picked_snoc).
    cbn [resp gophercloud_iface] in r. destruct r; cbn [of_reply]; [apply wp_ret, wp_ret|]; right; eauto.
  - apply wp_bind, wp_fail. by left.
  - apply wp_fail. by left.
Qed.

(** [DeleteUser] deletes at most one user, and only one that Keystone
    listed alone under the requested name; without an error and without a
    deletion, Keystone listed nobody. *)
Theorem DeleteUser_changes username domainName s :
  wp (DeleteUser username domainName) (λ o s',
    (picked changes_users s' = picked changes_users s ∧ (o = Ret tt → listed_none username)) ∨
    ∃ id, picked changes_users s' = picked changes_users s ++ [UsersDelete id] ∧ listed_one username id) s.
Proof.
  unfold DeleteUser.
  apply wp_bind, (wp_quiet changes_users); [apply quiet_adminClient|].
  intros [prov|?|?] s1 _ H1; [|by left..].
  apply wp_bind, (wp_quiet changes_users); [by emits_solve|].
  intros [[]|?|?] s2 _ H2; [|left; (split; [congruence|done])..].
  apply wp_bind, (wp_quiet changes_users); [apply quiet_getDomainID|].
  intros [dom|?|?] s3 _ H3; [|left; (split; [congruence|done])..].
  apply wp_bind. the_call. intros e r Ha.
  assert (picked changes_users (Sys (mem s3) e (trace s3 ++ [UsersList dom username])) =
    picked changes_users s) as H4
    by (rewrite picked_snoc, app_nil_r; unfold picked in *; congruence).
  cbn [resp gophercloud_iface] in r. destruct r as [p|?]; cbn [of_reply]; [|by left].
  eapply wp_mono; [by eapply delete_page_spec|]. cbn beta. by rewrite H4.
Qed.

(** The pages of a listing without error, none of them empty *)
Definition pages_of {A} (ps : list (list A)) : pager A := Ok <$> ps.

Lemma EachPage_last {A} (ps : list (list A)) b s :
  Forall (λ page, page ≠ []) ps →
  EachPage (S:=sys client E GCall) (λ _ page, mret (page, true)) b (pages_of ps) s = (s, Ret (default b (last ps))).
Proof.
  intros Hps. revert b. induction Hps as [|page ps Hne Hps IH]; intros b; [done|].
  destruct page as [|x page]; [done|]. cbn -[last].
  unfold mbind, go_bind, mret, go_ret. change (Ok <$> ps) with (pages_of ps).
  rewrite IH, last_cons. by destruct (last ps).
Qed.

Lemma length_last {A} (ps : list (list A)) : (length (default [] (last ps)) <= length (concat ps))%nat.
Proof.
  induction ps as [|a ps IH]; [simpl; lia|].
  rewrite last_cons. change (concat (a :: ps)) with (a ++ concat ps). rewrite length_app.
  destruct (last ps); simpl in *; lia.
Qed.

(** [GetNodes] returns the servers of the last page of the listing: all
    of them when the listing has one page, and only the last page's when it
    has more. *)
Theorem GetNodes_last_page k pool ps s s1 s2 p e :
  klusterClientFor k s = (s1, Ret p) →
  call (NewService ComputeV2 p) s1 = (s2, Ret tt) →
  Forall (λ page, page ≠ []) ps →
  answer (ServersList (spec_Name (Spec k) +:+ "-" +:+ np_Name pool +:+ "-")) (env s2) = (e, Ok (pages_of ps)) →
  snd (GetNodes k pool s) = Ret (default [] (last ps)) ∧
  (snd (GetNodes k pool s) = Ret (concat ps) ↔ (length ps <= 1)%nat).
Proof.
  intros Hk Hc Hps Ha.
  assert (snd (GetNodes k pool s) = Ret (default [] (last ps))) as Hrun.
  { unfold GetNodes, mbind, go_bind. rewrite Hk, Hc. unfold call, perform. rewrite Ha.
    cbn -[EachPage last]. by rewrite EachPage_last. }
  split; [done|]. rewrite Hrun. destruct ps as [|a [|b ps]].
  - by split; [simpl; lia|].
  - split; [simpl; lia|]. intros _. simpl. by rewrite app_nil_r.
  - split; [|simpl; lia]. intros Heq. exfalso.
    apply (f_equal (λ o, match o with Ret l => length l | _ => 0%nat end)) in Heq.
    rewrite last_cons_cons in Heq. pose proof (length_last (b :: ps)).
    change (concat (a :: b :: ps)) with (a ++ concat (b :: ps)) in Heq. rewrite length_app in Heq.
    apply Forall_cons in Hps as [Ha0 _]. destruct a; [done|]. simpl length in Heq at 2. lia.
Qed.

(** A security group is reported only when its project lists exactly one
    of that name on the first page; several are an error, but none at all is
    reported as the empty id without an error. *)
Theorem GetSecurityGroupID_result project_id name s s1 s2 prov e p :
  adminClient s = (s1, Ret prov) →
  call (NewService NetworkV2 prov) s1 = (s2, Ret tt) →
  answer (SecurityGroupsList name project_id) (env s2) = (e, Ok p) →
  snd (GetSecurityGroupID project_id name s) =
    match p with
    | [] | Ok [] :: _ => Ret ""
    | Ok [id] :: _ => Ret id
    | Ok _ :: _ => Fail (ErrNew "Multiple security groups with the same name found")
    | Bad err :: _ => Fail err
    end.
Proof.
  intros Hk Hc Ha. unfold GetSecurityGroupID, mbind, go_bind. rewrite Hk, Hc.
  unfold call, perform. rewrite Ha. by destruct p as [|[[|? []]|] ?].
Qed.

(** [getDomainID] of a name that is not cached panics whenever the listing
    does not yield exactly one domain: the error of the listing is dropped and
    the missing cache entry is used. *)
Theorem getDomainID_unknown d s prov e1 e2 p :
  domainNameToID (mem s) !! d = None → adminProviderClient (mem s) = Some prov →
  answer (NewService IdentityV3 prov) (env s) = (e1, Ok tt) →
  answer (DomainsList d) e1 = (e2, p) →
  match p with
  | Ok (Ok [id] :: _) => snd (getDomainID d s) = Ret id
  | _ => snd (getDomainID d s) = Panic "interface conversion: interface is nil, not string"
  end.
Proof.
  destruct s as [m e0 t]; cbn [mem env trace] in *.
  intros Hd Hp H1 H2. unfold getDomainID, call, perform; go_eval. rewrite Hd, Hp, H1. go_eval. rewrite H2.
  destruct p as [[|[[|id [|? ?]]|] ?]|]; cbn [EachPage of_reply];
    unfold update; go_eval; cbn [domainNameToID set_domainNameToID];
    rewrite ?lookup_insert_eq, ?Hd; done.
Qed.

End ClientSpecs.

(** * A concrete cloud for the witnesses

    Two servers on two pages, one domain, one security group. *)
Definition demo_node (id : string) : Node :=
  {| nd_ID := id; TaskState := ""; VMState := "active"; PowerState := 1 |}.

#[export] Instance demo_cloud : Machine GCall unit := fun c e =>
  (e, match c return reply (resp c) with
      | NewClient _ | AuthenticateV3 _ | NewService _ _ => Ok tt
      | SecretData _ => Ok (<["openstack-username" := "u"]> ∅)
      | GenerateName base => Ok (base +:+ "x")
      | ProjectsGet _ => Ok ("project", "d1")
      | DomainsGet _ => Ok "Default"
      | RoutersList _ => Ok [Ok ["r1"]]
      | PortsList _ _ => Ok [Ok ["n1"]]
      | NetworksGet id => Ok (id, ["s1"])
      | SubnetsGet id => Ok {| sn_ID := id; sn_CIDR := "10.180.0.0/16" |}
      | RolesList => Ok [Ok [("network_admin", "1"); ("member", "2")]]
      | UsersList _ _ => Ok [Ok ["u1"]]
      | UsersUpdate id _ _ => Ok id
      | UsersCreate _ _ _ _ => Ok "u2"
      | UsersDelete _ | AssignToUserInProject _ _ _ => Ok tt
      | DomainsList name => if decide (name = "Default") then Ok [Ok ["d1"]] else Ok []
      | ServersList _ => Ok [Ok [demo_node "a"]; Ok [demo_node "b"]]
      | ServersCreate _ => Ok "c"
      | ServersDelete _ => Ok tt
      | ServicesList _ => Ok [Ok ["nova"]]
      | EndpointsList _ _ => Ok [Ok ["region-1"]]
      | TokenCatalog _ => Ok []
      | SecurityGroupsList _ _ => Ok [Ok ["sg"]]
      end).

Definition demo_client : client :=
  {| klusterClients := ∅; adminProviderClient := None; authURL := "http://keystone";
     authUsername := "admin"; authPassword := "secret"; authDomain := "Default";
     authProject := "master"; authProjectDomain := "Default";
     domainNameToID := ∅; roleNameToID := ∅ |}.
Definition demo_sys : sys client unit GCall := Sys demo_client tt [].
Definition demo_kluster : Kluster :=
  {| Meta := {| Name := "k-acc"; Namespace := "kubernikus"; UID := "uid"; Labels := ∅; Annotations := ∅ |};
     Spec := with_spec_Name "k" zero_KlusterSpec; Status := zero_KlusterStatus |}.
Definition demo_pool : NodePool :=
  {| np_Config := {| Repair := false; Upgrade := false |}; np_Flavor := "f"; np_Image := "i";
     np_Name := "p"; np_Size := 2 |}.
Definition demo_provider : Provider := kluster_options (<["openstack-username" := "u"]> ∅).
Definition demo_sys1 : sys client unit GCall := fst (klusterClientFor demo_kluster demo_sys).
Definition demo_sys2 : sys client unit GCall := fst (call (NewService ComputeV2 demo_provider) demo_sys1).
Definition demo_admin : sys client unit GCall := fst (adminClient demo_sys).
Definition demo_net : sys client unit GCall :=
  fst (call (NewService NetworkV2 (admin_options demo_client)) demo_admin).

Lemma klusterClientFor_cached_witness :
  klusterClientFor demo_kluster demo_sys1 = (demo_sys1, Ret demo_provider).
Proof.
  refine (proj1 (klusterClientFor_cached demo_kluster demo_kluster demo_sys demo_sys1 demo_provider _ _));
    vm_compute; reflexivity.
Defined.

Lemma GetNodes_last_page_witness :
  snd (GetNodes demo_kluster demo_pool demo_sys) = Ret [demo_node "b"] ∧
  snd (GetNodes demo_kluster demo_pool demo_sys) ≠ Ret [demo_node "a"; demo_node "b"].
Proof.
  destruct (GetNodes_last_page demo_kluster demo_pool [[demo_node "a"]; [demo_node "b"]]
    demo_sys demo_sys1 demo_sys2 demo_provider tt) as [H1 H2].
  1,2,4: vm_compute; reflexivity.
  1: repeat constructor; discriminate.
  split; [exact H1|]. intros H. apply H2 in H. simpl in H. lia.
Defined.

Lemma GetSecurityGroupID_result_witness :
  snd (GetSecurityGroupID "project" "default" demo_sys) = Ret "sg".
Proof.
  refine (GetSecurityGroupID_result "project" "default" demo_sys demo_admin demo_net
    (admin_options demo_client) tt [Ok ["sg"]] _ _ _); vm_compute; reflexivity.
Defined.

Lemma getDomainID_unknown_witness :
  snd (getDomainID "Other" demo_admin) = Panic "interface conversion: interface is nil, not string".
Proof.
  refine (getDomainID_unknown "Other" demo_admin (admin_options demo_client) tt tt (Ok []) _ _ _ _);
    vm_compute; reflexivity.
Defined.
