(* ===== verification/KubeClient.v ===== *)
(** [pkg/client/kubernetes/client.go] and [pkg/util/k8s]: the shared clients of
    the clusters, client configurations, the custom resource definition and the
    namespace of the operator; with the contract between the certificates in
    the secret of a kluster and the client built from them. *)
From S2P Require Import Certificates.
From S2P Require Import Factory.
From S2P Require Import Prelude GoStrings Models.
Local Open Scope Z_scope.

(** The REST configuration a clientset was built from stands for it. *)
Record Clientset := { cs_Host : string; cs_Cert : string; cs_Key : string; cs_CA : string }.
#[export] Instance Clientset_eq_dec : EqDecision Clientset.
Proof. solve_decision. Defined.

Inductive crd_condition := CrdCondition (type status : string).

Inductive KubeCall :=
| KSecretGet (name : string)
| KNewForConfig (c : Clientset)
| KCrdCreate (name : string)
| KCrdGet (name : string)
| KCrdDelete (name : string)
| KNamespaceGet (ns : string)
| KNamespaceCreate (ns : string)
| KHealthz
| KTick.   (** the ticker of a poll, false when its time is over *)
#[export] Instance kube_iface : Iface KubeCall := fun c =>
  match c with
  | KSecretGet _ => gmap string string
  | KNewForConfig _ => unit
  | KCrdCreate _ => unit
  | KCrdGet _ => list crd_condition
  | KCrdDelete _ => unit
  | KNamespaceGet _ => unit
  | KNamespaceCreate _ => unit
  | KHealthz => (Z * string)%type
  | KTick => bool
  end.

(** ** Client configurations *)
Record ClientConfig := {
  CurrentContext : string;
  Clusters : list (string * (string * string));      (** name, server, CA *)
  Contexts : list (string * (string * string));      (** name, cluster, user *)
  AuthInfos : list (string * (string * string)) }.   (** user, certificate, key *)

(** [NewClientConfigV1], src/pkg/client/kubernetes/client.go:145-178 *)
Definition NewClientConfigV1 (name user url key cert ca : string) : ClientConfig :=
  {| CurrentContext := name;
     Clusters := [(name, (url, ca))];
     Contexts := [(name, (name, user))];
     AuthInfos := [(user, (cert, key))] |}.

Section KubeClient.
(** The memory is the map of shared clients by kluster UID. *)
Context {E : Type} `{!Machine KubeCall E}.
Abbreviation M := (Go (sys (gmap string Clientset) E KubeCall)).

Definition kcall (c : KubeCall) : M (resp c) := perform c.

Definition missing : error := ErrNew "tls-ca.pem not found in secret".

(** All three errors name the same field.
    [ClientFor], src/pkg/client/kubernetes/client.go:60-108 *)
Definition ClientFor (k : Kluster) : M Clientset :=
  clients ← get_mem;
  match clients !! UID (Meta k) with
  | Some client => mret client
  | None =>
      secret ← kcall (KSecretGet (Name (Meta k)));
      match secret !! "tls-ca.pem", secret !! "apiserver-clients-cluster-admin.pem",
            secret !! "apiserver-clients-cluster-admin-key.pem" with
      | Some ca, Some cert, Some key =>
          let c := {| cs_Host := Apiserver (Status k); cs_Cert := cert; cs_Key := key; cs_CA := ca |} in
          _ ← kcall (KNewForConfig c);
          clients ← get_mem;
          _ ← set_mem (<[UID (Meta k) := c]> clients);
          mret c
      | _, _, _ => fail missing
      end
  end.

(** [NewSharedClientFactory], src/pkg/client/kubernetes/client.go:34-58 *)
Definition forget_client (k : Kluster) : M unit :=
  clients ← get_mem; set_mem (delete (UID (Meta k)) clients).

(** [EnsureNamespace], src/pkg/util/k8s/namespace.go:10-23 *)
Definition EnsureNamespace (ns : string) : M unit :=
  r ← attempt (kcall (KNamespaceGet ns));
  match r with
  | Ok _ => mret tt
  | Bad _ =>
      r ← attempt (kcall (KNamespaceCreate ns));
      match r with
      | Ok _ => mret tt
      | Bad err => if IsAlreadyExists err then mret tt else fail err
      end
  end.

Definition klusterCRDName : string := "klusters.kubernikus.sap.cc".

Definition established (conds : list crd_condition) : bool :=
  existsb (fun '(CrdCondition t s) => bool_decide (t = "Established") && bool_decide (s = "True")) conds.

(** The poll of every 500ms for 60s *)
Fixpoint wait_established (fuel : nat) : M unit :=
  match fuel with
  | O => fail (ErrNew "timed out waiting for the condition")
  | S fuel' =>
      opened ← kcall KTick;
      conds ← kcall (KCrdGet klusterCRDName);
      if established conds then mret tt
      else if (opened : bool) then wait_established fuel'
      else fail (ErrNew "timed out waiting for the condition")
  end.

(** [EnsureCRD], src/pkg/client/kubernetes/client.go:180-232 *)
Definition EnsureCRD : M unit :=
  r ← attempt (kcall (KCrdCreate klusterCRDName));
  _ ← match r with
      | Bad err => if IsAlreadyExists err then mret tt else fail err
      | Ok _ => mret tt
      end;
  r ← attempt (wait_established 121);
  match r with
  | Ok _ => mret tt
  | Bad err =>
      r ← attempt (kcall (KCrdDelete klusterCRDName));
      match r with
      | Bad deleteErr => fail (ErrNew ("[" +:+ Error err +:+ ", " +:+ Error deleteErr +:+ "]"))
      | Ok _ => fail err
      end
  end.

(** [PollUntil] of every second until the stop channel is closed; at most
    [fuel] turns are considered.
    [WaitForServer], src/pkg/client/kubernetes/client.go:234-256 *)
Fixpoint WaitForServer (fuel : nat) : M unit :=
  match fuel with
  | O => fail (ErrNew "Failed to contact apiserver.")
  | S fuel' =>
      opened ← kcall KTick;
      r ← attempt (kcall KHealthz);
      let ok := match r with Ok (status, _) => bool_decide (status = 200%Z) | Bad _ => false end in
      if ok then mret tt
      else if (opened : bool) then WaitForServer fuel' else fail (ErrNew "Failed to contact apiserver.")
  end.

(** * Properties *)
Implicit Types s : sys (gmap string Clientset) E KubeCall.

(** A shared client is built at most once per kluster from the three
    credentials of its secret and the address of its API server.  After a
    success, further requests for the UID make no call and return the same
    client until the kluster is deleted, and a failure caches nothing. *)
Theorem ClientFor_shared k k' s s' c :
  ClientFor k s = (s', Ret c) → UID (Meta k') = UID (Meta k) →
  ClientFor k' s' = (s', Ret c) ∧
  mem (fst (forget_client k' s')) = delete (UID (Meta k)) (mem s') ∧
  (mem s !! UID (Meta k) = None →
     cs_Host c = Apiserver (Status k) ∧ trace s' = trace s ++ [KSecretGet (Name (Meta k)); KNewForConfig c] ∧
     mem s' = <[UID (Meta k) := c]> (mem s)).
Proof.
  intros Hrun Huid.
  assert (mem s' !! UID (Meta k) = Some c ∧
    (mem s !! UID (Meta k) = None →
     cs_Host c = Apiserver (Status k) ∧ trace s' = trace s ++ [KSecretGet (Name (Meta k)); KNewForConfig c] ∧
     mem s' = <[UID (Meta k) := c]> (mem s))) as [Hin Hnew].
  { revert Hrun. unfold ClientFor, kcall, perform, mbind, go_bind, get_mem.
    destruct (mem s !! UID (Meta k)) as [c0|] eqn:Hl; [intros [= <- <-]; by rewrite Hl|].
    destruct (answer _ (env s)) as [e1 [secret|err]]; cbn [of_reply]; [|done].
    destruct (secret !! "tls-ca.pem") as [ca|]; [|done].
    destruct (secret !! "apiserver-clients-cluster-admin.pem") as [cert|]; [|done].
    destruct (secret !! "apiserver-clients-cluster-admin-key.pem") as [key|]; [|done].
    cbn [env mem trace]. destruct (answer (KNewForConfig _) e1) as [e2 [[]|err]]; cbn [of_reply]; [|done].
    unfold set_mem. intros [= <- <-]. simpl. rewrite lookup_insert_eq, <- app_assoc. done. }
  split_and!; [|by rewrite <- Huid|done].
  unfold ClientFor, mbind, go_bind, get_mem. by rewrite Huid, Hin.
Qed.

(** [EnsureCRD] deletes what it did not create: when the definition
    existed before, perhaps with klusters in it, and cannot be read while
    waiting for it, it is deleted and an error is returned. *)
Theorem EnsureCRD_deletes s e1 e2 e3 err :
  answer (KCrdCreate klusterCRDName) (env s) = (e1, Bad (ErrStatus ReasonAlreadyExists "exists")) →
  answer KTick e1 = (e2, Ok true) →
  answer (KCrdGet klusterCRDName) e2 = (e3, Bad err) →
  ∃ e, snd (EnsureCRD s) = Fail e ∧
    trace (fst (EnsureCRD s)) = trace s ++
      [KCrdCreate klusterCRDName; KTick; KCrdGet klusterCRDName; KCrdDelete klusterCRDName].
Proof.
  intros H1 H2 H3. unfold EnsureCRD, wait_established, kcall, perform, attempt, mbind, go_bind.
  rewrite H1. cbn -[klusterCRDName answer]. rewrite H2. cbn -[klusterCRDName answer].
  rewrite H3. cbn -[klusterCRDName answer].
  destruct (answer (KCrdDelete klusterCRDName) e3) as [e4 [u|derr]]; cbn -[klusterCRDName];
    eexists; (split; [reflexivity|]); by rewrite <- !app_assoc.
Qed.
End KubeClient.

(** The secret of a kluster serves its clients. If the certificates of a
    kluster were created and its secret holds them, the shared client for the
    kluster is built: it authenticates as the cluster admin of the group of
    masters, with a certificate signed by the clients' authority and the key
    that belongs to it, and trusts the server authority. *)
Theorem ClientFor_created {E} `{!Machine KubeCall E} (now : Z) EncodeCertPEM EncodePrivateKeyPEM kluster apiURL authURL domain n n' m
    (s : sys (gmap string Clientset) E KubeCall) e1 :
  CreateCertificates now EncodeCertPEM EncodePrivateKeyPEM kluster apiURL authURL domain n = (n', Ret m) →
  mem s !! UID (Meta kluster) = None →
  answer (KSecretGet (Models.Name (Meta kluster))) (env s) = (e1, Ok m) →
  (∀ c, ∃ e2, answer (KNewForConfig c) e1 = (e2, Ok tt)) →
  ∃ s' admin authority server,
    ClientFor kluster s = (s', Ret {| cs_Host := Apiserver (Status kluster); cs_Cert := EncodeCertPEM admin;
                                      cs_Key := EncodePrivateKeyPEM (PublicKey admin); cs_CA := EncodeCertPEM server |}) ∧
    CommonName (Subject admin) = "cluster-admin" ∧ Organization (Subject admin) = ["system:masters"] ∧
    SignedBy admin = PublicKey authority ∧ IsCA authority = true ∧ IsCA server = true ∧
    m !! "apiserver-clients-ca.pem" = Some (EncodeCertPEM authority) ∧
    m !! "apiserver-clients-ca-key.pem" = Some (EncodePrivateKeyPEM (PublicKey authority)).
Proof.
  intros Hrun Hnone Hget Hnew.
  assert (∃ ip, ApiServiceIP kluster = Ok ip) as [ip Hip].
  { unfold CreateCertificates, CreateBundles in Hrun. unfold mbind, go_bind, lift_reply in Hrun.
    destruct (ApiServiceIP kluster); [by eexists|done]. }
  destruct (hierarchy now EncodeCertPEM EncodePrivateKeyPEM kluster apiURL authURL domain n ip Hip)
    as (n2 & m2 & Hrun2 & Hauth & Hleaf & _).
  rewrite Hrun in Hrun2. injection Hrun2 as <- <-.
  destruct (Hauth "tls-ca") as (server & [Hserver _] & Hsca & _); [unfold authorities; in_list|].
  destruct (Hleaf {| lf_ca := "apiserver-clients-ca"; lf_file := "apiserver-clients-cluster-admin";
                     lf_cn := "cluster-admin"; lf_groups := ["system:masters"]; lf_usages := [ClientAuth] |})
    as (au & admin & [[Ha1 Ha2] [Hca _]] & [Hc1 Hc2] & _ & Hsig & _ & _ & Hcn & Horg & _); [unfold leaves; in_list|].
  cbn [lf_ca lf_file lf_cn lf_groups] in *.
  destruct (Hnew {| cs_Host := Apiserver (Status kluster); cs_Cert := EncodeCertPEM admin;
     cs_Key := EncodePrivateKeyPEM (PublicKey admin); cs_CA := EncodeCertPEM server |}) as [e2 Hc].
  eexists _, admin, au, server. split; [|by split_and!].
  unfold ClientFor, kcall, perform, mbind, go_bind, get_mem. rewrite Hnone, Hget. cbn [of_reply].
  change ("tls-ca" +:+ ".pem") with "tls-ca.pem" in Hserver.
  change ("apiserver-clients-cluster-admin" +:+ ".pem") with "apiserver-clients-cluster-admin.pem" in Hc1.
  change ("apiserver-clients-cluster-admin" +:+ "-key.pem") with "apiserver-clients-cluster-admin-key.pem" in Hc2.
  repeat match goal with |- context [@lookup ?K ?A ?M ?I ?f m] =>
    lazymatch M with gmap string string => fail | _ => change (@lookup K A M I f m) with ((m : gmap string string) !! f) end end.
  rewrite Hserver, Hc1, Hc2. cbn [mem env trace]. rewrite Hc. reflexivity.
Qed.

Definition demo_kube : Machine KubeCall unit := fun c e =>
  (e, match c return reply (resp c) with
      | KSecretGet _ => Ok (list_to_map [("tls-ca.pem", "ca"); ("apiserver-clients-cluster-admin.pem", "cert");
                                         ("apiserver-clients-cluster-admin-key.pem", "key")])
      | KNewForConfig _ => Ok tt
      | KCrdCreate _ => Bad (ErrStatus ReasonAlreadyExists "exists")
      | KCrdGet _ => Bad (ErrNew "timeout")
      | KTick => Ok true
      | c => Bad (ErrNew "unused")
      end).
Definition demo_kk : Kluster := {| Meta := zero_ObjectMeta; Spec := zero_KlusterSpec; Status := zero_KlusterStatus |}.
Definition demo_kstate : sys (gmap string Clientset) unit KubeCall := Sys ∅ tt [].

Lemma ClientFor_shared_witness :
  let c := {| cs_Host := ""; cs_Cert := "cert"; cs_Key := "key"; cs_CA := "ca" |} in
  let s' := fst (ClientFor (Machine0:=demo_kube) demo_kk demo_kstate) in
  ClientFor (Machine0:=demo_kube) demo_kk s' = (s', Ret c).
Proof.
  intros c s'. refine (proj1 (ClientFor_shared (Machine0:=demo_kube) demo_kk demo_kk demo_kstate s' c _ _));
    [vm_compute; reflexivity | reflexivity].
Defined.

Lemma EnsureCRD_deletes_witness :
  KCrdDelete klusterCRDName ∈ trace (fst (EnsureCRD (Machine0:=demo_kube) demo_kstate)).
Proof.
  destruct (EnsureCRD_deletes (Machine0:=demo_kube) demo_kstate tt tt tt (ErrNew "timeout"))
    as (e & _ & H); [reflexivity..|].
  rewrite H. in_list.
Defined.

Definition demo_secret (m : gmap string string) : Machine KubeCall unit := fun c e =>
  (e, match c return reply (resp c) with
      | KSecretGet _ => Ok m
      | KNewForConfig _ => Ok tt
      | c => Bad (ErrNew "unused")
      end).
Lemma ClientFor_created_witness :
  let m := toMap (fun c => CommonName (Subject c)) pretty (bundles_of 0 "" "example.com" [198; 18; 128; 1] 0) in
  ∃ s', ClientFor (Machine0:=demo_secret m) demo_ck (Sys ∅ tt []) =
    (s', Ret {| cs_Host := ""; cs_Cert := "cluster-admin"; cs_Key := "10"; cs_CA := "TLS" |}).
Proof.
  intros m.
  destruct (ClientFor_created (Machine0:=demo_secret m) 0 (fun c => CommonName (Subject c)) pretty demo_ck "" "" "example.com" 0
    28 m (Sys ∅ tt []) tt) as (s' & admin & au & server & Hrun & _).
  - unfold CreateCertificates. subst m.
    refine (bind_run _ _ _ _ _ (CreateBundles_run 0 demo_ck "example.com" 0 _ _)).
    vm_compute. reflexivity.
  - reflexivity.
  - reflexivity.
  - intros c. by exists tt.
  - exists s'. rewrite Hrun. f_equal.
    trans (snd (ClientFor (Machine0:=demo_secret m) demo_ck (Sys ∅ tt []))); [by rewrite Hrun|].
    vm_compute. reflexivity.
Defined.
