(* ===== verification/CertCommands.v ===== *)
(** [pkg/cmd/kubernikus/certificates]: the certificate commands of the operator
    binary.

    [files] writes the certificates of a kluster to files, [plain] prints them,
    [sign] issues a certificate with the authority of a deployed kluster.
    Files, the terminal and the cluster are calls; the memory is the random
    number generator.  Flags are read before. *)
From S2P Require Import Prelude GoStrings Models NetIP Factory Certificates.
From S2P Require Import KubeClient.
Local Open Scope Z_scope.

Inductive CertCall :=
| FMkdirAll (dir : string)
| FWriteFile (path data : string)
| FPrintln (text : string)
| FNewClient (kubeconfig : string)
| FSecretGet (ns name : string)
| FYaml (c : ClientConfig).
#[export] Instance cert_iface : Iface CertCall := fun c =>
  match c with
  | FMkdirAll _ | FWriteFile _ _ | FPrintln _ | FNewClient _ => unit
  | FSecretGet _ _ => gmap string string
  | FYaml _ => string
  end.

(** [filepath.Dir] *)
Definition up_to_slash (p : string) : string := str_rev (drop_while (fun c => negb (bool_decide (c = slash))) (str_rev p)).
Definition path_Dir (p : string) : string := path_Clean (up_to_slash p).

(** [SignOptions], src/pkg/cmd/kubernikus/certificates/sign.go:37-47 *)
Record SignOptions := {
  so_Name : string; KubeConfig : string; so_Namespace : string; CN : string; CA : string; so_Organization : string; ApiURL : string }.

Section Commands.
Context {E : Type} `{!Machine CertCall E} (now : Z) (EncodeCertPEM : Certificate -> string) (EncodePrivateKeyPEM : nat -> string).
(** The version of the binary, the environment, the order a map is iterated
    in, and client-go's readers of PEM *)
Context (GitCommit : string) (Getenv : string -> string) (range : gmap string string -> list (string * string))
  (ParseCertsPEM : string -> reply (list Certificate)) (ParsePrivateKeyPEM : string -> reply private_key).
Abbreviation M := (Go (sys nat E CertCall)).
Definition fcall (c : CertCall) : M (resp c) := perform c.
(** A computation on the random number generator alone *)
Definition on_random {A} (m : Go nat A) : M A := fun s =>
  let '(n, o) := m (mem s) in (Sys n (env s) (trace s), o).

(** [write], src/pkg/cmd/kubernikus/certificates/io.go:35-43 *)
Definition write (certPath data : string) : M unit :=
  _ ← fcall (FMkdirAll (path_Dir certPath));
  fcall (FWriteFile certPath data).
(** [FilePersister.WriteConfig], src/pkg/cmd/kubernikus/certificates/io.go:25-33 *)
Definition FilePersister_WriteConfig (BaseDir : string) (certificates : gmap string string) : M unit :=
  for_each (fun '(filename, contents) => write (path_Join BaseDir filename) contents) (range certificates).
(** What fails to be printed is ignored.
    [PlainPersister.WriteConfig], src/pkg/cmd/kubernikus/certificates/io.go:51-58 *)
Definition PlainPersister_WriteConfig (certificates : gmap string string) : M unit :=
  for_each (fun '(filename, contents) =>
    _ ← attempt (fcall (FPrintln filename)); _ ← attempt (fcall (FPrintln contents)); mret tt) (range certificates).

(** [Validate], src/pkg/cmd/kubernikus/certificates/files.go:44-50 *)
Definition Files_Validate (args : list string) : M unit :=
  if decide (length args = 1%nat) then mret tt else fail (ErrNew "you must specify the cluster's name").
(** [Run], src/pkg/cmd/kubernikus/certificates/files.go:57-73 *)
Definition Files_Run (name : string) : M unit :=
  kluster ← lift_reply (KlusterFor GitCommit (with_spec_Name name zero_KlusterSpec));
  certificates ← on_random (CreateCertificates now EncodeCertPEM EncodePrivateKeyPEM kluster
    "https://api.kubernikus.cloud.sap" "https://identity.openstack.com" "kubernikus.cloud.sap");
  FilePersister_WriteConfig "." certificates.
(** [NewFilesCommand], src/pkg/cmd/kubernikus/certificates/files.go:15-31 *)
Definition files_command (args : list string) : M unit :=
  _ ← Files_Validate args;
  match args with name :: _ => Files_Run name | [] => panic "index out of range" end.

(** [Validate], src/pkg/cmd/kubernikus/certificates/plain.go:38-44 *)
Definition Plain_Validate (args : list string) : M unit :=
  if decide (length args = 1%nat) then mret tt else fail (ErrNew "you must specify the cluster's name").
(** [Run], src/pkg/cmd/kubernikus/certificates/plain.go:51-67 *)
Definition Plain_Run (name : string) : M unit :=
  kluster ← lift_reply (KlusterFor GitCommit (with_spec_Name name zero_KlusterSpec));
  certificates ← on_random (CreateCertificates now EncodeCertPEM EncodePrivateKeyPEM kluster
    "https://api.kubernikus.cloud.sap" "https://auth.openstack.com" "kubernikus.cloud.sap");
  PlainPersister_WriteConfig certificates.
(** [NewPlainCommand], src/pkg/cmd/kubernikus/certificates/plain.go:14-28 *)
Definition plain_command (args : list string) : M unit :=
  _ ← Plain_Validate args;
  match args with name :: _ => Plain_Run name | [] => panic "index out of range" end.

(** [NewSignOptions], src/pkg/cmd/kubernikus/certificates/sign.go:49-57 *)
Definition NewSignOptions : SignOptions :=
  {| so_Name := ""; KubeConfig := ""; so_Namespace := "kubernikus"; CN := Getenv "USER"; CA := "apiserver-clients-ca";
     so_Organization := "system:masters"; ApiURL := "" |}.
(** [Validate], src/pkg/cmd/kubernikus/certificates/sign.go:67-80 *)
Definition Sign_Validate (o : SignOptions) (args : list string) : M unit :=
  if decide (length args = 1%nat) then
    if decide (CN o = "") then fail (ErrNew "You must specify a common name")
    else if decide (ApiURL o = "") then fail (ErrNew "You must specify an apiserver URL")
    else mret tt
  else fail (ErrNew "you must specify the kluster resource name").

(** The kubeconfig is issued for the user of the environment, the certificate
    for the common name.
    [Run], src/pkg/cmd/kubernikus/certificates/sign.go:87-136 *)
Definition Sign_Run (o : SignOptions) : M unit :=
  _ ← fcall (FNewClient (KubeConfig o));
  secret ← fcall (FSecretGet (so_Namespace o) (so_Name o));
  match secret !! (CA o +:+ "-key.pem") with
  | None => fail (ErrNew ("CA " +:+ CA o +:+ " not found in kluster secrets"))
  | Some clientCAKey =>
  match secret !! (CA o +:+ ".pem") with
  | None => fail (ErrNew ("Key for CA " +:+ CA o +:+ " not found in kluster secrets"))
  | Some clientCACert =>
  match secret !! "tls-ca.pem" with
  | None => fail (ErrNew "Server CA certificate not found")
  | Some serverCACert =>
      bundle ← lift_reply (NewBundle ParseCertsPEM ParsePrivateKeyPEM clientCAKey clientCACert);
      cert ← on_random (Sign now bundle (config_for (CN o) [so_Organization o] [ClientAuth]));
      let config := NewClientConfigV1 (so_Name o) (Getenv "USER") (ApiURL o)
        (EncodePrivateKeyPEM (bd_PrivateKey cert)) (EncodeCertPEM (bd_Certificate cert)) serverCACert in
      kubeconfig ← fcall (FYaml config);
      _ ← attempt (fcall (FPrintln kubeconfig));
      mret tt
  end end end.
(** [NewSignCommand], src/pkg/cmd/kubernikus/certificates/sign.go:21-35 *)
Definition sign_command (o : SignOptions) (args : list string) : M unit :=
  _ ← Sign_Validate o args;
  match args with
  | name :: _ =>
      Sign_Run {| so_Name := name; KubeConfig := KubeConfig o; so_Namespace := so_Namespace o; CN := CN o; CA := CA o;
                  so_Organization := so_Organization o; ApiURL := ApiURL o |}
  | [] => panic "index out of range"
  end.
End Commands.

(** * What the commands leave behind *)

(** A file system that takes every write *)
Class FileLaws (E : Type) `{!Machine CertCall E} (files : E -> gmap string string) := {
  mkdir_kept dir e : snd (answer (FMkdirAll dir) e) = Ok tt ∧ files (fst (answer (FMkdirAll dir) e)) = files e;
  file_written path data e :
    snd (answer (FWriteFile path data) e) = Ok tt ∧ files (fst (answer (FWriteFile path data) e)) = <[path := data]> (files e) }.

Section Files.
Context {E : Type} `{!Machine CertCall E} (now : Z) (EncodeCertPEM : Certificate -> string) (EncodePrivateKeyPEM : nat -> string).
Context (GitCommit : string) (range : gmap string string -> list (string * string)) (files : E -> gmap string string)
  `{!FileLaws E files}.
Hypothesis Hrange : ∀ m, range m ≡ₚ map_to_list m.
Implicit Types s : sys nat E CertCall.

Lemma write_run path data s : ∃ s', write path data s = (s', Ret tt) ∧ mem s' = mem s ∧ files (env s') = <[path := data]> (files (env s)).
Proof.
  unfold write, fcall, mbind, go_bind, perform.
  destruct (mkdir_kept (path_Dir path) (env s)) as [Hr Hf]. destruct (answer (FMkdirAll _) (env s)) as [e1 r1]. cbn in Hr, Hf. subst r1.
  cbn [of_reply env mem]. destruct (file_written path data e1) as [Hr2 Hf2]. destruct (answer (FWriteFile _ _) e1) as [e2 r2].
  cbn in Hr2, Hf2. subst r2. eexists. split; [done|]. split; [done|]. cbn [env]. by rewrite Hf2, Hf.
Qed.

(** The files of the hierarchy are written under their own names. *)
Lemma Join_here : Forall (λ f, path_Join "." f = f) (fileset file_order).
Proof. apply (bool_decide_unpack _). vm_compute. exact I. Qed.

Lemma WriteConfig_run m s : (∀ f, f ∈ dom m → path_Join "." f = f) →
  ∃ s', FilePersister_WriteConfig range "." m s = (s', Ret tt) ∧ mem s' = mem s ∧ files (env s') = m ∪ files (env s).
Proof.
  intros Hm. unfold FilePersister_WriteConfig.
  assert (∀ l s, NoDup l.*1 → (∀ f, f ∈ l.*1 → path_Join "." f = f) →
    ∃ s', for_each (fun '(filename, contents) => write (path_Join "." filename) contents) l s = (s', Ret tt) ∧ mem s' = mem s ∧
      files (env s') = list_to_map l ∪ files (env s)) as Hl.
  { clear m Hm s. induction l as [|[f c] l IH]; intros s Hnd Hj; cbn [for_each].
    - eexists. split; [done|]. split; [done|]. cbn. by rewrite map_empty_union.
    - cbn in Hnd. apply NoDup_cons in Hnd as [Hf Hnd]. rewrite Hj by left.
      destruct (write_run f c s) as (s1 & Hw & Hm1 & Hf1). rewrite (bind_run _ _ _ _ _ Hw).
      destruct (IH s1 Hnd) as (s2 & Hrun & Hm2 & Hf2); [intros; apply Hj; by right|].
      exists s2. split; [exact Hrun|]. split; [congruence|]. rewrite Hf2, Hf1. cbn [list_to_map foldr].
      rewrite <- insert_union_l, insert_union_r; [done|]. by apply not_elem_of_list_to_map_1. }
  destruct (Hl (range m) s) as (s' & Hrun & Hmem & Hf).
  - rewrite Hrange. apply NoDup_fst_map_to_list.
  - intros f Hf. apply Hm. rewrite Hrange in Hf. apply list_elem_of_fmap in Hf as ([f' c] & -> & Hin).
    apply elem_of_map_to_list in Hin. by apply elem_of_dom_2 in Hin.
  - exists s'. split; [done|]. split; [done|]. rewrite Hf. f_equal.
    rewrite (list_to_map_proper (range m) (map_to_list m)); [apply list_to_map_to_list| |apply Hrange].
    rewrite Hrange. apply NoDup_fst_map_to_list.
Qed.

(** The kluster of a name alone, and the address of its API server. *)
Lemma default_network : ∃ net d a, ParseCIDR DEFAULT_SERVICE_CIDR = Some net ∧ GetIndexedIP net 2 = Some d ∧ GetIndexedIP net 1 = Some a.
Proof. eexists _, _, _. split_and!; vm_compute; reflexivity. Qed.

Lemma default_kluster spec : spec_Name spec ≠ "" → ServiceCIDR spec = "" →
  ∃ k ip, KlusterFor GitCommit spec = Ok k ∧ ApiServiceIP k = Ok ip ∧ Models.Name (Meta k) = spec_Name spec ∧
    Models.Openstack (Spec k) = Models.Openstack spec ∧ Apiserver (Status k) = "" ∧ Wormhole (Status k) = "" ∧ st_Version (Status k) = GitCommit.
Proof.
  intros Hname Hcidr. destruct default_network as (net & d & a & Hn & Hd & Ha).
  unfold KlusterFor. rewrite decide_False by done. rewrite Hcidr. unfold or_default at 1. rewrite decide_True by done. rewrite Hn, Hd.
  eexists _, a. split; [reflexivity|]. split; [|split_and!; reflexivity]. unfold ApiServiceIP. cbn [Spec ServiceCIDR]. unfold or_default. rewrite decide_True by done.
  by rewrite Hn, Ha.
Qed.

(** [certificates files NAME] for any name that is not empty: it succeeds
    and leaves exactly the certificates of the kluster of this name next to
    what was there before, the seventeen pairs of the hierarchy, each under
    its own name in the working directory, in whatever order they are
    written. *)
Theorem files_command_writes name s : name ≠ "" →
  ∃ s' k n m, KlusterFor GitCommit (with_spec_Name name zero_KlusterSpec) = Ok k ∧
    CreateCertificates now EncodeCertPEM EncodePrivateKeyPEM k "https://api.kubernikus.cloud.sap"
      "https://identity.openstack.com" "kubernikus.cloud.sap" (mem s) = (n, Ret m) ∧
    files_command now EncodeCertPEM EncodePrivateKeyPEM GitCommit range [name] s = (s', Ret tt) ∧
    dom m = list_to_set (fileset file_order) ∧ files (env s') = m ∪ files (env s).
Proof.
  intros Hname.
  destruct (default_kluster (with_spec_Name name zero_KlusterSpec) Hname eq_refl) as (k & ip & Hk & Hip & _).
  destruct (hierarchy now EncodeCertPEM EncodePrivateKeyPEM k "https://api.kubernikus.cloud.sap" "https://identity.openstack.com"
    "kubernikus.cloud.sap" (mem s) ip Hip) as (n & m & Hrun & _ & _ & Hdom).
  destruct (WriteConfig_run m (Sys n (env s) (trace s))) as (s' & Hw & _ & Hf).
  { intros f Hfm. rewrite Hdom in Hfm. apply elem_of_list_to_set in Hfm.
    pose proof Join_here as HJ. rewrite Forall_forall in HJ. by apply HJ. }
  exists s', k, n, m. split_and!; [done|done| |done|done].
  unfold files_command, Files_Validate. cbn [length]. rewrite decide_True by done. cbn [mbind go_bind mret go_ret].
  unfold mbind at 1, go_bind at 1. cbn [mret]. unfold mret, go_ret. unfold Files_Run. rewrite Hk. unfold lift_reply, of_reply.
  unfold mbind at 1, go_bind at 1. unfold on_random. unfold mbind, go_bind. rewrite Hrun. exact Hw.
Qed.

(** [certificates sign] against the secret that the certificates component
    made for a kluster, for each of its authorities: the certificate it issues
    is signed by that authority for the common name and the group of the
    options as a client certificate, and what is printed is the configuration
    that holds it together with its key and the authority of the server,
    whenever it can be formatted. *)
Theorem sign_issues (Getenv : string -> string) (ParseCertsPEM : string -> reply (list Certificate))
    (ParsePrivateKeyPEM : string -> reply private_key) o kluster apiURL authURL domain n n' m ip s e1 e2 :
  ApiServiceIP kluster = Ok ip →
  CreateCertificates now EncodeCertPEM EncodePrivateKeyPEM kluster apiURL authURL domain n = (n', Ret m) →
  CA o ∈ authorities →
  (∀ c, ParseCertsPEM (EncodeCertPEM c) = Ok [c]) → (∀ k, ParsePrivateKeyPEM (EncodePrivateKeyPEM k) = Ok (RSAKey k)) →
  answer (FNewClient (KubeConfig o)) (env s) = (e1, Ok tt) →
  answer (FSecretGet (so_Namespace o) (so_Name o)) e1 = (e2, Ok m) →
  ∃ ca tls cert, authority EncodeCertPEM EncodePrivateKeyPEM m (CA o) kluster ca ∧
    authority EncodeCertPEM EncodePrivateKeyPEM m "tls-ca" kluster tls ∧
    (IsCA cert = false ∧ SignedBy cert = PublicKey ca ∧ Issuer cert = Subject ca ∧ CommonName (Subject cert) = CN o ∧
     Organization (Subject cert) = [so_Organization o] ∧ ExtKeyUsage cert = [ClientAuth]) ∧
    let config := NewClientConfigV1 (so_Name o) (Getenv "USER") (ApiURL o) (EncodePrivateKeyPEM (PublicKey cert)) (EncodeCertPEM cert) (EncodeCertPEM tls) in
    trace (fst (Sign_Run now EncodeCertPEM EncodePrivateKeyPEM Getenv ParseCertsPEM ParsePrivateKeyPEM o s)) =
      trace s ++ [FNewClient (KubeConfig o); FSecretGet (so_Namespace o) (so_Name o); FYaml config] ++
      match snd (answer (FYaml config) e2) with Ok text => [FPrintln text] | Bad _ => [] end.
Proof.
  intros Hip Hrun HCA Hpc Hpk He1 He2.
  destruct (hierarchy now EncodeCertPEM EncodePrivateKeyPEM kluster apiURL authURL domain n ip Hip) as (n2 & m2 & Hrun2 & Hauth & _ & _).
  rewrite Hrun in Hrun2. injection Hrun2 as <- <-.
  destruct (Hauth (CA o) HCA) as (ca & Hca). destruct (Hauth "tls-ca") as (tls & Htls); [unfold authorities; in_list|].
  pose proof Hca as ([Hc Hk] & HisCA & Hself & _). pose proof Htls as ([Ht _] & _).
  exists ca, tls, (bd_Certificate (signed now {| bd_Certificate := ca; bd_PrivateKey := PublicKey ca |}
    (config_for (CN o) [so_Organization o] [ClientAuth]) (mem s) (S (mem s)))).
  split; [done|]. split; [done|]. split; [by split_and!|]. intros config.
  unfold Sign_Run, fcall. erewrite bind_run by (unfold perform; rewrite He1; reflexivity).
  erewrite bind_run by (unfold perform; cbn [env]; rewrite He2; reflexivity).
  cbn [resp cert_iface]. change "tls-ca.pem" with ("tls-ca" +:+ ".pem"). rewrite Hk, Hc, Ht. unfold NewBundle. rewrite Hpc, Hpk.
  erewrite bind_run by reflexivity. erewrite bind_run by (unfold on_random, Sign; cbn [bd_Certificate]; rewrite HisCA; reflexivity).
  cbv zeta. cbn [mem env trace]. match goal with |- context [perform (FYaml ?c)] => change c with config end.
  unfold mbind, go_bind, perform at 1. cbn [mem env trace].
  destruct (answer (FYaml config) e2) as [e3 [text|err]]; cbn [of_reply snd]; [|cbn; by rewrite <- !app_assoc].
  unfold attempt, perform. cbn [env]. destruct (answer (FPrintln text) e3) as [e4 [[]|?]]; cbn; by rewrite <- !app_assoc.
Qed.
End Files.

(** * A machine with a file system and the secret of one kluster *)
Record demo_machine := { dm_files : gmap string string; dm_secret : gmap string string }.
Definition demo_certs : Machine CertCall demo_machine := fun c e =>
  match c with
  | FMkdirAll _ | FPrintln _ | FNewClient _ => (e, Ok tt)
  | FWriteFile path data => ({| dm_files := <[path := data]> (dm_files e); dm_secret := dm_secret e |}, Ok tt)
  | FSecretGet _ _ => (e, Ok (dm_secret e))
  | FYaml config => (e, Ok (CurrentContext config))
  end.
#[export] Instance demo_certs_files : FileLaws (Machine0:=demo_certs) demo_machine dm_files.
Proof. by split. Qed.

Lemma files_command_writes_witness :
  ∃ s', files_command (Machine0:=demo_certs) 0 (fun c => CommonName (Subject c)) pretty "git" map_to_list ["k"]
      (Sys 0%nat {| dm_files := {["README" := "read me"]}; dm_secret := ∅ |} []) = (s', Ret tt) ∧
    dm_files (env s') !! "README" = Some "read me".
Proof.
  destruct (files_command_writes (Machine0:=demo_certs) 0 (fun c => CommonName (Subject c)) pretty "git" map_to_list dm_files
    (fun m => reflexivity (map_to_list m)) "k" (Sys 0%nat {| dm_files := {["README" := "read me"]}; dm_secret := ∅ |} []))
    as (s' & k & n & m & _ & _ & Hrun & Hd & Hf); [done|].
  exists s'. split; [exact Hrun|]. rewrite Hf, lookup_union_r; [done|].
  apply not_elem_of_dom. rewrite Hd, elem_of_list_to_set. apply (bool_decide_unpack _). vm_compute. exact I.
Defined.

(** An encoding of certificates that can be read back: the number of its
    data, in binary. *)
#[export] Instance usage_eq_dec : EqDecision usage.
Proof. solve_decision. Defined.
#[export] Instance usage_countable : Countable usage.
Proof.
  refine (inj_countable' (fun u => match u with ClientAuth => true | ServerAuth => false end)
    (fun b : bool => if b then ClientAuth else ServerAuth) _); by intros [].
Defined.
#[export] Instance cert_name_eq_dec : EqDecision Certificates.Name.
Proof. solve_decision. Defined.
#[export] Instance cert_name_countable : Countable Certificates.Name.
Proof.
  refine (inj_countable' (fun n => (CommonName n, Organization n, OrganizationalUnit n, Province n, Locality n))
    (fun '(a, b, c, d, e) => Certificates.Build_Name a b c d e) _); by intros [].
Defined.
#[export] Instance certificate_eq_dec : EqDecision Certificate.
Proof. solve_decision. Defined.
#[export] Instance certificate_countable : Countable Certificate.
Proof.
  refine (inj_countable' (fun c => (Subject c, Issuer c, IsCA c, DNSNames c, IPAddresses c, NotBefore c, NotAfter c,
      ExtKeyUsage c, SerialNumber c, PublicKey c, SignedBy c))
    (fun '(a, b, c, d, e, f, g, h, i, j, k) => Build_Certificate a b c d e f g h i j k) _); by intros [].
Defined.
Fixpoint positive_text (p : positive) : string :=
  match p with xH => "" | xO p => String "0" (positive_text p) | xI p => String "1" (positive_text p) end.
Fixpoint text_positive (s : string) : positive :=
  match s with
  | EmptyString => xH
  | String c s => if decide (c = "0"%char) then xO (text_positive s) else xI (text_positive s)
  end.
Lemma text_positive_text p : text_positive (positive_text p) = p.
Proof. induction p as [p IH|p IH|]; cbn; by rewrite ?IH. Qed.
Definition demo_pem {A} `{Countable A} (a : A) : string := positive_text (encode a).
Definition demo_read {A} `{Countable A} (s : string) : option A := decode (text_positive s).
Lemma demo_read_pem {A} `{Countable A} (a : A) : demo_read (demo_pem a) = Some a.
Proof. unfold demo_read, demo_pem. by rewrite text_positive_text, decode_encode. Qed.
Definition demo_certs_of (s : string) : reply (list Certificate) :=
  match demo_read s with Some c => Ok [c] | None => Bad (ErrNew "data does not contain any valid certificates") end.
Definition demo_key_of (s : string) : reply private_key :=
  match demo_read s with Some k => Ok (RSAKey k) | None => Bad (ErrNew "data does not contain a valid private key") end.

Definition demo_sign : SignOptions :=
  {| so_Name := "k-a1"; KubeConfig := ""; so_Namespace := "kubernikus"; CN := "admin"; CA := "apiserver-clients-ca";
     so_Organization := "system:masters"; ApiURL := "https://k" |}.
Lemma sign_issues_witness :
  ∃ (m : gmap string string) (cert tls : Certificate), let run := Sign_Run (Machine0:=demo_certs) 0 demo_pem demo_pem (fun _ => "me") demo_certs_of demo_key_of demo_sign
      (Sys 0%nat {| dm_files := ∅; dm_secret := m |} []) in
    CommonName (Subject cert) = "admin" ∧ ExtKeyUsage cert = [ClientAuth] ∧
    trace (fst run) = [FNewClient ""; FSecretGet "kubernikus" "k-a1";
      FYaml (NewClientConfigV1 "k-a1" "me" "https://k" (demo_pem (PublicKey cert)) (demo_pem cert) (demo_pem tls)); FPrintln "k-a1"].
Proof.
  destruct (hierarchy 0 demo_pem demo_pem demo_ck "" "" "example.com" 0%nat [198; 18; 128; 1]) as (n' & m & Hrun & _); [vm_compute; reflexivity|].
  destruct (sign_issues (Machine0:=demo_certs) 0 demo_pem demo_pem (fun _ => "me") demo_certs_of demo_key_of demo_sign demo_ck "" "" "example.com" 0%nat n' m
    [198; 18; 128; 1] (Sys 0%nat {| dm_files := ∅; dm_secret := m |} []) {| dm_files := ∅; dm_secret := m |}
    {| dm_files := ∅; dm_secret := m |}) as (ca & tls & cert & _ & _ & (_ & _ & _ & Hcn & _ & Hu) & Ht).
  - vm_compute. reflexivity.
  - exact Hrun.
  - unfold authorities. in_list.
  - intros c. unfold demo_certs_of. by rewrite demo_read_pem.
  - intros k. unfold demo_key_of. by rewrite demo_read_pem.
  - done.
  - done.
  - exists m, cert, tls. split; [exact Hcn|]. split; [exact Hu|]. exact Ht.
Defined.
