(* ===== verification/Handlers.v ===== *)
(** [pkg/api/handlers] and [pkg/api/auth]: the API requests.

    A handler runs for an authenticated principal and replies with a status
    code and a payload.  All of them reach a cluster through [qualifiedName].
    The text of an error is used as a format. *)
From S2P Require Import Prelude GoStrings Fmt Regexp Models ApiModels Factory KubeClient.
Local Open Scope Z_scope.

(** * Responses *)
Inductive payload :=
| PNone
| PError (e : ErrorModel)
| PKluster (k : KlusterModel)
| PKlusters (ks : list KlusterModel)
| PEvents (evs : list Event)
| PCredentials (c : Credentials)
| PInfo (i : KlusterInfo)
| PMetadata (m : OpenstackMetadata)
| PVersion (i : InfoModel)
| PVersions (v : APIVersions).
Record response := Response { code : Z; body : payload }.

(** [NewErrorResponse], src/pkg/api/handlers/errors.go:18-28 *)
Definition NewErrorResponse (code : Z) (msg : string) (a : list string) : response :=
  Response code (PError {| er_Code := Some code; er_HelpURL := ""; er_Message := Some (Sprintf msg a) |}).

(** A text without per cent signs becomes the message as it is; others lose
    what follows the sign. *)
Lemma NewErrorResponse_plain c err : no_percent (Error err) →
  NewErrorResponse c (Error err) [] = Response c (PError {| er_Code := Some c; er_HelpURL := ""; er_Message := Some (Error err) |}).
Proof. intros H. unfold NewErrorResponse. by rewrite Sprintf_plain. Qed.
Example NewErrorResponse_percent :
  NewErrorResponse 500 (Error (ErrNew "Get https://api/a%2Fb: no route")) [] =
    Response 500 (PError {| er_Code := Some 500; er_HelpURL := ""; er_Message := Some "Get https://api/a%!F(MISSING)b: no route" |}).
Proof. vm_compute. reflexivity. Qed.

(** * Selecting clusters *)

(** A label value: at most 63 characters, alphanumeric at both ends, with
    dashes, underscores and dots in between *)
Definition is_alnum (c : ascii) : bool := is_digit c || is_lower c || is_upper c.
Definition valid_label_value (v : string) : bool :=
  match v with
  | EmptyString => true
  | String c _ =>
      is_alnum c &&
      match str_rev v with String d _ => is_alnum d | EmptyString => false end &&
      str_all (fun c => is_alnum c || bool_decide (c = "-"%char) || bool_decide (c = "_"%char) ||
                        bool_decide (c = "."%char)) v &&
      (String.length v <=? 63)%nat
  end.

(** [None] selects everything: that is what an invalid value is turned into.
    [accountSelector], src/pkg/api/handlers/util.go:22-24 *)
Definition accountSelector (principal : Principal) : option (string * string) :=
  if valid_label_value (pr_Account principal) then Some ("account", pr_Account principal) else None.
Definition selects (sel : option (string * string)) (k : Kluster) : bool :=
  match sel with None => true | Some (l, v) => bool_decide (Labels (Meta k) !! l = Some v) end.

(** [qualifiedName], src/pkg/api/handlers/util.go:27-32 *)
Definition qualifiedName (name accountId : string) : string :=
  if Contains name accountId then name else name +:+ "-" +:+ accountId.

(** [klusterFromCRD], src/pkg/api/handlers/util.go:50-56 *)
Definition klusterFromCRD (k : Kluster) : KlusterModel :=
  {| mk_Name := spec_Name (Spec k); mk_Spec := Spec k; mk_Status := Status k |}.

(** The loop that sets the image of a pool that names none *)
Definition default_image (p : NodePool) : NodePool :=
  if decide (np_Image p = "") then with_Image DEFAULT_IMAGE p else p.

(** [validate.UniqueItems]: no item equals an earlier one. *)
Fixpoint UniqueItems (seen l : list NodePool) : bool :=
  match l with
  | [] => true
  | p :: l' => if decide (p ∈ seen) then false else UniqueItems (seen ++ [p]) l'
  end.

(** * Calls *)
Record SignConfig := { sc_Sign : string; sc_Organization : list string; sc_Province : list string;
  sc_Locality : list string }.
Record ReleaseAsset := { as_Name : string; as_DownloadURL : string }.

Inductive HandlerCall :=
| HGet (ns name : string)
| HCreate (ns : string) (k : Kluster)
| HUpdate (ns : string) (k : Kluster)
| HList (ns : string) (selector : option (string * string))
| HNamespaceGet (ns : string)
| HNamespaceCreate (ns : string)
| HSecretGet (ns name : string)
| HEvents (name ns : string)
| HNewBundle (key cert : string)               (** whether the certificate is one of a CA *)
| HSign (key cert : string) (c : SignConfig)   (** private key and certificate, as PEM *)
| HYaml (c : ClientConfig)
| HRelease (tag : string)                      (** status code and line, and the decoded assets *)
| HMetadata (authURL token project : string).  (** scoped client and its metadata *)
#[export] Instance handler_iface : Iface HandlerCall := fun c =>
  match c with
  | HGet _ _ => Kluster
  | HCreate _ _ => Kluster
  | HUpdate _ _ => Kluster
  | HList _ _ => list Kluster
  | HNamespaceGet _ | HNamespaceCreate _ => unit
  | HSecretGet _ _ => gmap string string
  | HEvents _ _ => list Event
  | HNewBundle _ _ => bool
  | HSign _ _ _ => (string * string)%type
  | HYaml _ => string
  | HRelease _ => (Z * string * reply (list ReleaseAsset))%type
  | HMetadata _ _ _ => OpenstackMetadata
  end.

(** The part of [api.Runtime] and of the request that is read.  The memory of
    the handlers is the cached download links. *)
Record Runtime := { rt_Namespace : string; rt_GitCommit : string; rt_Version : string }.

Section Handlers.
Context {E : Type} `{!Machine HandlerCall E} (rt : Runtime).
Abbreviation M := (Go (sys (option (list Link)) E HandlerCall)).

Definition hcall (c : HandlerCall) : M (resp c) := perform c.

(** [editCluster], src/pkg/api/handlers/util.go:34-48 *)
Definition editCluster (principal : Principal) (name : string) (updateFunc : Kluster -> Kluster) : M Kluster :=
  kluster ← hcall (HGet (rt_Namespace rt) (qualifiedName name (pr_Account principal)));
  hcall (HUpdate (rt_Namespace rt) (updateFunc kluster)).

(** The reply to an error of the API server *)
Definition not_found_or_500 (err : error) : response :=
  if IsNotFound err then NewErrorResponse 404 "Not found" [] else NewErrorResponse 500 (Error err) [].

(** [CreateCluster.Handle], src/pkg/api/handlers/create_cluster.go:25-65 *)
Definition CreateCluster (principal : Principal) (request : KlusterModel) : M response :=
  let name := mk_Name request in
  let spec := mk_Spec request in
  if negb (UniqueItems [] (NodePools spec))
  then mret (NewErrorResponse 422 "name in body shouldn't contain duplicates" [])
  else
    let spec := with_NodePools (default_image <$> NodePools spec) (with_spec_Name name spec) in
    match KlusterFor (rt_GitCommit rt) spec with
    | Bad _ => panic "invalid memory address or nil pointer dereference"
    | Ok k =>
        let kluster := {| Meta := {| Name := qualifiedName name (pr_Account principal); Namespace := ""; UID := "";
                                     Labels := {["account" := pr_Account principal]};
                                     Annotations := {["creator" := pr_Name principal]} |};
                          Spec := Spec k; Status := Status k |} in
        _ ← attempt (r ← attempt (hcall (HNamespaceGet (rt_Namespace rt)));
                     match r with Ok _ => mret tt | Bad _ => hcall (HNamespaceCreate (rt_Namespace rt)) end);
        r ← attempt (hcall (HCreate (rt_Namespace rt) kluster));
        mret match r with
        | Bad err =>
            if IsAlreadyExists err
            then NewErrorResponse 409 "Cluster with name %s already exists" [name]
            else NewErrorResponse 500 (Error err) []
        | Ok created => Response 201 (PKluster (klusterFromCRD created))
        end
    end.

(** [TerminateCluster.Handle], src/pkg/api/handlers/terminate_cluster.go:23-49 *)
Definition TerminateCluster (principal : Principal) (name : string) : M response :=
  r ← attempt (hcall (HGet (rt_Namespace rt) (qualifiedName name (pr_Account principal))));
  match r with
  | Bad err => mret (not_found_or_500 err)
  | Ok k =>
      if existsb (fun info => 0 <? npi_Running info) (st_NodePools (Status k))
      then mret (NewErrorResponse 409 "Cluster still has Nodes in a Pool" [])
      else
        r ← attempt (editCluster principal name
               (set_Status (with_phase KlusterPhaseTerminating "Cluster terminating")));
        mret match r with
        | Bad err => NewErrorResponse 500 (Error err) []
        | Ok _ => Response 202 PNone
        end
  end.

(** [UpdateCluster.Handle], src/pkg/api/handlers/update_cluster.go:21-41 *)
Definition UpdateCluster (principal : Principal) (name : string) (request : KlusterModel) : M response :=
  r ← attempt (editCluster principal name
         (set_Spec (with_NodePools (default_image <$> NodePools (mk_Spec request)))));
  mret match r with
  | Bad err => not_found_or_500 err
  | Ok kluster => Response 200 (PKluster (klusterFromCRD kluster))
  end.

(** [ShowCluster.Handle], src/pkg/api/handlers/show_cluster.go:21-33 *)
Definition ShowCluster (principal : Principal) (name : string) : M response :=
  r ← attempt (hcall (HGet (rt_Namespace rt) (qualifiedName name (pr_Account principal))));
  mret match r with
  | Bad err => not_found_or_500 err
  | Ok kluster => Response 200 (PKluster (klusterFromCRD kluster))
  end.

(** [ListClusters.Handle], src/pkg/api/handlers/list_clusters.go:20-33 *)
Definition ListClusters (principal : Principal) : M response :=
  r ← attempt (hcall (HList (rt_Namespace rt) (accountSelector principal)));
  mret match r with
  | Bad err => NewErrorResponse 500 (Error err) []
  | Ok items => Response 200 (PKlusters (klusterFromCRD <$> items))
  end.

(** [GetClusterEvents.Handle], src/pkg/api/handlers/get_cluster_events.go:21-43 *)
Definition GetClusterEvents (principal : Principal) (name : string) : M response :=
  r ← attempt (hcall (HEvents (qualifiedName name (pr_Account principal)) (rt_Namespace rt)));
  mret match r with
  | Bad err => NewErrorResponse 500 (Error err) []
  | Ok evs => Response 200 (PEvents evs)
  end.

(** An ignored error leaves nil, which is dereferenced next. *)
Definition must {A} (m : M A) : M A :=
  r ← attempt m;
  match r with Ok a => mret a | Bad _ => panic "invalid memory address or nil pointer dereference" end.

(** [scheme] and [host] come from the request.
    [GetClusterCredentials.Handle], src/pkg/api/handlers/get_cluster_credentials.go:30-98 *)
Definition GetClusterCredentials (scheme host : string) (principal : Principal) (name : string) : M response :=
  let qname := qualifiedName name (pr_Account principal) in
  r ← attempt (hcall (HSecretGet (rt_Namespace rt) qname));
  match r with
  | Bad err => mret (not_found_or_500 err)
  | Ok secret =>
      r ← attempt (hcall (HGet (rt_Namespace rt) qname));
      match r with
      | Bad err => mret (not_found_or_500 err)
      | Ok kluster =>
          match secret !! "apiserver-clients-ca-key.pem" with
          | None => mret (NewErrorResponse 500 "Clients CA key not found" [])
          | Some clientCAKey =>
          match secret !! "apiserver-clients-ca.pem" with
          | None => mret (NewErrorResponse 500 "Clients CA certificate not found" [])
          | Some clientCACert =>
          match secret !! "tls-ca.pem" with
          | None => mret (NewErrorResponse 500 "Server CA certificate not found" [])
          | Some serverCACert =>
              r ← attempt (hcall (HNewBundle clientCAKey clientCACert));
              match r with
              | Bad err => mret (NewErrorResponse 500 "Failed to parse CA certificate: %s" [Error err])
              | Ok false => panic "You can't use this certificate for signing. It's not a CA..."
              | Ok true =>
                  cert ← must (hcall (HSign clientCAKey clientCACert
                    {| sc_Sign := pr_Name principal +:+ "@" +:+ Domain principal;
                       sc_Organization := (fun role => "os:" +:+ role) <$> Roles principal;
                       sc_Province := [AuthURL principal; ProjectID (Openstack (Spec kluster))];
                       sc_Locality := [scheme +:+ "://" +:+ host] |}));
                  let '(key_pem, cert_pem) := cert : string * string in
                  let config := NewClientConfigV1 name (pr_Name principal +:+ "@" +:+ name)
                    (Apiserver (Status kluster)) key_pem cert_pem serverCACert in
                  r ← attempt (hcall (HYaml config));
                  mret match r with
                  | Bad err => NewErrorResponse 500 "Failed to generate YAML document: %s" [Error err]
                  | Ok kubeconfig => Response 200 (PCredentials {| Kubeconfig := kubeconfig |})
                  end
              end
          end end end
      end
  end.

(** [createSetupCommand], src/pkg/api/handlers/get_cluster_info.go:99-106 *)
Definition createSetupCommand (p : Principal) : string :=
  "kubernikusctl auth init --username " +:+ pr_Name p +:+ " --user-domain-name " +:+ Domain p +:+
  " --project-id " +:+ pr_Account p +:+ " --auth-url " +:+ AuthURL p.

(** The platform of a release asset; unknown assets are skipped. *)
Definition link_of (a : ReleaseAsset) : option Link :=
  if Contains (as_Name a) "darwin" then Some {| lk_Platform := "darwin"; lk_Link := as_DownloadURL a |}
  else if Contains (as_Name a) "linux" then Some {| lk_Platform := "linux"; lk_Link := as_DownloadURL a |}
  else if Contains (as_Name a) "windows" then Some {| lk_Platform := "windows"; lk_Link := as_DownloadURL a |}
  else None.

(** [getLinks], src/pkg/api/handlers/get_cluster_info.go:48-97 *)
Definition getLinks : M (list Link) :=
  links ← get_mem;
  match links with
  | Some ls => mret ls
  | None =>
      let release := if decide (rt_GitCommit rt = "HEAD") then "latest"
                     else "v" +:+ rt_Version rt +:+ "+" +:+ rt_GitCommit rt in
      r ← attempt (hcall (HRelease release));
      match r with
      | Bad err => fail (ErrNew ("Failed to fetch release " +:+ release +:+ ": " +:+ Error err))
      | Ok (status, line, assets) =>
          if 400 <=? status then fail (ErrNew ("Failed to fetch release " +:+ release +:+ ": " +:+ line))
          else
            match assets with
            | Bad err => fail err
            | Ok assets =>
                match omap link_of assets with
                | [] => fail (ErrNew ("No downloads found for release " +:+ release))
                | ls => _ ← set_mem (Some ls); mret ls
                end
            end
      end
  end.

Definition cluster_info (principal : Principal) (links : list Link) : KlusterInfo :=
  {| SetupCommand := createSetupCommand principal; ki_Binaries := [{| bin_Name := "kubernikusctl"; Links := links |}] |}.

(** [GetClusterInfo.Handle], src/pkg/api/handlers/get_cluster_info.go:29-46 *)
Definition GetClusterInfo (principal : Principal) : M response :=
  r ← attempt getLinks;
  mret match r with
  | Bad err => NewErrorResponse 500 (Error err) []
  | Ok links => Response 200 (PInfo (cluster_info principal links))
  end.

(** [GetOpenstackMetadata.Handle], src/pkg/api/handlers/get_openstack_metadata.go:21-44 *)
Definition GetOpenstackMetadata (token : string) (principal : Principal) : M response :=
  r ← attempt (hcall (HMetadata (AuthURL principal) token (pr_Account principal)));
  mret match r with
  | Bad err => NewErrorResponse 500 (Error err) []
  | Ok openstackMetadata => Response 200 (PMetadata openstackMetadata)
  end.

(** [Info.Handle], src/pkg/api/handlers/info.go:20-25 *)
Definition Info : M response := mret (Response 200 (PVersion {| in_Version := rt_GitCommit rt |})).
(** [ListAPIVersions.Handle], src/pkg/api/handlers/list_api_versions.go:19-23 *)
Definition ListAPIVersions : M response := mret (Response 200 (PVersions {| Versions := ["v1"] |})).

(** * Properties *)
Implicit Types s : sys (option (list Link)) E HandlerCall.

(** The requests of the API, and the handler of each *)
Inductive request :=
| RCreate (b : KlusterModel) | RTerminate (name : string) | RUpdate (name : string) (b : KlusterModel)
| RShow (name : string) | RList | REvents (name : string) | RCredentials (scheme host name : string)
| RInfo | RMetadata (token : string) | RVersion | RVersions.
Definition Handle (principal : Principal) (r : request) : M response :=
  match r with
  | RCreate b => CreateCluster principal b
  | RTerminate n => TerminateCluster principal n
  | RUpdate n b => UpdateCluster principal n b
  | RShow n => ShowCluster principal n
  | RList => ListClusters principal
  | REvents n => GetClusterEvents principal n
  | RCredentials sch h n => GetClusterCredentials sch h principal n
  | RInfo => GetClusterInfo principal
  | RMetadata tok => GetOpenstackMetadata tok principal
  | RVersion => Info
  | RVersions => ListAPIVersions
  end.

(** What a request of a principal may name: objects of the control plane's
    namespace whose name contains the account. *)
Definition tenant_call (p : Principal) (c : HandlerCall) : Prop :=
  let own n := Contains n (pr_Account p) = true in
  match c with
  | HGet ns n | HSecretGet ns n | HEvents n ns => ns = rt_Namespace rt ∧ own n
  | HCreate ns k => ns = rt_Namespace rt ∧ own (Name (Meta k)) ∧ Labels (Meta k) = {["account" := pr_Account p]}
  | HList ns sel =>
      ns = rt_Namespace rt ∧
      sel = if valid_label_value (pr_Account p) then Some ("account", pr_Account p) else None
  | HUpdate ns _ | HNamespaceGet ns | HNamespaceCreate ns => ns = rt_Namespace rt
  | HMetadata url _ project => url = AuthURL p ∧ project = pr_Account p
  | HSign _ _ c => sc_Sign c = pr_Name p +:+ "@" +:+ Domain p ∧
                   sc_Organization c = (fun role => "os:" +:+ role) <$> Roles p
  | HNewBundle _ _ | HYaml _ | HRelease _ => True
  end.

Lemma qualifiedName_own name a : Contains (qualifiedName name a) a = true.
Proof. unfold qualifiedName. destruct (Contains name a) eqn:H; [done|]. apply Contains_app_l, Contains_suffix. Qed.

Lemma qualifiedName_has name a : Contains name a = true → qualifiedName name a = name.
Proof. unfold qualifiedName. by intros ->. Qed.

(** For every request, whatever its input and whatever the services
    reply, a principal's handler addresses only objects whose name contains the
    principal's account, in the control plane's namespace; what it creates
    carries the account as label, and a list selects on that label whenever the
    account is a label value; metadata and certificates are for the principal's
    own project, name and roles. *)
Lemma Handle_tenant p r : emits (tenant_call p) (Handle p r).
Proof.
  pose proof (fun n => qualifiedName_own n (pr_Account p)) as Hown.
  destruct r; unfold Handle, CreateCluster, TerminateCluster, UpdateCluster, ShowCluster, ListClusters,
    GetClusterEvents, GetClusterCredentials, GetClusterInfo, GetOpenstackMetadata, Info, ListAPIVersions,
    getLinks, editCluster, must, hcall; emits_solve.
  all: try (refine (emits_perform _ _ _); unfold tenant_call, accountSelector; cbn; by eauto).
Qed.

(** C29: a name is qualified once: qualifying again changes nothing.  But the
    object of account [a] is also the one that any account contained in its
    name reaches, so the second account sees, edits and deletes it under the
    full name. *)
Theorem qualifiedName_shared p q name s :
  let full := qualifiedName name (pr_Account p) in
  Contains full (pr_Account q) = true →
  qualifiedName full (pr_Account p) = full ∧
  ShowCluster q full s = ShowCluster p name s ∧ TerminateCluster q full s = TerminateCluster p name s.
Proof.
  intros full H.
  assert (qualifiedName full (pr_Account q) = full) as Hq by by apply qualifiedName_has.
  split; [apply qualifiedName_has, qualifiedName_own|]. unfold ShowCluster, TerminateCluster, editCluster. by rewrite Hq.
Qed.

Definition terminated (k : Kluster) : Kluster :=
  set_Status (with_phase KlusterPhaseTerminating "Cluster terminating") k.

(** A cluster with a running node in a pool is not terminated: the
    request ends in 409 after one read.  Otherwise the phase of the copy read
    again is set to terminating in one update, even if that second copy has
    running nodes by now: the check is not repeated. *)
Theorem TerminateCluster_result p name s e1 k :
  let get := HGet (rt_Namespace rt) (qualifiedName name (pr_Account p)) in
  answer get (env s) = (e1, Ok k) →
  (Exists (fun i => 0 < npi_Running i) (st_NodePools (Status k)) →
   TerminateCluster p name s =
     (Sys (mem s) e1 (trace s ++ [get]), Ret (NewErrorResponse 409 "Cluster still has Nodes in a Pool" []))) ∧
  (Forall (fun i => npi_Running i <= 0) (st_NodePools (Status k)) → ∀ e2 k2 e3 r,
   answer get e1 = (e2, Ok k2) →
   answer (HUpdate (rt_Namespace rt) (terminated k2)) e2 = (e3, r) →
   TerminateCluster p name s =
     (Sys (mem s) e3 (trace s ++ [get; get; HUpdate (rt_Namespace rt) (terminated k2)]),
      Ret match r with Ok _ => Response 202 PNone | Bad err => NewErrorResponse 500 (Error err) [] end)).
Proof.
  intros get Hget.
  assert (∀ l, existsb (fun i => 0 <? npi_Running i) l = true ↔ Exists (fun i => 0 < npi_Running i) l) as Hex.
  { intros l. rewrite existsb_exists, Exists_exists.
    split; intros (x & Hx & H); exists x; (split; [by apply list_elem_of_In|by apply Z.ltb_lt]). }
  unfold TerminateCluster, editCluster, hcall, attempt, perform, mbind, go_bind.
  subst get. rewrite Hget. cbn [of_reply mem env trace]. split.
  - intros H. by rewrite (proj2 (Hex _) H).
  - intros H e2 k2 e3 r H2 H3.
    destruct (existsb _ _) eqn:E0; [|].
    { apply Hex, Exists_exists in E0 as (x & Hx & ?). rewrite Forall_forall in H. specialize (H x Hx). lia. }
    cbn [mem env trace]. rewrite H2. cbn [of_reply mem env trace]. fold (terminated k2). rewrite H3.
    destruct r; cbn; by rewrite <- !app_assoc.
Qed.
(** An update replaces the node pools of the cluster as it is read, every
    pool with an image and otherwise as requested, and nothing else of the
    object: not its metadata, its status nor the rest of its specification. *)
Theorem UpdateCluster_result p name b s e1 k e2 r :
  let get := HGet (rt_Namespace rt) (qualifiedName name (pr_Account p)) in
  let pools := default_image <$> NodePools (mk_Spec b) in
  let k' := {| Meta := Meta k; Spec := with_NodePools pools (Spec k); Status := Status k |} in
  answer get (env s) = (e1, Ok k) → answer (HUpdate (rt_Namespace rt) k') e1 = (e2, r) →
  UpdateCluster p name b s =
    (Sys (mem s) e2 (trace s ++ [get; HUpdate (rt_Namespace rt) k']),
     Ret match r with Ok u => Response 200 (PKluster (klusterFromCRD u)) | Bad err => not_found_or_500 err end) ∧
  Forall (fun q => np_Image q ≠ "") pools ∧
  Forall2 (fun q q' => q' = if decide (np_Image q = "") then with_Image DEFAULT_IMAGE q else q)
    (NodePools (mk_Spec b)) pools.
Proof.
  intros get pools k' Hget Hupd. split_and!.
  - unfold UpdateCluster, editCluster, hcall, attempt, perform, mbind, go_bind. subst get.
    rewrite Hget. cbn [of_reply mem env trace]. change (set_Spec _ k) with k'. rewrite Hupd.
    destruct r; cbn; by rewrite <- app_assoc.
  - subst pools. apply Forall_fmap, Forall_true. intros q. unfold default_image, compose. by case_decide.
  - subst pools. apply Forall2_fmap_r, Forall_Forall2_diag, Forall_true. done.
Qed.

(** The object a creation submits *)
Definition created (p : Principal) (name : string) (k : Kluster) : Kluster :=
  {| Meta := {| Name := qualifiedName name (pr_Account p); Namespace := ""; UID := "";
                Labels := {["account" := pr_Account p]}; Annotations := {["creator" := pr_Name p]} |};
     Spec := Spec k; Status := Status k |}.

Lemma images_default l : Forall (fun q => np_Image q ≠ "") (default_image <$> l).
Proof. apply Forall_fmap, Forall_true. intros q. unfold default_image, compose. by case_decide. Qed.

Lemma EnsureNamespace_mem s :
  ∃ e l o, attempt (r ← attempt (hcall (HNamespaceGet (rt_Namespace rt)));
       match r with Ok _ => mret tt | Bad _ => hcall (HNamespaceCreate (rt_Namespace rt)) end) s
    = (Sys (mem s) e (trace s ++ l), Ret o) ∧
    Forall (fun c => c = HNamespaceGet (rt_Namespace rt) ∨ c = HNamespaceCreate (rt_Namespace rt)) l.
Proof.
  destruct (answer (HNamespaceGet (rt_Namespace rt)) (env s)) as [e r] eqn:E1.
  destruct (answer (HNamespaceCreate (rt_Namespace rt)) e) as [e' r'] eqn:E2.
  unfold hcall, attempt at 1. rewrite (bind_run _ _ _ _ _ (attempt_perform _ _ _ _ E1)). destruct r as [u|err].
  - eexists _, [_], _. split; [reflexivity|]. rewrite Forall_singleton; auto.
  - unfold perform. cbn [env mem trace]. rewrite E2, <- app_assoc.
    destruct r' as [[]|err']; eexists _, [_; _], _; (split; [reflexivity|]); rewrite Forall_cons, Forall_singleton; auto.
Qed.

(** A request to create a cluster, whatever its input: it panics exactly
    when the factory refuses the specification (the ignored error), repeated
    pools are answered 422 without any call, and otherwise one object is
    submitted, pending, labelled with the account, with an image for every
    pool and a status entry with no running node for each; the namespace is
    ensured before, and its outcome does not matter. *)
Theorem CreateCluster_result p b s :
  if UniqueItems [] (NodePools (mk_Spec b)) then
    let spec := with_NodePools (default_image <$> NodePools (mk_Spec b)) (with_spec_Name (mk_Name b) (mk_Spec b)) in
    match KlusterFor (rt_GitCommit rt) spec with
    | Bad _ => CreateCluster p b s = (s, Panic "invalid memory address or nil pointer dereference")
    | Ok k =>
        let k' := created p (mk_Name b) k in
        Phase (Status k') = KlusterPhasePending ∧
        Labels (Meta k') = {["account" := pr_Account p]} ∧ Account k' = pr_Account p ∧
        Forall (fun q => np_Image q ≠ "") (NodePools (Spec k')) ∧
        st_NodePools (Status k') = pool_info <$> NodePools (Spec k') ∧
        ∃ e l e' r, Forall (fun c => c = HNamespaceGet (rt_Namespace rt) ∨ c = HNamespaceCreate (rt_Namespace rt)) l ∧
          answer (HCreate (rt_Namespace rt) k') e = (e', r) ∧
          CreateCluster p b s =
            (Sys (mem s) e' (trace s ++ l ++ [HCreate (rt_Namespace rt) k']),
             Ret match r with
                 | Ok c => Response 201 (PKluster (klusterFromCRD c))
                 | Bad err => if IsAlreadyExists err
                     then NewErrorResponse 409 "Cluster with name %s already exists" [mk_Name b]
                     else NewErrorResponse 500 (Error err) []
                 end)
    end
  else CreateCluster p b s = (s, Ret (NewErrorResponse 422 "name in body shouldn't contain duplicates" [])).
Proof.
  unfold CreateCluster. destruct (UniqueItems _ _); [|done]. cbn [negb].
  set (spec := with_NodePools _ _). cbv zeta. destruct (KlusterFor _ spec) as [k|err] eqn:Hk; [|done].
  fold (created p (mk_Name b) k). set (k' := created p (mk_Name b) k).
  apply KlusterFor_inv in Hk as (Hp & Hn & Hst).
  split_and!; [done| done | done | | |].
  - change (NodePools (Spec k')) with (NodePools (Spec k)). rewrite Hn. apply images_default.
  - change (Status k') with (Status k). change (Spec k') with (Spec k). by rewrite Hst, Hn.
  - destruct (EnsureNamespace_mem s) as (e & l & o & He & Hl).
    destruct (answer (HCreate (rt_Namespace rt) k') e) as [e' r] eqn:Hc. exists e, l, e', r.
    split; [done|]. split; [done|]. rewrite (bind_run _ _ _ _ _ He).
    go_call Hc. by rewrite <- app_assoc.
Qed.
(** Credentials are handed out only after the secret and the cluster have
    been read under the qualified name; the certificate is signed by the
    clients' CA of that secret, for the user and the roles of the principal,
    and the configuration points at the API server of that cluster and trusts
    the server CA of the secret. *)
Theorem GetClusterCredentials_result sch h p name s s' kc :
  GetClusterCredentials sch h p name s = (s', Ret (Response 200 (PCredentials {| Kubeconfig := kc |}))) →
  let q := qualifiedName name (pr_Account p) in
  ∃ secret k key cert ca ckey ccert e1 e2 e3 e4,
    let sc := {| sc_Sign := pr_Name p +:+ "@" +:+ Domain p;
                 sc_Organization := (fun role => "os:" +:+ role) <$> Roles p;
                 sc_Province := [AuthURL p; ProjectID (Openstack (Spec k))];
                 sc_Locality := [sch +:+ "://" +:+ h] |} in
    let config := NewClientConfigV1 name (pr_Name p +:+ "@" +:+ name) (Apiserver (Status k)) ckey ccert ca in
    answer (HSecretGet (rt_Namespace rt) q) (env s) = (e1, Ok secret) ∧
    answer (HGet (rt_Namespace rt) q) e1 = (e2, Ok k) ∧
    secret !! "apiserver-clients-ca-key.pem" = Some key ∧
    secret !! "apiserver-clients-ca.pem" = Some cert ∧
    secret !! "tls-ca.pem" = Some ca ∧
    answer (HNewBundle key cert) e2 = (e3, Ok true) ∧
    answer (HSign key cert sc) e3 = (e4, Ok (ckey, ccert)) ∧
    answer (HYaml config) e4 = (env s', Ok kc) ∧
    trace s' = trace s ++ [HSecretGet (rt_Namespace rt) q; HGet (rt_Namespace rt) q;
                           HNewBundle key cert; HSign key cert sc; HYaml config].
Proof.
  intros Hrun q. revert Hrun. unfold GetClusterCredentials, hcall. fold q.
  unfold must, mbind, go_bind, attempt, perform, mret, go_ret.
  destruct (answer (HSecretGet _ q) (env s)) as [e1 [secret|err]] eqn:E1; cbn [of_reply];
    [|unfold not_found_or_500; by destruct (IsNotFound err)].
  cbn [mem env trace].
  destruct (answer (HGet _ q) e1) as [e2 [k|err]] eqn:E2; cbn [of_reply];
    [|unfold not_found_or_500; by destruct (IsNotFound err)].
  destruct (secret !! "apiserver-clients-ca-key.pem") as [key|] eqn:L1; [|done].
  destruct (secret !! "apiserver-clients-ca.pem") as [cert|] eqn:L2; [|done].
  destruct (secret !! "tls-ca.pem") as [ca|] eqn:L3; [|done].
  cbn [mem env trace]. destruct (answer (HNewBundle key cert) e2) as [e3 [[|]|err]] eqn:E3; cbn [of_reply]; [|done..].
  cbn [mem env trace].
  match goal with |- context [answer (HSign key cert ?sc) e3] =>
    destruct (answer (HSign key cert sc) e3) as [e4 [[ckey ccert]|err]] eqn:E4 end; cbn [of_reply]; [|done].
  cbn [mem env trace].
  match goal with |- context [answer (HYaml ?c) e4] =>
    destruct (answer (HYaml c) e4) as [e5 [kc'|err]] eqn:E5 end; cbn [of_reply]; [|done].
  intros [= <- ->]. exists secret, k, key, cert, ca, ckey, ccert, e1, e2, e3, e4.
  cbn [mem env trace]. rewrite <- !app_assoc. by split_and!.
Qed.

(** The download links are looked up at most once: a request makes at
    most one call, a failed one caches nothing, and after a successful one
    every later request, of any principal, is answered with the same non-empty
    list without a call. *)
Theorem GetClusterInfo_cached p s s' r :
  GetClusterInfo p s = (s', Ret r) →
  (∃ c, (c = [] ∨ ∃ tag, c = [HRelease tag]) ∧ trace s' = trace s ++ c ∧ (mem s ≠ None → c = [])) ∧
  ((∃ ls, r = Response 200 (PInfo (cluster_info p ls)) ∧ mem s' = Some ls ∧ (mem s = None → ls ≠ []) ∧
      ∀ p', GetClusterInfo p' s' = (s', Ret (Response 200 (PInfo (cluster_info p' ls))))) ∨
   (code r = 500 ∧ mem s' = None)).
Proof.
  unfold GetClusterInfo, getLinks, hcall, mbind, go_bind, attempt, perform, mret, go_ret, get_mem, fail, set_mem.
  destruct (mem s) as [ls|] eqn:Hm.
  { intros [= <- <-]. split; [exists []; rewrite app_nil_r; split_and!; auto|].
    left. exists ls. split_and!; [done..|]. intros p'. by rewrite Hm. }
  destruct (answer (HRelease _) (env s)) as [e [[[status line] assets]|err]]; cbn [of_reply].
  - destruct (400 <=? status).
    { intros [= <- <-]. cbn [mem trace code]. rewrite Hm. split; [eexists [_]; split_and!; [eauto|done|done]|]. by right. }
    destruct assets as [assets|err].
    + destruct (omap link_of assets) as [|l ls] eqn:Ho; intros [= <- <-]; cbn [mem trace code].
      * rewrite Hm. split; [eexists [_]; split_and!; [eauto|done|done]|]. by right.
      * split; [eexists [_]; split_and!; [eauto|done|done]|]. left. exists (l :: ls). by split_and!.
    + intros [= <- <-]. cbn [mem trace code]. rewrite Hm. split; [eexists [_]; split_and!; [eauto|done|done]|]. by right.
  - intros [= <- <-]. cbn [mem trace code]. rewrite Hm. split; [eexists [_]; split_and!; [eauto|done|done]|]. by right.
Qed.
End Handlers.

(** * Authentication and authorization *)

(** [Keystone], src/pkg/api/auth/keystone_auth.go:24-26 *)
Definition keystone_url (authURL : string) : string :=
  if HasSuffix authURL "/v3" || HasSuffix authURL "/v3/" then authURL
  else TrimRightFunc (fun c => bool_decide (c = "/"%char)) authURL +:+ "/" +:+ "/v3".

(** A validated token *)
Record Token := { tk_UserID : string; tk_UserName : string; tk_UserDomain : string;
  tk_Project : option string; tk_Roles : list string }.

(** [validate] is [auth.Validate] of the Keystone library; the code of a
    refusal is 401.
    [Keystone], src/pkg/api/auth/keystone_auth.go:31-45 *)
Definition Authenticate (authURL : string) (validate : string -> reply Token) (token : string) : reply Principal :=
  match validate token with
  | Bad err => Bad (ErrNew ("Authentication failed: " +:+ Error err))
  | Ok t =>
      match tk_Project t with
      | None => Bad (ErrNew "Auth token isn't project scoped")
      | Some project =>
          Ok {| AuthURL := keystone_url authURL; pr_ID := tk_UserID t; pr_Name := tk_UserName t;
                Domain := tk_UserDomain t; pr_Account := project; Roles := tk_Roles t |}
      end
  end.

Section Authorizer.
(** The routers built from the API document, by method: the operation of a
    clean path and the values of its parameters; the policy enforcer. *)
Context (routers : gmap string (string -> option (string * list (string * string)))).
Context (clean : string -> string).
Context (Enforce : string -> gmap string string -> list string -> gmap string string -> bool).

(** [Authorize], src/pkg/api/auth/authorizer.go:81-109 *)
Definition Authorize (method path : string) (authUser : Principal) : option error :=
  match routers !! method with
  | None => Some (ErrNew ("No router found for method " +:+ method))
  | Some router =>
      match router (clean path) with
      | None => Some (ErrNew ("Operation not found for " +:+ method +:+ " " +:+ path))
      | Some (operationID, params) =>
          let requestVars := fold_left (fun m '(n, v) => <[n := v]> m) params ∅ in
          if Enforce operationID (<["user_id" := pr_ID authUser]> {["project_id" := pr_Account authUser]})
               (Roles authUser) requestVars
          then None
          else Some (ErrNew ("Authorization failed for user " +:+ pr_Name authUser +:+ " for operation " +:+ operationID))
      end
  end.
End Authorizer.

(** * Concrete runs *)

Definition demo_api : Machine HandlerCall unit := fun c e =>
  (e, match c return reply (resp c) with
      | HGet _ n => Ok {| Meta := {| Name := n; Namespace := ""; UID := "u"; Labels := ∅; Annotations := ∅ |};
                          Spec := zero_KlusterSpec;
                          Status := with_phase KlusterPhaseRunning "" zero_KlusterStatus |}
      | HUpdate _ k => Ok k
      | HSecretGet _ _ => Ok (list_to_map [("apiserver-clients-ca-key.pem", "key");
                                           ("apiserver-clients-ca.pem", "cert"); ("tls-ca.pem", "ca")])
      | HNewBundle _ _ => Ok true
      | HSign _ _ _ => Ok ("ckey", "ccert")
      | HYaml _ => Ok "kubeconfig"
      | HRelease _ => Ok (200, "200 OK", Ok [{| as_Name := "kubernikusctl_darwin"; as_DownloadURL := "url" |}])
      | c => Bad (ErrNew "unused")
      end).
Definition demo_rt : Runtime := {| rt_Namespace := "kubernikus"; rt_GitCommit := "HEAD"; rt_Version := "1" |}.
Definition demo_p (account : string) : Principal :=
  {| AuthURL := "https://keystone/v3"; pr_ID := "id"; pr_Name := "user"; Domain := "domain";
     pr_Account := account; Roles := ["admin"] |}.
Definition demo_hstate : sys (option (list Link)) unit HandlerCall := Sys None tt [].
Definition demo_pool (image : string) : NodePool :=
  {| np_Config := {| Repair := false; Upgrade := false |}; np_Flavor := "m1"; np_Image := image; np_Name := "p"; np_Size := 1 |}.
Definition demo_body : KlusterModel :=
  {| mk_Name := "k"; mk_Spec := with_NodePools [demo_pool ""] zero_KlusterSpec; mk_Status := zero_KlusterStatus |}.

Lemma qualifiedName_shared_witness :
  ShowCluster (Machine0:=demo_api) demo_rt (demo_p "b2") "x-b2-a1" demo_hstate =
  ShowCluster (Machine0:=demo_api) demo_rt (demo_p "a1") "x-b2" demo_hstate.
Proof.
  refine (proj1 (proj2 (qualifiedName_shared (Machine0:=demo_api) demo_rt (demo_p "a1") (demo_p "b2") "x-b2" demo_hstate _))).
  vm_compute. reflexivity.
Defined.

Lemma TerminateCluster_result_witness :
  snd (TerminateCluster (Machine0:=demo_api) demo_rt (demo_p "a1") "k" demo_hstate) = Ret (Response 202 PNone).
Proof.
  set (k := {| Meta := {| Name := "k-a1"; Namespace := ""; UID := "u"; Labels := ∅; Annotations := ∅ |};
               Spec := zero_KlusterSpec; Status := with_phase KlusterPhaseRunning "" zero_KlusterStatus |}).
  destruct (TerminateCluster_result (Machine0:=demo_api) demo_rt (demo_p "a1") "k" demo_hstate tt k eq_refl) as [_ H].
  rewrite (H (Forall_nil_2 _) tt k tt (Ok (terminated k)) eq_refl eq_refl). reflexivity.
Defined.

Lemma UpdateCluster_result_witness :
  ∃ k', trace (fst (UpdateCluster (Machine0:=demo_api) demo_rt (demo_p "a1") "k" demo_body demo_hstate)) =
    [HGet "kubernikus" "k-a1"; HUpdate "kubernikus" k'] ∧ NodePools (Spec k') = [demo_pool DEFAULT_IMAGE].
Proof.
  destruct (UpdateCluster_result (Machine0:=demo_api) demo_rt (demo_p "a1") "k" demo_body demo_hstate
              tt _ tt _ eq_refl eq_refl) as [H _].
  rewrite H. eexists. split; reflexivity.
Defined.

Lemma GetClusterCredentials_result_witness :
  let run := GetClusterCredentials (Machine0:=demo_api) demo_rt "https" "host" (demo_p "a1") "k" demo_hstate in
  snd run = Ret (Response 200 (PCredentials {| Kubeconfig := "kubeconfig" |})) ∧ length (trace (fst run)) = 5%nat.
Proof.
  intros run. split; [vm_compute; reflexivity|].
  destruct (GetClusterCredentials_result (Machine0:=demo_api) demo_rt "https" "host" (demo_p "a1") "k" demo_hstate
              (fst run) "kubeconfig") as (secret & k & key & cert & ca & ck & cc & e1 & e2 & e3 & e4 & H).
  - vm_compute. reflexivity.
  - destruct H as (_ & _ & _ & _ & _ & _ & _ & _ & H). rewrite H. reflexivity.
Defined.

Lemma GetClusterInfo_cached_witness :
  let s' := fst (GetClusterInfo (Machine0:=demo_api) demo_rt (demo_p "a1") demo_hstate) in
  trace (fst (GetClusterInfo (Machine0:=demo_api) demo_rt (demo_p "b2") s')) = trace s'.
Proof.
  intros s'.
  destruct (GetClusterInfo_cached (Machine0:=demo_api) demo_rt (demo_p "a1") demo_hstate s' _ eq_refl)
    as [_ [(ls & _ & _ & _ & H) | [H _]]]; [by rewrite (H (demo_p "b2"))|].
  vm_compute in H. discriminate.
Defined.
