(* ===== verification/Scoped.v ===== *)
(** [pkg/client/openstack/scoped]: the OpenStack client of one request.

    It authenticates with the token of the request and collects what a project
    offers to its klusters.  Keystone, Nova and Neutron are calls; the logging
    decorator passes every call on. *)
From S2P Require Import Prelude GoStrings Models ApiModels Pager.
From S2P Require Import Handlers.

(** The parts of the services' objects that are read *)
Record RouterInfo := { ri_ID : string; ri_Name : string }.
Record NetworkInfo := { ni_ID : string; ni_Name : string; ni_Subnets : list string }.
Record AuthOptions := { IdentityEndpoint : string; TokenID : string; ScopeProjectID : string }.

Inductive SCall :=
| SNewLoggingProviderClient (identity : string)
| SAuthenticateV3 (o : AuthOptions)
| SNewIdentityV3 | SNewComputeV2 | SNewNetworkV2
| SRouters
| SPorts (deviceID deviceOwner : string)     (** the networks of the ports *)
| SNetwork (id : string)
| SSubnet (id : string)
| SKeyPairs                                   (** their names: a listing of one page *)
| SSecGroups
| SFlavors.
#[export] Instance scall_iface : Iface SCall := fun c =>
  match c with
  | SRouters => pager RouterInfo
  | SPorts _ _ => pager string
  | SNetwork _ => NetworkInfo
  | SSubnet _ => Subnet
  | SKeyPairs => list string
  | SSecGroups => pager SecurityGroup
  | SFlavors => pager Flavor
  | _ => unit
  end.

(** Which service clients are set; a nil one is dereferenced by its first use.
    [AuthenticatedClient], src/pkg/client/openstack/util/factory.go:7-11 *)
Record AuthenticatedClient := { IdentityClient : bool; ComputeClient : bool; NetworkClient : bool }.

Section Client.
Context {E : Type} `{!Machine SCall E}.
Abbreviation M := (Go (sys AuthenticatedClient E SCall)).

Definition scall (c : SCall) : M (resp c) := perform c.
Definition on (service : AuthenticatedClient -> bool) (c : SCall) : M (resp c) :=
  m ← get_mem;
  if service m then scall c else panic "invalid memory address or nil pointer dereference".

(** The loop that appends to [result], and the one that assigns to its items *)
Definition collect {A B} (f : A -> M B) (l : list A) : M (list B) :=
  for_fold (fun result x => y ← f x; mret (result ++ [y])) [] l.
(** Every page appended *)
Definition all_pages {A} (p : pager A) : M (list A) := EachPage (fun result page => mret (result ++ page, true)) [] p.

(** [Authenticate], src/pkg/client/openstack/scoped/client.go:42-65 *)
Definition Authenticate (authOptions : AuthOptions) : M unit :=
  _ ← scall (SNewLoggingProviderClient (IdentityEndpoint authOptions));
  _ ← scall (SAuthenticateV3 authOptions);
  _ ← scall SNewIdentityV3;
  c ← get_mem;
  _ ← set_mem {| IdentityClient := true; ComputeClient := ComputeClient c; NetworkClient := NetworkClient c |};
  _ ← scall SNewComputeV2;
  c ← get_mem;
  _ ← set_mem {| IdentityClient := IdentityClient c; ComputeClient := true; NetworkClient := NetworkClient c |};
  _ ← scall SNewNetworkV2;
  c ← get_mem;
  set_mem {| IdentityClient := IdentityClient c; ComputeClient := ComputeClient c; NetworkClient := true |}.

(** A client that cannot authenticate is returned with the error and not used.
    [NewClient], src/pkg/client/openstack/scoped/client.go:32-40 *)
Definition NewClient (authOptions : AuthOptions) : M unit :=
  _ ← set_mem {| IdentityClient := false; ComputeClient := false; NetworkClient := false |};
  Authenticate authOptions.

(** [getRouterNetworkIDs], src/pkg/client/openstack/scoped/client.go:145-160 *)
Definition getRouterNetworkIDs (router : RouterInfo) : M (list string) :=
  p ← on NetworkClient (SPorts (ri_ID router) "network:router_interface");
  all_pages p.

(** [getSubnetIDs], src/pkg/client/openstack/scoped/client.go:162-169 *)
Definition getSubnetIDs (network : NetworkInfo) : M (list string) :=
  result ← on NetworkClient (SNetwork (ni_ID network)); mret (ni_Subnets result).

(** [getSubnets], src/pkg/client/openstack/scoped/client.go:171-188 *)
Definition getSubnets (network : NetworkInfo) : M (list (option Subnet)) :=
  subnetIDs ← getSubnetIDs network;
  collect (B:=option Subnet) (fun subnetID => subnet ← on NetworkClient (SSubnet subnetID); mret (Some subnet)) subnetIDs.

(** The networks are fetched first, then the subnets of each.
    [getNetworks], src/pkg/client/openstack/scoped/client.go:120-143 *)
Definition getNetworks (router : RouterInfo) : M (list (option Network)) :=
  networkIDs ← getRouterNetworkIDs router;
  result ← collect (B:=NetworkInfo) (fun networkID => on NetworkClient (SNetwork networkID)) networkIDs;
  collect (fun network =>
    subnets ← getSubnets network;
    mret (Some {| nw_ID := ni_ID network; nw_Name := ni_Name network; Subnets := subnets |})) result.

(** [getRouters], src/pkg/client/openstack/scoped/client.go:93-118 *)
Definition getRouters : M (list (option Router)) :=
  p ← on NetworkClient SRouters;
  result ← all_pages p;
  collect (fun router =>
    networks ← getNetworks router;
    mret (Some {| ro_ID := ri_ID router; ro_Name := ri_Name router; Networks := networks |})) result.

(** [getKeyPairs], src/pkg/client/openstack/scoped/client.go:190-208 *)
Definition getKeyPairs : M (list (option KeyPair)) :=
  names ← on ComputeClient SKeyPairs; mret ((fun name => Some {| kp_Name := name |}) <$> names).

(** [getSecurityGroups], src/pkg/client/openstack/scoped/client.go:210-225 *)
Definition getSecurityGroups : M (list (option SecurityGroup)) :=
  p ← on ComputeClient SSecGroups; l ← all_pages p; mret (Some <$> l).

(** [getFlavors], src/pkg/client/openstack/scoped/client.go:227-242 *)
Definition getFlavors : M (list (option Flavor)) :=
  p ← on ComputeClient SFlavors; l ← all_pages p; mret (Some <$> l).

(** What was collected before an error is returned with it and not used.
    [GetMetadata], src/pkg/client/openstack/scoped/client.go:67-91 *)
Definition GetMetadata : M OpenstackMetadata :=
  routers ← getRouters;
  keyPairs ← getKeyPairs;
  securityGroups ← getSecurityGroups;
  flavors ← getFlavors;
  mret {| Flavors := flavors; KeyPairs := keyPairs; Routers := routers; SecurityGroups := securityGroups |}.

(** What the handler makes of the request's token and the principal's project *)
Definition metadata_of_request (authURL token project : string) : M OpenstackMetadata :=
  _ ← NewClient {| IdentityEndpoint := authURL; TokenID := token; ScopeProjectID := project |};
  GetMetadata.
End Client.

(** * What a project offers *)

(** The objects of a project: its routers, the networks of the ports a device
    has in a role, networks with the names and the subnets they list *)
Record project := {
  pj_routers : list RouterInfo;
  pj_ports : string -> string -> list string;
  pj_networks : gmap string (string * list string);
  pj_subnets : gmap string Subnet;
  pj_keys : list string;
  pj_secgroups : list SecurityGroup;
  pj_flavors : list Flavor }.

(** The metadata of a project, as the API documents it; [None] when a port or
    a network refers to something that cannot be read *)
Definition network_of (P : project) (id : string) : option Network :=
  '(name, subs) ← pj_networks P !! id;
  subnets ← mapM (fun i => Some <$> pj_subnets P !! i) subs;
  Some {| nw_ID := id; nw_Name := name; Subnets := subnets |}.
Definition router_of (P : project) (r : RouterInfo) : option Router :=
  networks ← mapM (fun id => Some <$> network_of P id) (pj_ports P (ri_ID r) "network:router_interface");
  Some {| ro_ID := ri_ID r; ro_Name := ri_Name r; Networks := networks |}.
Definition metadata_of (P : project) : option OpenstackMetadata :=
  routers ← mapM (fun r => Some <$> router_of P r) (pj_routers P);
  Some {| Flavors := Some <$> pj_flavors P; KeyPairs := (fun name => Some {| kp_Name := name |}) <$> pj_keys P;
          Routers := routers; SecurityGroups := Some <$> pj_secgroups P |}.

(** The replies of services that hold the project *)
Definition served (P : project) (c : SCall) : reply (resp c) -> Prop :=
  match c return reply (resp c) -> Prop with
  | SRouters => fun r => ∃ p, r = Ok p ∧ listed p = Ok (pj_routers P)
  | SPorts device owner => fun r => ∃ p, r = Ok p ∧ listed p = Ok (pj_ports P device owner)
  | SNetwork id => fun r =>
      match pj_networks P !! id with
      | Some (name, subs) => r = Ok {| ni_ID := id; ni_Name := name; ni_Subnets := subs |}
      | None => ∃ e, r = Bad e
      end
  | SSubnet id => fun r => match pj_subnets P !! id with Some n => r = Ok n | None => ∃ e, r = Bad e end
  | SKeyPairs => fun r => r = Ok (pj_keys P)
  | SSecGroups => fun r => ∃ p, r = Ok p ∧ listed p = Ok (pj_secgroups P)
  | SFlavors => fun r => ∃ p, r = Ok p ∧ listed p = Ok (pj_flavors P)
  | _ => fun _ => True
  end.

Definition authenticates (c : SCall) : bool := match c with SAuthenticateV3 _ => true | _ => false end.
(** Services that hold the projects [projects]: authenticating selects the one
    the token is scoped to, and no other call changes anything. *)
Class ProjectLaws (E : Type) `{!Machine SCall E} (projects : string -> project) (project_of : E -> project) := {
  project_served c e : served (project_of e) c (snd (answer c e));
  project_kept c e : authenticates c = false → project_of (fst (answer c e)) = project_of e;
  project_scoped o e e' : answer (SAuthenticateV3 o) e = (e', Ok tt) → project_of e' = projects (ScopeProjectID o) }.

Section Reads.
Context {E : Type} `{!Machine SCall E} (projects : string -> project) (project_of : E -> project)
  `{!ProjectLaws E projects project_of} (P : project).
Implicit Types s : sys AuthenticatedClient E SCall.

(** With its clients set, [m] yields [v] or fails, and changes nothing. *)
Definition reads {A} (m : Go (sys AuthenticatedClient E SCall) A) (v : option A) : Prop :=
  ∀ s, NetworkClient (mem s) = true → ComputeClient (mem s) = true → project_of (env s) = P →
    wp m (λ out s', mem s' = mem s ∧ project_of (env s') = P ∧
                    match v with Some a => out = Ret a | None => ∃ e, out = Fail e end) s.

Lemma reads_ret {A} (a : A) : reads (mret a) (Some a).
Proof. intros s _ _ ?. by apply wp_ret. Qed.
Lemma reads_bind {A B} (m : Go (sys AuthenticatedClient E SCall) A) (f : A → Go (sys AuthenticatedClient E SCall) B) v g :
  reads m v → (∀ a, v = Some a → reads (f a) (g a)) → reads (m ≫= f) (v ≫= g).
Proof.
  intros Hm Hf s Hn Hc HP. apply wp_bind. eapply wp_mono; [by apply Hm|].
  intros out s' (Hmem & HP' & Hv). destruct v as [a|]; simpl.
  - subst out. eapply wp_mono; [apply Hf; congruence|]. intros out2 s2 (? & ? & ?). split_and!; [congruence|done..].
  - destruct Hv as [err ->]. eauto.
Qed.
Lemma reads_on (service : AuthenticatedClient → bool) c v :
  (∀ m, NetworkClient m = true → ComputeClient m = true → service m = true) → authenticates c = false →
  (∀ r, served P c r → match r with Ok a => v = Some a | Bad _ => v = None end) → reads (on service c) v.
Proof.
  intros Hs Hau Hr s Hn Hc HP. unfold on, scall. apply wp_bind, wp_get_mem. rewrite Hs by done.
  refine (wp_perform c _ _ _). intros e r Ha.
  pose proof (project_kept c (env s) Hau) as HP'. pose proof (project_served c (env s)) as Hsv. rewrite Ha, HP in *. specialize (Hr r Hsv).
  destruct r as [a|err]; subst v; (split_and!; [done|exact HP'|by eauto]).
Qed.
(** The reply decides what follows. *)
Lemma reads_call {A} (service : AuthenticatedClient → bool) c (f : resp c → Go (sys AuthenticatedClient E SCall) A) v :
  (∀ m, NetworkClient m = true → ComputeClient m = true → service m = true) → authenticates c = false →
  (∀ r, served P c r → match r with Ok a => reads (f a) v | Bad _ => v = None end) →
  reads (on service c ≫= f) v.
Proof.
  intros Hs Hau Hr s Hn Hc HP. unfold on, scall. do 2 apply wp_bind. apply wp_get_mem. rewrite Hs by done.
  refine (wp_perform c _ _ _). intros e r Ha.
  pose proof (project_kept c (env s) Hau) as HP'. pose proof (project_served c (env s)) as Hsv. rewrite Ha, HP in *. specialize (Hr r Hsv). destruct r as [a|err]; simpl.
  - exact (Hr (Sys (mem s) e (trace s ++ [c])) Hn Hc HP').
  - subst v. split_and!; [done|exact HP'|by eexists].
Qed.
Lemma reads_all_pages {A} (p : pager A) l : listed p = Ok l → reads (all_pages p) (Some l).
Proof.
  intros Hl s _ _ HP. apply wp_intro. intros s' out. unfold all_pages.
  rewrite (EachPage_fold (λ _, True) _ (λ b page, b ++ page) [] p s l);
    [by intros [= <- <-]|done|intros; by rewrite app_assoc|intros; by rewrite app_nil_r|done|by apply Forall_true].
Qed.
Lemma reads_collect {A B} (f : A → Go (sys AuthenticatedClient E SCall) B) g l :
  (∀ x, reads (f x) (g x)) → reads (collect f l) (mapM g l).
Proof.
  intros Hf. unfold collect.
  assert (∀ acc, reads (for_fold (λ result x, y ← f x; mret (result ++ [y])) acc l) ((app acc) <$> mapM g l)) as H.
  { induction l as [|x l IH]; intros acc; simpl.
    - rewrite app_nil_r. apply reads_ret.
    - assert ((app acc <$> (g x ≫= λ y, mapM g l ≫= λ k, mret (y :: k)))
        = ((g x ≫= λ y, Some (acc ++ [y])) ≫= λ acc', app acc' <$> mapM g l)) as ->.
      { destruct (g x) as [y|]; simpl; [|done]. destruct (mapM g l); simpl; [|done]. by rewrite <- app_assoc. }
      apply reads_bind; [|intros a' _; apply IH]. apply reads_bind; [apply Hf|intros y _; apply reads_ret]. }
  specialize (H []). by destruct (mapM g l).
Qed.
Lemma reads_eq {A} (m : Go (sys AuthenticatedClient E SCall) A) v v' : reads m v → v = v' → reads m v'.
Proof. by intros ? <-. Qed.

Ltac on_service Hr := refine (reads_call _ _ _ _ _ _ _); [done|done|intros ? Hr; cbn [served] in Hr].

Lemma reads_ports r : reads (getRouterNetworkIDs r) (Some (pj_ports P (ri_ID r) "network:router_interface")).
Proof. unfold getRouterNetworkIDs. on_service Hr. destruct Hr as (p & -> & Hp). by apply reads_all_pages. Qed.

Definition net_info (id : string) : option NetworkInfo :=
  '(name, subs) ← pj_networks P !! id; Some {| ni_ID := id; ni_Name := name; ni_Subnets := subs |}.
Definition subnets_of (subs : list string) : option (list (option Subnet)) := mapM (fun i => Some <$> pj_subnets P !! i) subs.

Lemma reads_net id : reads (on NetworkClient (SNetwork id)) (net_info id).
Proof.
  refine (reads_on _ _ _ _ _ _); [done|done|]. intros r Hr. cbn [served] in Hr. unfold net_info.
  destruct (pj_networks P !! id) as [[name subs]|]; [by subst r|by destruct Hr as [err ->]].
Qed.
Lemma reads_subnets n : reads (getSubnets n) (net_info (ni_ID n) ≫= λ i, subnets_of (ni_Subnets i)).
Proof.
  unfold getSubnets, getSubnetIDs.
  apply (reads_eq _ ((net_info (ni_ID n) ≫= λ i, Some (ni_Subnets i)) ≫= subnets_of)); [|by destruct (net_info _)].
  apply reads_bind.
  - apply reads_bind; [apply reads_net|intros; apply reads_ret].
  - intros subs _. apply reads_collect. intros i. on_service Hr.
    destruct (pj_subnets P !! i); [subst; apply reads_ret|by destruct Hr as [err ->]].
Qed.

Lemma mapM_two {A B C} (f : A → option B) (g : B → option C) l : mapM f l ≫= mapM g = mapM (λ x, f x ≫= g) l.
Proof.
  induction l as [|x l IH]; [done|]. simpl. rewrite <- IH.
  destruct (f x) as [y|]; simpl; [|done]. destruct (mapM f l) as [k|]; simpl; [done|]. by destruct (g y).
Qed.

Lemma reads_networks r : reads (getNetworks r)
  (mapM (fun id => Some <$> network_of P id) (pj_ports P (ri_ID r) "network:router_interface")).
Proof.
  unfold getNetworks. set (ids := pj_ports _ _ _).
  set (full := λ n, subnets ← (net_info (ni_ID n) ≫= λ i, subnets_of (ni_Subnets i));
     Some (Some {| nw_ID := ni_ID n; nw_Name := ni_Name n; Subnets := subnets |})).
  apply (reads_eq _ (Some ids ≫= λ ids, mapM net_info ids ≫= mapM full)).
  - apply reads_bind; [apply reads_ports|]. intros ? [= <-]. apply reads_bind.
    + apply reads_collect, reads_net.
    + intros l _. apply reads_collect. intros n. subst full. apply reads_bind; [apply reads_subnets|intros; apply reads_ret].
  - simpl. rewrite mapM_two. apply mapM_ext. intros id. unfold full, network_of.
    assert (net_info id = '(name, subs) ← pj_networks P !! id; Some {| ni_ID := id; ni_Name := name; ni_Subnets := subs |}) as Hn by done.
    destruct (pj_networks P !! id) as [[name subs]|]; simpl in Hn; rewrite Hn; simpl; [|done].
    rewrite Hn. simpl. unfold subnets_of. by destruct (mapM _ subs).
Qed.

Lemma reads_metadata : reads GetMetadata (metadata_of P).
Proof.
  unfold GetMetadata, getRouters, getKeyPairs, getSecurityGroups, getFlavors, metadata_of.
  apply reads_bind.
  - on_service Hr. destruct Hr as (p & -> & Hp).
    apply (reads_eq _ (Some (pj_routers P) ≫= mapM (λ r, Some <$> router_of P r))); [|done].
    apply reads_bind; [by apply reads_all_pages|]. intros l _. apply reads_collect. intros r. unfold router_of.
    apply (reads_eq _ (mapM (fun id => Some <$> network_of P id) (pj_ports P (ri_ID r) "network:router_interface") ≫=
      λ networks, Some (Some {| ro_ID := ri_ID r; ro_Name := ri_Name r; Networks := networks |}))); [|by destruct (mapM _ _)].
    apply reads_bind; [apply reads_networks|intros; apply reads_ret].
  - intros routers _.
    apply (reads_eq _ (Some ((fun name => Some {| kp_Name := name |}) <$> pj_keys P) ≫= λ keys,
      Some (Some <$> pj_secgroups P) ≫= λ groups, Some (Some <$> pj_flavors P) ≫= λ flavors,
      Some {| Flavors := flavors; KeyPairs := keys; Routers := routers; SecurityGroups := groups |})); [|done].
    apply reads_bind; [on_service Hr; subst; apply reads_ret|]. intros keys _.
    apply reads_bind; [on_service Hr; destruct Hr as (p & -> & Hp);
      apply (reads_eq _ (Some (pj_secgroups P) ≫= λ l : list SecurityGroup, Some (Some <$> l : list (option SecurityGroup)))); [|done];
      apply reads_bind; [by apply reads_all_pages|intros; apply reads_ret]|]. intros groups _.
    apply reads_bind; [on_service Hr; destruct Hr as (p & -> & Hp);
      apply (reads_eq _ (Some (pj_flavors P) ≫= λ l : list Flavor, Some (Some <$> l : list (option Flavor)))); [|done];
      apply reads_bind; [by apply reads_all_pages|intros; apply reads_ret]|]. intros. apply reads_ret.
Qed.
End Reads.

(** * The request for the metadata of a project *)

Section Request.
Context {E : Type} `{!Machine SCall E} `{!Machine HandlerCall E} (projects : string -> project) (project_of : E -> project)
  `{!ProjectLaws E projects project_of}.

Definition as_reply {A} (o : outcome A) : reply A :=
  match o with Ret a => Ok a | Fail err => Bad err | Panic why => Bad (ErrNew why) end.
Definition no_clients : AuthenticatedClient := {| IdentityClient := false; ComputeClient := false; NetworkClient := false |}.
(** The call of the handler is a run of the client. *)
Definition runs_client : Prop := ∀ url token project e,
  answer (HMetadata url token project) e =
    let run := metadata_of_request url token project (Sys no_clients e []) in (env (fst run), as_reply (snd run)).
(** A call of the client's setup that was refused *)
Definition refused (err : error) : Prop := ∃ c e, snd (answer (C:=SCall) c e) = Bad err ∧
  c ∉ [SRouters; SKeyPairs; SSecGroups; SFlavors] ∧ (∀ i j, c ≠ SPorts i j ∧ c ≠ SNetwork i ∧ c ≠ SSubnet i).

Lemma Authenticate_clients o s :
  wp (Authenticate o) (λ out s', match out with
    | Ret _ => NetworkClient (mem s') = true ∧ ComputeClient (mem s') = true ∧ project_of (env s') = projects (ScopeProjectID o)
    | Fail err => refused err
    | Panic _ => False end) s.
Proof.
  assert (∀ c e e' err, answer (C:=SCall) c e = (e', Bad err) → c ∈ [SNewLoggingProviderClient (IdentityEndpoint o); SAuthenticateV3 o;
    SNewIdentityV3; SNewComputeV2; SNewNetworkV2] → refused err) as Href.
  { intros c e e' err Ha Hc. exists c, e. rewrite Ha. split; [done|].
    apply list_elem_of_In in Hc. simpl in Hc. destruct_or! Hc; try done; subst c;
      (split; [intros H; apply list_elem_of_In in H; simpl in H; destruct_or! H; done|done]). }
  unfold Authenticate, scall.
  apply wp_bind; refine (wp_perform _ _ _ _); intros e1 [u1|err] H1; cbn [of_reply]; [|eapply Href; [exact H1|in_list]].
  apply wp_bind; refine (wp_perform _ _ _ _); intros e2 [[]|err] H2; cbn [of_reply]; [|eapply Href; [exact H2|in_list]].
  pose proof (project_scoped o _ _ H2) as HP. cbn [env mem trace] in *.
  apply wp_bind; refine (wp_perform _ _ _ _); intros e3 [u3|err] H3; cbn [of_reply]; [|eapply Href; [exact H3|in_list]].
  pose proof (project_kept SNewIdentityV3 e2 eq_refl) as K3. cbn [env] in H3. rewrite H3 in K3. simpl in K3.
  do 2 (apply wp_bind; apply wp_get_mem || apply wp_set_mem).
  apply wp_bind; refine (wp_perform _ _ _ _); intros e4 [u4|err] H4; cbn [of_reply]; [|eapply Href; [exact H4|in_list]].
  pose proof (project_kept SNewComputeV2 e3 eq_refl) as K4. cbn [env] in H4. rewrite H4 in K4. simpl in K4.
  do 2 (apply wp_bind; apply wp_get_mem || apply wp_set_mem).
  apply wp_bind; refine (wp_perform _ _ _ _); intros e5 [u5|err] H5; cbn [of_reply]; [|eapply Href; [exact H5|in_list]].
  pose proof (project_kept SNewNetworkV2 e4 eq_refl) as K5. cbn [env] in H5. rewrite H5 in K5. simpl in K5.
  apply wp_bind, wp_get_mem, wp_set_mem. cbn. split_and!; [done|done|congruence].
Qed.

End Request.

(** * A concrete project *)

(** One router with two interfaces in the same network *)
Definition demo_project : project :=
  {| pj_routers := [{| ri_ID := "r"; ri_Name := "router" |}];
     pj_ports := fun device owner => if decide (device = "r" ∧ owner = "network:router_interface") then ["n"; "n"] else [];
     pj_networks := {["n" := ("net", ["s"])]};
     pj_subnets := {["s" := {| sn_CIDR := "10.0.0.0/8"; sn_ID := "s"; sn_Name := "subnet" |}]};
     pj_keys := ["key"]; pj_secgroups := []; pj_flavors := [{| fl_ID := "f"; fl_Name := "small" |}] |}.
Definition empty_project : project :=
  {| pj_routers := []; pj_ports := fun _ _ => []; pj_networks := ∅; pj_subnets := ∅; pj_keys := []; pj_secgroups := []; pj_flavors := [] |}.
Definition demo_projects (id : string) : project := if decide (id = "a1") then demo_project else empty_project.
Definition demo_project_of (e : option string) : project := from_option demo_projects empty_project e.
(** Listings have one page; the state is the scope of the token. *)
Definition demo_services : Machine SCall (option string) := fun c e =>
  let P := demo_project_of e in
  match c return option string * reply (resp c) with
  | SAuthenticateV3 o => (Some (ScopeProjectID o), Ok tt)
  | SNewLoggingProviderClient _ | SNewIdentityV3 | SNewComputeV2 | SNewNetworkV2 => (e, Ok tt)
  | SRouters => (e, Ok [Ok (pj_routers P)])
  | SPorts device owner => (e, Ok [Ok (pj_ports P device owner)])
  | SNetwork id =>
      (e, match pj_networks P !! id with
          | Some (name, subs) => Ok {| ni_ID := id; ni_Name := name; ni_Subnets := subs |}
          | None => Bad (ErrNew "not found")
          end)
  | SSubnet id => (e, match pj_subnets P !! id with Some n => Ok n | None => Bad (ErrNew "not found") end)
  | SKeyPairs => (e, Ok (pj_keys P))
  | SSecGroups => (e, Ok [Ok (pj_secgroups P)])
  | SFlavors => (e, Ok [Ok (pj_flavors P)])
  end.
Definition demo_metadata_api : Machine HandlerCall (option string) := fun c e =>
  match c return option string * reply (resp c) with
  | HMetadata url token project =>
      let run := metadata_of_request (Machine0:=demo_services) url token project (Sys no_clients e []) in
      (env (fst run), as_reply (snd run))
  | _ => (e, Bad (ErrNew "unused"))
  end.

Lemma listed_one {A} (l : list A) : listed [Ok l] = Ok l.
Proof. destruct l; [done|]. simpl. by rewrite app_nil_r. Qed.
#[local] Instance demo_project_laws : @ProjectLaws (option string) demo_services demo_projects demo_project_of.
Proof.
  split.
  - intros c e. destruct c; simpl; try exact I; try (eexists; split; [done|]; exact (listed_one _)); try reflexivity.
    + destruct (pj_networks _ !! id) as [[]|]; eauto.
    + destruct (pj_subnets _ !! id); eauto.
  - intros c e. by destruct c.
  - intros o e e' [= <-]. done.
Qed.

