(* ===== verification/Rest.v ===== *)
(** [pkg/api/rest] and [pkg/api/spec]: the API as one program.

    The tables of operations, the routing of a request to its operation, the
    handlers of [Handlers] as the operations call them, and the composition of
    a client, the transport and the server. *)
From S2P Require Import Prelude GoStrings Models ApiModels Handlers.
From S2P Require Import Http Operations JsonModels ApiClient.
Local Open Scope Z_scope.

(** * The tables of operations *)
Inductive OpID :=
| OpCreateCluster
| OpGetClusterCredentials
| OpGetClusterEvents
| OpGetClusterInfo
| OpGetOpenstackMetadata
| OpInfo
| OpListAPIVersions
| OpListClusters
| OpShowCluster
| OpTerminateCluster
| OpUpdateCluster.
#[export] Instance OpID_eq_dec : EqDecision OpID.
Proof. solve_decision. Defined.
Definition all_operations : list OpID :=
  [OpCreateCluster; OpGetClusterCredentials; OpGetClusterEvents; OpGetClusterInfo; OpGetOpenstackMetadata; OpInfo; OpListAPIVersions; OpListClusters; OpShowCluster; OpTerminateCluster; OpUpdateCluster].

(** Method, path and name of the operations of the API document
    [SwaggerJSON], src/pkg/api/spec/embedded_spec.go:28-262 *)
Definition spec_operations : list (string * string * string) :=
  [("GET", "/api", "ListAPIVersions");
   ("GET", "/api/v1/clusters", "ListClusters");
   ("POST", "/api/v1/clusters", "CreateCluster");
   ("GET", "/api/v1/clusters/{name}", "ShowCluster");
   ("PUT", "/api/v1/clusters/{name}", "UpdateCluster");
   ("DELETE", "/api/v1/clusters/{name}", "TerminateCluster");
   ("GET", "/api/v1/clusters/{name}/credentials", "GetClusterCredentials");
   ("GET", "/api/v1/clusters/{name}/events", "GetClusterEvents");
   ("GET", "/api/v1/clusters/{name}/info", "GetClusterInfo");
   ("GET", "/api/v1/openstack/metadata", "GetOpenstackMetadata");
   ("GET", "/info", "Info")].

(** [handlers["GET"]["/info"] = ...], in the order of the code
    [initHandlerCache], src/pkg/api/rest/operations/kubernikus_api.go:345-407 *)
Definition initHandlerCache : gmap string (gmap string OpID) :=
  let put (method path : string) (o : OpID) (m : gmap string (gmap string OpID)) :=
    <[method := <[path := o]> (default ∅ (m !! method))]> m in
  (put "PUT" "/api/v1/clusters/{name}" OpUpdateCluster
  (put "DELETE" "/api/v1/clusters/{name}" OpTerminateCluster
  (put "GET" "/api/v1/clusters/{name}" OpShowCluster
  (put "GET" "/api/v1/clusters" OpListClusters
  (put "GET" "/api" OpListAPIVersions
  (put "GET" "/info" OpInfo
  (put "GET" "/api/v1/openstack/metadata" OpGetOpenstackMetadata
  (put "GET" "/api/v1/clusters/{name}/info" OpGetClusterInfo
  (put "GET" "/api/v1/clusters/{name}/events" OpGetClusterEvents
  (put "GET" "/api/v1/clusters/{name}/credentials" OpGetClusterCredentials
  (put "POST" "/api/v1/clusters" OpCreateCluster
  ∅))))))))))).

Definition upper_string : string -> string := fix go s :=
  match s with EmptyString => "" | String c s' => String (upper c) (go s') end.
(** [HandlerFor], src/pkg/api/rest/operations/kubernikus_api.go:321-334 *)
Definition HandlerFor (handlers : gmap string (gmap string OpID)) (method path : string) : option OpID :=
  handlers !! upper_string method ≫= fun hs => hs !! (if decide (path = "/") then "" else path).

(** The handlers that are set: a nil one is reported by name.
    [Validate], src/pkg/api/rest/operations/kubernikus_api.go:191-255 *)
Definition Validate (consumer producer auth : bool) (set : OpID -> bool) : option error :=
  let missing (b : bool) (name : string) := if b then [] else [name] in
  match missing consumer "JSONConsumer" ++ missing producer "JSONProducer" ++ missing auth "XAuthTokenAuth" ++
        missing (set OpCreateCluster) "CreateClusterHandler" ++
        missing (set OpGetClusterCredentials) "GetClusterCredentialsHandler" ++
        missing (set OpGetClusterEvents) "GetClusterEventsHandler" ++
        missing (set OpGetClusterInfo) "GetClusterInfoHandler" ++
        missing (set OpGetOpenstackMetadata) "GetOpenstackMetadataHandler" ++
        missing (set OpInfo) "InfoHandler" ++
        missing (set OpListAPIVersions) "ListAPIVersionsHandler" ++
        missing (set OpListClusters) "ListClustersHandler" ++
        missing (set OpShowCluster) "ShowClusterHandler" ++
        missing (set OpTerminateCluster) "TerminateClusterHandler" ++
        missing (set OpUpdateCluster) "UpdateClusterHandler" with
  | [] => None
  | unregistered => Some (ErrNew ("missing registration: " +:+ Join unregistered ", "))
  end.

(** * The operations as a family *)
Definition server_params (o : OpID)  : Type :=
  match o with
  | OpCreateCluster => CreateCluster.Params
  | OpGetClusterCredentials => GetClusterCredentials.Params
  | OpGetClusterEvents => GetClusterEvents.Params
  | OpGetClusterInfo => GetClusterInfo.Params
  | OpGetOpenstackMetadata => GetOpenstackMetadata.Params
  | OpInfo => Info.Params
  | OpListAPIVersions => ListAPIVersions.Params
  | OpListClusters => ListClusters.Params
  | OpShowCluster => ShowCluster.Params
  | OpTerminateCluster => TerminateCluster.Params
  | OpUpdateCluster => UpdateCluster.Params
  end.
Definition client_params (o : OpID) : Type :=
  match o with
  | OpCreateCluster => ClientCreateCluster.Params
  | OpGetClusterCredentials => ClientGetClusterCredentials.Params
  | OpGetClusterEvents => ClientGetClusterEvents.Params
  | OpGetClusterInfo => ClientGetClusterInfo.Params
  | OpGetOpenstackMetadata => ClientGetOpenstackMetadata.Params
  | OpInfo => ClientInfo.Params
  | OpListAPIVersions => ClientListAPIVersions.Params
  | OpListClusters => ClientListClusters.Params
  | OpShowCluster => ClientShowCluster.Params
  | OpTerminateCluster => ClientTerminateCluster.Params
  | OpUpdateCluster => ClientUpdateCluster.Params
  end.
(** What a handler returns *)
Definition responder (o : OpID) : Type :=
  match o with
  | OpCreateCluster => Responder (option KlusterModel)
  | OpGetClusterCredentials => Responder (option Credentials)
  | OpGetClusterEvents => Responder (option (list (option Event)))
  | OpGetClusterInfo => Responder (option KlusterInfo)
  | OpGetOpenstackMetadata => Responder (option OpenstackMetadata)
  | OpInfo => option InfoModel
  | OpListAPIVersions => option APIVersions
  | OpListClusters => Responder (option (list (option KlusterModel)))
  | OpShowCluster => Responder (option KlusterModel)
  | OpTerminateCluster => Responder (unit)
  | OpUpdateCluster => Responder (option KlusterModel)
  end.
(** What a client call returns *)
Definition result (o : OpID) : Type :=
  match o with
  | OpCreateCluster => KlusterModel
  | OpGetClusterCredentials => Credentials
  | OpGetClusterEvents => list (option Event)
  | OpGetClusterInfo => KlusterInfo
  | OpGetOpenstackMetadata => OpenstackMetadata
  | OpInfo => InfoModel
  | OpListAPIVersions => APIVersions
  | OpListClusters => list (option KlusterModel)
  | OpShowCluster => KlusterModel
  | OpTerminateCluster => unit
  | OpUpdateCluster => KlusterModel
  end.

Section Family.
Context `{!ApiCodecs}.
(** Only the operations with authentication pass a principal on. *)
Definition handler (S : Type) (o : OpID) : Type :=
  match o with
  | OpCreateCluster => CreateCluster.Params -> option Principal -> Go S (Responder (option KlusterModel))
  | OpGetClusterCredentials => GetClusterCredentials.Params -> option Principal -> Go S (Responder (option Credentials))
  | OpGetClusterEvents => GetClusterEvents.Params -> option Principal -> Go S (Responder (option (list (option Event))))
  | OpGetClusterInfo => GetClusterInfo.Params -> option Principal -> Go S (Responder (option KlusterInfo))
  | OpGetOpenstackMetadata => GetOpenstackMetadata.Params -> option Principal -> Go S (Responder (option OpenstackMetadata))
  | OpInfo => Info.Params -> Go S (option InfoModel)
  | OpListAPIVersions => ListAPIVersions.Params -> Go S (option APIVersions)
  | OpListClusters => ListClusters.Params -> option Principal -> Go S (Responder (option (list (option KlusterModel))))
  | OpShowCluster => ShowCluster.Params -> option Principal -> Go S (Responder (option KlusterModel))
  | OpTerminateCluster => TerminateCluster.Params -> option Principal -> Go S (Responder (unit))
  | OpUpdateCluster => UpdateCluster.Params -> option Principal -> Go S (Responder (option KlusterModel))
  end.
Definition ServeHTTP {S} (ctx : MiddlewareContext) (o : OpID) : handler S o -> HTTPRequest -> RouteParams -> Go S HTTPResponse :=
  match o return handler S o -> HTTPRequest -> RouteParams -> Go S HTTPResponse with
  | OpCreateCluster => CreateCluster.ServeHTTP ctx
  | OpGetClusterCredentials => GetClusterCredentials.ServeHTTP ctx
  | OpGetClusterEvents => GetClusterEvents.ServeHTTP ctx
  | OpGetClusterInfo => GetClusterInfo.ServeHTTP ctx
  | OpGetOpenstackMetadata => GetOpenstackMetadata.ServeHTTP ctx
  | OpInfo => Info.ServeHTTP ctx
  | OpListAPIVersions => ListAPIVersions.ServeHTTP ctx
  | OpListClusters => ListClusters.ServeHTTP ctx
  | OpShowCluster => ShowCluster.ServeHTTP ctx
  | OpTerminateCluster => TerminateCluster.ServeHTTP ctx
  | OpUpdateCluster => UpdateCluster.ServeHTTP ctx
  end.
Definition WriteToRequest (o : OpID) : client_params o -> Go ClientRequest unit :=
  match o return client_params o -> Go ClientRequest unit with
  | OpCreateCluster => ClientCreateCluster.WriteToRequest
  | OpGetClusterCredentials => ClientGetClusterCredentials.WriteToRequest
  | OpGetClusterEvents => ClientGetClusterEvents.WriteToRequest
  | OpGetClusterInfo => ClientGetClusterInfo.WriteToRequest
  | OpGetOpenstackMetadata => ClientGetOpenstackMetadata.WriteToRequest
  | OpInfo => ClientInfo.WriteToRequest
  | OpListAPIVersions => ClientListAPIVersions.WriteToRequest
  | OpListClusters => ClientListClusters.WriteToRequest
  | OpShowCluster => ClientShowCluster.WriteToRequest
  | OpTerminateCluster => ClientTerminateCluster.WriteToRequest
  | OpUpdateCluster => ClientUpdateCluster.WriteToRequest
  end.
Definition ReadResponse (o : OpID) : HTTPResponse -> reading (result o) :=
  match o return HTTPResponse -> reading (result o) with
  | OpCreateCluster => ClientCreateCluster.ReadResponse
  | OpGetClusterCredentials => ClientGetClusterCredentials.ReadResponse
  | OpGetClusterEvents => ClientGetClusterEvents.ReadResponse
  | OpGetClusterInfo => ClientGetClusterInfo.ReadResponse
  | OpGetOpenstackMetadata => ClientGetOpenstackMetadata.ReadResponse
  | OpInfo => ClientInfo.ReadResponse
  | OpListAPIVersions => ClientListAPIVersions.ReadResponse
  | OpListClusters => ClientListClusters.ReadResponse
  | OpShowCluster => ClientShowCluster.ReadResponse
  | OpTerminateCluster => ClientTerminateCluster.ReadResponse
  | OpUpdateCluster => ClientUpdateCluster.ReadResponse
  end.
Definition call {S} (t : Transport) (do : HTTPRequest -> Go S (reply HTTPResponse)) (auth : Go ClientRequest unit) (o : OpID)
    : client_params o -> Go S (call_result (result o)) :=
  match o return client_params o -> Go S (call_result (result o)) with
  | OpCreateCluster => fun p => ClientCreateCluster.call t do p auth
  | OpGetClusterCredentials => fun p => ClientGetClusterCredentials.call t do p auth
  | OpGetClusterEvents => fun p => ClientGetClusterEvents.call t do p auth
  | OpGetClusterInfo => fun p => ClientGetClusterInfo.call t do p auth
  | OpGetOpenstackMetadata => fun p => ClientGetOpenstackMetadata.call t do p auth
  | OpInfo => fun p => ClientInfo.call t do p
  | OpListAPIVersions => fun p => ClientListAPIVersions.call t do p
  | OpListClusters => fun p => ClientListClusters.call t do p auth
  | OpShowCluster => fun p => ClientShowCluster.call t do p auth
  | OpTerminateCluster => fun p => ClientTerminateCluster.call t do p auth
  | OpUpdateCluster => fun p => ClientUpdateCluster.call t do p auth
  end.
End Family.

(** Where a client sends an operation, and whether with a token *)
Definition method_of (o : OpID) : string :=
  match o with
  | OpCreateCluster => "POST" | OpTerminateCluster => "DELETE" | OpUpdateCluster => "PUT" | _ => "GET"
  end.
Definition pattern_of (o : OpID) : string :=
  match o with
  | OpCreateCluster | OpListClusters => "/api/v1/clusters"
  | OpShowCluster | OpTerminateCluster | OpUpdateCluster => "/api/v1/clusters/{name}"
  | OpGetClusterCredentials => "/api/v1/clusters/{name}/credentials"
  | OpGetClusterEvents => "/api/v1/clusters/{name}/events"
  | OpGetClusterInfo => "/api/v1/clusters/{name}/info"
  | OpGetOpenstackMetadata => "/api/v1/openstack/metadata"
  | OpInfo => "/info"
  | OpListAPIVersions => "/api"
  end.
Definition secured (o : OpID) : bool := match o with OpInfo | OpListAPIVersions => false | _ => true end.

(** * Routing *)

(** The language of the router: a segment in braces matches one segment that
    is not empty, any other only itself. *)
Definition param_of (p : string) : option string :=
  match p with
  | String c p' => if decide (c = "{"%char) then Some (fst (span (fun d => negb (bool_decide (d = "}"%char))) p')) else None
  | EmptyString => None
  end.
Fixpoint match_segments (ps ws : list string) : option RouteParams :=
  match ps, ws with
  | [], [] => Some []
  | p :: ps', w :: ws' =>
      match param_of p with
      | Some x => if decide (w = "") then None else params ← match_segments ps' ws'; Some ((x, w) :: params)
      | None => if decide (p = w) then match_segments ps' ws' else None
      end
  | _, _ => None
  end.
Definition match_pattern (pattern path : string) : option RouteParams :=
  match_segments (Split slash pattern) (Split slash path).

(** The router of one method is built from its patterns; [PathUnescape]
    decodes a parameter. *)
Record Router := {
  denco : list string -> string -> option (string * RouteParams);
  PathUnescape : string -> reply string }.

(** Elements of a path that are their own escaped form *)
Definition unreserved (c : ascii) : bool :=
  is_digit c || is_lower c || is_upper c || bool_decide (c ∈ ["-"; "."; "_"; "~"]%char).
Definition plain (w : string) : Prop := plain_element w ∧ str_all unreserved w = true.

(** The one pattern that matches is found, with its parameters. *)
Class RouterLaws (rt : Router) := {
  denco_unique ps p path params :
    p ∈ ps → match_pattern p path = Some params →
    (∀ q, q ∈ ps → is_Some (match_pattern q path) → q = p) → denco rt ps path = Some (p, params);
  unescape_plain w : plain w → PathUnescape rt w = Ok w }.

(** Parsing and escaping leave a path of plain elements alone. *)
Class TransportLaws (t : Transport) := {
  ParseURL_plain l : l ≠ [] → Forall plain l → ParseURL t ("/" +:+ Join l "/") = Ok ("/" +:+ Join l "/");
  EscapedPath_plain l : l ≠ [] → Forall plain l → EscapedPath t ("/" +:+ Join l "/") = "/" +:+ Join l "/" }.

(** The routes of a method: those of the document with a handler
    [AddRoute], src/vendor/github.com/go-openapi/runtime/middleware/router.go:219-257 *)
Definition routes (method : string) : list string :=
  omap (fun '(m, p, _) => if decide (m = method) then (fun _ => p) <$> HandlerFor initHandlerCache m p else None) spec_operations.

(** [Lookup], src/vendor/github.com/go-openapi/runtime/middleware/router.go:168-201 *)
Definition Lookup (rt : Router) (method path : string) : option (string * RouteParams) :=
  match denco rt (routes (upper_string method)) (path_Clean path) with
  | Some (p, params) =>
      Some (p, (fun '(n, v) => (n, match PathUnescape rt v with Ok u => u | Bad _ => v end)) <$> params)
  | None => None
  end.

(** [OtherMethods], src/vendor/github.com/go-openapi/runtime/middleware/router.go:203-215 *)
Definition OtherMethods (rt : Router) (method path : string) : list string :=
  List.filter (fun m => negb (bool_decide (m = upper_string method)) &&
                        bool_decide (is_Some (denco rt (routes m) (path_Clean path)))) ["DELETE"; "GET"; "POST"; "PUT"].

Section Server.
Context `{!ApiCodecs} {S : Type} (rt : Router) (ctx : MiddlewareContext) (handlers : ∀ o, handler S o).

(** [NewRouter], src/vendor/github.com/go-openapi/runtime/middleware/router.go:66-85 *)
Definition serve (r : HTTPRequest) : Go S HTTPResponse :=
  match Lookup rt (rq_Method r) (rq_Path r) with
  | Some (p, params) =>
      match HandlerFor initHandlerCache (rq_Method r) p with
      | Some o => ServeHTTP ctx o (handlers o) r params
      | None => RespondError ctx (EApi 404 ("path " +:+ rq_Path r +:+ " was not found"))
      end
  | None =>
      match OtherMethods rt (rq_Method r) (rq_Path r) with
      | [] => RespondError ctx (EApi 404 ("path " +:+ rq_Path r +:+ " was not found"))
      | others => RespondError ctx (EApi 405 ("method " +:+ rq_Method r +:+ " is not allowed, but [" +:+ Join others "," +:+ "] are"))
      end
  end.

(** The connection of a request whose handler panics is closed. *)
Definition exchange (r : HTTPRequest) : Go S (reply HTTPResponse) := fun s =>
  match serve r s with
  | (s', Ret res) => (s', Ret (Ok res))
  | (s', _) => (s', Ret (Bad (ErrNew "EOF")))
  end.
End Server.

(** * The handlers of the API *)
Section Handlers.
Context `{!ApiCodecs} {E : Type} `{!Machine HandlerCall E} (rt : Runtime).
Abbreviation St := (sys (option (list Link)) E HandlerCall).

(** A handler's response as the responder of its operation *)
Definition respond {P} (get : payload -> option P) (r : response) : Responder P :=
  match get (body r) with
  | Some p => Success p
  | None => Default (code r) (match body r with PError e => Some e | _ => None end)
  end.
(** The principal is dereferenced by every handler that takes one. *)
Definition with_principal {A} (principal : option Principal) (f : Principal -> Go St A) : Go St A :=
  match principal with Some p => f p | None => panic "invalid memory address or nil pointer dereference" end.
Definition with_body {A} (b : option KlusterModel) (f : KlusterModel -> Go St A) : Go St A :=
  match b with Some b => f b | None => panic "invalid memory address or nil pointer dereference" end.

(** [Configure], src/pkg/api/rest/configure.go:55-65 *)
Definition api_handlers (o : OpID) : handler St o :=
  match o return handler St o with
  | OpCreateCluster => fun params principal => with_principal principal (fun p =>
      with_body (CreateCluster.Body params) (fun b =>
        respond (fun y => match y with PKluster k => Some (Some k) | _ => None end) <$> Handlers.CreateCluster rt p b))
  | OpGetClusterCredentials => fun params principal => with_principal principal (fun p =>
      let r := GetClusterCredentials.HTTPRequest_ params in
      respond (fun y => match y with PCredentials c => Some (Some c) | _ => None end) <$>
        Handlers.GetClusterCredentials rt (rq_Scheme r) (rq_Host r) p (GetClusterCredentials.Name params))
  | OpGetClusterEvents => fun params principal => with_principal principal (fun p =>
      respond (fun y => match y with PEvents l => Some (Some (Some <$> l)) | _ => None end) <$>
        Handlers.GetClusterEvents rt p (GetClusterEvents.Name params))
  | OpGetClusterInfo => fun params principal => with_principal principal (fun p =>
      respond (fun y => match y with PInfo i => Some (Some i) | _ => None end) <$> Handlers.GetClusterInfo rt p)
  | OpGetOpenstackMetadata => fun params principal => with_principal principal (fun p =>
      respond (fun y => match y with PMetadata m => Some (Some m) | _ => None end) <$>
        Handlers.GetOpenstackMetadata
          (default "" (rq_Header (GetOpenstackMetadata.HTTPRequest_ params) !! "X-Auth-Token")) p)
  | OpInfo => fun params =>
      (fun r => match body r with PVersion i => Some i | _ => None end) <$> Handlers.Info rt
  | OpListAPIVersions => fun params =>
      (fun r => match body r with PVersions v => Some v | _ => None end) <$> Handlers.ListAPIVersions
  | OpListClusters => fun params principal => with_principal principal (fun p =>
      respond (fun y => match y with PKlusters l => Some (Some (Some <$> l)) | _ => None end) <$> Handlers.ListClusters rt p)
  | OpShowCluster => fun params principal => with_principal principal (fun p =>
      respond (fun y => match y with PKluster k => Some (Some k) | _ => None end) <$>
        Handlers.ShowCluster rt p (ShowCluster.Name params))
  | OpTerminateCluster => fun params principal => with_principal principal (fun p =>
      respond (fun y => match y with PNone => Some tt | _ => None end) <$>
        Handlers.TerminateCluster rt p (TerminateCluster.Name params))
  | OpUpdateCluster => fun params principal => with_principal principal (fun p =>
      with_body (UpdateCluster.Body params) (fun b =>
        respond (fun y => match y with PKluster k => Some (Some k) | _ => None end) <$>
          Handlers.UpdateCluster rt p (UpdateCluster.Name params) b))
  end.
End Handlers.

(** * Requests reach their operation *)

(** The elements of the path of an operation on the object [v] *)
Definition segments (o : OpID) (v : string) : list string :=
  match o with
  | OpCreateCluster | OpListClusters => ["api"; "v1"; "clusters"]
  | OpShowCluster | OpTerminateCluster | OpUpdateCluster => ["api"; "v1"; "clusters"; v]
  | OpGetClusterCredentials => ["api"; "v1"; "clusters"; v; "credentials"]
  | OpGetClusterEvents => ["api"; "v1"; "clusters"; v; "events"]
  | OpGetClusterInfo => ["api"; "v1"; "clusters"; v; "info"]
  | OpGetOpenstackMetadata => ["api"; "v1"; "openstack"; "metadata"]
  | OpInfo => ["info"]
  | OpListAPIVersions => ["api"]
  end.
Definition named (o : OpID) : bool :=
  match o with
  | OpShowCluster | OpTerminateCluster | OpUpdateCluster
  | OpGetClusterCredentials | OpGetClusterEvents | OpGetClusterInfo => true
  | _ => false
  end.
Definition url_of (o : OpID) (v : string) : string := "/" +:+ Join (segments o v) "/".

Lemma plain_literal w : bool_decide (w ≠ "" ∧ w ≠ "." ∧ w ≠ "..") && negb (str_has slash w) && str_all unreserved w = true → plain w.
Proof.
  intros [[H1%bool_decide_eq_true H2]%andb_true_iff H3]%andb_true_iff. split; [|done].
  destruct H1 as (?&?&?). split_and!; [done..|]. by destruct (str_has slash w).
Qed.

Lemma segments_plain o v : plain v → Forall plain (segments o v) ∧ segments o v ≠ [].
Proof.
  intros Hv. split; [|by destruct o].
  destruct o; repeat apply Forall_cons_2; try apply Forall_nil_2; first [exact Hv | by apply plain_literal].
Qed.

Lemma url_clean o v : plain v → path_Clean (url_of o v) = url_of o v.
Proof.
  intros Hv. destruct (segments_plain o v Hv) as [Hp Hne]. apply path_Clean_plain; [done|].
  eapply Forall_impl; [exact Hp|]. by intros w [? _].
Qed.

Lemma url_split o v : plain v → Split slash (url_of o v) = "" :: segments o v.
Proof.
  intros Hv. destruct (segments_plain o v Hv) as [Hp Hne]. unfold url_of.
  change ("/" +:+ Join (segments o v) "/") with ("" +:+ String slash (Join (segments o v) "/")).
  rewrite Split_app by done. f_equal. apply Split_Join; [done|].
  eapply Forall_impl; [exact Hp|]. by intros w [(_&_&_&?) _].
Qed.

(** The pattern with the name put in is the path. *)
Lemma pattern_url o v : Replace (pattern_of o) "{name}" v = url_of o v.
Proof.
  destruct o; try reflexivity;
    (trans ("/api/v1/clusters/" +:+ (v +:+ "")); [reflexivity | by rewrite str_app_nil_r]).
Qed.

Lemma Lookup_url rt `{!RouterLaws rt} o v : plain v →
  Lookup rt (method_of o) (url_of o v) = Some (pattern_of o, if named o then [("name", v)] else []).
Proof.
  intros Hv. assert (v ≠ "") as Hne by apply Hv.
  unfold Lookup. rewrite url_clean by done.
  rewrite (denco_unique _ (pattern_of o) (url_of o v) (if named o then [("name", v)] else [])).
  - destruct (named o); simpl; [by rewrite unescape_plain|done].
  - destruct o; vm_compute; in_list.
  - unfold match_pattern. rewrite url_split by done. destruct v; [congruence|]. destruct o; reflexivity.
  - intros q Hq. unfold match_pattern. rewrite url_split by done.
    destruct v as [|c v]; [congruence|]. revert q Hq.
    match goal with |- ∀ q, q ∈ ?l → @?P q => refine (proj1 (Forall_forall P l) _) end.
    destruct o;
      match goal with |- Forall _ ?l => let l' := eval vm_compute in l in change l with l' end;
      repeat apply Forall_cons_2; try apply Forall_nil_2; intros [x Hx]; try reflexivity; cbv in Hx; done.
Qed.

(** * A call and the request it makes *)

(** The object a call names, and the cluster it sends *)
Definition object_of (o : OpID) : client_params o -> string :=
  match o return client_params o -> string with
  | OpShowCluster => ClientShowCluster.Name
  | OpTerminateCluster => ClientTerminateCluster.Name
  | OpUpdateCluster => ClientUpdateCluster.Name
  | OpGetClusterCredentials => ClientGetClusterCredentials.Name
  | OpGetClusterEvents => ClientGetClusterEvents.Name
  | OpGetClusterInfo => ClientGetClusterInfo.Name
  | _ => fun _ => "-"
  end.
Definition client_body (o : OpID) : client_params o -> option KlusterModel :=
  match o return client_params o -> option KlusterModel with
  | OpCreateCluster => ClientCreateCluster.Body
  | OpUpdateCluster => ClientUpdateCluster.Body
  | _ => fun _ => None
  end.
Definition has_body (o : OpID) : bool := match o with OpCreateCluster | OpUpdateCluster => true | _ => false end.
(** The parameters the server's handler gets *)
Definition server_of (o : OpID) : client_params o -> HTTPRequest -> server_params o :=
  match o return client_params o -> HTTPRequest -> server_params o with
  | OpCreateCluster => fun p r => {| CreateCluster.HTTPRequest_ := r; CreateCluster.Body := ClientCreateCluster.Body p |}
  | OpGetClusterCredentials => fun p r => {| GetClusterCredentials.HTTPRequest_ := r; GetClusterCredentials.Name := ClientGetClusterCredentials.Name p |}
  | OpGetClusterEvents => fun p r => {| GetClusterEvents.HTTPRequest_ := r; GetClusterEvents.Name := ClientGetClusterEvents.Name p |}
  | OpGetClusterInfo => fun p r => {| GetClusterInfo.HTTPRequest_ := r; GetClusterInfo.Name := ClientGetClusterInfo.Name p |}
  | OpGetOpenstackMetadata => fun p r => {| GetOpenstackMetadata.HTTPRequest_ := r |}
  | OpInfo => fun p r => {| Info.HTTPRequest_ := r |}
  | OpListAPIVersions => fun p r => {| ListAPIVersions.HTTPRequest_ := r |}
  | OpListClusters => fun p r => {| ListClusters.HTTPRequest_ := r |}
  | OpShowCluster => fun p r => {| ShowCluster.HTTPRequest_ := r; ShowCluster.Name := ClientShowCluster.Name p |}
  | OpTerminateCluster => fun p r => {| TerminateCluster.HTTPRequest_ := r; TerminateCluster.Name := ClientTerminateCluster.Name p |}
  | OpUpdateCluster => fun p r => {| UpdateCluster.HTTPRequest_ := r; UpdateCluster.Body := ClientUpdateCluster.Body p;
                                     UpdateCluster.Name := ClientUpdateCluster.Name p |}
  end.

Section Calls.
Context `{!ApiCodecs, !CodecLaws KlusterModel}.

(** A name that is its own path element, and a cluster that the API's
    validation accepts and the codec keeps *)
Definition sendable (o : OpID) (cp : client_params o) : Prop :=
  plain (object_of o cp) ∧
  (has_body o = true → ∃ b, client_body o cp = Some b ∧ faithful b ∧ KlusterValidate.Validate b = None).

(** The request on the wire *)
Definition wire (t : Transport) (o : OpID) (cp : client_params o) (token : string) : HTTPRequest :=
  let header := (if secured o then <["X-Auth-Token" := token]> else id) (<["Accept" := "application/json"]> ∅) in
  {| rq_Method := method_of o; rq_Path := url_of o (object_of o cp);
     rq_Header := if CanHaveBody (method_of o) then <["Content-Type" := "application/json"]> header else header;
     rq_Body := match client_body o cp with
                | Some b => match Produce b with Ok x => Some x | Bad _ => None end
                | None => None
                end;
     rq_Scheme := Scheme t; rq_Host := Host t |}.

Definition auth_header (token : string) : Go ClientRequest unit := SetHeaderParam "X-AUTH-TOKEN" token.

Lemma call_Submit {S} t (do : HTTPRequest → Go S (reply HTTPResponse)) auth o cp s :
  call t do auth o cp s =
    (r ← Submit t do (method_of o) (pattern_of o) (WriteToRequest o cp) (if secured o then Some auth else None);
     asserted r (ReadResponse o)) s.
Proof. by destruct o. Qed.

(** The last element of a path ends in no slash. *)
Lemma url_suffix o v : plain v → HasSuffix (url_of o v) "/" = false.
Proof.
  intros Hv. assert (∃ a w, url_of o v = a +:+ w ∧ plain w) as (a & w & -> & (Hw & _ & _ & Hs) & _).
  { destruct (last (segments o v)) as [w|] eqn:Hl; [|by destruct o].
    destruct (segments_plain o v Hv) as [Hp _]. apply last_Some in Hl as [l Hl].
    rewrite Hl, Forall_app, Forall_singleton in Hp. destruct Hp as [_ Hp].
    assert (∀ l : list string, ∃ a, Join (l ++ [w]) "/" = a +:+ w) as Hj.
    { clear. induction l as [|x l [a IH]]; [by exists ""|]. exists (x +:+ "/" +:+ a).
      simpl. destruct (l ++ [w]) eqn:E0; [by destruct l|]. by rewrite IH, !str_app_assoc. }
    destruct (Hj l) as [a Ha]. exists ("/" +:+ a), w. split; [|done]. unfold url_of. by rewrite Hl, Ha. }
  by apply HasSuffix_char.
Qed.

Lemma on_base_url t o v : rooted (BasePath t) = "/" → plain v → on_base t (url_of o v) = url_of o v.
Proof.
  intros Hb Hv. unfold on_base. rewrite Hb, url_suffix by done.
  assert (path_Join "/" (url_of o v) = url_of o v) as -> by by rewrite <- (url_clean o v) at 2.
  by case_decide.
Qed.

(** What the writers leave in the request *)
Definition prepared (o : OpID) (cp : client_params o) (token : string) : ClientRequest :=
  {| cr_PathParams := if named o then <["name" := object_of o cp]> ∅ else ∅;
     cr_Header := (if secured o then <["X-Auth-Token" := token]> else id) (<["Accept" := "application/json"]> ∅);
     cr_Payload := Produce <$> client_body o cp |}.

Lemma prepared_run o cp token :
  (_ ← SetHeaderParam "Accept" "application/json";
   _ ← match (if secured o then Some (auth_header token) else None) with Some a => a | None => mret tt end;
   WriteToRequest o cp) new_request = (prepared o cp token, Ret tt).
Proof. destruct o; try reflexivity; destruct cp as [[b|]]; reflexivity. Qed.

Lemma request_of_wire t `{!TransportLaws t} o cp token : rooted (BasePath t) = "/" → sendable o cp →
  request_of t (method_of o) (pattern_of o) (WriteToRequest o cp) (if secured o then Some (auth_header token) else None)
    = Ret (wire t o cp token).
Proof.
  intros Hbase [Hv Hb]. unfold request_of. rewrite prepared_run. clear -Hv Hb Hbase TransportLaws0 CodecLaws0.
  destruct (segments_plain o (object_of o cp) Hv) as [Hp Hne].
  pose proof (ParseURL_plain _ Hne Hp) as Hparse. fold (url_of o (object_of o cp)) in Hparse.
  assert (ParseURL t (map_fold (λ k w q, Replace q ("{" +:+ k +:+ "}") w) (pattern_of o)
                    (if named o then <["name" := object_of o cp]> ∅ else ∅)) = Ok (url_of o (object_of o cp))) as Hpath.
  { rewrite <- Hparse. destruct (named o) eqn:Hn.
    - change (<["name" := object_of o cp]> ∅) with ({["name" := object_of o cp]} : gmap string string).
      rewrite map_fold_singleton. by rewrite <- pattern_url.
    - rewrite map_fold_empty. by destruct o. }
  unfold BuildHTTP. cbn [cr_PathParams cr_Header cr_Payload prepared]. rewrite Hpath.
  pose proof (EscapedPath_plain _ Hne Hp) as Hesc. fold (url_of o (object_of o cp)) in Hesc.
  unfold wire. destruct (has_body o) eqn:Hh.
  - destruct (Hb eq_refl) as (b & Hcb & (x & Hx & Hc) & _).
    assert (x ≠ "") as Hxe by (eapply faithful_nonempty; eauto).
    rewrite Hcb. simpl. rewrite Hx, decide_False by done. cbn [rq_Path rq_Method rq_Header rq_Body rq_Scheme rq_Host].
    rewrite on_base_url, Hesc by done. by destruct o.
  - assert (client_body o cp = None) as -> by by destruct o.
    cbn [fmap option_fmap option_map rq_Path rq_Method rq_Header rq_Body rq_Scheme rq_Host].
    rewrite on_base_url, Hesc by done. f_equal. by destruct o.
Qed.
End Calls.

(** * The response on its way back *)
Section Responses.
Context `{!ApiCodecs}.

Definition handle_with {S} (o : OpID) : handler S o -> server_params o -> option Principal -> Go S (responder o) :=
  match o return handler S o -> server_params o -> option Principal -> Go S (responder o) with
  | OpInfo | OpListAPIVersions => fun h params _ => h params
  | OpCreateCluster => fun h => h
  | OpGetClusterCredentials => fun h => h
  | OpGetClusterEvents => fun h => h
  | OpGetClusterInfo => fun h => h
  | OpGetOpenstackMetadata => fun h => h
  | OpListClusters => fun h => h
  | OpShowCluster => fun h => h
  | OpTerminateCluster => fun h => h
  | OpUpdateCluster => fun h => h
  end.
Definition write (o : OpID) : responder o -> Go ResponseWriter unit :=
  match o return responder o -> Go ResponseWriter unit with
  | OpCreateCluster => CreateCluster.WriteResponse
  | OpGetClusterCredentials => GetClusterCredentials.WriteResponse
  | OpGetClusterEvents => GetClusterEvents.WriteResponse
  | OpGetClusterInfo => GetClusterInfo.WriteResponse
  | OpGetOpenstackMetadata => GetOpenstackMetadata.WriteResponse
  | OpInfo => Info.WriteResponse
  | OpListAPIVersions => ListAPIVersions.WriteResponse
  | OpListClusters => ListClusters.WriteResponse
  | OpShowCluster => ShowCluster.WriteResponse
  | OpTerminateCluster => TerminateCluster.WriteResponse
  | OpUpdateCluster => UpdateCluster.WriteResponse
  end.
Definition success_code (o : OpID) : Z :=
  match o with OpCreateCluster => 201 | OpTerminateCluster => 202 | _ => 200 end.

(** The payload of a success as the client returns it: a pointer that was nil
    becomes the zero value. *)
Definition returned_payload (o : OpID) : responder o -> option (result o) :=
  match o return responder o -> option (result o) with
  | OpInfo => fun p => Some (default zero p)
  | OpListAPIVersions => fun p => Some (default zero p)
  | OpTerminateCluster => fun r => match r with Success u => Some u | Default _ _ => None end
  | OpGetClusterEvents => fun r => match r with Success p => Some (default [] p) | Default _ _ => None end
  | OpListClusters => fun r => match r with Success p => Some (default [] p) | Default _ _ => None end
  | OpCreateCluster => fun r => match r with Success p => Some (default zero p) | Default _ _ => None end
  | OpGetClusterCredentials => fun r => match r with Success p => Some (default zero p) | Default _ _ => None end
  | OpGetClusterInfo => fun r => match r with Success p => Some (default zero p) | Default _ _ => None end
  | OpGetOpenstackMetadata => fun r => match r with Success p => Some (default zero p) | Default _ _ => None end
  | OpShowCluster => fun r => match r with Success p => Some (default zero p) | Default _ _ => None end
  | OpUpdateCluster => fun r => match r with Success p => Some (default zero p) | Default _ _ => None end
  end.
Definition default_response (o : OpID) : responder o -> option (Z * option ErrorModel) :=
  match o return responder o -> option (Z * option ErrorModel) with
  | OpInfo | OpListAPIVersions => fun _ => None
  | OpCreateCluster => fun r => match r with Success _ => None | Default c e => Some (c, e) end
  | OpGetClusterCredentials => fun r => match r with Success _ => None | Default c e => Some (c, e) end
  | OpGetClusterEvents => fun r => match r with Success _ => None | Default c e => Some (c, e) end
  | OpGetClusterInfo => fun r => match r with Success _ => None | Default c e => Some (c, e) end
  | OpGetOpenstackMetadata => fun r => match r with Success _ => None | Default c e => Some (c, e) end
  | OpListClusters => fun r => match r with Success _ => None | Default c e => Some (c, e) end
  | OpShowCluster => fun r => match r with Success _ => None | Default c e => Some (c, e) end
  | OpTerminateCluster => fun r => match r with Success _ => None | Default c e => Some (c, e) end
  | OpUpdateCluster => fun r => match r with Success _ => None | Default c e => Some (c, e) end
  end.

(** What the call of a client returns for the response of the handler *)
Definition expected (o : OpID) (r : responder o) : outcome (call_result (result o)) :=
  match default_response o r, returned_payload o r with
  | Some (c, e), _ =>
      if Z.quot c 100 =? 2 then Panic "interface conversion: the default response is not the successful one"
      else Ret (Refused (CDefault c (default zero e)))
  | None, Some p => Ret (Returned p)
  | None, None => Panic "unreachable"
  end.

(** The codec keeps what the response holds, and a default response does not
    claim to be the success. *)
Definition keeps {A} `{!Codec A} (p : option A) : Prop := match p with Some a => faithful a | None => True end.
Definition transmissible (o : OpID) : responder o -> Prop :=
  match o return responder o -> Prop with
  | OpInfo => fun p => keeps p
  | OpListAPIVersions => fun p => keeps p
  | OpTerminateCluster => fun r => match r with Success _ => True | Default c e => c ≠ 202 ∧ keeps e end
  | OpGetClusterEvents => fun r => match r with Success p => faithful (default [] p) | Default c e => c ≠ 200 ∧ keeps e end
  | OpListClusters => fun r => match r with Success p => faithful (default [] p) | Default c e => c ≠ 200 ∧ keeps e end
  | OpCreateCluster => fun r => match r with Success p => keeps p | Default c e => c ≠ 201 ∧ keeps e end
  | OpGetClusterCredentials => fun r => match r with Success p => keeps p | Default c e => c ≠ 200 ∧ keeps e end
  | OpGetClusterInfo => fun r => match r with Success p => keeps p | Default c e => c ≠ 200 ∧ keeps e end
  | OpGetOpenstackMetadata => fun r => match r with Success p => keeps p | Default c e => c ≠ 200 ∧ keeps e end
  | OpShowCluster => fun r => match r with Success p => keeps p | Default c e => c ≠ 200 ∧ keeps e end
  | OpUpdateCluster => fun r => match r with Success p => keeps p | Default c e => c ≠ 200 ∧ keeps e end
  end.

Definition json_or_none (w : HTTPResponse) : Prop := rs_Type w = "" ∨ rs_Type w = "application/json".

Lemma respond_ptr {S A} `{!Codec A, !CodecLaws A} ctx r code (p : option A) (s : S) : keeps p →
  ∃ w, Respond ctx r (_ ← WriteHeader code; produce_ptr p) s = (s, Ret w) ∧ rs_Code w = code ∧ json_or_none w ∧
       read_payload (rs_Body w) = Ok (default zero p).
Proof.
  intros Hk. destruct p as [a|]; simpl in Hk.
  - pose proof Hk as (b & Hb & _). unfold Respond, rendered, produce_ptr, produce. rewrite Hb.
    eexists. split; [reflexivity|]. split; [done|]. split; [unfold json_or_none; simpl; destruct (accepts_json ctx r); auto|].
    simpl. by eapply read_produced.
  - eexists. split; [reflexivity|]. split; [done|]. split; [unfold json_or_none; simpl; destruct (accepts_json ctx r); auto|].
    simpl. by apply read_empty.
Qed.

Lemma respond_list {S A} `{!Codec (list A)} ctx r code (p : option (list A)) (s : S) : faithful (default [] p) →
  ∃ w, Respond ctx r (_ ← WriteHeader code; produce (default [] p)) s = (s, Ret w) ∧ rs_Code w = code ∧ json_or_none w ∧
       read_payload (rs_Body w) = Ok (default [] p).
Proof.
  intros Hk. pose proof Hk as (b & Hb & _). unfold Respond, rendered, produce. rewrite Hb.
  eexists. split; [reflexivity|]. split; [done|]. split; [unfold json_or_none; simpl; destruct (accepts_json ctx r); auto|].
  simpl. by eapply read_produced.
Qed.

Context `{!CodecLaws KlusterModel, !CodecLaws Credentials, !CodecLaws KlusterInfo, !CodecLaws OpenstackMetadata,
          !CodecLaws InfoModel, !CodecLaws APIVersions, !CodecLaws ErrorModel}.

(** Written with [write] and read back with [read]: the client ends in [o]. *)
Definition round {S A} ctx r (write : Go ResponseWriter unit) (read : HTTPResponse -> reading A) (o : outcome (call_result A)) : Prop :=
  ∀ s : S, ∃ w, Respond ctx r write s = (s, Ret w) ∧ json_or_none w ∧ ∀ s' : S, asserted (Ok w) read s' = (s', o).

Lemma round_default {S A} ctx r (read : HTTPResponse → reading A) code X c (e : option ErrorModel) :
  (∀ w, read w = if rs_Code w =? code then X w else read_default (rs_Code w) (read_payload (rs_Body w))) →
  c ≠ code → keeps e →
  round (S:=S) ctx r (_ ← WriteHeader c; produce_ptr e) read
    (if Z.quot c 100 =? 2 then Panic "interface conversion: the default response is not the successful one"
     else Ret (Refused (CDefault c (default zero e)))).
Proof.
  intros Hread Hc He s. destruct (respond_ptr ctx r c e s He) as (w & Hw & Hcode & Hj & Hp).
  exists w. split_and!; [done..|]. intros s'. unfold asserted. rewrite Hread, Hcode, Hp.
  rewrite (proj2 (Z.eqb_neq _ _) Hc). unfold read_default. by destruct (Z.quot c 100 =? 2).
Qed.

Lemma round_ptr {S A} `{!Codec A, !CodecLaws A} ctx r (read : HTTPResponse → reading A) code X (p : option A) :
  (∀ w, read w = if rs_Code w =? code then read_success (read_payload (rs_Body w)) else X w) → keeps p →
  round (S:=S) ctx r (_ ← WriteHeader code; produce_ptr p) read (Ret (Returned (default zero p))).
Proof.
  intros Hread Hk s. destruct (respond_ptr ctx r code p s Hk) as (w & Hw & Hcode & Hj & Hp).
  exists w. split_and!; [done..|]. intros s'. unfold asserted. by rewrite Hread, Hcode, Hp, Z.eqb_refl.
Qed.

Lemma round_list {S A} `{!Codec (list A)} ctx r (read : HTTPResponse → reading (list A)) code X (p : option (list A)) :
  (∀ w, read w = if rs_Code w =? code then read_success (read_payload (rs_Body w)) else X w) → faithful (default [] p) →
  round (S:=S) ctx r (_ ← WriteHeader code; produce (default [] p)) read (Ret (Returned (default [] p))).
Proof.
  intros Hread Hk s. destruct (respond_list ctx r code p s Hk) as (w & Hw & Hcode & Hj & Hp).
  exists w. split_and!; [done..|]. intros s'. unfold asserted. by rewrite Hread, Hcode, Hp, Z.eqb_refl.
Qed.

(** A response that is written is read back. *)
Lemma written_read {S} ctx r o (res : responder o) : transmissible o res →
  round (S:=S) ctx r (write o res) (ReadResponse o) (expected o res).
Proof.
  intros Ht. destruct o;
    try refine (round_ptr ctx r _ _ _ res (λ w, eq_refl) Ht);
    destruct res as [p|c e]; simpl in Ht;
    first [ refine (round_default ctx r _ _ _ c e (λ w, eq_refl) (proj1 Ht) (proj2 Ht))
          | refine (round_ptr ctx r _ _ _ p (λ w, eq_refl) Ht)
          | refine (round_list ctx r _ _ _ p (λ w, eq_refl) Ht)
          | idtac ].
  intros s. eexists. split; [reflexivity|]. split; [by left|]. intros s'. by destruct p.
Qed.
End Responses.

(** * The whole exchange *)
Section Exchange.
Context `{!ApiCodecs}.

Definition bind (o : OpID) : HTTPRequest -> RouteParams -> list bind_error + server_params o :=
  match o return HTTPRequest -> RouteParams -> list bind_error + server_params o with
  | OpCreateCluster => CreateCluster.BindRequest
  | OpGetClusterCredentials => GetClusterCredentials.BindRequest
  | OpGetClusterEvents => GetClusterEvents.BindRequest
  | OpGetClusterInfo => GetClusterInfo.BindRequest
  | OpGetOpenstackMetadata => GetOpenstackMetadata.BindRequest
  | OpInfo => Info.BindRequest
  | OpListAPIVersions => ListAPIVersions.BindRequest
  | OpListClusters => ListClusters.BindRequest
  | OpShowCluster => ShowCluster.BindRequest
  | OpTerminateCluster => TerminateCluster.BindRequest
  | OpUpdateCluster => UpdateCluster.BindRequest
  end.

(** Every operation serves a request in the same steps. *)
Lemma ServeHTTP_steps {S} ctx o (h : handler S o) r route :
  ServeHTTP ctx o h r route =
    match (if secured o then Authorize ctx r else inr None) with
    | inl err => RespondError ctx err
    | inr principal =>
        match BindValidRequest ctx r (bind o r route) with
        | inl err => RespondError ctx err
        | inr params => res ← handle_with o h params principal; Respond ctx r (write o res)
        end
    end.
Proof. by destruct o. Qed.

(** The token names a principal who may make the request. *)
Definition admitted (ctx : MiddlewareContext) (o : OpID) (r : HTTPRequest) (token : string) (p : Principal) : Prop :=
  secured o = true → token ≠ "" ∧ KeystoneAuth ctx token = Ok p ∧ APIAuthorizer ctx r p = None.

Context `{!CodecLaws KlusterModel}.

Lemma bind_wire t o cp token : sendable o cp →
  bind o (wire t o cp token) (if named o then [("name", object_of o cp)] else []) = inr (server_of o cp (wire t o cp token)).
Proof.
  intros [_ Hb]. destruct (has_body o) eqn:Hh.
  - destruct (Hb eq_refl) as (b & Hcb & (x & Hx & Hc) & Hval).
    assert (bind_body (wire t o cp token) = ([], Some b)) as Hbody.
    { unfold bind_body, wire. cbn [rq_Body]. rewrite Hcb, Hx, Hc. by rewrite Hval. }
    destruct o; try done; cbn [client_body] in Hcb; unfold bind, CreateCluster.BindRequest, UpdateCluster.BindRequest;
      rewrite Hbody; cbn [server_of]; by rewrite Hcb.
  - by destruct o.
Qed.

Lemma serve_wire {S} rt `{!RouterLaws rt} ctx (handlers : ∀ o, handler S o) t o cp token p (s : S) :
  sendable o cp → ParseMediaType ctx "application/json" = Some "application/json" →
  admitted ctx o (wire t o cp token) token p →
  serve rt ctx handlers (wire t o cp token) s =
    (res ← handle_with o (handlers o) (server_of o cp (wire t o cp token)) (Some p);
     Respond ctx (wire t o cp token) (write o res)) s.
Proof.
  intros Hs Hmt Had. unfold serve.
  change (rq_Method (wire t o cp token)) with (method_of o).
  change (rq_Path (wire t o cp token)) with (url_of o (object_of o cp)).
  rewrite (Lookup_url rt) by apply Hs.
  assert (HandlerFor initHandlerCache (method_of o) (pattern_of o) = Some o) as -> by (destruct o; vm_compute; reflexivity).
  rewrite ServeHTTP_steps.
  assert (BindValidRequest ctx (wire t o cp token) (bind o (wire t o cp token) (if named o then [("name", object_of o cp)] else []))
          = inr (server_of o cp (wire t o cp token))) as Hbind.
  { rewrite bind_wire by done. unfold BindValidRequest.
    destruct (rq_Body (wire t o cp token)) eqn:Hbody; [|done].
    assert (CanHaveBody (method_of o) = true) as Hcan.
    { destruct o; try reflexivity; cbn in Hbody; done. }
    unfold wire at 1. cbn [rq_Header]. rewrite Hcan, lookup_insert_eq. simpl. by rewrite Hmt. }
  destruct (secured o) eqn:Hsec.
  - destruct (Had Hsec) as (Hne & Hk & Ha).
    assert (Authorize ctx (wire t o cp token) = inr (Some p)) as ->; [|by rewrite Hbind].
    unfold Authorize.
    assert (default "" (rq_Header (wire t o cp token) !! "X-Auth-Token") = token) as ->.
    { unfold wire. cbn [rq_Header]. rewrite Hsec. destruct (CanHaveBody _);
        [rewrite lookup_insert_ne by done|]; by rewrite lookup_insert_eq. }
    rewrite decide_False by done. by rewrite Hk, Ha.
  - rewrite Hbind. by destruct o.
Qed.

Context `{!CodecLaws Credentials, !CodecLaws KlusterInfo, !CodecLaws OpenstackMetadata, !CodecLaws InfoModel,
          !CodecLaws APIVersions, !CodecLaws ErrorModel}.

Lemma call_run {S} t `{!TransportLaws t} rt `{!RouterLaws rt} ctx (handlers : ∀ o, handler S o) o cp token p
    (s s' : S) (res : responder o) :
  rooted (BasePath t) = "/" → ParseMediaType ctx "application/json" = Some "application/json" →
  sendable o cp → admitted ctx o (wire t o cp token) token p →
  handle_with o (handlers o) (server_of o cp (wire t o cp token)) (Some p) s = (s', Ret res) →
  transmissible o res →
  call t (exchange rt ctx handlers) (auth_header token) o cp s = (s', expected o res).
Proof.
  intros Hbase Hmt Hs Had Hrun Ht. rewrite call_Submit. unfold Submit. rewrite request_of_wire by done.
  destruct (written_read (S:=S) ctx (wire t o cp token) o res Ht s') as (w & Hw & Hj & Hr).
  unfold mbind, go_bind, exchange. rewrite (serve_wire rt ctx handlers t o cp token p s Hs Hmt Had).
  rewrite (bind_run _ _ _ _ _ Hrun), Hw. cbn. rewrite decide_True by exact Hj. apply Hr.
Qed.

(** C1: a client call and the handler of its operation. Whatever the state of
    the server, if the client sends an admitted request (the object's name is
    a plain path element, the body is a valid cluster the codec keeps) and the
    handler of the operation, run on exactly the parameters of the call,
    answers with a response the codec keeps, then the call ends in the state
    the handler left and returns what it answered: the payload of the success,
    or the status and the payload of the default response as an error (which a
    client takes for a success, and panics on, when its status is another 2xx). *)
Theorem call_meets_handler {S} t `{!TransportLaws t} rt `{!RouterLaws rt} ctx (handlers : ∀ o, handler S o) o cp token p
    (s s' : S) (res : responder o) :
  rooted (BasePath t) = "/" → ParseMediaType ctx "application/json" = Some "application/json" →
  sendable o cp → admitted ctx o (wire t o cp token) token p →
  handle_with o (handlers o) (server_of o cp (wire t o cp token)) (Some p) s = (s', Ret res) →
  transmissible o res →
  call t (exchange rt ctx handlers) (auth_header token) o cp s = (s', expected o res).
Proof. exact (call_run t rt ctx handlers o cp token p s s' res). Qed.
End Exchange.

(** * The API as it is configured *)
Section Api.
Context `{!ApiCodecs} {E : Type} `{!Machine HandlerCall E} (runtime : Runtime) (rt : Router) (ctx : MiddlewareContext).
Implicit Types s : sys (option (list Link)) E HandlerCall.

Lemma emits_with_principal {A} P pr (f : Principal → Go (sys (option (list Link)) E HandlerCall) A) :
  (∀ p, pr = Some p → emits P (f p)) → emits P (with_principal pr f).
Proof. intros Hf. unfold with_principal. destruct pr; [by apply Hf|apply emits_panic]. Qed.

(** The handlers as the operations call them do what [Handle] does. *)
Lemma api_tenant o params p : emits (tenant_call runtime p) (handle_with o (api_handlers runtime o) params (Some p)).
Proof.
  pose proof (Handle_tenant runtime p) as Ht.
  destruct o; cbn [handle_with api_handlers with_principal]; try (unfold with_body; destruct (_ params); [|apply emits_panic]);
    apply emits_fmap;
    first [ exact (Ht (RCreate _)) | exact (Ht (RTerminate _)) | exact (Ht (RUpdate _ _)) | exact (Ht (RShow _)) | exact (Ht RList)
          | exact (Ht (REvents _)) | exact (Ht (RCredentials _ _ _)) | exact (Ht RInfo) | exact (Ht (RMetadata _))
          | exact (Ht RVersion) | exact (Ht RVersions) ].
Qed.

Lemma rendered_state {S} m (s : S) : fst (rendered m s) = s.
Proof. unfold rendered. by destruct (m fresh_writer) as [? []]. Qed.
Lemma emits_Respond (P : HandlerCall → Prop) r w : emits (S:=option (list Link)) (E:=E) P (Respond ctx r w).
Proof. apply emits_intro. intros s. exists []. unfold Respond. by rewrite rendered_state, app_nil_r. Qed.
Lemma RespondError_state {S} err (s : S) : fst (RespondError ctx err s) = s.
Proof. apply rendered_state. Qed.

(** The operations without authentication make no call. *)
Lemma unsecured_quiet o ps r s : secured o = false →
  trace (fst ((res ← handle_with o (api_handlers runtime o) ps None; Respond ctx r (write o res)) s)) = trace s.
Proof.
  intros Hsec.
  destruct (emits_elim (λ _, False) (res ← handle_with o (api_handlers runtime o) ps None; Respond ctx r (write o res)) s)
    as (l & -> & HP).
  { apply emits_bind; [|intros; apply emits_Respond]. destruct o; try done;
      cbn [handle_with api_handlers]; apply emits_fmap; apply emits_ret. }
  destruct l; [by rewrite app_nil_r|]. by inversion HP.
Qed.


(** How a handler may answer: with the payload its operation documents, or
    with an error that carries its own status *)
Definition answered (o : OpID) (res : responder o) : Prop :=
  match default_response o res with
  | None => is_Some (returned_payload o res)
  | Some (c, e) => c ∈ [404; 409; 422; 500] ∧
      ∃ msg, e = Some {| er_Code := Some c; er_HelpURL := ""; er_Message := Some msg |}
  end.

(** The answers of the handlers of [Handlers] *)
Definition error_answer (r : response) : Prop :=
  code r ∈ [404; 409; 422; 500] ∧
  ∃ msg, body r = PError {| er_Code := Some (code r); er_HelpURL := ""; er_Message := Some msg |}.
Definition shaped (ok : payload -> Prop) (out : outcome response) : Prop :=
  match out with Ret r => error_answer r ∨ ok (body r) | Fail _ => False | Panic _ => True end.

Lemma error_answer_new c msg a : c ∈ [404; 409; 422; 500] → error_answer (NewErrorResponse c msg a).
Proof. intros Hc. split; [done|]. by eexists. Qed.
Lemma error_answer_404 err : error_answer (not_found_or_500 err).
Proof. unfold not_found_or_500. destruct (IsNotFound err); apply error_answer_new; in_list. Qed.

Ltac shape := wp_run; unfold shaped; cbn;
  try match goal with |- context [IsAlreadyExists ?e] => destruct (IsAlreadyExists e) end;
  try done; try (left; first [apply error_answer_404 | apply error_answer_new; in_list]); try (right; by eauto).

Lemma Handle_shaped p q s :
  wp (Handle runtime p q)
     (λ out _, shaped (λ y, match q, y with
        | RCreate _, PKluster _ | RTerminate _, PNone | RUpdate _ _, PKluster _ | RShow _, PKluster _ | RList, PKlusters _
        | REvents _, PEvents _ | RCredentials _ _ _, PCredentials _ | RInfo, PInfo _ | RMetadata _, PMetadata _
        | RVersion, PVersion _ | RVersions, PVersions _ => True
        | _, _ => False end) out) s.
Proof.
  destruct q; unfold Handle, Handlers.CreateCluster, Handlers.TerminateCluster, Handlers.UpdateCluster, Handlers.ShowCluster,
    Handlers.ListClusters, Handlers.GetClusterEvents, Handlers.GetClusterCredentials, Handlers.GetClusterInfo,
    Handlers.GetOpenstackMetadata, Handlers.Info, Handlers.ListAPIVersions, getLinks, editCluster, must, hcall; shape.
Qed.

(** A shaped response is an answer of its operation. *)
Lemma answered_respond {P} (get : payload → option P) r :
  error_answer r ∨ is_Some (get (body r)) → (∀ e, get (PError e) = None) →
  (∃ x, respond get r = Success x) ∨
  (∃ c msg, respond get r = Default c (Some {| er_Code := Some c; er_HelpURL := ""; er_Message := Some msg |}) ∧ c ∈ [404; 409; 422; 500]).
Proof.
  unfold respond. intros [[Hc [msg Hb]]|[x Hx]] Hn.
  - right. exists (code r), msg. by rewrite Hb, Hn.
  - left. exists x. by rewrite Hx.
Qed.
(** Closes the goal of one operation whose handler answered [r]. *)
Ltac answer r Hsh :=
  try (split; by eexists);
  match goal with |- context [respond ?g r] =>
    let c := fresh "c" in let Hc := fresh "Hc" in
    destruct (answered_respond g r) as [[? ->]|(c & ? & -> & Hc)];
      [ destruct Hsh as [Hsh|Hsh]; [by left|right; destruct (body r); try done; by eexists]
      | done
      | split; by eexists
      | split; [split; [exact Hc|by eexists]|];
        apply list_elem_of_In in Hc; simpl in Hc; destruct_or! Hc; subst; by eexists ] end.

Lemma api_answered o params p s :
  wp (handle_with o (api_handlers runtime o) params (Some p))
     (λ out _, match out with
               | Ret res => answered o res ∧ ∃ a, expected o res = Ret a
               | Fail _ => False
               | Panic _ => True
               end) s.
Proof.
  pose proof (Handle_shaped p) as Hh.
  destruct o; cbn [handle_with api_handlers with_principal];
    try (unfold with_body; destruct (_ params) as [b|]; [|by apply wp_panic]); apply wp_fmap;
    (eapply wp_mono;
      [ first [ exact (Hh (RCreate b) s) | exact (Hh (RUpdate _ b) s) | exact (Hh (RTerminate _) s) | exact (Hh (RShow _) s)
              | exact (Hh RList s) | exact (Hh (REvents _) s) | exact (Hh (RCredentials _ _ _) s) | exact (Hh RInfo s)
              | exact (Hh (RMetadata _) s) | exact (Hh RVersion s) | exact (Hh RVersions s) ]
      | intros [r|e|w] s' Hsh; cbn [shaped] in *; [|done|done]; answer r Hsh ]).
Qed.

End Api.

(** * The tables agree *)

Definition name_of (o : OpID) : string :=
  match o with
  | OpCreateCluster => "CreateCluster"
  | OpGetClusterCredentials => "GetClusterCredentials"
  | OpGetClusterEvents => "GetClusterEvents"
  | OpGetClusterInfo => "GetClusterInfo"
  | OpGetOpenstackMetadata => "GetOpenstackMetadata"
  | OpInfo => "Info"
  | OpListAPIVersions => "ListAPIVersions"
  | OpListClusters => "ListClusters"
  | OpShowCluster => "ShowCluster"
  | OpTerminateCluster => "TerminateCluster"
  | OpUpdateCluster => "UpdateCluster"
  end.
Definition Build (o : OpID) (basePath v : string) : reply string :=
  match o with
  | OpCreateCluster => CreateCluster.Build basePath
  | OpGetClusterCredentials => GetClusterCredentials.Build basePath v
  | OpGetClusterEvents => GetClusterEvents.Build basePath v
  | OpGetClusterInfo => GetClusterInfo.Build basePath v
  | OpGetOpenstackMetadata => GetOpenstackMetadata.Build basePath
  | OpInfo => Info.Build basePath
  | OpListAPIVersions => ListAPIVersions.Build basePath
  | OpListClusters => ListClusters.Build basePath
  | OpShowCluster => ShowCluster.Build basePath v
  | OpTerminateCluster => TerminateCluster.Build basePath v
  | OpUpdateCluster => UpdateCluster.Build basePath v
  end.

Lemma all_operations_complete o : o ∈ all_operations.
Proof. destruct o; unfold all_operations; in_list. Qed.

Lemma handlers_sound : map_Forall (λ m hs, map_Forall (λ p o, m = method_of o ∧ p = pattern_of o) hs) initHandlerCache.
Proof. apply (bool_decide_unpack _). vm_compute. exact I. Qed.


(** * A concrete exchange *)

Definition demo_shown : KlusterModel :=
  {| mk_Name := ""; mk_Spec := zero_KlusterSpec; mk_Status := with_phase KlusterPhaseRunning "" zero_KlusterStatus |}.
(** The bodies are JSON. *)
Definition demo_codecs : ApiCodecs := json_codecs (Cu:=demo_customs) (Tx:=demo_texts).
Lemma demo_shown_textual : textual demo_shown.
Proof. split; [apply (bool_decide_unpack _); vm_compute; exact I|constructor]. Qed.

(** A router that takes the first match, and a transport without escapes *)
Definition demo_router : Router :=
  {| denco := fun ps path =>
       head (omap (fun p => (fun params => (p, params)) <$> match_pattern p path) ps);
     PathUnescape := Ok |}.
#[export] Instance demo_router_laws : RouterLaws demo_router.
Proof.
  split; [|done]. intros ps p path params Hp Hm Hu. simpl.
  induction ps as [|q ps IH]; [by inversion Hp|]. simpl.
  destruct (match_pattern q path) as [x|] eqn:Hq; simpl.
  - assert (q = p) as -> by (apply Hu; [left|by eexists]). by rewrite Hm in Hq; injection Hq as <-.
  - apply IH; [|intros q' Hq'; apply Hu; by right].
    apply list_elem_of_In in Hp as [->|Hp]; [congruence|]. by apply list_elem_of_In.
Qed.
Definition demo_transport : Transport :=
  {| Scheme := "https"; Host := "api"; BasePath := ""; ParseURL := Ok; EscapedPath := fun p => p |}.
#[export] Instance demo_transport_laws : TransportLaws demo_transport.
Proof. split; done. Qed.
Definition demo_ctx : MiddlewareContext :=
  {| KeystoneAuth := fun token => if decide (token = "t") then Ok (demo_p "a1") else Bad (ErrNew "invalid");
     APIAuthorizer := fun _ _ => None; error_text := fun _ => ""; errorAsJSON := fun _ _ => "{}";
     ParseMediaType := Some; accepts_json := fun _ => true |}.

Lemma call_meets_handler_witness :
  ∃ s', call (H:=demo_codecs) demo_transport
          (exchange (H:=demo_codecs) demo_router demo_ctx (api_handlers (Machine0:=demo_api) demo_rt)) (auth_header "t")
          OpShowCluster {| ClientShowCluster.Name := "k" |} demo_hstate = (s', Ret (Returned demo_shown)) ∧
        trace s' = [HGet "kubernikus" "k-a1"].
Proof.
  eexists. split.
  - refine (call_meets_handler (H:=demo_codecs) (CodecLaws0:=json_laws) (CodecLaws1:=json_laws) (CodecLaws2:=json_laws)
      (CodecLaws3:=json_laws) (CodecLaws4:=json_laws) (CodecLaws5:=json_laws) (CodecLaws6:=json_laws) demo_transport demo_router demo_ctx (api_handlers (Machine0:=demo_api) demo_rt)
      OpShowCluster {| ClientShowCluster.Name := "k" |} "t" (demo_p "a1") demo_hstate _
      (Success (Some demo_shown)) _ _ _ _ _ _).
    + reflexivity.
    + reflexivity.
    + split; [by apply plain_literal|done].
    + intros _. split_and!; [done|reflexivity|reflexivity].
    + reflexivity.
    + apply written_faithful, textual_written, demo_shown_textual.
  - reflexivity.
Defined.
