(* ===== verification/Replies.v ===== *)
(** The response values of the API's client (src/pkg/api/client/operations,
    [*_responses.go]): their constructors, codes and texts as errors.  Reading
    a response is in ApiClient. *)
From S2P Require Import Prelude GoStrings Models ApiModels Http Operations ApiClient Handlers Rest.
Local Open Scope Z_scope.

(** The text of a response: the operation, the status and what came *)
Definition reply_text (method path : string) (code : Z) (what : string) : string :=
  "[" +:+ method +:+ " " +:+ path +:+ "][" +:+ Itoa code +:+ "] " +:+ what.

(** A documented response: made without a payload.  [%+v] of one shows the
    addresses of the pointers inside, so it is an argument. *)
Record success_reply (P : Type) := {
  NewSuccess : option P;
  SuccessText : (option P -> string) -> option P -> string }.
Definition success_of {P} (method path : string) (code : Z) (name : string) : success_reply P :=
  {| NewSuccess := None; SuccessText plusV payload := reply_text method path code (name +:+ "  " +:+ plusV payload) |}.
Definition bare_success_of {P} (method path : string) (code : Z) (name : string) : success_reply P :=
  {| NewSuccess := None; SuccessText _ _ := reply_text method path code (name +:+ " ") |}.
(** Any other response: made with its code *)
Record default_value := DefaultValue { _statusCode : Z; d_Payload : option ErrorModel }.
Record default_reply := {
  NewDefault : Z -> default_value;
  Code : default_value -> Z;
  DefaultText : (option ErrorModel -> string) -> default_value -> string }.
Definition default_of (method path name : string) : default_reply :=
  {| NewDefault code := DefaultValue code None; Code := _statusCode;
     DefaultText plusV o := reply_text method path (_statusCode o) (name +:+ " default  " +:+ plusV (d_Payload o)) |}.

(** [CreateClusterCreated], src/pkg/api/client/operations/create_cluster_responses.go:47-62 *)
Definition CreateClusterCreated : success_reply (KlusterModel) :=
  success_of "POST" "/api/v1/clusters" 201 "createClusterCreated".
(** [CreateClusterDefault], src/pkg/api/client/operations/create_cluster_responses.go:76-100 *)
Definition CreateClusterDefault : default_reply := default_of "POST" "/api/v1/clusters" "CreateCluster".
(** [GetClusterCredentialsOK], src/pkg/api/client/operations/get_cluster_credentials_responses.go:47-62 *)
Definition GetClusterCredentialsOK : success_reply (Credentials) :=
  success_of "GET" "/api/v1/clusters/{name}/credentials" 200 "getClusterCredentialsOK".
(** [GetClusterCredentialsDefault], src/pkg/api/client/operations/get_cluster_credentials_responses.go:76-100 *)
Definition GetClusterCredentialsDefault : default_reply := default_of "GET" "/api/v1/clusters/{name}/credentials" "GetClusterCredentials".
(** [GetClusterEventsOK], src/pkg/api/client/operations/get_cluster_events_responses.go:47-62 *)
Definition GetClusterEventsOK : success_reply (list (option Event)) :=
  success_of "GET" "/api/v1/clusters/{name}/events" 200 "getClusterEventsOK".
(** [GetClusterEventsDefault], src/pkg/api/client/operations/get_cluster_events_responses.go:74-98 *)
Definition GetClusterEventsDefault : default_reply := default_of "GET" "/api/v1/clusters/{name}/events" "GetClusterEvents".
(** [GetClusterInfoOK], src/pkg/api/client/operations/get_cluster_info_responses.go:47-62 *)
Definition GetClusterInfoOK : success_reply (KlusterInfo) :=
  success_of "GET" "/api/v1/clusters/{name}/info" 200 "getClusterInfoOK".
(** [GetClusterInfoDefault], src/pkg/api/client/operations/get_cluster_info_responses.go:76-100 *)
Definition GetClusterInfoDefault : default_reply := default_of "GET" "/api/v1/clusters/{name}/info" "GetClusterInfo".
(** [GetOpenstackMetadataOK], src/pkg/api/client/operations/get_openstack_metadata_responses.go:47-62 *)
Definition GetOpenstackMetadataOK : success_reply (OpenstackMetadata) :=
  success_of "GET" "/api/v1/openstack/metadata" 200 "getOpenstackMetadataOK".
(** [GetOpenstackMetadataDefault], src/pkg/api/client/operations/get_openstack_metadata_responses.go:76-100 *)
Definition GetOpenstackMetadataDefault : default_reply := default_of "GET" "/api/v1/openstack/metadata" "GetOpenstackMetadata".
(** [InfoOK], src/pkg/api/client/operations/info_responses.go:40-55 *)
Definition InfoOK : success_reply (InfoModel) :=
  success_of "GET" "/info" 200 "infoOK".
(** [ListAPIVersionsOK], src/pkg/api/client/operations/list_api_versions_responses.go:40-55 *)
Definition ListAPIVersionsOK : success_reply (APIVersions) :=
  success_of "GET" "/api" 200 "listApiVersionsOK".
(** [ListClustersOK], src/pkg/api/client/operations/list_clusters_responses.go:47-62 *)
Definition ListClustersOK : success_reply (list (option KlusterModel)) :=
  success_of "GET" "/api/v1/clusters" 200 "listClustersOK".
(** [ListClustersDefault], src/pkg/api/client/operations/list_clusters_responses.go:74-98 *)
Definition ListClustersDefault : default_reply := default_of "GET" "/api/v1/clusters" "ListClusters".
(** [ShowClusterOK], src/pkg/api/client/operations/show_cluster_responses.go:47-62 *)
Definition ShowClusterOK : success_reply (KlusterModel) :=
  success_of "GET" "/api/v1/clusters/{name}" 200 "showClusterOK".
(** [ShowClusterDefault], src/pkg/api/client/operations/show_cluster_responses.go:76-100 *)
Definition ShowClusterDefault : default_reply := default_of "GET" "/api/v1/clusters/{name}" "ShowCluster".
(** [TerminateClusterAccepted], src/pkg/api/client/operations/terminate_cluster_responses.go:47-61 *)
Definition TerminateClusterAccepted : success_reply (Empty_set) :=
  bare_success_of "DELETE" "/api/v1/clusters/{name}" 202 "terminateClusterAccepted".
(** [TerminateClusterDefault], src/pkg/api/client/operations/terminate_cluster_responses.go:68-92 *)
Definition TerminateClusterDefault : default_reply := default_of "DELETE" "/api/v1/clusters/{name}" "TerminateCluster".
(** [UpdateClusterOK], src/pkg/api/client/operations/update_cluster_responses.go:47-62 *)
Definition UpdateClusterOK : success_reply (KlusterModel) :=
  success_of "PUT" "/api/v1/clusters/{name}" 200 "updateClusterOK".
(** [UpdateClusterDefault], src/pkg/api/client/operations/update_cluster_responses.go:76-100 *)
Definition UpdateClusterDefault : default_reply := default_of "PUT" "/api/v1/clusters/{name}" "UpdateCluster".

(** * By operation *)
Definition default_of_op (o : OpID) : option default_reply :=
  match o with
  | OpCreateCluster => Some CreateClusterDefault
  | OpGetClusterCredentials => Some GetClusterCredentialsDefault
  | OpGetClusterEvents => Some GetClusterEventsDefault
  | OpGetClusterInfo => Some GetClusterInfoDefault
  | OpGetOpenstackMetadata => Some GetOpenstackMetadataDefault
  | OpListClusters => Some ListClustersDefault
  | OpShowCluster => Some ShowClusterDefault
  | OpTerminateCluster => Some TerminateClusterDefault
  | OpUpdateCluster => Some UpdateClusterDefault
  | OpInfo | OpListAPIVersions => None
  end.
Definition success_text (o : OpID) (x : string) : string :=
  match o with
  | OpCreateCluster => SuccessText _ CreateClusterCreated (λ _, x) None
  | OpGetClusterCredentials => SuccessText _ GetClusterCredentialsOK (λ _, x) None
  | OpGetClusterEvents => SuccessText _ GetClusterEventsOK (λ _, x) None
  | OpGetClusterInfo => SuccessText _ GetClusterInfoOK (λ _, x) None
  | OpGetOpenstackMetadata => SuccessText _ GetOpenstackMetadataOK (λ _, x) None
  | OpInfo => SuccessText _ InfoOK (λ _, x) None
  | OpListAPIVersions => SuccessText _ ListAPIVersionsOK (λ _, x) None
  | OpListClusters => SuccessText _ ListClustersOK (λ _, x) None
  | OpShowCluster => SuccessText _ ShowClusterOK (λ _, x) None
  | OpTerminateCluster => SuccessText _ TerminateClusterAccepted (λ _, x) None
  | OpUpdateCluster => SuccessText _ UpdateClusterOK (λ _, x) None
  end.

(** * What the texts tell *)
Lemma break_at c a b a' b' : str_has c a = false → str_has c a' = false →
  a +:+ String c b = a' +:+ String c b' → a = a' ∧ b = b'.
Proof.
  unfold str_has. rewrite !negb_false_iff. revert a'. induction a as [|x a IH]; intros [|y a'] Ha Ha' Heq; cbn in Heq.
  - by injection Heq.
  - injection Heq as <- _. cbn in Ha'. by rewrite bool_decide_true in Ha'.
  - injection Heq as -> _. cbn in Ha. by rewrite bool_decide_true in Ha.
  - injection Heq as <- Hr. cbn in Ha, Ha'. apply andb_prop in Ha as [_ Ha]. apply andb_prop in Ha' as [_ Ha'].
    destruct (IH a' Ha Ha' Hr) as [-> ->]. done.
Qed.
Lemma Itoa_no_bracket z : str_has "]"%char (Itoa z) = false.
Proof.
  assert (∀ n, str_has "]"%char (Utoa n) = false) as H.
  { intros n. destruct (Utoa_spec n) as (Hd & _). unfold str_has. rewrite negb_false_iff. eapply str_all_weaken; [|exact Hd].
    intros c Hc. rewrite negb_true_iff. apply bool_decide_false. by intros ->. }
  destruct z as [|p|p]; [done|exact (H (N.pos p))|]. change (Itoa (Z.neg p)) with ("-" +:+ Utoa (N.pos p)). by rewrite str_has_app, H.
Qed.
Lemma reply_text_inv m p c w m' p' c' w' : str_has "]"%char (m +:+ " " +:+ p) = false → str_has "]"%char (m' +:+ " " +:+ p') = false →
  reply_text m p c w = reply_text m' p' c' w' → m +:+ " " +:+ p = m' +:+ " " +:+ p' ∧ c = c' ∧ w = w'.
Proof.
  intros Hm Hm' [= Ht]. unfold reply_text in Ht.
  assert (∀ a b x, a +:+ String " " (b +:+ String "]" x) = (a +:+ " " +:+ b) +:+ String "]"%char x) as Hassoc
    by (intros; by rewrite !str_app_assoc).
  change (m +:+ String " " (p +:+ String "]" (String "[" (Itoa c +:+ String "]" (String " " w)))) =
          m' +:+ String " " (p' +:+ String "]" (String "[" (Itoa c' +:+ String "]" (String " " w'))))) in Ht.
  rewrite !Hassoc in Ht. apply break_at in Ht as [-> [= Ht]]; [|done..].
  apply break_at in Ht as [Hc [= Hw]]; [|apply Itoa_no_bracket..]. split; [done|]. split; [|done]. by apply (inj (pretty (A:=Z))) in Hc.
Qed.

Lemma method_pattern_inj o o' : method_of o +:+ " " +:+ pattern_of o = method_of o' +:+ " " +:+ pattern_of o' → o = o'.
Proof. destruct o, o'; first [reflexivity | discriminate]. Qed.
Lemma no_bracket o : str_has "]"%char (method_of o +:+ " " +:+ pattern_of o) = false.
Proof. by destruct o. Qed.
(** The texts name the method and the pattern the request was sent to. *)
Lemma default_text o d : default_of_op o = Some d → ∃ name, d = default_of (method_of o) (pattern_of o) name.
Proof. destruct o; try done; intros [= <-]; eexists; reflexivity. Qed.
(** The text of a response that is an error tells which operation failed with
    which status, whatever is printed of the payload; a response has the
    status it was made with. *)
Theorem texts_tell o o' d d' f f' x x' : default_of_op o = Some d → default_of_op o' = Some d' →
  (DefaultText d f x = DefaultText d' f' x' → o = o' ∧ Code d x = Code d' x') ∧ (∀ c, Code d (NewDefault d c) = c).
Proof.
  intros [n ->]%default_text [n' ->]%default_text. split; [|done].
  intros (Hm & Hc & _)%reply_text_inv; [|apply no_bracket..]. split; [by apply method_pattern_inj|done].
Qed.
Example texts_demo :
  default_of_op OpShowCluster ≫= (λ d, Some (DefaultText d (λ _, "?") (NewDefault d 404))) =
    Some "[GET /api/v1/clusters/{name}][404] ShowCluster default  ?" ∧
  success_text OpTerminateCluster "?" = "[DELETE /api/v1/clusters/{name}][202] terminateClusterAccepted ".
Proof. done. Qed.
