(* ===== verification/Builders.v ===== *)
(** The builders of [pkg/api/rest/operations] and [pkg/api/client/operations].

    Next to binding, writing and calling (Operations, ApiClient) the generator
    makes for every operation a builder of its URL, the constructors and setters
    of the client's parameters, and those of the server's responses.  They come
    from one template each, so each template is a record of methods made once;
    an object that a [With] method changes and returns is its new state. *)
From S2P Require Import Prelude GoStrings Fmt Models ApiModels Handlers Http Operations ApiClient Rest.
Local Open Scope Z_scope.

(** * [net/url] *)
Record address := { a_Scheme : string; a_Host : string; a_Path : string }.

Definition upper_hex (n : N) : ascii := ascii_of_N (if (n <? 10)%N then n + 48 else n + 55).
Definition escape_byte (c : ascii) : string :=
  String percent (String (upper_hex (N_of_ascii c / 16)) (String (upper_hex (N_of_ascii c mod 16)) "")).
(** [shouldEscape] in a path, where only the question mark of the reserved
    characters is escaped, and in a host *)
Definition kept_in_path (c : ascii) : bool :=
  unreserved c || bool_decide (c ∈ ["$"; "&"; "+"; ","; "/"; ":"; ";"; "="; "@"]%char).
Definition kept_in_host (c : ascii) : bool :=
  unreserved c || bool_decide (c ∈ ["!"; "$"; "&"; "'"; "("; ")"; "*"; "+"; ","; ";"; "="; ":"; "["; "]"; "<"; ">"; dquote]%char).
Fixpoint escape (kept : ascii -> bool) (s : string) : string :=
  match s with
  | EmptyString => ""
  | String c s' => (if kept c then String c "" else escape_byte c) +:+ escape kept s'
  end.
(** [unescape] of a path *)
Definition unhex (c : ascii) : option N :=
  let n := N_of_ascii c in
  if is_digit c then Some (n - 48)%N
  else if (97 <=? n)%N && (n <=? 102)%N then Some (n - 87)%N
  else if (65 <=? n)%N && (n <=? 70)%N then Some (n - 55)%N else None.
Fixpoint unescape (s : string) : option string :=
  match s with
  | EmptyString => Some ""
  | String c s' =>
      if decide (c = percent)
      then match s' with
           | String d (String e s'') =>
               match unhex d, unhex e with
               | Some h, Some l => String (ascii_of_N (16 * h + l)) <$> unescape s''
               | _, _ => None
               end
           | _ => None
           end
      else String c <$> unescape s'
  end.
Definition a_EscapedPath (u : address) : string := if decide (a_Path u = "*") then "*" else escape kept_in_path (a_Path u).
(** [URL.String], without user, query and fragment *)
Definition a_String (u : address) : string :=
  let path := a_EscapedPath u in
  let front :=
    (if decide (a_Scheme u = "") then "" else a_Scheme u +:+ ":") +:+
    (if decide (a_Scheme u = "" ∧ a_Host u = "") then "" else "//" +:+ escape kept_in_host (a_Host u)) +:+
    (if bool_decide (path ≠ "") && negb (HasPrefix path "/") && bool_decide (a_Host u ≠ "") then "/" else "") in
  front +:+
  (if bool_decide (front = "") && str_has ":"%char (fst (span (λ c, negb (bool_decide (c = slash))) path)) then "./" else "") +:+ path.

(** * URL builders *)
Record url_object (P : Type) := UrlObject { u_own : P; _basePath : string }.
Arguments UrlObject {_} _ _.
Arguments u_own {_} _.
Arguments _basePath {_} _.
Record url_methods (P : Type) := {
  WithBasePath : string -> url_object P -> url_object P;
  SetBasePath : string -> url_object P -> url_object P;
  BuildURL : url_object P -> reply address;
  Must : option address -> option error -> outcome address;
  URLString : url_object P -> outcome string;
  BuildFull : string -> string -> url_object P -> reply address;
  StringFull : string -> string -> url_object P -> outcome string }.
Arguments WithBasePath {_} _ _ _.
Arguments SetBasePath {_} _ _ _.
Arguments BuildURL {_} _ _.
Arguments Must {_} _ _ _.
Arguments URLString {_} _ _.
Arguments BuildFull {_} _ _ _ _.
Arguments StringFull {_} _ _ _ _.

(** The two results of a Go function *)
Definition results {A} (r : reply A) : option A * option error := match r with Ok a => (Some a, None) | Bad e => (None, Some e) end.
Definition url_builder {P} (name : string) (build : P -> string -> reply string) : url_methods P :=
  let set bp o := UrlObject (u_own o) bp in
  let built o := match build (u_own o) (_basePath o) with
                 | Ok p => Ok {| a_Scheme := ""; a_Host := ""; a_Path := p |}
                 | Bad e => Bad e
                 end in
  let must u err := match err, u with
                    | Some e, _ => Panic (Error e)
                    | None, None => Panic "url can't be nil"
                    | None, Some u => Ret u
                    end in
  let text r := let '(u, err) := results r in match must u err with Ret u => Ret (a_String u) | Fail e => Fail e | Panic w => Panic w end in
  let full scheme host o :=
    if decide (scheme = "") then Bad (ErrNew ("scheme is required for a full url on " +:+ name))
    else if decide (host = "") then Bad (ErrNew ("host is required for a full url on " +:+ name))
    else match built o with
         | Ok u => Ok {| a_Scheme := scheme; a_Host := host; a_Path := a_Path u |}
         | Bad e => Bad e
         end in
  {| WithBasePath := set; SetBasePath := set; BuildURL := built; Must := must; URLString := λ o, text (built o);
     BuildFull := full; StringFull := λ scheme host o, text (full scheme host o) |}.

(** [CreateClusterURL], src/pkg/api/rest/operations/create_cluster_urlbuilder.go:14-84 *)
Definition CreateClusterURL : url_methods unit := url_builder "CreateClusterURL" (λ _ base, CreateCluster.Build base).
(** [GetClusterCredentialsURL], src/pkg/api/rest/operations/get_cluster_credentials_urlbuilder.go:15-95 *)
Definition GetClusterCredentialsURL : url_methods string := url_builder "GetClusterCredentialsURL" (λ name base, GetClusterCredentials.Build base name).
(** [GetClusterEventsURL], src/pkg/api/rest/operations/get_cluster_events_urlbuilder.go:15-95 *)
Definition GetClusterEventsURL : url_methods string := url_builder "GetClusterEventsURL" (λ name base, GetClusterEvents.Build base name).
(** [GetClusterInfoURL], src/pkg/api/rest/operations/get_cluster_info_urlbuilder.go:15-95 *)
Definition GetClusterInfoURL : url_methods string := url_builder "GetClusterInfoURL" (λ name base, GetClusterInfo.Build base name).
(** [GetOpenstackMetadataURL], src/pkg/api/rest/operations/get_openstack_metadata_urlbuilder.go:14-84 *)
Definition GetOpenstackMetadataURL : url_methods unit := url_builder "GetOpenstackMetadataURL" (λ _ base, GetOpenstackMetadata.Build base).
(** [InfoURL], src/pkg/api/rest/operations/info_urlbuilder.go:14-84 *)
Definition InfoURL : url_methods unit := url_builder "InfoURL" (λ _ base, Info.Build base).
(** [ListAPIVersionsURL], src/pkg/api/rest/operations/list_api_versions_urlbuilder.go:14-84 *)
Definition ListAPIVersionsURL : url_methods unit := url_builder "ListAPIVersionsURL" (λ _ base, ListAPIVersions.Build base).
(** [ListClustersURL], src/pkg/api/rest/operations/list_clusters_urlbuilder.go:14-84 *)
Definition ListClustersURL : url_methods unit := url_builder "ListClustersURL" (λ _ base, ListClusters.Build base).
(** [ShowClusterURL], src/pkg/api/rest/operations/show_cluster_urlbuilder.go:15-95 *)
Definition ShowClusterURL : url_methods string := url_builder "ShowClusterURL" (λ name base, ShowCluster.Build base name).
(** [TerminateClusterURL], src/pkg/api/rest/operations/terminate_cluster_urlbuilder.go:15-95 *)
Definition TerminateClusterURL : url_methods string := url_builder "TerminateClusterURL" (λ name base, TerminateCluster.Build base name).
(** [UpdateClusterURL], src/pkg/api/rest/operations/update_cluster_urlbuilder.go:15-95 *)
Definition UpdateClusterURL : url_methods string := url_builder "UpdateClusterURL" (λ name base, UpdateCluster.Build base name).

(** * Parameters of the client

    Contexts and HTTP clients are only handed on. *)
Definition DefaultTimeout : Z := 30 * 1000000000.
Section Params.
Context (Ctx Client : Type).
Record call_params (P : Type) := CallParams { timeout : Z; Context_ : option Ctx; HTTPClient : option Client; own : P }.
Arguments CallParams {_} _ _ _ _.
Arguments timeout {_} _.
Arguments Context_ {_} _.
Arguments HTTPClient {_} _.
Arguments own {_} _.
Record params_methods (P A : Type) := {
  NewParams : call_params P;
  NewParamsWithTimeout : Z -> call_params P;
  NewParamsWithContext : Ctx -> call_params P;
  NewParamsWithHTTPClient : Client -> call_params P;
  SetTimeout : Z -> call_params P -> call_params P;
  SetContext : option Ctx -> call_params P -> call_params P;
  SetHTTPClient : option Client -> call_params P -> call_params P;
  SetParam : A -> call_params P -> call_params P }.
Definition params_of {P A} (zero : P) (assign : A -> P -> P) : params_methods P A := {|
  NewParams := CallParams DefaultTimeout None None zero;
  NewParamsWithTimeout t := CallParams t None None zero;
  NewParamsWithContext c := CallParams 0 (Some c) None zero;
  NewParamsWithHTTPClient h := CallParams 0 None (Some h) zero;
  SetTimeout t o := CallParams t (Context_ o) (HTTPClient o) (own o);
  SetContext c o := CallParams (timeout o) c (HTTPClient o) (own o);
  SetHTTPClient h o := CallParams (timeout o) (Context_ o) h (own o);
  SetParam a o := CallParams (timeout o) (Context_ o) (HTTPClient o) (assign a (own o)) |}.

(** [CreateClusterParams], src/pkg/api/client/operations/create_cluster_parameters.go:23-117 *)
Definition CreateClusterParams : params_methods ClientCreateCluster.Params (option KlusterModel) :=
  params_of {| ClientCreateCluster.Body := None |} (λ b _, {| ClientCreateCluster.Body := b |}).
(** [GetClusterCredentialsParams], src/pkg/api/client/operations/get_cluster_credentials_parameters.go:21-115 *)
Definition GetClusterCredentialsParams : params_methods ClientGetClusterCredentials.Params string :=
  params_of {| ClientGetClusterCredentials.Name := "" |} (λ n _, {| ClientGetClusterCredentials.Name := n |}).
(** [GetClusterEventsParams], src/pkg/api/client/operations/get_cluster_events_parameters.go:21-115 *)
Definition GetClusterEventsParams : params_methods ClientGetClusterEvents.Params string :=
  params_of {| ClientGetClusterEvents.Name := "" |} (λ n _, {| ClientGetClusterEvents.Name := n |}).
(** [GetClusterInfoParams], src/pkg/api/client/operations/get_cluster_info_parameters.go:21-115 *)
Definition GetClusterInfoParams : params_methods ClientGetClusterInfo.Params string :=
  params_of {| ClientGetClusterInfo.Name := "" |} (λ n _, {| ClientGetClusterInfo.Name := n |}).
(** [GetOpenstackMetadataParams], src/pkg/api/client/operations/get_openstack_metadata_parameters.go:21-100 *)
Definition GetOpenstackMetadataParams : params_methods ClientGetOpenstackMetadata.Params Empty_set :=
  params_of tt (λ _ o, o).
(** [InfoParams], src/pkg/api/client/operations/info_parameters.go:21-100 *)
Definition InfoParams : params_methods ClientInfo.Params Empty_set :=
  params_of tt (λ _ o, o).
(** [ListAPIVersionsParams], src/pkg/api/client/operations/list_api_versions_parameters.go:21-100 *)
Definition ListAPIVersionsParams : params_methods ClientListAPIVersions.Params Empty_set :=
  params_of tt (λ _ o, o).
(** [ListClustersParams], src/pkg/api/client/operations/list_clusters_parameters.go:21-100 *)
Definition ListClustersParams : params_methods ClientListClusters.Params Empty_set :=
  params_of tt (λ _ o, o).
(** [ShowClusterParams], src/pkg/api/client/operations/show_cluster_parameters.go:21-115 *)
Definition ShowClusterParams : params_methods ClientShowCluster.Params string :=
  params_of {| ClientShowCluster.Name := "" |} (λ n _, {| ClientShowCluster.Name := n |}).
(** [TerminateClusterParams], src/pkg/api/client/operations/terminate_cluster_parameters.go:21-115 *)
Definition TerminateClusterParams : params_methods ClientTerminateCluster.Params string :=
  params_of {| ClientTerminateCluster.Name := "" |} (λ n _, {| ClientTerminateCluster.Name := n |}).
(** [UpdateClusterParams], src/pkg/api/client/operations/update_cluster_parameters.go:23-130 *)
Definition UpdateClusterParams : params_methods ClientUpdateCluster.Params (option KlusterModel + string) :=
  params_of {| ClientUpdateCluster.Body := None; ClientUpdateCluster.Name := "" |} (λ f o,
    match f with
    | inl b => {| ClientUpdateCluster.Body := b; ClientUpdateCluster.Name := ClientUpdateCluster.Name o |}
    | inr n => {| ClientUpdateCluster.Body := ClientUpdateCluster.Body o; ClientUpdateCluster.Name := n |}
    end).

(** What ends a call: its context, or a time after its start.
    [Submit], src/vendor/github.com/go-openapi/runtime/client/runtime.go:262-283 *)
Inductive ending := ByContext (c : Ctx) | After (d : Z).
Definition ends {P} (o : call_params P) : ending := match Context_ o with Some c => ByContext c | None => After (timeout o) end.
Definition expired (e : ending) : bool := match e with After d => d <=? 0 | ByContext _ => false end.
End Params.

(** * Responses of the server *)
Section Responses.
Record success_object (P : Type) := SuccessObject { s_Payload : option P }.
Record success_methods (P : Type) := {
  NewSuccess : success_object P;
  SetPayload : option P -> success_object P -> success_object P;
  WriteSuccess : success_object P -> Go ResponseWriter unit }.
Definition success_response {P} (write : option P -> Go ResponseWriter unit) : success_methods P :=
  {| NewSuccess := SuccessObject P None; SetPayload p _ := SuccessObject P p; WriteSuccess o := write (s_Payload P o) |}.
Record default_object := DefaultObject { _statusCode : Z; d_Payload : option ErrorModel }.
Record default_methods := {
  NewDefault : Z -> default_object;
  SetStatusCode : Z -> default_object -> default_object;
  SetError : option ErrorModel -> default_object -> default_object;
  WriteDefaultResponse : default_object -> Go ResponseWriter unit }.
Definition default_response_of (write : Z -> option ErrorModel -> Go ResponseWriter unit) : default_methods :=
  {| NewDefault code := DefaultObject (if code <=? 0 then 500 else code) None;
     SetStatusCode code o := DefaultObject code (d_Payload o);
     SetError e o := DefaultObject (_statusCode o) e;
     WriteDefaultResponse o := write (_statusCode o) (d_Payload o) |}.
Context `{!ApiCodecs}.

(** [CreateClusterCreated], src/pkg/api/rest/operations/create_cluster_responses.go:16-57 *)
Definition CreateClusterCreated : success_methods (KlusterModel) := success_response CreateCluster.WriteCreated.
(** [CreateClusterDefault], src/pkg/api/rest/operations/create_cluster_responses.go:59-115 *)
Definition CreateClusterDefault : default_methods := default_response_of CreateCluster.WriteDefault.
(** [GetClusterCredentialsOK], src/pkg/api/rest/operations/get_cluster_credentials_responses.go:16-57 *)
Definition GetClusterCredentialsOK : success_methods (Credentials) := success_response GetClusterCredentials.WriteOK.
(** [GetClusterCredentialsDefault], src/pkg/api/rest/operations/get_cluster_credentials_responses.go:59-115 *)
Definition GetClusterCredentialsDefault : default_methods := default_response_of GetClusterCredentials.WriteDefault.
(** [GetClusterEventsOK], src/pkg/api/rest/operations/get_cluster_events_responses.go:16-60 *)
Definition GetClusterEventsOK : success_methods (list (option Event)) := success_response GetClusterEvents.WriteOK.
(** [GetClusterEventsDefault], src/pkg/api/rest/operations/get_cluster_events_responses.go:62-118 *)
Definition GetClusterEventsDefault : default_methods := default_response_of GetClusterEvents.WriteDefault.
(** [GetClusterInfoOK], src/pkg/api/rest/operations/get_cluster_info_responses.go:16-57 *)
Definition GetClusterInfoOK : success_methods (KlusterInfo) := success_response GetClusterInfo.WriteOK.
(** [GetClusterInfoDefault], src/pkg/api/rest/operations/get_cluster_info_responses.go:59-115 *)
Definition GetClusterInfoDefault : default_methods := default_response_of GetClusterInfo.WriteDefault.
(** [GetOpenstackMetadataOK], src/pkg/api/rest/operations/get_openstack_metadata_responses.go:16-57 *)
Definition GetOpenstackMetadataOK : success_methods (OpenstackMetadata) := success_response GetOpenstackMetadata.WriteOK.
(** [GetOpenstackMetadataDefault], src/pkg/api/rest/operations/get_openstack_metadata_responses.go:59-115 *)
Definition GetOpenstackMetadataDefault : default_methods := default_response_of GetOpenstackMetadata.WriteDefault.
(** [InfoOK], src/pkg/api/rest/operations/info_responses.go:16-57 *)
Definition InfoOK : success_methods (InfoModel) := success_response Info.WriteOK.
(** [ListAPIVersionsOK], src/pkg/api/rest/operations/list_api_versions_responses.go:16-57 *)
Definition ListAPIVersionsOK : success_methods (APIVersions) := success_response ListAPIVersions.WriteOK.
(** [ListClustersOK], src/pkg/api/rest/operations/list_clusters_responses.go:16-60 *)
Definition ListClustersOK : success_methods (list (option KlusterModel)) := success_response ListClusters.WriteOK.
(** [ListClustersDefault], src/pkg/api/rest/operations/list_clusters_responses.go:62-118 *)
Definition ListClustersDefault : default_methods := default_response_of ListClusters.WriteDefault.
(** [ShowClusterOK], src/pkg/api/rest/operations/show_cluster_responses.go:16-57 *)
Definition ShowClusterOK : success_methods (KlusterModel) := success_response ShowCluster.WriteOK.
(** [ShowClusterDefault], src/pkg/api/rest/operations/show_cluster_responses.go:59-115 *)
Definition ShowClusterDefault : default_methods := default_response_of ShowCluster.WriteDefault.
(** It has no payload.
    [TerminateClusterAccepted], src/pkg/api/rest/operations/terminate_cluster_responses.go:16-37 *)
Definition TerminateClusterAccepted : unit * Go ResponseWriter unit := (tt, TerminateCluster.WriteAccepted).
(** [TerminateClusterDefault], src/pkg/api/rest/operations/terminate_cluster_responses.go:39-95 *)
Definition TerminateClusterDefault : default_methods := default_response_of TerminateCluster.WriteDefault.
(** [UpdateClusterOK], src/pkg/api/rest/operations/update_cluster_responses.go:16-57 *)
Definition UpdateClusterOK : success_methods (KlusterModel) := success_response UpdateCluster.WriteOK.
(** [UpdateClusterDefault], src/pkg/api/rest/operations/update_cluster_responses.go:59-115 *)
Definition UpdateClusterDefault : default_methods := default_response_of UpdateCluster.WriteDefault.
End Responses.

(** * What is built *)

(** ** Escaping *)
Lemma unhex_byte c : unhex (upper_hex (N_of_ascii c / 16)) = Some (N_of_ascii c / 16)%N ∧
  unhex (upper_hex (N_of_ascii c mod 16)) = Some (N_of_ascii c mod 16)%N.
Proof. by destruct c as [[] [] [] [] [] [] [] []]. Qed.
(** An escaped text, of which the per cent sign is no part, is read back. *)
Lemma unescape_escape kept s : kept percent = false → unescape (escape kept s) = Some s.
Proof.
  intros Hk. induction s as [|c s IH]; [done|]. cbn [escape]. destruct (kept c) eqn:Hc; cbn [String.append].
  - cbn [unescape]. rewrite decide_False by (intros ->; congruence). by rewrite IH.
  - unfold escape_byte. cbn [String.append unescape]. rewrite decide_True by done. destruct (unhex_byte c) as [-> ->]. rewrite IH. cbn.
    by rewrite <- N.div_mod, ascii_N_embedding by done.
Qed.
Lemma escape_kept kept s : str_all kept s = true → escape kept s = s.
Proof. induction s as [|c s IH]; [done|]. cbn. intros [-> Hs]%andb_prop. by rewrite IH. Qed.

(** ** URLs *)
Definition full_string (o : OpID) (scheme host base v : string) : outcome string :=
  match o with
  | OpCreateCluster => StringFull CreateClusterURL scheme host (UrlObject tt base)
  | OpGetClusterCredentials => StringFull GetClusterCredentialsURL scheme host (UrlObject v base)
  | OpGetClusterEvents => StringFull GetClusterEventsURL scheme host (UrlObject v base)
  | OpGetClusterInfo => StringFull GetClusterInfoURL scheme host (UrlObject v base)
  | OpGetOpenstackMetadata => StringFull GetOpenstackMetadataURL scheme host (UrlObject tt base)
  | OpInfo => StringFull InfoURL scheme host (UrlObject tt base)
  | OpListAPIVersions => StringFull ListAPIVersionsURL scheme host (UrlObject tt base)
  | OpListClusters => StringFull ListClustersURL scheme host (UrlObject tt base)
  | OpShowCluster => StringFull ShowClusterURL scheme host (UrlObject v base)
  | OpTerminateCluster => StringFull TerminateClusterURL scheme host (UrlObject v base)
  | OpUpdateCluster => StringFull UpdateClusterURL scheme host (UrlObject v base)
  end.

(** The text of a full URL on every branch: it is refused for a missing scheme,
    host or name, in this order, with a panic; otherwise it is the address of
    the document's path below the base path, with the name put in as it is. *)
Theorem full_string_result o scheme host base v :
  full_string o scheme host base v =
    if decide (scheme = "") then Panic ("scheme is required for a full url on " +:+ name_of o +:+ "URL")
    else if decide (host = "") then Panic ("host is required for a full url on " +:+ name_of o +:+ "URL")
    else if named o && bool_decide (v = "") then Panic ("Name is required on " +:+ name_of o +:+ "URL")
    else Ret (a_String {| a_Scheme := scheme; a_Host := host; a_Path := path_Join base (Replace (pattern_of o) "{name}" v) |}).
Proof.
  destruct o; cbn; (destruct (decide (scheme = "")) as [->|]; [done|]); (destruct (decide (host = "")) as [->|]; [done|]); try done;
    unfold GetClusterCredentials.Build, GetClusterEvents.Build, GetClusterInfo.Build, ShowCluster.Build, TerminateCluster.Build, UpdateCluster.Build;
    (destruct (decide (v = "")) as [->|]; [done|]); by rewrite bool_decide_eq_false_2.
Qed.

Lemma Join_kept (kept : ascii → bool) l : kept slash = true → Forall (λ w, str_all kept w = true) l → str_all kept (Join l "/") = true.
Proof.
  intros Hs Hl. induction Hl as [|w l Hw Hl IH]; [done|]. destruct l as [|w' l]; [exact Hw|].
  change (Join (w :: w' :: l) "/") with (w +:+ String slash (Join (w' :: l) "/")). rewrite str_all_app, Hw. cbn [str_all]. by rewrite Hs, IH.
Qed.
Lemma url_of_kept o v : plain v → str_all kept_in_path (url_of o v) = true.
Proof.
  intros Hv. destruct (segments_plain o v Hv) as [Hp _].
  change (str_all kept_in_path (String slash (Join (segments o v) "/")) = true). cbn [str_all].
  rewrite Join_kept; [done|done|]. eapply Forall_impl; [exact Hp|]. intros w [_ Hw]. revert Hw. apply str_all_weaken.
  intros c Hc. unfold kept_in_path. by rewrite Hc.
Qed.

(** The full URL of an operation on a plain name is read as it was put
    together, and a router finds the operation and the name under its path. *)
Theorem full_string_reaches rt `{!RouterLaws rt} o scheme host v :
  scheme ≠ "" → host ≠ "" → str_all kept_in_host host = true → plain v →
  full_string o scheme host "/" v = Ret (scheme +:+ "://" +:+ host +:+ url_of o v) ∧
  unescape (url_of o v) = Some (url_of o v) ∧
  Lookup rt (method_of o) (url_of o v) = Some (pattern_of o, if named o then [("name", v)] else []).
Proof.
  intros Hs Hh Hk Hv. assert (v ≠ "") as Hne by apply Hv. pose proof (url_of_kept o v Hv) as Hu. split; [|split].
  - rewrite full_string_result, decide_False, decide_False by done.
    rewrite (bool_decide_eq_false_2 (v = "")), andb_false_r by done. f_equal. rewrite pattern_url.
    assert (path_Join "/" (url_of o v) = url_of o v) as -> by by rewrite <- (url_clean o v) at 2.
    unfold a_String, a_EscapedPath. cbn [a_Scheme a_Host a_Path].
    rewrite (decide_False (P:=url_of o v = "*")) by done. rewrite (decide_False (P:=scheme = "")), (decide_False (P:=_ ∧ _)) by naive_solver.
    rewrite !escape_kept by done. assert (HasPrefix (url_of o v) "/" = true) as -> by apply (string_prefix_app "/"). rewrite andb_false_r. cbn [andb].
    rewrite bool_decide_eq_false_2; [|by destruct scheme]. cbn [andb]. by rewrite !str_app_assoc.
  - etrans; [|apply (unescape_escape kept_in_path); done]. by rewrite escape_kept.
  - by apply Lookup_url.
Qed.

(** A name is not escaped and may leave its place in the path. *)
Example name_escapes :
  full_string OpShowCluster "https" "api" "/" "k/events" = full_string OpGetClusterEvents "https" "api" "/" "k" ∧
  full_string OpTerminateCluster "https" "api" "/" "../../../info" = full_string OpInfo "https" "api" "/" "" ∧
  full_string OpShowCluster "https" "api" "/" "a b?" = Ret "https://api/api/v1/clusters/a%20b%3F".
Proof. vm_compute. done. Qed.

(** ** Parameters *)
Section Settings.
Context {Ctx Client P A : Type} (zero : P) (assign : A → P → P).
Abbreviation m := (params_of Ctx Client zero assign).
Inductive setting := STimeout (t : Z) | SContext (c : option Ctx) | SClient (h : option Client) | SParam (a : A).
Definition set (o : call_params Ctx Client P) (x : setting) : call_params Ctx Client P :=
  match x with
  | STimeout t => SetTimeout _ _ _ _ m t o
  | SContext c => SetContext _ _ _ _ m c o
  | SClient h => SetHTTPClient _ _ _ _ m h o
  | SParam a => SetParam _ _ _ _ m a o
  end.
Definition latest {X} (f : setting → option X) (x : X) (l : list setting) : X := default x (last (omap f l)).
Lemma latest_cons {X} (f : setting → option X) x y l : latest f x (y :: l) = latest f (default x (f y)) l.
Proof.
  unfold latest. change (omap f (y :: l)) with (match f y with Some z => z :: omap f l | None => omap f l end).
  destruct (f y) as [z|]; [|done]. rewrite last_cons. by destruct (last (omap f l)).
Qed.

(** The settings do not touch each other: of each kind the last one counts, and
    the parameters that are sent come from theirs alone. *)
Theorem settings_independent l o : fold_left set l o =
  {| timeout := latest (λ x, match x with STimeout t => Some t | _ => None end) (timeout _ _ _ o) l;
     Context_ := latest (λ x, match x with SContext c => Some c | _ => None end) (Context_ _ _ _ o) l;
     HTTPClient := latest (λ x, match x with SClient h => Some h | _ => None end) (HTTPClient _ _ _ o) l;
     own := fold_left (λ p a, assign a p) (omap (λ x, match x with SParam a => Some a | _ => None end) l) (own _ _ _ o) |}.
Proof.
  revert o. induction l as [|x l IH]; intros o; [by destruct o|]. cbn [fold_left]. rewrite IH, !latest_cons. by destruct x.
Qed.

(** A call ends after thirty seconds, the given time, or with the given
    context; parameters made with an HTTP client have no time at all, so that
    their calls are over before they begin, unless a timeout or a context is set. *)
Theorem params_end t c h l :
  ends _ _ (NewParams _ _ _ _ m) = After _ DefaultTimeout ∧
  ends _ _ (NewParamsWithTimeout _ _ _ _ m t) = After _ t ∧
  ends _ _ (NewParamsWithContext _ _ _ _ m c) = ByContext _ c ∧
  (Forall (λ x, match x with STimeout _ | SContext _ => False | _ => True end) l →
   expired _ (ends _ _ (fold_left set l (NewParamsWithHTTPClient _ _ _ _ m h))) = true).
Proof.
  split_and!; [done..|]. intros Hl. rewrite settings_independent. unfold ends. cbn [Context_ timeout].
  assert (∀ X (f : setting → option X) x, (∀ y, match y with STimeout _ | SContext _ => False | _ => True end → f y = None) →
    latest f x l = x) as Hlast.
  { intros X f x Hf. unfold latest. replace (omap f l) with (@nil X); [done|]. symmetry.
    induction Hl as [|y l Hy Hl IH]; [done|]. cbn. by rewrite Hf. }
  by rewrite !Hlast by by intros [].
Qed.
End Settings.

(** ** Responses *)
Section Built.
Context `{!ApiCodecs}.
Definition defaults (o : OpID) : option default_methods :=
  match o with
  | OpCreateCluster => Some CreateClusterDefault
  | OpGetClusterCredentials => Some GetClusterCredentialsDefault
  | OpGetClusterEvents => Some GetClusterEventsDefault
  | OpGetClusterInfo => Some GetClusterInfoDefault
  | OpGetOpenstackMetadata => Some GetOpenstackMetadataDefault
  | OpListClusters => Some ListClustersDefault
  | OpShowCluster => Some ShowClusterDefault
  | OpTerminateCluster => Some TerminateClusterDefault
  | OpUpdateCluster => Some UpdateClusterDefault
  | OpInfo | OpListAPIVersions => None
  end.
(** What [NewErrorResponse] does to the empty response it is given *)
Definition error_response (m : default_methods) (code : Z) (e : option ErrorModel) : default_object :=
  SetError m e (SetStatusCode m code (DefaultObject 0 None)).
(** The response an error is put into is written as the operation writes it;
    a response made by its constructor never has a status below one. *)
Theorem errors_written o m r code e : defaults o = Some m → default_response o r = Some (code, e) →
  Rest.write o r = WriteDefaultResponse m (error_response m code e) ∧
  (∀ c, 0 < _statusCode (NewDefault m c)) ∧ (∀ c, 0 < c → _statusCode (NewDefault m c) = c).
Proof.
  intros Hm Hr. split.
  - destruct o; try done; injection Hm as <-; destruct r; try done; by injection Hr as -> ->.
  - assert (∃ w, m = default_response_of w) as [w ->] by (destruct o; try done; injection Hm as <-; by eexists).
    split; intros c; cbn; destruct (Z.leb_spec c 0); lia.
Qed.
End Built.
