(* ===== verification/Auth.v ===== *)
(** [pkg/api/auth/authorizer.go] and [etc/policy.json]: who may do what.

    The authorizer has routers of its own, built from the API document; here
    they meet the router that dispatches the request, and the rules of the
    policy file as the engine of Policy.v reads them. *)
From S2P Require Import Prelude GoStrings Policy Models ApiModels Handlers.
From S2P Require Import Http Operations ApiClient Rest.
Local Open Scope Z_scope.

(** The methods, patterns and names of the operations of the document, in the
    order a map is iterated in *)
Abbreviation operations := (list (string * string * string)) (only parsing).
Definition patterns (ops : operations) (method : string) : list string :=
  omap (fun '(m, p, _) => if decide (m = method) then Some p else None) ops.
Definition operation_id (ops : operations) (method pattern : string) : option string :=
  head (omap (fun '(m, p, id) => if decide (m = method ∧ p = pattern) then Some id else None) ops).

(** [osloPolicyAuthorizer], src/pkg/api/auth/authorizer.go:29-32 *)
Record osloPolicyAuthorizer := {
  enforcer : gmap string Oslo.rule;
  routers : gmap string (string -> option (string * RouteParams)) }.
(** One router per method; the data of a record is the operation's name.
    [NewOsloPolicyAuthorizer], src/pkg/api/auth/authorizer.go:50-72 *)
Definition newRouters (rt : Router) (ops : operations) : gmap string (string -> option (string * RouteParams)) :=
  list_to_map ((fun '(m, _, _) => (m, fun path : string =>
    match denco rt (patterns ops m) path with
    | Some (p, params) => (fun id => (id, params)) <$> operation_id ops m p
    | None => None
    end)) <$> ops).
(** [order] is the map of the rules in some order; without an authorizer, what
    is wrong with them.
    [NewOsloPolicyAuthorizer], src/pkg/api/auth/authorizer.go:48-79 *)
Definition NewOsloPolicyAuthorizer (rt : Router) (ops : operations) (order : list (string * string)) :
    osloPolicyAuthorizer + Oslo.engine :=
  match Oslo.NewEnforcer order with
  | Oslo.Engine en => inl {| enforcer := en; routers := newRouters rt ops |}
  | wrong => inr wrong
  end.

(** The decisions of the engine; rules in a circle have none. *)
Definition enforces (en : gmap string Oslo.rule)
    (Enforce : string -> gmap string string -> list string -> gmap string string -> bool) : Prop :=
  ∀ id auth roles vars, ∃ fuel,
    Oslo.Enforce fuel en id {| Oslo.c_Auth := auth; Oslo.c_Roles := roles; Oslo.c_Request := vars |} = Some (Enforce id auth roles vars).
(** The authorizer of a context *)
Definition policy_authorizer (a : osloPolicyAuthorizer)
    (Enforce : string -> gmap string string -> list string -> gmap string string -> bool) (r : HTTPRequest) (p : Principal) : option error :=
  Handlers.Authorize (routers a) path_Clean Enforce (rq_Method r) (rq_Path r) p.
(** The rules allow a principal an operation. *)
Definition allows (a : osloPolicyAuthorizer) (id : string) (p : Principal) (vars : gmap string string) : Prop :=
  ∃ fuel, Oslo.Enforce fuel (enforcer a) id
    {| Oslo.c_Auth := <["user_id" := pr_ID p]> {["project_id" := pr_Account p]}; Oslo.c_Roles := Roles p; Oslo.c_Request := vars |} = Some true.

(** What a router finds in a clean path is one of its patterns and matches. *)
Class RouterSound (rt : Router) := denco_sound ps path p params :
  denco rt ps (path_Clean path) = Some (p, params) → p ∈ ps ∧ match_pattern p (path_Clean path) = Some params.

(** * At most one operation *)

(** Whether some path could match both *)
Fixpoint compatible (ps qs : list string) : bool :=
  match ps, qs with
  | [], [] => true
  | p :: ps', q :: qs' =>
      (if param_of p then true else if param_of q then true else bool_decide (p = q)) && compatible ps' qs'
  | _, _ => false
  end.
Lemma match_compatible ps qs ws : is_Some (match_segments ps ws) → is_Some (match_segments qs ws) → compatible ps qs = true.
Proof.
  revert qs ws. induction ps as [|p ps IH]; intros [|q qs] [|w ws]; cbn [match_segments compatible]; try (by intros [? [=]]);
    try (by intros _ [? [=]]).
  intros [x Hx] [y Hy]. apply andb_true_intro. split.
  - destruct (param_of p); [done|]. destruct (param_of q); [done|]. apply bool_decide_eq_true.
    case_decide; [|done]. case_decide; [congruence|done].
  - apply (IH qs ws).
    + destruct (param_of p); [destruct (decide (w = ""))|destruct (decide (p = w))]; try (by eauto).
      destruct (match_segments ps ws); [by eexists|done].
    + destruct (param_of q); [destruct (decide (w = ""))|destruct (decide (q = w))]; try (by eauto).
      destruct (match_segments qs ws); [by eexists|done].
Qed.

(** The patterns of the document of one method are told apart. *)
Lemma patterns_apart :
  Forall (fun '(m, p, id) => Forall (fun '(m', p', id') =>
    m = m' → compatible (Split slash p) (Split slash p') = true → p = p' ∧ id = id') spec_operations) spec_operations.
Proof.
  assert (forallb (fun '(m, p, id) => forallb (fun '(m', p', id') =>
    negb (bool_decide (m = m')) || negb (compatible (Split slash p) (Split slash p')) || bool_decide (p = p' ∧ id = id'))
    spec_operations) spec_operations = true) as H by (vm_compute; reflexivity).
  rewrite forallb_forall in H. apply Forall_forall. intros [[m p] id] Hin. apply Forall_forall. intros [[m' p'] id'] Hin' Hm Hc.
  apply list_elem_of_In in Hin, Hin'. specialize (H _ Hin). rewrite forallb_forall in H. specialize (H _ Hin'). cbn in H.
  rewrite bool_decide_true, Hc in H by done. by apply bool_decide_eq_true in H.
Qed.

(** No path matches two operations of a method. *)
Lemma one_operation m p q id id' path :
  (m, p, id) ∈ spec_operations → (m, q, id') ∈ spec_operations →
  is_Some (match_pattern p path) → is_Some (match_pattern q path) → p = q ∧ id = id'.
Proof.
  intros Hp Hq Hx Hy. pose proof patterns_apart as H. rewrite Forall_forall in H. specialize (H _ Hp). cbn in H.
  rewrite Forall_forall in H. apply (H _ Hq); [done|]. by eapply match_compatible.
Qed.

(** * The deployed policy *)

(** The rules of etc/policy.json, as [LoadPolicy] reads them *)
Definition deployed_rules : gmap string string :=
  match decode_rules policy_json with inl m => m | inr _ => ∅ end.
(** The roles that may do an operation *)
Definition deployed_roles (o : OpID) : list string :=
  match o with
  | OpCreateCluster | OpTerminateCluster | OpUpdateCluster | OpGetOpenstackMetadata => ["kubernetes_admin"]
  | _ => ["kubernetes_member"; "kubernetes_admin"]
  end.

Lemma deployed_loaded Open file rules : Open file = Ok policy_json → LoadPolicy Open file = inl rules → rules = deployed_rules.
Proof. unfold LoadPolicy, deployed_rules. intros -> ->. done. Qed.
Section Deployed.
Context (order : list (string * string)) (en : gmap string Oslo.rule).
Hypothesis Horder : order ≡ₚ map_to_list deployed_rules.
Hypothesis Hen : Oslo.NewEnforcer order = Oslo.Engine en.

Lemma deployed_lookup name text r : deployed_rules !! name = Some text → Oslo.parse_rule text = Oslo.Rule r → en !! name = Some r.
Proof.
  intros Hn Hr. pose proof (Oslo.NewEnforcer_lookup deployed_rules order en name Horder Hen) as Hl. rewrite Hn in Hl.
  destruct Hl as (r' & Hr' & Hl). congruence.
Qed.
Lemma RoleCheck_role c key role : Oslo.RoleCheck c key role = true → role ∈ Oslo.c_Roles c.
Proof. unfold Oslo.RoleCheck. intros (r & Hin & ->%bool_decide_eq_true)%existsb_exists. by apply list_elem_of_In. Qed.
(** The two rules that name roles *)
Lemma deployed_admin fuel c : Oslo.RuleCheck fuel en c "kubernetes_admin" = Some true → "kubernetes_admin" ∈ Oslo.c_Roles c.
Proof.
  destruct fuel; [done|]. cbn [Oslo.RuleCheck].
  rewrite (deployed_lookup _ "role:kubernetes_admin" (Oslo.RGenericCheck "role" "kubernetes_admin" false)) by (vm_compute; reflexivity).
  cbn. intros [= H]. by eapply RoleCheck_role.
Qed.
Lemma deployed_user fuel c : Oslo.RuleCheck fuel en c "kubernetes_user" = Some true →
  "kubernetes_member" ∈ Oslo.c_Roles c ∨ "kubernetes_admin" ∈ Oslo.c_Roles c.
Proof.
  destruct fuel; [done|]. cbn [Oslo.RuleCheck].
  rewrite (deployed_lookup _ "role:kubernetes_member or role:kubernetes_admin"
    (Oslo.ROr (Oslo.RGenericCheck "role" "kubernetes_member" false) (Oslo.RGenericCheck "role" "kubernetes_admin" false)))
    by (vm_compute; reflexivity).
  cbn. destruct (Oslo.RoleCheck c "role" "kubernetes_member") eqn:Hm; [left; by eapply RoleCheck_role|].
  intros [= H]. right. by eapply RoleCheck_role.
Qed.
(** What the file says of each operation *)
Lemma deployed_texts o :
  deployed_rules !! name_of o = Some "rule:kubernetes_admin" ∧ deployed_roles o = ["kubernetes_admin"] ∨
  deployed_rules !! name_of o = Some "rule:kubernetes_user" ∧ deployed_roles o = ["kubernetes_member"; "kubernetes_admin"] ∨
  deployed_rules !! name_of o = None.
Proof. destruct o; vm_compute; auto. Qed.
(** An operation is allowed with one of its roles only. *)
Lemma deployed_allows fuel o c : Oslo.Enforce fuel en (name_of o) c = Some true →
  ∃ role, role ∈ Oslo.c_Roles c ∧ role ∈ deployed_roles o.
Proof.
  unfold Oslo.Enforce. destruct (deployed_texts o) as [[Ht ->]|[[Ht ->]|Ht]].
  - rewrite (deployed_lookup _ _ (Oslo.RGenericCheck "rule" "kubernetes_admin" false) Ht) by (vm_compute; reflexivity).
    intros Hr%deployed_admin. exists "kubernetes_admin". by split; [|left].
  - rewrite (deployed_lookup _ _ (Oslo.RGenericCheck "rule" "kubernetes_user" false) Ht) by (vm_compute; reflexivity).
    intros [Hr|Hr]%deployed_user; eexists; (split; [exact Hr|]); repeat constructor.
  - pose proof (Oslo.NewEnforcer_lookup deployed_rules order en (name_of o) Horder Hen) as Hl. rewrite Ht in Hl. by rewrite Hl.
Qed.
End Deployed.

(** * The router and the authorizer agree *)
Section Policy.
Context `{!ApiCodecs} {E : Type} `{!Machine HandlerCall E} (runtime : Runtime) (rt : Router) `{!RouterSound rt} (ctx : MiddlewareContext)
  (ops : operations) (order : list (string * string)) (a : osloPolicyAuthorizer)
  (Enforce : string -> gmap string string -> list string -> gmap string string -> bool).
Implicit Types s : sys (option (list Link)) E HandlerCall.

(** The document's operations come in any order. *)
Hypothesis Hops : ops ≡ₚ spec_operations.
Hypothesis Ha : NewOsloPolicyAuthorizer rt ops order = inl a.
Hypothesis Henf : enforces (enforcer a) Enforce.
Hypothesis Hctx : ∀ r p, APIAuthorizer ctx r p = policy_authorizer a Enforce r p.

Lemma HandlerFor_spec m p o : HandlerFor initHandlerCache m p = Some o →
  upper_string m = method_of o ∧ p = pattern_of o ∧ (method_of o, pattern_of o, name_of o) ∈ spec_operations.
Proof.
  unfold HandlerFor. intros (hs & Hhs & Ho)%bind_Some. destruct (handlers_sound _ _ Hhs _ _ Ho) as [Hm Hp].
  split_and!; [done|case_decide; [by destruct o|done]|]. destruct o; unfold spec_operations; cbn; in_list.
Qed.
Lemma operation_id_in m p id : operation_id ops m p = Some id → (m, p, id) ∈ spec_operations.
Proof.
  unfold operation_id. intros Hid%head_Some_elem_of. apply list_elem_of_omap in Hid as (((m', p'), id') & Hin & Hid).
  case_decide as Hd; [|done]. destruct Hd as [-> ->]. injection Hid as <-. by rewrite <- Hops.
Qed.

(** What the authorizer lets pass is the operation the router dispatches to. *)
Lemma authorized_operation r p pat params o :
  Lookup rt (rq_Method r) (rq_Path r) = Some (pat, params) → HandlerFor initHandlerCache (rq_Method r) pat = Some o →
  APIAuthorizer ctx r p = None →
  ∃ vars, allows a (name_of o) p vars.
Proof.
  assert (routers a = newRouters rt ops) as Hrouters.
  { unfold NewOsloPolicyAuthorizer in Ha. by destruct (Oslo.NewEnforcer order); simplify_eq. }
  intros Hl Hh Hz. rewrite Hctx in Hz. unfold policy_authorizer, Handlers.Authorize in Hz. rewrite Hrouters in Hz. unfold newRouters in Hz.
  unfold Lookup in Hl. destruct (denco rt (routes _) _) as [[p1 raw1]|] eqn:H1; [|done]. injection Hl as -> _.
  destruct (list_to_map _ !! rq_Method r) as [f|] eqn:Hf; [|done]. apply elem_of_list_to_map_2 in Hf.
  apply list_elem_of_fmap in Hf as (((m', p'), id') & [= Hm ->] & Hin). subst m'.
  destruct (denco rt (patterns ops _) _) as [[p2 raw2]|] eqn:H2; [|done].
  destruct (operation_id ops _ p2) as [id|] eqn:Hid; [|done]. cbn in Hz.
  apply denco_sound in H1 as [Hp1 Hm1], H2 as [Hp2 Hm2].
  apply HandlerFor_spec in Hh as (Hup & -> & Hspec). rewrite <- Hup in Hspec.
  apply operation_id_in in Hid.
  assert (upper_string (rq_Method r) = rq_Method r) as Hu.
  { rewrite Hops in Hin. unfold spec_operations in Hin. apply list_elem_of_In in Hin. simpl in Hin.
    destruct_or! Hin; try done; injection Hin as <- _ _; reflexivity. }
  rewrite Hu in Hspec. destruct (one_operation _ _ _ _ _ (path_Clean (rq_Path r)) Hspec Hid) as [_ ->]; [by eexists|by eexists|].
  eexists. destruct (Enforce _ _ _ _) eqn:He; [|done]. unfold allows. edestruct Henf as [fuel Hf]. rewrite He in Hf. by exists fuel.
Qed.

(** How a request that reaches its handler ends *)
Definition handled (r : HTTPRequest) (o : OpID) (p : Principal) s : Prop :=
  ∃ params, serve rt ctx (api_handlers runtime) r s =
    (res ← handle_with o (api_handlers runtime o) params (Some p); Respond ctx r (Rest.write o res)) s.

Lemma policy_decides r s :
  trace (fst (serve rt ctx (api_handlers runtime) r s)) = trace s ∨
  ∃ o p vars, handled r o p s ∧ KeystoneAuth ctx (default "" (rq_Header r !! "X-Auth-Token")) = Ok p ∧
    allows a (name_of o) p vars.
Proof.
  unfold handled, serve.
  assert (∀ err, trace (fst (RespondError ctx err s)) = trace s) as Herr by (intros; by rewrite RespondError_state).
  destruct (Lookup rt _ _) as [[pat params]|] eqn:Hl; [|left; destruct (OtherMethods _ _ _); apply Herr].
  destruct (HandlerFor _ _ _) as [o|] eqn:Hh; [|left; apply Herr].
  rewrite ServeHTTP_steps. destruct (secured o) eqn:Hsec.
  - destruct (Operations.Authorize ctx r) as [e|pr] eqn:Hauth; [left; apply Herr|].
    destruct (BindValidRequest ctx r _) as [e|ps]; [left; apply Herr|].
    unfold Operations.Authorize in Hauth. case_decide as Hne; [done|].
    destruct (KeystoneAuth ctx _) as [p|] eqn:Hk; [|done].
    destruct (APIAuthorizer ctx r p) eqn:Hz; [done|]. injection Hauth as <-.
    destruct (authorized_operation r p pat params o Hl Hh Hz) as [vars Hv].
    right. exists o, p, vars. split_and!; [by eexists|done|done].
  - left. destruct (BindValidRequest ctx r _) as [e|ps]; [apply Herr|].
    by apply unsecured_quiet.
Qed.

(** C3: the policy decides about the operation that runs. Whatever request
    arrives, and in whatever order the authorizer took the operations from the
    document and the rules from their map: either no call is made while it is
    served, or it is served by the handler of one operation for the principal
    of its token, and the rules, as the engine reads their texts, allow exactly
    this operation to this user, project and roles. *)
Theorem policy_enforced r s :
  trace (fst (serve rt ctx (api_handlers runtime) r s)) = trace s ∨
  ∃ o p vars, handled r o p s ∧ KeystoneAuth ctx (default "" (rq_Header r !! "X-Auth-Token")) = Ok p ∧
    allows a (name_of o) p vars.
Proof. exact (policy_decides r s). Qed.

Definition reads_only (c : HandlerCall) : Prop :=
  match c with HCreate _ _ | HUpdate _ _ | HNamespaceCreate _ | HMetadata _ _ _ => False | _ => True end.

Lemma handler_reads o params p : "kubernetes_admin" ∈ deployed_roles o → deployed_roles o ≠ ["kubernetes_admin"] →
  emits reads_only (handle_with o (api_handlers runtime o) params (Some p)).
Proof.
  intros _ Hd. destruct o; try done; cbn [handle_with api_handlers with_principal]; apply emits_fmap;
    unfold GetClusterCredentials, GetClusterEvents, GetClusterInfo, Info, ListAPIVersions, ListClusters, ShowCluster,
      getLinks, must, hcall; emits_solve.
Qed.

Lemma allowed_roles o p vars : order ≡ₚ map_to_list deployed_rules → allows a (name_of o) p vars →
  ∃ role, role ∈ Roles p ∧ role ∈ deployed_roles o.
Proof.
  intros Ho [fuel He]. unfold NewOsloPolicyAuthorizer in Ha. destruct (Oslo.NewEnforcer order) as [en| | |] eqn:Hen; try done.
  injection Ha as <-. by apply (deployed_allows order en Ho Hen) in He.
Qed.
(** C4: with the rules that [LoadPolicy] reads from the text of
    etc/policy.json, taken in any order, a user without the role
    kubernetes_admin cannot change anything: whatever requests such a user
    sends, none creates or updates an object, and none reaches the metadata of
    the project; a user with neither role makes no call at all. *)
Theorem members_read_only Open policyFile rules r s :
  Open policyFile = Ok policy_json → LoadPolicy Open policyFile = inl rules → order ≡ₚ map_to_list rules →
  ∃ l, trace (fst (serve rt ctx (api_handlers runtime) r s)) = trace s ++ l ∧
    ∀ p, KeystoneAuth ctx (default "" (rq_Header r !! "X-Auth-Token")) = Ok p → "kubernetes_admin" ∉ Roles p →
      Forall reads_only l ∧ ("kubernetes_member" ∉ Roles p → l = []).
Proof.
  intros Hfile Hload Horder. pose proof (deployed_loaded _ _ _ Hfile Hload) as ->. destruct (policy_decides r s) as [Ht|(o & p & vars & [params Hs] & Hk & He)].
  - exists []. rewrite app_nil_r. split; [done|]. auto.
  - apply allowed_roles in He as (role & Hrole & Hd); [|done].
    destruct (decide (deployed_roles o = ["kubernetes_admin"])) as [Ho|Ho].
    + rewrite Ho in Hd. apply list_elem_of_singleton in Hd as ->.
      destruct (emits_elim (λ _, True) (res ← handle_with o (api_handlers runtime o) params (Some p); Respond ctx r (Rest.write o res)) s)
        as (l & Hl & _); [eapply emits_weaken; [|apply emits_bind; [apply (api_tenant runtime)|intros; apply emits_Respond]]; done|].
      exists l. rewrite Hs. split; [exact Hl|]. intros p' Hp' Hn. congruence.
    + destruct (emits_elim reads_only (res ← handle_with o (api_handlers runtime o) params (Some p); Respond ctx r (Rest.write o res)) s)
        as (l & Hl & Hall); [apply emits_bind; [apply handler_reads; [|done]|intros; apply emits_Respond]|].
      { destruct o; cbn in *; in_list. }
      exists l. rewrite Hs. split; [exact Hl|]. intros p' Hp' Hn. split; [done|]. intros Hm. exfalso.
      assert (p' = p) as -> by congruence. destruct o; cbn in Hd; apply list_elem_of_In in Hd; simpl in Hd; destruct_or! Hd; try done; by subst.
Qed.
End Policy.

(** * The deployed policy decides *)

Definition deployed_order : list (string * string) := map_to_list deployed_rules.
Definition deployed_authorizer : osloPolicyAuthorizer :=
  match NewOsloPolicyAuthorizer demo_router spec_operations deployed_order with
  | inl a => a
  | inr _ => {| enforcer := ∅; routers := ∅ |}
  end.
Lemma deployed_loads file : LoadPolicy (fun _ => Ok policy_json) file = inl deployed_rules.
Proof.
  unfold LoadPolicy, deployed_rules.
  assert (match decode_rules policy_json with inl _ => true | inr _ => false end = true) as H by (vm_compute; reflexivity).
  by destruct (decode_rules policy_json).
Qed.
Lemma deployed_built : NewOsloPolicyAuthorizer demo_router spec_operations deployed_order = inl deployed_authorizer.
Proof.
  unfold deployed_authorizer, NewOsloPolicyAuthorizer.
  assert (match Oslo.NewEnforcer deployed_order with Oslo.Engine _ => true | _ => false end = true) as H by (vm_compute; reflexivity).
  by destruct (Oslo.NewEnforcer deployed_order).
Qed.
(** No rule of the file leads to more than one other. *)
Definition deployed_enforce (id : string) (auth : gmap string string) (roles : list string) (vars : gmap string string) : bool :=
  default false (Oslo.Enforce 1 (enforcer deployed_authorizer) id {| Oslo.c_Auth := auth; Oslo.c_Roles := roles; Oslo.c_Request := vars |}).
Lemma deployed_enforces : enforces (enforcer deployed_authorizer) deployed_enforce.
Proof.
  intros id auth roles vars. exists 1%nat. unfold deployed_enforce. set (c := {| Oslo.c_Auth := auth |}).
  enough (is_Some (Oslo.Enforce 1 (enforcer deployed_authorizer) id c)) as [b ->] by done.
  apply (Oslo.ranked_decides (λ name, if decide (name ∈ ["kubernetes_admin"; "kubernetes_user"]) then 0 else 1)%nat);
    [vm_compute; reflexivity|case_decide; lia].
Qed.
Definition demo_member : Principal :=
  {| AuthURL := ""; pr_ID := "id"; pr_Name := "user"; Domain := "domain"; pr_Account := "a1"; Roles := ["kubernetes_member"] |}.
Definition demo_auth_ctx : MiddlewareContext :=
  {| KeystoneAuth := fun token => if decide (token = "t") then Ok demo_member else Bad (ErrNew "invalid");
     APIAuthorizer := policy_authorizer deployed_authorizer deployed_enforce;
     error_text := fun _ => ""; errorAsJSON := fun _ _ => "{}"; ParseMediaType := Some; accepts_json := fun _ => true |}.
Definition demo_request (method path : string) : HTTPRequest :=
  {| rq_Method := method; rq_Path := path; rq_Header := {["X-Auth-Token" := "t"]}; rq_Body := None;
     rq_Scheme := "https"; rq_Host := "api" |}.

#[export] Instance demo_router_sound : RouterSound demo_router.
Proof.
  intros ps path p params H. simpl in H. induction ps as [|q ps IH]; [done|]. simpl in H.
  destruct (match_pattern q _) as [x|] eqn:Hq; simpl in H.
  - injection H as -> ->. split; [left|done].
  - destruct IH as [? ?]; [done|]. split; [by right|done].
Qed.

Lemma policy_enforced_witness :
  let run := serve (H:=demo_codecs) demo_router demo_auth_ctx (api_handlers (Machine0:=demo_api) demo_rt)
               (demo_request "GET" "/api/v1/clusters/k") demo_hstate in
  trace (fst run) = [HGet "kubernikus" "k-a1"] ∧ ∃ o vars, allows deployed_authorizer (name_of o) demo_member vars.
Proof.
  intros run. split; [vm_compute; reflexivity|].
  destruct (policy_enforced (H:=demo_codecs) (Machine0:=demo_api) demo_rt demo_router demo_auth_ctx spec_operations deployed_order
    deployed_authorizer deployed_enforce (reflexivity _) deployed_built deployed_enforces (fun _ _ => eq_refl)
    (demo_request "GET" "/api/v1/clusters/k") demo_hstate)
    as [H|(o & p & vars & _ & Hk & He)]; [vm_compute in H; done|].
  injection Hk as <-. by exists o, vars.
Defined.

Lemma members_read_only_witness :
  ∃ l, trace (fst (serve (H:=demo_codecs) demo_router demo_auth_ctx (api_handlers (Machine0:=demo_api) demo_rt)
    (demo_request "DELETE" "/api/v1/clusters/k") demo_hstate)) = l ∧ Forall reads_only l.
Proof.
  destruct (members_read_only (H:=demo_codecs) (Machine0:=demo_api) demo_rt demo_router demo_auth_ctx spec_operations deployed_order
    deployed_authorizer deployed_enforce (reflexivity _) deployed_built deployed_enforces (fun _ _ => eq_refl)
    (fun _ => Ok policy_json) "etc/policy.json" deployed_rules (demo_request "DELETE" "/api/v1/clusters/k") demo_hstate
    eq_refl (deployed_loads _) (reflexivity _)) as (l & Hl & H).
  exists l. split; [exact Hl|]. apply (H demo_member eq_refl). cbn. intros H'%list_elem_of_singleton. done.
Defined.
