(* ===== verification/Middleware.v ===== *)
(** [pkg/util/log], [pkg/api/handlers/root.go] and the middleware of
    [pkg/api/rest/configure.go]: what surrounds the API.

    Identifiers and loggers of requests, the log line of a request, the root
    document, and the order the handlers are chained in.  Redoc, CORS and the
    file server are arguments; a logger is the list of key-value pairs it adds
    to a line. *)
From S2P Require Import Prelude GoStrings Telemetry.
From S2P Require Import NetIP Models ApiModels Http.
Local Open Scope Z_scope.

(** The values of a log line that are told apart *)
Inductive value := VStr (s : string) | VInt (z : Z) | VNil.
#[export] Instance value_eq_dec : EqDecision value.
Proof. solve_decision. Defined.

(** * Loggers *)

(** The loop of [Log] from index [i] downwards
    [nilFilter.Log], src/pkg/util/log/nilfilter.go:17-24 *)
Fixpoint nil_loop (keyvals : list value) (i : nat) : list value :=
  match i with
  | O => keyvals
  | S i' =>
      if decide (keyvals !! i = Some VNil)
      then match i' with O => keyvals | S i'' => nil_loop keyvals i'' end
      else take (S i) keyvals
  end.
Definition nilFilter_Log (keyvals : list value) : list value := nil_loop keyvals (pred (length keyvals)).

(** The options of a Keystone token that are logged *)
Record TokenOptions := {
  to_TokenID : string; to_Password : string; to_UserID : string; to_Username : string; to_DomainID : string; to_DomainName : string;
  to_ProjectID : string; to_ProjectName : string; to_ScopeDomainID : string; to_ScopeDomainName : string }.

(** [getProject], src/pkg/util/log/authlogger.go:25-38 *)
Definition getProject (o : TokenOptions) : string :=
  if decide (to_ProjectID o ≠ "") then to_ProjectID o
  else (if decide (to_ScopeDomainID o ≠ "") then to_ScopeDomainID o else to_ScopeDomainName o) +:+ "/" +:+ to_ProjectName o.
(** [getAuthMethod], src/pkg/util/log/authlogger.go:40-50 *)
Definition getAuthMethod (o : TokenOptions) : string :=
  if decide (to_TokenID o ≠ "") then "token" else if decide (to_Password o ≠ "") then "password" else "".
(** [getPrincipal], src/pkg/util/log/authlogger.go:52-69 *)
Definition getPrincipal (o : TokenOptions) : string :=
  if decide (to_TokenID o ≠ "") then ""
  else if decide (to_UserID o ≠ "") then to_UserID o
  else (if decide (to_DomainID o ≠ "") then to_DomainID o else to_DomainName o) +:+ "/" +:+ to_Username o.
(** [NewAuthLogger], src/pkg/util/log/authlogger.go:10-23 *)
Definition NewAuthLogger (logger : list value) (o : TokenOptions) : list value :=
  let with_ (key v : string) (l : list value) := if decide (v = "") then l else l ++ [VStr key; VStr v] in
  with_ "principal" (getPrincipal o) (with_ "auth" (getAuthMethod o) (with_ "project" (getProject o) logger)).

(** * Requests as the server sees them *)

(** The decoded path and query, what the connection tells, and the values the
    handlers put into the context *)
Record Incoming := {
  in_Request : HTTPRequest; URL_Path : string; Query : list (string * list string);
  RemoteAddr : string; UserAgent : string;
  RequestID : option string; CtxLogger : option (list value) }.

(** * The handlers *)
Section Handlers.
Context {S : Type} (uuid : nat -> string).

(** The state of the program behind, the logger [LoggingHandler] closes over,
    the lines written, and the identifiers issued *)
Record St := { app : S; captured : list value; lines : list (list value); issued : nat }.
Definition Handler : Type := Incoming -> Go St HTTPResponse.

Definition write_line (l : list value) : Go St unit :=
  modify (fun s => {| app := app s; captured := captured s; lines := lines s ++ [l]; issued := issued s |}).

(** [RequestIDHandler], src/pkg/util/log/middleware.go:22-29 *)
Definition RequestIDHandler (next : Handler) : Handler := fun r =>
  match RequestID r with
  | Some _ => next r
  | None =>
      s ← get;
      _ ← modify (fun s => {| app := app s; captured := captured s; lines := lines s; issued := Datatypes.S (issued s) |});
      next {| in_Request := in_Request r; URL_Path := URL_Path r; Query := Query r; RemoteAddr := RemoteAddr r;
              UserAgent := UserAgent r; RequestID := Some (uuid (issued s)); CtxLogger := CtxLogger r |}
  end.

(** The pairs of a request; the query is a map.
    [log], src/pkg/util/log/middleware.go:63-98 *)
Definition log_keyvals (r : Incoming) (extra : list value) : list value :=
  let source_ip := match SplitHostPort (RemoteAddr r) with Ok (ip, _) => ip | Bad _ => RemoteAddr r end in
  let pair (k v : string) := if decide (v = "") then [] else [VStr k; VStr v] in
  pair "source_ip" source_ip ++
  [VStr "method"; VStr (rq_Method (in_Request r))] ++
  match SplitHostPort (rq_Host (in_Request r)) with
  | Ok (host, port) => pair "host" host ++ pair "port" port
  | Bad _ => []
  end ++
  [VStr "path"; VStr (rq_Path (in_Request r))] ++
  (Query r ≫= fun '(k, vs) => [VStr k; VStr (Join vs ",")]) ++
  [VStr "user_agent"; VStr (UserAgent r)] ++ extra.

(** Status and size of what a handler that panicked had written *)
Context (at_panic : HTTPRequest -> Z * Z).
Definition status_size (r : HTTPRequest) (o : outcome HTTPResponse) : Z * Z :=
  match o with Ret res => (rs_Code res, Z.of_nat (String.length (rs_Body res))) | _ => at_panic r end.

(** The assignment to [logger] is to the variable of the enclosing function,
    which all requests share.  The duration is left out.
    [LoggingHandler], src/pkg/util/log/middleware.go:31-61 *)
Definition LoggingHandler (ingress_logger : list value) (next : Handler) : Handler := fun r =>
  _ ← match RequestID r with
      | Some id =>
          modify (fun s => {| app := app s; captured := captured s ++ [VStr "id"; VStr id]; lines := lines s; issued := issued s |})
      | None => mret tt
      end;
  s ← get;
  defer (fun o =>
      let '(status, size) := status_size (in_Request r) o in
      let id := default "" (RequestID r) in
      write_line (ingress_logger ++ log_keyvals r
        ([VStr "status"; VInt status; VStr "size"; VInt size] ++ (if decide (id = "") then [] else [VStr "id"; VStr id]))))
    (next {| in_Request := in_Request r; URL_Path := URL_Path r; Query := Query r; RemoteAddr := RemoteAddr r;
             UserAgent := UserAgent r; RequestID := RequestID r; CtxLogger := Some (captured s) |}).

(** [RootContent], src/pkg/api/handlers/root.go:8-15 *)
Definition RootContent : string :=
  let nl := String newline "" in let q (s : string) := String dquote (s +:+ String dquote "") in
  "{" +:+ nl +:+ "  " +:+ q "paths" +:+ ": [" +:+ nl +:+ "    " +:+ q "/api" +:+ "," +:+ nl +:+ "    " +:+ q "/api/v1" +:+ "," +:+ nl +:+
  "    " +:+ q "/docs" +:+ "," +:+ nl +:+ "    " +:+ q "/swagger" +:+ nl +:+ "  ]" +:+ nl +:+ "}".

(** [http.Redirect]; a body without a type is sent as text.
    [RootHandler], src/pkg/api/handlers/root.go:17-32 *)
Definition RootHandler (Redirect : Incoming -> string -> Z -> HTTPResponse) (next : Handler) : Handler := fun r =>
  if decide (URL_Path r = "/") then
    if existsb (fun accept => bool_decide (TrimSpace accept = "text/html"))
         (Split "," (default "" (rq_Header (in_Request r) !! "Accept")))
    then mret (Redirect r "/docs" 301)
    else mret {| rs_Code := 200; rs_Type := "text/plain; charset=utf-8"; rs_Body := RootContent |}
  else next r.

(** [setupGlobalMiddleware], src/pkg/api/rest/configure.go:77-107 *)
Definition setupGlobalMiddleware (Redirect : Incoming -> string -> Z -> HTTPResponse) (Redoc cors : Handler -> Handler)
    (FileServer : Handler) (ingress_logger : list value) (handler : Handler) : Handler :=
  let staticHandler (next : Handler) : Handler := fun r => if HasPrefix (URL_Path r) "/docs" then FileServer r else next r in
  RequestIDHandler (LoggingHandler ingress_logger (RootHandler Redirect (Redoc (staticHandler (cors handler))))).
End Handlers.

(** * Properties *)

Definition pair_list (l : list (value * value)) : list value := l ≫= fun '(k, v) => [k; v].

Lemma pair_list_app l k : pair_list (l ++ k) = pair_list l ++ pair_list k.
Proof. apply bind_app. Qed.
Lemma length_pair_list l : length (pair_list l) = (2 * length l)%nat.
Proof.
  induction l as [|[k v] l IH]; [done|]. change (pair_list ((k, v) :: l)) with (k :: v :: pair_list l).
  cbn [length]. lia.
Qed.
Lemma pair_list_value l j k v : l !! j = Some (k, v) → pair_list l !! S (2 * j) = Some v.
Proof.
  revert j. induction l as [|[k' v'] l IH]; intros [|j] H; try done.
  - by injection H as -> ->.
  - change (pair_list ((k', v') :: l)) with (k' :: v' :: pair_list l).
    replace (S (2 * S j)) with (S (S (S (2 * j)))) by lia. by apply IH.
Qed.

(** From the value of an empty pair the loop steps down to the value [x]. *)
Lemma nil_loop_found l x rest n : l ≠ [] → x ≠ VNil →
  (∀ j, (j < n)%nat → rest !! S (2 * j) = Some VNil) →
  nil_loop (l ++ x :: rest) (length l + 2 * n) = l ++ [x].
Proof.
  intros Hl Hx. induction n as [|n IH]; intros Hrest.
  - replace (length l + 2 * 0)%nat with (length l) by lia. destruct l as [|y l]; [done|].
    cbn [length nil_loop]. rewrite decide_False.
    + change (S (length l)) with (length (y :: l)). rewrite (cons_middle x), app_assoc.
      rewrite take_app_length'; [done|]. rewrite length_app. simpl. lia.
    + rewrite lookup_app_r by (simpl; lia). simpl. rewrite Nat.sub_diag. simpl. congruence.
  - replace (length l + 2 * S n)%nat with (S (S (length l + 2 * n))) by lia. cbn [nil_loop].
    rewrite decide_True.
    + apply IH. intros j Hj. apply Hrest. lia.
    + rewrite lookup_app_r by lia. replace (S (S (length l + 2 * n)) - length l)%nat with (S (S (2 * n))) by lia.
      apply Hrest. lia.
Qed.

(** Pairs without a value at the end are dropped, unless every pair is. *)
Lemma nilFilter_pairs l trailing k v : v ≠ VNil → Forall (λ p, snd p = VNil) trailing →
  nilFilter_Log (pair_list (l ++ (k, v) :: trailing)) = pair_list (l ++ [(k, v)]).
Proof.
  intros Hv Ht. unfold nilFilter_Log. rewrite length_pair_list, !pair_list_app, length_app. cbn [length].
  change (pair_list ((k, v) :: trailing)) with ([k] ++ v :: pair_list trailing).
  change (pair_list [(k, v)]) with ([k] ++ [v]). rewrite !app_assoc.
  replace (pred (2 * (length l + S (length trailing))))
    with (length (pair_list l ++ [k]) + 2 * length trailing)%nat
    by (rewrite length_app, length_pair_list; simpl; lia).
  apply nil_loop_found; [by destruct (pair_list l)|done|].
  intros j Hj. destruct (lookup_lt_is_Some_2 trailing j Hj) as [[k' v'] Hp].
  rewrite (pair_list_value _ _ _ _ Hp). rewrite Forall_forall in Ht. f_equal.
  exact (Ht _ (list_elem_of_lookup_2 _ _ _ Hp)).
Qed.

(** * The chain *)
Section Chain.
Context {S : Type} (uuid : nat -> string) (at_panic : HTTPRequest -> Z * Z) (Redirect : Incoming -> string -> Z -> HTTPResponse)
  (Redoc cors : Handler (S:=S) -> Handler (S:=S)) (FileServer : Handler (S:=S)) (ingress_logger : list value).

(** Redoc serves one path, CORS answers preflight requests. *)
Hypothesis Redoc_passes : ∀ h r, URL_Path r ≠ "/swagger" → Redoc h r = h r.
Hypothesis cors_passes : ∀ h r, rq_Method (in_Request r) ≠ "OPTIONS" → cors h r = h r.

(** A handler of the program, which does not see the state of the middleware *)
Definition behind (h : Incoming -> Go S HTTPResponse) : Handler := fun r s =>
  let '(a, o) := h r (app s) in ({| app := a; captured := captured s; lines := lines s; issued := issued s |}, o).
Definition with_context (r : Incoming) (id : string) (logger : list value) : Incoming :=
  {| in_Request := in_Request r; URL_Path := URL_Path r; Query := Query r; RemoteAddr := RemoteAddr r;
     UserAgent := UserAgent r; RequestID := Some id; CtxLogger := Some logger |}.

End Chain.

(** The second of two requests is logged for under both identifiers. *)
Definition demo_incoming : Incoming :=
  {| in_Request := {| rq_Method := "GET"; rq_Path := "/info"; rq_Header := ∅; rq_Body := None; rq_Scheme := "http"; rq_Host := "api:80" |};
     URL_Path := "/info"; Query := []; RemoteAddr := "10.0.0.1:1234"; UserAgent := "curl"; RequestID := None; CtxLogger := None |}.
Definition demo_uuid (n : nat) : string := match n with O => "first" | _ => "second" end.
Definition demo_handler (r : Incoming) : Go (list (option (list value))) HTTPResponse :=
  _ ← modify (fun l => l ++ [CtxLogger r]); mret {| rs_Code := 200; rs_Type := ""; rs_Body := "ok" |}.
Definition demo_chain : Handler :=
  setupGlobalMiddleware demo_uuid (fun _ => (200, 0)) (fun _ _ c => {| rs_Code := c; rs_Type := ""; rs_Body := "" |})
    (fun h => h) (fun h => h) (behind demo_handler) [VStr "api"; VStr "ingress"] (behind demo_handler).

