(* ===== verification/ResponseLog.v ===== *)
(** [pkg/util/log/middleware.go] and [gophercloud.go]: how the status and the
    size of a response get into the log, and the log of outgoing requests.

    [Middleware] takes the status of a log line from the response; here is the
    wrapper around the response writer that notes it down, with what it notes
    when a handler writes in another order. *)
From S2P Require Import Prelude GoStrings Telemetry.
From S2P Require Import NetIP Models ApiModels Http Middleware.
Local Open Scope Z_scope.

(** * The wrapper of a response writer *)

(** What the writer of the server can do besides *)
Record Writer := { wr_Hijacker : bool; wr_CloseNotifier : bool; wr_Flusher : bool; wr_Pusher : bool }.
(** [responseLogger], src/pkg/util/log/middleware.go:156-160 *)
Record responseLogger := { rl_w : ResponseWriter; rl_status : Z; rl_size : Z }.
(** The types of the wrapper
    [hijackLogger], src/pkg/util/log/middleware.go:118-142 *)
Inductive wrapper_type := TResponseLogger | THijackLogger | TCloseNotifyWriter | THijackCloseNotifier.

(** [makeWrapper], src/pkg/util/log/middleware.go:102-116 *)
Definition makeWrapper (can : Writer) (w : ResponseWriter) : wrapper_type * responseLogger :=
  let logger := {| rl_w := w; rl_status := 200; rl_size := 0 |} in
  let ok1 := wr_Hijacker can in
  let ok2 := wr_CloseNotifier can in
  (if ok1 && ok2 then THijackCloseNotifier
   else if ok2 then TCloseNotifyWriter
   else if ok1 then THijackLogger else TResponseLogger, logger).

Definition on_writer {A} (m : Go ResponseWriter A) : Go responseLogger A := fun l =>
  let '(w, o) := m (rl_w l) in ({| rl_w := w; rl_status := rl_status l; rl_size := rl_size l |}, o).
(** [responseLogger.Write], src/pkg/util/log/middleware.go:166-170 *)
Definition logger_Write (b : string) : Go responseLogger Z :=
  _ ← on_writer (Write b);
  let size := Z.of_nat (String.length b) in
  _ ← modify (fun l => {| rl_w := rl_w l; rl_status := rl_status l; rl_size := rl_size l + size |});
  mret size.
(** [responseLogger.WriteHeader], src/pkg/util/log/middleware.go:172-175 *)
Definition logger_WriteHeader (s : Z) : Go responseLogger unit :=
  _ ← on_writer (WriteHeader s);
  modify (fun l => {| rl_w := rl_w l; rl_status := s; rl_size := rl_size l |}).
(** The type is set in the header of the writer.
    [responseLogger.Header], src/pkg/util/log/middleware.go:162-164 *)
Definition logger_SetContentType (t : string) : Go responseLogger unit := on_writer (SetContentType t).
(** [responseLogger.Status], src/pkg/util/log/middleware.go:177-179 *)
Definition logger_Status : Go responseLogger Z := l ← get; mret (rl_status l).
(** [responseLogger.Size], src/pkg/util/log/middleware.go:181-183 *)
Definition logger_Size : Go responseLogger Z := l ← get; mret (rl_size l).
(** Flushing sends the header: 200 when none was set.
    [responseLogger.Flush], src/pkg/util/log/middleware.go:185-190 *)
Definition logger_Flush (can : Writer) : Go responseLogger unit :=
  if wr_Flusher can then on_writer (Write "") else mret tt.
(** [responseLogger.Push], src/pkg/util/log/middleware.go:192-198 *)
Definition logger_Push (can : Writer) (push : reply unit) : Go responseLogger unit :=
  if wr_Pusher can then lift_reply push else fail (ErrNew "responseLogger does not implement http.Pusher").
(** [hijackLogger.Hijack], src/pkg/util/log/middleware.go:122-131 *)
Definition logger_Hijack (hijacked : reply unit) : Go responseLogger unit :=
  match hijacked with
  | Ok _ => modify (fun l => {| rl_w := rl_w l; rl_status := if decide (rl_status l = 0) then 101 else rl_status l; rl_size := rl_size l |})
  | Bad err => fail err
  end.

(** * What a handler does to its writer *)
Inductive writing := SetType (t : string) | Header (code : Z) | Body (b : string).
Definition on_bare (x : writing) : Go ResponseWriter unit :=
  match x with SetType t => SetContentType t | Header c => WriteHeader c | Body b => Write b end.
Definition on_logger (x : writing) : Go responseLogger unit :=
  match x with SetType t => logger_SetContentType t | Header c => logger_WriteHeader c | Body b => _ ← logger_Write b; mret tt end.
Definition response (l : list writing) : HTTPResponse := sent (fst (for_each on_bare l fresh_writer)).
Definition logged (can : Writer) (l : list writing) : responseLogger := fst (for_each on_logger l (snd (makeWrapper can fresh_writer))).

(** The last status a handler sets, and whether it sets one once, before it
    writes *)
Definition last_status (l : list writing) : Z := fold_left (fun s x => match x with Header c => c | _ => s end) l 200.
Definition headers (l : list writing) : list Z := l ≫= fun x => match x with Header c => [c] | _ => [] end.
Fixpoint in_order (l : list writing) : bool :=
  match l with
  | [] => true
  | SetType _ :: l => in_order l
  | Header _ :: l => bool_decide (headers l = [])
  | Body _ :: l => bool_decide (headers l = [])
  end.

Lemma logger_step x l : ∃ l', on_logger x l = (l', Ret tt) ∧ rl_w l' = fst (on_bare x (rl_w l)) ∧
  rl_status l' = match x with Header c => c | _ => rl_status l end ∧
  rl_size l' - Z.of_nat (String.length (rw_Body (rl_w l'))) = rl_size l - Z.of_nat (String.length (rw_Body (rl_w l))).
Proof.
  destruct x as [t|c|b]; eexists; (split; [reflexivity|]); cbn; (split_and!; [done|done|]); try lia.
  rewrite str_length_app. lia.
Qed.
Lemma logger_run ops : ∀ l, let l' := fst (for_each on_logger ops l) in
  rl_w l' = fst (for_each on_bare ops (rl_w l)) ∧
  rl_status l' = fold_left (fun s x => match x with Header c => c | _ => s end) ops (rl_status l) ∧
  rl_size l' - Z.of_nat (String.length (rw_Body (rl_w l'))) = rl_size l - Z.of_nat (String.length (rw_Body (rl_w l))).
Proof.
  induction ops as [|x ops IH]; intros l; [done|]. cbn [for_each]. unfold mbind, go_bind.
  destruct (logger_step x l) as (l1 & -> & Hw & Hs & Hz). destruct (IH l1) as (H1 & H2 & H3).
  assert (∀ w, on_bare x w = (fst (on_bare x w), Ret tt)) as Hb by by destruct x.
  rewrite (Hb (rl_w l)). cbn zeta in *. rewrite <- Hw, H1, <- H3 in *. split; [done|]. split; [by rewrite H2, Hs|]. lia.
Qed.

Definition note (s : Z) (l : list writing) : Z := fold_left (fun s x => match x with Header c => c | _ => s end) l s.
Definition code_after (l : list writing) (w : ResponseWriter) : option Z := rw_Code (fst (for_each on_bare l w)).

Lemma code_after_cons x l w : code_after (x :: l) w = code_after l (fst (on_bare x w)).
Proof. unfold code_after. cbn [for_each]. unfold mbind, go_bind. by destruct x. Qed.
(** After a status or a body has been written the code stays. *)
Lemma settled l : ∀ w c s, headers l = [] → rw_Code w = Some c → code_after l w = Some c ∧ note s l = s.
Proof.
  induction l as [|x l IH]; intros w c s Hl Hw; [done|]. rewrite code_after_cons.
  destruct x as [t|c'|b]; [|done|]; apply IH; try done. cbn. by rewrite Hw.
Qed.
Lemma in_order_code l : ∀ w, in_order l = true → rw_Code w = None → default 200 (code_after l w) = note 200 l.
Proof.
  induction l as [|x l IH]; intros w Hl Hw; [unfold code_after; cbn; by rewrite Hw|]. rewrite code_after_cons. destruct x as [t|c|b]; cbn [in_order] in Hl.
  - by apply IH.
  - apply bool_decide_eq_true in Hl. destruct (settled l (fst (on_bare (Header c) w)) c c Hl) as [-> Hn]; [cbn; by rewrite Hw|].
    change (note 200 (Header c :: l)) with (note c l). by rewrite Hn.
  - apply bool_decide_eq_true in Hl. destruct (settled l (fst (on_bare (Body b) w)) 200 200 Hl) as [-> Hn]; [cbn; by rewrite Hw|].
    change (note 200 (Body b :: l)) with (note 200 l). by rewrite Hn.
Qed.

(** The wrapper changes nothing of what a handler writes, and the size it notes
    is that of the body.  The status it notes is the one that is sent when the
    handler sets it once, before the body, or never. *)
Theorem logged_response can l :
  let r := response l in
  sent (rl_w (logged can l)) = r ∧ rl_size (logged can l) = Z.of_nat (String.length (rs_Body r)) ∧
  (in_order l = true → rl_status (logged can l) = rs_Code r).
Proof.
  intros r. destruct (logger_run l (snd (makeWrapper can fresh_writer))) as (Hw & Hs & Hz). unfold logged, r, response.
  rewrite Hw. cbn [makeWrapper snd rl_w rl_status rl_size rw_Body fresh_writer String.length] in *. split; [done|]. split; [|].
  - rewrite Hw in Hz. unfold sent. cbn [rs_Body]. lia.
  - intros Hl. rewrite Hs. symmetry. by apply (in_order_code l fresh_writer).
Qed.
Lemma logged_response_witness :
  rl_status (logged {| wr_Hijacker := true; wr_CloseNotifier := true; wr_Flusher := true; wr_Pusher := false |}
    [SetType "application/json"; Header 404; Body "{}"]) = 404.
Proof.
  refine (proj2 (proj2 (logged_response {| wr_Hijacker := true; wr_CloseNotifier := true; wr_Flusher := true; wr_Pusher := false |}
    [SetType "application/json"; Header 404; Body "{}"])) eq_refl).
Defined.

(** A handler that fails after it began to answer is logged with a status that
    was never sent; a connection that is taken over is logged with 200: the
    status a hijacked connection is to be logged with needs a status of 0,
    which the wrapper never starts with. *)
Example second_status can :
  let l := [Header 200; Body "{"; Header 500] in rs_Code (response l) = 200 ∧ rl_status (logged can l) = 500.
Proof. split; reflexivity. Qed.
Example hijacked_status can w : rl_status (fst (logger_Hijack (Ok tt) (snd (makeWrapper can w)))) = 200.
Proof. reflexivity. Qed.

(** * Requests that go out *)

(** [requestIds], src/pkg/util/log/gophercloud.go:63-75 *)
Definition requestIds (header : string → string) : list string :=
  (let id := header "X-Openstack-Request-ID" in if decide (id = "") then [] else [id]) ++
  (let id := header "X-Compute-Request-ID" in if decide (id = "") then [] else [id]).

Section Egress.
Context {S : Type}.
(** A response of a service: its status and its header *)
Record EgressResponse := { er_StatusCode : Z; er_Header : string → string }.
(** The pairs of the line; the duration is left out and the error is its text.
    [loggingRoundTripper.RoundTrip], src/pkg/util/log/gophercloud.go:38-58 *)
Definition egress_keyvals (id : option string) (r : reply EgressResponse) : list value :=
  match r with Ok res => [VStr "status"; VInt (er_StatusCode res); VStr "openstack_id"; VStr (Join (requestIds (er_Header res)) ",")] | Bad _ => [] end ++
  match id with Some id => [VStr "id"; VStr id] | None => [] end ++
  [VStr "v"; VInt 2; VStr "err"; match r with Ok _ => VNil | Bad err => VStr (Error err) end].
(** [loggingRoundTripper.RoundTrip], src/pkg/util/log/gophercloud.go:37-61 *)
Definition RoundTrip (logger : list value) (rt : Incoming → Go (St (S:=S)) EgressResponse) (request : Incoming) : Go (St (S:=S)) EgressResponse :=
  r ← attempt (rt request);
  _ ← write_line (logger ++ log_keyvals request (egress_keyvals (RequestID request) r));
  lift_reply r.

(** A request to a service is passed on and its response or error comes back
    unchanged; one line is written after it, with the identifier of the request
    it was made for. *)
Lemma RoundTrip_logs logger rt request s s' r : rt request s = (s', of_reply r) →
  RoundTrip logger rt request s =
    ({| app := app s'; captured := captured s'; issued := issued s';
        lines := lines s' ++ [logger ++ log_keyvals request (egress_keyvals (RequestID request) r)] |}, of_reply r).
Proof. intros Hrt. unfold RoundTrip, attempt, mbind, go_bind, write_line, modify. rewrite Hrt. by destruct r. Qed.
End Egress.
