(* ===== verification/Launch.v ===== *)
(** [pkg/controller/launch] and [GenerateNode] of [pkg/templates]: the
    controller that keeps the number of nodes of every pool of a kluster at its size.

    A pool manager is a record of the four methods of the Go interface; the
    eventing, logging and instrumenting managers are functions on such
    records. *)
From S2P Require Import Prelude GoStrings Models Telemetry Openstack Ignition.
Local Open Scope Z_scope.

(** [events], src/pkg/controller/events/event.go:3-8 *)
Inductive event_reason := SuccessfullCreateNode | FailedCreateNode | SuccessfullDeleteNode | FailedDeleteNode.

(** The calls of the launch controller: the OpenStack client, the kluster and
    secret clients, the event recorder, the transpiler of the rendered template
    and telemetry. *)
Inductive LaunchCall :=
| LOs (c : OpenstackCall)
| LKlusterGet (ns name : string)
| LKlusterUpdate (k : Kluster)
| LSecretGet (ns name : string)
| LTranspile (yaml : string)
| LEvent (normal : bool) (reason : event_reason) (message : string)
| LTel (t : TelemetryCall).

#[export] Instance launch_iface : Iface LaunchCall := fun c =>
  match c with
  | LOs c => resp c
  | LKlusterGet _ _ => Kluster
  | LKlusterUpdate _ => Kluster
  | LSecretGet _ _ => gmap string string
  | LTranspile _ => string
  | LEvent _ _ _ => unit
  | LTel _ => unit
  end.

(** [PoolStatus], src/pkg/controller/launch/pool_manager.go:22-29 *)
Record PoolStatus := {
  Nodes : list string;
  ps_Running : Z;
  ps_Starting : Z;
  ps_Stopping : Z;
  Needed : Z;
  UnNeeded : Z }.

(** [PoolManager], src/pkg/controller/launch/pool_manager.go:15-20 *)
Record PoolManager (S : Type) := {
  GetStatus : Go S PoolStatus;
  SetStatus : PoolStatus -> Go S unit;
  pm_CreateNode : Go S string;
  pm_DeleteNode : string -> Go S unit }.
Arguments GetStatus {_} _.
Arguments SetStatus {_} _ _.
Arguments pm_CreateNode {_} _.
Arguments pm_DeleteNode {_} _ _.

(** * Counting nodes *)

Definition count (P : Node -> bool) (nodes : list Node) : Z := Z.of_nat (length (List.filter P nodes)).

(** [nodeIDs], src/pkg/controller/launch/pool_manager.go:131-137 *)
Definition nodeIDs (nodes : list Node) : list string := nd_ID <$> nodes.
(** [starting], src/pkg/controller/launch/pool_manager.go:139-147 *)
Definition starting (nodes : list Node) : Z := count Starting nodes.
(** [stopping], src/pkg/controller/launch/pool_manager.go:149-157 *)
Definition stopping (nodes : list Node) : Z := count Stopping nodes.
(** [running], src/pkg/controller/launch/pool_manager.go:159-167 *)
Definition running (nodes : list Node) : Z := count Running nodes.

(** Machine arithmetic on 64-bit integers
    [needed], src/pkg/controller/launch/pool_manager.go:169-175 *)
Definition needed (pool : NodePool) (nodes : list Node) : Z :=
  let n := wrap64 (wrap64 (np_Size pool - running nodes) - starting nodes) in
  if n <? 0 then 0 else n.
(** [unNeeded], src/pkg/controller/launch/pool_manager.go:177-183 *)
Definition unNeeded (pool : NodePool) (nodes : list Node) : Z :=
  let n := wrap64 (wrap64 (running nodes + starting nodes) - np_Size pool) in
  if n <? 0 then 0 else n.

Definition status_of (pool : NodePool) (nodes : list Node) : PoolStatus :=
  {| Nodes := nodeIDs nodes; ps_Running := running nodes; ps_Starting := starting nodes;
     ps_Stopping := stopping nodes; Needed := needed pool nodes; UnNeeded := unNeeded pool nodes |}.

Section Manager.
Context {S E : Type} `{!Machine LaunchCall E}.
(** [version.GitCommit] *)
Context (GitCommit : string).
Abbreviation M := (Go (sys S E LaunchCall)).

Definition tel (t : TelemetryCall) : M unit := _ ← attempt (perform (LTel t)); mret tt.
Definition Eventf (normal : bool) (reason : event_reason) (message : string) : M unit :=
  _ ← attempt (perform (LEvent normal reason message)); mret tt.

(** Parsing and converting the document, and marshalling the result, is one
    call.
    [GenerateNode], src/pkg/templates/ignition.go:39-135 *)
Definition GenerateNode (k : Kluster) (secret : gmap string string) : M string :=
  match missing_field requiredNodeSecrets secret with
  | Some f => fail (ErrNew ("Field " +:+ f +:+ " missing in secret"))
  | None =>
      match node_yaml (node_data GitCommit k secret) with
      | None => fail (ErrNew "template: node")
      | Some yaml => perform (LTranspile yaml)
      end
  end.

(** ** [ConcretePoolManager] *)
Section Concrete.
Context (kluster : Kluster) (pool : NodePool).

(** [GetStatus], src/pkg/controller/launch/pool_manager.go:59-74 *)
Definition cpm_GetStatus : M PoolStatus :=
  nodes ← perform (LOs (OsGetNodes kluster pool));
  mret (status_of pool nodes).

Definition new_info (status : PoolStatus) : NodePoolInfo :=
  {| npi_Name := np_Name pool; npi_Size := np_Size pool;
     npi_Running := wrap64 (ps_Running status + ps_Starting status);
     npi_Healthy := ps_Running status; npi_Schedulable := ps_Running status |}.

(** The first entry with the name of the new one is compared and replaced;
    [None] when there is nothing to write. *)
Fixpoint replace_info (new : NodePoolInfo) (infos : list NodePoolInfo) : option (list NodePoolInfo) :=
  match infos with
  | [] => None
  | cur :: rest =>
      if decide (npi_Name cur = npi_Name new)
      then if decide (cur = new) then None else Some (new :: rest)
      else cons cur <$> replace_info new rest
  end.

(** [SetStatus], src/pkg/controller/launch/pool_manager.go:76-103 *)
Definition cpm_SetStatus (status : PoolStatus) : M unit :=
  copy ← perform (LKlusterGet (Namespace (Meta kluster)) (Name (Meta kluster)));
  match replace_info (new_info status) (st_NodePools (Status copy)) with
  | None => mret tt
  | Some infos => _ ← perform (LKlusterUpdate (set_Status (with_st_NodePools infos) copy)); mret tt
  end.

(** [CreateNode], src/pkg/controller/launch/pool_manager.go:105-122 *)
Definition cpm_CreateNode : M string :=
  secret ← perform (LSecretGet (Namespace (Meta kluster)) (Name (Meta kluster)));
  userdata ← GenerateNode kluster secret;
  perform (LOs (OsCreateNode kluster pool userdata)).

(** [DeleteNode], src/pkg/controller/launch/pool_manager.go:124-129 *)
Definition cpm_DeleteNode (id : string) : M unit := perform (LOs (OsDeleteNode kluster id)).

(** [ConcretePoolManager], src/pkg/controller/launch/pool_manager.go:31-37 *)
Definition ConcretePoolManager : PoolManager (sys S E LaunchCall) :=
  {| GetStatus := cpm_GetStatus; SetStatus := cpm_SetStatus;
     pm_CreateNode := cpm_CreateNode; pm_DeleteNode := cpm_DeleteNode |}.
End Concrete.

(** ** The decorators *)

(** [EventingPoolManager.CreateNode], src/pkg/controller/launch/eventing.go:25-35 *)
Definition epm_CreateNode (pm : PoolManager (sys S E LaunchCall)) : M string :=
  r ← attempt (pm_CreateNode pm);
  _ ← match r with
      | Ok id => Eventf true SuccessfullCreateNode ("Successfully created node " +:+ id)
      | Bad err => Eventf false FailedCreateNode ("Failed to created node: " +:+ Error err)
      end;
  lift_reply r.

(** [EventingPoolManager.DeleteNode], src/pkg/controller/launch/eventing.go:37-47 *)
Definition epm_DeleteNode (pm : PoolManager (sys S E LaunchCall)) (id : string) : M unit :=
  r ← attempt (pm_DeleteNode pm id);
  _ ← match r with
      | Ok _ => Eventf true SuccessfullDeleteNode ("Successfully deleted node " +:+ id)
      | Bad err => Eventf false FailedDeleteNode ("Failed to delete node: " +:+ Error err)
      end;
  lift_reply r.

(** [EventingPoolManager], src/pkg/controller/launch/eventing.go:11-23 *)
Definition EventingPoolManager (pm : PoolManager (sys S E LaunchCall)) : PoolManager (sys S E LaunchCall) :=
  {| GetStatus := GetStatus pm; SetStatus := SetStatus pm;
     pm_CreateNode := epm_CreateNode pm; pm_DeleteNode := epm_DeleteNode pm |}.

Definition status_fields (st : PoolStatus) : list (string * string) :=
  [("running", Itoa (ps_Running st)); ("starting", Itoa (ps_Starting st));
   ("stopping", Itoa (ps_Stopping st)); ("needed", Itoa (Needed st)); ("unneeded", Itoa (UnNeeded st))].
Definition zero_PoolStatus : PoolStatus :=
  {| Nodes := []; ps_Running := 0; ps_Starting := 0; ps_Stopping := 0; Needed := 0; UnNeeded := 0 |}.

(** A failed [GetStatus] returned an empty status, which is logged; after a
    panic there is none, and reading its fields panics again.
    [LoggingPoolManager.GetStatus], src/pkg/controller/launch/logging.go:14-29 *)
Definition lpm_GetStatus (pm : PoolManager (sys S E LaunchCall)) : M PoolStatus :=
  defer (fun o =>
    match o with
    | Ret st => tel (Log "read status" (status_fields st ++ [("err", "")]))
    | Fail e => tel (Log "read status" (status_fields zero_PoolStatus ++ [("err", Error e)]))
    | Panic _ => panic "nil status"
    end) (GetStatus pm).
(** [LoggingPoolManager.SetStatus], src/pkg/controller/launch/logging.go:31-46 *)
Definition lpm_SetStatus (pm : PoolManager (sys S E LaunchCall)) (status : PoolStatus) : M unit :=
  defer (fun o => tel (Log "wrote status" (status_fields status ++ [("err", err_text o)]))) (SetStatus pm status).
(** [LoggingPoolManager.CreateNode], src/pkg/controller/launch/logging.go:48-58 *)
Definition lpm_CreateNode (pm : PoolManager (sys S E LaunchCall)) : M string :=
  defer (fun o => tel (Log "created node"
    [("node", match o with Ret id => id | _ => "" end); ("err", err_text o)])) (pm_CreateNode pm).
(** [LoggingPoolManager.DeleteNode], src/pkg/controller/launch/logging.go:60-70 *)
Definition lpm_DeleteNode (pm : PoolManager (sys S E LaunchCall)) (id : string) : M unit :=
  defer (fun o => tel (Log "deleted node" [("node", id); ("err", err_text o)])) (pm_DeleteNode pm id).
(** [LoggingPoolManager], src/pkg/controller/launch/logging.go:9-12 *)
Definition LoggingPoolManager (pm : PoolManager (sys S E LaunchCall)) : PoolManager (sys S E LaunchCall) :=
  {| GetStatus := lpm_GetStatus pm; SetStatus := lpm_SetStatus pm;
     pm_CreateNode := lpm_CreateNode pm; pm_DeleteNode := lpm_DeleteNode pm |}.

(** [InstrumentingPoolManager], src/pkg/controller/launch/instrumenting.go:9-126 *)
Definition InstrumentingPoolManager (pm : PoolManager (sys S E LaunchCall)) : PoolManager (sys S E LaunchCall) :=
  {| GetStatus := instrumented tel "GetStatus" (GetStatus pm);
     SetStatus := fun status => instrumented tel "SetStatus" (SetStatus pm status);
     pm_CreateNode := instrumented tel "CreateNode" (pm_CreateNode pm);
     pm_DeleteNode := fun id => instrumented tel "DeleteNode" (pm_DeleteNode pm id) |}.

(** [newPoolManager], src/pkg/controller/launch/pool_manager.go:39-57 *)
Definition newPoolManager (kluster : Kluster) (pool : NodePool) : PoolManager (sys S E LaunchCall) :=
  InstrumentingPoolManager (LoggingPoolManager (EventingPoolManager (ConcretePoolManager kluster pool))).
End Manager.

(** * The reconciler *)

Section Reconcile.
Context {S : Type}.

(** The switch of [reconcilePool], on any pool manager.  The first result is
    the status that was read, the second asks for a requeue.  Indexing the
    nodes of the status out of range panics.
    [reconcilePool], src/pkg/controller/launch/controller.go:60-97 *)
Definition reconcile_with (phase : KlusterPhase) (pm : PoolManager S) : Go S (PoolStatus * bool) :=
  status ← GetStatus pm;
  if decide (phase = KlusterPhaseTerminating) then
    _ ← for_each (pm_DeleteNode pm) (Nodes status);
    mret (status, negb (bool_decide (Nodes status = [])))
  else if 0 <? Needed status then
    _ ← for_each (fun _ => _ ← pm_CreateNode pm; mret tt) (seq 0 (Z.to_nat (Needed status)));
    mret (status, true)
  else if 0 <? UnNeeded status then
    _ ← for_each (fun i => match Nodes status !! i with
                           | Some id => pm_DeleteNode pm id
                           | None => panic "index out of range"
                           end) (seq 0 (Z.to_nat (UnNeeded status)));
    mret (status, true)
  else
    let requeue := (0 <? ps_Starting status) || (0 <? ps_Stopping status) in
    _ ← SetStatus pm status;
    mret (status, requeue).
End Reconcile.

Section LaunchReconciler.
Context {S E : Type} `{!Machine LaunchCall E} (GitCommit : string).

(** [reconcilePool], src/pkg/controller/launch/controller.go:58-98 *)
Definition reconcilePool (kluster : Kluster) (pool : NodePool) : Go (sys S E LaunchCall) (PoolStatus * bool) :=
  reconcile_with (Phase (Status kluster)) (newPoolManager GitCommit kluster pool).

(** [LaunchReconciler.Reconcile], src/pkg/controller/launch/controller.go:39-56 *)
Definition LaunchReconcile : Reconciler (sys S E LaunchCall) := fun kluster =>
  if decide (Phase (Status kluster) = KlusterPhaseRunning ∨ Phase (Status kluster) = KlusterPhaseTerminating)
  then for_fold (fun requeueRequested pool =>
         r ← reconcilePool kluster pool;
         mret (if snd r : bool then true else requeueRequested)) false (NodePools (Spec kluster))
  else mret false.

(** The reconciler with its decorators
    [NewController], src/pkg/controller/launch/controller.go:21-37 *)
Definition LaunchController : Reconciler (sys S E LaunchCall) :=
  InstrumentingReconciler tel (LoggingReconciler tel LaunchReconcile).
End LaunchReconciler.

(** * What a pool manager promises the reconciler *)

(** The calls that change the servers of a kluster *)
Inductive action :=
| ACreate (k : Kluster) (p : NodePool)
| ADelete (k : Kluster) (id : string).

(** A contract of the four methods over a view [O] of the state: how each
    relates the view before, its outcome and the view after. *)
Record contract (O : Type) := {
  c_status : O → outcome PoolStatus → O → Prop;
  c_set : PoolStatus → O → outcome unit → O → Prop;
  c_create : O → outcome string → O → Prop;
  c_delete : string → O → outcome unit → O → Prop;
  c_no_panic a w b : ¬ c_status a (Panic w) b }.
Arguments c_status {_} _ _ _ _.
Arguments c_set {_} _ _ _ _ _.
Arguments c_create {_} _ _ _ _.
Arguments c_delete {_} _ _ _ _ _.
Arguments c_no_panic {_} _ _ _ _ _.

Class Implements {S O} (pm : PoolManager S) (view : S → O) (C : contract O) : Prop := {
  impl_status s : wp (GetStatus pm) (λ o s', c_status C (view s) o (view s')) s;
  impl_set st s : wp (SetStatus pm st) (λ o s', c_set C st (view s) o (view s')) s;
  impl_create s : wp (pm_CreateNode pm) (λ o s', c_create C (view s) o (view s')) s;
  impl_delete id s : wp (pm_DeleteNode pm id) (λ o s', c_delete C id (view s) o (view s')) s }.

(** The view is the sequence of actions attempted so far; [listed] tells the
    server lists OpenStack may report. *)
Definition attempted (a : action) (before : list action) {A} (o : outcome A) (after : list action) : Prop :=
  match o with
  | Ret _ => after = before ++ [a]
  | Fail _ => after = before ∨ after = before ++ [a]
  | Panic _ => False
  end.
Definition actions_contract (k : Kluster) (pool : NodePool) (listed : list Node → Prop) : contract (list action) :=
  {| c_status a o b := b = a ∧
       match o with
       | Ret st => ∃ nodes, listed nodes ∧ st = status_of pool nodes
       | Fail _ => True
       | Panic _ => False
       end;
     c_set _ a o b := b = a ∧ match o with Panic _ => False | _ => True end;
     c_create a o b := attempted (ACreate k pool) a o b;
     c_delete id a o b := attempted (ADelete k id) a o b;
     c_no_panic _ _ _ H := proj2 H |}.
Abbreviation LawfulPool k pool pm acts listed := (Implements pm acts (actions_contract k pool listed)).

Section Laws.
Context {S} (k : Kluster) (pool : NodePool) (pm : PoolManager S) (acts : S → list action) (listed : list Node → Prop)
  `{!LawfulPool k pool pm acts listed}.
Lemma law_status s : wp (GetStatus pm) (λ o s', acts s' = acts s ∧
  match o with Ret st => ∃ nodes, listed nodes ∧ st = status_of pool nodes | Fail _ => True | Panic _ => False end) s.
Proof. exact (impl_status (C:=actions_contract k pool listed) s). Qed.
Lemma law_set st s : wp (SetStatus pm st) (λ o s', acts s' = acts s ∧ match o with Panic _ => False | _ => True end) s.
Proof. exact (impl_set (C:=actions_contract k pool listed) st s). Qed.
Lemma law_create s : wp (pm_CreateNode pm) (λ o s', attempted (ACreate k pool) (acts s) o (acts s')) s.
Proof. exact (impl_create (C:=actions_contract k pool listed) s). Qed.
Lemma law_delete id s : wp (pm_DeleteNode pm id) (λ o s', attempted (ADelete k id) (acts s) o (acts s')) s.
Proof. exact (impl_delete (C:=actions_contract k pool listed) id s). Qed.
End Laws.

(** ** The decorators implement what the decorated manager implements *)
Section Decorated.
Context {S E O : Type} `{!Machine LaunchCall E} (view : sys S E LaunchCall → O) (C : contract O) (pm : PoolManager (sys S E LaunchCall)).
Context `{!Implements pm view C} `{!Transparent (tel (S:=S) (E:=E)) view}.
(** Events are not seen either. *)
Context (quiet_events : ∀ b r msg s, snd (Eventf b r msg s) = Ret tt ∧ view (fst (Eventf b r msg s)) = view s).

Lemma wp_quiet_event b r msg (Q : outcome unit → sys S E LaunchCall → Prop) s :
  (∀ s', view s' = view s → Q (Ret tt) s') → wp (Eventf b r msg) Q s.
Proof.
  intros HQ. apply wp_intro. intros s' o E0. destruct (quiet_events b r msg s) as [H1 H2].
  rewrite E0 in *. simpl in *. subst o. by apply HQ.
Qed.

Lemma eventing_implements : Implements (EventingPoolManager pm) view C.
Proof.
  constructor; cbn [EventingPoolManager GetStatus SetStatus pm_CreateNode pm_DeleteNode].
  - apply impl_status.
  - apply impl_set.
  - intros s. apply wp_bind, wp_attempt. eapply wp_mono; [apply impl_create|].
    intros [id|e|w] s1 H1; [| |done]; apply wp_bind, wp_quiet_event; intros s2 H2;
      apply wp_lift_reply; cbn [of_reply]; by rewrite H2.
  - intros id s. apply wp_bind, wp_attempt. eapply wp_mono; [apply impl_delete|].
    intros [[]|e|w] s1 H1; [| |done]; apply wp_bind, wp_quiet_event; intros s2 H2;
      apply wp_lift_reply; cbn [of_reply]; by rewrite H2.
Qed.

Lemma logging_implements : Implements (LoggingPoolManager pm) view C.
Proof.
  constructor; cbn [LoggingPoolManager GetStatus SetStatus pm_CreateNode pm_DeleteNode].
  - intros s. apply wp_defer. eapply wp_mono; [apply impl_status|].
    intros [st|e|w] s1 H; [| |by destruct (c_no_panic C _ _ _ H)]; apply (wp_tel _ view); intros s2 H2; by rewrite H2.
  - intros st s. eapply (wp_logged tel view), wp_mono; [apply impl_set|]. by intros o s1 H s2 ->.
  - intros s. eapply (wp_logged tel view), wp_mono; [apply impl_create|]. by intros o s1 H s2 ->.
  - intros id s. eapply (wp_logged tel view), wp_mono; [apply impl_delete|]. by intros o s1 H s2 ->.
Qed.

Lemma instrumenting_implements : Implements (InstrumentingPoolManager pm) view C.
Proof.
  constructor; cbn [InstrumentingPoolManager GetStatus SetStatus pm_CreateNode pm_DeleteNode]; intros;
    (eapply (wp_instrumented tel view), wp_mono; [solve [apply impl_status | apply impl_set | apply impl_create | apply impl_delete]|]);
    by intros o s1 H s2 ->.
Qed.
End Decorated.

Lemma newPoolManager_implements {S E O} `{!Machine LaunchCall E} (view : sys S E LaunchCall → O) C GitCommit k pool :
  Implements (ConcretePoolManager GitCommit k pool) view C → Transparent (tel (S:=S) (E:=E)) view →
  (∀ b r msg s, snd (Eventf b r msg s) = Ret tt ∧ view (fst (Eventf b r msg s)) = view s) →
  Implements (newPoolManager GitCommit k pool) view C.
Proof.
  intros Hc Ht He. apply instrumenting_implements; [|done]. apply logging_implements; [|done]. by apply eventing_implements.
Qed.

Definition action_of (c : LaunchCall) : option action :=
  match c with
  | LOs (OsCreateNode k p _) => Some (ACreate k p)
  | LOs (OsDeleteNode k id) => Some (ADelete k id)
  | _ => None
  end.
Definition actions {S E} (s : sys S E LaunchCall) : list action := omap action_of (trace s).

Section Lawful.
Context {S E : Type} `{!Machine LaunchCall E} (GitCommit : string).
Context (k : Kluster) (pool : NodePool).
Implicit Types s : sys S E LaunchCall.

Definition reported (nodes : list Node) : Prop :=
  ∃ e e', answer (LOs (OsGetNodes k pool)) e = (e', Ok nodes).

Lemma actions_snoc (m : S) (e : E) l c :
  actions (Sys m e (l ++ [c])) = omap action_of l ++ match action_of c with Some a => [a] | None => [] end.
Proof. unfold actions. simpl. rewrite omap_app. simpl. by destruct (action_of c). Qed.

(** Every call is seen as at most one action. *)
Lemma wp_lcall (c : LaunchCall) (Q : outcome (resp c) → sys S E LaunchCall → Prop) s :
  (∀ r s', actions s' = actions s ++ match action_of c with Some a => [a] | None => [] end →
     (∃ e e', answer c e = (e', r)) → Q (of_reply r) s') →
  wp (perform c) Q s.
Proof. intros HQ. apply wp_perform. intros e' r Ha. apply HQ; [by rewrite actions_snoc | eauto]. Qed.

#[export] Instance tel_transparent : Transparent (tel (S:=S) (E:=E)) actions.
Proof.
  intros t s. unfold tel, perform; go_eval. destruct s as [m e l].
  destruct (answer (LTel t) e) as [e' [a|err]]; (split; [done|]);
    by rewrite actions_snoc, app_nil_r.
Qed.

Lemma quiet_events b r msg s : snd (Eventf b r msg s) = Ret tt ∧ actions (fst (Eventf b r msg s)) = actions s.
Proof.
  unfold Eventf, perform; go_eval. destruct s as [m e l].
  destruct (answer (LEvent b r msg) e) as [e' [a|err]]; (split; [done|]); by rewrite actions_snoc, app_nil_r.
Qed.

Ltac lcall :=
  match goal with
  | |- wp (perform ?c) ?Q ?s =>
      refine (wp_lcall c Q s _); let r := fresh "r" in let s' := fresh "s" in let Hs := fresh "Hs" in
      let Ha := fresh "Ha" in
      intros r s' Hs Ha; cbn [resp launch_iface openstack_iface] in r; cbn [action_of] in Hs;
      rewrite ?app_nil_r in Hs;
      destruct r as [r|r]; cbn [of_reply]
  end.

#[export] Instance concrete_lawful :
  LawfulPool k pool (ConcretePoolManager GitCommit k pool) (actions (S:=S) (E:=E)) reported.
Proof.
  constructor; cbn [ConcretePoolManager GetStatus SetStatus pm_CreateNode pm_DeleteNode].
  - intros s. apply wp_bind. lcall; [|done]. apply wp_ret. split; [done|].
    exists r. split; [|done]. destruct Ha as (e & e' & Ha). by exists e, e'.
  - intros st s. apply wp_bind. lcall; [|done].
    destruct (replace_info _ _); [|by apply wp_ret].
    apply wp_bind. lcall; [apply wp_ret|]; split; congruence || done.
  - intros s. apply wp_bind. lcall; [|by left]. apply wp_bind. unfold GenerateNode.
    destruct (missing_field _ _); [apply wp_fail; by left|].
    destruct (node_yaml _) as [yaml|]; [|apply wp_fail; by left].
    lcall; [|left; congruence]. lcall; [|right]; congruence.
  - intros id s. unfold cpm_DeleteNode. lcall; [done|by right].
Qed.
End Lawful.

#[export] Instance newPoolManager_lawful {S E} `{!Machine LaunchCall E} GitCommit k pool :
  LawfulPool k pool (newPoolManager GitCommit k pool) (actions (S:=S) (E:=E)) (reported k pool).
Proof. apply newPoolManager_implements; [apply concrete_lawful|apply tel_transparent|apply quiet_events]. Qed.

(** * How many nodes are missing *)

(** The nodes that count towards the size of a pool *)
Definition live (n : Node) : bool := Running n || Starting n.

Lemma count_live nodes : running nodes + starting nodes = count live nodes.
Proof.
  unfold running, starting, count. induction nodes as [|n nodes IH]; [done|]. simpl.
  assert (live n = Running n || Starting n) as -> by done.
  pose proof (Running_excl n) as Hr. destruct (Running n) eqn:R, (Starting n) eqn:St; simpl; lia || naive_solver.
Qed.

Lemma length_filter_le {A} (P : A → bool) l : (length (List.filter P l) <= length l)%nat.
Proof. induction l as [|a l IH]; simpl; [lia|]. destruct (P a); simpl; lia. Qed.

Section Counts.
Context (pool : NodePool) (nodes : list Node).
Hypothesis Hsize : 0 <= np_Size pool < 2 ^ 63.
Hypothesis Hlen : Z.of_nat (length nodes) < 2 ^ 63.

Lemma count_range P : 0 <= count P nodes <= Z.of_nat (length nodes).
Proof. unfold count. pose proof (length_filter_le P nodes). lia. Qed.

(** With a size the API accepts, the arithmetic does not overflow. *)
Lemma needed_live : needed pool nodes = Z.max 0 (np_Size pool - count live nodes).
Proof.
  pose proof (count_live nodes). pose proof (count_range live).
  pose proof (count_range Running). pose proof (count_range Starting).
  unfold needed, running, starting in *.
  rewrite (wrap64_id (np_Size pool - _)) by (unfold in_int64; lia).
  rewrite wrap64_id by (unfold in_int64; lia).
  replace (np_Size pool - count Running nodes - count Starting nodes)
    with (np_Size pool - count live nodes) by lia.
  destruct (Z.ltb_spec (np_Size pool - count live nodes) 0); lia.
Qed.

Lemma unNeeded_live : unNeeded pool nodes = Z.max 0 (count live nodes - np_Size pool).
Proof.
  pose proof (count_live nodes) as Hc. pose proof (count_range live).
  unfold unNeeded. rewrite Hc.
  rewrite (wrap64_id (count live nodes)) by (unfold in_int64; lia).
  rewrite wrap64_id by (unfold in_int64; lia).
  destruct (Z.ltb_spec (count live nodes - np_Size pool) 0); lia.
Qed.
End Counts.

(** * What one reconciliation does *)

Definition wants_pool_actions (phase : KlusterPhase) (k : Kluster) (pool : NodePool) (nodes : list Node) : list action :=
  if decide (phase = KlusterPhaseTerminating) then ADelete k <$> nodeIDs nodes
  else replicate (Z.to_nat (np_Size pool - count live nodes)) (ACreate k pool) ++
       (ADelete k <$> take (Z.to_nat (count live nodes - np_Size pool)) (nodeIDs nodes)).

Definition wants_requeue (phase : KlusterPhase) (k : Kluster) (pool : NodePool) (nodes : list Node) : bool :=
  negb (bool_decide (length (wants_pool_actions phase k pool nodes) = 0%nat)) ||
  negb (bool_decide (phase = KlusterPhaseTerminating)) && ((0 <? starting nodes) || (0 <? stopping nodes)).

Section Loop.
Context {S A : Type} (acts : S → list action) (f : A → Go S unit) (a : A → action).

(** A loop whose every turn is one action *)
Lemma wp_action_loop l s :
  (∀ x s, x ∈ l → wp (f x) (λ o s',
    match o with
    | Ret _ => acts s' = acts s ++ [a x]
    | Fail _ => acts s' = acts s ∨ acts s' = acts s ++ [a x]
    | Panic _ => False
    end) s) →
  wp (for_each f l) (λ o s',
    match o with
    | Ret _ => acts s' = acts s ++ (a <$> l)
    | Fail _ => ∃ k, k `prefix_of` (a <$> l) ∧ acts s' = acts s ++ k
    | Panic _ => False
    end) s.
Proof.
  revert s. induction l as [|x l IH]; intros s Hf; simpl.
  { apply wp_ret. by rewrite app_nil_r. }
  apply wp_bind. eapply wp_mono; [apply Hf; left|].
  intros [[]|e|w] s1 H1; [| |done].
  - eapply wp_mono; [apply IH; intros; apply Hf; by right|].
    intros [[]|e|w] s2 H2; [| |done].
    + by rewrite H2, H1, <- app_assoc.
    + destruct H2 as (k & Hk & H2). exists (a x :: k).
      split; [by apply prefix_cons|]. by rewrite H2, H1, <- app_assoc.
  - destruct H1 as [H1|H1]; [exists []|exists [a x]]; rewrite H1, ?app_nil_r;
      (split; [|done]); [apply prefix_nil|]. by exists (a <$> l).
Qed.
End Loop.

Lemma seq_take {A B} (g : A → B) d (l : list A) n : (n <= length l)%nat →
  (λ i, g (default d (l !! i))) <$> seq 0 n = g <$> take n l.
Proof.
  revert n. induction l as [|x l IH]; intros [|n] Hn; simpl in *; try done; [lia|].
  f_equal. rewrite <- IH by lia. rewrite <- seq_shift, <- list_fmap_compose. by apply list_fmap_ext.
Qed.

Lemma fmap_const_seq {A} (a : A) i n : (λ _, a) <$> seq i n = replicate n a.
Proof. revert i. induction n as [|n IH]; intros i; simpl; [done|]. by rewrite IH. Qed.

Section ReconcileSpec.
Context {S : Type} (k : Kluster) (pool : NodePool) (pm : PoolManager S) (acts : S → list action)
  (listed : list Node → Prop) `{!LawfulPool k pool pm acts listed}.
Context (phase : KlusterPhase).
Hypothesis Hsize : 0 <= np_Size pool < 2 ^ 63.
Hypothesis Hlen : ∀ nodes, listed nodes → Z.of_nat (length nodes) < 2 ^ 63.

Definition reconcile_post (s : S) (o : outcome (PoolStatus * bool)) (s' : S) : Prop :=
  match o with
  | Ret (st, requeue) => ∃ nodes, listed nodes ∧ st = status_of pool nodes ∧
      acts s' = acts s ++ wants_pool_actions phase k pool nodes ∧
      requeue = wants_requeue phase k pool nodes
  | Fail _ => acts s' = acts s ∨ ∃ nodes l, listed nodes ∧
      l `prefix_of` wants_pool_actions phase k pool nodes ∧ acts s' = acts s ++ l
  | Panic _ => False
  end.

(** The outcome of a loop over the planned actions. *)
Lemma reconcile_loop {A} (f : A → Go S unit) (a : A → action) l nodes s :
  listed nodes → a <$> l = wants_pool_actions phase k pool nodes →
  (∀ x s, x ∈ l → wp (f x) (λ o s',
    match o with
    | Ret _ => acts s' = acts s ++ [a x]
    | Fail _ => acts s' = acts s ∨ acts s' = acts s ++ [a x]
    | Panic _ => False
    end) s) →
  wp (_ ← for_each f l; mret (status_of pool nodes, wants_requeue phase k pool nodes))
    (reconcile_post s) s.
Proof.
  intros Hl Ha Hf. apply wp_bind. eapply wp_mono; [by apply (wp_action_loop acts f a)|].
  rewrite Ha. intros [[]|e|w] s1 H1; [|by right; naive_solver|done].
  apply wp_ret. by exists nodes.
Qed.

(** The planned actions and the requeue in each case of the switch *)
Lemma wants_terminating nodes : phase = KlusterPhaseTerminating →
  wants_pool_actions phase k pool nodes = ADelete k <$> nodeIDs nodes ∧
  wants_requeue phase k pool nodes = negb (bool_decide (nodeIDs nodes = [])).
Proof.
  intros ->. split; [done|]. unfold wants_requeue, wants_pool_actions. simpl.
  rewrite length_fmap, orb_false_r. f_equal. apply bool_decide_ext. by rewrite length_zero_iff_nil.
Qed.

Lemma wants_running nodes : phase ≠ KlusterPhaseTerminating →
  wants_pool_actions phase k pool nodes =
    replicate (Z.to_nat (np_Size pool - count live nodes)) (ACreate k pool) ++
    (ADelete k <$> take (Z.to_nat (count live nodes - np_Size pool)) (nodeIDs nodes)) ∧
  wants_requeue phase k pool nodes =
    negb (np_Size pool =? count live nodes) || (0 <? starting nodes) || (0 <? stopping nodes).
Proof.
  intros Hp.
  assert (wants_pool_actions phase k pool nodes =
    replicate (Z.to_nat (np_Size pool - count live nodes)) (ACreate k pool) ++
    (ADelete k <$> take (Z.to_nat (count live nodes - np_Size pool)) (nodeIDs nodes))) as Hplan
    by (unfold wants_pool_actions; by rewrite decide_False).
  split; [done|]. unfold wants_requeue. rewrite Hplan, (bool_decide_false (phase = _)) by done.
  rewrite length_app, length_replicate, length_fmap, length_take. unfold nodeIDs. rewrite length_fmap.
  pose proof (count_range nodes live).
  simpl negb at 2. rewrite andb_true_l, orb_assoc. do 3 f_equal.
  destruct (Z.eqb_spec (np_Size pool) (count live nodes)) as [E|E];
    [apply bool_decide_true | apply bool_decide_false]; lia.
Qed.

Lemma reconcile_status nodes s : listed nodes →
  wp (let status := status_of pool nodes in
      if decide (phase = KlusterPhaseTerminating) then
        _ ← for_each (pm_DeleteNode pm) (Nodes status);
        mret (status, negb (bool_decide (Nodes status = [])))
      else if 0 <? Needed status then
        _ ← for_each (fun _ => _ ← pm_CreateNode pm; mret tt) (seq 0 (Z.to_nat (Needed status)));
        mret (status, true)
      else if 0 <? UnNeeded status then
        _ ← for_each (fun i => match Nodes status !! i with
                               | Some id => pm_DeleteNode pm id
                               | None => panic "index out of range"
                               end) (seq 0 (Z.to_nat (UnNeeded status)));
        mret (status, true)
      else
        _ ← SetStatus pm status;
        mret (status, (0 <? ps_Starting status) || (0 <? ps_Stopping status))) (reconcile_post s) s.
Proof.
  intros Hl. cbn [Nodes Needed UnNeeded ps_Starting ps_Stopping status_of]. cbv zeta.
  pose proof (Hlen _ Hl) as Hn. pose proof (count_range nodes live).
  rewrite (needed_live pool nodes Hsize Hn), (unNeeded_live pool nodes Hsize Hn).
  assert (length (nodeIDs nodes) = length nodes) as Hids by apply length_fmap.
  case_decide as Hp.
  { destruct (wants_terminating nodes Hp) as [Hplan <-].
    apply (reconcile_loop _ (ADelete k)); [done..|]. intros; apply (law_delete k pool pm acts listed). }
  destruct (wants_running nodes Hp) as [Hplan Hreq].
  destruct (Z.ltb_spec 0 (Z.max 0 (np_Size pool - count live nodes))) as [Hneed|Hneed];
    [|destruct (Z.ltb_spec 0 (Z.max 0 (count live nodes - np_Size pool))) as [Hun|Hun]].
  - replace true with (wants_requeue phase k pool nodes) by (rewrite Hreq; by rewrite (proj2 (Z.eqb_neq _ _)) by lia).
    apply (reconcile_loop _ (λ _, ACreate k pool)); [done| |].
    + rewrite fmap_const_seq, Hplan, Z.max_r by lia.
      replace (Z.to_nat (count live nodes - np_Size pool)) with 0%nat by lia.
      by rewrite take_0, app_nil_r.
    + intros _ s2 _. apply wp_bind. eapply wp_mono; [apply (law_create k pool pm acts listed)|].
      intros [id|e|w] s3 H3; [by apply wp_ret|done..].
  - replace true with (wants_requeue phase k pool nodes) by (rewrite Hreq; by rewrite (proj2 (Z.eqb_neq _ _)) by lia).
    apply (reconcile_loop _ (λ i, ADelete k (default "" (nodeIDs nodes !! i)))); [done| |].
    + rewrite (seq_take (ADelete k)), Hplan, Z.max_r by lia.
      by replace (Z.to_nat (np_Size pool - count live nodes)) with 0%nat by lia.
    + intros i s2 Hi%elem_of_seq.
      destruct (lookup_lt_is_Some_2 (nodeIDs nodes) i) as [id Hid]; [lia|].
      rewrite Hid. apply (law_delete k pool pm acts listed).
  - apply wp_bind. eapply wp_mono; [apply (law_set k pool pm acts listed)|].
    intros [[]|e|w] s2 [H2 H3]; [|by left|done].
    apply wp_ret. exists nodes. rewrite Hplan, Hreq, (proj2 (Z.eqb_eq _ _)) by lia.
    replace (Z.to_nat (np_Size pool - count live nodes)) with 0%nat by lia.
    replace (Z.to_nat (count live nodes - np_Size pool)) with 0%nat by lia.
    by rewrite app_nil_r.
Qed.

Lemma reconcile_with_spec s : wp (reconcile_with phase pm) (reconcile_post s) s.
Proof.
  unfold reconcile_with. apply wp_bind. eapply wp_mono; [apply (law_status k pool pm acts listed)|].
  intros [st|e|w] s1 [H1 Hst]; [|by left|done].
  destruct Hst as (nodes & Hl & ->).
  eapply wp_mono; [by apply reconcile_status|]. unfold reconcile_post. by rewrite H1.
Qed.
End ReconcileSpec.

Lemma reconcilePool_spec {S E} `{!Machine LaunchCall E} GitCommit k pool (s : sys S E LaunchCall) :
  0 <= np_Size pool < 2 ^ 63 →
  (∀ nodes, reported k pool nodes → Z.of_nat (length nodes) < 2 ^ 63) →
  wp (reconcilePool GitCommit k pool)
    (reconcile_post k pool actions (reported k pool) (Phase (Status k)) s) s.
Proof. intros Hs Hl. by apply reconcile_with_spec; [apply newPoolManager_lawful|..]. Qed.

Section ReconcileKluster.
Context {S E : Type} `{!Machine LaunchCall E} (GitCommit : string) (k : Kluster).
Implicit Types s : sys S E LaunchCall.
Hypothesis Hsize : ∀ pool, pool ∈ NodePools (Spec k) → 0 <= np_Size pool < 2 ^ 63.
Hypothesis Hlen : ∀ pool nodes, reported k pool nodes → Z.of_nat (length nodes) < 2 ^ 63.

Definition kluster_actions (pools : list NodePool) (reports : list (list Node)) : list action :=
  concat (zip_with (wants_pool_actions (Phase (Status k)) k) pools reports).
Definition kluster_requeue (pools : list NodePool) (reports : list (list Node)) : bool :=
  existsb id (zip_with (wants_requeue (Phase (Status k)) k) pools reports).

Lemma reconcile_pools pools b s :
  pools ⊆ NodePools (Spec k) →
  wp (for_fold (fun requeueRequested pool =>
         r ← reconcilePool GitCommit k pool;
         mret (if snd r : bool then true else requeueRequested)) b pools)
    (λ o s', match o with
     | Ret r => ∃ reports, Forall2 (reported k) pools reports ∧
         actions s' = actions s ++ kluster_actions pools reports ∧
         r = b || kluster_requeue pools reports
     | Fail _ => True
     | Panic _ => False
     end) s.
Proof.
  revert b s. induction pools as [|pool pools IH]; intros b s Hsub; simpl.
  { apply wp_ret. exists []. unfold kluster_actions. simpl. rewrite app_nil_r, orb_false_r. by repeat constructor. }
  apply wp_bind, wp_bind. eapply wp_mono.
  { apply reconcilePool_spec; [apply Hsize, Hsub; left | apply Hlen]. }
  intros [[st rq]|e|w] s1 H1; [|done..]. destruct H1 as (nodes & Hr & -> & H1 & ->).
  apply wp_ret. eapply wp_mono; [apply IH; set_solver|].
  intros [r|e|w] s2 H2; [|done..]. destruct H2 as (reports & Hrs & H2 & ->).
  exists (nodes :: reports). split; [by constructor|].
  unfold kluster_actions, kluster_requeue in *. simpl. split.
  - by rewrite H2, H1, <- app_assoc.
  - unfold id at 2. destruct (wants_requeue _ _ _ nodes); [|done]. by rewrite orb_true_r.
Qed.
End ReconcileKluster.

(** * Metrics *)

(** A run is balanced when, for every method, the calls counted in total are
    those counted as successful or failed. *)
Definition occurrences (t : TelemetryCall) (l : list LaunchCall) : nat :=
  length (List.filter (fun c => match c with LTel u => bool_decide (u = t) | _ => false end) l).
Definition balanced_trace (l : list LaunchCall) : Prop := ∀ method,
  occurrences (Metric Total method) l =
  (occurrences (Metric Successful method) l + occurrences (Metric Failed method) l)%nat.
Definition not_metric (c : LaunchCall) : Prop := match c with LTel (Metric _ _) => False | _ => True end.

Lemma occurrences_app t l1 l2 : occurrences t (l1 ++ l2) = (occurrences t l1 + occurrences t l2)%nat.
Proof. unfold occurrences. by rewrite List.filter_app, length_app. Qed.
Lemma balanced_app l1 l2 : balanced_trace l1 → balanced_trace l2 → balanced_trace (l1 ++ l2).
Proof. intros H1 H2 m. rewrite !occurrences_app, H1, H2. lia. Qed.
Lemma balanced_quiet l : Forall not_metric l → balanced_trace l.
Proof.
  intros Hl m. assert (∀ kd, occurrences (Metric kd m) l = 0%nat) as Hz; [|by rewrite !Hz].
  intros kd. unfold occurrences. induction Hl as [|c l Hc _ IH]; [done|]. simpl.
  destruct c as [| | | | | |[|]]; done.
Qed.

Definition balanced {S E A} (m : Go (sys S E LaunchCall) A) : Prop :=
  ∀ s, ∃ l, trace (fst (m s)) = trace s ++ l ∧ balanced_trace l.

Section Balanced.
Context {S E : Type} `{!Machine LaunchCall E}.
Implicit Types s : sys S E LaunchCall.
Lemma balanced_emits {A} (m : Go (sys S E LaunchCall) A) : emits not_metric m → balanced m.
Proof. intros Hm s. destruct (emits_elim _ _ s Hm) as (l & ? & ?). exists l. split; [done|]. by apply balanced_quiet. Qed.
Lemma balanced_bind {A B} (m : Go (sys S E LaunchCall) A) (f : A → Go (sys S E LaunchCall) B) :
  balanced m → (∀ a, balanced (f a)) → balanced (m ≫= f).
Proof.
  intros Hm Hf s. destruct (Hm s) as (l & Hl & Pl). unfold mbind, go_bind.
  destruct (m s) as [s' [a|e|w]]; simpl in *; [|by exists l..].
  destruct (Hf a s') as (j & Hj & Pj). exists (l ++ j).
  rewrite Hj, Hl, app_assoc. split; [done|]. by apply balanced_app.
Qed.
Lemma balanced_attempt {A} (m : Go (sys S E LaunchCall) A) : balanced m → balanced (attempt m).
Proof. intros Hm s. destruct (Hm s) as (l & ? & ?). exists l. unfold attempt. by destruct (m s) as [? []]. Qed.
Lemma balanced_defer {A} (f : outcome A → Go (sys S E LaunchCall) unit) (m : Go (sys S E LaunchCall) A) :
  balanced m → (∀ o, balanced (f o)) → balanced (defer f m).
Proof.
  intros Hm Hf s. destruct (Hm s) as (l & Hl & Pl). unfold defer.
  destruct (m s) as [s1 o]; simpl in *. destruct (Hf o s1) as (j & Hj & Pj).
  destruct (f o s1) as [s2 o2]; simpl in *. exists (l ++ j).
  rewrite Hj, Hl, app_assoc. split; [done|]. by apply balanced_app.
Qed.
Lemma balanced_for_each {A} (f : A → Go (sys S E LaunchCall) unit) l :
  (∀ x, balanced (f x)) → balanced (for_each f l).
Proof.
  intros Hf. induction l as [|x l IH]; simpl; [apply balanced_emits, emits_ret|].
  apply balanced_bind; [apply Hf | by intros _].
Qed.
Lemma balanced_for_fold {A B} (f : B → A → Go (sys S E LaunchCall) B) b l :
  (∀ b x, balanced (f b x)) → balanced (for_fold f b l).
Proof.
  intros Hf. revert b. induction l as [|x l IH]; intros b; simpl; [apply balanced_emits, emits_ret|].
  apply balanced_bind; [apply Hf | by intros b'].
Qed.

Lemma balanced_log msg kv : balanced (tel (S:=S) (E:=E) (Log msg kv)).
Proof. apply balanced_emits. unfold tel. by emits_solve. Qed.

Lemma tel_trace t s : snd (tel t s) = Ret tt ∧ trace (fst (tel t s)) = trace s ++ [LTel t].
Proof. unfold tel, perform; go_eval. destruct s as [m e l]. by destruct (answer (LTel t) e) as [e' []]. Qed.

(** The deferred function counts its method once in total and once by result. *)
Lemma balanced_observe {A} method (o : outcome A) : balanced (observe (tel (S:=S) (E:=E)) method o).
Proof.
  intros s. exists [LTel (Metric Latency method); LTel (Metric Total method);
    LTel (Metric (match o with Fail _ => Failed | _ => Successful end) method)]. split.
  - unfold observe, mbind, go_bind. destruct (tel_trace (Metric Latency method) s) as [R1 T1].
    destruct (tel (Metric Latency method) s) as [s1 o1]; simpl in *; subst o1.
    destruct (tel_trace (Metric Total method) s1) as [R2 T2].
    destruct (tel (Metric Total method) s1) as [s2 o2]; simpl in *; subst o2.
    destruct o; (rewrite (proj2 (tel_trace _ s2)), T2, T1, <- !app_assoc; done).
  - intros m. unfold occurrences. simpl.
    destruct (decide (method = m)) as [->|Hm].
    + assert (∀ x y, bool_decide (Metric x m = Metric y m) = bool_decide (x = y)) as Hk
        by (intros; apply bool_decide_ext; naive_solver).
      by destruct o; rewrite !Hk.
    + assert (∀ x y, bool_decide (Metric x method = Metric y m) = false) as Hf
        by (intros; apply bool_decide_false; congruence).
      by rewrite !Hf.
Qed.
Lemma balanced_instrumented {A} method (m : Go (sys S E LaunchCall) A) :
  balanced m → balanced (instrumented tel method m).
Proof. intros Hm. apply balanced_defer; [done|]. intros o. apply balanced_observe. Qed.

(** A manager all of whose methods are balanced *)
Class BalancedPool (pm : PoolManager (sys S E LaunchCall)) : Prop := {
  bal_status : balanced (GetStatus pm);
  bal_set st : balanced (SetStatus pm st);
  bal_create : balanced (pm_CreateNode pm);
  bal_delete id : balanced (pm_DeleteNode pm id) }.

Lemma newPoolManager_balanced GitCommit k pool : BalancedPool (newPoolManager GitCommit k pool).
Proof.
  constructor; intros; apply balanced_instrumented, balanced_defer; intros.
  all: try apply balanced_log.
  all: try match goal with |- balanced (match ?o with _ => _ end) => destruct o; try apply balanced_log end.
  all: apply balanced_emits; cbn [EventingPoolManager ConcretePoolManager GetStatus SetStatus pm_CreateNode pm_DeleteNode].
  all: try apply emits_panic.
  all: unfold cpm_GetStatus, cpm_SetStatus, epm_CreateNode, epm_DeleteNode, Eventf;
    cbn [ConcretePoolManager pm_CreateNode pm_DeleteNode];
    unfold cpm_CreateNode, cpm_DeleteNode, GenerateNode; by emits_solve.
Qed.

Lemma balanced_reconcile_with phase pm `{!BalancedPool pm} : balanced (reconcile_with phase pm).
Proof.
  apply balanced_bind; [apply bal_status|]. intros st.
  assert (∀ A (a : A), balanced (mret (M:=Go (sys S E LaunchCall)) a)) as Hret
    by (intros; apply balanced_emits, emits_ret).
  repeat case_match; apply balanced_bind; intros; try apply Hret; try apply bal_set;
    apply balanced_for_each; intros x; [apply bal_delete | apply balanced_bind; [apply bal_create | intros; apply Hret] |].
  destruct (Nodes st !! x); [apply bal_delete | apply balanced_emits, emits_panic].
Qed.
End Balanced.

(** * Properties *)

(** A reconciliation of the decorated launch controller does nothing in a
    kluster that is neither running nor terminating; otherwise, if it ends
    without an error, it performed the actions of its pools one pool after the
    other, each for a list of servers OpenStack reported, and asked for a
    requeue if one of the pools did. *)
Theorem LaunchController_result {S E} `{!Machine LaunchCall E} GitCommit k (s : sys S E LaunchCall) :
  (∀ pool, pool ∈ NodePools (Spec k) → 0 <= np_Size pool < 2 ^ 63) →
  (∀ pool nodes, reported k pool nodes → Z.of_nat (length nodes) < 2 ^ 63) →
  wp (LaunchController GitCommit k) (λ o s', match o with
    | Ret b =>
        if decide (Phase (Status k) = KlusterPhaseRunning ∨ Phase (Status k) = KlusterPhaseTerminating)
        then ∃ reports, Forall2 (reported k) (NodePools (Spec k)) reports ∧
          actions s' = actions s ++ kluster_actions k (NodePools (Spec k)) reports ∧
          b = kluster_requeue k (NodePools (Spec k)) reports
        else b = false ∧ actions s' = actions s
    | Fail _ => Phase (Status k) = KlusterPhaseRunning ∨ Phase (Status k) = KlusterPhaseTerminating
    | Panic _ => False
    end) s.
Proof.
  intros Hs Hl. apply (wp_instrumented tel actions), (wp_logged tel actions).
  unfold LaunchReconcile. case_decide as Hp; [|by apply wp_ret; intros s2 -> s3 ->].
  eapply wp_mono; [by apply reconcile_pools|].
  intros [b|e|w] s1 H1 s2 H2 s3 H3; [|done..]. by rewrite H3, H2.
Qed.

(** In every run of the launch controller, for every method, the total
    count of calls grows by as much as the successful and the failed counts
    together, whatever the cloud and the API server reply. *)
Theorem LaunchController_balanced {S E} `{!Machine LaunchCall E} GitCommit k :
  balanced (LaunchController (S:=S) (E:=E) GitCommit k).
Proof.
  apply balanced_instrumented, balanced_defer; [|intros; apply balanced_log].
  unfold LaunchReconcile. case_decide; [|apply balanced_emits, emits_ret].
  apply balanced_for_fold. intros b pool. apply balanced_bind.
  - apply balanced_reconcile_with, newPoolManager_balanced.
  - intros. apply balanced_emits, emits_ret.
Qed.

(** What [replace_info] finds *)
Lemma replace_info_Some new infos infos' :
  replace_info new infos = Some infos' ↔
  ∃ pre cur post, infos = pre ++ cur :: post ∧ infos' = pre ++ new :: post ∧
    Forall (λ i, npi_Name i ≠ npi_Name new) pre ∧ npi_Name cur = npi_Name new ∧ cur ≠ new.
Proof.
  revert infos'. induction infos as [|i infos IH]; intros infos'; simpl.
  - split; [done|]. intros ([|] & ? & ? & ? & _); done.
  - case_decide as Hn; [case_decide as Hi|].
    + split; [done|]. intros ([|p pre] & cur & post & [= -> ->] & _ & Hpre & Hc & Hne); [done|].
      apply Forall_cons in Hpre. naive_solver.
    + split.
      * intros [= <-]. exists [], i, infos. by split_and!.
      * intros ([|p pre] & cur & post & [= -> ->] & -> & Hpre & Hc & Hne); [done|].
        apply Forall_cons in Hpre. naive_solver.
    + rewrite fmap_Some. split.
      * intros (l & (pre & cur & post & -> & -> & ? & ? & ?)%IH & ->).
        exists (i :: pre), cur, post. rewrite Forall_cons. by split_and!.
      * intros ([|p pre] & cur & post & [= -> ->] & -> & Hpre & Hc & Hne); [done|].
        apply Forall_cons in Hpre as [_ Hpre].
        exists (pre ++ new :: post). split; [|done]. apply IH. by exists pre, cur, post.
Qed.

(** [SetStatus] writes the counts of the pool into the first entry of
    the kluster's status that has the pool's name and leaves every other entry
    and every other field of the stored kluster as it is; it writes nothing
    when there is no such entry or when the entry is already up to date. *)
Theorem SetStatus_update {S E} `{!Machine LaunchCall E} k pool st (s : sys S E LaunchCall) :
  let get := LKlusterGet (Namespace (Meta k)) (Name (Meta k)) in
  let new := new_info pool st in
  wp (cpm_SetStatus k pool st) (λ o s',
    (∃ err, o = Fail err ∧ trace s' = trace s ++ [get]) ∨
    (o = Ret tt ∧ trace s' = trace s ++ [get] ∧ ∃ e e' copy, answer get e = (e', Ok copy) ∧
       ∀ pre cur post, st_NodePools (Status copy) = pre ++ cur :: post →
         Forall (λ i, npi_Name i ≠ npi_Name new) pre → npi_Name cur = npi_Name new → cur = new) ∨
    ∃ e e' copy pre cur post, answer get e = (e', Ok copy) ∧
      st_NodePools (Status copy) = pre ++ cur :: post ∧
      Forall (λ i, npi_Name i ≠ npi_Name new) pre ∧ npi_Name cur = npi_Name new ∧ cur ≠ new ∧
      trace s' = trace s ++ [get; LKlusterUpdate (set_Status (with_st_NodePools (pre ++ new :: post)) copy)]) s.
Proof.
  intros get new. unfold cpm_SetStatus. apply wp_bind. refine (wp_perform get _ _ _).
  intros e r Ha. cbn [resp launch_iface get] in r. destruct r as [copy|err]; cbn [of_reply]; [|left; eauto].
  fold new. destruct (replace_info new (st_NodePools (Status copy))) as [infos|] eqn:Hr.
  - apply replace_info_Some in Hr. destruct Hr as (pre & cur & post & Hc & -> & Hpre & Hn & Hne).
    set (k' := set_Status _ copy). apply wp_bind. refine (wp_perform (LKlusterUpdate k') _ _ _).
    intros e2 r2 _. cbn [resp launch_iface] in r2.
    destruct r2; cbn [of_reply]; [apply wp_ret|]; right; right;
      exists (env s), e, copy, pre, cur, post; cbn [trace]; rewrite <- app_assoc; by split_and!.
  - apply wp_ret. right; left. split_and!; [done..|]. exists (env s), e, copy. split; [done|].
    intros pre cur post Hc Hpre Hn. destruct (decide (cur = new)); [done|]. exfalso.
    assert (replace_info new (st_NodePools (Status copy)) = Some (pre ++ new :: post)) by
      (apply replace_info_Some; by exists pre, cur, post).
    congruence.
Qed.

(** C8: one reconciliation of a pool with an acceptable size.  In a
    terminating kluster it deletes every node of the pool; otherwise it creates
    exactly as many nodes as the pool lacks, or deletes exactly the surplus
    from the front of the list, or does neither.  A reconciliation that fails
    has done an initial part of these actions; none panics.  A requeue is
    requested exactly when there was something to do or a node is on its way
    up or down. *)
Theorem reconcilePool_actions {S E} `{!Machine LaunchCall E} GitCommit k pool (s : sys S E LaunchCall) :
  0 <= np_Size pool < 2 ^ 63 →
  (∀ nodes, reported k pool nodes → Z.of_nat (length nodes) < 2 ^ 63) →
  wp (reconcilePool GitCommit k pool)
    (reconcile_post k pool actions (reported k pool) (Phase (Status k)) s) s.
Proof. apply reconcilePool_spec. Qed.

(** C10: creating a node reads the secret of the kluster, and boots a server only
    with user data transpiled from the node template, rendered for the kluster
    and a secret with all required fields; a creation that ends before, for a
    secret that lacks one in particular, boots none. *)
Theorem CreateNode_boots {S E} `{!Machine LaunchCall E} GitCommit k pool (s : sys S E LaunchCall) :
  let get := LSecretGet (Namespace (Meta k)) (Name (Meta k)) in
  wp (cpm_CreateNode GitCommit k pool) (λ o s',
    (∃ err, o = Fail err ∧ actions s' = actions s) ∨
    ∃ e secret yaml e1 e2 userdata,
      answer get (env s) = (e, Ok secret) ∧ Forall (λ f, is_Some (secret !! f)) requiredNodeSecrets ∧
      node_yaml (node_data GitCommit k secret) = Some yaml ∧ answer (LTranspile yaml) e1 = (e2, Ok userdata) ∧
      trace s' = trace s ++ [get; LTranspile yaml; LOs (OsCreateNode k pool userdata)]) s.
Proof.
  intros get. unfold cpm_CreateNode. apply wp_bind. refine (wp_perform get _ _ _). intros e r Ha.
  cbn [resp launch_iface get] in r. destruct r as [secret|err]; cbn [of_reply].
  2: { left. exists err. split; [done|]. by rewrite actions_snoc, app_nil_r. }
  apply wp_bind. unfold GenerateNode. destruct (missing_field requiredNodeSecrets secret) eqn:Hm.
  { apply wp_fail. left. eexists. split; [done|]. by rewrite actions_snoc, app_nil_r. }
  destruct (node_yaml _) as [yaml|] eqn:Hy.
  2: { apply wp_fail. left. eexists. split; [done|]. by rewrite actions_snoc, app_nil_r. }
  refine (wp_perform (LTranspile yaml) _ _ _). intros e1 r1 Ht. cbn [env trace mem] in *.
  cbn [resp launch_iface] in r1. destruct r1 as [userdata|err]; cbn [of_reply].
  2: { left. exists err. split; [done|]. by rewrite !actions_snoc, !app_nil_r, omap_app, app_nil_r. }
  refine (wp_perform (LOs (OsCreateNode k pool userdata)) _ _ _). intros e2 r2 _. cbn [trace]. right.
  exists e, secret, yaml, e, e1, userdata. split_and!; [done| |done|done|by rewrite <- !app_assoc].
  by apply missing_field_None.
Qed.

(** * A concrete cloud for the witnesses: it lists the nodes it is given. *)
Definition demo_copy (infos : list NodePoolInfo) : Kluster :=
  set_Status (with_st_NodePools infos) demo_kluster.
Definition demo_secret : gmap string string := list_to_map ((λ f, (f, f)) <$> requiredNodeSecrets).

Definition demo_nova (nodes : list Node) : Machine LaunchCall unit := fun c e =>
  (e, match c return reply (resp c) with
      | LOs c => match c return reply (resp (LOs c)) with
                 | OsGetNodes _ _ => Ok nodes
                 | OsCreateNode _ _ _ => Ok "new"
                 | OsDeleteNode _ _ => Ok tt
                 | OsGetProject _ => Bad (ErrNew "unused")
                 | OsGetRegion => Bad (ErrNew "unused")
                 | OsGetRouters _ => Bad (ErrNew "unused")
                 | OsDeleteUser _ _ => Bad (ErrNew "unused")
                 | OsCreateKlusterServiceUser _ _ _ _ => Bad (ErrNew "unused")
                 | OsGetKubernikusCatalogEntry => Bad (ErrNew "unused")
                 | OsGetSecurityGroupID _ _ => Bad (ErrNew "unused")
                 end
      | LKlusterGet _ _ => Ok (demo_copy [])
      | LKlusterUpdate k => Ok k
      | LSecretGet _ _ => Ok demo_secret
      | LTranspile _ => Ok "userdata"
      | LEvent _ _ _ => Ok tt
      | LTel _ => Ok tt
      end).

Definition demo_running : Kluster :=
  set_Status (with_phase KlusterPhaseRunning "") (set_Spec (with_NodePools [demo_pool]) demo_kluster).
Definition demo_start : sys unit unit LaunchCall := Sys tt tt [].

Lemma demo_reported nodes k p l : reported (E:=unit) (Machine0:=demo_nova nodes) k p l → l = nodes.
Proof. by intros (e & e' & [= _ <-]). Qed.

Lemma reconcilePool_actions_witness :
  actions (fst (reconcilePool (Machine0:=demo_nova [demo_node "a"]) "git" demo_running demo_pool demo_start)) = [ACreate demo_running demo_pool].
Proof.
  pose proof (reconcilePool_actions (Machine0:=demo_nova [demo_node "a"]) "git" demo_running demo_pool demo_start) as H.
  destruct (reconcilePool (Machine0:=demo_nova [demo_node "a"]) "git" demo_running demo_pool demo_start) as [s' o] eqn:Hrun.
  pose proof (wp_elim _ _ _ _ _ (H ltac:(simpl; lia) ltac:(intros l Hl; apply demo_reported in Hl as ->; simpl; lia)) Hrun) as Hp.
  assert (∃ st b, o = Ret (st, b)) as (st & b & ->).
  { apply (f_equal snd) in Hrun. vm_compute in Hrun. subst o. eauto. }
  destruct Hp as (nodes & Hl & _ & Ha & _). apply demo_reported in Hl as ->. exact Ha.
Defined.

Lemma LaunchController_result_witness :
  actions (fst (LaunchController (Machine0:=demo_nova [demo_node "a"]) "git" demo_running demo_start)) = [ACreate demo_running demo_pool].
Proof.
  pose proof (LaunchController_result (Machine0:=demo_nova [demo_node "a"]) "git" demo_running demo_start) as H.
  destruct (LaunchController (Machine0:=demo_nova [demo_node "a"]) "git" demo_running demo_start) as [s' o] eqn:Hrun.
  lapply H; [clear H; intros H|by intros pool ->%list_elem_of_singleton; simpl; lia].
  lapply H; [clear H; intros H|intros pool l Hl; apply demo_reported in Hl as ->; simpl; lia].
  pose proof (wp_elim _ _ _ _ _ H Hrun) as Hp. cbv beta in Hp.
  assert (∃ b, o = Ret b) as (b & ->).
  { apply (f_equal snd) in Hrun. vm_compute in Hrun. subst o. eauto. }
  rewrite decide_True in Hp by (by left). destruct Hp as (reports & Hr & Ha & _).
  apply Forall2_cons_inv_l in Hr as (l & ? & Hl & ->%Forall2_nil_inv_l & ->).
  apply demo_reported in Hl as ->. exact Ha.
Defined.

(** The size of a pool is not validated on its way in: the specification
    accepts a negative one. *)
Definition demo_negative : NodePool :=
  {| np_Config := np_Config demo_pool; np_Flavor := "f"; np_Image := "i"; np_Name := "p"; np_Size := -1 |}.

