(* ===== verification/Convergence.v ===== *)
(** [pkg/controller/launch] against a compute service: what the actions of the
    launch controller do to the number of servers.

    The service is an interface, [Cloud]: it lists the servers it has, a server
    it creates counts, a server it deletes counts no more.  The file proves a
    second contract for the pool manager over it and concludes how
    reconciliations converge, and where they do not. *)
From S2P Require Import Prelude GoStrings Models Telemetry Openstack Ignition Launch.
Local Open Scope Z_scope.

(** The servers that count towards the size of their pool *)
Definition live_ids (nodes : list Node) : list string := nd_ID <$> List.filter live nodes.
Definition without (id : string) (l : list string) : list string := List.filter (λ x, bool_decide (x ≠ id)) l.

Lemma count_live_ids nodes : count live nodes = Z.of_nat (length (live_ids nodes)).
Proof. unfold count, live_ids. by rewrite length_fmap. Qed.

Lemma live_ids_NoDup l : NoDup (nodeIDs l) → NoDup (live_ids l).
Proof.
  unfold nodeIDs, live_ids. induction l as [|n l IH]; [constructor|].
  rewrite fmap_cons. intros [Hn Hl]%NoDup_cons. cbn [List.filter]. destruct (live n); [|by apply IH].
  rewrite fmap_cons. constructor; [|by apply IH].
  intros (m & Hm & Hin)%list_elem_of_fmap. apply list_elem_of_In, filter_In in Hin as [Hin _].
  apply Hn, list_elem_of_fmap. exists m. split; [done|]. by apply list_elem_of_In.
Qed.
Lemma live_ids_all l : Forall (λ n, live n = true) l → live_ids l = nodeIDs l.
Proof.
  intros Hall. unfold live_ids, nodeIDs. f_equal. induction Hall as [|n l Hn _ IH]; [done|]. cbn [List.filter]. by rewrite Hn, IH.
Qed.

Class Cloud (E : Type) `{!Machine LaunchCall E} (k : Kluster) (pool : NodePool) (servers : E → list Node) : Prop := {
  cloud_list e e' r : answer (LOs (OsGetNodes k pool)) e = (e', r) → servers e' = servers e ∧
    match r with Ok l => l = servers e | Bad _ => True end;
  cloud_create u e e' r : answer (LOs (OsCreateNode k pool u)) e = (e', r) →
    match r with Ok id => live_ids (servers e') = live_ids (servers e) ++ [id] | Bad _ => servers e' = servers e end;
  cloud_delete id e e' r : answer (LOs (OsDeleteNode k id)) e = (e', r) →
    match r with Ok _ => live_ids (servers e') = without id (live_ids (servers e)) | Bad _ => servers e' = servers e end;
  cloud_other c e e' r : (∀ o, c ≠ LOs o) → answer c e = (e', r) → servers e' = servers e }.

Section Contract.
Context {S E : Type} `{!Machine LaunchCall E} (k : Kluster) (pool : NodePool) (servers : E → list Node) `{!Cloud E k pool servers}.
Implicit Types s : sys S E LaunchCall.
Definition seen s : list Node := servers (env s).

(** What the methods of a pool manager do to the servers *)
Definition cloud_contract : contract (list Node) :=
  {| c_status a o b := b = a ∧ match o with Ret st => st = status_of pool a | Fail _ => True | Panic _ => False end;
     c_set _ a o b := b = a ∧ match o with Panic _ => False | _ => True end;
     c_create a o b := match o with
                       | Ret id => live_ids b = live_ids a ++ [id]
                       | Fail _ => b = a
                       | Panic _ => False
                       end;
     c_delete id a o b := match o with
                          | Ret _ => live_ids b = without id (live_ids a)
                          | Fail _ => b = a
                          | Panic _ => False
                          end;
     c_no_panic _ _ _ H := proj2 H |}.

(** A call that is none of OpenStack's leaves the servers alone. *)
Lemma wp_other (c : LaunchCall) (Q : outcome (resp c) → sys S E LaunchCall → Prop) s :
  (∀ o, c ≠ LOs o) → (∀ r s', seen s' = seen s → Q (of_reply r) s') → wp (perform c) Q s.
Proof. intros Hc HQ. apply wp_perform. intros e' r Ha. apply HQ. by apply (cloud_other (k:=k) (pool:=pool) (servers:=servers) c _ _ r). Qed.

#[export] Instance cloud_concrete GitCommit : Implements (ConcretePoolManager GitCommit k pool) seen cloud_contract.
Proof.
  constructor; cbn [ConcretePoolManager GetStatus SetStatus pm_CreateNode pm_DeleteNode].
  - intros s. apply wp_bind. refine (wp_perform (LOs (OsGetNodes k pool)) _ _ _). intros e' r Ha.
    destruct (cloud_list _ _ _ Ha) as [H1 H2]. cbn [resp launch_iface openstack_iface] in r.
    destruct r; cbn [of_reply]; [apply wp_ret; by subst|done].
  - intros st s. apply wp_bind. refine (wp_other (LKlusterGet _ _) _ _ _ _); [done|]. intros r s1 H1.
    cbn [resp launch_iface] in r. destruct r as [copy|]; cbn [of_reply]; [|done]. destruct (replace_info _ _); [|by apply wp_ret].
    apply wp_bind. refine (wp_other (LKlusterUpdate _) _ _ _ _); [done|]. intros r s2 H2.
    destruct r; cbn [of_reply]; [apply wp_ret|]; (split; [congruence|done]).
  - intros s. apply wp_bind. refine (wp_other (LSecretGet _ _) _ _ _ _); [done|]. intros r s1 H1.
    cbn [resp launch_iface] in r. destruct r as [secret|]; cbn [of_reply]; [|done]. apply wp_bind. unfold GenerateNode.
    destruct (missing_field _ _); [by apply wp_fail|]. destruct (node_yaml _) as [yaml|]; [|by apply wp_fail].
    refine (wp_other (LTranspile _) _ _ _ _); [done|]. intros r s2 H2. cbn [resp launch_iface] in r.
    destruct r as [u|]; cbn [of_reply]; [|cbn; congruence].
    refine (wp_perform (LOs (OsCreateNode k pool u)) _ _ _). intros e' r Ha. pose proof (cloud_create _ _ _ _ Ha) as Hc.
    cbn [resp launch_iface openstack_iface] in r. unfold seen in *. destruct r; cbn in *; congruence.
  - intros id s. refine (wp_perform (LOs (OsDeleteNode k id)) _ _ _). intros e' r Ha. pose proof (cloud_delete _ _ _ _ Ha) as Hc.
    cbn [resp launch_iface openstack_iface] in r. by destruct r.
Qed.

Lemma perform_quiet (c : LaunchCall) s : (∀ o, c ≠ LOs o) → seen (fst (perform c s)) = seen s.
Proof.
  intros Hc. unfold perform. destruct (answer c (env s)) as [e' r] eqn:E0. by apply (cloud_other (k:=k) (pool:=pool) (servers:=servers) c _ _ r).
Qed.
#[export] Instance cloud_tel : Transparent (tel (S:=S) (E:=E)) seen.
Proof.
  intros t s. pose proof (perform_quiet (LTel t) s ltac:(done)) as H. unfold tel, mbind, go_bind, attempt.
  by destruct (perform (LTel t) s) as [s' [|e|w]] eqn:Hp; cbn in *; [| |unfold perform in Hp; destruct (answer _ _) as [? []]].
Qed.
Lemma cloud_events b r msg s : snd (Eventf b r msg s) = Ret tt ∧ seen (fst (Eventf b r msg s)) = seen s.
Proof.
  pose proof (perform_quiet (LEvent b r msg) s ltac:(done)) as H. unfold Eventf, mbind, go_bind, attempt.
  by destruct (perform (LEvent b r msg) s) as [s' [|e|w]] eqn:Hp; cbn in *; [| |unfold perform in Hp; destruct (answer _ _) as [? []]].
Qed.
#[export] Instance cloud_manager GitCommit : Implements (newPoolManager GitCommit k pool) seen cloud_contract.
Proof. apply newPoolManager_implements; [apply cloud_concrete|apply cloud_tel|apply cloud_events]. Qed.
End Contract.

(** * The loops *)
Definition minus (ids l : list string) : list string := List.filter (λ x, bool_decide (x ∉ ids)) l.

Lemma minus_nil l : minus [] l = l.
Proof. unfold minus. induction l as [|x l IH]; [done|]. cbn. by rewrite IH. Qed.
Lemma minus_cons id ids l : minus ids (without id l) = minus (id :: ids) l.
Proof.
  unfold minus, without. induction l as [|x l IH]; [done|]. cbn. case_bool_decide as H1; cbn.
  - rewrite IH. by rewrite (bool_decide_ext (x ∉ id :: ids) (x ∉ ids)) by set_solver.
  - rewrite IH. by rewrite (bool_decide_false (x ∉ id :: ids)) by set_solver.
Qed.
Lemma minus_length ids l : NoDup l → (length l - length ids <= length (minus ids l) <= length l)%nat.
Proof.
  intros Hl. unfold minus. split; [|apply length_filter_le].
  revert l Hl. induction ids as [|id ids IH]; intros l Hl; [fold (minus [] l); rewrite minus_nil; simpl; lia|].
  fold (minus (id :: ids) l). rewrite <- minus_cons.
  assert (NoDup (without id l) ∧ length l - 1 <= length (without id l))%nat as [Hn Hlen].
  { unfold without. clear IH. induction Hl as [|x l Hx Hl [IH1 IH2]]; [split; [constructor|simpl; lia]|]. cbn. case_bool_decide as E0.
    - split; [constructor; [|done]|simpl; lia]. intros [Hin _]%list_elem_of_In%filter_In. by apply Hx, list_elem_of_In.
    - subst x. split; [done|].
      assert (List.filter (λ y, bool_decide (y ≠ id)) l = l) as ->; [|simpl; lia].
      clear -Hx. induction l as [|y l IH]; [done|]. apply not_elem_of_cons in Hx as [Hy Hx]. cbn.
      rewrite bool_decide_true by done. by rewrite IH. }
  specialize (IH _ Hn). unfold minus in *. simpl. lia.
Qed.
(** The first ones of all *)
Lemma minus_app ids a b : minus ids (a ++ b) = minus ids a ++ minus ids b.
Proof. apply List.filter_app. Qed.
Lemma minus_all ids a : a ⊆ ids → minus ids a = [].
Proof.
  unfold minus. induction a as [|x a IH]; [done|]. intros Ha. cbn. rewrite bool_decide_false by (intros H; apply H, Ha; left).
  apply IH. set_solver.
Qed.
Lemma minus_none ids b : (∀ x, x ∈ b → x ∉ ids) → minus ids b = b.
Proof.
  unfold minus. induction b as [|x b IH]; [done|]. intros Hb. cbn. rewrite bool_decide_true by (apply Hb; left).
  rewrite IH; [done|]. intros y Hy. apply Hb. by right.
Qed.
Lemma minus_take n l : NoDup l → minus (take n l) l = drop n l.
Proof.
  intros Hl. transitivity (minus (take n l) (take n l ++ drop n l)); [by rewrite take_drop|].
  rewrite minus_app, minus_all by done. apply minus_none.
  rewrite <- (take_drop n l) in Hl. apply NoDup_app in Hl as (_ & Hd & _). intros x Hx Ht. by apply (Hd x).
Qed.

Lemma for_each_index {S} (g : string → Go S unit) l n i s : (i + n <= length l)%nat →
  for_each (λ j, match l !! j with Some id => g id | None => panic "index out of range" end) (seq i n) s =
  for_each g (take n (drop i l)) s.
Proof.
  revert i s. induction n as [|n IH]; intros i s Hn; [done|]. cbn [seq].
  destruct (lookup_lt_is_Some_2 l i) as [x Hx]; [lia|]. rewrite (drop_S l x i Hx). cbn [take for_each].
  rewrite Hx. unfold mbind, go_bind. destruct (g x s) as [s' [[]|e|w]]; [|done..]. apply IH. lia.
Qed.

Section Converge.
Context {S : Type} (k : Kluster) (pool : NodePool) (pm : PoolManager S) (v : S → list Node) `{!Implements pm v (cloud_contract pool)}.

Lemma create_loop {A} (l : list A) s :
  wp (for_each (fun _ => _ ← pm_CreateNode pm; mret tt) l) (λ o s', match o with
    | Ret _ => count live (v s') = count live (v s) + Z.of_nat (length l)
    | Fail _ => count live (v s) <= count live (v s') <= count live (v s) + Z.of_nat (length l)
    | Panic _ => False
    end) s.
Proof.
  revert s. induction l as [|x l IH]; intros s; cbn [for_each]; [apply wp_ret; simpl; lia|].
  apply wp_bind, wp_bind. eapply wp_mono; [apply (impl_create (C:=cloud_contract pool))|].
  intros [id|e|w] s1 H1; cbn in H1; [|rewrite H1; simpl; lia|done].
  assert (count live (v s1) = count live (v s) + 1) as Hc by (rewrite !count_live_ids, H1, length_app; simpl; lia).
  apply wp_ret. eapply wp_mono; [apply IH|]. intros [[]|e|w] s2 H2; [| |done]; simpl; lia.
Qed.

Lemma delete_loop ids s :
  wp (for_each (pm_DeleteNode pm) ids) (λ o s', match o with
    | Ret _ => live_ids (v s') = minus ids (live_ids (v s))
    | Fail _ => ∃ l, (length l <= length ids)%nat ∧ live_ids (v s') = minus l (live_ids (v s))
    | Panic _ => False
    end) s.
Proof.
  revert s. induction ids as [|id ids IH]; intros s; cbn [for_each]; [apply wp_ret; by rewrite minus_nil|].
  apply wp_bind. eapply wp_mono; [apply (impl_delete (C:=cloud_contract pool))|].
  intros [[]|e|w] s1 H1; cbn in H1; [|exists []; rewrite H1, minus_nil; simpl; split; [lia|done]|done].
  eapply wp_mono; [apply IH|]. intros [[]|e|w] s2 H2; [| |done]; rewrite H1 in H2.
  - by rewrite H2, minus_cons.
  - destruct H2 as (l & Hl & H2). exists (id :: l). rewrite H2, minus_cons. simpl. split; [lia|done].
Qed.

Context (phase : KlusterPhase).
Hypothesis Hphase : phase ≠ KlusterPhaseTerminating.
Hypothesis Hsize : 0 <= np_Size pool < 2 ^ 63.

(** One reconciliation of a pool brings the number of servers towards the
    size and never past it. *)
Lemma reconcile_towards s : Z.of_nat (length (v s)) < 2 ^ 63 → NoDup (nodeIDs (v s)) →
  wp (reconcile_with phase pm) (λ o s',
    Z.min (count live (v s)) (np_Size pool) <= count live (v s') <= Z.max (count live (v s)) (np_Size pool) ∧
    match o with
    | Ret _ => count live (v s) <= np_Size pool ∨ Forall (λ n, live n = true) (v s) → count live (v s') = np_Size pool
    | Fail _ => True
    | Panic _ => False
    end) s.
Proof.
  intros Hlen Hnd. unfold reconcile_with. apply wp_bind. eapply wp_mono; [apply (impl_status (C:=cloud_contract pool))|].
  intros [st|e|w] s1 [H1 Hst]; [|rewrite H1; split; [lia|done]|done]. subst st.
  cbn [Nodes Needed UnNeeded ps_Starting ps_Stopping status_of]. rewrite decide_False by done.
  rewrite (needed_live pool (v s) Hsize Hlen), (unNeeded_live pool (v s) Hsize Hlen).
  pose proof (count_range (v s) live) as Hc.
  destruct (Z.ltb_spec 0 (Z.max 0 (np_Size pool - count live (v s)))) as [Hneed|Hneed];
    [|destruct (Z.ltb_spec 0 (Z.max 0 (count live (v s) - np_Size pool))) as [Hun|Hun]].
  - apply wp_bind. eapply wp_mono; [apply create_loop|]. rewrite length_seq, H1. cbv beta.
    intros [[]|e|w] s2 H2; [apply wp_ret|..|done]; cbn in H2; (split; [lia|]); [intros _; lia|done].
  - apply wp_bind. apply wp_intro. intros s2 o.
    rewrite (for_each_index (pm_DeleteNode pm)) by (unfold nodeIDs; rewrite length_fmap; lia). rewrite drop_0. intros Hrun.
    pose proof (wp_elim _ _ _ _ _ (delete_loop (take (Z.to_nat (Z.max 0 (count live (v s) - np_Size pool))) (nodeIDs (v s))) s1) Hrun) as Hd.
    rewrite H1 in Hd.
    pose proof (live_ids_NoDup _ Hnd) as Hnl.
    destruct o as [[]|e|w]; cbn in Hd; [apply wp_ret| |done].
    + pose proof (minus_length (take (Z.to_nat (Z.max 0 (count live (v s) - np_Size pool))) (nodeIDs (v s))) _ Hnl) as Hm.
      rewrite <- Hd, length_take in Hm. rewrite !count_live_ids in *. split; [lia|].
      intros [Hle|Hall]; [lia|].
      pose proof (live_ids_all _ Hall) as Heq.
      rewrite Hd. rewrite Heq in *. rewrite minus_take, length_drop by done. lia.
    + destruct Hd as (l & Hl & Hd). pose proof (minus_length l _ Hnl) as Hm. rewrite <- Hd in Hm. rewrite length_take in Hl.
      rewrite !count_live_ids in *. split; [lia|done].
  - apply wp_bind. eapply wp_mono; [apply (impl_set (C:=cloud_contract pool))|].
    intros [[]|e|w] s2 [H2 H3]; [apply wp_ret|..|done]; rewrite H2, H1; (split; [lia|]); [intros _; lia|done].
Qed.
End Converge.

(** * Properties *)


(** * A concrete compute service: its state is its servers. *)
Definition stopping_node (id : string) : Node := {| nd_ID := id; TaskState := "deleting"; VMState := "active"; PowerState := 1 |}.
Definition mark (id : string) (l : list Node) : list Node := (λ n, if decide (nd_ID n = id) then stopping_node id else n) <$> l.
Definition demo_step (c : LaunchCall) (e : list Node) : list Node :=
  match c with
  | LOs (OsCreateNode _ _ _) => e ++ [demo_node "new"]
  | LOs (OsDeleteNode _ id) => mark id e
  | _ => e
  end.
Definition demo_servers : Machine LaunchCall (list Node) := fun c e => (demo_step c e, snd (demo_nova e c tt)).
#[export] Instance demo_servers_cloud k pool : Cloud (Machine0:=demo_servers) (list Node) k pool id.
Proof.
  constructor.
  - by intros e e' r [= <- <-].
  - intros u e e' r [= <- <-]. unfold id, live_ids. by rewrite List.filter_app, fmap_app.
  - intros id' e e' r [= <- <-]. unfold id, live_ids, without, mark. induction e as [|n e IH]; [done|].
    rewrite fmap_cons. cbn [List.filter]. destruct (decide (nd_ID n = id')) as [Hd|Hd].
    + change (live (stopping_node id')) with false. cbv iota. rewrite IH.
      destruct (live n); [|done]. rewrite fmap_cons. cbn [List.filter]. by rewrite bool_decide_false by (intros H; by apply H).
    + destruct (live n); [|done]. rewrite !fmap_cons. cbn [List.filter]. rewrite bool_decide_true by done. by rewrite IH.
  - intros c e e' r Hc [= <- _]. destruct c; try done. by destruct (Hc c).
Qed.


(** The first servers of the list are deleted, also those that are being
    deleted already: with one of these in front a surplus stays. *)
Lemma stopping_hides_surplus :
  let pool := demo_pool in
  let servers := [stopping_node "a"; demo_node "b"; demo_node "c"; demo_node "d"] in
  let '(s', o) := reconcilePool (Machine0:=demo_servers) "git" demo_running pool (Sys tt servers []) in
  np_Size pool = 2 ∧ count live servers = 3 ∧ (∃ st, o = Ret (st, true)) ∧ count live (env s') = 3.
Proof. vm_compute. split_and!; eauto. Qed.
