(* ===== verification/Refresh.v ===== *)
(** [pkg/cmd/kubernikusctl/auth/refresh.go].

    [kubernikusctl auth refresh] finds in the certificates of a kubeconfig
    where and as whom to ask for new credentials.  Terminal, files, Keystone
    and the API are calls; decoding a certificate is a parameter. *)
From S2P Require Import Certificates.
From S2P Require Import Factory KubeClient Prelude GoStrings Models.
Local Open Scope Z_scope.

(** The parts of a kubeconfig that are read; [None] is nil. *)
Record Context := { cx_AuthInfo : string; cx_Cluster : string }.
Record Kubeconfig := {
  Contexts : gmap string Context;
  AuthInfos : gmap string (option string);      (** client certificate data *)
  Clusters : gmap string (option string);       (** CA certificate data *)
  CurrentContext : string }.

(** [RefreshOptions], src/pkg/cmd/kubernikusctl/auth/refresh.go:24-35 *)
Record RefreshOptions := {
  kubeconfigPath : string; context : string; force : bool; url : string;
  IdentityEndpoint : string; Scope_ProjectID : string; Username : string; DomainName : string; Password : string;
  kubeconfig : Kubeconfig }.

Inductive CtlCall :=
| CComplete                                   (** the OpenStack options *)
| CLoadFile (path : string) | CStartingConfig
| CPrompt                                     (** the password is read from the terminal *)
| CParseURL (s : string)
| CSetup (identity project user domain password : string)
| CAuthenticate                               (** yields the token *)
| CGetCredentials (url token name : string)
| CLoad (raw : string)                        (** [clientcmd.Load] *)
| CMerge (into from : Kubeconfig)             (** [mergo.MergeWithOverwrite] *)
| CModifyConfig (c : Kubeconfig).
#[export] Instance ctl_iface : Iface CtlCall := fun c =>
  match c with
  | CComplete | CSetup _ _ _ _ _ | CModifyConfig _ => unit
  | CLoadFile _ | CStartingConfig | CLoad _ | CMerge _ _ => Kubeconfig
  | CPrompt | CParseURL _ | CAuthenticate | CGetCredentials _ _ _ => string
  end.

(** [errors.Wrap] *)
Definition Wrap (msg : string) (err : error) : error := ErrNew (msg +:+ ": " +:+ Error err).
Definition err_no_context (c : string) : error := ErrNew ("Couldn't find context " +:+ c).

Section Detection.
(** [pem.Decode] and [x509.ParseCertificate].
    [parseRawPEM], src/pkg/cmd/kubernikusctl/auth/refresh.go:367-379 *)
Context (parseRawPEM : string -> reply Certificate).
Context (now : Z).
Implicit Types o : RefreshOptions.

Definition bind_reply {A B} (r : reply A) (f : A -> reply B) : reply B :=
  match r with Ok a => f a | Bad e => Bad e end.

(** The look-ups both raw certificates share: the context, its user and its
    cluster, in this order *)
Definition lookup_context o : reply (Context * option string * option string) :=
  match Contexts (kubeconfig o) !! context o with
  | None => Bad (err_no_context (context o))
  | Some cx =>
      match AuthInfos (kubeconfig o) !! cx_AuthInfo cx with
      | None => Bad (ErrNew ("Couldn't find auth-info " +:+ cx_AuthInfo cx +:+ " for context " +:+ context o))
      | Some client =>
          match Clusters (kubeconfig o) !! cx_Cluster cx with
          | None => Bad (ErrNew ("Couldn't find cluster " +:+ cx_Cluster cx))
          | Some ca => Ok (cx, client, ca)
          end
      end
  end.

(** [getRawClientCertificate], src/pkg/cmd/kubernikusctl/auth/refresh.go:272-294 *)
Definition getRawClientCertificate o : reply string :=
  bind_reply (lookup_context o) (fun '(cx, client, _) =>
    match client with
    | None => Bad (ErrNew "Couldn't find client certificate for auth-info ")
    | Some data => Ok data
    end).
(** [getRawCACertificate], src/pkg/cmd/kubernikusctl/auth/refresh.go:296-318 *)
Definition getRawCACertificate o : reply string :=
  bind_reply (lookup_context o) (fun '(cx, _, ca) =>
    match ca with
    | None => Bad (ErrNew ("Couldn't find CA certificate for cluster " +:+ cx_Cluster cx))
    | Some data => Ok data
    end).
(** [getCACertifciate], src/pkg/cmd/kubernikusctl/auth/refresh.go:320-326 *)
Definition getCACertifciate o : reply Certificate := bind_reply (getRawCACertificate o) parseRawPEM.
(** [getClientCertificate], src/pkg/cmd/kubernikusctl/auth/refresh.go:328-334 *)
Definition getClientCertificate o : reply Certificate := bind_reply (getRawClientCertificate o) parseRawPEM.

(** [isKubernikusContext], src/pkg/cmd/kubernikusctl/auth/refresh.go:202-214 *)
Definition isKubernikusContext o : reply bool :=
  bind_reply (getCACertifciate o) (fun caCert =>
    Ok match OrganizationalUnit (Subject caCert) with
       | u0 :: u1 :: _ => bool_decide (u0 = CA_ISSUER_KUBERNIKUS_IDENTIFIER_0) &&
                          bool_decide (u1 = CA_ISSUER_KUBERNIKUS_IDENTIFIER_1)
       | _ => false
       end).

(** [autoDetectKubernikusOpenstackMetadata], src/pkg/cmd/kubernikusctl/auth/refresh.go:216-225 *)
Definition autoDetectKubernikusOpenstackMetadata o : reply (string * string) :=
  bind_reply (getClientCertificate o) (fun cert =>
    match Province (Subject cert) with
    | p0 :: p1 :: _ => Ok (p0, p1)
    | _ => Bad (ErrNew "Client certificate didn't contain Kubernikus metadata")
    end).

(** [autoDetectKubernikusClientMetadata], src/pkg/cmd/kubernikusctl/auth/refresh.go:227-242 *)
Definition autoDetectKubernikusClientMetadata o : reply (string * string) :=
  bind_reply (getClientCertificate o) (fun cert =>
    if decide (CommonName (Subject cert) = "") then Bad (ErrNew "Client certificate didn't contain username")
    else match Split "@" (CommonName (Subject cert)) with
         | [user; domain] => Ok (user, domain)
         | parts => Bad (ErrNew ("Couldln't extract username/domain from client certificate [" +:+ Join parts " " +:+ "]"))
         end).

(** [autoDetectKubernikusURL], src/pkg/cmd/kubernikusctl/auth/refresh.go:244-254 *)
Definition autoDetectKubernikusURL o : reply string :=
  bind_reply (getClientCertificate o) (fun cert =>
    match Locality (Subject cert) with
    | l0 :: _ => Ok l0
    | [] => Bad (ErrNew "CA certificate didn't contain Kubernikus metadata")
    end).

(** [autoDetectUsername], src/pkg/cmd/kubernikusctl/auth/refresh.go:256-262 *)
Definition autoDetectUsername o : reply string := bind_reply (autoDetectKubernikusClientMetadata o) (fun '(user, _) => Ok user).
(** [autoDetectUserDomainName], src/pkg/cmd/kubernikusctl/auth/refresh.go:264-270 *)
Definition autoDetectUserDomainName o : reply string := bind_reply (autoDetectKubernikusClientMetadata o) (fun '(_, domain) => Ok domain).

(** [isCertificateValid], src/pkg/cmd/kubernikusctl/auth/refresh.go:336-347 *)
Definition isCertificateValid o : reply bool :=
  bind_reply (getClientCertificate o) (fun cert =>
    Ok (negb ((NotAfter cert <? now) || (now <? NotBefore cert)))).

(** * The command *)

Section Command.
Context {E : Type} `{!Machine CtlCall E}.
Abbreviation M := (Go (sys RefreshOptions E CtlCall)).
Definition ccall (c : CtlCall) : M (resp c) := perform c.
Definition wrapped {A} (msg : string) (m : M A) : M A :=
  r ← attempt m; match r with Ok a => mret a | Bad err => fail (Wrap msg err) end.
Definition update (f : RefreshOptions -> RefreshOptions) : M unit := o ← get_mem; set_mem (f o).

Definition set_config (k : Kubeconfig) o : RefreshOptions :=
  {| kubeconfigPath := kubeconfigPath o; context := context o; force := force o; url := url o;
     IdentityEndpoint := IdentityEndpoint o; Scope_ProjectID := Scope_ProjectID o; Username := Username o;
     DomainName := DomainName o; Password := Password o; kubeconfig := k |}.
Definition set_context (c : string) o : RefreshOptions :=
  {| kubeconfigPath := kubeconfigPath o; context := c; force := force o; url := url o;
     IdentityEndpoint := IdentityEndpoint o; Scope_ProjectID := Scope_ProjectID o; Username := Username o;
     DomainName := DomainName o; Password := Password o; kubeconfig := kubeconfig o |}.
Definition set_target (identity project u : string) o : RefreshOptions :=
  {| kubeconfigPath := kubeconfigPath o; context := context o; force := force o; url := u;
     IdentityEndpoint := identity; Scope_ProjectID := project; Username := Username o;
     DomainName := DomainName o; Password := Password o; kubeconfig := kubeconfig o |}.
Definition set_user (user domain password : string) o : RefreshOptions :=
  {| kubeconfigPath := kubeconfigPath o; context := context o; force := force o; url := url o;
     IdentityEndpoint := IdentityEndpoint o; Scope_ProjectID := Scope_ProjectID o; Username := user;
     DomainName := domain; Password := password; kubeconfig := kubeconfig o |}.

(** [Complete], src/pkg/cmd/kubernikusctl/auth/refresh.go:67-92 *)
Definition Complete : M unit :=
  _ ← ccall CComplete;
  o ← get_mem;
  config ← (if decide (kubeconfigPath o ≠ "")
            then wrapped "Loading the specified kubeconfig failed"
                   (wrapped ("Failed to load kubeconfig from " +:+ kubeconfigPath o) (ccall (CLoadFile (kubeconfigPath o))))
            else wrapped "Loading the default kubeconfig failed" (ccall CStartingConfig));
  _ ← update (set_config config);
  _ ← (if decide (context o = "" ∧ CurrentContext config ≠ "") then update (set_context (CurrentContext config)) else mret tt);
  o ← get_mem;
  match Contexts (kubeconfig o) !! context o with
  | None => fail (ErrNew "The context you provided does not exist")
  | Some _ => mret tt
  end.

(** [setupClients], src/pkg/cmd/kubernikusctl/auth/refresh.go:178-193 *)
Definition setupClients : M string :=
  o ← get_mem;
  _ ← ccall (CSetup (IdentityEndpoint o) (Scope_ProjectID o) (Username o) (DomainName o) (Password o));
  ccall CAuthenticate.

(** [mergeAndPersist], src/pkg/cmd/kubernikusctl/auth/refresh.go:349-365 *)
Definition mergeAndPersist (rawConfig : string) : M unit :=
  config ← wrapped ("Couldn't load kubernikus kubeconfig: " +:+ rawConfig) (ccall (CLoad rawConfig));
  o ← get_mem;
  merged ← wrapped "Couldn't merge kubeconfigs" (ccall (CMerge (kubeconfig o) config));
  _ ← update (set_config merged);
  wrapped "Couldn't merge Kubernikus config with kubeconfig" (ccall (CModifyConfig merged)).

(** [Run], src/pkg/cmd/kubernikusctl/auth/refresh.go:94-176 *)
Definition Run : M unit :=
  o ← get_mem;
  match isKubernikusContext o with
  | Bad _ | Ok false => mret tt
  | Ok true =>
      ok ← wrapped "Verification of certifcates failed." (lift_reply (isCertificateValid o));
      if (ok : bool) && negb (force o) then mret tt
      else
        '(identity, project) ← wrapped "Auto-Detection of Openstack auth endpoint failed."
                                 (lift_reply (autoDetectKubernikusOpenstackMetadata o));
        kurl ← wrapped "Auto-Detection of Kubernikus URL caused an error" (lift_reply (autoDetectKubernikusURL o));
        u ← wrapped "Couldn't parse Kubernikus URL. Rerun init." (ccall (CParseURL kurl));
        _ ← update (set_target identity project u);
        user ← wrapped "Auto-Detection of Username failed" (lift_reply (autoDetectUsername o));
        domain ← wrapped "Auto-Detection of user domain failed" (lift_reply (autoDetectUserDomainName o));
        password ← (if decide (Password o = "") then ccall CPrompt else mret (Password o));
        _ ← update (set_user user domain password);
        token ← setupClients;
        kubeconfig ← wrapped "Couldn't fetch credentials from Kubernikus API" (ccall (CGetCredentials u token (context o)));
        wrapped "Couldn't merge existing kubeconfig with fetched credentials" (mergeAndPersist kubeconfig)
  end.
End Command.
End Detection.

(** * Properties *)

Lemma Split_app_general c a b : Split c (a +:+ String c b) = Split c a ++ Split c b.
Proof.
  induction a as [|d a IH]; cbn [String.append Split]; [by rewrite decide_True|].
  case_decide; [by rewrite IH|]. rewrite IH.
  destruct (Split c a) as [|w ws] eqn:E0; [by destruct (Split_nonempty c a)|]. done.
Qed.
Lemma Split_one c a : length (Split c a) = 1%nat ↔ str_has c a = false.
Proof.
  split; [|intros H; by rewrite Split_no_sep].
  induction a as [|d a IH]; [done|]. cbn [Split]. unfold str_has in *. cbn [str_all].
  pose proof (Split_nonempty c a) as Hne. case_decide as Hd.
  - destruct (Split c a); [done|]. cbn. lia.
  - rewrite bool_decide_false by done. cbn [negb andb]. intros Hl. apply IH. by destruct (Split c a).
Qed.

(** The certificate [GetClusterCredentials] asks for, signed by an authority *)
Definition issued (now : Z) (ca : Bundle) (p : Principal) (project location : string) (key serial : nat) : Certificate :=
  bd_Certificate (signed now ca
    {| Sign_ := pr_Name p +:+ "@" +:+ Domain p; cf_Organization := (fun role => "os:" +:+ role) <$> Roles p;
       cf_OrganizationalUnit := []; cf_Province := [AuthURL p; project]; cf_Locality := [location];
       AltDNSNames := []; AltIPs := []; Usages := [ClientAuth]; ValidFor := 24 * 3600000000000 |} key serial).

Section Contracts.
Context (parseRawPEM : string -> reply Certificate) (now : Z).

(** A kubeconfig whose context holds credentials of a kluster *)
Definition holds (o : RefreshOptions) (ca client : Certificate) : Prop :=
  ∃ cx ca_data client_data, Contexts (kubeconfig o) !! context o = Some cx ∧
    AuthInfos (kubeconfig o) !! cx_AuthInfo cx = Some (Some client_data) ∧
    Clusters (kubeconfig o) !! cx_Cluster cx = Some (Some ca_data) ∧
    parseRawPEM ca_data = Ok ca ∧ parseRawPEM client_data = Ok client.

Lemma holds_certificates o ca client : holds o ca client →
  getCACertifciate parseRawPEM o = Ok ca ∧ getClientCertificate parseRawPEM o = Ok client.
Proof.
  intros (cx & d1 & d2 & Hc & Ha & Hcl & H1 & H2).
  unfold getCACertifciate, getClientCertificate, getRawCACertificate, getRawClientCertificate, lookup_context.
  by rewrite Hc, Ha, Hcl.
Qed.


End Contracts.

(** * Concrete runs *)

Definition demo_principal : Principal :=
  {| AuthURL := "https://keystone/v3"; pr_ID := "id"; pr_Name := "user"; Domain := "domain"; pr_Account := "a1"; Roles := [] |}.
Definition demo_ca : Bundle := ca_bundle 0 "k" "ApiServer Clients" 1.
Definition demo_client : Certificate := issued 0 demo_ca demo_principal "project" "https://api" 2 3.
Definition demo_parse (s : string) : reply Certificate :=
  if decide (s = "ca") then Ok (bd_Certificate demo_ca) else Ok demo_client.
Definition demo_options : RefreshOptions :=
  {| kubeconfigPath := ""; context := "k"; force := false; url := ""; IdentityEndpoint := ""; Scope_ProjectID := "";
     Username := ""; DomainName := ""; Password := "";
     kubeconfig := {| Contexts := {["k" := {| cx_AuthInfo := "u"; cx_Cluster := "c" |}]};
                      AuthInfos := {["u" := Some "client"]}; Clusters := {["c" := Some "ca"]}; CurrentContext := "k" |} |}.

