(* ===== verification/Ctl.v ===== *)
(** [pkg/cmd/kubernikusctl] and [pkg/cmd/printers]: the command line client.

    The OpenStack options, the client of the API with the texts it makes of
    errors, what is printed, and the commands.  The terminal, files, Keystone
    and the network are calls.  A message of the server is used as a format. *)
From S2P Require Import Prelude GoStrings Fmt Models ApiModels Handlers.
From S2P Require Import Refresh.
From S2P Require Import Http Operations Encoding JsonModels ApiClient Rest.
Local Open Scope Z_scope.

(** * Printing *)

Definition nl : string := String newline "".
Definition tab : string := String (ascii_of_N 9) "".
Definition println (s : string) : string := s +:+ nl.
(** A list of strings as [%v] prints it *)
Definition shown (l : list string) : string := "[" +:+ Join l " " +:+ "]".

Module Printers.
(** [NodePool.printHuman], src/pkg/api/models/kluster_print.go:81-90 *)
Definition NodePool_printHuman (p : NodePool) : string :=
  println ("Name: " +:+ np_Name p) +:+
  println ("   Flavor: " +:+ tab +:+ np_Flavor p) +:+
  println ("   Image:  " +:+ tab +:+ np_Image p) +:+
  println ("   Size:   " +:+ tab +:+ Itoa (np_Size p)).

(** [NodePool.printTable], src/pkg/api/models/kluster_print.go:92-109 *)
Definition NodePool_printTable (WithHeaders : bool) (p : NodePool) : string :=
  (if WithHeaders then println ("NAME" +:+ tab +:+ "FLAVOR" +:+ tab +:+ "IMAGE" +:+ tab +:+ "SIZE") else "") +:+
  println (np_Name p +:+ tab +:+ np_Flavor p +:+ tab +:+ np_Image p +:+ tab +:+ Itoa (np_Size p)).

(** [NodePoolInfo.printHuman], src/pkg/api/models/kluster_print.go:111-122 *)
Definition NodePoolInfo_printHuman (p : NodePoolInfo) : string :=
  println ("Name: " +:+ npi_Name p) +:+
  println ("   Size: " +:+ tab +:+ Itoa (npi_Size p)) +:+
  println ("   Running: " +:+ tab +:+ Itoa (npi_Running p)) +:+
  println ("   Schedulable: " +:+ tab +:+ Itoa (npi_Schedulable p)) +:+
  println ("   Healthy: " +:+ tab +:+ Itoa (npi_Healthy p)).

Definition concat_strings (l : list string) : string := foldr (fun a b => a +:+ b) "" l.

(** [Println] puts a space between its operands.
    [Kluster.printHuman], src/pkg/api/models/kluster_print.go:31-44 *)
Definition Kluster_printHuman (k : KlusterModel) : string :=
  println ("Cluster name:  " +:+ mk_Name k) +:+
  println ("Cluster state:  " +:+ Phase (mk_Status k)) +:+
  println ("Cluster CIDR:  " +:+ ClusterCIDR (mk_Spec k)) +:+
  println ("Service CIDR:  " +:+ ServiceCIDR (mk_Spec k)) +:+
  println ("Cluster node pools:  " +:+ Itoa (Z.of_nat (length (NodePools (mk_Spec k))))) +:+
  concat_strings (NodePool_printHuman <$> NodePools (mk_Spec k)) +:+
  println "Cluster node pool status: " +:+
  concat_strings (NodePoolInfo_printHuman <$> st_NodePools (mk_Status k)).

(** [Kluster.printTable], src/pkg/api/models/kluster_print.go:46-59 *)
Definition Kluster_printTable (WithHeaders : bool) (k : KlusterModel) : string :=
  (if WithHeaders then println ("NAME" +:+ tab +:+ "STATUS" +:+ tab +:+ "MESSAGE") else "") +:+
  println (mk_Name k +:+ tab +:+ Phase (mk_Status k) +:+ tab +:+ Message (mk_Status k)).

(** Both printable types support the table format.
    [PrintTable], src/pkg/cmd/printers/printable.go:23-34 *)
Fixpoint PrintTable_from {A} (print : bool -> A -> string) (first : bool) (l : list A) : string :=
  match l with
  | [] => ""
  | item :: l' => print first item +:+ PrintTable_from print false l'
  end.
Definition PrintTable {A} (print : bool -> A -> string) (l : list A) : string := PrintTable_from print true l.
End Printers.

(** The values of pointers up to the first nil one *)
Fixpoint up_to_nil {A} (l : list (option A)) : list A :=
  match l with Some x :: l => x :: up_to_nil l | _ => [] end.

(** * OpenStack options *)

Record TokenScope := { ProjectID_ : string; ProjectName : string; ScopeDomainID : string; ScopeDomainName : string }.
(** [OpenstackClient], src/pkg/cmd/kubernikusctl/common/openstack.go:19-23 *)
Record AuthOptions := {
  ao_IdentityEndpoint : string; ao_Username : string; UserID : string; ao_Password : string;
  DomainID : string; ao_DomainName : string; Scope : TokenScope }.

(** A parsed URL, as far as it is read *)
Record URL := { u_Scheme : string; u_Host : string; u_EscapedPath : string; u_String : string }.
Record Endpoint := { ep_Interface : string; ep_URL : string }.
Record CatalogEntry := { ce_Type : string; Endpoints : list Endpoint }.

Inductive CtlIO :=
| ONewClient (identity : string)              (** the provider *)
| ONewIdentityV3
| OAuthenticate (o : AuthOptions)             (** yields the token *)
| OCatalog (o : AuthOptions)
| OExchange (r : HTTPRequest)
| OLoadFile (path : string) | OStartingConfig
| OPrompt                                     (** the password is read from the terminal *)
| OLoad (raw : string)                        (** [clientcmd.Load] *)
| OMerge (into from : Kubeconfig)             (** [mergo.MergeWithOverwrite] *)
| OModifyConfig (path : string) (c : Kubeconfig)
| OReadFile (path : string) | OReadStdin
| OPrint (text : string).
#[export] Instance ctlio_iface : Iface CtlIO := fun c =>
  match c with
  | ONewClient _ | ONewIdentityV3 | OModifyConfig _ _ | OPrint _ => unit
  | OAuthenticate _ | OPrompt | OReadFile _ | OReadStdin => string
  | OCatalog _ => list CatalogEntry
  | OExchange _ => HTTPResponse
  | OLoadFile _ | OStartingConfig | OLoad _ | OMerge _ _ => Kubeconfig
  end.

Definition nil_deref {S A} : Go S A := panic "invalid memory address or nil pointer dereference".

Module OpenstackOptions.
(** [NewOpenstackClient], src/pkg/cmd/kubernikusctl/common/openstack.go:25-43 *)
Definition NewOpenstackClient (Getenv : string -> string) : AuthOptions :=
  {| ao_IdentityEndpoint := Getenv "OS_AUTH_URL"; ao_Username := Getenv "OS_USERNAME"; UserID := Getenv "OS_USER_ID";
     ao_Password := Getenv "OS_PASSWORD"; DomainID := Getenv "OS_USER_DOMAIN_ID"; ao_DomainName := Getenv "OS_USER_DOMAIN_NAME";
     Scope := {| ProjectID_ := Getenv "OS_PROJECT_ID"; ProjectName := Getenv "OS_PROJECT_NAME";
                 ScopeDomainID := Getenv "OS_PROJECT_DOMAIN_ID"; ScopeDomainName := Getenv "OS_PROJECT_DOMAIN_NAME" |} |}.

(** [parse] is [url.Parse].
    [Validate], src/pkg/cmd/kubernikusctl/common/openstack.go:58-88 *)
Definition Validate {U} (parse : string -> reply U) (o : AuthOptions) : option error :=
  if decide (ao_IdentityEndpoint o = "") then Some (ErrNew "You need to provide --auth-url or OS_AUTH_URL")
  else match parse (ao_IdentityEndpoint o) with
  | Bad _ => Some (ErrNew "The URL for the Kubernikus API is not parsable")
  | Ok _ =>
      if decide (ao_Username o = "" ∧ UserID o = "")
      then Some (ErrNew "You need to provide --username/--user-id or OS_USERNAME/OS_USER_ID")
      else if decide (ao_Username o ≠ "" ∧ ao_DomainName o = "" ∧ DomainID o = "")
      then Some (ErrNew "You need to provide --user-domain-name/--user-domain-id or OS_USER_DOMAIN_NAME/OS_USER_DOMAIN_ID")
      else if decide (ProjectName (Scope o) = "" ∧ ProjectID_ (Scope o) = "")
      then Some (ErrNew "You need to provide --project-name/--project-id or OS_PROJECT_NAME/OS_PROJECT_ID")
      else if decide (ProjectName (Scope o) ≠ "" ∧ ScopeDomainName (Scope o) = "" ∧ DomainID o = "")
      then Some (ErrNew "You need to provide --project-domain-name/--project-domain-id or OS_PROJECT_DOMAIN_NAME/OS_PROJECT_DOMAIN_ID")
      else None
  end.

(** [PrintAuthInfo], src/pkg/cmd/kubernikusctl/common/openstack.go:116-140 *)
Definition PrintAuthInfo (o : AuthOptions) : string :=
  let user := if decide (UserID o ≠ "") then UserID o
              else if decide (DomainID o ≠ "") then DomainID o +:+ "/" +:+ ao_Username o
              else ao_DomainName o +:+ "/" +:+ ao_Username o in
  let sc := Scope o in
  let scope := if decide (ProjectID_ sc ≠ "") then ProjectID_ sc
               else if decide (ScopeDomainID sc ≠ "") then ScopeDomainID sc +:+ "/" +:+ ProjectName sc
               else ScopeDomainName sc +:+ "/" +:+ ProjectName sc in
  "Authenticating " +:+ user +:+ " at " +:+ scope.

Section Calls.
Context {E : Type} `{!Machine CtlIO E} (Getenv : string -> string) (parse : string -> reply URL).
Abbreviation M := (Go (sys unit E CtlIO)).
Definition ocall (c : CtlIO) : M (resp c) := perform c.
(** [errors.Wrap] of what a call fails with *)
Definition wrapped {S A} (msg : string) (m : Go S A) : Go S A :=
  r ← attempt m; match r with Ok a => mret a | Bad err => fail (ErrNew (msg +:+ ": " +:+ Error err)) end.

Definition with_Password (p : string) (o : AuthOptions) : AuthOptions :=
  {| ao_IdentityEndpoint := ao_IdentityEndpoint o; ao_Username := ao_Username o; UserID := UserID o; ao_Password := p;
     DomainID := DomainID o; ao_DomainName := ao_DomainName o; Scope := Scope o |}.

(** The options with the password from the environment.
    [Setup], src/pkg/cmd/kubernikusctl/common/openstack.go:98-114 *)
Definition Setup (o : AuthOptions) : M AuthOptions :=
  let o := if decide (ao_Password o = "") then with_Password (Getenv "OS_PASSWORD") o else o in
  _ ← wrapped "Creating Gophercloud ProviderClient failed" (ocall (ONewClient (ao_IdentityEndpoint o)));
  _ ← wrapped "Creating Identity ServiceClient failed" (ocall ONewIdentityV3);
  mret o.

(** The last public endpoint of a kubernikus service *)
Definition public_endpoint (entries : list CatalogEntry) : string :=
  fold_left (fun result service =>
    if decide (ce_Type service = "kubernikus")
    then fold_left (fun result endpoint => if decide (ep_Interface endpoint = "public") then ep_URL endpoint else result)
           (Endpoints service) result
    else result) entries "".

(** [DefaultKubernikusURL], src/pkg/cmd/kubernikusctl/common/openstack.go:176-203 *)
Definition DefaultKubernikusURL (o : AuthOptions) : M URL :=
  catalog ← wrapped "Couldn't fetch service catalog" (ocall (OCatalog o));
  let result := public_endpoint catalog in
  if decide (result = "") then fail (ErrNew "No public Kubernikus service found in the service catalog")
  else wrapped "The URL for the Kubernikus API is not parsable" (lift_reply (parse result)).
End Calls.
End OpenstackOptions.

(** * The client of the API *)

Module KubernikusClient.
(** [KubernikusClient], src/pkg/cmd/kubernikusctl/common/kubernikus.go:15-18 *)
Record client := { token : string; transport : Transport }.

Section Client.
Context `{!ApiCodecs} {S : Type} (do : HTTPRequest -> Go S (reply HTTPResponse)).
(** The path of a reference and its escaped form, of [net/url]; the text of the
    errors of the runtime *)
Context (parse_path : string -> reply string) (escape_path : string -> string) (error_text_of : client_error -> string).

(** The URL is dereferenced.
    [NewKubernikusClient], src/pkg/cmd/kubernikusctl/common/kubernikus.go:20-30 *)
Definition NewKubernikusClient (url : option URL) (token : string) : Go S client :=
  match url with
  | None => nil_deref
  | Some u => mret {| token := token;
                      transport :=
                        NewHTTPClientWithConfig
                          (Some (WithBasePath (u_EscapedPath u) (WithHost (u_Host u) (WithSchemes [u_Scheme u] DefaultTransportConfig))))
                          parse_path escape_path |}
  end.

(** [authFunc], src/pkg/cmd/kubernikusctl/common/kubernikus.go:32-38 *)
Definition authFunc (k : client) : Go ClientRequest unit := SetHeaderParam "X-AUTH-TOKEN" (token k).

(** The switch on the error every function of the client repeats: the message
    of the server is dereferenced and used as a format, anything else is wrapped. *)
Definition checked {A} (msg : string) (r : call_result A) : Go S A :=
  match r with
  | Returned a => mret a
  | Refused (CDefault _ e) => match er_Message e with Some m => fail (ErrNew (Sprintf m [])) | None => nil_deref end
  | Refused err => fail (ErrNew (msg +:+ ": " +:+ error_text_of err))
  end.

(** [GetCredentials], src/pkg/cmd/kubernikusctl/common/kubernikus.go:40-57 *)
Definition GetCredentials (k : client) (name : string) : Go S string :=
  r ← ClientGetClusterCredentials.call (transport k) do {| ClientGetClusterCredentials.Name := name |} (authFunc k);
  match r with
  | Refused (CDefault 404 _) => fail (ErrNew ("Cluster " +:+ name +:+ " not found"))
  | _ => ok ← checked "A generic error occured" r; mret (ApiModels.Kubeconfig ok)
  end.

(** [CreateCluster], src/pkg/cmd/kubernikusctl/common/kubernikus.go:59-70 *)
Definition CreateCluster (k : client) (cluster : KlusterModel) : Go S unit :=
  r ← ClientCreateCluster.call (transport k) do {| ClientCreateCluster.Body := Some cluster |} (authFunc k);
  _ ← checked "Error creating cluster" r; mret tt.

(** [DeleteCluster], src/pkg/cmd/kubernikusctl/common/kubernikus.go:72-83 *)
Definition DeleteCluster (k : client) (name : string) : Go S unit :=
  r ← ClientTerminateCluster.call (transport k) do {| ClientTerminateCluster.Name := name |} (authFunc k);
  _ ← checked "Error deleting cluster" r; mret tt.

(** [ShowCluster], src/pkg/cmd/kubernikusctl/common/kubernikus.go:85-97 *)
Definition ShowCluster (k : client) (name : string) : Go S KlusterModel :=
  r ← ClientShowCluster.call (transport k) do {| ClientShowCluster.Name := name |} (authFunc k);
  checked "Getting cluster failed" r.

(** [ListAllClusters], src/pkg/cmd/kubernikusctl/common/kubernikus.go:99-115 *)
Definition ListAllClusters (k : client) : Go S (list (option KlusterModel)) :=
  r ← ClientListClusters.call (transport k) do tt (authFunc k);
  payload ← checked "Listing clusters failed" r;
  match payload with
  | [] => fail (ErrNew "There's no cluster in this project")
  | _ => mret payload
  end.

(** [ListNodePools], src/pkg/cmd/kubernikusctl/common/kubernikus.go:117-123 *)
Definition ListNodePools (k : client) (clusterName : string) : Go S (list NodePool) :=
  ok ← ShowCluster k clusterName; mret (NodePools (mk_Spec ok)).

(** [None] is nil: no pool of the cluster has the name.
    [ShowNodePool], src/pkg/cmd/kubernikusctl/common/kubernikus.go:125-136 *)
Definition ShowNodePool (k : client) (clusterName nodePoolName : string) : Go S (option NodePool) :=
  ok ← ShowCluster k clusterName;
  mret (List.find (fun nodePool => bool_decide (np_Name nodePool = nodePoolName)) (NodePools (mk_Spec ok))).

(** The list may hold nil pointers, which JSON's null becomes.
    [GetDefaultCluster], src/pkg/cmd/kubernikusctl/common/kubernikus.go:138-162 *)
Definition GetDefaultCluster (k : client) : Go S (option KlusterModel) :=
  r ← ClientListClusters.call (transport k) do tt (authFunc k);
  payload ← checked "Listing clusters failed" r;
  match payload with
  | [] => fail (ErrNew "There's no cluster in this project")
  | [cluster] => mret cluster
  | _ => fail (ErrNew "There's more than one cluster in this project.")
  end.
End Client.
End KubernikusClient.

(** * The commands *)

Module Commands.
Section Commands.
Context `{!ApiCodecs} {E : Type} `{!Machine CtlIO E} (Getenv : string -> string) (parse : string -> reply URL)
  (parse_path : string -> reply string) (escape_path : string -> string) (error_text_of : client_error -> string)
  {Cu : Customs} {Tx : JsonTexts}.
Abbreviation M := (Go (sys unit E CtlIO)).
Import OpenstackOptions.

Definition io (c : CtlIO) : M (resp c) := perform c.
(** What fails to be printed is ignored. *)
Definition say (text : string) : M unit := _ ← attempt (io (OPrint text)); mret tt.
Definition network (r : HTTPRequest) : M (reply HTTPResponse) := attempt (io (OExchange r)).
Definition new_client := KubernikusClient.NewKubernikusClient (S:=sys unit E CtlIO) parse_path escape_path.

(** What the subcommands of get, create and delete share: the options, the URL
    given on the command line, and what the provider holds after
    authentication
    [GetOptions], src/pkg/cmd/kubernikusctl/get/common.go:16-21 *)
Record Options := { opt_url : string; opt_Openstack : AuthOptions; opt_TokenID : string }.

(** [PersistentPreRun], src/pkg/cmd/kubernikusctl/get/common.go:28-34 *)
Definition PersistentPreRun (url : string) (o : AuthOptions) : M Options :=
  _ ← match Validate parse o with Some err => fail err | None => mret tt end;
  o ← Setup Getenv o;
  token ← io (OAuthenticate o);
  mret {| opt_url := url; opt_Openstack := o; opt_TokenID := token |}.

(** [SetupKubernikusClient], src/pkg/cmd/kubernikusctl/get/common.go:36-55 *)
Definition get_SetupKubernikusClient (o : Options) : M KubernikusClient.client :=
  url ← (if decide (opt_url o = "")
         then
           _ ← say (println "Auto-Detecting Kubernikus Host ...");
           r ← attempt (DefaultKubernikusURL parse (opt_Openstack o));
           match r with
           | Ok u => mret u
           | Bad _ => fail (ErrNew "You need to provide --url. Auto-Detection failed.")
           end
         else wrapped "Error parsing url" (lift_reply (parse (opt_url o))));
  new_client (Some url) (opt_TokenID o).

(** The URL of the command line is not parsed here: the field of the options
    stays nil.
    [SetupKubernikusClient], src/pkg/cmd/kubernikusctl/create/common.go:36-48 *)
Definition create_SetupKubernikusClient (o : Options) : M KubernikusClient.client :=
  url ← (if decide (opt_url o = "")
         then
           _ ← say (println "Auto-Detecting Kubernikus Host ...");
           r ← attempt (DefaultKubernikusURL parse (opt_Openstack o));
           match r with
           | Ok u => mret (Some u)
           | Bad _ => fail (ErrNew "You need to provide --url. Auto-Detection failed.")
           end
         else mret None);
  new_client url (opt_TokenID o).
(** [SetupKubernikusClient], src/pkg/cmd/kubernikusctl/delete/common.go:35-47 *)
Definition delete_SetupKubernikusClient (o : Options) : M KubernikusClient.client :=
  url ← (if decide (opt_url o = "")
         then
           _ ← say (println "Auto-Detecting Kubernikus Host ...");
           r ← attempt (DefaultKubernikusURL parse (opt_Openstack o));
           match r with
           | Ok u => mret (Some u)
           | Bad _ => fail (ErrNew "You need to provide --url. Auto-Detection failed.")
           end
         else mret None);
  new_client url (opt_TokenID o).

(** The table is printed up to a nil cluster, whose methods take a value.
    [clusterList], src/pkg/cmd/kubernikusctl/get/cluster.go:39-51 *)
Definition clusterList (k : KubernikusClient.client) : M unit :=
  clusters ← wrapped "Error listing clusters" (KubernikusClient.ListAllClusters network error_text_of k);
  let printed := up_to_nil clusters in
  _ ← say (Printers.PrintTable Printers.Kluster_printTable printed);
  if decide (length printed < length clusters)%nat then panic "value method models.Kluster.GetFormats called using nil *Kluster pointer"
  else mret tt.
(** [clusterShow], src/pkg/cmd/kubernikusctl/get/cluster.go:53-60 *)
Definition clusterShow (k : KubernikusClient.client) (name : string) : M unit :=
  cluster ← wrapped "Error getting cluster" (KubernikusClient.ShowCluster network error_text_of k name);
  say (Printers.Kluster_printHuman cluster).
(** [validateClusterCommandArgs], src/pkg/cmd/kubernikusctl/get/cluster.go:62-67 *)
Definition get_validateClusterArgs (args : list string) : M unit :=
  if (1 <? length args)%nat then fail (ErrNew ("Surplus arguments to cluster, " +:+ shown args)) else mret tt.
(** Validation and client, then the run
    [clusterRun], src/pkg/cmd/kubernikusctl/get/cluster.go:24-37 *)
Definition get_cluster (o : Options) (args : list string) : M unit :=
  _ ← get_validateClusterArgs args;
  k ← get_SetupKubernikusClient o;
  match args with [name] => clusterShow k name | _ => clusterList k end.

(** [nodePoolList], src/pkg/cmd/kubernikusctl/get/nodepool.go:38-50 *)
Definition nodePoolList (k : KubernikusClient.client) (cluster : string) : M unit :=
  nodePools ← wrapped "Error listing nodepools" (KubernikusClient.ListNodePools network error_text_of k cluster);
  say (Printers.PrintTable Printers.NodePool_printTable nodePools).
(** The pointer is dereferenced even when no pool has the name.
    [nodePoolShow], src/pkg/cmd/kubernikusctl/get/nodepool.go:52-59 *)
Definition nodePoolShow (k : KubernikusClient.client) (cluster nodePoolName : string) : M unit :=
  nodePool ← wrapped "Error getting nodepool" (KubernikusClient.ShowNodePool network error_text_of k cluster nodePoolName);
  match nodePool with Some p => say (Printers.NodePool_printHuman p) | None => nil_deref end.
(** [validateNodePoolCommandArgs], src/pkg/cmd/kubernikusctl/get/nodepool.go:61-69 *)
Definition validateNodePoolArgs (args : list string) : M unit :=
  if (2 <? length args)%nat then fail (ErrNew ("Surplus arguments to nodepool, " +:+ shown args))
  else if (length args <? 1)%nat then fail (ErrNew ("No clustername given, " +:+ shown args)) else mret tt.
(** [nodePoolRun], src/pkg/cmd/kubernikusctl/get/nodepool.go:24-36 *)
Definition get_nodepool (o : Options) (args : list string) : M unit :=
  _ ← validateNodePoolArgs args;
  k ← get_SetupKubernikusClient o;
  match args with
  | [cluster] => nodePoolList k cluster
  | cluster :: name :: _ => nodePoolShow k cluster name
  | [] => panic "index out of range"
  end.

(** The file is JSON.
    [clusterRun], src/pkg/cmd/kubernikusctl/create/cluster.go:28-56 *)
Definition create_cluster (o : Options) (ReadFile : string) (args : list string) : M unit :=
  _ ← match args with [] => mret tt | _ => fail (ErrNew ("Unexpected Argument to cluster: " +:+ shown args)) end;
  k ← create_SetupKubernikusClient o;
  raw ← (if decide (ReadFile ≠ "") then wrapped "Error reading from spec file" (io (OReadFile ReadFile))
         else wrapped "Error reading from Stdin" (io OReadStdin));
  cluster ← lift_reply (KlusterModel_UnmarshalBinary raw);
  _ ← KubernikusClient.CreateCluster network error_text_of k cluster;
  say ("Cluster " +:+ mk_Name cluster +:+ " created.").

(** [validateClusterCommandArgs], src/pkg/cmd/kubernikusctl/delete/cluster.go:34-42 *)
Definition delete_validateClusterArgs (args : list string) : M unit :=
  if (1 <? length args)%nat then fail (ErrNew "Surplus arguments to cluster delete.")
  else if (length args <? 1)%nat then fail (ErrNew "Please supply the name of the cluster to be deleted.") else mret tt.
(** [clusterRun], src/pkg/cmd/kubernikusctl/delete/cluster.go:24-32 *)
Definition delete_cluster (o : Options) (args : list string) : M unit :=
  _ ← delete_validateClusterArgs args;
  k ← delete_SetupKubernikusClient o;
  match args with
  | name :: _ =>
      _ ← KubernikusClient.DeleteCluster network error_text_of k name;
      say ("Cluster " +:+ name +:+ " scheduled for deletion.")
  | [] => panic "index out of range"
  end.

(** * [kubernikusctl auth init] *)

(** [InitOptions], src/pkg/cmd/kubernikusctl/auth/init.go:20-31 *)
Record InitOptions := {
  io_url : string; io_name : string; io_kubeconfigPath : string; io_openstack : AuthOptions }.

(** The parsed URL, when there is one
    [Validate], src/pkg/cmd/kubernikusctl/auth/init.go:63-70 *)
Definition Init_Validate (o : InitOptions) : M (option URL) :=
  url ← (if decide (io_url o = "") then mret None
         else match parse (io_url o) with
              | Ok u => mret (Some u)
              | Bad _ => fail (ErrNew "Parsing the Kubernikus URL failed")
              end);
  match Validate parse (io_openstack o) with Some err => fail err | None => mret url end.

(** The options and the configuration to merge into
    [Complete], src/pkg/cmd/kubernikusctl/auth/init.go:72-98 *)
Definition Init_Complete (o : InitOptions) : M (AuthOptions * Kubeconfig) :=
  openstack ← Setup Getenv (io_openstack o);
  kubeconfig ← (if decide (io_kubeconfigPath o ≠ "")
                then wrapped "Loading the specified kubeconfig failed"
                       (wrapped ("Failed to load kubeconfig from " +:+ io_kubeconfigPath o) (io (OLoadFile (io_kubeconfigPath o))))
                else wrapped "Loading the default kubeconfig failed" (io OStartingConfig));
  if decide (ao_Password openstack = "")
  then
    _ ← say "Password: ";
    password ← io OPrompt;
    mret (with_Password password openstack, kubeconfig)
  else mret (openstack, kubeconfig).

(** [setup], src/pkg/cmd/kubernikusctl/auth/init.go:130-149 *)
Definition Init_setup (openstack : AuthOptions) (url : option URL) : M (URL * KubernikusClient.client) :=
  _ ← say (println (PrintAuthInfo openstack));
  token ← wrapped "Authentication failed" (io (OAuthenticate openstack));
  url ← match url with
        | Some u => mret u
        | None => wrapped "You need to provide --url. Auto-Detection failed" (DefaultKubernikusURL parse openstack)
        end;
  k ← new_client (Some url) token;
  mret (url, k).

(** [mergeAndPersist], src/pkg/cmd/kubernikusctl/auth/init.go:158-179 *)
Definition Init_mergeAndPersist (o : InitOptions) (kubeconfig : Kubeconfig) (rawConfig : string) : M unit :=
  config ← wrapped ("Couldn't load kubernikus kubeconfig: " +:+ rawConfig) (io (OLoad rawConfig));
  merged ← wrapped "Couldn't merge kubeconfigs" (io (OMerge kubeconfig config));
  wrapped "Couldn't merge Kubernikus config with kubeconfig" (io (OModifyConfig (io_kubeconfigPath o) merged)).

(** [Run], src/pkg/cmd/kubernikusctl/auth/init.go:100-128 *)
Definition Init_Run (o : InitOptions) (openstack : AuthOptions) (kubeconfig : Kubeconfig) (url : option URL) : M unit :=
  '(url, k) ← Init_setup openstack url;
  name ← (if decide (io_name o = "")
          then
            cluster ← wrapped "You need to provide --name. Cluster Auto-Detection failed"
                        (KubernikusClient.GetDefaultCluster network error_text_of k);
            match cluster with Some c => mret (mk_Name c) | None => nil_deref end
          else mret (io_name o));
  _ ← say ("Fetching credentials for " +:+ name +:+ " from " +:+ u_String url +:+ nl);
  raw ← wrapped "Couldn't fetch credentials from Kubernikus API" (KubernikusClient.GetCredentials network error_text_of k name);
  _ ← wrapped "Couldn't merge existing kubeconfig with fetched credentials" (Init_mergeAndPersist o kubeconfig raw);
  say (println "Wrote merged kubeconfig").

(** [Run], src/pkg/cmd/kubernikusctl/auth/init.go:40-48 *)
Definition auth_init (o : InitOptions) : M unit :=
  url ← Init_Validate o;
  '(openstack, kubeconfig) ← Init_Complete o;
  Init_Run o openstack kubeconfig url.
End Commands.
End Commands.

(** * What a user is told *)

(** The outcome of a run, its value replaced *)
Definition outcome_map {A B} (f : A -> outcome B) (o : outcome A) : outcome B :=
  match o with Ret a => f a | Fail e => Fail e | Panic w => Panic w end.

Section Reports.
Context `{!ApiCodecs} {E : Type} `{!Machine HandlerCall E} (runtime : Runtime) (rt : Router) `{!RouterLaws rt} (ctx : MiddlewareContext).
Context `{!CodecLaws KlusterModel, !CodecLaws Credentials, !CodecLaws KlusterInfo, !CodecLaws OpenstackMetadata,
          !CodecLaws InfoModel, !CodecLaws APIVersions, !CodecLaws ErrorModel}.
Context (text_of : client_error -> string) (k : KubernikusClient.client) `{!TransportLaws (KubernikusClient.transport k)} (p : Principal).
Implicit Types s : sys (option (list Link)) E HandlerCall.
Abbreviation api := (exchange rt ctx (api_handlers runtime)).

(** An admitted request of the client with the response of the API's handler *)
Definition exchanged (o : OpID) (cp : client_params o) (res : responder o) s s' : Prop :=
  rooted (BasePath (KubernikusClient.transport k)) = "/" ∧ ParseMediaType ctx "application/json" = Some "application/json" ∧
  sendable o cp ∧
  admitted ctx o (wire (KubernikusClient.transport k) o cp (KubernikusClient.token k)) (KubernikusClient.token k) p ∧
  handle_with o (api_handlers runtime o) (server_of o cp (wire (KubernikusClient.transport k) o cp (KubernikusClient.token k))) (Some p) s
    = (s', Ret res) ∧
  transmissible o res.

(** The payload, or the message of the error the handler answered with, which
    is used as a format *)
Definition told (o : OpID) (res : responder o) : outcome (result o) :=
  match default_response o res, returned_payload o res with
  | Some (_, Some e), _ => match er_Message e with Some m => Fail (ErrNew (Sprintf m [])) | None => Panic "unreachable" end
  | None, Some a => Ret a
  | _, _ => Panic "unreachable"
  end.

Lemma exchanged_call o cp res s s' : exchanged o cp res s s' →
  answered o res ∧ ∃ r, expected o res = Ret r ∧
    call (KubernikusClient.transport k) api (KubernikusClient.authFunc k) o cp s = (s', Ret r).
Proof.
  intros (Hb & Hm & Hs & Ha & Hrun & Ht).
  pose proof (wp_elim _ _ _ _ _ (api_answered runtime o (server_of o cp _) p s) Hrun) as [Hans [r Hr]].
  split; [done|]. exists r. split; [done|]. rewrite <- Hr. exact (call_run _ rt ctx _ o cp _ p s s' res Hb Hm Hs Ha Hrun Ht).
Qed.

(** What the switch on the error makes of a result *)
Lemma checked_told {S} o res msg r (s : S) : answered o res → expected o res = Ret r →
  KubernikusClient.checked text_of msg r s = (s, told o res).
Proof.
  unfold answered, expected, told. destruct (default_response o res) as [[c e]|].
  - intros [_ [m ->]]. destruct (Z.quot c 100 =? 2); [done|]. by intros [= <-].
  - intros [a ->]. by intros [= <-].
Qed.

Lemma told_answered o res : answered o res → (∃ a, told o res = Ret a) ∨ ∃ m, told o res = Fail (ErrNew m).
Proof.
  unfold answered, told. destruct (default_response o res) as [[c e]|].
  - intros [_ [m ->]]. right. by eexists.
  - intros [a ->]. left. by exists a.
Qed.

(** C7: what a user of [kubernikusctl] is told is what the API's handler
    answered: whenever a client with a token of principal [p] sends an admitted
    request and the codec keeps the response, the functions of the client end
    in the state the handler left with its payload, or fail with the message of
    the handler's error, as a format without arguments prints it (so exactly
    the message when it has no per cent sign), and never panic on a missing one.  An empty
    list of clusters is turned into an error, and so is a list of several
    where the default cluster is looked for; the message of a 404 to a request
    for credentials is replaced. *)
Theorem client_reports s s' :
  (∀ name res, exchanged OpShowCluster {| ClientShowCluster.Name := name |} res s s' →
     KubernikusClient.ShowCluster api text_of k name s = (s', told OpShowCluster res)) ∧
  (∀ b res, exchanged OpCreateCluster {| ClientCreateCluster.Body := Some b |} res s s' →
     KubernikusClient.CreateCluster api text_of k b s = (s', outcome_map (fun _ => Ret tt) (told OpCreateCluster res))) ∧
  (∀ name res, exchanged OpTerminateCluster {| ClientTerminateCluster.Name := name |} res s s' →
     KubernikusClient.DeleteCluster api text_of k name s = (s', told OpTerminateCluster res)) ∧
  (∀ res, exchanged OpListClusters tt res s s' →
     KubernikusClient.ListAllClusters api text_of k s =
       (s', outcome_map (fun l => if decide (l = []) then Fail (ErrNew "There's no cluster in this project") else Ret l)
              (told OpListClusters res)) ∧
     KubernikusClient.GetDefaultCluster api text_of k s =
       (s', outcome_map (fun l => match l with
                                  | [] => Fail (ErrNew "There's no cluster in this project")
                                  | [c] => Ret c
                                  | _ => Fail (ErrNew "There's more than one cluster in this project.") end)
              (told OpListClusters res))) ∧
  (∀ name res, exchanged OpGetClusterCredentials {| ClientGetClusterCredentials.Name := name |} res s s' →
     KubernikusClient.GetCredentials api text_of k name s =
       (s', match res with
            | Default 404 _ => Fail (ErrNew ("Cluster " +:+ name +:+ " not found"))
            | _ => outcome_map (fun c => Ret (ApiModels.Kubeconfig c)) (told OpGetClusterCredentials res)
            end)) ∧
  (∀ o cp res, exchanged o cp res s s' → (∃ a, told o res = Ret a) ∨ ∃ m, told o res = Fail (ErrNew m)).
Proof.
  split_and!.
  - intros name res (Hans & r & Hr & Hc)%exchanged_call. unfold KubernikusClient.ShowCluster.
    refine (eq_trans (bind_run _ _ _ _ _ Hc) _). exact (checked_told OpShowCluster res _ r s' Hans Hr).
  - intros b res (Hans & r & Hr & Hc)%exchanged_call. unfold KubernikusClient.CreateCluster.
    refine (eq_trans (bind_run _ _ _ _ _ Hc) _). unfold mbind, go_bind.
    rewrite (checked_told OpCreateCluster res _ r s' Hans Hr). by destruct (told _ res).
  - intros name res (Hans & r & Hr & Hc)%exchanged_call. unfold KubernikusClient.DeleteCluster.
    refine (eq_trans (bind_run _ _ _ _ _ Hc) _). unfold mbind, go_bind.
    rewrite (checked_told OpTerminateCluster res _ r s' Hans Hr). by destruct (told _ res) as [[]| |].
  - intros res (Hans & r & Hr & Hc)%exchanged_call. split;
      [unfold KubernikusClient.ListAllClusters | unfold KubernikusClient.GetDefaultCluster];
      refine (eq_trans (bind_run _ _ _ _ _ Hc) _); unfold mbind, go_bind; rewrite (checked_told OpListClusters res _ r s' Hans Hr);
      destruct (told _ res) as [[|c [|c' l]]| |]; done.
  - intros name res (Hans & r & Hr & Hc)%exchanged_call. unfold KubernikusClient.GetCredentials.
    refine (eq_trans (bind_run _ _ _ _ _ Hc) _).
    pose proof (checked_told OpGetClusterCredentials res "A generic error occured" r s' Hans Hr) as Hch.
    unfold answered, expected, told in *. destruct res as [pl|c e]; cbn in *.
    + injection Hr as <-. done.
    + destruct Hans as [Hin [m ->]]. apply list_elem_of_In in Hin. simpl in Hin. destruct_or! Hin; subst; try done; injection Hr as <-; done.
  - intros o cp res (Hans & _)%exchanged_call. by apply told_answered.
Qed.
End Reports.

(** * The commands *)

Section CommandContracts.
Context `{!ApiCodecs} {E : Type} `{!Machine CtlIO E} (Getenv : string -> string) (parse : string -> reply URL)
  (parse_path : string -> reply string) (escape_path : string -> string) (error_text_of : client_error -> string).
Implicit Types s : sys unit E CtlIO.
Import OpenstackOptions Commands.

(** The client a URL and a token make *)
Definition client_at (u : URL) (token : string) : KubernikusClient.client :=
  {| KubernikusClient.token := token;
     KubernikusClient.transport :=
       {| Scheme := pickScheme [u_Scheme u] ["https"]; Host := u_Host u; BasePath := u_EscapedPath u;
          ParseURL := parse_path; ApiClient.EscapedPath := escape_path |} |}.

(** How the commands use [--url].  Without it, creating, deleting and
    getting set up the client alike, at the endpoint of the catalog.  With it,
    only getting works: it makes a client of the parsed URL and no call;
    creating and deleting never parse it and dereference the nil URL, so they
    panic on every [--url]. *)
Theorem url_option (o : Options) s :
  let get := get_SetupKubernikusClient parse parse_path escape_path o s in
  let create := create_SetupKubernikusClient parse parse_path escape_path o s in
  let delete := delete_SetupKubernikusClient parse parse_path escape_path o s in
  if decide (opt_url o = "") then create = get ∧ delete = get
  else create = (s, Panic "invalid memory address or nil pointer dereference") ∧ delete = create ∧
       get = match parse (opt_url o) with
             | Ok u => (s, Ret (client_at u (opt_TokenID o)))
             | Bad err => (s, Fail (ErrNew ("Error parsing url: " +:+ Error err)))
             end.
Proof.
  cbv zeta. unfold get_SetupKubernikusClient, create_SetupKubernikusClient, delete_SetupKubernikusClient.
  destruct (decide (opt_url o = "")).
  - unfold mbind, go_bind. destruct (say _ _) as [s1 [[]| |]]; [|done..].
    destruct (attempt _ s1) as [s2 [[?|?]| |]]; done.
  - split_and!; [done..|]. unfold wrapped, lift_reply, attempt, mbind, go_bind. destruct (parse _) as [u|e]; done.
Qed.

Lemma decide_Some_None {A} (P : Prop) `{!Decision P} (a : A) x : (if decide P then Some a else x) = None ↔ ¬ P ∧ x = None.
Proof. case_decide; naive_solver. Qed.
(** By the id [b], or by the name [a] with the domain [c] or [d] *)
Lemma named_by (a b c d : string) :
  (¬ (a = "" ∧ b = "") ∧ ¬ (a ≠ "" ∧ c = "" ∧ d = "")) ↔ (if decide (a = "") then b ≠ "" else c ≠ "" ∨ d ≠ "").
Proof. destruct (decide (a = "")), (decide (c = "")); naive_solver. Qed.

(** The options are accepted exactly when the identity endpoint parses, a
    user is named by id or by name with a domain, and a project is named by id
    or by name with a domain, where the id of the project's domain does not
    count and the one of the user's domain does. *)
Theorem Validate_accepts (o : AuthOptions) :
  Validate parse o = None ↔
    ao_IdentityEndpoint o ≠ "" ∧ (∃ u, parse (ao_IdentityEndpoint o) = Ok u) ∧
    (if decide (ao_Username o = "") then UserID o ≠ "" else ao_DomainName o ≠ "" ∨ DomainID o ≠ "") ∧
    (if decide (ProjectName (Scope o) = "") then ProjectID_ (Scope o) ≠ "" else ScopeDomainName (Scope o) ≠ "" ∨ DomainID o ≠ "").
Proof.
  unfold Validate. destruct (decide (ao_IdentityEndpoint o = "")) as [|Hi]; [by split; [|intros [? _]]|].
  destruct (parse _) as [u|err]; [|by split; [|intros (_ & [? [=]] & _)]].
  rewrite !decide_Some_None, <- !named_by. split; [intros (?&?&?&?&_); split_and!; eauto|intros (_&_&[? ?]&[? ?]); done].
Qed.

(** Asking for one pool.  A pool the cluster has is printed, the first of
    its name; when the cluster has none of the name, the command panics on the
    nil pool instead of reporting an error; what fails before is reported. *)
Theorem nodePoolShow_result k cluster name s :
  let run := nodePoolShow error_text_of k cluster name s in
  match KubernikusClient.ShowCluster network error_text_of k cluster s with
  | (s', Ret c) =>
      if decide (name ∈ np_Name <$> NodePools (mk_Spec c))
      then ∃ l q l', NodePools (mk_Spec c) = l ++ q :: l' ∧ np_Name q = name ∧ name ∉ np_Name <$> l ∧
             run = say (Printers.NodePool_printHuman q) s'
      else run = (s', Panic "invalid memory address or nil pointer dereference")
  | (s', Fail err) => run = (s', Fail (ErrNew ("Error getting nodepool: " +:+ Error err)))
  | (s', Panic w) => run = (s', Panic w)
  end.
Proof.
  cbv zeta. unfold nodePoolShow, wrapped, KubernikusClient.ShowNodePool, attempt, mbind, go_bind.
  destruct (KubernikusClient.ShowCluster _ _ _ _ _) as [s' [c|err|w]]; [|done..]. cbn.
  induction (NodePools (mk_Spec c)) as [|q l IH]; cbn [List.find fmap list_fmap].
  - by rewrite decide_False by (by inversion 1).
  - case_bool_decide as Hq.
    + rewrite decide_True by (rewrite Hq; left). exists [], q, l. split_and!; [done..|by inversion 1|done].
    + destruct (decide (name ∈ np_Name <$> l)) as [Hin|Hin].
      * rewrite decide_True by (by right). destruct IH as (l1 & q1 & l2 & -> & Hn & Hni & Hrun). exists (q :: l1), q1, l2.
        split_and!; [done..| |done]. cbn. apply not_elem_of_cons. split; [congruence|done].
      * rewrite decide_False; [exact IH|]. apply not_elem_of_cons. split; [congruence|done].
Qed.
End CommandContracts.

(** * What [auth init] writes *)

Section Init.
Context `{!ApiCodecs} {E : Type} `{!Machine CtlIO E} (Getenv : string -> string) (parse : string -> reply URL)
  (parse_path : string -> reply string) (escape_path : string -> string) (error_text_of : client_error -> string).
Implicit Types s : sys unit E CtlIO.
Import OpenstackOptions Commands.

(** The calls that authenticate and that handle configurations *)
Definition persisting (c : CtlIO) : bool :=
  match c with OAuthenticate _ | OLoad _ | OMerge _ _ | OModifyConfig _ _ => true | _ => false end.
Abbreviation quiet := (emits (S:=unit) (E:=E) (λ c, persisting c = false)).

Lemma emits_submitted {A} t (do : HTTPRequest → Go (sys unit E CtlIO) (reply HTTPResponse)) m pat (w : Go ClientRequest unit) auth (read : HTTPResponse → reading A) P :
  (∀ r, emits P (do r)) → emits P (r ← Submit t do m pat w auth; asserted r read).
Proof. intros Hdo. unfold Submit, asserted. emits_solve. Qed.
Lemma quiet_network r : quiet (network r).
Proof. unfold network, io. emits_solve. Qed.
Lemma quiet_say text : quiet (say text).
Proof. unfold say, io. emits_solve. Qed.
Lemma quiet_checked {A} msg (r : call_result A) : quiet (KubernikusClient.checked error_text_of msg r).
Proof. unfold KubernikusClient.checked, nil_deref. emits_solve. Qed.
#[local] Hint Resolve quiet_network quiet_say quiet_checked : emits.
Lemma quiet_GetCredentials k name : quiet (KubernikusClient.GetCredentials network error_text_of k name).
Proof.
  unfold KubernikusClient.GetCredentials, ClientGetClusterCredentials.call.
  apply emits_bind; [apply emits_submitted; auto with emits|intros]. emits_solve.
Qed.
Lemma quiet_GetDefaultCluster k : quiet (KubernikusClient.GetDefaultCluster network error_text_of k).
Proof.
  unfold KubernikusClient.GetDefaultCluster, ClientListClusters.call.
  apply emits_bind; [apply emits_submitted; auto with emits|intros]. emits_solve.
Qed.
Lemma quiet_wrapped {A} msg (m : Go (sys unit E CtlIO) A) : quiet m → quiet (wrapped msg m).
Proof. intros. unfold wrapped. emits_solve. Qed.
#[local] Hint Resolve quiet_GetCredentials quiet_GetDefaultCluster quiet_wrapped : emits.
Lemma quiet_url a : quiet (DefaultKubernikusURL parse a).
Proof. unfold DefaultKubernikusURL, ocall. repeat (emits_step || apply quiet_wrapped). Qed.
Lemma quiet_Validate o : quiet (Init_Validate parse o).
Proof. unfold Init_Validate. repeat emits_step. Qed.
Lemma quiet_Complete o : quiet (Init_Complete Getenv o).
Proof. unfold Init_Complete, Setup, io, ocall. repeat (emits_step || apply quiet_wrapped). Qed.

Lemma wp_wrapped {A} msg (m : Go (sys unit E CtlIO) A) Q s :
  wp m (λ out s', match out with
                  | Ret a => Q (Ret a) s'
                  | Fail err => Q (Fail (ErrNew (msg +:+ ": " +:+ Error err))) s'
                  | Panic w => Q (Panic w) s' end) s → wp (wrapped msg m) Q s.
Proof.
  intros Hm. unfold wrapped. apply wp_bind, wp_attempt. eapply wp_mono; [exact Hm|].
  intros [a|err|w] s' HQ; [by apply wp_ret|by apply wp_fail|done].
Qed.

Definition zero_config : Kubeconfig := {| Contexts := ∅; AuthInfos := ∅; Clusters := ∅; CurrentContext := "" |}.
(** A call that was answered with [r] *)
Definition replied (c : CtlIO) (r : resp c) : Prop := ∃ e e', answer c e = (e', Ok r).

Lemma merge_calls o kube raw s :
  wp (Init_mergeAndPersist o kube raw) (λ out s', ∃ config merged L,
     picked persisting s' = picked persisting s ++ L ∧
     L `prefix_of` [OLoad raw; OMerge kube config; OModifyConfig (io_kubeconfigPath o) merged] ∧
     (out = Ret tt → length L = 3%nat) ∧ (1 < length L → replied (OLoad raw) config)%nat ∧
     (2 < length L → replied (OMerge kube config) merged)%nat) s.
Proof.
  unfold Init_mergeAndPersist, io. apply wp_bind, wp_wrapped.
  refine (wp_perform (OLoad raw) _ _ _); intros e1 [config|err] H1; simpl.
  2: { exists kube, kube, [OLoad raw]. rewrite picked_snoc. split_and!; [done|by eexists|done|simpl; lia..]. }
  apply wp_bind, wp_wrapped. refine (wp_perform (OMerge kube config) _ _ _); intros e2 [merged|err] H2; simpl.
  2: { exists config, kube, [OLoad raw; OMerge kube config]. rewrite picked_snoc, List.filter_app, <- app_assoc. simpl.
       split_and!; [done|by eexists|done|intros; by eexists _, _|lia]. }
  apply wp_wrapped. refine (wp_perform (OModifyConfig _ merged) _ _ _); intros e3 r H3.
  destruct r; simpl; exists config, merged, [OLoad raw; OMerge kube config; OModifyConfig (io_kubeconfigPath o) merged];
    rewrite picked_snoc, !List.filter_app, <- !app_assoc; simpl;
    (split_and!; [done|done|done|intros; by eexists _, _|intros; by eexists _, _]).
Qed.

(** From [s] the calls of a run ending in [out] and [s'] are an initial part of
    authenticating, loading the credentials the API answered with for the
    requested cluster, merging them into the configuration and writing the
    merged one, and all of it after a success. *)
Definition init_calls (o : InitOptions) s (out : outcome unit) s' : Prop :=
  ∃ a raw kube config merged L,
    picked persisting s' = picked persisting s ++ L ∧
    L `prefix_of` [OAuthenticate a; OLoad raw; OMerge kube config; OModifyConfig (io_kubeconfigPath o) merged] ∧
    (out = Ret tt → length L = 4%nat) ∧
    (1 < length L → ∃ k name s1 s2, (io_name o ≠ "" → name = io_name o) ∧
       picked persisting s1 = picked persisting s ++ [OAuthenticate a] ∧
       KubernikusClient.GetCredentials network error_text_of k name s1 = (s2, Ret raw))%nat ∧
    (2 < length L → replied (OLoad raw) config)%nat ∧ (3 < length L → replied (OMerge kube config) merged)%nat.

Lemma init_stopped o s out s' L : out ≠ Ret tt → picked persisting s' = picked persisting s ++ L →
  (L = [] ∨ ∃ a, L = [OAuthenticate a]) → init_calls o s out s'.
Proof.
  intros Hout HL [->|[a ->]].
  - exists (io_openstack o), "", zero_config, zero_config, zero_config, [].
    split_and!; [done|apply prefix_nil|done|simpl; lia..].
  - exists a, "", zero_config, zero_config, zero_config, [OAuthenticate a]. split_and!; [done|by eexists|done|simpl; lia..].
Qed.

(** Steps over a part that makes none of the calls. *)
Ltac skip_quiet Hp :=
  apply wp_bind; apply (wp_quiet persisting);
    [solve [repeat (emits_step || first [apply quiet_Validate | apply quiet_Complete | apply quiet_url | apply quiet_wrapped])] | intros [?|?|?] ? ? Hp].

Lemma Init_tail o a kube k name s0 s :
  picked persisting s = picked persisting s0 ++ [OAuthenticate a] → (io_name o ≠ "" → name = io_name o) →
  wp (raw ← wrapped "Couldn't fetch credentials from Kubernikus API" (KubernikusClient.GetCredentials network error_text_of k name);
      _ ← wrapped "Couldn't merge existing kubeconfig with fetched credentials" (Init_mergeAndPersist o kube raw);
      say (println "Wrote merged kubeconfig")) (init_calls o s0) s.
Proof.
  intros Hs Hn. apply wp_bind, wp_wrapped.
  apply (wp_quiet persisting); [auto with emits|]. intros [raw|err|w] s2 Hrun Hp.
  2,3: eapply init_stopped; [done|by rewrite Hp|eauto].
  apply wp_bind, wp_wrapped. eapply wp_mono; [apply merge_calls|].
  intros out s3 (config & merged & L & HL & Hpre & Hret & Hload & Hmerge). rewrite Hp, Hs, <- app_assoc in HL.
  assert (∀ out' s4, picked persisting s4 = picked persisting s3 → (out' = Ret tt → out = Ret tt) → init_calls o s0 out' s4) as Hend.
  { intros out' s4 H4 Hout. exists a, raw, kube, config, merged, ([OAuthenticate a] ++ L). rewrite H4.
    split_and!; [done|exact (prefix_app [OAuthenticate a] _ _ Hpre)| | |simpl; intros; apply Hload; lia|simpl; intros; apply Hmerge; lia].
    - intros ?. simpl. by rewrite Hret by auto.
    - intros _. by exists k, name, s, s2. }
  destruct out as [[]|err|w]; [|by apply Hend..].
  apply (wp_quiet persisting); [auto with emits|]. intros out s4 _ H4. by apply Hend.
Qed.

(** What [auth init] writes. A run authenticates at most once; then it
    loads the credentials the API answered with for the requested cluster,
    merges them into the configuration, and writes the merged one to the given
    path, in this order and each at most once. So nothing is written unless
    all of it went well, and a run that succeeds has written. *)
Theorem auth_init_persists o s :
  wp (auth_init Getenv parse parse_path escape_path error_text_of o) (init_calls o s) s.
Proof.
  unfold auth_init. skip_quiet P1; [|by eapply init_stopped; [|rewrite P1, app_nil_r|left]..].
  skip_quiet P2; [|by eapply init_stopped; [|rewrite P2, P1, app_nil_r|left]..].
  destruct a0 as [openstack kube]. rewrite P1 in P2. clear P1. unfold Init_Run, Init_setup.
  apply wp_bind. skip_quiet P3; [|by eapply init_stopped; [|rewrite P3, P2, app_nil_r|left]..].
  rewrite P2 in P3. clear P2.
  apply wp_bind, wp_wrapped. refine (wp_perform (OAuthenticate openstack) _ _ _); intros e1 r _.
  set (s3 := Sys _ e1 _). assert (picked persisting s3 = picked persisting s ++ [OAuthenticate openstack]) as P4.
  { subst s3. rewrite picked_snoc. simpl. by rewrite <- P3. }
  clearbody s3. destruct r as [token|err]; simpl; [|by eapply init_stopped; [|exact P4|eauto]].
  skip_quiet P5; [|by eapply init_stopped; [|rewrite P5, P4|eauto]..]. rewrite P4 in P5.
  apply wp_bind. do 2 apply wp_ret.
  apply wp_bind. destruct (decide (io_name o = "")) as [Hn|Hn].
  - skip_quiet P6; [|by eapply init_stopped; [|rewrite P6, P5|eauto]..]. rewrite P5 in P6.
    destruct a2 as [cluster|]; [apply wp_ret|by apply wp_panic; eapply init_stopped; [|rewrite P6|eauto]].
    skip_quiet P7; [|by eapply init_stopped; [|rewrite P7, P6|eauto]..]. rewrite P6 in P7.
    by eapply Init_tail.
  - apply wp_ret. skip_quiet P7; [|by eapply init_stopped; [|rewrite P7, P5|eauto]..]. rewrite P5 in P7.
    by eapply Init_tail.
Qed.
End Init.

(** * A concrete run *)

Definition demo_client_ : KubernikusClient.client := {| KubernikusClient.token := "t"; KubernikusClient.transport := demo_transport |}.

Lemma client_reports_witness :
  ∃ s', KubernikusClient.ShowCluster (H:=demo_codecs)
          (exchange (H:=demo_codecs) demo_router demo_ctx (api_handlers (Machine0:=demo_api) demo_rt))
          (fun _ => "") demo_client_ "k" demo_hstate = (s', Ret demo_shown).
Proof.
  eexists.
  refine (proj1 (client_reports (H:=demo_codecs) (Machine0:=demo_api) demo_rt demo_router demo_ctx
    (CodecLaws0:=json_laws) (CodecLaws1:=json_laws) (CodecLaws2:=json_laws) (CodecLaws3:=json_laws)
    (CodecLaws4:=json_laws) (CodecLaws5:=json_laws) (CodecLaws6:=json_laws)
    (fun _ => "") demo_client_ (TransportLaws0:=demo_transport_laws) (demo_p "a1") demo_hstate _) "k" (Success (Some demo_shown)) _).
  unfold exchanged. split_and!.
  - reflexivity.
  - reflexivity.
  - split; [by apply plain_literal|done].
  - intros _. split_and!; [done|reflexivity|reflexivity].
  - reflexivity.
  - apply written_faithful, textual_written, demo_shown_textual.
Defined.
