(* ===== verification/RouteGC.v ===== *)
(** [pkg/controller/routegc]: removes from a router the routes whose next hop
    is no longer the address of a server.

    Log output is not modelled.  The addresses of a server are JSON values the
    code takes apart with type assertions, so their shapes are data here. *)
From S2P Require Import Prelude GoStrings NetIP Pager.
Local Open Scope Z_scope.

(** An entry of an address list: what [nase.(map[string]interface{})] and
    [addresses["addr"].(string)] find. *)
Inductive address := NotAnObject | NoAddr | Addr (ip : string) | AddrNotString.
(** The addresses of a server by network, in the order the map is ranged
    over; [None] is a value that is not a list. *)
Record Server := { sv_ID : string; sv_Addresses : list (option (list address)) }.
Record Route := { NextHop : string; DestinationCIDR : string }.

Inductive RouteCall :=
| RNewClient | RAuthenticate | RNewCompute | RNewNetwork
| RStopped                        (** the stop channel is closed; asked before every turn *)
| RServers
| RGetRouter (id : string)        (** the routes of the router *)
| RUpdateRouter (id : string) (routes : list Route).
#[export] Instance route_iface : Iface RouteCall := fun c =>
  match c with
  | RNewClient | RAuthenticate | RNewCompute | RNewNetwork => unit
  | RStopped => bool
  | RServers => pager Server
  | RGetRouter _ => list Route
  | RUpdateRouter _ _ => unit
  end.

Section RouteGC.
Context {E : Type} `{!Machine RouteCall E} (routerID : string) (clusterCIDR : IPNet).
Abbreviation M := (Go (sys unit E RouteCall)).
Definition rcall (c : RouteCall) : M (resp c) := perform c.

(** [isResponsibleForRoute], src/pkg/controller/routegc/controller.go:118-135 *)
Definition isResponsibleForRoute (route : Route) : bool :=
  match ParseCIDR (DestinationCIDR route) with
  | None => false
  | Some cidr =>
      let lastIP := or_not_bytes (net_IP cidr) (net_Mask cidr) in
      negb (negb (net_contains clusterCIDR (net_IP cidr)) || negb (net_contains clusterCIDR lastIP))
  end.

(** The two loops over the addresses of a server; the keys of [validNexthops]
    are all that is read of it. *)
Definition add_address (hops : gset string) (a : address) : M (gset string) :=
  match a with
  | NotAnObject | NoAddr => mret hops
  | Addr ip => mret ({[ip]} ∪ hops)
  | AddrNotString => panic "interface conversion: interface {} is not string"
  end.

(** One server's addresses;
    [Reconcile], src/pkg/controller/routegc/controller.go:65-80 *)
Definition add_server (hops : gset string) (srv : Server) : M (gset string) :=
  for_fold (fun hops addrs =>
    match addrs with
    | Some l => for_fold add_address hops l
    | None => panic "interface conversion: interface {} is not []interface {}"
    end) hops (sv_Addresses srv).

(** The handler never stops the listing.
    [foreachServer], src/pkg/controller/routegc/controller.go:138-155 *)
Definition foreachServer (handler : gset string -> Server -> M (gset string)) : M (gset string) :=
  p ← rcall RServers;
  EachPage (fun hops page => hops ← for_fold handler hops page; mret (hops, true)) ∅ p.

(** The loop over the routes: those that stay, and whether one goes;
    [Reconcile], src/pkg/controller/routegc/controller.go:93-104 *)
Definition sweep (validNexthops : gset string) (routes : list Route) : list Route * bool :=
  fold_left (fun '(newRoutes, updated) route =>
    if isResponsibleForRoute route && bool_decide (NextHop route ∉ validNexthops)
    then (newRoutes, true)
    else (newRoutes ++ [route], updated)) routes ([], false).

(** [Reconcile], src/pkg/controller/routegc/controller.go:61-115 *)
Definition Reconcile : M unit :=
  r ← attempt (foreachServer add_server);
  match r with
  | Bad _ => mret tt
  | Ok validNexthops =>
      r ← attempt (rcall (RGetRouter routerID));
      match r with
      | Bad _ => mret tt
      | Ok routes =>
          let '(newRoutes, updated) := sweep validNexthops routes in
          if (updated : bool)
          then _ ← attempt (rcall (RUpdateRouter routerID newRoutes)); mret tt
          else mret tt
      end
  end.

(** [wait.Until], for at most [fuel] turns *)
Fixpoint Until (fuel : nat) : M unit :=
  match fuel with
  | O => mret tt
  | S fuel' =>
      stopped ← rcall RStopped;
      if (stopped : bool) then mret tt else _ ← Reconcile; Until fuel'
  end.

(** [Run], src/pkg/controller/routegc/controller.go:39-59 *)
Definition Run (fuel : nat) : M unit :=
  _ ← rcall RNewClient;
  _ ← rcall RAuthenticate;
  _ ← rcall RNewCompute;
  _ ← rcall RNewNetwork;
  Until fuel.

(** * The addresses that are collected *)

(** A server whose addresses have the shape Nova documents *)
Definition well_formed (srv : Server) : Prop :=
  Forall (fun n => match n with Some l => AddrNotString ∉ l | None => False end) (sv_Addresses srv).

(** [ip] is an address of one of the servers. *)
Definition serves (srvs : list Server) (ip : string) : Prop :=
  ∃ srv l, srv ∈ srvs ∧ Some l ∈ sv_Addresses srv ∧ Addr ip ∈ l.

Definition ips (l : list address) : gset string :=
  ⋃ ((fun a => match a with Addr ip => {[ip]} | _ => ∅ end) <$> l).
Definition server_ips (srv : Server) : gset string :=
  ⋃ ((fun n => match n with Some l => ips l | None => ∅ end) <$> sv_Addresses srv).
Definition all_ips (srvs : list Server) : gset string := ⋃ (server_ips <$> srvs).

Lemma elem_of_union_fmap {A} (h : A → gset string) l ip :
  ip ∈ ⋃ (h <$> l) ↔ ∃ x, x ∈ l ∧ ip ∈ h x.
Proof.
  rewrite elem_of_union_list. split.
  - intros (X & (x & -> & Hx)%list_elem_of_fmap & Hip). by exists x.
  - intros (x & Hx & Hip). exists (h x). split; [by apply list_elem_of_fmap_2|done].
Qed.

Lemma elem_of_all_ips srvs ip : ip ∈ all_ips srvs ↔ serves srvs ip.
Proof.
  unfold all_ips, server_ips, ips, serves. setoid_rewrite elem_of_union_fmap. split.
  - intros (srv & Hs & H). apply elem_of_union_fmap in H as ([l|] & Hl & H); [|set_solver].
    apply elem_of_union_fmap in H as ([] & Ha & H); set_solver.
  - intros (srv & l & Hs & Hl & Ha). exists srv. split; [done|]. apply elem_of_union_fmap.
    exists (Some l). split; [done|]. apply elem_of_union_fmap. exists (Addr ip). set_solver.
Qed.

Lemma for_fold_union {A} (f : gset string → A → M (gset string)) (h : A → gset string) l hops s :
  (∀ hops x, x ∈ l → f hops x s = (s, Ret (h x ∪ hops))) →
  for_fold f hops l s = (s, Ret (⋃ (h <$> l) ∪ hops)).
Proof.
  revert hops. induction l as [|x l IH]; intros hops Hf; cbn [for_fold fmap list_fmap union_list].
  - unfold mret, go_ret. do 2 f_equal. set_solver.
  - unfold mbind, go_bind. rewrite Hf by left. rewrite IH by (intros; apply Hf; by right).
    do 2 f_equal. set_solver.
Qed.

Lemma add_server_ips srv hops s : well_formed srv → add_server hops srv s = (s, Ret (server_ips srv ∪ hops)).
Proof.
  unfold well_formed. rewrite Forall_forall. intros Hw. apply for_fold_union.
  intros hops' [l|] Hl; [|by apply Hw in Hl]. apply for_fold_union.
  intros hops'' [] Ha; cbn; unfold mret, go_ret, panic.
  1,2: do 2 f_equal; set_solver. 1: done.
  apply Hw in Hl. done.
Qed.

Lemma foreachServer_ips s e1 p srvs :
  answer RServers (env s) = (e1, Ok p) → listed p = Ok srvs → Forall well_formed srvs →
  foreachServer add_server s = (Sys (mem s) e1 (trace s ++ [RServers]), Ret (all_ips srvs)).
Proof.
  intros Ha Hl Hw. unfold foreachServer, rcall. unfold mbind at 1, go_bind at 1, perform. rewrite Ha. cbn [of_reply].
  rewrite (EachPage_fold well_formed _ (fun hops page => ⋃ (server_ips <$> page) ∪ hops) ∅ p _ srvs).
  - do 2 f_equal. unfold all_ips. set_solver.
  - intros hops page Hp. unfold mbind, go_bind. rewrite (for_fold_union _ server_ips); [done|].
    intros hops' srv Hs. apply add_server_ips. rewrite Forall_forall in Hp. by apply Hp.
  - intros hops x y. rewrite fmap_app, union_list_app_L. set_solver.
  - set_solver.
  - done.
  - done.
Qed.

(** Collecting leaves the state alone, whatever the shape of the addresses. *)
Definition still {A} (m : M A) : Prop := ∀ s, fst (m s) = s.
Lemma still_bind {A B} (m : M A) (f : A → M B) : still m → (∀ a, still (f a)) → still (m ≫= f).
Proof.
  intros Hm Hf s. specialize (Hm s). unfold mbind, go_bind.
  destruct (m s) as [s' []]; cbn in *; subst; [apply Hf|done..].
Qed.
Lemma still_for_fold {A B} (f : B → A → M B) b l : (∀ b x, still (f b x)) → still (for_fold f b l).
Proof. intros Hf. revert b. induction l; intros b; [done|]. apply still_bind; auto. Qed.
Lemma still_add_server hops srv : still (add_server hops srv).
Proof. apply still_for_fold. intros ? [l|]; [|done]. apply still_for_fold. by intros ? []. Qed.

Lemma foreachServer_bad s e1 r :
  answer RServers (env s) = (e1, r) →
  (match r with Ok p => ∃ err, listed p = Bad err | Bad _ => True end) →
  ∃ o, foreachServer add_server s = (Sys (mem s) e1 (trace s ++ [RServers]), o) ∧ ∀ b, o ≠ Ret b.
Proof.
  intros Ha Hbad. unfold foreachServer, rcall, perform. unfold mbind at 1, go_bind at 1. rewrite Ha.
  destruct r as [p|err]; cbn [of_reply]; [|by eexists]. destruct Hbad as [err Hl].
  apply (EachPage_bad _ _ _ _ err); [|done]. intros hops page s'. split.
  - apply still_bind; [|done]. apply still_for_fold, still_add_server.
  - unfold mbind, go_bind. by destruct (for_fold _ _ _ _) as [? []].
Qed.

(** * Which routes stay *)

Definition orphaned (hops : gset string) (r : Route) : bool :=
  isResponsibleForRoute r && bool_decide (NextHop r ∉ hops).

Lemma sweep_filter hops routes :
  sweep hops routes = (List.filter (fun r => negb (orphaned hops r)) routes, existsb (orphaned hops) routes).
Proof.
  assert (∀ acc u, fold_left (fun '(newRoutes, updated) route =>
      if isResponsibleForRoute route && bool_decide (NextHop route ∉ hops)
      then (newRoutes, true) else (newRoutes ++ [route], updated)) routes (acc, u) =
    (acc ++ List.filter (fun r => negb (orphaned hops r)) routes, u || existsb (orphaned hops) routes)) as H.
  { induction routes as [|r routes IH]; intros acc u; cbn [fold_left List.filter existsb].
    - by rewrite app_nil_r, orb_false_r.
    - fold (orphaned hops r). destruct (orphaned hops r); rewrite IH; cbn [negb].
      + by rewrite !orb_true_l, orb_true_r.
      + by rewrite <- app_assoc. }
  apply H.
Qed.

End RouteGC.

(** A sweep covers an IPv4 route exactly when all its addresses lie in the
    cluster network; a destination that is no network is never covered. *)
Theorem isResponsibleForRoute_interval c n a m r :
  aligned c n → aligned a m → ParseCIDR (DestinationCIDR r) = Some (net4 a m) →
  isResponsibleForRoute (net4 c n) r = true ↔
  ∀ x, be_val a <= x < be_val a + 2 ^ (32 - m) → be_val c <= x < be_val c + 2 ^ (32 - n).
Proof.
  intros Hc Ha Hp. unfold isResponsibleForRoute. rewrite Hp, negb_orb, !negb_involutive, andb_true_iff.
  destruct (or_not_last a m Ha) as [Hw Hv].
  rewrite (net_contains_aligned c (net_IP (net4 a m)) n Hc), (net_contains_aligned c _ n Hc) by (done || apply Ha).
  cbn [net_IP net_Mask net4] in *. rewrite Hv.
  assert (0 < 2 ^ (32 - m)) by (destruct Ha as (_ & ? & _); apply Z.pow_pos_nonneg; lia).
  split.
  - intros [? ?] x Hx. lia.
  - intros H'. split; apply H'; lia.
Qed.

(** * Concrete runs *)

Definition demo_servers : list Server :=
  [{| sv_ID := "s1"; sv_Addresses := [Some [Addr "10.0.0.5"; NoAddr]] |}].
Definition demo_routes : list Route :=
  [{| NextHop := "10.0.0.5"; DestinationCIDR := "198.19.0.0/24" |};
   {| NextHop := "10.0.0.9"; DestinationCIDR := "198.19.1.0/24" |};
   {| NextHop := "10.0.0.9"; DestinationCIDR := "192.168.0.0/24" |}].
Definition demo_router : Machine RouteCall unit := fun c e =>
  (e, match c return reply (resp c) with
      | RServers => Ok [Ok demo_servers]
      | RGetRouter _ => Ok demo_routes
      | RStopped => Ok true
      | RUpdateRouter _ _ => Ok tt
      | _ => Ok tt
      end).
Definition demo_net : IPNet := net4 [198; 19; 0; 0] 16.


Lemma isResponsibleForRoute_interval_witness :
  isResponsibleForRoute demo_net {| NextHop := "h"; DestinationCIDR := "198.19.1.7/24" |} = true.
Proof.
  apply (isResponsibleForRoute_interval [198; 19; 0; 0] 16 [198; 19; 1; 0] 24
           {| NextHop := "h"; DestinationCIDR := "198.19.1.7/24" |}).
  - unfold aligned, wf4, is_byte. split_and!; try done. repeat constructor; lia.
  - unfold aligned, wf4, is_byte. split_and!; try done. repeat constructor; lia.
  - vm_compute. reflexivity.
  - cbn. lia.
Defined.
