(* ===== verification/Version.v ===== *)
(** [pkg/util/version]: versions, which the iptables runner parses and
    compares.  Components are Go [uint]s of 64 bits; text is ASCII, and quoted
    text in errors is not escaped. *)
From S2P Require Import Prelude GoStrings.
Local Open Scope N_scope.

(** [Version], src/pkg/util/version/version.go:28-33 *)
Record Version := {
  components : list N;
  semver : bool;
  preRelease : string;
  buildMetadata : string }.

Definition is_ident (c : ascii) : bool :=
  is_digit c || is_lower c || is_upper c || bool_decide (c = "-"%char).

(** * The two patterns *)

Definition next_is (P : ascii -> bool) (s : string) : bool :=
  match s with String c _ => P c | EmptyString => false end.

(** The longest prefix of words over [P] separated by single dots; of a
    string that begins with such a word. *)
Fixpoint dotted_span (P : ascii -> bool) (s : string) : string * string :=
  match s with
  | EmptyString => ("", "")
  | String c s' =>
      if P c || (bool_decide (c = "."%char) && next_is P s')
      then let '(a, b) := dotted_span P s' in (String c a, b)
      else ("", s)
  end.

(** The submatches of [versionMatchRE]; the dot of the pattern is no newline.
    [versionMatchRE], src/pkg/util/version/version.go:36-37 *)
Definition versionMatch (str : string) : option (string * string) :=
  let s := drop_while is_re_space str in
  let s := match s with String "v" r => r | _ => s end in
  if next_is is_digit s
  then let '(numbers, extra) := dotted_span is_digit s in
       if str_has newline extra then None else Some (numbers, extra)
  else None.

(** An optional group that a character introduces *)
Definition group (k : ascii) (s : string) : string * string :=
  match s with
  | String c r => if bool_decide (c = k) && next_is is_ident r then dotted_span is_ident r else ("", s)
  | EmptyString => ("", s)
  end.

(** [extraMatchRE], src/pkg/util/version/version.go:38-39 *)
Definition extraMatch (extra : string) : option (string * string) :=
  let '(pre, r) := group "-" extra in
  let '(build, r) := group "+" r in
  if str_all is_re_space r then Some (pre, build) else None.

(** * Parsing *)

Definition zero_prefixed (comp : string) : bool := HasPrefix comp "0" && negb (bool_decide (comp = "0")).
Definition err_zero (comp str : string) : error :=
  ErrNew ("illegal zero-prefixed version component " +:+ quoted comp +:+ " in " +:+ quoted str).

Fixpoint parse_components (str : string) (semver first : bool) (l : list string) : reply (list N) :=
  match l with
  | [] => Ok []
  | comp :: l' =>
      if (first || semver) && zero_prefixed comp then Bad (err_zero comp str)
      else match ParseUint comp with
           | None => Bad (ErrNew ("illegal non-numeric version component " +:+ quoted comp +:+ " in " +:+ quoted str))
           | Some num =>
               match parse_components str semver false l' with
               | Bad err => Bad err
               | Ok nums => Ok (num :: nums)
               end
           end
  end.

(** A component of a pre-release that is a number must not have leading
    zeroes. *)
Definition bad_pre (comp : string) : bool := bool_decide (is_Some (ParseUint comp)) && zero_prefixed comp.

(** [parse], src/pkg/util/version/version.go:42-86 *)
Definition parse (str : string) (semver : bool) : reply Version :=
  match versionMatch str with
  | None => Bad (ErrNew ("could not parse " +:+ quoted str +:+ " as version"))
  | Some (numbers, extra) =>
      let comps := Split "." numbers in
      if (semver && negb (length comps =? 3)%nat) || (negb semver && (length comps <? 2)%nat)
      then Bad (ErrNew ("illegal version string " +:+ quoted str))
      else
        match parse_components str semver true comps with
        | Bad err => Bad err
        | Ok nums =>
            if semver && negb (bool_decide (extra = ""))
            then match extraMatch extra with
                 | None => Bad (ErrNew ("could not parse pre-release/metadata (" +:+ extra +:+ ") in version " +:+ quoted str))
                 | Some (pre, build) =>
                     match List.find bad_pre (Split "." pre) with
                     | Some comp => Bad (err_zero comp str)
                     | None => Ok {| components := nums; semver := semver; preRelease := pre; buildMetadata := build |}
                     end
                 end
            else Ok {| components := nums; semver := semver; preRelease := ""; buildMetadata := "" |}
        end
  end.

(** [ParseGeneric], src/pkg/util/version/version.go:93-95 *)
Definition ParseGeneric (str : string) : reply Version := parse str false.
(** [ParseSemantic], src/pkg/util/version/version.go:111-113 *)
Definition ParseSemantic (str : string) : reply Version := parse str true.

(** Indexing an absent component panics: [None].
    [Major], src/pkg/util/version/version.go:125-127 *)
Definition Major (v : Version) : option N := components v !! 0%nat.
(** [Minor], src/pkg/util/version/version.go:130-132 *)
Definition Minor (v : Version) : option N := components v !! 1%nat.
(** [Patch], src/pkg/util/version/version.go:135-140 *)
Definition Patch (v : Version) : N := default 0 (components v !! 2%nat).

(** [String], src/pkg/util/version/version.go:160-179 *)
Definition ver_String (v : Version) : string :=
  Join (Utoa <$> components v) "." +:+
  (if decide (preRelease v = "") then "" else "-" +:+ preRelease v) +:+
  (if decide (buildMetadata v = "") then "" else "+" +:+ buildMetadata v).

(** * Comparing *)

(** The loop over the components of the first version: [None] when it runs to
    the end. *)
Fixpoint compare_components (v other : list N) : option Z :=
  match v with
  | [] => None
  | a :: v' =>
      match other with
      | [] => if a =? 0 then compare_components v' [] else Some 1%Z
      | b :: other' =>
          if b <? a then Some 1%Z else if a <? b then Some (-1)%Z else compare_components v' other'
      end
  end.

(** The order of Go strings *)
Definition str_lt (a b : string) : bool := match String.compare a b with Lt => true | _ => false end.

Fixpoint compare_pre (vPR oPR : list string) : Z :=
  match vPR with
  | [] => 0%Z
  | a :: vPR' =>
      match oPR with
      | [] => 1%Z
      | b :: oPR' =>
          match ParseUint a, ParseUint b with
          | Some vNum, Some oNum =>
              if oNum <? vNum then 1%Z else if vNum <? oNum then (-1)%Z else compare_pre vPR' oPR'
          | _, _ => if str_lt b a then 1%Z else if str_lt a b then (-1)%Z else compare_pre vPR' oPR'
          end
      end
  end.

(** [compareInternal], src/pkg/util/version/version.go:183-238 *)
Definition compareInternal (v other : Version) : Z :=
  match compare_components (components v) (components other) with
  | Some r => r
  | None =>
      if negb (semver v) || negb (semver other) then 0%Z
      else if bool_decide (preRelease v = "") && negb (bool_decide (preRelease other = "")) then 1%Z
      else if negb (bool_decide (preRelease v = "")) && bool_decide (preRelease other = "") then (-1)%Z
      else if decide (preRelease v = preRelease other) then 0%Z
      else compare_pre (Split "." (preRelease v)) (Split "." (preRelease other))
  end.

(** [AtLeast], src/pkg/util/version/version.go:244-246 *)
Definition AtLeast (v min : Version) : bool := negb (compareInternal v min =? -1)%Z.
(** [LessThan], src/pkg/util/version/version.go:251-253 *)
Definition LessThan (v other : Version) : bool := (compareInternal v other =? -1)%Z.
(** [Compare], src/pkg/util/version/version.go:258-264 *)
Definition Compare (v : Version) (other : string) : reply Z :=
  match parse other (semver v) with
  | Bad err => Bad err
  | Ok ov => Ok (compareInternal v ov)
  end.

(** * The text of a version *)

(** [a] is made of words over [P] separated by single dots. *)
Definition dotted (P : ascii -> bool) (a : string) : Prop := next_is P a = true ∧ dotted_span P a = (a, "").
(** Nothing of [b] belongs to a dotted string in front of it. *)
Definition ends (P : ascii -> bool) (b : string) : Prop := next_is (fun c => P c || bool_decide (c = "."%char)) b = false.

Lemma dotted_span_inv P s a r : dotted_span P s = (a, r) → s = a +:+ r ∧ dotted_span P a = (a, "").
Proof.
  revert a r. induction s as [|c s IH]; intros a r; cbn [dotted_span].
  - by intros [= <- <-].
  - destruct (P c || _) eqn:Hc; [|by intros [= <- <-]].
    destruct (dotted_span P s) as [a' r'] eqn:Hs. intros [= <- <-].
    destruct (IH a' r' eq_refl) as [-> Hd]. split; [done|]. cbn [dotted_span].
    assert (P c || (bool_decide (c = "."%char) && next_is P a') = true) as ->; [|by rewrite Hd].
    destruct (P c); [done|]. cbn [orb] in Hc |- *. apply andb_true_iff in Hc as [Hdot Hn].
    rewrite Hdot. destruct a' as [|d a']; [|done].
    cbn [String.append next_is] in Hn. destruct r' as [|d r']; [done|].
    cbn [String.append] in Hs. cbn [next_is] in Hn. cbn [dotted_span] in Hs. rewrite Hn in Hs.
    cbn [orb] in Hs. by destruct (dotted_span P r').
Qed.

Lemma dotted_span_app P a b : dotted_span P a = (a, "") → ends P b → dotted_span P (a +:+ b) = (a, b).
Proof.
  unfold ends. induction a as [|c a IH]; intros Ha Hb; cbn [String.append].
  - destruct b as [|d b]; [done|]. cbn [next_is] in Hb. apply orb_false_iff in Hb as [Hp Hd].
    cbn [dotted_span]. by rewrite Hp, Hd.
  - cbn [dotted_span] in Ha |- *. destruct (P c || (bool_decide (c = "."%char) && next_is P a)) eqn:Hc; [|done].
    destruct (dotted_span P a) as [a' r'] eqn:Hs. injection Ha as -> ->.
    assert (P c || (bool_decide (c = "."%char) && next_is P (a +:+ b)) = true) as ->; [|by rewrite IH].
    destruct (P c); [done|]. cbn [orb] in Hc |- *. apply andb_true_iff in Hc as [-> Hn]. by destruct a.
Qed.

Lemma dotted_word P w b : str_all P w = true → dotted_span P b = (b, "") → dotted_span P (w +:+ b) = (w +:+ b, "").
Proof.
  intros Hw Hb. induction w as [|c w IH]; cbn [String.append]; [done|].
  cbn [str_all] in Hw. apply andb_true_iff in Hw as [Hc Hw]. cbn [dotted_span]. rewrite Hc. cbn [orb].
  by rewrite (IH Hw).
Qed.

Definition word (P : ascii -> bool) (w : string) : Prop := w ≠ "" ∧ str_all P w = true.
Lemma word_next P w b : word P w → next_is P (w +:+ b) = true.
Proof. intros [Hne Hw]. destruct w as [|c w]; [done|]. cbn in Hw |- *. by apply andb_true_iff in Hw as [? _]. Qed.

Lemma dotted_Join P l : l ≠ [] → Forall (word P) l → dotted P (Join l ".").
Proof.
  induction l as [|w l IH]; intros Hne Hl; [done|]. rewrite Forall_cons in Hl. destruct Hl as [Hw Hl].
  destruct l as [|w' l].
  - cbn [Join]. rewrite <- (str_app_nil_r w). split; [by apply word_next|].
    apply dotted_word; [by destruct Hw|done].
  - destruct (IH ltac:(done) Hl) as [Hn Hd].
    change (Join (w :: w' :: l) ".") with (w +:+ ("." +:+ Join (w' :: l) ".")).
    split; [by apply word_next|]. apply dotted_word; [by destruct Hw|].
    change ("." +:+ Join (w' :: l) ".") with (String "." (Join (w' :: l) ".")).
    cbn [dotted_span]. rewrite Hn, bool_decide_true, andb_true_r, orb_true_r by done. by rewrite Hd.
Qed.

Lemma digit_not c k : is_digit k = false → is_digit c = true → c ≠ k.
Proof. intros Hk Hc ->. by rewrite Hk in Hc. Qed.

Lemma Utoa_word n : word is_digit (Utoa n).
Proof. destruct (Utoa_spec n) as (? & _ & ? & _). done. Qed.
Lemma no_dot w : str_all is_digit w = true → str_has "." w = false.
Proof.
  intros H. unfold str_has. apply negb_false_iff. revert H. apply str_all_weaken. intros c Hc.
  apply negb_true_iff, bool_decide_false. by apply digit_not.
Qed.

(** ** Parsing printed text *)
Lemma versionMatch_canon n ext :
  dotted is_digit n → ends is_digit ext → str_has newline ext = false → versionMatch (n +:+ ext) = Some (n, ext).
Proof.
  intros [Hn Hd] He Hnl. unfold versionMatch.
  assert (next_is is_digit (n +:+ ext) = true) as Hnext by by destruct n.
  assert (dotted_span is_digit (n +:+ ext) = (n, ext)) as Hspan by by apply dotted_span_app.
  revert Hnext Hspan. destruct (n +:+ ext) as [|c s] eqn:E0; [done|]. intros Hnext Hspan.
  assert (drop_while is_re_space (String c s) = String c s) as ->.
  { unfold drop_while. cbn [span]. cbn [next_is] in Hnext.
    assert (is_re_space c = false) as ->; [|done].
    unfold is_digit, is_re_space in *. apply andb_true_iff in Hnext as [?%N.leb_le ?%N.leb_le].
    by repeat (apply orb_false_iff; split); apply N.eqb_neq; lia. }
  assert (match String c s with String "v" r => r | _ => String c s end = String c s) as ->.
  { cbn [next_is] in Hnext. pose proof (digit_not c "v" eq_refl Hnext) as Hv.
    destruct c as [[] [] [] [] [] [] [] []]; done. }
  rewrite Hnext, Hspan, Hnl. done.
Qed.

Lemma parse_components_Utoa str sv first l :
  Forall (fun n => n < 2 ^ 64) l → parse_components str sv first (Utoa <$> l) = Ok l.
Proof.
  revert first. induction l as [|n l IH]; intros first Hl; [done|].
  rewrite Forall_cons in Hl. destruct Hl as [Hn Hl]. cbn [fmap list_fmap parse_components].
  assert (zero_prefixed (Utoa n) = false) as ->.
  { unfold zero_prefixed. destruct (Utoa_spec n) as (_ & _ & _ & Hz).
    destruct (HasPrefix (Utoa n) "0"); [|done]. by rewrite (Hz eq_refl). }
  rewrite andb_false_r, ParseUint_Utoa by done. by rewrite (IH false Hl).
Qed.

Lemma parse_components_inv str sv first l nums :
  parse_components str sv first l = Ok nums → length nums = length l ∧ Forall (fun n => n < 2 ^ 64) nums.
Proof.
  revert first nums. induction l as [|c l IH]; intros first nums; cbn [parse_components]; [by intros [= <-]|].
  destruct (_ && _); [done|]. destruct (ParseUint c) as [n|] eqn:Hn; [|done].
  destruct (parse_components str sv false l) as [nums'|] eqn:Hl; [|done]. intros [= <-].
  destruct (IH _ _ Hl) as [Hlen Hall]. split; [cbn; by rewrite Hlen|]. constructor; [|done].
  unfold ParseUint in Hn. case_decide; [done|]. destruct (digits_val 0 c); [|done].
  destruct (n0 <? 2 ^ 64) eqn:Hlt; [|done]. injection Hn as <-. by apply N.ltb_lt.
Qed.

(** The text of an optional group *)
Definition group_text (k : ascii) (a : string) : string := if decide (a = "") then "" else String k a.
Definition group_ok (a : string) : Prop := a = "" ∨ dotted is_ident a.

Lemma group_inv k s a r : group k s = (a, r) → group_ok a.
Proof.
  unfold group. destruct s as [|c s]; [intros [= <- _]; by left|].
  destruct (bool_decide (c = k) && next_is is_ident s) eqn:Hc; [|intros [= <- _]; by left].
  apply andb_true_iff in Hc as [_ Hn]. intros Hs. right.
  destruct (dotted_span_inv _ _ _ _ Hs) as [-> Hd]. split; [|done].
  destruct a as [|d a]; [|done]. cbn [String.append] in *. destruct r as [|d r]; [done|].
  cbn [next_is] in Hn. cbn [dotted_span] in Hs. rewrite Hn in Hs. cbn [orb] in Hs. by destruct (dotted_span is_ident r).
Qed.

Lemma group_canon k a b : group_ok a → ends is_ident b → next_is (fun c => bool_decide (c = k)) b = false →
  group k (group_text k a +:+ b) = (a, b).
Proof.
  intros Ha Hb Hk. unfold group_text. case_decide as Hne.
  - subst a. cbn [String.append]. unfold group. destruct b as [|c b]; [done|].
    cbn [next_is] in Hk. by rewrite Hk.
  - destruct Ha as [|[Hn Hd]]; [done|]. cbn [String.append group]. rewrite bool_decide_true by done.
    assert (next_is is_ident (a +:+ b) = true) as -> by by destruct a. by apply dotted_span_app.
Qed.

Lemma dotted_chars P a r : dotted_span P a = (a, r) → str_all (fun c => P c || bool_decide (c = "."%char)) a = true.
Proof.
  revert r. induction a as [|c a IH]; intros r; cbn [dotted_span str_all]; [done|].
  destruct (P c || _) eqn:Hc; [|done]. destruct (dotted_span P a) as [a' r'] eqn:Hs.
  intros [= -> ->]. rewrite (IH _ eq_refl), andb_true_r.
  destruct (P c); [done|]. by apply andb_true_iff in Hc as [? _].
Qed.

Lemma no_newline_group k a : k ≠ newline → group_ok a → str_has newline (group_text k a) = false.
Proof.
  intros Hk Ha. unfold group_text, str_has. case_decide; [done|]. destruct Ha as [|[_ Hd%dotted_chars]]; [done|].
  cbn [str_all]. rewrite bool_decide_false by done. cbn [negb andb]. apply negb_false_iff.
  revert Hd. apply str_all_weaken. intros c Hc. apply negb_true_iff, bool_decide_false. intros ->. done.
Qed.

(** What parsing establishes *)
Definition canonical (v : Version) : Prop :=
  Forall (fun n => n < 2 ^ 64) (components v) ∧
  (if semver v then length (components v) = 3%nat
   else (2 <= length (components v))%nat ∧ preRelease v = "" ∧ buildMetadata v = "") ∧
  group_ok (preRelease v) ∧ group_ok (buildMetadata v) ∧ List.find bad_pre (Split "." (preRelease v)) = None.

Lemma parse_canonical str b v : parse str b = Ok v → semver v = b ∧ canonical v.
Proof.
  unfold parse. destruct (versionMatch str) as [[numbers extra]|]; [|done].
  destruct (_ || _) eqn:Hlen; [done|]. destruct (parse_components _ _ _ _) as [nums|] eqn:Hc; [|done].
  apply parse_components_inv in Hc as [Hl Hn].
  assert (if b then length nums = 3%nat else (2 <= length nums)%nat) as Hlen'.
  { rewrite Hl. destruct b; cbn in Hlen.
    - rewrite orb_false_r in Hlen. by apply negb_false_iff, Nat.eqb_eq in Hlen.
    - by apply Nat.leb_gt in Hlen. }
  destruct (if b then negb (bool_decide (extra = "")) else false) eqn:Hb.
  - destruct b; [|done]. cbn [andb]. rewrite Hb. unfold extraMatch.
    destruct (group "-" extra) as [pre r] eqn:Hpre. destruct (group "+" r) as [build r'] eqn:Hbuild.
    destruct (str_all is_re_space r'); [|done]. destruct (List.find _ _) eqn:Hf; [done|]. intros [= <-].
    split; [done|]. unfold canonical. cbn. split_and!; try done; by eapply group_inv.
  - change (b && negb (bool_decide (extra = ""))) with (if b then negb (bool_decide (extra = "")) else false).
    rewrite Hb. intros [= <-]. split; [done|]. unfold canonical. cbn. split_and!; try done; try by left.
    by destruct b.
Qed.

(** Printing and parsing. The text of a version that was parsed, semantic
    or generic, is parsed to the same version, so printing normalizes: it
    drops the spaces, the letter v, leading zeroes and the uninterpreted rest
    and nothing else. *)
Theorem parse_String str b v : parse str b = Ok v → parse (ver_String v) b = Ok v.
Proof.
  intros [Hs (Hn & Hlen & Hpre & Hbuild & Hbad)]%parse_canonical. destruct v as [cs sv pre build]. cbn in *. subst sv.
  unfold ver_String. cbn [components preRelease buildMetadata].
  change (if decide (pre = "") then "" else "-" +:+ pre) with (group_text "-" pre).
  change (if decide (build = "") then "" else "+" +:+ build) with (group_text "+" build).
  set (ext := group_text "-" pre +:+ group_text "+" build).
  assert (cs ≠ []) as Hne by (intros ->; destruct b; cbn in Hlen; [done|destruct Hlen; lia]).
  assert (∀ P, P "-"%char = false → P "+"%char = false → ends P ext) as Hends.
  { intros P H1 H2. unfold ext, group_text, ends. case_decide; case_decide; cbn; try done; by rewrite ?H1, ?H2. }
  unfold parse. rewrite versionMatch_canon.
  - rewrite (Split_Join "." (Utoa <$> cs)); [|by destruct cs|apply Forall_fmap, Forall_true; intros n; apply no_dot, Utoa_word].
    rewrite length_fmap.
    assert ((b && negb (length cs =? 3)%nat) || (negb b && (length cs <? 2)%nat) = false) as ->.
    { destruct b; cbn; [by rewrite Hlen|]. apply Nat.leb_gt. lia. }
    rewrite parse_components_Utoa by done.
    destruct b; cbn [andb]; [|by destruct Hlen as (_ & -> & ->)].
    unfold extraMatch, ext. rewrite group_canon; [|done| |].
    + rewrite <- (str_app_nil_r (group_text "+" build)), group_canon by done. cbn [str_all]. rewrite Hbad, str_app_nil_r.
      unfold group_text. repeat case_decide; subst; try done.
    + unfold group_text, ends. by case_decide.
    + unfold group_text. by case_decide.
  - apply dotted_Join; [by destruct cs|]. apply Forall_fmap, Forall_true. intros n. apply Utoa_word.
  - by apply Hends.
  - unfold ext. by rewrite str_has_app, !no_newline_group by done.
Qed.

Lemma parse_String_witness :
  ∃ v, parse " v1.4.07-rc1 " false = Ok v ∧ ver_String v = "1.4.7" ∧ parse (ver_String v) false = Ok v.
Proof.
  exists {| components := [1; 4; 7]; semver := false; preRelease := ""; buildMetadata := "" |}.
  split; [vm_compute; reflexivity|]. split; [vm_compute; reflexivity|].
  apply (parse_String " v1.4.07-rc1 " false). vm_compute. reflexivity.
Defined.

(** * The order of versions *)

(** The lexicographic order of components *)
Fixpoint lex (a b : list N) : comparison :=
  match a, b with
  | x :: a', y :: b' => match x ?= y with Eq => lex a' b' | c => c end
  | [], [] => Eq
  | [], _ => Lt
  | _, [] => Gt
  end.
Definition int_of (c : comparison) : Z := match c with Lt => -1 | Eq => 0 | Gt => 1 end.

Lemma compare_components_lex a b : length a = length b →
  compare_components a b = match lex a b with Eq => None | c => Some (int_of c) end.
Proof.
  revert b. induction a as [|x a IH]; intros [|y b] Hl; try done. cbn [compare_components lex].
  destruct (N.compare_spec x y) as [->|H|H].
  - rewrite N.ltb_irrefl. apply IH. by injection Hl.
  - assert ((y <? x) = false) as -> by (apply N.ltb_ge; lia). by apply N.ltb_lt in H as ->.
  - by apply N.ltb_lt in H as ->.
Qed.

Lemma lex_antisym a b : lex b a = CompOpp (lex a b).
Proof.
  revert b. induction a as [|x a IH]; intros [|y b]; try done. cbn [lex].
  rewrite (N.compare_antisym x y), IH. by destruct (x ?= y).
Qed.
Lemma lex_trans a b c : lex a b = Lt → lex b c ≠ Gt → lex a c = Lt.
Proof.
  revert b c. induction a as [|x a IH]; intros [|y b] [|z c]; cbn [lex]; try done.
  destruct (N.compare_spec x y) as [->|Hxy|Hxy]; [|intros _|done].
  - destruct (N.compare_spec y z); [intros; by eapply IH | done | done].
  - destruct (N.compare_spec y z) as [->|Hyz|Hyz]; intros Hne; [| |done];
      by rewrite (proj2 (N.compare_lt_iff x z)) by lia.
Qed.

(** Releases: no pre-release, and as many components each *)
Definition releases (k : nat) (v : Version) : Prop := length (components v) = k ∧ preRelease v = "".

(** On releases with equally many components the comparison is the
    lexicographic order of the components, antisymmetric and transitive;
    [LessThan] is its strict part and the negation of [AtLeast]. *)
Theorem compare_releases k v w u : releases k v → releases k w → releases k u →
  compareInternal v w = int_of (lex (components v) (components w)) ∧
  compareInternal w v = (- compareInternal v w)%Z ∧
  (LessThan v w = true → AtLeast u w = true → LessThan v u = true) ∧
  LessThan v w = negb (AtLeast v w).
Proof.
  intros [Hv Pv] [Hw Pw] [Hu Pu].
  assert (∀ a b, length (components a) = length (components b) → preRelease a = "" → preRelease b = "" →
    compareInternal a b = int_of (lex (components a) (components b))) as H.
  { intros a b Hl Pa Pb. unfold compareInternal. rewrite (compare_components_lex _ _ Hl), Pa, Pb.
    destruct (lex _ _); try done. by destruct (_ || _). }
  unfold LessThan, AtLeast. rewrite !H by congruence. split_and!; [done| | |by rewrite negb_involutive].
  - rewrite (lex_antisym (components v)). by destruct (lex _ _).
  - rewrite (lex_antisym (components w) (components u)). intros Hlt Hge.
    rewrite (lex_trans _ (components w)); [done| |].
    + by destruct (lex (components v) (components w)).
    + by destruct (lex (components w) (components u)).
Qed.

Definition release (l : list N) : Version := {| components := l; semver := false; preRelease := ""; buildMetadata := "" |}.
Lemma compare_releases_witness : LessThan (release [1; 4; 10]) (release [1; 6; 0]) = true.
Proof.
  refine (proj1 (proj2 (proj2 (compare_releases 3 (release [1; 4; 10]) (release [1; 4; 11]) (release [1; 6; 0]) _ _ _))) _ _);
    try (split; reflexivity); vm_compute; reflexivity.
Defined.

(** Beyond that the comparison is no order, against its documentation:
    pre-releases that mix numbers and words make a cycle, a further component
    of the second pre-release is not seen, and neither are further components
    of the second version, so 1.4 counts as at least 1.4.11. *)
Theorem compare_no_order :
  (∃ a b c, parse "1.0.0-2" true = Ok a ∧ parse "1.0.0-10" true = Ok b ∧ parse "1.0.0-1a" true = Ok c ∧
     LessThan a b = true ∧ LessThan b c = true ∧ LessThan c a = true) ∧
  (∃ a b, parse "1.0.0-alpha" true = Ok a ∧ parse "1.0.0-alpha.1" true = Ok b ∧
     compareInternal a b = 0%Z ∧ compareInternal b a = 1%Z) ∧
  (∃ a b, parse "1.4" false = Ok a ∧ parse "1.4.11" false = Ok b ∧
     AtLeast a b = true ∧ compareInternal b a = 1%Z).
Proof. split_and!; repeat eexists; vm_compute; reflexivity. Qed.
