(* ===== verification/Iptables.v ===== *)
(** [pkg/util/iptables]: the runner that changes packet filter rules by
    executing [iptables], and the parsing of saved rules.

    A command is one call; its reply is the combined output and the error of
    the process.  The mutex of the runner makes every operation atomic, so
    operations are sequences of calls.  Log output and the reload functions,
    which nothing calls, are not modelled. *)
From S2P Require Import Prelude GoStrings Version.
Local Open Scope Z_scope.

(** * Calls *)
Inductive ExecCall :=
| Exec (cmd : string) (args : list string) (stdin : option string)
| OpenLock (path : string)         (** the lock file of iptables 1.6 *)
| Flock
| ListenOld                        (** the socket that is the lock of iptables 1.4 *)
| CloseNew | CloseOld
| LockTick.                        (** a tick of [wait.PollImmediate]; false: the time is over *)
#[export] Instance exec_iface : Iface ExecCall := fun c =>
  match c with
  | Exec _ _ _ => (string * option error)%type
  | OpenLock _ | Flock | ListenOld | CloseNew | CloseOld => unit
  | LockTick => bool
  end.

(** [runner], src/pkg/util/iptables/iptables.go:116-127 *)
Record runner := {
  ipv6 : bool;
  hasCheck : bool;
  waitFlag : list string;
  restoreWaitFlag : list string;
  lockfilePath : string }.

Definition MinCheckVersion : string := "1.4.11".
Definition MinWaitVersion : string := "1.4.20".
Definition MinWait2Version : string := "1.4.22".

(** [makeFullArgs], src/pkg/util/iptables/iptables.go:470-472 *)
Definition makeFullArgs (table chain : string) (args : list string) : list string := [chain; "-t"; table] ++ args.

(** * Versions *)

(** The submatch of [v([0-9]+(\.[0-9]+)+)] *)
Fixpoint versionMatcher (s : string) : option string :=
  match s with
  | EmptyString => None
  | String c s' =>
      let '(v, _) := dotted_span is_digit s' in
      if bool_decide (c = "v"%char) && next_is is_digit s' && str_has "." v then Some v else versionMatcher s'
  end.

(** [getIPTablesHasCheckCommand], src/pkg/util/iptables/iptables.go:475-493 *)
Definition getIPTablesHasCheckCommand (vstring : string) : bool :=
  match ParseGeneric MinCheckVersion with
  | Bad _ => true
  | Ok minVersion =>
      match ParseGeneric vstring with
      | Bad _ => true
      | Ok version => AtLeast version minVersion
      end
  end.

(** [getIPTablesWaitFlag], src/pkg/util/iptables/iptables.go:496-531 *)
Definition getIPTablesWaitFlag (vstring : string) : list string :=
  match ParseGeneric vstring with
  | Bad _ => []
  | Ok version =>
      match ParseGeneric MinWaitVersion with
      | Bad _ => []
      | Ok minVersion =>
          if LessThan version minVersion then []
          else match ParseGeneric MinWait2Version with
               | Bad _ => []
               | Ok minVersion => if LessThan version minVersion then ["-w"] else ["-w2"]
               end
      end
  end.

(** * Matching rules in saved output *)

(** [hexnumRE.ReplaceAllString(s, "0x$1")]: after [0x], a run of zeroes gives
    way to the digit that follows, which may be the last zero itself.
    [trimhex], src/pkg/util/iptables/iptables.go:382-386 *)
Fixpoint trimhex_go (fuel : nat) (s : string) : string :=
  match fuel, s with
  | S fuel', String c s' =>
      let keep := String c (trimhex_go fuel' s') in
      match s' with
      | String "x" r =>
          let '(zeros, rest) := span (fun d => bool_decide (d = "0"%char)) r in
          if bool_decide (c = "0"%char) then
            match zeros, rest with
            | String _ _, String d rest' =>
                if is_digit d then "0x" +:+ String d (trimhex_go fuel' rest')
                else match zeros with
                     | String _ (String _ _) => "0x0" +:+ trimhex_go fuel' rest
                     | _ => keep
                     end
            | String _ (String _ _), EmptyString => "0x0"
            | _, _ => keep
            end
          else keep
      | _ => keep
      end
  | _, _ => s
  end.
Definition trimhex (s : string) : string := trimhex_go (String.length s) s.

Definition unquoted (s : string) : string := trimhex (Trim s dquote).

(** The loop of [checkRuleWithoutCheck] over the output of iptables-save *)
Definition line_matches (chain : string) (argsCopy : list string) (line : string) : bool :=
  let fields := Fields line in
  HasPrefix line ("-A " +:+ chain) && (length fields =? length argsCopy + 2)%nat &&
  bool_decide (list_to_set argsCopy ⊆@{gset string} list_to_set (unquoted <$> fields)).
Definition find_rule (chain : string) (args : list string) (out : string) : bool :=
  let argsCopy := args ≫= (fun a => Fields (unquoted a)) in
  existsb (line_matches chain argsCopy) (Split newline out).

(** [IsNotFoundError], src/pkg/util/iptables/iptables.go:612-621 *)
Definition IsNotFoundError (err : error) : bool :=
  let es := Error err in
  Contains es "No such file or directory" || Contains es "No chain/target/match by that name".

(** The process exited with status 1: the operation failed, as opposed to
    the command line. *)
Definition exit1 (err : error) : bool :=
  match err with ErrExit exited status _ => exited && (status =? 1) | _ => false end.

Section Runner.
Context {E : Type} `{!Machine ExecCall E}.
Abbreviation M := (Go (sys unit E ExecCall)).
Definition xcall (c : ExecCall) : M (resp c) := perform c.

(** [CombinedOutput] *)
Definition exec (cmd : string) (args : list string) (stdin : option string) : M (string * option error) :=
  xcall (Exec cmd args stdin).

Definition no_version (out : string) : error := ErrNew ("no iptables version found in string: " +:+ out).

(** [getIPTablesVersionString], src/pkg/util/iptables/iptables.go:535-547 *)
Definition getIPTablesVersionString : M string :=
  '(out, err) ← exec "iptables" ["--version"] None;
  match err with
  | Some e => fail e
  | None => match versionMatcher out with None => fail (no_version out) | Some v => mret v end
  end.

(** [getIPTablesRestoreVersionString], src/pkg/util/iptables/iptables.go:575-593 *)
Definition getIPTablesRestoreVersionString : M string :=
  '(out, err) ← exec "iptables-restore" ["--version"] (Some "");
  match err with
  | Some e => fail e
  | None => match versionMatcher out with None => fail (no_version out) | Some v => mret v end
  end.

(** [getIPTablesRestoreWaitFlag], src/pkg/util/iptables/iptables.go:553-571 *)
Definition getIPTablesRestoreWaitFlag : M (list string) :=
  r ← attempt getIPTablesRestoreVersionString;
  mret match r with
  | Bad _ => []
  | Ok vstring =>
      if decide (vstring = "") then []
      else match ParseGeneric vstring with Bad _ => [] | Ok _ => ["--wait=2"] end
  end.

(** [newInternal], src/pkg/util/iptables/iptables.go:131-156 *)
Definition newInternal (protocol_ipv6 : bool) (lockfile : string) : M runner :=
  r ← attempt getIPTablesVersionString;
  let vstring := match r with Bad _ => MinCheckVersion | Ok v => v end in
  restoreWait ← getIPTablesRestoreWaitFlag;
  mret {| ipv6 := protocol_ipv6;
          hasCheck := getIPTablesHasCheckCommand vstring;
          waitFlag := getIPTablesWaitFlag vstring;
          restoreWaitFlag := restoreWait;
          lockfilePath := if decide (lockfile = "") then "/run/xtables.lock" else lockfile |}.

Context (self : runner).

(** [iptablesCommand], src/pkg/util/iptables/iptables.go:350-356 *)
Definition iptablesCommand : string := if ipv6 self then "ip6tables" else "iptables".

(** [run], src/pkg/util/iptables/iptables.go:358-370 *)
Definition run (op : string) (args : list string) : M (string * option error) :=
  exec iptablesCommand (waitFlag self ++ [op] ++ args) None.

Definition wrap (what out : string) (err : error) : error := ErrNew (what +:+ ": " +:+ Error err +:+ ": " +:+ out).

(** [EnsureChain], src/pkg/util/iptables/iptables.go:173-189 *)
Definition EnsureChain (table chain : string) : M bool :=
  '(out, err) ← run "-N" (makeFullArgs table chain []);
  match err with
  | Some e => if exit1 e then mret true else fail (wrap ("error creating chain " +:+ quoted chain) out e)
  | None => mret false
  end.

(** [FlushChain], src/pkg/util/iptables/iptables.go:192-203 *)
Definition FlushChain (table chain : string) : M unit :=
  '(out, err) ← run "-F" (makeFullArgs table chain []);
  match err with Some e => fail (wrap ("error flushing chain " +:+ quoted chain) out e) | None => mret tt end.

(** [DeleteChain], src/pkg/util/iptables/iptables.go:206-218 *)
Definition DeleteChain (table chain : string) : M unit :=
  '(out, err) ← run "-X" (makeFullArgs table chain []);
  match err with Some e => fail (wrap ("error deleting chain " +:+ quoted chain) out e) | None => mret tt end.

(** [checkRuleUsingCheck], src/pkg/util/iptables/iptables.go:444-457 *)
Definition checkRuleUsingCheck (args : list string) : M bool :=
  '(out, err) ← run "-C" args;
  match err with
  | None => mret true
  | Some e => if exit1 e then mret false else fail (wrap "error checking rule" out e)
  end.

(** [checkRuleWithoutCheck], src/pkg/util/iptables/iptables.go:391-441 *)
Definition checkRuleWithoutCheck (table chain : string) (args : list string) : M bool :=
  '(out, err) ← exec "iptables-save" ["-t"; table] None;
  match err with
  | Some e => fail (ErrNew ("error checking rule: " +:+ Error e))
  | None => mret (find_rule chain args out)
  end.

(** [checkRule], src/pkg/util/iptables/iptables.go:374-380 *)
Definition checkRule (table chain : string) (args : list string) : M bool :=
  if hasCheck self then checkRuleUsingCheck (makeFullArgs table chain args)
  else checkRuleWithoutCheck table chain args.

(** [position] is [-I] or [-A].
    [EnsureRule], src/pkg/util/iptables/iptables.go:221-239 *)
Definition EnsureRule (position table chain : string) (args : list string) : M bool :=
  exists_ ← checkRule table chain args;
  if (exists_ : bool) then mret true
  else
    '(out, err) ← run position (makeFullArgs table chain args);
    match err with Some e => fail (wrap "error appending rule" out e) | None => mret false end.

(** [DeleteRule], src/pkg/util/iptables/iptables.go:242-260 *)
Definition DeleteRule (table chain : string) (args : list string) : M unit :=
  exists_ ← checkRule table chain args;
  if negb (exists_ : bool) then mret tt
  else
    '(out, err) ← run "-D" (makeFullArgs table chain args);
    match err with Some e => fail (wrap "error deleting rule" out e) | None => mret tt end.

(** The buffer receives the output even of a failed command.
    [SaveInto], src/pkg/util/iptables/iptables.go:267-286 *)
Definition SaveInto (table : string) : M (string * option error) := exec "iptables-save" ["-t"; table] None.

(** [wait.PollImmediate] *)
Fixpoint poll (fuel : nat) (condition : M bool) : M unit :=
  match fuel with
  | O => fail (ErrNew "timed out waiting for the condition")
  | S fuel' =>
      opened ← xcall LockTick;
      ok ← condition;
      if (ok : bool) then mret tt
      else if (opened : bool) then poll fuel' condition
      else fail (ErrNew "timed out waiting for the condition")
  end.
Definition PollImmediate (fuel : nat) (condition : M bool) : M unit :=
  ok ← condition;
  if (ok : bool) then mret tt else poll fuel condition.

Definition succeeds (c : M unit) : M bool :=
  r ← attempt c; mret match r with Ok _ => true | Bad _ => false end.

(** Two seconds of ticks of 200 milliseconds, and the closing of the channel *)
Definition lock_ticks : nat := 11.

(** [grabIptablesLocks], src/pkg/util/iptables/iptables.go:643-687 *)
Definition grabIptablesLocks : M unit :=
  r ← attempt (xcall (OpenLock (lockfilePath self)));
  match r with
  | Bad err => fail (ErrNew ("failed to open iptables lock " +:+ lockfilePath self +:+ ": " +:+ Error err))
  | Ok _ =>
      r ← attempt (PollImmediate lock_ticks (succeeds (xcall Flock)));
      match r with
      | Bad err => _ ← attempt (xcall CloseNew); fail (ErrNew ("failed to acquire new iptables lock: " +:+ Error err))
      | Ok _ =>
          r ← attempt (PollImmediate lock_ticks (succeeds (xcall ListenOld)));
          match r with
          | Bad err => _ ← attempt (xcall CloseNew); fail (ErrNew ("failed to acquire old iptables lock: " +:+ Error err))
          | Ok _ => mret tt
          end
      end
  end.

(** [locker.Close], src/pkg/util/iptables/iptables.go:628-641 *)
Definition closeLocks : M unit :=
  _ ← attempt (xcall CloseNew);
  _ ← attempt (xcall CloseOld);
  mret tt.

(** [restoreInternal], src/pkg/util/iptables/iptables.go:307-348 *)
Definition restoreInternal (args : list string) (data : string) (flush counters : bool) : M unit :=
  let args := args ++ (if flush then [] else ["--noflush"]) ++ (if counters then ["--counters"] else []) in
  let command : M unit :=
    '(out, err) ← exec "iptables-restore" (restoreWaitFlag self ++ args) (Some data);
    match err with Some e => fail (ErrNew (Error e +:+ " (" +:+ out +:+ ")")) | None => mret tt end in
  match restoreWaitFlag self with
  | [] =>
      _ ← grabIptablesLocks;
      r ← attempt command;
      _ ← closeLocks;
      lift_reply r
  | _ => command
  end.

(** [Restore], src/pkg/util/iptables/iptables.go:289-293 *)
Definition Restore (table data : string) (flush counters : bool) : M unit :=
  restoreInternal ["-T"; table] data flush counters.
(** [RestoreAll], src/pkg/util/iptables/iptables.go:296-300 *)
Definition RestoreAll (data : string) (flush counters : bool) : M unit := restoreInternal [] data flush counters.
End Runner.

(** * Saved rules *)

(** [MakeChainLine], src/pkg/util/iptables/save_restore.go:25-27 *)
Definition MakeChainLine (chain : string) : string := ":" +:+ chain +:+ " - [0:0]".

(** The loop of [ReadLine] behind the leading spaces.  [cur] is the text since
    [leftTrimIndex], [trimmed] the text up to [rightTrimIndex]. *)
Fixpoint read_go (cur : string) (trimmed : option string) (s : string) : string * string :=
  match s with
  | EmptyString => ("", "")
  | String c s' =>
      if bool_decide (c = " "%char) then read_go (cur +:+ " ") (Some (default cur trimmed)) s'
      else if bool_decide (c = newline) || bool_decide (s' = "") then
        if decide (cur = "") then ("", s')
        else match trimmed with
             | Some t => (t, s')
             | None => (if bool_decide (s' = "") && negb (bool_decide (c = newline)) then cur +:+ String c "" else cur, s')
             end
      else read_go (cur +:+ String c "") None s'
  end.

(** The position is the rest of the text behind it.
    [ReadLine], src/pkg/util/iptables/save_restore.go:64-110 *)
Definition ReadLine (s : string) : string * string :=
  read_go "" None (drop_while (fun c => bool_decide (c = " "%char)) s).

(** The first loop of [GetChainLines] *)
Fixpoint find_table (fuel : nat) (tablePrefix s : string) : string :=
  match fuel with
  | O => s
  | S fuel' =>
      if decide (s = "") then s
      else let '(line, rest) := ReadLine s in
           if HasPrefix line tablePrefix then rest else find_table fuel' tablePrefix rest
  end.

(** The second loop: [None] is the panic on a chain line without a space. *)
Fixpoint chain_lines (fuel : nat) (s : string) (m : gmap string string) : option (gmap string string) :=
  match fuel with
  | O => Some m
  | S fuel' =>
      if decide (s = "") then Some m
      else
        let '(line, rest) := ReadLine s in
        if decide (line = "") then chain_lines fuel' rest m
        else if HasPrefix line "COMMIT" || HasPrefix line "*" then Some m
        else if HasPrefix line "#" then chain_lines fuel' rest m
        else match line with
             | String ":" r =>
                 if decide (r = "") then chain_lines fuel' rest m
                 else
                   let '(chain, tail) := span (fun c => negb (bool_decide (c = " "%char))) r in
                   if decide (tail = "") then None
                   else chain_lines fuel' rest (<[chain := line]> m)
             | _ => chain_lines fuel' rest m
             end
  end.

(** Every line that is read is at least one byte long, so the length of the
    text bounds the turns.
    [GetChainLines], src/pkg/util/iptables/save_restore.go:31-62 *)
Definition GetChainLines (table save : string) : option (gmap string string) :=
  let n := String.length save in
  chain_lines n (find_table n ("*" +:+ table) save) ∅.

(** * The locks of a restore *)

Section RestoreLocks.
Context {E : Type} `{!Machine ExecCall E} (self : runner).
Implicit Types s : sys unit E ExecCall.

(** The calls of a restore but for the polling *)
Definition restore_steps (c : ExecCall) : bool :=
  match c with OpenLock _ | CloseNew | CloseOld | Exec _ _ _ => true | _ => false end.
Abbreviation steps := (picked restore_steps).

(** One inspected call, seen through a selection *)
Lemma wp_attempt_call (sel : ExecCall → bool) (c : ExecCall) (Q : outcome (reply (resp c)) → sys unit E ExecCall → Prop) s :
  (∀ r s', picked sel s' = picked sel s ++ (if sel c then [c] else []) → Q (Ret r) s') →
  wp (attempt (xcall c)) Q s.
Proof.
  intros HQ. apply wp_attempt, wp_perform. intros e r _.
  destruct r; cbn [of_reply]; apply HQ; by rewrite picked_snoc.
Qed.
(** The same for a call whose failure is passed on *)
Lemma wp_exec_call (sel : ExecCall → bool) (c : ExecCall) (Q : outcome (resp c) → sys unit E ExecCall → Prop) s :
  (∀ r s', picked sel s' = picked sel s ++ (if sel c then [c] else []) → Q (of_reply r) s') → wp (xcall c) Q s.
Proof. intros HQ. apply wp_perform. intros e r _. apply HQ. by rewrite picked_snoc. Qed.

Ltac x_call :=
  match goal with
  | |- wp (attempt (xcall ?c)) ?Q ?s => refine (wp_attempt_call restore_steps c Q s _)
  | |- wp (xcall ?c) ?Q ?s => refine (wp_exec_call restore_steps c Q s _)
  end.

(** Acquiring a lock takes no step, and ends without a panic. *)
Definition waits {A} (m : Go (sys unit E ExecCall) A) : Prop :=
  ∀ s, wp m (λ o s', match o with Panic _ => False | _ => steps s' = steps s end) s.

Lemma waits_poll fuel c : waits c → waits (poll (E:=E) fuel c).
Proof.
  intros Hc. induction fuel as [|fuel IH]; intros s; cbn [poll]; [by apply wp_fail|].
  apply wp_bind; x_call. intros [opened|e] s1 P1; cbn in P1; rewrite app_nil_r in P1; cbn; [|done].
  apply wp_bind. eapply wp_mono; [apply Hc|]. intros [ok|e|w] s2 P2; [|congruence|done].
  destruct ok; [apply wp_ret; congruence|]. destruct opened; [|apply wp_fail; congruence].
  eapply wp_mono; [apply IH|]. intros [?|?|?] s3 P3; [congruence..|done].
Qed.
Lemma waits_PollImmediate fuel c : waits c → waits (PollImmediate (E:=E) fuel c).
Proof.
  intros Hc s. unfold PollImmediate. apply wp_bind. eapply wp_mono; [apply Hc|].
  intros [ok|e|w] s1 P1; [|done..]. destruct ok; [by apply wp_ret|].
  eapply wp_mono; [by apply waits_poll|]. intros [?|?|?] s2 P2; [congruence..|done].
Qed.
Lemma waits_Flock : waits (succeeds (xcall (E:=E) Flock)).
Proof.
  intros s. unfold succeeds. apply wp_bind; x_call.
  intros r s1 P1. apply wp_ret. cbn in P1. by rewrite app_nil_r in P1.
Qed.
Lemma waits_ListenOld : waits (succeeds (xcall (E:=E) ListenOld)).
Proof.
  intros s. unfold succeeds. apply wp_bind; x_call.
  intros r s1 P1. apply wp_ret. cbn in P1. by rewrite app_nil_r in P1.
Qed.

Lemma grab_locks s :
  wp (grabIptablesLocks self) (λ o s',
    let opened := steps s ++ [OpenLock (lockfilePath self)] in
    match o with
    | Ret _ => steps s' = opened
    | Fail _ => steps s' = opened ∨ steps s' = opened ++ [CloseNew]
    | Panic _ => False
    end) s.
Proof.
  unfold grabIptablesLocks. cbv zeta. set (opened := steps s ++ [OpenLock _]).
  assert (∀ s0 (e : error), steps s0 = opened →
    wp (_ ← attempt (xcall CloseNew); fail (A:=unit) e) (λ o s',
      match o with Ret _ => steps s' = opened | Fail _ => steps s' = opened ∨ steps s' = opened ++ [CloseNew]
                 | Panic _ => False end) s0) as Hclose.
  { intros s0 e P0. apply wp_bind; x_call. intros r s2 P2. apply wp_fail. right.
    by rewrite P2, P0. }
  apply wp_bind; x_call. intros r s1 P1. cbn in P1. fold opened in P1.
  destruct r as [u|err]; [|apply wp_fail; by left].
  apply wp_bind, wp_attempt. eapply wp_mono; [apply waits_PollImmediate, waits_Flock|].
  intros [u2|e|w] s2 P2; [|apply Hclose; congruence|done].
  apply wp_bind, wp_attempt. eapply wp_mono; [apply waits_PollImmediate, waits_ListenOld|].
  intros [u3|e|w] s3 P3; [apply wp_ret; congruence|apply Hclose; congruence|done].
Qed.

(** A restore with an [iptables-restore] that cannot wait runs it once
    and only between opening and closing the locks, after both were acquired;
    whatever fails, a lock file that was opened is closed again.  With one that
    can wait it runs the command alone. *)
Theorem restoreInternal_locks args data flush counters s :
  wp (restoreInternal self args data flush counters) (λ o s',
    let command := Exec "iptables-restore" (restoreWaitFlag self ++ args ++
      (if flush then [] else ["--noflush"]) ++ (if counters then ["--counters"] else [])) (Some data) in
    let open := OpenLock (lockfilePath self) in
    match restoreWaitFlag self with
    | [] => match o with
            | Ret _ => steps s' = steps s ++ [open; command; CloseNew; CloseOld]
            | Fail _ => steps s' = steps s ++ [open] ∨ steps s' = steps s ++ [open; CloseNew] ∨
                        steps s' = steps s ++ [open; command; CloseNew; CloseOld]
            | Panic _ => False
            end
    | _ => trace s' = trace s ++ [command] ∧ ∀ w, o ≠ Panic w
    end) s.
Proof.
  unfold restoreInternal. cbv zeta. destruct (restoreWaitFlag self) as [|f fs] eqn:Hf.
  - cbn [app]. unfold exec. set (cmd := Exec "iptables-restore" _ (Some data)).
    apply wp_bind. eapply wp_mono; [apply grab_locks|]. cbv zeta. intros [u|e|w] s1 P1; [| |done].
    2: { destruct P1 as [P1|P1]; [by left|right; left]. by rewrite P1, <- app_assoc. }
    apply wp_bind, wp_attempt, wp_bind. x_call. intros r s2 P2. change (restore_steps cmd) with true in P2. cbv iota in P2.
    assert (∀ r0 : reply unit, wp (_ ← closeLocks (E:=E); lift_reply r0) (λ o s',
      o = of_reply r0 ∧ steps s' = steps s2 ++ [CloseNew; CloseOld]) s2) as Hclose.
    { intros r0. apply wp_bind. unfold closeLocks. apply wp_bind; x_call. intros r1 s3 P3.
      apply wp_bind; x_call. intros r2 s4 P4. apply wp_ret, wp_lift_reply.
      split; [done|]. rewrite P4, P3. cbn. by rewrite <- app_assoc. }
    assert (∀ r0 : reply unit, wp (_ ← closeLocks (E:=E); lift_reply r0) (λ o s',
      match o with
      | Ret _ => steps s' = steps s ++ [OpenLock (lockfilePath self); cmd; CloseNew; CloseOld]
      | Fail _ => steps s' = steps s ++ [OpenLock (lockfilePath self)] ∨
                  steps s' = steps s ++ [OpenLock (lockfilePath self); CloseNew] ∨
                  steps s' = steps s ++ [OpenLock (lockfilePath self); cmd; CloseNew; CloseOld]
      | Panic _ => False end) s2) as Hend.
    { intros r0. eapply wp_mono; [apply Hclose|]. cbv beta. intros o s3 [-> P3].
      rewrite P3, P2, P1, <- !app_assoc. by destruct r0; [|right; right]. }
    destruct r as [[out [e|]]|e]; cbn [of_reply].
    + apply wp_fail, Hend.
    + apply wp_ret, Hend.
    + apply Hend.
  - apply wp_bind. unfold exec, xcall.
    match goal with |- wp (perform ?c) ?Q ?s => refine (wp_perform c Q s _) end. intros e r _.
    destruct r as [[out [e0|]]|e0]; cbn [of_reply]; [apply wp_fail|apply wp_ret|]; done.
Qed.
End RestoreLocks.

(** * Rules that are ensured and deleted *)

Section Lawful.
(** A packet filter whose [-C], [-A] and [-D] commands succeed, as documented:
    [rules] are the rules of a chain, in order. *)
Context {E : Type} `{!Machine ExecCall E} (self : runner).
Context (rules : E -> string -> string -> list (list string)).
Definition command (op table chain : string) (args : list string) : ExecCall :=
  Exec (iptablesCommand self) (waitFlag self ++ [op] ++ makeFullArgs table chain args) None.
Context (check_law : ∀ e t c args, ∃ out,
  answer (command "-C" t c args) e =
  (e, Ok (out, if decide (args ∈ rules e t c) then None else Some (ErrExit true 1 "exit status 1")))).
Context (append_law : ∀ e t c args, ∃ e' out,
  answer (command "-A" t c args) e = (e', Ok (out, None)) ∧
  ∀ t' c', rules e' t' c' = if decide (t' = t ∧ c' = c) then rules e t c ++ [args] else rules e t' c').
Context (delete_law : ∀ e t c args l1 l2, rules e t c = l1 ++ args :: l2 → args ∉ l1 → ∃ e' out,
  answer (command "-D" t c args) e = (e', Ok (out, None)) ∧
  ∀ t' c', rules e' t' c' = if decide (t' = t ∧ c' = c) then l1 ++ l2 else rules e t' c').
Context (uses_check : hasCheck self = true).
Implicit Types s : sys unit E ExecCall.

Lemma bind_call {A} (c : ExecCall) (k : resp c → Go (sys unit E ExecCall) A) s e r :
  answer c (env s) = (e, Ok r) → (xcall c ≫= k) s = k r (Sys (mem s) e (trace s ++ [c])).
Proof. intros H. unfold mbind, go_bind, xcall, perform. by rewrite H. Qed.

Lemma checkRule_lawful t c args s :
  checkRule self t c args s =
  (Sys (mem s) (env s) (trace s ++ [command "-C" t c args]), Ret (bool_decide (args ∈ rules (env s) t c))).
Proof.
  unfold checkRule, checkRuleUsingCheck. rewrite uses_check. unfold run, exec.
  destruct (check_law (env s) t c args) as [out Hc].
  etrans; [exact (bind_call _ _ _ _ _ Hc)|]. cbv beta iota.
  destruct (decide _); [rewrite bool_decide_true by done|rewrite bool_decide_false by done]; done.
Qed.

Lemma EnsureRule_lawful t c args s :
  ∃ s', EnsureRule self "-A" t c args s = (s', Ret (bool_decide (args ∈ rules (env s) t c))) ∧
    (args ∈ rules (env s) t c → env s' = env s) ∧
    ∀ t' c', rules (env s') t' c' =
      if decide (t' = t ∧ c' = c ∧ args ∉ rules (env s) t c) then rules (env s) t c ++ [args] else rules (env s) t' c'.
Proof.
  unfold EnsureRule. rewrite (bind_run _ _ _ _ _ (checkRule_lawful t c args s)).
  destruct (decide (args ∈ rules (env s) t c)) as [Hin|Hin].
  - rewrite bool_decide_true by done. eexists. split; [reflexivity|]. split; [done|].
    intros t' c'. rewrite decide_False by naive_solver. done.
  - rewrite bool_decide_false by done. destruct (append_law (env s) t c args) as (e' & out & Ha & Hr).
    unfold run, exec. eexists. split.
    + etrans; [refine (bind_call _ _ _ e' _ _); exact Ha|]. reflexivity.
    + cbn [env]. split; [done|]. intros t' c'. rewrite Hr.
      destruct (decide (t' = t ∧ c' = c)), (decide (t' = t ∧ c' = c ∧ args ∉ rules (env s) t c)); naive_solver.
Qed.

Lemma DeleteRule_lawful t c args s l1 l2 :
  rules (env s) t c = l1 ++ args :: l2 → args ∉ l1 →
  ∃ s', DeleteRule self t c args s = (s', Ret tt) ∧
    ∀ t' c', rules (env s') t' c' = if decide (t' = t ∧ c' = c) then l1 ++ l2 else rules (env s) t' c'.
Proof.
  intros Hl Hl1. unfold DeleteRule. rewrite (bind_run _ _ _ _ _ (checkRule_lawful t c args s)).
  rewrite bool_decide_true by (rewrite Hl; set_solver). cbn [negb].
  destruct (delete_law (env s) t c args l1 l2 Hl Hl1) as (e' & out & Ha & Hr).
  exists (Sys (mem s) e' ((trace s ++ [command "-C" t c args]) ++ [command "-D" t c args])).
  split; [|exact Hr]. unfold run, exec.
  etrans; [refine (bind_call _ _ _ e' _ _); exact Ha|]. reflexivity.
Qed.

End Lawful.

(** * Reading saved chains *)

Definition nosp (c : ascii) : bool := negb (bool_decide (c = " "%char)).
Definition plain_char (c : ascii) : bool := nosp c && negb (bool_decide (c = newline)).
(** A chain name: not empty, without spaces and line ends *)
Definition chain_name (c : string) : Prop := c ≠ "" ∧ str_all plain_char c = true.

Lemma read_go_plain a cur tr s : str_all plain_char a = true → a ≠ "" → s ≠ "" →
  read_go cur tr (a +:+ s) = read_go (cur +:+ a) None s.
Proof.
  revert cur tr. induction a as [|c a IH]; intros cur tr Ha Hne Hs; [done|].
  cbn [str_all] in Ha. apply andb_true_iff in Ha as [Hc Ha]. cbn [String.append read_go].
  unfold plain_char, nosp in Hc. apply andb_true_iff in Hc as [Hsp%negb_true_iff Hnl%negb_true_iff].
  rewrite Hsp, Hnl. rewrite (bool_decide_false (a +:+ s = "")) by (intros [_ ->]%str_app_eq_nil; done). cbn [orb].
  destruct a as [|d a].
  - by destruct s.
  - rewrite IH by done. by rewrite str_app_assoc.
Qed.

Lemma read_go_space cur tr s : read_go cur tr (String " " s) = read_go (cur +:+ " ") (Some (default cur tr)) s.
Proof. done. Qed.
Lemma read_go_newline cur tr s : cur ≠ "" → read_go cur tr (String newline s) = (default cur tr, s).
Proof.
  intros Hc. cbn [read_go]. rewrite (bool_decide_false (newline = " "%char)), (bool_decide_true (newline = newline)) by done.
  cbn [orb]. rewrite decide_False by done. destruct tr; [done|].
  by rewrite andb_false_r.
Qed.

Lemma ReadLine_plain a s : str_all plain_char a = true → a ≠ "" → ReadLine (a +:+ String newline s) = (a, s).
Proof.
  intros Ha Hne. unfold ReadLine.
  assert (drop_while (fun c => bool_decide (c = " "%char)) (a +:+ String newline s) = a +:+ String newline s) as ->.
  { destruct a as [|c a]; [done|]. cbn [str_all] in Ha. apply andb_true_iff in Ha as [Hc _].
    unfold drop_while. cbn [String.append span].
    unfold plain_char, nosp in Hc. by apply andb_true_iff in Hc as [->%negb_true_iff _]. }
  rewrite read_go_plain by done. by rewrite read_go_newline.
Qed.

Lemma ReadLine_chain c s : chain_name c → ReadLine (MakeChainLine c +:+ String newline s) = (MakeChainLine c, s).
Proof.
  intros [Hne Hc].
  replace (MakeChainLine c +:+ String newline s)
    with ((":" +:+ c) +:+ String " " ("-" +:+ String " " ("[0:0]" +:+ String newline s)))
    by (unfold MakeChainLine; by rewrite !str_app_assoc).
  unfold ReadLine.
  assert (str_all plain_char (":" +:+ c) = true) as Hp by (cbn [String.append str_all]; by rewrite Hc).
  change (drop_while (fun c => bool_decide (c = " "%char)) ((":" +:+ c) +:+ ?x)) with ((":" +:+ c) +:+ x).
  rewrite (read_go_plain (":" +:+ c)) by done.
  rewrite read_go_space, (read_go_plain "-"), read_go_space, (read_go_plain "[0:0]") by done.
  rewrite read_go_newline by by destruct c.
  cbn [default String.append]. unfold MakeChainLine. f_equal. f_equal.
  by rewrite !str_app_assoc.
Qed.

(** ** The fuel is enough *)
Lemma read_go_shorter cur tr s : s ≠ "" → (String.length (snd (read_go cur tr s)) < String.length s)%nat.
Proof.
  revert cur tr. induction s as [|c s IH]; intros cur tr; [done|]. intros _. cbn [read_go String.length].
  assert (∀ cur tr, (String.length (snd (read_go cur tr s)) <= String.length s)%nat) as IH'.
  { intros cur' tr'. destruct s as [|d s]; [done|]. specialize (IH cur' tr' ltac:(done)). lia. }
  destruct (bool_decide (c = _)); [specialize (IH' (cur +:+ " ") (Some (default cur tr))); lia|].
  destruct (_ || _); [|specialize (IH' (cur +:+ String c "") None); lia].
  case_decide; [cbn; lia|]. destruct tr; cbn; lia.
Qed.
Lemma ReadLine_shorter s : s ≠ "" → (String.length (snd (ReadLine s)) < String.length s)%nat.
Proof.
  intros Hs. unfold ReadLine, drop_while. destruct (span _ s) as [a b] eqn:Hsp. cbn [snd].
  assert (String.length a + String.length b = String.length s)%nat as Hl.
  { revert a b Hsp. induction s as [|c s IH]; intros a b; cbn [span]; [by intros [= <- <-]|].
    destruct (bool_decide _); [|by intros [= <- <-]]. destruct (span _ s) as [a' b'] eqn:E0. intros [= <- <-].
    destruct s as [|d s]; [injection E0 as <- <-; done|]. cbn. by rewrite (IH ltac:(done) a' b' eq_refl). }
  destruct (decide (b = "")) as [->|Hb]; [destruct s; [done|cbn; lia]|].
  pose proof (read_go_shorter "" None b Hb). lia.
Qed.
Lemma chain_lines_fuel n k s m : (String.length s <= n)%nat → (n <= k)%nat → chain_lines k s m = chain_lines n s m.
Proof.
  revert k s m. induction n as [|n IH]; intros k s m Hs Hk.
  - destruct s; [|cbn in Hs; lia]. by destruct k.
  - destruct k as [|k]; [lia|]. cbn [chain_lines]. case_decide as Hne; [done|].
    pose proof (ReadLine_shorter s Hne) as Hl. destruct (ReadLine s) as [line rest]. cbn in Hl.
    assert (∀ m, chain_lines k rest m = chain_lines n rest m) as Hr by (intros; apply IH; lia).
    repeat (rewrite Hr || case_match || done).
Qed.
Lemma find_table_fuel n k p s : (String.length s <= n)%nat → (n <= k)%nat → find_table k p s = find_table n p s.
Proof.
  revert k s. induction n as [|n IH]; intros k s Hs Hk.
  - destruct s; [|cbn in Hs; lia]. by destruct k.
  - destruct k as [|k]; [lia|]. cbn [find_table]. case_decide as Hne; [done|].
    pose proof (ReadLine_shorter s Hne) as Hl. destruct (ReadLine s) as [line rest]. cbn in Hl.
    destruct (HasPrefix line p); [done|]. apply IH; lia.
Qed.

Lemma find_table_shorter n p s : (String.length (find_table n p s) <= String.length s)%nat.
Proof.
  revert s. induction n as [|n IH]; intros s; [done|]. cbn [find_table]. case_decide as Hne; [done|].
  pose proof (ReadLine_shorter s Hne) as Hl. destruct (ReadLine s) as [line rest]. cbn in Hl.
  destruct (HasPrefix line p); [lia|]. specialize (IH rest). lia.
Qed.

(** A table as iptables-save prints it: its name, its chains, then [rest] *)
Fixpoint chain_text (chains : list string) (rest : string) : string :=
  match chains with [] => rest | c :: cs => MakeChainLine c +:+ String newline (chain_text cs rest) end.
Definition save_text (table : string) (chains : list string) (rest : string) : string :=
  ("*" +:+ table) +:+ String newline (chain_text chains ("COMMIT" +:+ String newline rest)).

Lemma chain_lines_chains chains rest k m :
  Forall chain_name chains → (length chains < k)%nat →
  chain_lines k (chain_text chains ("COMMIT" +:+ String newline rest)) m =
  Some (fold_left (fun m c => <[c := MakeChainLine c]> m) chains m).
Proof.
  revert k m. induction chains as [|c cs IH]; intros k m Hc Hk; (destruct k as [|k]; [cbn in Hk; lia|]).
  - cbn [chain_text]. cbn [chain_lines]. rewrite ReadLine_plain by done. done.
  - rewrite Forall_cons in Hc. destruct Hc as [Hc Hcs]. cbn [chain_text chain_lines].
    rewrite decide_False by done. rewrite ReadLine_chain by done.
    rewrite decide_False by done.
    change (HasPrefix (MakeChainLine c) "COMMIT" || HasPrefix (MakeChainLine c) "*") with false.
    change (HasPrefix (MakeChainLine c) "#") with false. cbv iota.
    change (MakeChainLine c) with (String ":" (c +:+ " - [0:0]")) at 1. cbv iota.
    rewrite decide_False by (intros [_ ?]%str_app_eq_nil; done).
    rewrite (span_all _ c " - [0:0]"); [| |done].
    + rewrite decide_False by done. rewrite IH by (done || (cbn in Hk; lia)). done.
    + destruct Hc as [_ Hc]. revert Hc. apply str_all_weaken. unfold plain_char, nosp. intros ch. by intros [? _]%andb_true_iff.
Qed.

Lemma fold_chains chains m c :
  fold_left (fun m c => <[c := MakeChainLine c]> m) chains m !! c =
  if decide (c ∈ chains) then Some (MakeChainLine c) else (m : gmap string string) !! c.
Proof.
  revert m. induction chains as [|d cs IH]; intros m; cbn [fold_left]; [by rewrite decide_False by set_solver|].
  rewrite IH. destruct (decide (c ∈ cs)).
  - by rewrite decide_True by set_solver.
  - destruct (decide (c = d)) as [->|].
    + rewrite lookup_insert_eq. by rewrite decide_True by set_solver.
    + rewrite lookup_insert_ne by done. by rewrite decide_False by set_solver.
Qed.

Lemma prefix_refl s : String.prefix s s = true.
Proof. rewrite <- (str_app_nil_r s) at 2. apply string_prefix_app. Qed.
Lemma chain_text_length chains rest : (length chains <= String.length (chain_text chains rest))%nat.
Proof.
  induction chains as [|c cs IH]; cbn [chain_text length]; [lia|]. rewrite str_length_app. cbn [String.length]. lia.
Qed.


(** Without the check flag a rule of another chain may count as present:
    the chain is compared as a prefix of the line, and the arguments as a set. *)
Theorem find_rule_prefix :
  find_rule "KUBE" ["-j"; "ACCEPT"] ("-A KUBE-FIREWALL -j ACCEPT" +:+ String newline "") = true ∧
  find_rule "KUBE" ["-s"; "a"; "-d"; "b"] ("-A KUBE -s b -d a" +:+ String newline "") = true.
Proof. split; vm_compute; reflexivity. Qed.

(** * Concrete runs *)

(** The first occurrence of a rule removed *)
Fixpoint remove_rule (r : list string) (l : list (list string)) : list (list string) :=
  match l with [] => [] | x :: l' => if decide (x = r) then l' else x :: remove_rule r l' end.
Lemma remove_rule_first r l1 l2 : r ∉ l1 → remove_rule r (l1 ++ r :: l2) = l1 ++ l2.
Proof.
  induction l1 as [|x l1 IH]; intros Hr; cbn [app remove_rule]; [by rewrite decide_True|].
  rewrite decide_False by set_solver. rewrite IH by set_solver. done.
Qed.

(** A packet filter with [-C], [-A] and [-D], without the wait flag *)
Abbreviation filter_state := (gmap (string * string) (list (list string))).
Definition demo_rules (e : filter_state) (t c : string) : list (list string) := default [] (e !! (t, c)).
Definition demo_filter : Machine ExecCall filter_state := fun c e =>
  match c return filter_state * reply (resp c) with
  | Exec _ (op :: chain :: _ :: table :: args) _ =>
      let rs := demo_rules e table chain in
      if decide (op = "-C") then (e, Ok ("", if decide (args ∈ rs) then None else Some (ErrExit true 1 "exit status 1")))
      else if decide (op = "-A") then (<[(table, chain) := rs ++ [args]]> e, Ok ("", None))
      else if decide (op = "-D") then (<[(table, chain) := remove_rule args rs]> e, Ok ("", None))
      else (e, Ok ("", None))
  | Exec _ _ _ => (e, Ok ("", None))
  | LockTick => (e, Ok true)
  | OpenLock _ | Flock | ListenOld | CloseNew | CloseOld => (e, Ok tt)
  end.
Definition demo_runner : runner :=
  {| ipv6 := false; hasCheck := true; waitFlag := []; restoreWaitFlag := ["--wait=2"]; lockfilePath := "" |}.

Lemma demo_rules_insert e t c l t' c' :
  demo_rules (<[(t, c) := l]> e) t' c' = if decide (t' = t ∧ c' = c) then l else demo_rules e t' c'.
Proof.
  unfold demo_rules. case_decide as H.
  - destruct H as [-> ->]. by rewrite lookup_insert_eq.
  - rewrite lookup_insert_ne by (intros [= -> ->]; naive_solver). done.
Qed.


