(* ===== verification/Wormhole.v ===== *)
(** [pkg/wormhole/server/controller.go]: the tunnel server's controller.  It
    gives every node of the cluster its routes through the tunnel and rewrites
    the packet filter chain that redirects traffic into it.

    The tunnel, the packet filter and the informer's cache are calls; the
    packet filter is the interface of [Iptables].  The memory is the routes
    that were added per node.  A Go map is ranged over in an order of its own,
    which is a parameter. *)
From S2P Require Import Prelude GoStrings NetIP Telemetry WorkQueue Iptables.
Local Open Scope Z_scope.

Definition KUBERNIKUS_TUNNELS : string := "KUBERNIKUS-TUNNELS".
Definition hijackPort : Z := 9191.

(** [route], src/pkg/wormhole/server/controller.go:40-43 *)
Record route := { rt_cidr : string; rt_identifier : string }.
#[export] Instance route_eq_dec : EqDecision route.
Proof. solve_decision. Defined.

Record Node := { nd_Name : string; nd_PodCIDR : string; nd_Addresses : list (string * string) }.

Inductive WCall :=
| WCacheGet (key : string)
| WAddClientRoute (cidr identifier : string)
| WAddRoute (cidr : string)
| WDeleteClientRoute (cidr identifier : string)
| WDeleteRoute (cidr : string)
| WEnsureChain (table chain : string)
| WEnsureRule (position table chain : string) (args : list string)
| WSaveInto (table : string)
| WRestoreAll (data : string) (flush counters : bool).
#[export] Instance wormhole_iface : Iface WCall := fun c =>
  match c with
  | WCacheGet _ => option Node
  | WAddClientRoute _ _ | WAddRoute _ | WDeleteClientRoute _ _ | WDeleteRoute _ => unit
  | WEnsureChain _ _ => bool
  | WEnsureRule _ _ _ _ => bool
  | WSaveInto _ => string
  | WRestoreAll _ _ _ => unit
  end.

(** [net.ParseIP]; the nil address is empty. *)
Fixpoint first_sep (s : string) : option ascii :=
  match s with
  | EmptyString => None
  | String c s' => if bool_decide (c = "."%char) || bool_decide (c = ":"%char) then Some c else first_sep s'
  end.
Definition ParseIP (s : string) : IP :=
  match first_sep s with
  | Some "."%char => default [] (parseIPv4 s)
  | Some _ => default [] (parseIPv6 s)
  | None => []
  end.

(** The first internal address of a node, or else its first external one.
    [GetNodeHostIP], src/pkg/wormhole/server/controller.go:330-343 *)
Definition GetNodeHostIP (node : Node) : reply IP :=
  let of_type t := List.find (fun a => bool_decide (fst a = t)) (nd_Addresses node) in
  match of_type "InternalIP" with
  | Some a => Ok (ParseIP (snd a))
  | None =>
      match of_type "ExternalIP" with
      | Some a => Ok (ParseIP (snd a))
      | None => Bad (ErrNew "host IP unknown; known addresses: ")
      end
  end.

(** [writeLine], src/pkg/wormhole/server/controller.go:326-328 *)
Definition writeLine (buf : string) (words : list string) : string := buf +:+ (Join words " " +:+ String newline "").

(** A rule that redirects a destination into the tunnel *)
Definition redirect (comment dst : string) : list string :=
  ["-A"; KUBERNIKUS_TUNNELS; "-m"; "comment"; "--comment"; quoted comment; "--dst"; dst;
   "-p"; "tcp"; "-j"; "REDIRECT"; "--to-ports"; Itoa hijackPort].

Section Wormhole.
Context {E : Type} `{!Machine WCall E} (serviceCIDR : string) (range : gset string -> list string).
Abbreviation store := (gmap string (list route)).
Abbreviation M := (Go (sys store E WCall)).
Definition wcall (c : WCall) : M (resp c) := perform c.

(** [writeTunnelRedirect], src/pkg/wormhole/server/controller.go:287-324 *)
Definition writeTunnelRedirect (key filterRules : string) : M string :=
  obj ← wcall (WCacheGet key);
  match (obj : option Node) with
  | None => mret filterRules
  | Some node =>
      ip ← lift_reply (GetNodeHostIP node);
      let filterRules := writeLine filterRules (redirect ("node ip tunnel redirect for " +:+ key) (ip_String ip)) in
      mret (writeLine filterRules (redirect ("pod cidr tunnel redirect for " +:+ key) (nd_PodCIDR node)))
  end.

(** [redoIPTablesSpratz], src/pkg/wormhole/server/controller.go:209-285 *)
Definition redoIPTablesSpratz : M unit :=
  let table := "nat" in
  _ ← wcall (WEnsureChain table KUBERNIKUS_TUNNELS);
  _ ← wcall (WEnsureRule "-A" table "OUTPUT"
        ["-m"; "comment"; "--comment"; "kubernikus tunnels"; "-j"; KUBERNIKUS_TUNNELS]);
  r ← attempt (wcall (WSaveInto table));
  existingNatChains ← match r with
                      | Bad _ => mret ∅
                      | Ok raw => match GetChainLines table raw with
                                  | Some m => mret m
                                  | None => panic "slice bounds out of range"
                                  end
                      end;
  let natChains := writeLine "" ["*nat"] in
  let natChains := writeLine natChains
    [match existingNatChains !! KUBERNIKUS_TUNNELS with
     | Some chain => chain
     | None => MakeChainLine KUBERNIKUS_TUNNELS
     end] in
  store ← get_mem;
  natRules ← for_fold (fun rules key => writeTunnelRedirect key rules) "" (range (dom store));
  let natRules := writeLine natRules (redirect "cluster service CIDR tunnel redirect" serviceCIDR) in
  let natRules := writeLine natRules ["COMMIT"] in
  wcall (WRestoreAll (natChains +:+ natRules) false true).

Definition append_route (key : string) (r : route) : M unit :=
  store ← get_mem;
  set_mem (<[key := default [] (store !! key) ++ [r]]> store).

(** [addNode], src/pkg/wormhole/server/controller.go:167-198 *)
Definition addNode (key : string) (node : Node) : M unit :=
  let identifier := "system:node:" +:+ nd_Name node in
  let podCIDR := nd_PodCIDR node in
  ip ← lift_reply (GetNodeHostIP node);
  let nodeCIDR := ip_String ip +:+ "/32" in
  _ ← wcall (WAddClientRoute podCIDR identifier);
  _ ← append_route key {| rt_cidr := podCIDR; rt_identifier := identifier |};
  _ ← wcall (WAddRoute podCIDR);
  _ ← wcall (WAddClientRoute nodeCIDR identifier);
  _ ← append_route key {| rt_cidr := nodeCIDR; rt_identifier := identifier |};
  _ ← wcall (WAddRoute nodeCIDR);
  redoIPTablesSpratz.

(** [delNode], src/pkg/wormhole/server/controller.go:200-207 *)
Definition delNode (key : string) : M unit :=
  store ← get_mem;
  _ ← for_each (fun route =>
        _ ← attempt (wcall (WDeleteClientRoute (rt_cidr route) (rt_identifier route)));
        _ ← attempt (wcall (WDeleteRoute (rt_cidr route)));
        mret tt) (default [] (store !! key));
  redoIPTablesSpratz.

(** [reconcile], src/pkg/wormhole/server/controller.go:154-165 *)
Definition reconcile (key : string) : M unit :=
  obj ← wcall (WCacheGet key);
  match (obj : option Node) with
  | None => delNode key
  | Some node => addNode key node
  end.
End Wormhole.

(** * The queue *)

(** The controller: its queue, and the state its reconciliations run in *)
Record controller (X : Type) := Controller { wqueue : queue; wstate : X }.
Arguments Controller {_} _ _.
Arguments wqueue {_} _.
Arguments wstate {_} _.

Section Loop.
Context {E : Type} `{!Machine WCall E} (serviceCIDR : string) (range : gset string -> list string).
Abbreviation store := (gmap string (list route)).
Abbreviation W := (Go (controller (sys store E WCall))).

Definition BaseDelay : Z := 5000000000.
Definition MaxDelay : Z := 300000000000.

Definition on_queue (f : queue -> queue) : W unit := modify (fun c => Controller (f (wqueue c)) (wstate c)).
Definition run_reconcile (key : string) : W unit := fun c =>
  let '(s', o) := reconcile serviceCIDR range key (wstate c) in (Controller (wqueue c) s', o).

(** The handlers of the informer; updates of a node are not handled.
    [NewController], src/pkg/wormhole/server/controller.go:58-71 *)
Definition on_node_event (key : string) : W unit := on_queue (Add key).

(** [handleErr], src/pkg/wormhole/server/controller.go:127-152 *)
Definition handleErr (err : option error) (key : string) : W unit :=
  match err with
  | None => on_queue (Forget key)
  | Some _ =>
      c ← get;
      if decide (NumRequeues key (wqueue c) < 5)%nat
      then on_queue (AddRateLimited BaseDelay MaxDelay key)
      else on_queue (Forget key)
  end.

(** [processNextWorkItem], src/pkg/wormhole/server/controller.go:114-125 *)
Definition processNextWorkItem : W bool :=
  c ← get;
  match Get (wqueue c) with
  | Shutdown => mret false
  | Blocked => mret true
  | Item key q =>
      _ ← on_queue (fun _ => q);
      _ ← defer (fun _ => on_queue (Done key))
        (r ← attempt (run_reconcile key);
         handleErr (match r with Ok _ => None | Bad err => Some err end) key);
      mret true
  end.

(** Every five minutes all nodes that ever had routes are queued again.
    [Run], src/pkg/wormhole/server/controller.go:76-107 *)
Definition recheck : W unit :=
  c ← get; for_each (fun key => on_queue (Add key)) (range (dom (mem (wstate c)))).
End Loop.

(** * The routes of the tunnel *)

Section Routes.
Context {E : Type} `{!Machine WCall E} (serviceCIDR : string) (range : gset string -> list string).
Abbreviation store := (gmap string (list route)).
Abbreviation St := (sys store E WCall).

(** [routes]: the client routes of the tunnel, as they were added.  Adding one
    adds at most that one, deleting it leaves it out, and nothing else touches
    them. *)
Context (routes : E -> gset (string * string)).
Context (add_law : ∀ c i e e' r, answer (WAddClientRoute c i) e = (e', r) → 
  routes e' ⊆ match r with Ok _ => {[(c, i)]} ∪ routes e | Bad _ => routes e end).
Context (delete_law : ∀ c i e e' r, answer (WDeleteClientRoute c i) e = (e', r) → routes e' ⊆ routes e ∖ {[(c, i)]}).
Definition client_route (c : WCall) : bool :=
  match c with WAddClientRoute _ _ | WDeleteClientRoute _ _ => true | _ => false end.
Context (other_law : ∀ c e e' r, client_route c = false → answer c e = (e', r) → routes e' ⊆ routes e).
Implicit Types s : St.

(** A computation that leaves the store alone and adds no route *)
Definition shrinks {A} (m : Go St A) : Prop :=
  ∀ s, mem (fst (m s)) = mem s ∧ routes (env (fst (m s))) ⊆ routes (env s).

Lemma shrinks_bind {A B} (m : Go St A) (f : A → Go St B) : shrinks m → (∀ a, shrinks (f a)) → shrinks (m ≫= f).
Proof.
  intros Hm Hf s. destruct (Hm s) as [H1 H2]. unfold mbind, go_bind.
  destruct (m s) as [s' [a|e|w]]; cbn in *; [|done..]. destruct (Hf a s') as [H3 H4]. split; [congruence|set_solver].
Qed.
Lemma shrinks_pure {A} (m : Go St A) : (∀ s, fst (m s) = s) → shrinks m.
Proof. intros H s. by rewrite H. Qed.
Lemma shrinks_attempt {A} (m : Go St A) : shrinks m → shrinks (attempt m).
Proof. intros Hm s. destruct (Hm s). unfold attempt. by destruct (m s) as [? []]. Qed.
Lemma shrinks_call c : (∀ ci i, c ≠ WAddClientRoute ci i) → shrinks (wcall c).
Proof.
  intros Hc s. unfold wcall, perform. destruct (answer c (env s)) as [e r] eqn:Ha. cbn. split; [done|].
  destruct (client_route c) eqn:Hcl; [|by eapply other_law].
  destruct c; try done; [by destruct (Hc cidr identifier)|]. apply delete_law in Ha. set_solver.
Qed.
Lemma shrinks_for_fold {A B} (f : B → A → Go St B) b l : (∀ b x, shrinks (f b x)) → shrinks (for_fold f b l).
Proof. intros Hf. revert b. induction l; intros b; [by apply shrinks_pure|]. apply shrinks_bind; auto. Qed.

Ltac shrinks_solve :=
  repeat match goal with
  | |- shrinks (_ ≫= _) => apply shrinks_bind; [|intros ?]
  | |- shrinks (attempt _) => apply shrinks_attempt
  | |- shrinks (wcall ?c) => refine (shrinks_call c _); done
  | |- shrinks (for_fold _ _ _) => apply shrinks_for_fold; intros ? ?
  | |- shrinks (match ?x with _ => _ end) => destruct x
  | |- shrinks _ => by apply shrinks_pure
  end.

Lemma shrinks_redo : shrinks (redoIPTablesSpratz serviceCIDR range).
Proof. unfold redoIPTablesSpratz, writeTunnelRedirect. shrinks_solve. Qed.

(** Every route of the tunnel is recorded for some node. *)
Definition recorded (st : store) (e : E) : Prop :=
  ∀ c i, (c, i) ∈ routes e → ∃ key l, st !! key = Some l ∧ {| rt_cidr := c; rt_identifier := i |} ∈ l.

(** What a step may do: the record grows, and stays complete. *)
Definition keeps {A} (m : Go St A) : Prop := ∀ s,
  (∀ key r, r ∈ default [] (mem s !! key) → r ∈ default [] (mem (fst (m s)) !! key)) ∧
  (recorded (mem s) (env s) → recorded (mem (fst (m s))) (env (fst (m s)))).

Lemma shrinks_keeps {A} (m : Go St A) : shrinks m → keeps m.
Proof.
  intros Hm s. destruct (Hm s) as [H1 H2]. rewrite H1. split; [done|].
  intros Hr c i Hci. apply Hr. set_solver.
Qed.
Lemma keeps_bind {A B} (m : Go St A) (f : A → Go St B) : keeps m → (∀ a, keeps (f a)) → keeps (m ≫= f).
Proof.
  intros Hm Hf s. destruct (Hm s) as [H1 H2]. unfold mbind, go_bind.
  destruct (m s) as [s' [a|e|w]]; cbn in *; [|done..]. destruct (Hf a s') as [H3 H4]. auto.
Qed.

(** Adding a route and recording it *)
Lemma keeps_add c i key {A} (f : Go St A) : keeps f →
  keeps (_ ← wcall (WAddClientRoute c i); _ ← append_route key {| rt_cidr := c; rt_identifier := i |}; f).
Proof.
  intros Hf s. unfold append_route, wcall, perform, get_mem, set_mem, mbind, go_bind.
  destruct (answer (WAddClientRoute c i) (env s)) as [e r] eqn:Ha. apply add_law in Ha.
  destruct r as [u|err]; cbn.
  - set (s1 := Sys _ _ _). destruct (Hf s1) as [H1 H2]. split.
    + intros k r Hr. apply H1. subst s1. cbn. destruct (decide (k = key)) as [->|].
      * rewrite lookup_insert_eq. cbn. set_solver.
      * by rewrite lookup_insert_ne.
    + intros Hrec. apply H2. intros c' i' Hci. subst s1. cbn in *.
      apply Ha, elem_of_union in Hci as [[= -> ->]%elem_of_singleton|Hci].
      * eexists key, _. rewrite lookup_insert_eq. split; [done|]. set_solver.
      * destruct (Hrec _ _ Hci) as (k & l & Hk & Hl). destruct (decide (k = key)) as [->|].
        -- eexists key, _. rewrite lookup_insert_eq. split; [done|]. rewrite Hk. cbn. set_solver.
        -- exists k, l. by rewrite lookup_insert_ne.
  - split; [done|]. intros Hrec c' i' Hci. apply Hrec. set_solver.
Qed.

Lemma keeps_addNode key node : keeps (addNode serviceCIDR range key node).
Proof.
  unfold addNode. apply keeps_bind; [apply shrinks_keeps; shrinks_solve|]. intros ip.
  apply keeps_add, keeps_bind; [apply shrinks_keeps; shrinks_solve|]. intros _.
  apply keeps_add, keeps_bind; [apply shrinks_keeps; shrinks_solve|]. intros _.
  apply shrinks_keeps, shrinks_redo.
Qed.

Definition delete_route (r : route) : Go St unit :=
  _ ← attempt (wcall (WDeleteClientRoute (rt_cidr r) (rt_identifier r)));
  _ ← attempt (wcall (WDeleteRoute (rt_cidr r)));
  mret tt.

Lemma delete_route_run r s : ∃ e l, delete_route r s = (Sys (mem s) e l, Ret tt) ∧
  routes e ⊆ routes (env s) ∖ {[(rt_cidr r, rt_identifier r)]}.
Proof.
  unfold delete_route, wcall.
  destruct (answer (WDeleteClientRoute (rt_cidr r) (rt_identifier r)) (env s)) as [e1 r1] eqn:H1.
  destruct (answer (WDeleteRoute (rt_cidr r)) e1) as [e2 r2] eqn:H2.
  eexists e2, _. split; [go_call H1; go_call H2; reflexivity|].
  apply delete_law in H1. apply other_law in H2; [|done]. set_solver.
Qed.

Lemma delete_routes_run l s : ∃ e t, for_each delete_route l s = (Sys (mem s) e t, Ret tt) ∧
  routes e ⊆ routes (env s) ∧ ∀ r, r ∈ l → (rt_cidr r, rt_identifier r) ∉ routes e.
Proof.
  revert s. induction l as [|r l IH]; intros s; cbn [for_each].
  - exists (env s), (trace s). split; [by destruct s|]. set_solver.
  - destruct (delete_route_run r s) as (e1 & t1 & H1 & S1). rewrite (bind_run _ _ _ _ _ H1).
    destruct (IH (Sys (mem s) e1 t1)) as (e2 & t2 & H2 & S2 & D2). cbn in *.
    exists e2, t2. split; [done|]. set_solver.
Qed.

Lemma delNode_run key s :
  let s' := fst (delNode serviceCIDR range key s) in
  mem s' = mem s ∧ routes (env s') ⊆ routes (env s) ∧
  ∀ r, r ∈ default [] (mem s !! key) → (rt_cidr r, rt_identifier r) ∉ routes (env s').
Proof.
  intros s'. destruct (delete_routes_run (default [] (mem s !! key)) s) as (e & t & Hd & S & D).
  assert (delNode serviceCIDR range key s = redoIPTablesSpratz serviceCIDR range (Sys (mem s) e t)) as Heq.
  { unfold delNode. etrans; [exact (bind_run _ _ _ _ _ (eq_refl : get_mem s = (s, Ret (mem s))))|].
    cbv beta. exact (bind_run _ _ _ _ _ Hd). }
  subst s'. rewrite Heq. destruct (shrinks_redo (Sys (mem s) e t)) as [H1 H2]. cbn in *.
  split; [done|]. set_solver.
Qed.

(** C15: no route of the tunnel is forgotten. Every reconciliation of any node
    keeps the record of the routes complete, whatever fails on the way, and
    never shortens it; and when the node is gone, none of its recorded routes
    is left in the tunnel afterwards, even if the packet filter cannot be
    rewritten. *)
Theorem reconcile_routes key s :
  let s' := fst (reconcile serviceCIDR range key s) in
  (recorded (mem s) (env s) → recorded (mem s') (env s')) ∧
  (∀ k r, r ∈ default [] (mem s !! k) → r ∈ default [] (mem s' !! k)) ∧
  (∀ e1, answer (WCacheGet key) (env s) = (e1, Ok None) →
     mem s' = mem s ∧ ∀ r, r ∈ default [] (mem s !! key) → (rt_cidr r, rt_identifier r) ∉ routes (env s')).
Proof.
  intros s'. assert (keeps (reconcile serviceCIDR range key)) as Hk.
  { unfold reconcile. apply keeps_bind; [apply shrinks_keeps; shrinks_solve|]. intros [node|]; [apply keeps_addNode|].
    intros s0. destruct (delNode_run key s0) as (Hm & Hsub & _). rewrite Hm. split; [done|].
    intros Hr c i Hci. apply Hr. set_solver. }
  destruct (Hk s) as [H1 H2]. split_and!; [done..|].
  intros e1 Hget. subst s'. unfold reconcile, wcall. unfold mbind, go_bind, perform. rewrite Hget. cbn [of_reply].
  destruct (delNode_run key (Sys (mem s) e1 (trace s ++ [WCacheGet key]))) as (Hm & _ & Hd). done.
Qed.
End Routes.

(** * The rules that are restored *)

Section Rules.
Context {E : Type} `{!Machine WCall E} (serviceCIDR : string) (range : gset string -> list string).
(** The informer's cache, and the order a map is ranged over in *)
Context (cache : string -> option Node).
Context (cache_law : ∀ e k, ∃ e', answer (WCacheGet k) e = (e', Ok (cache k))).
Context (range_law : ∀ ks k, k ∈ range ks ↔ k ∈ ks).
Implicit Types s : sys (gmap string (list route)) E WCall.

(** The lines of a node: nothing when it is not in the cache, nothing at all
    when it has no address *)
Definition node_lines (key : string) : option (list string) :=
  match cache key with
  | None => Some []
  | Some node =>
      match GetNodeHostIP node with
      | Bad _ => None
      | Ok ip => Some [Join (redirect ("node ip tunnel redirect for " +:+ key) (ip_String ip)) " ";
                       Join (redirect ("pod cidr tunnel redirect for " +:+ key) (nd_PodCIDR node)) " "]
      end
  end.
Definition unlines (ls : list string) : string := String.concat "" ((fun l => l +:+ String newline "") <$> ls).

Lemma unlines_app a b : unlines (a ++ b) = unlines a +:+ unlines b.
Proof.
  unfold unlines. induction a as [|l a IH]; [done|]. rewrite <- app_comm_cons, !fmap_cons.
  assert (∀ x l, String.concat "" (x :: l) = x +:+ String.concat "" l) as Hc.
  { intros x [|y l']; cbn; [by rewrite str_app_nil_r|done]. }
  by rewrite !Hc, IH, !str_app_assoc.
Qed.
Lemma writeLine_unlines buf ws : writeLine buf ws = buf +:+ unlines [Join ws " "].
Proof. done. Qed.

Definition restores (c : WCall) : bool := match c with WRestoreAll _ _ _ => true | _ => false end.

Lemma GetNodeHostIP_Bad node err : GetNodeHostIP node = Bad err → err = ErrNew "host IP unknown; known addresses: ".
Proof. unfold GetNodeHostIP. destruct (List.find _ _); [done|]. destruct (List.find _ _); [done|]. by intros [= <-]. Qed.

Lemma redirects_run keys acc s :
  ∃ e t, Forall (λ c, restores c = false) t ∧
    for_fold (fun rules key => writeTunnelRedirect key rules) acc keys s =
    match mapM node_lines keys with
    | Some lss => (Sys (mem s) e (trace s ++ t), Ret (acc +:+ unlines (mjoin lss)))
    | None => (Sys (mem s) e (trace s ++ t), Fail (ErrNew "host IP unknown; known addresses: "))
    end.
Proof.
  revert acc s. induction keys as [|k keys IH]; intros acc s; cbn [for_fold].
  - exists (env s), []. split; [done|]. cbn. rewrite app_nil_r, str_app_nil_r. by destruct s.
  - destruct (cache_law (env s) k) as [e1 Hg]. set (s1 := Sys (mem s) e1 (trace s ++ [WCacheGet k])).
    assert (∀ acc, writeTunnelRedirect k acc s = match node_lines k with
      | Some ls => (s1, Ret (acc +:+ unlines ls))
      | None => (s1, Fail (ErrNew "host IP unknown; known addresses: ")) end) as Hw.
    { intros acc'. unfold writeTunnelRedirect, wcall, perform, node_lines. unfold mbind at 1, go_bind at 1. rewrite Hg.
      cbn [of_reply]. fold s1. destruct (cache k) as [node|]; [|by rewrite str_app_nil_r].
      destruct (GetNodeHostIP node) as [ip|err] eqn:Hip; cbn [lift_reply of_reply].
      - unfold lift_reply. go_eval. by rewrite !writeLine_unlines, str_app_assoc, <- unlines_app.
      - by rewrite (GetNodeHostIP_Bad _ _ Hip). }
    cbn [mapM]. unfold mbind at 1, go_bind at 1. rewrite Hw. destruct (node_lines k) as [ls|].
    + destruct (IH (acc +:+ unlines ls) s1) as (e & t & Ht & Hrun). exists e, (WCacheGet k :: t).
      split; [by constructor|]. rewrite Hrun. subst s1. cbn [mem trace].
      unfold mbind, option_bind. destruct (mapM node_lines keys) as [lss|]; cbn -[unlines].
      * by rewrite unlines_app, str_app_assoc, <- app_assoc.
      * by rewrite <- app_assoc.
    + exists e1, [WCacheGet k]. split; [by constructor|]. done.
Qed.

(** The chain line the restored text starts with: the saved one, or a new one *)
Definition chain_line (chain : string) : Prop :=
  chain = MakeChainLine KUBERNIKUS_TUNNELS ∨
  ∃ raw m, GetChainLines "nat" raw = Some m ∧ m !! KUBERNIKUS_TUNNELS = Some chain.

Lemma wp_wcall c (Q : outcome (resp c) → sys (gmap string (list route)) E WCall → Prop) s :
  (∀ r s', mem s' = mem s → picked restores s' = picked restores s ++ (if restores c then [c] else []) → Q (of_reply r) s') →
  wp (wcall c) Q s.
Proof. intros HQ. apply wp_perform. intros e r _. apply HQ; [done|]. by rewrite picked_snoc. Qed.
Ltac w_call :=
  match goal with |- wp (wcall ?c) ?Q ?s =>
    refine (wp_wcall c Q s _);
    let r := fresh "r" in let s' := fresh "s" in let Hm := fresh "Hm" in let Hp := fresh "Hp" in
    intros r s' Hm Hp; cbn [restores] in Hp; rewrite ?app_nil_r in Hp; destruct r as [r|r]; cbn [of_reply] end.

(** The packet filter is rewritten at most once per reconciliation
    and without flushing, to one text: the table and its chain, for every node
    with routes that is in the cache the redirects of its address and of its
    pods, the redirect of the services, and the commit.  If one such node has
    no address, no rule of any node is restored. *)
Theorem redoIPTables_text s :
  let keys := range (dom (mem s)) in
  wp (redoIPTablesSpratz serviceCIDR range) (λ o s',
    let restored := ∃ chain lss, chain_line chain ∧ mapM node_lines keys = Some lss ∧
      picked restores s' = picked restores s ++
        [WRestoreAll (unlines (["*nat"; chain] ++ mjoin lss ++
           [Join (redirect "cluster service CIDR tunnel redirect" serviceCIDR) " "; "COMMIT"])) false true] in
    mem s' = mem s ∧
    match o with
    | Ret _ => restored
    | Fail _ => picked restores s' = picked restores s ∨ restored
    | Panic _ => picked restores s' = picked restores s
    end ∧
    (∀ k node err, k ∈ dom (mem s) → cache k = Some node → GetNodeHostIP node = Bad err →
       picked restores s' = picked restores s ∧ ∀ a, o ≠ Ret a)) s.
Proof.
  intros keys. cbv zeta.
  assert (∀ k node err lss, k ∈ dom (mem s) → cache k = Some node → GetNodeHostIP node = Bad err →
    mapM node_lines keys = Some lss → False) as Hbad.
  { intros k node err lss Hk Hc Hip Hm. apply range_law in Hk. fold keys in Hk.
    apply mapM_Some in Hm. destruct (list_elem_of_lookup_1 _ _ Hk) as [i Hi].
    destruct (Forall2_lookup_l _ _ _ _ _ Hm Hi) as (ls & _ & Hl). unfold node_lines in Hl. by rewrite Hc, Hip in Hl. }
  match goal with |- wp _ ?R s => set (Q := R) end.
  assert (∀ o s', mem s' = mem s → picked restores s' = picked restores s → (∀ a, o ≠ Ret a) → Q o s') as Hearly.
  { intros o s' Hm Hp Ho. subst Q. cbv beta. split; [done|]. split; [|done]. destruct o; [by destruct (Ho a)|by left|done]. }
  unfold redoIPTablesSpratz.
  apply wp_bind. w_call; [|by apply Hearly]. apply wp_bind. w_call; [|by apply Hearly; congruence].
  assert (∀ (m : gmap string string) t0, mem t0 = mem s → picked restores t0 = picked restores s → (∀ c, m !! KUBERNIKUS_TUNNELS = Some c → chain_line c) →
    wp (store ← get_mem;
        natRules ← for_fold (fun rules key => writeTunnelRedirect key rules) "" (range (dom store));
        wcall (WRestoreAll (writeLine (writeLine "" ["*nat"]) [match m !! KUBERNIKUS_TUNNELS with
              | Some chain => chain | None => MakeChainLine KUBERNIKUS_TUNNELS end] +:+
           writeLine (writeLine natRules (redirect "cluster service CIDR tunnel redirect" serviceCIDR)) ["COMMIT"]) false true)) Q t0) as Hend.
  { clear Hm Hp Hm0 Hp0. intros m t0 Hmt Hpt Hch. apply wp_bind, wp_get_mem. rewrite Hmt. fold keys. apply wp_bind.
    destruct (redirects_run keys "" t0) as (e & t & Ht & Hrun). apply wp_intro. intros s3 o Ho. rewrite Hrun in Ho.
    assert (picked restores (Sys (mem t0) e (trace t0 ++ t)) = picked restores s) as Hp3.
    { unfold picked. cbn [trace]. rewrite List.filter_app, (filter_none _ _ Ht), app_nil_r. exact Hpt. }
    destruct (mapM node_lines keys) as [lss|] eqn:Hlss; injection Ho as <- <-; [|by apply Hearly].
    rewrite !writeLine_unlines, !str_app_assoc, <- !unlines_app.
    set (chain := match m !! KUBERNIKUS_TUNNELS with Some c => c | None => _ end).
    assert (chain_line chain) as Hchain by (subst chain; destruct (m !! _) eqn:E0; [by apply Hch|by left]).
    match goal with |- context [WRestoreAll ("" +:+ ?x)] => change ("" +:+ x) with x end.
    w_call; subst Q; cbv beta; (split; [rewrite Hm; exact Hmt|]).
    - split; [|intros ? ? ? ? ? ?; exfalso; eauto].
      exists chain, lss. split; [done|]. split; [done|]. rewrite Hp, Hp3. done.
    - split; [|intros ? ? ? ? ? ?; exfalso; eauto]. right.
      exists chain, lss. split; [done|]. split; [done|]. rewrite Hp, Hp3. done. }
  apply wp_bind, wp_attempt. w_call.
  - apply wp_bind. destruct (GetChainLines "nat" r1) as [m|] eqn:Hg.
    + apply wp_ret, Hend; [congruence..|]. intros c Hc. right. eauto.
    + apply wp_panic, Hearly; [congruence..|done].
  - apply wp_bind, wp_ret, Hend; [congruence..|]. intros c Hc. by rewrite lookup_empty in Hc.
Qed.
End Rules.

(** * Concrete runs *)

Definition demo_node : Node :=
  {| nd_Name := "n1"; nd_PodCIDR := "198.19.1.0/24"; nd_Addresses := [("Hostname", "n1"); ("InternalIP", "10.0.0.5")] |}.
Definition demo_cache (k : string) : option Node := if decide (k = "n1") then Some demo_node else None.
Definition demo_tunnel : Machine WCall (gset (string * string)) := fun c e =>
  match c return gset (string * string) * reply (resp c) with
  | WCacheGet k => (e, Ok (demo_cache k))
  | WAddClientRoute c i => ({[(c, i)]} ∪ e, Ok tt)
  | WDeleteClientRoute c i => (e ∖ {[(c, i)]}, Ok tt)
  | WAddRoute _ | WDeleteRoute _ | WRestoreAll _ _ _ => (e, Ok tt)
  | WEnsureChain _ _ | WEnsureRule _ _ _ _ => (e, Ok true)
  | WSaveInto _ => (e, Ok "")
  end.
Definition demo_record : gmap string (list route) :=
  {["n0" := [{| rt_cidr := "198.19.0.0/24"; rt_identifier := "system:node:n0" |}]]}.

Lemma reconcile_routes_witness :
  let s := Sys demo_record ({[("198.19.0.0/24", "system:node:n0")]} : gset (string * string)) [] in
  ("198.19.0.0/24", "system:node:n0") ∉ env (fst (reconcile (Machine0:=demo_tunnel) "198.18.128.0/17" elements "n0" s)).
Proof.
  intros s.
  refine (proj2 (proj2 (proj2 (reconcile_routes (Machine0:=demo_tunnel) "198.18.128.0/17" elements id _ _ _ "n0" s))
    (env s) eq_refl) {| rt_cidr := "198.19.0.0/24"; rt_identifier := "system:node:n0" |} _).
  - intros c i e e' r [= <- <-]. done.
  - intros c i e e' r [= <- <-]. done.
  - intros c e e' r Hc Ha. destruct c; try done; cbn in Ha; by injection Ha as <- _.
  - change (default [] (mem s !! "n0")) with [{| rt_cidr := "198.19.0.0/24"; rt_identifier := "system:node:n0" |}].
    left.
Defined.

Lemma redoIPTables_text_witness :
  let s := Sys {["n1" := []]} (∅ : gset (string * string)) [] in
  ∃ chain, picked restores (fst (redoIPTablesSpratz (Machine0:=demo_tunnel) "198.18.128.0/17" elements s)) =
    [WRestoreAll (unlines (["*nat"; chain;
       Join (redirect "node ip tunnel redirect for n1" "10.0.0.5") " ";
       Join (redirect "pod cidr tunnel redirect for n1" "198.19.1.0/24") " ";
       Join (redirect "cluster service CIDR tunnel redirect" "198.18.128.0/17") " "; "COMMIT"])) false true].
Proof.
  intros s.
  pose proof (redoIPTables_text (Machine0:=demo_tunnel) "198.18.128.0/17" elements demo_cache) as H.
  specialize (H (fun e k => ex_intro _ e eq_refl) ltac:(intros; apply elem_of_elements) s). cbv zeta in H.
  destruct (redoIPTablesSpratz (Machine0:=demo_tunnel) "198.18.128.0/17" elements s) as [s' o] eqn:E0.
  pose proof (wp_elim _ _ _ _ _ H E0) as (_ & Ho & _). cbv beta in Ho. cbn [fst].
  assert (o = Ret tt) as ->.
  { change o with (snd (s', o)). rewrite <- E0. vm_compute. reflexivity. }
  destruct Ho as (chain & lss & _ & Hl & Hp). exists chain. rewrite Hp.
  change (mapM (node_lines demo_cache) (elements (dom (mem s)))) with
    (mapM (node_lines demo_cache) ["n1"]) in Hl. vm_compute in Hl. injection Hl as <-. reflexivity.
Defined.
