(* ===== verification/Ground.v ===== *)
(** [pkg/controller/ground.go]: the controller that takes a kluster through
    its phases, with the helpers it uses from [pkg/client/kubernetes]
    ([IsPodReady], [PVAccessMode]), [pkg/util/wait] and [pkg/util/helm].

    Log output is not modelled. *)
From S2P Require Import Prelude GoStrings Models Telemetry WorkQueue Metrics Bootstrap Openstack.
Local Open Scope Z_scope.

(** * Pods *)
Record PodCondition := { pc_Type : string; pc_Status : string }.
Record Pod := {
  pod_Namespace : string; pod_Name : string; pod_Labels : gmap string string;
  Conditions : list PodCondition }.
#[export] Instance PodCondition_eq_dec : EqDecision PodCondition.
Proof. solve_decision. Defined.
#[export] Instance Pod_eq_dec : EqDecision Pod.
Proof. solve_decision. Defined.

(** [GetPodCondition], src/pkg/client/kubernetes/pod.go:27-37 *)
Definition GetPodCondition (status : list PodCondition) (conditionType : string) : option PodCondition :=
  List.find (fun c => bool_decide (pc_Type c = conditionType)) status.
(** [GetPodReadyCondition], src/pkg/client/kubernetes/pod.go:20-23 *)
Definition GetPodReadyCondition (status : list PodCondition) : option PodCondition := GetPodCondition status "Ready".
(** [IsPodReadyConditionTrue], src/pkg/client/kubernetes/pod.go:13-16 *)
Definition IsPodReadyConditionTrue (status : list PodCondition) : bool :=
  match GetPodReadyCondition status with None => false | Some c => bool_decide (pc_Status c = "True") end.
(** [IsPodReady], src/pkg/client/kubernetes/pod.go:8-10 *)
Definition IsPodReady (pod : Pod) : bool := IsPodReadyConditionTrue (Conditions pod).

(** * The calls of the controller *)

(** [OpenstackOptions], src/pkg/util/helm/helm.go:12-18 *)
Record OpenstackOptions := { oo_AuthURL : string; oo_Username : string; oo_Password : string;
  oo_DomainName : string; oo_Region : string }.
(** [openstackValues], src/pkg/util/helm/helm.go:20-29 *)
Record openstackValues := { ov_authURL : string; ov_username : string; ov_password : string;
  ov_domainName : string; ov_projectID : string; ov_region : string; ov_lbSubnetID : string;
  ov_routerID : string }.
(** The values of the chart.  The two URLs stand for their host names.
    [kubernikusHelmValues], src/pkg/util/helm/helm.go:31-54 *)
Record kubernikusHelmValues := { hv_openstack : openstackValues; hv_certs : gmap string string;
  hv_clusterCIDR : string; hv_serviceCIDR : string; hv_advertiseAddress : string;
  hv_bootstrapToken : string; hv_version : string; hv_accessMode : string;
  hv_apiserverURL : string; hv_wormholeURL : string }.

(** [GMarshal] extracts the host names of the two URLs and renders the values
    as YAML; [GCacheGet] reads the informer's cache; [GTick] is the ticker of a
    poll, false when its time is over. *)
Inductive GroundCall :=
| GOs (c : OpenstackCall)
| GKlusterGet (ns name : string)
| GKlusterUpdate (k : Kluster)
| GKlusterDelete (ns name : string)
| GSecretGet (ns name : string)
| GCacheGet (key : string)
| GPodsOf (name : string)
| GStorageClasses
| GPersistentVolumes
| GCreateCertificates (k : Kluster) (apiURL authURL domain : string)
| GBootstrapToken
| GRandomPassword
| GMarshal (v : kubernikusHelmValues)
| GInstallRelease (chart ns values name : string)
| GDeleteRelease (name : string)
| GClientFor (k : Kluster)
| GSeed (c : SeedCall)
| GEvent (k : Kluster) (normal : bool) (reason message : string)
| GGauge (g : gauge) (labels : list string) (v : Z)
| GBootDuration
| GTick.

#[export] Instance ground_iface : Iface GroundCall := fun c =>
  match c with
  | GOs c => resp c
  | GKlusterGet _ _ => Kluster
  | GKlusterUpdate _ => unit
  | GKlusterDelete _ _ => unit
  | GSecretGet _ _ => gmap string string
  | GCacheGet _ => option Kluster
  | GPodsOf _ => list Pod
  | GStorageClasses => list string
  | GPersistentVolumes => list (list string)
  | GCreateCertificates _ _ _ _ => gmap string string
  | GBootstrapToken => string
  | GRandomPassword => string
  | GMarshal _ => string
  | GInstallRelease _ _ _ _ => unit
  | GDeleteRelease _ => unit
  | GClientFor _ => unit
  | GSeed c => resp c
  | GEvent _ _ _ _ => unit
  | GGauge _ _ _ => unit
  | GBootDuration => unit
  | GTick => bool
  end.

(** The parts of [config.Config] that are read *)
Record Config := { cf_Domain : string; cf_AuthURL : string; cf_ChartDirectory : string }.

Definition ErrWaitTimeout : error := ErrNew "timed out waiting for the condition".
(** [DoesNotExist], src/pkg/util/wait/wait.go:13-13 *)
Definition DoesNotExist : error := ErrNew "The object was not found in the cache".

Definition set_Apiserver (a : string) (s : KlusterStatus) : KlusterStatus :=
  {| Apiserver := a; Message := Message s; st_NodePools := st_NodePools s; Phase := Phase s;
     st_Version := st_Version s; Wormhole := Wormhole s |}.
Definition set_Wormhole (w : string) (s : KlusterStatus) : KlusterStatus :=
  {| Apiserver := Apiserver s; Message := Message s; st_NodePools := st_NodePools s; Phase := Phase s;
     st_Version := st_Version s; Wormhole := w |}.

(** * Choosing the OpenStack parameters

    The part of [discoverOpenstackInfo] that completes the parameters of a
    kluster from the routers of its project.  The security group is looked up
    only when everything else was found. *)
Definition err_router (id : string) : error := ErrNew ("Specified router " +:+ id +:+ " not found in project").
Definition err_routers (n : nat) : error :=
  ErrNew ("Found " +:+ Itoa (Z.of_nat n) +:+ " routers in project. Autoconfiguration not possible.").
Definition err_network (id router : string) : error :=
  ErrNew ("Selected network " +:+ id +:+ " not found on router " +:+ router).
Definition err_networks (n : nat) (router : string) : error :=
  ErrNew ("Found " +:+ Itoa (Z.of_nat n) +:+ " networks on router " +:+ router +:+
          ". Auto-configuration not possible. Please choose one.").
Definition err_subnet (id network : string) : error :=
  ErrNew ("Selected subnet " +:+ id +:+ " not found in network " +:+ network).
Definition err_subnets (n : nat) (network : string) : error :=
  ErrNew ("Found " +:+ Itoa (Z.of_nat n) +:+ " subnets for network " +:+ network +:+
          ". Auto-configuration not possible. Please choose one.").

(** The item with the requested id, or the only item when none is requested *)
Definition choose {A} (id_of : A -> string) (requested : string) (l : list A)
    (missing : string -> error) (ambiguous : nat -> error) : reply A :=
  if decide (requested ≠ "") then
    match List.find (fun x => bool_decide (id_of x = requested)) l with
    | Some x => Ok x
    | None => Bad (missing requested)
    end
  else match l with [x] => Ok x | _ => Bad (ambiguous (length l)) end.

(** [discoverOpenstackInfo], src/pkg/controller/ground.go:510-595 *)
Definition select_openstack (account : string) (routers : list Router) (os : OpenstackSpec) : reply OpenstackSpec :=
  let project := if decide (ProjectID os = "") then account else ProjectID os in
  match choose rt_ID (RouterID os) routers err_router err_routers with
  | Bad e => Bad e
  | Ok router =>
      match choose nw_ID (NetworkID os) (rt_Networks router)
              (fun id => err_network id (rt_ID router)) (fun n => err_networks n (rt_ID router)) with
      | Bad e => Bad e
      | Ok network =>
          match choose sn_ID (LBSubnetID os) (nw_Subnets network)
                  (fun id => err_subnet id (nw_ID network)) (fun n => err_subnets n (nw_ID network)) with
          | Bad e => Bad e
          | Ok subnet =>
              Ok {| LBSubnetID := if decide (LBSubnetID os = "") then sn_ID subnet else LBSubnetID os;
                    NetworkID := if decide (NetworkID os = "") then nw_ID network else NetworkID os;
                    ProjectID := project;
                    RouterID := if decide (RouterID os = "") then rt_ID router else RouterID os;
                    SecurityGroupID := SecurityGroupID os |}
          end
      end
  end.

(** [requiresOpenstackInfo], src/pkg/controller/ground.go:448-453 *)
Definition requiresOpenstackInfo (k : Kluster) : bool :=
  let os := Openstack (Spec k) in
  bool_decide (ProjectID os = "") || bool_decide (RouterID os = "") ||
  bool_decide (NetworkID os = "") || bool_decide (LBSubnetID os = "").
(** [requiresKubernikusInfo], src/pkg/controller/ground.go:455-457 *)
Definition requiresKubernikusInfo (k : Kluster) : bool :=
  bool_decide (Apiserver (Status k) = "") || bool_decide (Wormhole (Status k) = "").

(** * The operations *)
Section Ground.
Context {S E : Type} `{!Machine GroundCall E} (config : Config).
Abbreviation M := (Go (sys S E GroundCall)).

Definition gcall (c : GroundCall) : M (resp c) := perform c.
(** Calls whose result is not looked at: events and metrics *)
Definition emit (c : GroundCall) : M unit := _ ← attempt (gcall c); mret tt.
Definition set_gauge (g : gauge) (labels : list string) (v : Z) : M unit := emit (GGauge g labels v).
Definition seed (c : SeedCall) : M (resp c) := gcall (GSeed c).

(** [PVAccessMode], src/pkg/client/kubernetes/pvc_accessmode.go:13-37 *)
Definition PVAccessMode : M string :=
  sClasses ← gcall GStorageClasses;
  if decide (sClasses = []) then
    pvs ← gcall GPersistentVolumes;
    mret (if existsb (existsb (fun mode => bool_decide (mode = "ReadWriteMany"))) (pvs : list (list string))
          then "ReadWriteMany" else "ReadWriteOnce")
  else mret "ReadWriteOnce".

(** [wait.Poll] of every 50ms for 5s: at most a hundred ticks, and one check
    after the time is over. *)
Fixpoint Poll (fuel : nat) (condition : M bool) : M unit :=
  match fuel with
  | O => fail ErrWaitTimeout
  | Datatypes.S fuel' =>
      opened ← gcall GTick;
      ok ← condition;
      if (ok : bool) then mret tt
      else if (opened : bool) then Poll fuel' condition else fail ErrWaitTimeout
  end.

(** [WaitForKluster], src/pkg/util/wait/wait.go:15-31 *)
Definition WaitForKluster (k : Kluster) (condition : Kluster -> bool) : M unit :=
  let key := MetaNamespaceKey (Meta k) in
  Poll 101 (o ← gcall (GCacheGet key);
            match o : option Kluster with
            | None => fail DoesNotExist
            | Some c => mret (condition c)
            end).
(** [WaitForKlusterDeletion], src/pkg/util/wait/wait.go:33-39 *)
Definition WaitForKlusterDeletion (k : Kluster) : M unit :=
  r ← attempt (WaitForKluster k (fun _ => false));
  match r with
  | Bad e => if decide (e = DoesNotExist) then mret tt else fail e
  | Ok _ => mret tt
  end.

(** [updatePhase], src/pkg/controller/ground.go:311-334 *)
Definition updatePhase (kluster : Kluster) (phase : KlusterPhase) (message : string) : M unit :=
  copy ← gcall (GKlusterGet (Namespace (Meta kluster)) (Name (Meta kluster)));
  if decide (Phase (Status copy) = phase) then mret tt
  else
    _ ← emit (GEvent copy true phase (phase +:+ " cluster"));
    let copy' := set_Status (with_phase phase message) copy in
    r ← attempt (gcall (GKlusterUpdate copy'));
    match r with
    | Bad err => fail err
    | Ok _ => _ ← attempt (WaitForKluster copy' (fun k => bool_decide (Phase (Status k) = phase))); mret tt
    end.

(** [KlusterToHelmValues], src/pkg/util/helm/helm.go:56-101 *)
Definition KlusterToHelmValues (kluster : Kluster) (openstack : OpenstackOptions)
    (certificates : gmap string string) (bootstrapToken accessMode : string) : M string :=
  gcall (GMarshal
    {| hv_bootstrapToken := bootstrapToken; hv_certs := certificates;
       hv_clusterCIDR := ClusterCIDR (Spec kluster); hv_serviceCIDR := ServiceCIDR (Spec kluster);
       hv_advertiseAddress := AdvertiseAddress (Spec kluster); hv_version := st_Version (Status kluster);
       hv_openstack := {| ov_authURL := oo_AuthURL openstack; ov_username := oo_Username openstack;
         ov_password := oo_Password openstack; ov_domainName := oo_DomainName openstack;
         ov_region := oo_Region openstack; ov_projectID := ProjectID (Openstack (Spec kluster));
         ov_lbSubnetID := LBSubnetID (Openstack (Spec kluster));
         ov_routerID := RouterID (Openstack (Spec kluster)) |};
       hv_accessMode := accessMode;
       hv_apiserverURL := Apiserver (Status kluster); hv_wormholeURL := Wormhole (Status kluster) |}).

(** An error wrapped by a message *)
Definition wrap {A} (msg : string) (m : M A) : M A :=
  r ← attempt m;
  match r with Ok a => mret a | Bad e => fail (ErrNew (msg +:+ Error e)) end.

(** The token of [util.GenerateBootstrapToken]: an error is dropped and leaves
    the empty string.
    [GenerateBootstrapToken], src/pkg/util/bootstrap.go:7-10 *)
Definition GenerateBootstrapToken : M string :=
  r ← attempt (gcall GBootstrapToken);
  mret match r with Ok token => (token : string) | Bad _ => "" end.

(** [createKluster], src/pkg/controller/ground.go:336-403 *)
Definition createKluster (kluster : Kluster) : M unit :=
  accessMode ← wrap "Couldn't determine access mode for pvc: " PVAccessMode;
  apiURL ← wrap "Couldn't determine kubernikus api from service catalog: "
    (gcall (GOs OsGetKubernikusCatalogEntry));
  certificates ← wrap "Failed to generate certificates: "
    (gcall (GCreateCertificates kluster apiURL (cf_AuthURL config) (cf_Domain config)));
  bootstrapToken ← GenerateBootstrapToken;
  let username := "kubernikus-" +:+ Name (Meta kluster) in
  password ← wrap "Failed to generate password: " (gcall GRandomPassword);
  let domain := "kubernikus" in
  region ← gcall (GOs OsGetRegion);
  _ ← gcall (GOs (OsCreateKlusterServiceUser username password domain (ProjectID (Openstack (Spec kluster)))));
  let options := {| oo_AuthURL := cf_AuthURL config; oo_Username := username; oo_Password := password;
                    oo_DomainName := domain; oo_Region := region |} in
  rawValues ← KlusterToHelmValues kluster options certificates bootstrapToken accessMode;
  gcall (GInstallRelease (cf_ChartDirectory config +:+ "/kube-master") (Namespace (Meta kluster)) rawValues
           (Name (Meta kluster))).

(** [terminateKluster], src/pkg/controller/ground.go:405-446 *)
Definition terminateKluster (kluster : Kluster) : M unit :=
  let name := Name (Meta kluster) in
  r ← attempt (gcall (GSecretGet (Namespace (Meta kluster)) name));
  _ ← match r with
      | Bad err => if IsNotFound err then mret tt else fail err
      | Ok data => gcall (GOs (OsDeleteUser (default "" ((data : gmap string string) !! "openstack-username"))
                                            (default "" (data !! "openstack-domain-name"))))
      end;
  r ← attempt (gcall (GDeleteRelease name));
  _ ← match r with
      | Bad err => if Contains (Error err) ("release: " +:+ quoted name +:+ " not found") then mret tt else fail err
      | Ok _ => mret tt
      end;
  r ← attempt (gcall (GKlusterDelete (Namespace (Meta kluster)) name));
  match r with
  | Bad err => fail err
  | Ok _ => _ ← attempt (WaitForKlusterDeletion kluster); mret tt
  end.

(** [discoverKubernikusInfo], src/pkg/controller/ground.go:459-491 *)
Definition discoverKubernikusInfo (kluster : Kluster) : M unit :=
  copy ← gcall (GKlusterGet (Namespace (Meta kluster)) (Name (Meta kluster)));
  let copy := if decide (Apiserver (Status copy) = "")
    then set_Status (set_Apiserver ("https://" +:+ Name (Meta kluster) +:+ "." +:+ cf_Domain config)) copy else copy in
  let copy := if decide (Wormhole (Status copy) = "")
    then set_Status (set_Wormhole ("https://" +:+ Name (Meta kluster) +:+ "-wormhole." +:+ cf_Domain config)) copy
    else copy in
  gcall (GKlusterUpdate copy).

Definition with_SecurityGroupID (id : string) (os : OpenstackSpec) : OpenstackSpec :=
  {| LBSubnetID := LBSubnetID os; NetworkID := NetworkID os; ProjectID := ProjectID os;
     RouterID := RouterID os; SecurityGroupID := id |}.

Definition err_secgroup (e : error) (account : string) : error :=
  ErrNew ("Failed to get id for default securitygroup in project " +:+ Error e +:+ ": " +:+ account).

(** [discoverOpenstackInfo], src/pkg/controller/ground.go:493-615 *)
Definition discoverOpenstackInfo (kluster : Kluster) : M unit :=
  routers ← gcall (GOs (OsGetRouters (Account kluster)));
  copy ← gcall (GKlusterGet (Namespace (Meta kluster)) (Name (Meta kluster)));
  os ← lift_reply (select_openstack (Account kluster) routers (Openstack (Spec copy)));
  os ← (if decide (SecurityGroupID os ≠ "") then mret os
        else
          r ← attempt (gcall (GOs (OsGetSecurityGroupID (Account kluster) "default")));
          match r with
          | Bad e => fail (err_secgroup e (Account kluster))
          | Ok id => mret (with_SecurityGroupID id os)
          end);
  gcall (GKlusterUpdate (set_Openstack (fun _ => os) copy)).

(** Records a failure as a warning and returns it. *)
Definition or_event (kluster : Kluster) (reason message : string) (m : M unit) : M unit :=
  r ← attempt m;
  match r with
  | Ok _ => mret tt
  | Bad err => _ ← emit (GEvent kluster false reason (message +:+ Error err)); fail err
  end.

(** The branches of [handler].
    [handler], src/pkg/controller/ground.go:166-206 *)
Definition handle_pending (kluster : Kluster) : M unit :=
  if requiresOpenstackInfo kluster then
    or_event kluster "ConfigurationError" "Discovery of openstack parameters failed: " (discoverOpenstackInfo kluster)
  else if requiresKubernikusInfo kluster then
    or_event kluster "ConfigurationError" "Discovery of kubernikus parameters failed: " (discoverKubernikusInfo kluster)
  else
    _ ← or_event kluster "FailedCreate" "Failed to create cluster: " (createKluster kluster);
    _ ← attempt (updatePhase kluster KlusterPhaseCreating "Creating Cluster"); mret tt.

(** [handler], src/pkg/controller/ground.go:207-244 *)
Definition handle_creating (kluster : Kluster) : M unit :=
  pods ← gcall (GPodsOf (Name (Meta kluster)));
  if decide (length (List.filter IsPodReady pods) = 4%nat) then
    _ ← gcall (GClientFor kluster);
    _ ← SeedKluster seed kluster;
    _ ← attempt (updatePhase kluster KlusterPhaseRunning "");
    emit GBootDuration
  else mret tt.

(** [handler], src/pkg/controller/ground.go:245-266 *)
Definition handle_terminating (kluster : Kluster) : M unit :=
  _ ← or_event kluster "" "Failed to terminate cluster: " (terminateKluster kluster);
  SetMetricKlusterTerminated set_gauge (Name (Meta kluster)).

(** [handler], src/pkg/controller/ground.go:144-270 *)
Definition handler (key : string) : M unit :=
  r ← attempt (gcall (GCacheGet key));
  match r with
  | Bad err => fail (ErrNew ("Failed to fetch key " +:+ key +:+ " from cache: " +:+ Error err))
  | Ok None => mret tt
  | Ok (Some kluster) =>
      _ ← SetMetricKlusterInfo set_gauge (Namespace (Meta kluster)) (Name (Meta kluster))
        (st_Version (Status kluster)) (ProjectID (Openstack (Spec kluster)))
        (Annotations (Meta kluster)) (Labels (Meta kluster));
      _ ← SetMetricKlusterStatusPhase set_gauge (Name (Meta kluster)) (Phase (Status kluster));
      let phase := Phase (Status kluster) in
      if decide (phase = KlusterPhasePending) then handle_pending kluster
      else if decide (phase = KlusterPhaseCreating) then handle_creating kluster
      else if decide (phase = KlusterPhaseTerminating) then handle_terminating kluster
      else mret tt
  end.
End Ground.

(** * The queue and the event handlers *)

(** What an informer hands to a delete handler: the object, or a tombstone
    when the deletion itself was missed. *)
Inductive deleted (A : Type) := LastKnown (a : A) | Tombstone (key : string) (a : A).
Arguments LastKnown {_} _.
Arguments Tombstone {_} _ _.

(** The state of the controller: its queue and the state its handler runs in *)
Record ground (X : Type) := GroundState { gqueue : queue; gsys : X }.
Arguments GroundState {_} _ _.
Arguments gqueue {_} _.
Arguments gsys {_} _.

Section GroundQueue.
Context {S E : Type} `{!Machine GroundCall E} (config : Config).
Abbreviation G := (Go (ground (sys S E GroundCall))).

Definition on_queue (f : queue -> queue) : G unit := modify (fun g => GroundState (f (gqueue g)) (gsys g)).

(** [klusterAdd], src/pkg/controller/ground.go:272-282 *)
Definition klusterAdd (k : Kluster) : G unit := on_queue (Add (MetaNamespaceKey (Meta k))).
(** The type assertion on a tombstone panics.
    [klusterTerminate], src/pkg/controller/ground.go:284-294 *)
Definition klusterTerminate (obj : deleted Kluster) : G unit :=
  match obj with
  | LastKnown k => on_queue (Add (MetaNamespaceKey (Meta k)))
  | Tombstone _ _ => panic "interface conversion: interface is cache.DeletedFinalStateUnknown, not *v1.Kluster"
  end.
(** [klusterUpdate], src/pkg/controller/ground.go:296-309 *)
Definition klusterUpdate (cur old : Kluster) : G unit :=
  if decide (old = cur) then mret tt else on_queue (Add (MetaNamespaceKey (Meta cur))).

(** The kluster a pod belongs to *)
Definition kluster_of_pod (pod : Pod) : option string :=
  match pod_Labels pod !! "release" with
  | Some klusterName => if decide (klusterName = "") then None else Some (pod_Namespace pod +:+ "/" +:+ klusterName)
  | None => None
  end.
Definition add_kluster_of (pod : Pod) : G unit :=
  match kluster_of_pod pod with Some key => on_queue (Add key) | None => mret tt end.

(** [podAdd], src/pkg/controller/ground.go:617-630 *)
Definition podAdd (pod : Pod) : G unit := add_kluster_of pod.
(** [podDelete], src/pkg/controller/ground.go:632-643 *)
Definition podDelete (obj : deleted Pod) : G unit :=
  match obj with
  | LastKnown pod => add_kluster_of pod
  | Tombstone _ _ => panic "interface conversion: interface is cache.DeletedFinalStateUnknown, not *v1.Pod"
  end.
(** [podUpdate], src/pkg/controller/ground.go:645-659 *)
Definition podUpdate (cur old : Pod) : G unit := if decide (old = cur) then mret tt else add_kluster_of cur.

(** The delays of the controller's rate limiter *)
Definition BaseDelay : Z := 5000000000.
Definition MaxDelay : Z := 300000000000.

Definition run_handler (key : string) : G unit := fun g =>
  let '(s', o) := handler config key (gsys g) in (GroundState (gqueue g) s', o).

(** [processNextWorkItem], src/pkg/controller/ground.go:123-142 *)
Definition processNextWorkItem : G bool :=
  g ← get;
  match Get (gqueue g) with
  | Shutdown => mret false
  | Blocked => mret true
  | Item key q =>
      _ ← on_queue (fun _ => q);
      _ ← defer (fun _ => on_queue (Done key))
        (r ← attempt (run_handler key);
         match r with
         | Ok _ => on_queue (Forget key)
         | Bad _ => on_queue (AddRateLimited BaseDelay MaxDelay key)
         end);
      mret true
  end.

(** What the informers tell, in the order they pass it: the old object first *)
Inductive notification :=
| KlusterAdded (k : Kluster) | KlusterUpdated (oldObj newObj : Kluster) | KlusterDeleted (obj : deleted Kluster)
| PodAdded (p : Pod) | PodUpdated (oldObj newObj : Pod) | PodDeleted (obj : deleted Pod).
(** The handlers are registered as they are, though those of updates call
    their first argument the current object.
    [NewGroundController], src/pkg/controller/ground.go:71-81 *)
Definition deliver (n : notification) : G unit :=
  match n with
  | KlusterAdded k => klusterAdd k
  | KlusterUpdated oldObj newObj => klusterUpdate oldObj newObj
  | KlusterDeleted obj => klusterTerminate obj
  | PodAdded p => podAdd p
  | PodUpdated oldObj newObj => podUpdate oldObj newObj
  | PodDeleted obj => podDelete obj
  end.
(** [NewGroundController], src/pkg/controller/ground.go:56-70 *)
Definition NewGroundController (s : sys S E GroundCall) : ground (sys S E GroundCall) := GroundState new_queue s.

(** For at most [fuel] items; the result tells whether the queue has said to
    quit.
    [runWorker], src/pkg/controller/ground.go:118-121 *)
Fixpoint runWorker (fuel : nat) : G bool :=
  match fuel with
  | O => mret false
  | Datatypes.S fuel => more ← processNextWorkItem; if more : bool then runWorker fuel else mret true
  end.

(** Until it is stopped: the workers take items and the informers notify, in
    any order; the queue's timers fire meanwhile.  The ticker only logs.
    [Run], src/pkg/controller/ground.go:86-116 *)
Inductive turn := Work | Notify (n : notification) | Timer (item : string) (time : Z).
Definition take_turn (t : turn) : G unit :=
  match t with
  | Work => _ ← processNextWorkItem; mret tt
  | Notify n => deliver n
  | Timer item time => on_queue (fun q =>
      let q := {| items := items q; dirty := dirty q; processing := processing q; shuttingDown := shuttingDown q;
                  failures := failures q; waiting := waiting q; now := Z.max (now q) time |} in
      default q (Fire item q))
  end.
Definition Run (turns : list turn) : G unit := _ ← for_each take_turn turns; on_queue ShutDown.
End GroundQueue.

(** * Completing the OpenStack parameters *)

Lemma choose_Ok {A} (id_of : A → string) requested l missing ambiguous x :
  choose id_of requested l missing ambiguous = Ok x →
  x ∈ l ∧ (requested ≠ "" → id_of x = requested) ∧ (requested = "" → l = [x]).
Proof.
  unfold choose. case_decide as Hr.
  - destruct (List.find _ l) as [y|] eqn:Hf; [|done]. intros [= <-].
    apply find_some in Hf as [Hin Hid]. apply bool_decide_eq_true in Hid.
    split; [by apply list_elem_of_In|]. done.
  - destruct l as [|y [|z l]]; try done. intros [= <-].
    split; [left|]. split; [done|]. by intros _.
Qed.

(** The parameters [os'] complete [os]: given ones are kept, and router,
    network and subnet belong together and to the listed routers; one that was
    not given is the only candidate. *)
Definition completes (account : string) (routers : list Router) (os os' : OpenstackSpec) : Prop :=
  ProjectID os' = (if decide (ProjectID os = "") then account else ProjectID os) ∧
  SecurityGroupID os' = SecurityGroupID os ∧
  ∃ r n sn, r ∈ routers ∧ n ∈ rt_Networks r ∧ sn ∈ nw_Subnets n ∧
    RouterID os' = rt_ID r ∧ NetworkID os' = nw_ID n ∧ LBSubnetID os' = sn_ID sn ∧
    (if decide (RouterID os = "") then routers = [r] else RouterID os' = RouterID os) ∧
    (if decide (NetworkID os = "") then rt_Networks r = [n] else NetworkID os' = NetworkID os) ∧
    (if decide (LBSubnetID os = "") then nw_Subnets n = [sn] else LBSubnetID os' = LBSubnetID os).

Lemma select_openstack_completes account routers os os' :
  select_openstack account routers os = Ok os' → completes account routers os os'.
Proof.
  unfold select_openstack.
  destruct (choose rt_ID _ _ _ _) as [r|] eqn:Hr; [|done]. apply choose_Ok in Hr as (R1 & R2 & R3).
  destruct (choose nw_ID _ _ _ _) as [n|] eqn:Hn; [|done]. apply choose_Ok in Hn as (N1 & N2 & N3).
  destruct (choose sn_ID _ _ _ _) as [sn|] eqn:Hs; [|done]. apply choose_Ok in Hs as (S1 & S2 & S3).
  intros [= <-]. split; [done|]. split; [done|]. exists r, n, sn. cbn [RouterID NetworkID LBSubnetID].
  split_and!; try done; case_decide; try done; auto; symmetry; auto.
Qed.

(** * What the handler does *)

(** The calls that change the cloud or the cluster's resources *)
Definition gchange (c : GroundCall) : bool :=
  match c with
  | GOs (OsDeleteUser _ _) | GOs (OsCreateKlusterServiceUser _ _ _ _) => true
  | GKlusterUpdate _ | GKlusterDelete _ _ | GInstallRelease _ _ _ _ | GDeleteRelease _ => true
  | GSeed (SCreate _) | GSeed (SUpdate _) => true
  | _ => false
  end.

Section GroundRules.
Context {S E : Type} `{!Machine GroundCall E}.
Implicit Types s : sys S E GroundCall.

(** [c] was answered with [r] at some point. *)
Definition answered (c : GroundCall) (r : reply (resp c)) : Prop := ∃ e e', answer (E:=E) c e = (e', r).

Lemma wp_gcall (c : GroundCall) (Q : outcome (resp c) → sys S E GroundCall → Prop) s :
  (∀ r s', picked gchange s' = picked gchange s ++ (if gchange c then [c] else []) →
     answered c r → Q (of_reply r) s') →
  wp (gcall c) Q s.
Proof. intros HQ. apply wp_perform. intros e' r Ha. apply HQ; [by rewrite picked_snoc | by eexists _, _]. Qed.

Lemma wp_emit (c : GroundCall) (Q : outcome unit → sys S E GroundCall → Prop) s :
  gchange c = false → (∀ s', picked gchange s' = picked gchange s → Q (Ret tt) s') → wp (emit c) Q s.
Proof.
  intros Hc HQ. apply wp_bind, wp_attempt. apply wp_gcall. intros r s' Hs _. rewrite Hc, app_nil_r in Hs.
  destruct r; by apply wp_ret, HQ.
Qed.

Lemma wp_wrap {A} msg (m : Go (sys S E GroundCall) A) Q s :
  wp m (λ o s', match o with
                | Ret a => Q (Ret a) s'
                | Fail e => Q (Fail (ErrNew (msg +:+ Error e))) s'
                | Panic w => Q (Panic w) s'
                end) s →
  wp (wrap msg m) Q s.
Proof.
  intros Hm. apply wp_bind, wp_attempt. eapply wp_mono; [exact Hm|].
  intros [a|e|w] s' HQ; [by apply wp_ret | by apply wp_fail | done].
Qed.

(** The reply of a call is one the environment gave. *)
Lemma emits_gcall (P : GroundCall → Prop) c : P c → emits P (gcall (S:=S) (E:=E) c).
Proof. apply emits_perform. Qed.

End GroundRules.

#[export] Hint Extern 1 (emits _ (gcall ?c)) => refine (emits_gcall _ c _); cbn; auto : emits.

Ltac the_gcall :=
  match goal with |- wp (gcall ?c) ?Q ?s =>
    refine (wp_gcall c Q s _);
    let r := fresh "r" in let s' := fresh "s" in let Hs := fresh "Hs" in let Ha := fresh "Ha" in
    intros r s' Hs Ha; cbn [gchange] in Hs; rewrite ?app_nil_r in Hs;
    cbn [resp ground_iface openstack_iface seed_iface] in r; destruct r as [r|r]; cbn [of_reply]
  end.

(** Follows the equations between the selected calls of successive states. *)
Ltac follow := cbv zeta;
  repeat match goal with H : picked gchange ?a = _ |- context [picked gchange ?a] => rewrite H end;
  rewrite <- ?app_assoc; done.

Section QuietGround.
Context {S E : Type} `{!Machine GroundCall E} (config : Config).
Abbreviation gquiet := (emits (fun c => gchange c = false)).

Lemma quiet_Poll fuel (m : Go (sys S E GroundCall) bool) : gquiet m → gquiet (Poll fuel m).
Proof. intros Hm. induction fuel as [|fuel IH]; simpl; by emits_solve. Qed.
Lemma quiet_WaitForKluster k cond : gquiet (WaitForKluster (S:=S) (E:=E) k cond).
Proof. apply quiet_Poll. by emits_solve. Qed.
Lemma quiet_WaitForKlusterDeletion k : gquiet (WaitForKlusterDeletion (S:=S) (E:=E) k).
Proof. unfold WaitForKlusterDeletion. emits_solve. apply quiet_WaitForKluster. Qed.
Lemma quiet_PVAccessMode : gquiet (PVAccessMode (S:=S) (E:=E)).
Proof. unfold PVAccessMode. by emits_solve. Qed.
Lemma quiet_token : gquiet (GenerateBootstrapToken (S:=S) (E:=E)).
Proof. unfold GenerateBootstrapToken. by emits_solve. Qed.
End QuietGround.

(** * Properties *)

Section GroundProperties.
Context {S E : Type} `{!Machine GroundCall E} (config : Config).
Implicit Types s : sys S E GroundCall.

(** C23: discovering the OpenStack parameters either fails without having
    changed anything, or updates the stored kluster once, in its OpenStack
    parameters only: those that were set are kept, and router, network and
    load balancer subnet belong together and to the routers of the project; one
    that was not set is the only candidate there is.  A failure is possible
    after the update only as the failure of that update. *)
Theorem discoverOpenstackInfo_completes k s :
  wp (discoverOpenstackInfo k) (λ o s',
    (picked gchange s' = picked gchange s ∧ ∃ e, o = Fail e) ∨
    ∃ routers copy os os', answered (E:=E) (GOs (OsGetRouters (Account k))) (Ok routers) ∧
      answered (E:=E) (GKlusterGet (Namespace (Meta k)) (Name (Meta k))) (Ok copy) ∧
      completes (Account k) routers (Openstack (Spec copy)) os ∧
      (if decide (SecurityGroupID os = "")
       then ∃ id, answered (E:=E) (GOs (OsGetSecurityGroupID (Account k) "default")) (Ok id) ∧
                  os' = with_SecurityGroupID id os
       else os' = os) ∧
      picked gchange s' = picked gchange s ++ [GKlusterUpdate (set_Openstack (λ _, os') copy)] ∧
      ∀ w, o ≠ Panic w) s.
Proof.
  unfold discoverOpenstackInfo. apply wp_bind. the_gcall; [|left; eauto].
  apply wp_bind. the_gcall; [|left; split; [congruence|eauto]].
  apply wp_bind, wp_lift_reply. destruct (select_openstack _ _ _) as [os|e] eqn:Hsel; cbn [of_reply];
    [|left; split; [congruence|eauto]].
  apply select_openstack_completes in Hsel. apply wp_bind.
  destruct (decide (SecurityGroupID os ≠ "")) as [Hsg|Hsg].
  - apply wp_ret. the_gcall; right; exists r, r0, os, os; rewrite decide_False by done;
      split_and!; try done; congruence.
  - apply wp_bind, wp_attempt. the_gcall; [apply wp_ret|apply wp_fail; left; split; [congruence|eauto]].
    the_gcall; right; exists r, r0, os, (with_SecurityGroupID r1 os);
      rewrite decide_True by (by destruct (decide (SecurityGroupID os = "")));
      split_and!; try done; try congruence; by exists r1.
Qed.

(** The part of [terminateKluster] after the user was dealt with *)
Definition release_of k : GroundCall := GDeleteRelease (Name (Meta k)).
Definition gone_of k : GroundCall := GKlusterDelete (Namespace (Meta k)) (Name (Meta k)).

Definition removed (l0 : list GroundCall) k (o : outcome unit) (s' : sys S E GroundCall) : Prop :=
  ∃ l, picked gchange s' = l0 ++ l ∧ l `prefix_of` [release_of k; gone_of k] ∧
       (o = Ret tt → l = [release_of k; gone_of k]).

Lemma delete_kluster_spec l0 k s : picked gchange s = l0 ++ [release_of k] →
  wp (r ← attempt (gcall (gone_of k));
      match r with
      | Bad err => fail err
      | Ok _ => _ ← attempt (WaitForKlusterDeletion k); mret tt
      end) (removed l0 k) s.
Proof.
  intros H0. apply wp_bind, wp_attempt. the_gcall.
  - apply wp_bind, wp_attempt, (wp_quiet gchange); [apply quiet_WaitForKlusterDeletion|].
    intros o s3 _ H3. assert (picked gchange s3 = l0 ++ [release_of k; gone_of k]) as Hl
      by (rewrite H3, Hs, H0, <- !app_assoc; done).
    destruct o; [apply wp_ret|apply wp_ret|]; exists [release_of k; gone_of k]; by split_and!.
  - apply wp_fail. exists [release_of k; gone_of k].
    split_and!; [by rewrite Hs, H0, <- !app_assoc | done..].
Qed.

Lemma delete_release_spec l0 k s : picked gchange s = l0 →
  wp (r ← attempt (gcall (release_of k));
      _ ← match r with
          | Bad err => if Contains (Error err) ("release: " +:+ quoted (Name (Meta k)) +:+ " not found")
                       then mret tt else fail err
          | Ok _ => mret tt
          end;
      r ← attempt (gcall (gone_of k));
      match r with
      | Bad err => fail err
      | Ok _ => _ ← attempt (WaitForKlusterDeletion k); mret tt
      end) (removed l0 k) s.
Proof.
  intros H0. apply wp_bind, wp_attempt. the_gcall.
  - apply wp_bind, wp_ret, delete_kluster_spec. by rewrite Hs, H0.
  - apply wp_bind. destruct (Contains _ _); [apply wp_ret, delete_kluster_spec; by rewrite Hs, H0|].
    apply wp_fail. exists [release_of k].
    split_and!; [by rewrite Hs, H0 | by exists [gone_of k] | done].
Qed.


(** Creating a kluster first creates its service user and then installs
    its release, and nothing else; the release is installed only after the user
    was created without error, with a password and a region that were obtained
    before. *)
Theorem createKluster_order k s :
  let username := "kubernikus-" +:+ Name (Meta k) in
  wp (createKluster config k) (λ o s', ∃ password values,
    let user := GOs (OsCreateKlusterServiceUser username password "kubernikus" (ProjectID (Openstack (Spec k)))) in
    let install := GInstallRelease (cf_ChartDirectory config +:+ "/kube-master") (Namespace (Meta k)) values (Name (Meta k)) in
    (picked gchange s' = picked gchange s ∧ o ≠ Ret tt) ∨
    (picked gchange s' = picked gchange s ++ [user] ∧ o ≠ Ret tt) ∨
    (picked gchange s' = picked gchange s ++ [user; install] ∧ answered (E:=E) user (Ok tt) ∧
     (o = Ret tt → answered (E:=E) install (Ok tt)))) s.
Proof.
  intros username. unfold createKluster.
  apply wp_bind, wp_wrap, (wp_quiet gchange); [apply quiet_PVAccessMode|].
  intros [mode|?|?] s1 _ H1; try (exists "", ""; by left).
  apply wp_bind, wp_wrap. the_gcall; [|exists "", ""; left; split; [follow|done]].
  apply wp_bind, wp_wrap. the_gcall; [|exists "", ""; left; split; [follow|done]].
  apply wp_bind, (wp_quiet gchange); [apply quiet_token|].
  intros [token|?|?] s4 _ H4; try (exists "", ""; left; split; [follow|done]).
  apply wp_bind, wp_wrap. the_gcall; [|exists "", ""; left; split; [follow|done]].
  apply wp_bind. the_gcall; [|exists "", ""; left; split; [follow|done]].
  apply wp_bind. the_gcall; [|exists r1, ""; right; left; split; [follow|done]].
  apply wp_bind. unfold KlusterToHelmValues. the_gcall; [|exists r1, ""; right; left; split; [follow|done]].
  the_gcall; exists r1, r4; right; right.
  - split_and!; [follow | by destruct r3 |].
    intros _. by destruct r5.
  - split_and!; [follow | by destruct r3 | done].
Qed.
(** ** The phases *)

Definition cached (key : string) (k : Kluster) : Prop := answered (E:=E) (GCacheGet key) (Ok (Some k)).
Definition stored (k copy : Kluster) : Prop :=
  answered (E:=E) (GKlusterGet (Namespace (Meta k)) (Name (Meta k))) (Ok copy).
Definition four_ready (k : Kluster) : Prop :=
  ∃ pods, answered (E:=E) (GPodsOf (Name (Meta k))) (Ok pods) ∧ length (List.filter IsPodReady pods) = 4%nat.

(** The updates of the stored kluster the controller may make when it handles
    [k]: only the named parts of the copy it has read are replaced. *)
Inductive legal_update (k : Kluster) : Kluster → Prop :=
| legal_openstack copy os :
    Phase (Status k) = KlusterPhasePending → requiresOpenstackInfo k = true →
    stored k copy → legal_update k (set_Openstack (λ _, os) copy)
| legal_kubernikus copy apiserver wormhole :
    Phase (Status k) = KlusterPhasePending → requiresOpenstackInfo k = false → requiresKubernikusInfo k = true →
    stored k copy → legal_update k (set_Status (λ st, set_Wormhole wormhole (set_Apiserver apiserver st)) copy)
| legal_creating copy :
    Phase (Status k) = KlusterPhasePending → requiresOpenstackInfo k = false → requiresKubernikusInfo k = false →
    stored k copy → Phase (Status copy) ≠ KlusterPhaseCreating →
    legal_update k (set_Status (with_phase KlusterPhaseCreating "Creating Cluster") copy)
| legal_running copy :
    Phase (Status k) = KlusterPhaseCreating → four_ready k →
    stored k copy → Phase (Status copy) ≠ KlusterPhaseRunning →
    legal_update k (set_Status (with_phase KlusterPhaseRunning "") copy).

(** Which calls belong to which phase of the kluster at hand *)
Definition in_phase (k : Kluster) (c : GroundCall) : Prop :=
  match c with
  | GKlusterUpdate k' => legal_update k k'
  | GInstallRelease _ _ _ _ | GOs (OsCreateKlusterServiceUser _ _ _ _) =>
      Phase (Status k) = KlusterPhasePending ∧ requiresOpenstackInfo k = false ∧ requiresKubernikusInfo k = false
  | GSeed (SCreate _) | GSeed (SUpdate _) => Phase (Status k) = KlusterPhaseCreating ∧ four_ready k
  | GOs (OsDeleteUser _ _) => Phase (Status k) = KlusterPhaseTerminating
  | GDeleteRelease n => Phase (Status k) = KlusterPhaseTerminating ∧ n = Name (Meta k)
  | GKlusterDelete ns n =>
      Phase (Status k) = KlusterPhaseTerminating ∧ ns = Namespace (Meta k) ∧ n = Name (Meta k)
  | _ => True
  end.

Lemma emits_gcall_bind {A} (P : GroundCall → Prop) c (f : resp c → Go (sys S E GroundCall) A) :
  P c → (∀ a, answered (E:=E) c (Ok a) → emits P (f a)) → emits P (gcall c ≫= f).
Proof.
  intros Hc Hf. apply emits_intro. intros s. unfold mbind, go_bind, gcall, perform.
  destruct (answer c (env s)) as [e' [a|e]] eqn:Ha; simpl.
  - destruct (emits_elim _ _ (Sys (mem s) e' (trace s ++ [c])) (Hf a (ex_intro _ _ (ex_intro _ _ Ha)))) as (l & Hl & Pl).
    exists (c :: l). rewrite Hl. simpl. rewrite <- app_assoc. by split; [|constructor].
  - exists [c]. by split; [|constructor].
Qed.

Ltac bind_gcall :=
  match goal with |- emits ?P (@mbind _ _ _ _ ?f (gcall ?c)) => refine (emits_gcall_bind P c f _ _) end.

Lemma emits_emit P c : P c → emits P (emit (S:=S) (E:=E) c).
Proof. intros. unfold emit. by emits_solve. Qed.
Lemma emits_or_event P k reason msg (m : Go (sys S E GroundCall) unit) :
  emits P m → (∀ e, P (GEvent k false reason (msg +:+ e))) →
  emits P (or_event k reason msg m).
Proof. intros Hm He. unfold or_event, emit. by emits_solve. Qed.
Lemma emits_Poll P fuel (m : Go (sys S E GroundCall) bool) : P GTick → emits P m → emits P (Poll fuel m).
Proof. intros Ht Hm. induction fuel as [|fuel IH]; simpl; by emits_solve. Qed.
Lemma emits_WaitForKluster P k cond :
  P GTick → (∀ key, P (GCacheGet key)) → emits P (WaitForKluster (S:=S) (E:=E) k cond).
Proof. intros Ht Hg. apply emits_Poll; [done|]. by emits_solve. Qed.

(** The update of a phase *)
Lemma emits_updatePhase P k phase message :
  P GTick → (∀ key, P (GCacheGet key)) → (∀ copy r m, P (GEvent copy true r m)) →
  P (GKlusterGet (Namespace (Meta k)) (Name (Meta k))) →
  (∀ copy, stored k copy → Phase (Status copy) ≠ phase →
     P (GKlusterUpdate (set_Status (with_phase phase message) copy))) →
  emits P (updatePhase (S:=S) (E:=E) k phase message).
Proof.
  intros Ht Hg He Hget Hu. unfold updatePhase. bind_gcall; [done|]. intros copy Hc.
  case_decide as Hp; [apply emits_ret|].
  apply emits_bind; [by apply emits_emit|]. intros _.
  apply emits_bind; [apply emits_attempt; refine (emits_gcall P _ _); by apply Hu|].
  intros [u|e]; [|apply emits_fail].
  apply emits_bind; [by apply emits_attempt, emits_WaitForKluster | intros _; apply emits_ret].
Qed.

Lemma emits_SeedKluster (P : GroundCall → Prop) k :
  (∀ c, P (GSeed c)) → emits P (SeedKluster (seed (S:=S) (E:=E)) k).
Proof.
  intros HP. assert (∀ c, emits P (seed (S:=S) (E:=E) c)) as Hs by (intros c; exact (emits_gcall P (GSeed c) (HP c))).
  assert (∀ w w' o, emits P (CreateOrUpdate (seed (S:=S) (E:=E)) w w' o)) as Hc.
  { intros. unfold CreateOrUpdate. repeat first [match goal with |- emits _ (seed ?c) => exact (Hs c) end | emits_step]. }
  unfold SeedKluster, SeedKubeDNS, SeedAutoApproveNodeBootstrapTokens, createKubeDNSDeployment, createKubeDNSService,
    getKubeDNSDeployment, getKubeDNSService, createKubeDNSServiceAccount, CreateOrUpdateServiceAccount.
  repeat first [apply Hc | match goal with |- emits _ (seed ?c) => exact (Hs c) end | emits_step].
Qed.

Ltac in_phase_step :=
  match goal with
  | |- emits _ (gcall _ ≫= _) => bind_gcall; [try done|intros ? ?]
  | |- emits _ (set_gauge _ _ _) => by apply emits_emit
  | |- emits _ (emit _) => by apply emits_emit
  | |- emits _ (or_event _ _ _ _) => apply emits_or_event; [|done]
  | |- emits _ (wrap _ _) => unfold wrap
  | |- emits ?P (gcall ?c) => refine (emits_gcall P c _); try done
  | _ => emits_step
  end.

Lemma createKluster_in_phase k :
  Phase (Status k) = KlusterPhasePending → requiresOpenstackInfo k = false → requiresKubernikusInfo k = false →
  emits (in_phase k) (createKluster (S:=S) (E:=E) config k).
Proof.
  intros Hp Ho Hk. unfold createKluster, PVAccessMode, GenerateBootstrapToken, KlusterToHelmValues.
  repeat in_phase_step.
Qed.

Lemma terminateKluster_in_phase k : Phase (Status k) = KlusterPhaseTerminating →
  emits (in_phase k) (terminateKluster (S:=S) (E:=E) k).
Proof.
  intros Hp. unfold terminateKluster, WaitForKlusterDeletion. repeat in_phase_step.
  by apply emits_WaitForKluster.
Qed.

Lemma discover_in_phase k : Phase (Status k) = KlusterPhasePending → requiresOpenstackInfo k = true →
  emits (in_phase k) (discoverOpenstackInfo (S:=S) (E:=E) k).
Proof.
  intros Hp Ho. unfold discoverOpenstackInfo.
  bind_gcall; [done|]. intros routers _. bind_gcall; [done|]. intros copy Hc.
  repeat in_phase_step. by constructor.
Qed.

Lemma set_Status_eta copy : set_Status id copy = copy.
Proof. by destruct copy. Qed.

Lemma discoverKubernikus_in_phase k : Phase (Status k) = KlusterPhasePending →
  requiresOpenstackInfo k = false → requiresKubernikusInfo k = true →
  emits (in_phase k) (discoverKubernikusInfo (S:=S) (E:=E) config k).
Proof.
  intros Hp Ho Hk. unfold discoverKubernikusInfo. bind_gcall; [done|]. intros copy Hc.
  refine (emits_gcall _ _ _). cbn [in_phase].
  set (a := "https://" +:+ Name (Meta k) +:+ "." +:+ cf_Domain config).
  set (w := "https://" +:+ Name (Meta k) +:+ "-wormhole." +:+ cf_Domain config).
  set (a' := if decide (Apiserver (Status copy) = "") then a else Apiserver (Status copy)).
  set (w' := if decide (Wormhole (Status copy) = "") then w else Wormhole (Status copy)).
  match goal with |- legal_update _ ?k' => replace k' with
    (set_Status (λ st, set_Wormhole w' (set_Apiserver a' st)) copy) end; [by apply legal_kubernikus|].
  unfold a', w'. destruct copy as [m sp [ap msg nps ph v wh]].
  by destruct (decide (Apiserver _ = "")), (decide (Wormhole _ = "")); simpl; repeat case_decide.
Qed.

Lemma handle_creating_in_phase k : Phase (Status k) = KlusterPhaseCreating →
  emits (in_phase k) (handle_creating (S:=S) (E:=E) k).
Proof.
  intros Hp. unfold handle_creating. bind_gcall; [done|]. intros pods Hpods.
  case_decide as H4; [|apply emits_ret].
  assert (four_ready k) by (by exists pods).
  bind_gcall; [done|]. intros _ _.
  apply emits_bind; [apply emits_SeedKluster; by intros []|]. intros _.
  apply emits_bind; [|intros; by apply emits_emit].
  apply emits_attempt, emits_updatePhase; try done. intros copy Hc Hne. by constructor.
Qed.

(** C12: the phases of a kluster.  Whatever the services reply, every call the
    controller makes while handling a kluster of its cache belongs to the phase
    of that kluster: users and releases are created only when it is pending and
    completely configured, objects are seeded only when it is being created and
    exactly four of its pods are ready, things are deleted only when it is
    terminating, and the stored kluster is updated only by filling in the
    parameters of a pending kluster, or to the phase that follows. *)
Theorem handler_in_phase key :
  emits (λ c, (∃ k, cached key k ∧ in_phase k c) ∨ c = GCacheGet key) (handler (S:=S) (E:=E) config key).
Proof.
  unfold handler. set (P := λ c, _ ∨ _).
  assert (∀ A (m : Go (sys S E GroundCall) A) k, cached key k → emits (in_phase k) m → emits P m) as Hin.
  { intros A m k Hk. apply emits_weaken. intros c Hc. left. by exists k. }
  assert (∀ A (f : reply (option Kluster) → Go (sys S E GroundCall) A),
    (∀ r, answered (E:=E) (GCacheGet key) r → emits P (f r)) →
    emits P (attempt (gcall (GCacheGet key)) ≫= f)) as Hget.
  { intros A f Hf. apply emits_intro. intros s. unfold mbind, go_bind, attempt, gcall, perform.
    destruct (answer (GCacheGet key) (env s)) as [e' r] eqn:Ha.
    destruct (emits_elim _ _ (Sys (mem s) e' (trace s ++ [GCacheGet key])) (Hf r (ex_intro _ _ (ex_intro _ _ Ha))))
      as (l & Hl & Pl).
    exists (GCacheGet key :: l). split; [|constructor; [by right|done]].
    change (resp (GCacheGet key)) with (option Kluster) in r.
    destruct r; cbn [of_reply]; etransitivity; [exact Hl| |exact Hl|]; cbn [trace]; by rewrite <- app_assoc. }
  apply Hget. intros [[k|]|err] Hr; [|by apply emits_ret|by apply emits_fail].
  apply (Hin _ _ k Hr). unfold SetMetricKlusterInfo, SetMetricKlusterStatusPhase.
  apply emits_bind; [by apply emits_emit|]. intros _.
  apply emits_bind; [apply emits_for_each; intros; by apply emits_emit|]. intros _.
  cbv zeta. case_decide as H1; [|case_decide as H2; [|case_decide as H3; [|apply emits_ret]]].
  - unfold handle_pending. destruct (requiresOpenstackInfo k) eqn:Ho; [|destruct (requiresKubernikusInfo k) eqn:Hk].
    + apply emits_or_event; [by apply discover_in_phase | done].
    + apply emits_or_event; [by apply discoverKubernikus_in_phase | done].
    + apply emits_bind; [apply emits_or_event; [by apply createKluster_in_phase|done]|]. intros _.
      apply emits_bind; [|intros; apply emits_ret].
      apply emits_attempt, emits_updatePhase; try done. intros copy Hc Hne. by constructor.
  - by apply handle_creating_in_phase.
  - unfold handle_terminating. apply emits_bind; [apply emits_or_event; [by apply terminateKluster_in_phase|done]|].
    intros _. unfold SetMetricKlusterTerminated. apply emits_for_each. intros. by apply emits_emit.
Qed.

(** The updates of the stored kluster *)
Definition is_update (c : GroundCall) : bool := match c with GKlusterUpdate _ => true | _ => false end.

Ltac the_perform := match goal with |- wp (gcall ?c) ?Q ?s => refine (wp_perform c Q s _) end.

Lemma emit_Ret c s : snd (emit (S:=S) (E:=E) c s) = Ret tt.
Proof. unfold emit, gcall, perform; go_eval. destruct s as [m e l]. by destruct (answer c e) as [? []]. Qed.

(** The update a phase change makes, once it has read [copy] *)
Lemma updatePhase_updates k phase message s :
  wp (updatePhase k phase message) (λ o s',
    (∃ e err, answer (GKlusterGet (Namespace (Meta k)) (Name (Meta k))) (env s) = (e, Bad err) ∧
       picked is_update s' = picked is_update s) ∨
    ∃ e copy, answer (GKlusterGet (Namespace (Meta k)) (Name (Meta k))) (env s) = (e, Ok copy) ∧
      picked is_update s' = picked is_update s ++
        (if decide (Phase (Status copy) = phase) then []
         else [GKlusterUpdate (set_Status (with_phase phase message) copy)])) s.
Proof.
  unfold updatePhase. apply wp_bind. the_perform. intros e1 r Ha.
  cbn [resp ground_iface] in r. destruct r as [copy|err]; cbn [of_reply]; cycle 1.
  { left. exists e1, err. split; [done|]. by rewrite picked_snoc, app_nil_r. }
  set (s1 := Sys _ _ _).
  assert (picked is_update s1 = picked is_update s) as H1 by (subst s1; by rewrite picked_snoc, app_nil_r).
  clearbody s1. case_decide as Hp.
  { apply wp_ret. right. exists e1, copy. rewrite decide_True, app_nil_r by done. done. }
  enough (wp (_ ← emit (GEvent copy true phase (phase +:+ " cluster"));
      r ← attempt (gcall (GKlusterUpdate (set_Status (with_phase phase message) copy)));
      match r with
      | Bad err => fail err
      | Ok _ => _ ← attempt (WaitForKluster (set_Status (with_phase phase message) copy)
                              (fun k => bool_decide (Phase (Status k) = phase))); mret tt
      end) (λ _ s', picked is_update s' = picked is_update s ++
        [GKlusterUpdate (set_Status (with_phase phase message) copy)]) s1) as Hw.
  { eapply wp_mono; [exact Hw|]. intros o s' Hs. right. exists e1, copy. by rewrite decide_False. }
  apply wp_bind, (wp_quiet is_update); [by apply emits_emit|].
  intros o2 s2 Hem H2. pose proof (emit_Ret (GEvent copy true phase (phase +:+ " cluster")) s1) as Ho.
  rewrite Hem in Ho. simpl in Ho. subst o2.
  apply wp_bind, wp_attempt. the_perform. intros e3 r _. set (s3 := Sys _ _ _).
  assert (picked is_update s3 = picked is_update s ++ [GKlusterUpdate (set_Status (with_phase phase message) copy)]) as H3
    by (subst s3; rewrite picked_snoc; unfold picked in *; by rewrite H2, H1).
  clearbody s3. destruct r as [u|e]; cbn [of_reply]; [|by apply wp_fail].
  apply wp_bind, wp_attempt, (wp_quiet is_update); [by apply emits_WaitForKluster|].
  intros o s4 _ H4. destruct o; [apply wp_ret..|]; congruence.
Qed.

(** The updates [l] made by a handling of [k] that started in [s]: none, or
    the one to the running phase, after a successful seeding that began when
    there was none yet. *)
Definition declared_running k s (l : list GroundCall) : Prop :=
  l = picked is_update s ∨
  ∃ s1 s2 copy, SeedKluster seed k s1 = (s2, Ret tt) ∧ picked is_update s2 = picked is_update s ∧
    l = picked is_update s ++ [GKlusterUpdate (set_Status (with_phase KlusterPhaseRunning "") copy)].

(** A kluster that is being created is declared running only after a
    complete and successful seeding of its objects, and at most once; when the
    seeding fails, the stored kluster is not updated. *)
Theorem running_after_seeding k s :
  wp (handle_creating k) (λ _ s', declared_running k s (picked is_update s')) s.
Proof.
  unfold handle_creating. apply wp_bind, (wp_quiet is_update); [by emits_solve|].
  intros [pods|e|w] s0 _ H0; [|by left..]. case_decide; [|by apply wp_ret; left].
  apply wp_bind, (wp_quiet is_update); [by emits_solve|].
  intros [u|e|w] s1 _ H1; [|left; congruence..].
  apply wp_bind, (wp_quiet is_update); [by apply emits_SeedKluster|].
  intros [[]|e|w] s2 Hseed H2; [|left; congruence..].
  apply wp_bind, wp_attempt. eapply wp_mono; [apply updatePhase_updates|].
  intros o s3 H3.
  assert (declared_running k s (picked is_update s3)) as HQ.
  { destruct H3 as [(? & ? & _ & H3)|(? & copy & _ & H3)]; [left; congruence|].
    case_decide; [left; rewrite app_nil_r in H3; congruence|].
    right. exists s1, s2, copy. split_and!; congruence. }
  destruct o as [a|e|w]; [| |done].
  all: apply (wp_quiet is_update); [by apply emits_emit|]; intros ? ? ? ->; done.
Qed.

(** A phase change does not look at the phase it replaces.  Whatever the
    phase of the stored kluster is, terminating included, it is overwritten by
    the phase the controller was about to set, unless they are equal. *)
Theorem updatePhase_overwrites k phase message copy e1 s :
  answer (GKlusterGet (Namespace (Meta k)) (Name (Meta k))) (env s) = (e1, Ok copy) →
  Phase (Status copy) ≠ phase →
  picked is_update (fst (updatePhase k phase message s)) =
    picked is_update s ++ [GKlusterUpdate (set_Status (with_phase phase message) copy)].
Proof.
  intros Ha Hne. destruct (updatePhase k phase message s) as [s' o] eqn:Hrun.
  pose proof (wp_elim _ _ _ _ _ (updatePhase_updates k phase message s) Hrun) as H.
  rewrite Ha in H. destruct H as [(e & err & [=] & _)|(e & copy' & [= _ <-] & H)].
  simpl. by rewrite H, decide_False.
Qed.
End GroundProperties.

(** * The loop *)
Section Loop.
Context {S E : Type} `{!Machine GroundCall E} (config : Config).
Implicit Types g : ground (sys S E GroundCall).

(** The handler does not touch the queue. *)
Lemma run_handler_queue key g : gqueue (fst (run_handler config key g)) = gqueue g.
Proof. unfold run_handler. by destruct (handler config key (gsys g)). Qed.

(** A worker of a queue that was shut down takes the items that are left, one
    by one, and quits, unless a handler panics; a failed item is not queued
    again. *)
Lemma processNext_drains g : shuttingDown (gqueue g) = true →
  match items (gqueue g) with
  | [] => processNextWorkItem config g = (g, Ret false)
  | _ :: rest => ∃ g', shuttingDown (gqueue g') = true ∧ items (gqueue g') = rest ∧
      (processNextWorkItem config g = (g', Ret true) ∨ ∃ w, processNextWorkItem config g = (g', Panic w))
  end.
Proof.
  intros Hsd. destruct g as [q s]. cbn in *. unfold processNextWorkItem, Get. cbn [mbind go_bind]. unfold mbind, go_bind, get. cbn [gqueue].
  destruct (items q) as [|item rest] eqn:Hi; [by rewrite Hsd|].
  unfold defer, on_queue, modify, attempt. cbn [gqueue gsys].
  destruct (run_handler config item _) as [g1 o] eqn:Hr.
  pose proof (run_handler_queue item (GroundState (set_core rest (dirty q ∖ {[item]}) ({[item]} ∪ processing q) q) s)) as Hq.
  rewrite Hr in Hq. cbn in Hq.
  assert (item ∉ dirty q ∖ {[item]}) as Hnd by set_solver.
  destruct o as [[]|err|w]; cbn; rewrite Hq; unfold Done, Forget, AddRateLimited, AddAfter; cbn; rewrite ?Hsd; cbn;
    rewrite decide_False by done; eexists; (split; [|split; [|first [left; reflexivity | right; eexists; reflexivity]]]); done.
Qed.
Theorem runWorker_quits fuel g : shuttingDown (gqueue g) = true → (length (items (gqueue g)) < fuel)%nat →
  ∃ g' o, runWorker config fuel g = (g', o) ∧ ((o = Ret true ∧ items (gqueue g') = []) ∨ ∃ w, o = Panic w).
Proof.
  revert g. induction fuel as [|fuel IH]; intros g Hsd Hl; [lia|]. pose proof (processNext_drains g Hsd) as H.
  cbn [runWorker]. destruct (items (gqueue g)) as [|item rest] eqn:Hi.
  - erewrite bind_run by exact H. exists g, (Ret true). split; [done|]. by left.
  - destruct H as (g1 & Hsd1 & Hi1 & [H|[w H]]).
    + erewrite bind_run by exact H. apply IH; [done|]. rewrite Hi1. cbn in Hl. lia.
    + exists g1, (Panic w). split; [|right; by exists w]. unfold mbind, go_bind. by rewrite H.
Qed.

(** The handlers of updates look at the object as it was: a pod whose label
    appears with an update is not noticed, a pod whose label is taken away
    still is.  For a kluster the key is the same. *)
Theorem update_looks_back oldObj newObj g : oldObj ≠ newObj →
  deliver (PodUpdated oldObj newObj) g =
    match kluster_of_pod oldObj with Some key => (GroundState (Add key (gqueue g)) (gsys g), Ret tt) | None => (g, Ret tt) end.
Proof.
  intros Hne. cbn. unfold podUpdate. rewrite decide_False by congruence. unfold add_kluster_of.
  by destruct (kluster_of_pod oldObj).
Qed.
End Loop.

(** * A concrete environment for the witness: the stored kluster was
    terminated through the API in the meantime. *)
Definition demo_terminating : Kluster :=
  set_Status (with_phase KlusterPhaseTerminating "") demo_kluster.
Definition demo_api : Machine GroundCall unit := fun c e =>
  (e, match c return reply (resp c) with
      | GKlusterGet _ _ => Ok demo_terminating
      | c => Bad (ErrNew "unused")
      end).

Lemma updatePhase_overwrites_witness :
  picked is_update (fst (updatePhase (Machine0:=demo_api) demo_kluster KlusterPhaseRunning ""
    (Sys tt tt [] : sys unit unit GroundCall))) =
  [GKlusterUpdate (set_Status (with_phase KlusterPhaseRunning "") demo_terminating)].
Proof.
  refine (updatePhase_overwrites (Machine0:=demo_api) demo_kluster KlusterPhaseRunning "" demo_terminating tt
    (Sys tt tt []) _ _); [reflexivity | discriminate].
Defined.
