(* ===== verification/Store.v ===== *)
(** The store the components share.

    The API server keeps the klusters; the API, the ground controller and the
    launch controller read and write them there, and the two controllers start
    from a cache that lags behind.  The file says which calls of a component go
    to the store and what the store answers to them. *)
From S2P Require Import Prelude GoStrings Models ApiModels Factory Telemetry Metrics WorkQueue Bootstrap Openstack Handlers Ground Ignition Launch.

Definition object_key : Type := (string * string)%type.
Definition key_of (k : Kluster) : object_key := (Namespace (Meta k), Name (Meta k)).

(** A request that was received *)
Record asked := Received { asked_by : Principal; asked_for : request }.

Record World := {
  w_stored : gmap object_key Kluster;
  w_cache : gmap string Kluster;
  w_history : list asked }.
Definition empty_world : World := {| w_stored := ∅; w_cache := ∅; w_history := [] |}.

Inductive store_op := Put (key : object_key) (k : Kluster) | Remove (key : object_key).
Definition apply_op (o : store_op) (w : World) : World :=
  {| w_stored := match o with Put key k => <[key := k]> (w_stored w) | Remove key => delete key (w_stored w) end;
     w_cache := w_cache w; w_history := w_history w |}.

(** A request arrives; the informer takes over the state of an object. *)
Definition receive (a : asked) (w : World) : World :=
  {| w_stored := w_stored w; w_cache := w_cache w; w_history := w_history w ++ [a] |}.
Definition cache_key (key : object_key) : string := if decide (fst key = "") then snd key else fst key +:+ "/" +:+ snd key.
Definition sync (key : object_key) (w : World) : World :=
  {| w_stored := w_stored w; w_history := w_history w;
     w_cache := match w_stored w !! key with
                | Some k => <[cache_key key := k]> (w_cache w)
                | None => delete (cache_key key) (w_cache w)
                end |}.

(** * A component on the store

    What a reply shows, what a call writes, and how the store answers it, given
    the answer of the services: a call to the store fails when they say so. *)
Class Component (C : Type) `{!Iface C} := {
  reads : ∀ c : C, resp c → list (object_key * Kluster);
  writes : C → option store_op;
  store : ∀ c : C, World → reply (resp c) → World * reply (resp c) }.

(** A reply shows what is stored or cached, and the store changes as it is told. *)
Definition shows (w : World) (kk : object_key * Kluster) : Prop :=
  w_stored w !! fst kk = Some (snd kk) ∨ key_of (snd kk) = fst kk ∧ ∃ key, w_cache w !! key = Some (snd kk).
Definition keyed (w : World) : Prop := map_Forall (λ key k, key_of k = key) (w_stored w).
Definition served {C} `{Component C} (c : C) (w : World) (x : World * reply (resp c)) : Prop :=
  (fst x = w ∨ ∃ o, writes c = Some o ∧ fst x = apply_op o w) ∧
  ∀ a, snd x = Ok a → keyed w → Forall (shows w) (reads c a).
Class Lawful (C : Type) `{Component C} : Prop := store_served (c : C) w r : served c w (store c w r).

Definition not_found : error := ErrStatus ReasonNotFound "not found".
Definition or_down {A B} (r : reply A) (w : World) (x : World * reply B) : World * reply B :=
  match r with Bad err => (w, Bad err) | Ok _ => x end.
Definition stored (key : object_key) (w : World) : reply Kluster :=
  match w_stored w !! key with Some k => Ok k | None => Bad not_found end.
Definition overwrite {A} (k : Kluster) (a : A) (w : World) : World * reply A :=
  match w_stored w !! key_of k with
  | Some _ => (apply_op (Put (key_of k) k) w, Ok a)
  | None => (w, Bad not_found)
  end.

Section Served.
Context {C : Type} `{Component C}.
Lemma served_quiet (c : C) w r : (∀ a, r = Ok a → reads c a = []) → served c w (w, r).
Proof. intros Hr. split; [by left|]. intros a Ha _. by rewrite (Hr a Ha). Qed.
Lemma served_down (c : C) w err : served c w (w, Bad err).
Proof. by apply served_quiet. Qed.
Lemma served_write (c : C) w o r : writes c = Some o → (∀ a, r = Ok a → reads c a = []) → served c w (apply_op o w, r).
Proof. intros Ho Hr. split; [right; by exists o|]. intros a Ha _. by rewrite (Hr a Ha). Qed.
Lemma served_overwrite (c : C) k (a : resp c) w : writes c = Some (Put (key_of k) k) → (∀ a, reads c a = []) →
  served c w (overwrite k a w).
Proof. intros Hw Hr. unfold overwrite. destruct (_ !! _); [by apply served_write|by apply served_quiet]. Qed.
Lemma served_object (c : C) w (r : reply (resp c)) :
  (∀ a, r = Ok a → Forall (λ kk, w_stored w !! fst kk = Some (snd kk)) (reads c a)) → served c w (w, r).
Proof. intros Hr. split; [by left|]. intros a Ha _. eapply Forall_impl; [by apply Hr|]. intros kk. by left. Qed.
End Served.

(** ** The API *)

(** The API server sets the namespace of what is created and refuses an update
    under another one. *)
Definition with_namespace (ns : string) (k : Kluster) : Kluster :=
  {| Meta := {| Name := Name (Meta k); Namespace := ns; UID := UID (Meta k); Labels := Labels (Meta k);
                Annotations := Annotations (Meta k) |}; Spec := Spec k; Status := Status k |}.
Definition listed (ns : string) (selector : option (string * string)) (kk : object_key * Kluster) : bool :=
  bool_decide (fst (fst kk) = ns) && selects selector (snd kk).
Definition api_store (c : HandlerCall) (w : World) : reply (resp c) → World * reply (resp c) :=
  match c return reply (resp c) → World * reply (resp c) with
  | HGet ns name => λ r, or_down r w (w, stored (ns, name) w)
  | HCreate ns k => λ r, or_down r w
      match w_stored w !! (ns, Name (Meta k)) with
      | Some _ => (w, Bad (ErrStatus ReasonAlreadyExists "already exists"))
      | None => (apply_op (Put (ns, Name (Meta k)) (with_namespace ns k)) w, Ok (with_namespace ns k))
      end
  | HUpdate ns k => λ r, or_down r w
      (if decide (Namespace (Meta k) = ns) then overwrite k k w
       else (w, Bad (ErrNew "the namespace of the object does not match the namespace of the request")))
  | HList ns selector => λ r, or_down r w (w, Ok (snd <$> filter (λ kk, listed ns selector kk) (map_to_list (w_stored w))))
  | _ => λ r, (w, r)
  end.
#[export] Instance api_component : Component HandlerCall := {|
  reads c := match c return resp c → list (object_key * Kluster) with
             | HGet ns name => λ k, [((ns, name), k)]
             | HList _ _ => λ l, (λ k, (key_of k, k)) <$> l
             | _ => λ _, []
             end;
  writes c := match c with
              | HCreate ns k => Some (Put (ns, Name (Meta k)) (with_namespace ns k))
              | HUpdate ns k => if decide (Namespace (Meta k) = ns) then Some (Put (key_of k) k) else None
              | _ => None
              end;
  store := api_store |}.
#[export] Instance api_lawful : Lawful HandlerCall.
Proof.
  intros c w r. destruct c as [ns name|ns k|ns k|ns sel| | | | | | | | | ]; cbn [store api_component api_store];
    try (by apply served_quiet); (destruct r as [a0|err]; [|exact (served_down (C:=HandlerCall) _ w err)]); cbn [or_down].
  - apply served_object. unfold stored. intros k. destruct (w_stored w !! _) eqn:Hk; [|done]. intros [= <-]. by constructor.
  - destruct (w_stored w !! _); [by apply served_quiet|by apply served_write].
  - case_decide as Hns; [|by apply served_quiet]. refine (served_overwrite (HUpdate ns k) k k w _ _); [|done]. cbn. by rewrite decide_True.
  - split; [by left|]. intros l [= <-] Hs. cbn [reads api_component fst snd]. rewrite <- list_fmap_compose. apply Forall_fmap, Forall_forall.
    intros [key k] [_ Hin%elem_of_map_to_list]%list_elem_of_filter. left. cbn in *. by rewrite (Hs _ _ Hin).
Qed.

(** ** The ground controller *)
Definition ground_store (c : GroundCall) (w : World) : reply (resp c) → World * reply (resp c) :=
  match c return reply (resp c) → World * reply (resp c) with
  | GKlusterGet ns name => λ r, or_down r w (w, stored (ns, name) w)
  | GKlusterUpdate k => λ r, or_down r w (overwrite k tt w)
  | GKlusterDelete ns name => λ r, or_down r w
      match w_stored w !! (ns, name) with
      | Some _ => (apply_op (Remove (ns, name)) w, Ok tt)
      | None => (w, Bad not_found)
      end
  | GCacheGet key => λ r, or_down r w (w, Ok (w_cache w !! key))
  | _ => λ r, (w, r)
  end.
#[export] Instance ground_component : Component GroundCall := {|
  reads c := match c return resp c → list (object_key * Kluster) with
             | GKlusterGet ns name => λ k, [((ns, name), k)]
             | GCacheGet _ => λ o, match o with Some k => [(key_of k, k)] | None => [] end
             | _ => λ _, []
             end;
  writes c := match c with
              | GKlusterUpdate k => Some (Put (key_of k) k)
              | GKlusterDelete ns name => Some (Remove (ns, name))
              | _ => None
              end;
  store := ground_store |}.
#[export] Instance ground_lawful : Lawful GroundCall.
Proof.
  intros c w r. destruct c; cbn [store ground_component ground_store];
    try (by apply served_quiet); (destruct r as [a0|err]; [|exact (served_down (C:=GroundCall) _ w err)]); cbn [or_down].
  - apply served_object. unfold stored. intros k. destruct (w_stored w !! _) eqn:Hk; [|done]. intros [= <-]. by constructor.
  - by refine (served_overwrite (GKlusterUpdate k) k tt w _ _).
  - destruct (w_stored w !! _); [by apply served_write|by apply served_quiet].
  - split; [by left|]. cbn [fst snd]. intros o Ho _. destruct (w_cache w !! key) as [k|] eqn:Hk; injection Ho as <-; [|constructor].
    constructor; [|done]. right. split; [done|]. by exists key.
Qed.

(** ** The launch controller *)
Definition launch_store (c : LaunchCall) (w : World) : reply (resp c) → World * reply (resp c) :=
  match c return reply (resp c) → World * reply (resp c) with
  | LKlusterGet ns name => λ r, or_down r w (w, stored (ns, name) w)
  | LKlusterUpdate k => λ r, or_down r w (overwrite k k w)
  | _ => λ r, (w, r)
  end.
#[export] Instance launch_component : Component LaunchCall := {|
  reads c := match c return resp c → list (object_key * Kluster) with
             | LKlusterGet ns name => λ k, [((ns, name), k)]
             | _ => λ _, []
             end;
  writes c := match c with LKlusterUpdate k => Some (Put (key_of k) k) | _ => None end;
  store := launch_store |}.
#[export] Instance launch_lawful : Lawful LaunchCall.
Proof.
  intros c w r. destruct c; cbn [store launch_component launch_store];
    try (by apply served_quiet); (destruct r as [a0|err]; [|exact (served_down (C:=LaunchCall) _ w err)]); cbn [or_down].
  - apply served_object. unfold stored. intros k. destruct (w_stored w !! _) eqn:Hk; [|done]. intros [= <-]. by constructor.
  - by refine (served_overwrite (LKlusterUpdate k) k k w _ _).
Qed.
