(* ===== verification/Lifecycle.v ===== *)
(** What the components rely on and promise on their common store.

    The API, the ground controller and the launch controller read and write
    the klusters of [Store] at the same time.  The file states what they may
    rely on between two calls and what they promise about each call, and proves
    it for every request, every run of the ground controller's handler and
    every reconciliation of the launch controller.  [Cluster] interleaves them. *)
From S2P Require Import Prelude GoStrings Models ApiModels Factory Telemetry Metrics WorkQueue Bootstrap Openstack Handlers Ground Ignition Launch Store.

Section Rules.
(** The namespace of the control plane *)
Context (plane : string).

(** Somebody asked for the creation or the termination of an object. *)
Definition created_by (h : list asked) (key : object_key) : Prop :=
  ∃ p b, Received p (RCreate b) ∈ h ∧ key = (plane, qualifiedName (mk_Name b) (pr_Account p)).
Definition terminated_by (h : list asked) (key : object_key) : Prop :=
  ∃ p name, Received p (RTerminate name) ∈ h ∧ key = (plane, qualifiedName name (pr_Account p)).

(** What every kluster in the store and in the cache owes to a request *)
Definition owed (h : list asked) (k : Kluster) : Prop :=
  created_by h (key_of k) ∧ (Phase (Status k) = KlusterPhaseTerminating → terminated_by h (key_of k)).
Definition consistent (w : World) : Prop :=
  map_Forall (λ key k, key_of k = key ∧ owed (w_history w) k) (w_stored w) ∧
  map_Forall (λ _ k, owed (w_history w) k) (w_cache w).
(** An object as a reply shows it *)
Definition known (h : list asked) (kk : object_key * Kluster) : Prop := key_of (snd kk) = fst kk ∧ owed h (snd kk).
(** What may happen between two calls of a component *)
Definition rely (w w' : World) : Prop := consistent w → consistent w' ∧ w_history w ⊆ w_history w'.

Lemma created_mono h h' key : h ⊆ h' → created_by h key → created_by h' key.
Proof. intros Hh (p & b & ? & ?). exists p, b. auto. Qed.
Lemma terminated_mono h h' key : h ⊆ h' → terminated_by h key → terminated_by h' key.
Proof. intros Hh (p & b & ? & ?). exists p, b. auto. Qed.
Lemma owed_mono h h' k : h ⊆ h' → owed h k → owed h' k.
Proof. intros Hh [Hc Ht]. split; [by eapply created_mono|]. intros H. eapply terminated_mono, Ht; done. Qed.
Lemma owed_same h k k' : key_of k' = key_of k → (Phase (Status k') = KlusterPhaseTerminating → Phase (Status k) = KlusterPhaseTerminating) →
  owed h k → owed h k'.
Proof. intros Hk Hp [Hc Ht]. unfold owed. rewrite Hk. auto. Qed.

(** An operation on the store that keeps it consistent *)
Definition op_allowed (h : list asked) (o : store_op) : Prop :=
  match o with Put key k => key_of k = key ∧ owed h k | Remove key => terminated_by h key end.
Lemma apply_consistent o w : consistent w → op_allowed (w_history w) o → consistent (apply_op o w).
Proof.
  intros (Hs & Hc) Ho. split; [|done]. destruct o as [key k|key]; cbn in *.
  - by apply map_Forall_insert_2.
  - by apply map_Forall_delete.
Qed.
Lemma receive_consistent a w : consistent w → consistent (receive a w).
Proof.
  intros (Hs & Hc). assert (w_history w ⊆ w_history (receive a w)) as Hsub by (cbn; set_solver).
  split; eapply map_Forall_impl; [exact Hs| |exact Hc|]; cbn; [intros key k [? ?]; split; [done|]|intros ? ?]; by eapply owed_mono.
Qed.
Lemma sync_consistent key w : consistent w → consistent (sync key w).
Proof.
  intros (Hs & Hc). split; [done|]. cbn. destruct (w_stored w !! key) as [k|] eqn:Hk; [|by apply map_Forall_delete].
  apply map_Forall_insert_2; [|done]. by apply (Hs key).
Qed.
Lemma consistent_shows w l : consistent w → Forall (shows w) l → Forall (known (w_history w)) l.
Proof.
  intros (Hs & Hc) Hl. eapply Forall_impl; [exact Hl|]. intros [key k] [Hk|[Hk [ckey Hk']]]; cbn in *; [by apply Hs|].
  split; [done|]. by eapply Hc.
Qed.
Lemma consistent_keyed w : consistent w → keyed w.
Proof. intros (Hs & _). eapply map_Forall_impl; [exact Hs|]. by intros ?? []. Qed.

(** What a component promises about each of its calls, given the requests
    received so far: it lasts, and what is written is allowed. *)
Class Promises (C : Type) `{Component C} := {
  promised : C → list asked → Prop;
  promised_mono c h h' : h ⊆ h' → promised c h → promised c h';
  promised_allows c h o : promised c h → writes c = Some o → op_allowed h o }.

(** A machine on which the store is shared: between two calls happens what a
    component relies on, then the call does to the store what it says.  [ok] is
    an invariant of the machine. *)
Class Shared {C E : Type} `{Component C} `{!Machine C E} (ok : E → Prop) (w : E → World) : Prop :=
  shared (c : C) e e' r : ok e → answer c e = (e', r) → ok e' ∧ ∃ m, rely (w e) m ∧
    (w e' = m ∨ ∃ o, writes c = Some o ∧ w e' = apply_op o m) ∧
    ∀ a, r = Ok a → keyed m → Forall (shows m) (reads c a).

Context {S C E : Type} `{Promises C} `{!Machine C E} (ok : E → Prop) (w : E → World) `{!Shared ok w}.
Implicit Types s : sys S E C.

(** The state of a run that began with the trace [t0], when the facts [F]
    about the history are known *)
Definition going (t0 : list C) (F : list asked → Prop) s : Prop :=
  (ok (env s) ∧ consistent (w (env s))) ∧ F (w_history (w (env s))) ∧
  ∃ l, trace s = t0 ++ l ∧ Forall (λ c, promised c (w_history (w (env s)))) l.
Definition lasting (F : list asked → Prop) : Prop := ∀ h h', h ⊆ h' → F h → F h'.
(** A computation that keeps its promises *)
Definition keeps {A} (F : list asked → Prop) (m : Go (sys S E C) A) : Prop :=
  ∀ t0 s, going t0 F s → wp m (λ _ s', going t0 F s') s.

Lemma keeps_ret {A} F (a : A) : keeps F (mret a).
Proof. intros t0 s Hg. by apply wp_ret. Qed.
Lemma keeps_fail {A} F e : keeps (A:=A) F (fail e).
Proof. intros t0 s Hg. by apply wp_fail. Qed.
Lemma keeps_panic {A} F e : keeps (A:=A) F (panic e).
Proof. intros t0 s Hg. by apply wp_panic. Qed.
Lemma keeps_lift {A} F (r : reply A) : keeps F (lift_reply r).
Proof. intros t0 s Hg. by apply wp_lift_reply. Qed.
Lemma keeps_get F : keeps F (get_mem (S:=S)).
Proof. intros t0 s Hg. by apply wp_get_mem. Qed.
Lemma keeps_set F m : keeps F (set_mem (S:=S) m).
Proof. intros t0 s Hg. by apply wp_set_mem. Qed.
Lemma keeps_then {A B} F (m : Go (sys S E C) A) (f : A → Go (sys S E C) B) :
  keeps F m → (∀ a, keeps F (f a)) → keeps F (m ≫= f).
Proof.
  intros Hm Hf t0 s Hg. apply wp_bind. eapply wp_mono; [by apply Hm|].
  intros [a|e|x] s' Hg'; [by apply Hf|done..].
Qed.
Lemma keeps_attempt {A} F (m : Go (sys S E C) A) : keeps F m → keeps F (attempt m).
Proof. intros Hm t0 s Hg. apply wp_attempt. eapply wp_mono; [by apply Hm|]. by intros [a|e|x] s' Hg'. Qed.
Lemma keeps_defer {A} F (f : outcome A → Go (sys S E C) unit) (m : Go (sys S E C) A) :
  keeps F m → (∀ o, keeps F (f o)) → keeps F (defer f m).
Proof.
  intros Hm Hf t0 s Hg. apply wp_defer. eapply wp_mono; [by apply Hm|].
  intros o s' Hg'. eapply wp_mono; [exact (Hf o t0 s' Hg')|]. by intros [a|e|x] s2 ?.
Qed.
Lemma keeps_for_each {A} F (f : A → Go (sys S E C) unit) l : (∀ x, keeps F (f x)) → keeps F (for_each f l).
Proof. intros Hf. induction l as [|x l IH]; cbn; [apply keeps_ret|]. by apply keeps_then. Qed.
Lemma keeps_for_fold {A B} F (f : B → A → Go (sys S E C) B) b l : (∀ b x, keeps F (f b x)) → keeps F (for_fold f b l).
Proof. intros Hf. revert b. induction l as [|x l IH]; intros b; cbn; [apply keeps_ret|]. by apply keeps_then. Qed.

(** A call that is promised, and what its reply tells *)
Definition knowing (F : list asked → Prop) (l : list (object_key * Kluster)) (h : list asked) : Prop := F h ∧ Forall (known h) l.
Lemma lasting_knowing F l : lasting F → lasting (knowing F l).
Proof. intros HF h h' Hh [Hf Hl]. split; [by eapply HF|]. eapply Forall_impl; [exact Hl|]. intros kk [? ?]. split; [done|by eapply owed_mono]. Qed.
Lemma going_knowing t0 F l s : going t0 (knowing F l) s → going t0 F s.
Proof. intros (? & [? _] & ?). by repeat (split; [done|]). Qed.
Lemma going_call t0 F c s e' r : lasting F → (∀ h, F h → promised c h) →
  going t0 F s → answer c (env s) = (e', r) →
  going t0 (knowing F match r with Ok a => reads c a | Bad _ => [] end) (Sys (mem s) e' (trace s ++ [c])).
Proof.
  intros HF Hc ([Hok Hcon] & Hf & l & Ht & Hl) Ha. destruct (shared _ _ _ _ Hok Ha) as (Hok' & m & Hr & Hw & Hrd).
  destruct (Hr Hcon) as [Hr1 Hr2]. pose proof (HF _ _ Hr2 Hf) as Hfm. pose proof (Hc _ Hfm) as Hp.
  assert (consistent (w e') ∧ w_history (w e') = w_history m) as [Hcon' Hh].
  { destruct Hw as [->|(o & Hw & ->)]; [done|]. split; [|done]. apply apply_consistent; [done|]. by eapply promised_allows. }
  split; [done|]. cbn [env trace]. rewrite Hh. split_and!.
  - split; [done|]. destruct r as [a|e]; [|constructor]. apply consistent_shows; [done|]. by apply Hrd, consistent_keyed.
  - exists (l ++ [c]). split; [by rewrite Ht, app_assoc|].
    apply Forall_app. split; [|by constructor]. eapply Forall_impl; [exact Hl|]. intros d Hd. by eapply promised_mono.
Qed.
Lemma keeps_call F c : lasting F → (∀ h, F h → promised c h) → keeps F (perform (S:=S) c).
Proof. intros HF Hc t0 s Hg. apply wp_perform. intros e' r Ha. eapply going_knowing. by eapply going_call. Qed.

(** The continuation may use what the reply shows. *)
Lemma keeps_knowing {B} t0 F l (m : Go (sys S E C) B) s :
  going t0 (knowing F l) s → keeps (knowing F l) m → wp m (λ _ s', going t0 F s') s.
Proof. intros Hg Hm. eapply wp_mono; [by apply Hm|]. intros o s' Hg'. exact (going_knowing _ _ _ _ Hg'). Qed.
Lemma keeps_read {B} F c (f : reply (resp c) → Go (sys S E C) B) : lasting F → (∀ h, F h → promised c h) →
  (∀ r, keeps (knowing F match r with Ok a => reads c a | Bad _ => [] end) (f r)) → keeps F (attempt (perform (S:=S) c) ≫= f).
Proof.
  intros HF Hp Hf t0 s Hg. apply wp_bind, wp_attempt, wp_perform. intros e' r Ha.
  pose proof (going_call t0 F c s e' r HF Hp Hg Ha) as Hg'.
  destruct r as [a|e]; [exact (keeps_knowing _ _ _ _ _ Hg' (Hf (Ok a)))|exact (keeps_knowing _ _ _ _ _ Hg' (Hf (Bad e)))].
Qed.
Lemma keeps_read_bind {B} F c (f : resp c → Go (sys S E C) B) : lasting F → (∀ h, F h → promised c h) →
  (∀ a, keeps (knowing F (reads c a)) (f a)) → keeps F (perform (S:=S) c ≫= f).
Proof.
  intros HF Hp Hf t0 s Hg. apply wp_bind, wp_perform. intros e' r Ha.
  pose proof (going_call t0 F c s e' r HF Hp Hg Ha) as Hg'.
  destruct r as [a|e]; cbn [of_reply]; [exact (keeps_knowing _ _ _ _ _ Hg' (Hf a))|by eapply going_knowing].
Qed.
End Rules.

(** Goes through the branches of a computation; calls are left. *)
Ltac keeps_step :=
  match goal with
  | |- keeps _ _ _ _ (match ?x with _ => _ end) => destruct x
  | |- keeps _ _ _ _ (mret _) => apply keeps_ret
  | |- keeps _ _ _ _ (fail _) => apply keeps_fail
  | |- keeps _ _ _ _ (panic _) => apply keeps_panic
  | |- keeps _ _ _ _ (lift_reply _) => apply keeps_lift
  | |- keeps _ _ _ _ get_mem => apply keeps_get
  | |- keeps _ _ _ _ (set_mem _) => apply keeps_set
  | |- keeps _ _ _ _ (attempt _) => apply keeps_attempt
  | |- keeps _ _ _ _ (defer _ _) => apply keeps_defer; [|intros ?]
  | |- keeps _ _ _ _ (for_each _ _) => apply keeps_for_each; intros ?
  | |- keeps _ _ _ _ (for_fold _ _ _) => apply keeps_for_fold; intros ? ?
  | |- keeps _ _ _ _ (_ ≫= _) => apply keeps_then; [|intros ?]
  end.
(** A read of a kluster whose reply the rest uses *)
Ltac read_kluster := refine (keeps_read_bind _ _ _ _ _ _ _ _ _); [done|done|]; intros ?; cbn [reads].

(** * The ground controller

    Things are made for what was created and removed for what was terminated. *)
Definition ground_promise (plane : string) (c : GroundCall) (h : list asked) : Prop :=
  match c with
  | GInstallRelease _ ns _ name => created_by plane h (ns, name)
  | GOs (OsCreateKlusterServiceUser user _ _ _) => ∃ ns name, user = "kubernikus-" +:+ name ∧ created_by plane h (ns, name)
  | GDeleteRelease name => ∃ ns, terminated_by plane h (ns, name)
  | GKlusterDelete ns name => terminated_by plane h (ns, name)
  | GOs (OsDeleteUser _ _) => ∃ key, terminated_by plane h key
  | GKlusterUpdate k => owed plane h k
  | _ => True
  end.
#[export] Program Instance ground_promises plane : Promises plane GroundCall := {| promised := ground_promise plane |}.
Next Obligation.
  intros plane c h h' Hh. pose proof (λ key, created_mono plane h h' key Hh). pose proof (λ key, terminated_mono plane h h' key Hh).
  destruct c as [[]| | | | | | | | | | | | | | | | | | | |]; cbn; try naive_solver. by apply owed_mono.
Qed.
Next Obligation. intros plane c h o. destruct c; cbn; intros Hp [= <-]; done. Qed.

Section GroundKeeps.
Context {S E : Type} `{!Machine GroundCall E} (config : Config) (plane : string) (ok : E → Prop) (w : E → World).
Context `{!Shared plane ok w}.
Abbreviation gkeeps F m := (keeps (S:=S) (E:=E) plane ok w F m).

(** A call that nothing is promised about *)
Definition harmless (c : GroundCall) : bool :=
  match c with
  | GInstallRelease _ _ _ _ | GOs (OsCreateKlusterServiceUser _ _ _ _) | GDeleteRelease _ | GKlusterDelete _ _
  | GOs (OsDeleteUser _ _) | GKlusterUpdate _ => false
  | _ => true
  end.
Lemma harmless_call F c : lasting F → harmless c = true → gkeeps F (gcall c).
Proof. intros HF Hc. refine (keeps_call _ _ _ F c HF _). intros h _. destruct c as [[]| | | | | | | | | | | | | | | | | | | |]; done. Qed.
Lemma harmless_emit F c : lasting F → harmless c = true → gkeeps F (emit c).
Proof. intros HF Hc. unfold emit. apply keeps_then; [by apply keeps_attempt, harmless_call|intros; apply keeps_ret]. Qed.

(** A call with a promise that the facts keep *)
Ltac promised_call :=
  match goal with
  | HF : lasting ?F, Hk : ∀ h, ?F h → _ |- keeps _ _ _ ?F (gcall ?c) =>
      refine (keeps_call _ _ _ F c HF _); intros h Hh; specialize (Hk h Hh); cbn; eauto
  end.
Ltac ground_step :=
  match goal with
  | |- keeps _ _ _ _ (emit _) => apply harmless_emit; [done|reflexivity]
  | |- keeps _ _ _ _ (set_gauge _ _ _) => apply harmless_emit; [done|reflexivity]
  | |- keeps _ _ _ ?F (seed ?c) => refine (harmless_call F (GSeed c) _ _); [done|reflexivity]
  | |- keeps _ _ _ ?F (gcall ?c) => refine (harmless_call F c _ _); [done|reflexivity]
  | _ => keeps_step
  end.

Lemma keeps_Poll F fuel (m : Go (sys S E GroundCall) bool) : lasting F → gkeeps F m → gkeeps F (Poll fuel m).
Proof. intros HF Hm. induction fuel as [|fuel IH]; cbn [Poll]; repeat first [exact Hm|exact IH|ground_step]. Qed.
Lemma keeps_WaitForKluster F k cond : lasting F → gkeeps F (WaitForKluster k cond).
Proof. intros HF. apply keeps_Poll; [done|]. repeat ground_step. Qed.
Lemma keeps_or_event F k reason msg (m : Go (sys S E GroundCall) unit) : lasting F → gkeeps F m → gkeeps F (or_event k reason msg m).
Proof. intros HF Hm. unfold or_event. repeat first [exact Hm|ground_step]. Qed.

(** Writing a kluster that owes what it should *)
Lemma keeps_update F k : lasting F → (∀ h, F h → owed plane h k) → gkeeps F (gcall (GKlusterUpdate k)).
Proof. intros HF Hk. by refine (keeps_call _ _ _ F (GKlusterUpdate k) HF _). Qed.

Lemma keeps_updatePhase F k phase message : lasting F → phase ≠ KlusterPhaseTerminating → gkeeps F (updatePhase k phase message).
Proof.
  intros HF Hp. unfold updatePhase. read_kluster.
  set (F' := knowing plane F _). assert (lasting F') as HF' by by apply lasting_knowing.
  case_decide; [apply keeps_ret|]. apply keeps_then; [by apply harmless_emit|]. intros _.
  apply keeps_then.
  - apply keeps_attempt, keeps_update; [done|]. intros h [_ [_ H1]%Forall_inv]. eapply owed_same; [..|exact H1]; done.
  - intros [u|e]; [|apply keeps_fail]. apply keeps_then; [by apply keeps_attempt, keeps_WaitForKluster|intros; apply keeps_ret].
Qed.

Lemma keeps_discoverOpenstackInfo F k : lasting F → gkeeps F (discoverOpenstackInfo k).
Proof.
  intros HF. unfold discoverOpenstackInfo. apply keeps_then; [ground_step|]. intros routers. read_kluster.
  set (F' := knowing plane F _). assert (lasting F') as HF' by by apply lasting_knowing.
  apply keeps_then; [apply keeps_lift|]. intros os. apply keeps_then; [repeat ground_step|]. intros os'.
  apply keeps_update; [done|]. intros h [_ [_ H]%Forall_inv]. by eapply owed_same; [..|exact H].
Qed.

Lemma keeps_discoverKubernikusInfo F k : lasting F → gkeeps F (discoverKubernikusInfo config k).
Proof.
  intros HF. unfold discoverKubernikusInfo. read_kluster.
  set (F' := knowing plane F _). assert (lasting F') as HF' by by apply lasting_knowing.
  apply keeps_update; [done|]. intros h [_ [_ H]%Forall_inv].
  eapply owed_same; [..|exact H]; by destruct (decide (Apiserver _ = "")), (decide (Wormhole _ = "")).
Qed.

Lemma keeps_SeedKluster F k : lasting F → gkeeps F (SeedKluster seed k).
Proof.
  intros HF. assert (∀ w w' o, gkeeps F (CreateOrUpdate seed w w' o)) as Hc by (intros; unfold CreateOrUpdate; repeat ground_step).
  unfold SeedKluster, SeedKubeDNS, SeedAutoApproveNodeBootstrapTokens, createKubeDNSDeployment, createKubeDNSService,
    getKubeDNSDeployment, getKubeDNSService, createKubeDNSServiceAccount, CreateOrUpdateServiceAccount.
  repeat first [apply Hc|ground_step].
Qed.

Lemma keeps_createKluster F k : lasting F → (∀ h, F h → created_by plane h (key_of k)) → gkeeps F (createKluster config k).
Proof.
  intros HF Hk. unfold createKluster, PVAccessMode, GenerateBootstrapToken, KlusterToHelmValues, wrap.
  repeat first [ground_step | promised_call].
Qed.

Lemma keeps_terminateKluster F k : lasting F → (∀ h, F h → terminated_by plane h (key_of k)) → gkeeps F (terminateKluster k).
Proof.
  intros HF Hk. unfold terminateKluster, WaitForKlusterDeletion.
  repeat first [apply keeps_WaitForKluster; exact HF | ground_step | promised_call].
Qed.

(** The handler of the controller, whatever else happens to the store *)
Lemma keeps_handler F key : lasting F → gkeeps F (handler config key).
Proof.
  intros HF. unfold handler. refine (keeps_read _ _ _ F (GCacheGet key) _ HF _ _); [done|].
  intros [[k|]|e]; [|apply keeps_ret|apply keeps_fail]. cbn [reads].
  set (F' := knowing plane F _). assert (lasting F') as HF' by by apply lasting_knowing.
  assert (∀ h, F' h → owed plane h k) as Hk by (intros h [_ [_ H]%Forall_inv]; exact H).
  unfold SetMetricKlusterInfo, SetMetricKlusterStatusPhase.
  apply keeps_then; [repeat ground_step|]. intros _. apply keeps_then; [repeat ground_step|]. intros _. cbv zeta.
  case_decide as H1; [|case_decide as H2; [|case_decide as H3; [|apply keeps_ret]]].
  - unfold handle_pending. destruct (requiresOpenstackInfo k); [|destruct (requiresKubernikusInfo k)].
    + by apply keeps_or_event, keeps_discoverOpenstackInfo.
    + by apply keeps_or_event, keeps_discoverKubernikusInfo.
    + apply keeps_then; [apply keeps_or_event, keeps_createKluster; [done|done|]; intros h Hh; by apply Hk|]. intros _.
      apply keeps_then; [by apply keeps_attempt, keeps_updatePhase|intros; apply keeps_ret].
  - unfold handle_creating. apply keeps_then; [ground_step|]. intros pods. case_decide; [|apply keeps_ret].
    apply keeps_then; [ground_step|]. intros _. apply keeps_then; [by apply keeps_SeedKluster|]. intros _.
    apply keeps_then; [by apply keeps_attempt, keeps_updatePhase|]. intros _. ground_step.
  - unfold handle_terminating, SetMetricKlusterTerminated. apply keeps_then; [|intros _; repeat ground_step].
    apply keeps_or_event, keeps_terminateKluster; [done|done|]. intros h Hh. by apply Hk.
Qed.
End GroundKeeps.

(** * The API

    A kluster is stored for the request that is served. *)
Definition api_promise (plane : string) (c : HandlerCall) (h : list asked) : Prop :=
  match c with
  | HCreate ns k => owed plane h (with_namespace ns k)
  | HUpdate ns k => Namespace (Meta k) = ns → owed plane h k
  | _ => True
  end.
#[export] Program Instance api_promises plane : Promises plane HandlerCall := {| promised := api_promise plane |}.
Next Obligation. intros plane c h h' Hh. destruct c; cbn; eauto using owed_mono. Qed.
Next Obligation.
  intros plane c h o. destruct c; cbn; try done; [by intros Hp [= <-]|]. case_decide; [|done]. intros Hp [= <-]. cbn. auto.
Qed.

Section ApiKeeps.
Context {E : Type} `{!Machine HandlerCall E} (rt : Runtime) (ok : E → Prop) (w : E → World).
Context `{!Shared (rt_Namespace rt) ok w}.
Abbreviation akeeps F m := (keeps (S:=option (list Link)) (E:=E) (rt_Namespace rt) ok w F m).

Ltac api_step :=
  match goal with
  | |- keeps _ _ _ _ (let '_ := ?x in _) => destruct x
  | |- keeps _ _ _ ?F (hcall ?c) => refine (keeps_call _ _ _ F c _ _); [assumption|done]
  | _ => keeps_step
  end.

Lemma keeps_editCluster F p name f : lasting F →
  (∀ h k, F h → known (rt_Namespace rt) h ((rt_Namespace rt, qualifiedName name (pr_Account p)), k) → owed (rt_Namespace rt) h (f k)) →
  akeeps F (editCluster rt p name f).
Proof.
  intros HF Hf. unfold editCluster. read_kluster.
  set (F' := knowing _ F _). assert (lasting F') as HF' by by apply lasting_knowing.
  refine (keeps_call _ _ _ F' (HUpdate _ _) HF' _). intros h [Hh Hk%Forall_inv] _. by apply Hf.
Qed.

(** Every request, whatever else happens to the store *)
Lemma keeps_Handle F p r : lasting F → (∀ h, F h → Received p r ∈ h) → akeeps F (Handle rt p r).
Proof.
  intros HF Hr. destruct r as [b|name|name b|name| |name|sch host name| |tok| |]; cbn [Handle].
  - unfold CreateCluster. destruct (negb _); [apply keeps_ret|]. cbv zeta.
    destruct (KlusterFor _ _) as [k|e] eqn:Hk; [|apply keeps_panic]. apply KlusterFor_inv in Hk as (Hp & _).
    apply keeps_then; [repeat api_step|]. intros _. apply keeps_then; [|intros; apply keeps_ret].
    apply keeps_attempt. refine (keeps_call _ _ _ F (HCreate _ _) HF _). intros h Hh. cbn.
    split; [by exists p, b; split; [apply Hr|]|]. cbn. rewrite Hp. done.
  - unfold TerminateCluster. apply keeps_then; [repeat api_step|]. intros [k|e]; [|apply keeps_ret].
    destruct (existsb _ _); [apply keeps_ret|]. apply keeps_then; [|intros; apply keeps_ret]. apply keeps_attempt, keeps_editCluster; [done|].
    intros h k' Hh [Hkey [Hc Ht]]. split; [exact Hc|]. intros _. exists p, name. split; [by apply Hr|exact Hkey].
  - unfold UpdateCluster. apply keeps_then; [|intros; apply keeps_ret]. apply keeps_attempt, keeps_editCluster; [done|].
    intros h k' Hh [Hkey Ho]. exact Ho.
  - unfold ShowCluster. repeat api_step.
  - unfold ListClusters. repeat api_step.
  - unfold GetClusterEvents. repeat api_step.
  - unfold GetClusterCredentials, must. repeat api_step.
  - unfold GetClusterInfo, getLinks. repeat api_step.
  - unfold GetOpenstackMetadata. repeat api_step.
  - apply keeps_ret.
  - apply keeps_ret.
Qed.
End ApiKeeps.

(** * The launch controller

    Servers are created for what was created, in the phase Running; they are
    deleted for such a kluster, or for one whose termination was asked for. *)
Definition launch_promise (plane : string) (c : LaunchCall) (h : list asked) : Prop :=
  match c with
  | LOs (OsCreateNode k _ _) => created_by plane h (key_of k) ∧ Phase (Status k) = KlusterPhaseRunning
  | LOs (OsDeleteNode k _) => created_by plane h (key_of k) ∧
      (Phase (Status k) = KlusterPhaseRunning ∨ terminated_by plane h (key_of k))
  | LKlusterUpdate k => owed plane h k
  | _ => True
  end.
#[export] Program Instance launch_promises plane : Promises plane LaunchCall := {| promised := launch_promise plane |}.
Next Obligation.
  intros plane c h h' Hh. pose proof (λ key, created_mono plane h h' key Hh). pose proof (λ key, terminated_mono plane h h' key Hh).
  destruct c as [[]| | | | | |]; cbn; try naive_solver. by apply owed_mono.
Qed.
Next Obligation. intros plane c h o. destruct c; cbn; intros Hp [= <-]; done. Qed.

Section LaunchKeeps.
Context {S E : Type} `{!Machine LaunchCall E} (GitCommit : string) (plane : string) (ok : E → Prop) (w : E → World).
Context `{!Shared plane ok w} (F : list asked → Prop) (HF : lasting F) (k : Kluster) (Hk : ∀ h, F h → owed plane h k).
Abbreviation lkeeps m := (keeps (S:=S) (E:=E) plane ok w F m).

Ltac launch_step :=
  match goal with
  | |- keeps _ _ _ ?G (perform ?c) => refine (keeps_call _ _ _ G c _ _); [assumption|done]
  | |- keeps _ _ _ _ (tel _) => unfold tel
  | |- keeps _ _ _ _ (Eventf _ _ _) => unfold Eventf
  | |- keeps _ _ _ _ (observe _ _ _) => unfold observe
  | _ => keeps_step
  end.

(** What the reconciler needs of a pool manager *)
Class KeptPool (pm : PoolManager (sys S E LaunchCall)) : Prop := {
  kept_status : lkeeps (GetStatus pm);
  kept_set st : lkeeps (SetStatus pm st);
  kept_create : Phase (Status k) = KlusterPhaseRunning → lkeeps (pm_CreateNode pm);
  kept_delete id : Phase (Status k) = KlusterPhaseRunning ∨ Phase (Status k) = KlusterPhaseTerminating → lkeeps (pm_DeleteNode pm id) }.

Lemma newPoolManager_kept pool : KeptPool (newPoolManager GitCommit k pool).
Proof.
  constructor.
  - cbn. unfold instrumented, lpm_GetStatus. cbn. unfold cpm_GetStatus. repeat launch_step.
  - intros st. cbn. unfold instrumented, lpm_SetStatus. repeat (apply keeps_defer; [|intros; repeat launch_step]).
    cbn. unfold cpm_SetStatus. read_kluster. set (F' := knowing plane F _). assert (lasting F') as HF' by by apply lasting_knowing.
    destruct (replace_info _ _) as [infos|]; [|apply keeps_ret]. apply keeps_then; [|intros; apply keeps_ret].
    refine (keeps_call _ _ _ F' (LKlusterUpdate _) HF' _). intros h [_ [_ H]%Forall_inv]. by eapply owed_same; [..|exact H].
  - intros Hp. cbn. unfold instrumented, lpm_CreateNode. cbn. unfold epm_CreateNode. cbn. unfold cpm_CreateNode, GenerateNode. repeat launch_step.
    refine (keeps_call _ _ _ F (LOs (OsCreateNode _ _ _)) HF _). intros h Hh. split; [by apply Hk|done].
  - intros id Hp. cbn. unfold instrumented, lpm_DeleteNode. cbn. unfold epm_DeleteNode. cbn. unfold cpm_DeleteNode. repeat launch_step.
    refine (keeps_call _ _ _ F (LOs (OsDeleteNode _ _)) HF _). intros h Hh. split; [by apply Hk|].
    destruct Hp as [?|?]; [by left|right; by apply Hk].
Qed.

Lemma keeps_reconcile_with pm `{!KeptPool pm} :
  Phase (Status k) = KlusterPhaseRunning ∨ Phase (Status k) = KlusterPhaseTerminating → lkeeps (reconcile_with (Phase (Status k)) pm).
Proof.
  intros Hp. unfold reconcile_with. apply keeps_then; [apply kept_status|]. intros st.
  case_decide as Ht.
  - repeat first [by apply kept_delete|launch_step].
  - destruct Hp as [Hp|]; [|done]. repeat first [by apply kept_create|by apply kept_delete; left|apply kept_set|launch_step].
Qed.

(** A reconciliation with its decorators, whatever else happens to the store *)
Lemma keeps_LaunchController : lkeeps (LaunchController GitCommit k).
Proof.
  unfold LaunchController, InstrumentingReconciler, LoggingReconciler, instrumented. repeat (apply keeps_defer; [|intros; repeat launch_step]).
  unfold LaunchReconcile. case_decide as Hp; [|apply keeps_ret]. apply keeps_for_fold. intros b pool.
  apply keeps_then; [|intros; repeat launch_step]. pose proof (newPoolManager_kept pool). by apply keeps_reconcile_with.
Qed.
End LaunchKeeps.
