(* ===== verification/Cluster.v ===== *)
(** The API, the ground controller and the launch controller at work together.

    A request that is served, a run of the ground controller's handler and a
    reconciliation of the launch controller are threads; any number of them
    make their calls in any order.  A thread is a program of [Handlers],
    [Ground] or [Launch] together with the answers it has got so far: its next
    call is the one the program makes when it gets these answers again.  What
    the other services answer is chosen freely at every call, an answer that
    the store is down included.  Informers catch up with an object at any time.

    Whatever is made or removed was asked for before. *)
From S2P Require Import Prelude GoStrings Models ApiModels Factory Telemetry Metrics WorkQueue Bootstrap Openstack Handlers Ground Ignition Launch Store Lifecycle.

(** * The components and their calls *)
Inductive component := Api | GroundControl | LaunchControl.
Definition call_of (κ : component) : Type :=
  match κ with Api => HandlerCall | GroundControl => GroundCall | LaunchControl => LaunchCall end.
#[export] Instance call_iface κ : Iface (call_of κ) :=
  match κ with Api => handler_iface | GroundControl => ground_iface | LaunchControl => launch_iface end.
#[export] Instance call_component κ : Component (call_of κ) :=
  match κ with Api => api_component | GroundControl => ground_component | LaunchControl => launch_component end.
#[export] Instance call_lawful κ : Lawful (call_of κ).
Proof. destruct κ; [exact api_lawful|exact ground_lawful|exact launch_lawful]. Qed.
#[export] Instance call_promises plane κ : Promises plane (call_of κ) :=
  match κ with Api => api_promises plane | GroundControl => ground_promises plane | LaunchControl => launch_promises plane end.

(** * Threads *)

(** What the services answer to a call at some moment *)
Definition services (C : Type) `{Iface C} : Type := ∀ c : C, reply (resp c).
(** The store and the services at each call a thread has made *)
Definition past (C : Type) `{Iface C} : Type := list (World * services C).

(** The calls are answered from the past; then the thread waits. *)
Definition waiting : error := ErrNew "waiting".
#[export] Instance replay {C} `{Component C} : Machine C (World * past C) := fun c e =>
  match snd e with
  | [] => (e, Bad waiting)
  | (w, out) :: rest => let '(w', r) := store c w (out c) in ((w', rest), r)
  end.

(** * Threads run their programs

    A program that has got one more answer repeats the calls it has made, so a
    thread is a run of its program: the calls in the log are those the program
    makes with the answers it got. *)
Section Causal.
Context {C S : Type} `{Component C} (N : nat) (more : past C).
Abbreviation state := (sys S (World * past C) C).

(** Two runs of which one has [more] answers ahead, in step, [N] calls before
    the shorter past ends; and two runs that have parted after that. *)
Definition in_step (s1 s2 : state) : Prop :=
  mem s1 = mem s2 ∧ trace s1 = trace s2 ∧ fst (env s1) = fst (env s2) ∧ snd (env s2) = snd (env s1) ++ more ∧
  (length (trace s1) + length (snd (env s1)) = N)%nat.
Definition parted (s1 s2 : state) : Prop := ∃ l l1 l2, length l = Datatypes.S N ∧ trace s1 = l ++ l1 ∧ trace s2 = l ++ l2.
Record causal {A} (m : Go state A) : Prop := {
  causal_grows s : ∃ l, trace (fst (m s)) = trace s ++ l;
  causal_step s1 s2 : in_step s1 s2 →
    (snd (m s1) = snd (m s2) ∧ in_step (fst (m s1)) (fst (m s2))) ∨ parted (fst (m s1)) (fst (m s2)) }.

Lemma parted_grows {A1 A2} (m1 : Go state A1) (m2 : Go state A2) s1 s2 : causal m1 → causal m2 → parted s1 s2 → parted (fst (m1 s1)) (fst (m2 s2)).
Proof.
  intros [H1 _] [H2 _] (l & l1 & l2 & Hl & E1 & E2). unfold parted. destruct (H1 s1) as [k1 ->], (H2 s2) as [k2 ->].
  exists l, (l1 ++ k1), (l2 ++ k2). by rewrite E1, E2, !app_assoc.
Qed.

Lemma causal_pure {A} (m : Go state A) o : (∀ s, m s = (s, o)) → causal m.
Proof. intros Hm. split; [intros s; exists []; by rewrite Hm, app_nil_r|]. intros s1 s2 Hs. left. by rewrite !Hm. Qed.
Lemma causal_ret {A} (a : A) : causal (mret a).
Proof. by eapply causal_pure. Qed.
Lemma causal_fail {A} e : causal (A:=A) (fail e).
Proof. by eapply causal_pure. Qed.
Lemma causal_panic {A} e : causal (A:=A) (panic e).
Proof. by eapply causal_pure. Qed.
Lemma causal_lift {A} (r : reply A) : causal (lift_reply r).
Proof. by eapply causal_pure. Qed.
Lemma causal_get : causal (get_mem (S:=S)).
Proof.
  split; [intros s; exists []; cbn; by rewrite app_nil_r|]. intros s1 s2 Hs. left. split; [|done]. cbn. f_equal. by destruct Hs.
Qed.
Lemma causal_set m : causal (set_mem (S:=S) m).
Proof. split; [intros s; exists []; cbn; by rewrite app_nil_r|]. intros s1 s2 (_ & Ht & Hs). left. by split; [|split]. Qed.
Lemma causal_perform (c : C) : causal (perform (S:=S) c).
Proof.
  split.
  - intros s. exists [c]. unfold perform. by destruct (answer c (env s)).
  - intros [m1 [w1 p1] t1] [m2 [w2 p2] t2] (Hm & Ht & Hw & Hp & HN). unfold perform, answer, replay. cbn [mem trace env fst snd] in *. subst.
    destruct p1 as [|[w out] rest]; cbn [app].
    + right. exists (t2 ++ [c]), [], []. rewrite length_app. cbn in *. split; [lia|]. rewrite !app_nil_r. split; [done|].
      destruct more as [|[w out] rest]; [done|]. cbn. by destruct (store c w (out c)).
    + left. destruct (store c w (out c)) as [w' r]. split; [done|]. split; [done|]. cbn. split_and!; [done..|]. rewrite length_app. cbn in *. lia.
Qed.
(** Computations one after the other; the second sees the outcome of the first. *)
Lemma causal_seq {A B} (m : Go state A) (k : outcome A → Go state B) (n : Go state B) :
  (∀ s, n s = k (snd (m s)) (fst (m s))) → causal m → (∀ o, causal (k o)) → causal n.
Proof.
  intros Hn Hm Hk. split.
  - intros s. rewrite Hn. destruct (causal_grows _ Hm s) as [l Hl], (causal_grows _ (Hk (snd (m s))) (fst (m s))) as [l' ->].
    exists (l ++ l'). by rewrite Hl, app_assoc.
  - intros s1 s2 Hs. rewrite !Hn. destruct (causal_step _ Hm s1 s2 Hs) as [[-> Hs']|Hp].
    + by apply causal_step.
    + right. by apply parted_grows.
Qed.
Lemma causal_bind {A B} (m : Go state A) (f : A → Go state B) : causal m → (∀ a, causal (f a)) → causal (m ≫= f).
Proof.
  intros Hm Hf. apply (causal_seq m (λ o, match o with Ret a => f a | Fail e => fail e | Panic x => panic x end)); [|done|].
  - intros s. unfold mbind, go_bind. by destruct (m s) as [s' []].
  - intros [a|e|x]; [apply Hf|apply causal_fail|apply causal_panic].
Qed.
Lemma causal_attempt {A} (m : Go state A) : causal m → causal (attempt m).
Proof.
  intros Hm. apply (causal_seq m (λ o, match o with Ret a => mret (Ok a) | Fail e => mret (Bad e) | Panic x => panic x end)); [|done|].
  - intros s. unfold attempt. by destruct (m s) as [s' []].
  - intros [a|e|x]; [apply causal_ret..|apply causal_panic].
Qed.
Lemma causal_defer {A} (f : outcome A → Go state unit) (m : Go state A) : causal m → (∀ o, causal (f o)) → causal (defer f m).
Proof.
  intros Hm Hf.
  apply (causal_seq m (λ o s, let '(s', o2) := f o s in (s', match o2 with Panic x => Panic x | _ => o end))); [|done|].
  - intros s. unfold defer. by destruct (m s) as [s' o].
  - intros o. apply (causal_seq (f o) (λ o2 s, (s, match o2 with Panic x => Panic x | _ => o end))); [|done|].
    + intros s. by destruct (f o s).
    + intros o2. by eapply causal_pure.
Qed.
Lemma causal_for_each {A} (f : A → Go state unit) l : (∀ x, causal (f x)) → causal (for_each f l).
Proof. intros Hf. induction l as [|x l IH]; cbn; [apply causal_ret|]. by apply causal_bind. Qed.
Lemma causal_for_fold {A B} (f : B → A → Go state B) b l : (∀ b x, causal (f b x)) → causal (for_fold f b l).
Proof. intros Hf. revert b. induction l as [|x l IH]; intros b; cbn; [apply causal_ret|]. by apply causal_bind. Qed.
End Causal.

Ltac causal_step :=
  match goal with
  | |- causal _ _ (match ?x with _ => _ end) => destruct x
  | |- causal _ _ (mret _) => apply causal_ret
  | |- causal _ _ (fail _) => apply causal_fail
  | |- causal _ _ (panic _) => apply causal_panic
  | |- causal _ _ (lift_reply _) => apply causal_lift
  | |- causal _ _ get_mem => apply causal_get
  | |- causal _ _ (set_mem _) => apply causal_set
  | |- causal _ _ (attempt _) => apply causal_attempt
  | |- causal _ _ (defer _ _) => apply causal_defer; [|intros ?]
  | |- causal _ _ (for_each _ _) => apply causal_for_each; intros ?
  | |- causal _ _ (for_fold _ _ _) => apply causal_for_fold; intros ? ?
  | |- causal _ _ (_ ≫= _) => apply causal_bind; [|intros ?]
  | |- causal _ _ (emit _) => unfold emit
  | |- causal _ _ (hcall ?c) => exact (causal_perform _ _ c)
  | |- causal _ _ (gcall ?c) => exact (causal_perform _ _ c)
  | |- causal _ _ (seed ?c) => exact (causal_perform _ _ (GSeed c))
  | |- causal _ _ (perform ?c) => exact (causal_perform _ _ c)
  end.

Section Programs.
Context (N : nat).
Lemma causal_Handle rt more p r : causal N more (@Handle _ replay rt p r).
Proof.
  destruct r; cbn [Handle]; unfold CreateCluster, TerminateCluster, UpdateCluster, ShowCluster, ListClusters, GetClusterEvents,
    GetClusterCredentials, GetClusterInfo, getLinks, GetOpenstackMetadata, Info, ListAPIVersions, editCluster, must; cbv zeta; repeat causal_step.
Qed.

Abbreviation gcausal more m := (causal (C:=GroundCall) (S:=unit) N more m).
Lemma causal_Poll more fuel m : gcausal more m → gcausal more (Poll fuel m).
Proof. intros Hm. induction fuel as [|fuel IH]; cbn [Poll]; repeat first [exact Hm|exact IH|causal_step]. Qed.
Lemma causal_SeedKluster more k : gcausal more (SeedKluster seed k).
Proof.
  assert (∀ w w' o, gcausal more (CreateOrUpdate seed w w' o)) as Hc by (intros; unfold CreateOrUpdate; repeat causal_step).
  unfold SeedKluster, SeedKubeDNS, SeedAutoApproveNodeBootstrapTokens, createKubeDNSDeployment, createKubeDNSService,
    getKubeDNSDeployment, getKubeDNSService, createKubeDNSServiceAccount, CreateOrUpdateServiceAccount.
  repeat first [apply Hc|causal_step].
Qed.
Lemma causal_handler more config key : gcausal more (@handler unit _ replay config key).
Proof.
  unfold handler, handle_pending, handle_creating, handle_terminating, SetMetricKlusterInfo, SetMetricKlusterStatusPhase,
    SetMetricKlusterTerminated, set_gauge, emit, or_event, discoverOpenstackInfo, discoverKubernikusInfo, createKluster, PVAccessMode,
    GenerateBootstrapToken, KlusterToHelmValues, wrap, terminateKluster, WaitForKlusterDeletion, WaitForKluster, updatePhase; cbv zeta.
  repeat first [apply causal_Poll|apply causal_SeedKluster|causal_step].
Qed.

Lemma causal_LaunchController more GitCommit k :
  causal (S:=unit) N more (@LaunchController unit _ replay GitCommit k).
Proof.
  unfold LaunchController, InstrumentingReconciler, LoggingReconciler, LaunchReconcile, reconcilePool, reconcile_with, newPoolManager.
  unfold InstrumentingPoolManager, instrumented. cbn [GetStatus SetStatus pm_CreateNode pm_DeleteNode].
  unfold LoggingPoolManager, lpm_GetStatus, lpm_SetStatus, lpm_CreateNode, lpm_DeleteNode. cbn [GetStatus SetStatus pm_CreateNode pm_DeleteNode].
  unfold EventingPoolManager, epm_CreateNode, epm_DeleteNode. cbn [GetStatus SetStatus pm_CreateNode pm_DeleteNode].
  unfold ConcretePoolManager, cpm_GetStatus, cpm_SetStatus, cpm_CreateNode, cpm_DeleteNode, GenerateNode, observe, tel, Eventf.
  cbn [GetStatus SetStatus pm_CreateNode pm_DeleteNode]. repeat causal_step.
Qed.
End Programs.

(** * The cluster *)

(** A request is served with the links the process has cached; a handler is
    run on a key; a kluster is reconciled as the cache had it. *)
Inductive task : component → Type :=
| Serve (p : Principal) (r : request) (links : option (list Link)) : task Api
| WorkOn (key : string) : task GroundControl
| Scale (k : Kluster) : task LaunchControl.

Record thread := Thread { th_kind : component; th_task : task th_kind; th_born : World; th_past : past (call_of th_kind) }.

Inductive event := Asked (a : asked) | Called (i : nat) (κ : component) (c : call_of κ).
Definition requests (l : list event) : list asked := omap (λ e, match e with Asked a => Some a | Called _ _ _ => None end) l.

Record Cluster := { cl_world : World; cl_threads : list thread; cl_log : list event }.

(** A request arrives, the informer catches up with an object, a controller
    takes a key, or a thread makes its next call. *)
Inductive choice :=
| Request (p : Principal) (r : request) (links : option (list Link))
| Sync (key : object_key)
| Wake (key : string)
| Rescale (key : string)
| Turn (i : nat) (out : ∀ κ, services (call_of κ)).

Section Cluster.
Context (rt : Runtime) (config : Config) (GitCommit : string).
Abbreviation plane := (rt_Namespace rt).

(** The calls of a task on a machine *)
Definition calls {κ} (t : task κ) {E} : Machine (call_of κ) E → E → list (call_of κ) :=
  match t in task κ return Machine (call_of κ) E → E → list (call_of κ) with
  | Serve p r links => λ m e, trace (fst (@Handle E m rt p r (Sys links e [])))
  | WorkOn key => λ m e, trace (fst (@handler unit E m config key (Sys tt e [])))
  | Scale k => λ m e, trace (fst (@LaunchController unit E m GitCommit k (Sys tt e [])))
  end.
Definition next_call (t : thread) : option (call_of (th_kind t)) :=
  calls (th_task t) replay (th_born t, th_past t) !! length (th_past t).

Definition spawn {κ} (t : task κ) (cl : Cluster) : Cluster :=
  {| cl_world := cl_world cl; cl_threads := cl_threads cl ++ [Thread κ t (cl_world cl) []]; cl_log := cl_log cl |}.
Definition with_world (w : World) (cl : Cluster) : Cluster :=
  {| cl_world := w; cl_threads := cl_threads cl; cl_log := cl_log cl |}.
Definition log (ev : event) (cl : Cluster) : Cluster :=
  {| cl_world := cl_world cl; cl_threads := cl_threads cl; cl_log := cl_log cl ++ [ev] |}.
Definition move (ch : choice) (cl : Cluster) : Cluster :=
  match ch with
  | Request p r links =>
      spawn (Serve p r links) (log (Asked (Received p r)) (with_world (receive (Received p r) (cl_world cl)) cl))
  | Sync key => with_world (sync key (cl_world cl)) cl
  | Wake key => spawn (WorkOn key) cl
  | Rescale key => match w_cache (cl_world cl) !! key with Some k => spawn (Scale k) cl | None => cl end
  | Turn i out =>
      match cl_threads cl !! i with
      | Some t =>
          match next_call t with
          | Some c =>
              let w := cl_world cl in
              {| cl_world := fst (store c w (out (th_kind t) c));
                 cl_threads := <[i := Thread (th_kind t) (th_task t) (th_born t) (th_past t ++ [(w, out (th_kind t))])]> (cl_threads cl);
                 cl_log := cl_log cl ++ [Called i (th_kind t) c] |}
          | None => cl
          end
      | None => cl
      end
  end.
Definition run (choices : list choice) (cl : Cluster) : Cluster := fold_left (λ cl ch, move ch cl) choices cl.
Definition start : Cluster := {| cl_world := empty_world; cl_threads := []; cl_log := [] |}.

(** * What every thread may rely on

    The worlds of its past were consistent and the requests only became more,
    up to the requests [now] received so far. *)
Fixpoint witnessed {C} `{Iface C} (now : list asked) (w : World) (p : past C) : Prop :=
  match p with
  | [] => w_history w ⊆ now
  | (m, _) :: rest => consistent plane m ∧ w_history w ⊆ w_history m ∧ witnessed now m rest
  end.
Lemma witnessed_history {C} `{Iface C} now w w' (p : past C) : w_history w' ⊆ w_history w → witnessed now w p → witnessed now w' p.
Proof. intros Hw. destruct p as [|[m out] rest]; cbn; [by intros; etrans|]. intros (? & ? & ?). split_and!; [done|by etrans|done]. Qed.
Lemma witnessed_mono {C} `{Iface C} now now' w (p : past C) : now ⊆ now' → witnessed now w p → witnessed now' w p.
Proof. intros HH. revert w. induction p as [|[m out] rest IH]; intros w; cbn; [by intros; etrans|]. intros (? & ? & ?). auto. Qed.
Lemma witnessed_end {C} `{Iface C} now w (p : past C) : witnessed now w p → w_history w ⊆ now.
Proof. revert w. induction p as [|[m out] rest IH]; intros w; cbn; [done|]. intros (_ & ? & ?%IH). by etrans. Qed.
Lemma witnessed_snoc {C} `{Iface C} now w (p : past C) m out : consistent plane m → w_history m = now →
  witnessed now w p → witnessed now w (p ++ [(m, out)]).
Proof. intros Hm HH. revert w. induction p as [|[m' out'] rest IH]; intros w; cbn; [by rewrite HH|]. intros (? & ? & ?). auto. Qed.

Definition replaying {C} `{Iface C} (now : list asked) (e : World * past C) : Prop := witnessed now (fst e) (snd e).
#[export] Instance replay_shared {C} `{Lawful C} `{!Promises plane C} now : Shared plane (C:=C) (replaying now) fst.
Proof.
  intros c [w p] [w' p'] r Hok. unfold answer, replay. cbn [fst snd]. destruct p as [|[m out] rest].
  - intros [= <- <- <-]. split; [done|]. exists w. split; [done|]. split; [by left|done].
  - destruct Hok as (Hm & Hh & Hrest). pose proof (store_served c m (out c)) as [Hw Hr].
    destruct (store c m (out c)) as [w1 r1]. intros [= <- <- <-]. split.
    + refine (witnessed_history _ m _ _ _ Hrest). cbn [fst] in *. by destruct Hw as [->|(o & _ & ->)].
    + exists m. split; [done|]. by split.
Qed.

(** What is known when a task begins *)
Definition founded {κ} (t : task κ) (h : list asked) : Prop :=
  match t with Serve p r _ => Received p r ∈ h | WorkOn _ => True | Scale k => owed plane h k end.
Lemma founded_lasting {κ} (t : task κ) : lasting (founded t).
Proof. destruct t; intros h h' Hh; cbn; [set_solver|done|by apply owed_mono]. Qed.

(** Every call of a task is promised, however far its past goes. *)
Lemma calls_promised {κ} (t : task κ) now w p : consistent plane w → founded t (w_history w) → witnessed now w p →
  Forall (λ c, promised plane c now) (calls t replay (w, p)).
Proof.
  intros Hw Ht Hp.
  assert (∀ S (s' : sys S (World * past (call_of κ)) (call_of κ)), going plane (C:=call_of κ) (replaying now) fst [] (founded t) s' →
    Forall (λ c, promised plane c now) (trace s')) as Hend.
  { intros S s' ([Hok _] & _ & l & -> & Hl). eapply Forall_impl; [exact Hl|]. intros c. apply promised_mono. by eapply witnessed_end. }
  assert (∀ S (m : S), going plane (C:=call_of κ) (replaying now) fst [] (founded t) (Sys m (w, p) [])) as Hgo.
  { intros S m. split; [done|]. split; [done|]. by exists []. }
  pose proof (founded_lasting t) as HF. destruct t as [q r links|key|k]; cbn [calls]; apply Hend.
  - pose proof (keeps_Handle rt (replaying (C:=HandlerCall) now) fst _ q r HF (λ h Hh, Hh) [] _ (Hgo _ links)) as Hk.
    destruct (Handle _ _ _ _) as [s' o] eqn:He. exact (wp_elim _ _ _ _ _ Hk He).
  - pose proof (keeps_handler config plane (replaying (C:=GroundCall) now) fst _ key HF [] _ (Hgo _ tt)) as Hk.
    destruct (handler _ _ _) as [s' o] eqn:He. exact (wp_elim _ _ _ _ _ Hk He).
  - pose proof (keeps_LaunchController GitCommit plane (replaying (C:=LaunchCall) now) fst _ HF k (λ h Hh, Hh) [] _ (Hgo _ tt)) as Hk.
    destruct (LaunchController _ _ _) as [s' o] eqn:He. exact (wp_elim _ _ _ _ _ Hk He).
Qed.

(** * The invariant of the cluster *)

(** A call is promised given the requests before it. *)
Definition in_order (l : list event) : Prop :=
  ∀ l1 i κ (c : call_of κ) l2, l = l1 ++ Called i κ c :: l2 → promised plane c (requests l1).
Definition thread_fine (now : list asked) (t : thread) : Prop :=
  consistent plane (th_born t) ∧ founded (th_task t) (w_history (th_born t)) ∧ witnessed now (th_born t) (th_past t).
Record Inv (cl : Cluster) : Prop := {
  inv_history : requests (cl_log cl) = w_history (cl_world cl);
  inv_world : consistent plane (cl_world cl);
  inv_threads : Forall (thread_fine (w_history (cl_world cl))) (cl_threads cl);
  inv_order : in_order (cl_log cl) }.

Lemma in_order_snoc l ev : in_order l → match ev with Asked _ => True | Called _ κ c => promised plane c (requests l) end → in_order (l ++ [ev]).
Proof.
  intros Hl Hev l1 i κ c l2 Heq. destruct l2 as [|ev' l2' _] using rev_ind.
  - apply app_inj_tail in Heq as [-> ->]. exact Hev.
  - rewrite app_comm_cons, app_assoc in Heq. apply app_inj_tail in Heq as [-> _]. by eapply Hl.
Qed.
Lemma requests_app l1 l2 : requests (l1 ++ l2) = requests l1 ++ requests l2.
Proof. apply omap_app. Qed.

Lemma spawn_inv {κ} (t : task κ) cl : Inv cl → founded t (w_history (cl_world cl)) → Inv (spawn t cl).
Proof.
  intros [Hh Hw Ht Ho] Hf. constructor; cbn; [done|done| |done]. apply Forall_app. split; [done|]. constructor; [|done]. split; [done|]. split; [done|]. cbn. done.
Qed.
Lemma move_inv ch cl : Inv cl → Inv (move ch cl).
Proof.
  intros HI. pose proof HI as [Hh Hw Ht Ho]. destruct ch as [p r links|key|key|key|i out]; cbn [move].
  - apply spawn_inv; [|cbn; set_solver]. constructor; cbn.
    + by rewrite requests_app, Hh.
    + by apply receive_consistent.
    + eapply Forall_impl; [exact Ht|]. intros t (? & ? & H1). split; [done|]. split; [done|]. refine (witnessed_mono _ _ _ _ _ H1). set_solver.
    + by apply in_order_snoc.
  - constructor; cbn; [done|by apply sync_consistent|done|done].
  - by apply spawn_inv.
  - destruct (w_cache _ !! key) as [k|] eqn:Hk; [|done]. apply spawn_inv; [done|]. by eapply (proj2 Hw).
  - destruct (cl_threads cl !! i) as [t|] eqn:Hi; [|done]. destruct (next_call t) as [c|] eqn:Hc; [|done].
    assert (thread_fine (w_history (cl_world cl)) t) as (Hb & Hf & Hp) by by eapply Forall_lookup_1.
    assert (promised plane c (w_history (cl_world cl))) as Hpr.
    { unfold next_call in Hc. pose proof (calls_promised _ _ _ _ Hb Hf Hp) as Hall. by eapply Forall_lookup_1 in Hall. }
    pose proof (store_served c (cl_world cl) (out (th_kind t) c)) as [Hs _].
    set (w' := fst (store c _ _)) in *. assert (consistent plane w' ∧ w_history w' = w_history (cl_world cl)) as [Hw' Hh'].
    { destruct Hs as [->|(o & Hwo & ->)]; [done|]. split; [|done]. apply apply_consistent; [done|]. by eapply promised_allows. }
    constructor; cbn.
    + rewrite requests_app, Hh, Hh'. cbn. by rewrite app_nil_r.
    + done.
    + rewrite Hh'. apply Forall_insert; [done|]. split; [done|]. split; [done|]. by apply witnessed_snoc.
    + apply in_order_snoc; [done|]. by rewrite Hh.
Qed.
Lemma run_inv choices cl : Inv cl → Inv (run choices cl).
Proof. revert cl. induction choices as [|ch l IH]; intros cl HI; [done|]. by apply IH, move_inv. Qed.

(** ** The log is made of runs of the programs *)

(** The calls of a thread in the log *)
Definition calls_of (i : nat) (l : list event) : list {κ & call_of κ} :=
  omap (λ ev, match ev with Called j κ c => if decide (j = i) then Some (existT κ c) else None | Asked _ => None end) l.
Definition made (t : thread) : list (call_of (th_kind t)) :=
  take (length (th_past t)) (calls (th_task t) replay (th_born t, th_past t)).

Lemma causal_take {C S A} `{Component C} (m : Go (sys S (World * past C) C) A) mem w p more : causal (length p) more m →
  take (Datatypes.S (length p)) (trace (fst (m (Sys mem (w, p ++ more) [])))) =
  take (Datatypes.S (length p)) (trace (fst (m (Sys mem (w, p) [])))).
Proof.
  intros Hm. destruct (causal_step _ _ m Hm (Sys mem (w, p) []) (Sys mem (w, p ++ more) [])) as [(_ & _ & <- & _)|(l & l1 & l2 & Hl & -> & ->)].
  - by split_and!.
  - done.
  - by rewrite <- Hl, !take_app_length.
Qed.
Lemma calls_stable {κ} (t : task κ) w p more :
  take (S (length p)) (calls t replay (w, p ++ more)) = take (S (length p)) (calls t replay (w, p)).
Proof.
  destruct t as [q r links|key|k]; cbn [calls].
  - exact (causal_take (@Handle _ replay rt q r) links w p more (causal_Handle _ rt more q r)).
  - exact (causal_take (@handler unit _ replay config key) tt w p more (causal_handler _ more config key)).
  - exact (causal_take (@LaunchController unit _ replay GitCommit k) tt w p more (causal_LaunchController _ more GitCommit k)).
Qed.
Lemma made_next (t : thread) c w out : next_call t = Some c →
  made (Thread (th_kind t) (th_task t) (th_born t) (th_past t ++ [(w, out)])) = made t ++ [c].
Proof.
  intros Hc. unfold made. cbn [th_kind th_task th_born th_past]. rewrite length_app. cbn [length]. rewrite Nat.add_1_r.
  etrans; [exact (calls_stable (th_task t) (th_born t) (th_past t) [(w, out)])|]. by apply take_S_r.
Qed.

Definition recorded (cl : Cluster) : Prop := ∀ i,
  calls_of i (cl_log cl) = match cl_threads cl !! i with Some t => existT (th_kind t) <$> made t | None => [] end.
Lemma calls_of_app i l1 l2 : calls_of i (l1 ++ l2) = calls_of i l1 ++ calls_of i l2.
Proof. apply omap_app. Qed.
Lemma spawn_recorded {κ} (t : task κ) cl : recorded cl → recorded (spawn t cl).
Proof.
  intros Hr i. rewrite Hr. cbn. rewrite lookup_app. destruct (cl_threads cl !! i) as [t'|] eqn:Hi; [done|].
  destruct (_ - _)%nat as [|n]; [done|]. by destruct n.
Qed.
Lemma move_recorded ch cl : recorded cl → recorded (move ch cl).
Proof.
  intros Hr. destruct ch as [p r links|key|key|key|i out]; cbn [move]; [|done|by apply spawn_recorded| |].
  - apply spawn_recorded. intros i. unfold log. cbn [cl_log cl_threads with_world]. rewrite calls_of_app, Hr. apply app_nil_r.
  - destruct (w_cache _ !! key); [by apply spawn_recorded|done].
  - destruct (cl_threads cl !! i) as [t|] eqn:Hi; [|done]. destruct (next_call t) as [c|] eqn:Hc; [|done].
    intros j. cbn [cl_log cl_threads]. rewrite calls_of_app, Hr. unfold calls_of at 1. cbn [omap list_omap].
    case_decide as Hj; [subst j|].
    + rewrite Hi, list_lookup_insert_eq by (by eapply lookup_lt_Some). by rewrite (made_next t c _ _ Hc), fmap_app.
    + rewrite app_nil_r. by rewrite list_lookup_insert_ne.
Qed.

(** The calls of a thread in the log are the first calls of its program, run
    with the answers the thread got. *)
Theorem threads_run choices i t : cl_threads (run choices start) !! i = Some t →
  calls_of i (cl_log (run choices start)) = existT (th_kind t) <$> made t.
Proof.
  intros Hi. assert (∀ cl, recorded cl → recorded (run choices cl)) as Hall.
  { clear Hi. unfold run. induction choices as [|ch l IH]; intros cl Hr; [done|]. by apply IH, move_recorded. }
  rewrite (Hall start); [by rewrite Hi|]. intros j. by destruct j.
Qed.

End Cluster.

(** * A concrete life

    A kluster is created, brought up, given its server and terminated.  The same
    calls in other orders lose the termination, or leave a server behind. *)
Definition demo_ground (c : GroundCall) : reply (resp c) :=
  match c return reply (resp c) with
  | GOs (OsGetRouters _) =>
      Ok [{| rt_ID := "router"; rt_Networks := [{| nw_ID := "network"; nw_Subnets := [{| sn_ID := "subnet"; sn_CIDR := "10.180.0.0/16" |}] |}] |}]
  | GOs (OsGetSecurityGroupID _ _) => Ok "default-sg"
  | GOs OsGetKubernikusCatalogEntry => Ok "https://kubernikus"
  | GOs OsGetRegion => Ok "region"
  | GOs (OsCreateKlusterServiceUser _ _ _ _) | GOs (OsDeleteUser _ _) => Ok tt
  | GKlusterGet _ _ => Ok demo_kluster
  | GKlusterUpdate _ | GKlusterDelete _ _ => Ok tt
  | GSecretGet _ _ => Ok {["openstack-username" := "kubernikus-k-a1"; "openstack-domain-name" := "kubernikus"]}
  | GCacheGet _ => Ok None
  | GPodsOf name => Ok (repeat {| pod_Namespace := "kubernikus"; pod_Name := name; pod_Labels := ∅;
                               Conditions := [{| pc_Type := "Ready"; pc_Status := "True" |}] |} 4)
  | GStorageClasses => Ok ["cinder"]
  | GCreateCertificates _ _ _ _ => Ok ∅
  | GBootstrapToken => Ok "token"
  | GRandomPassword => Ok "password"
  | GMarshal _ => Ok "values"
  | GInstallRelease _ _ _ _ | GDeleteRelease _ => Ok tt
  | GClientFor _ => Ok tt
  | GSeed c => match c return reply (resp c) with SDecode t => Ok ("kube-dns", t) | _ => Ok tt end
  | GTick => Ok true
  | _ => Bad (ErrNew "unused")
  end.
Definition demo_api_out (c : HandlerCall) : reply (resp c) :=
  match c return reply (resp c) with
  | HGet _ _ | HCreate _ _ | HUpdate _ _ => Ok demo_kluster
  | HNamespaceGet _ => Ok tt
  | _ => Bad (ErrNew "unused")
  end.
Definition demo_out (nodes : list Node) (κ : component) : services (call_of κ) :=
  match κ return services (call_of κ) with
  | Api => demo_api_out
  | GroundControl => demo_ground
  | LaunchControl => λ c, snd (demo_nova nodes c tt)
  end.
Definition demo_key : object_key := ("kubernikus", "k-a1").
(** The threads take turns; the informer is up to date at every turn. *)
Definition turns (nodes : list Node) (n : nat) (threads : list nat) : list choice :=
  concat (repeat (Sync demo_key :: ((λ i, Turn i (demo_out nodes)) <$> threads)) n).
Definition demo_ask (r : request) : choice := Request (demo_p "a1") r None.
Definition demo_wake : choice := Wake "kubernikus/k-a1".
Definition demo_rescale : choice := Rescale "kubernikus/k-a1".
Definition demo_run (choices : list choice) : Cluster :=
  run demo_rt {| cf_Domain := "domain"; cf_AuthURL := "auth"; cf_ChartDirectory := "charts" |} "commit" choices start.
Definition kind_of (ev : event) : string :=
  match ev with
  | Asked (Received _ (RCreate _)) => "creation asked for"
  | Asked (Received _ (RTerminate _)) => "termination asked for"
  | Asked _ => "other request"
  | Called _ GroundControl (GOs (OsCreateKlusterServiceUser _ _ _ _)) => "user created"
  | Called _ GroundControl (GOs (OsDeleteUser _ _)) => "user deleted"
  | Called _ GroundControl (GInstallRelease _ _ _ _) => "release installed"
  | Called _ GroundControl (GDeleteRelease _) => "release deleted"
  | Called _ GroundControl (GKlusterDelete _ _) => "kluster deleted"
  | Called _ LaunchControl (LOs (OsCreateNode _ _ _)) => "server created"
  | Called _ LaunchControl (LOs (OsDeleteNode _ _)) => "server deleted"
  | _ => ""
  end.
Definition story (cl : Cluster) : list string := List.filter (λ x, negb (bool_decide (x = ""))) (kind_of <$> cl_log cl).

(** The request to create is thread 0, the ground controller works as threads 1 to 4. *)
Definition demo_up : list choice :=
  demo_ask (RCreate demo_body) :: turns [] 10 [0] ++ concat ((λ i, demo_wake :: turns [] 30 [i]) <$> [1; 2; 3; 4]).
Definition demo_server : Node := {| nd_ID := "new"; TaskState := ""; VMState := "active"; PowerState := 1 |}.
Example demo_life :
  let cl := demo_run (demo_up ++ demo_rescale :: turns [] 30 [5] ++ demo_ask (RTerminate "k") :: turns [] 10 [6] ++
                      demo_rescale :: turns [demo_server] 30 [7] ++ demo_wake :: turns [] 60 [8]) in
  story cl = ["creation asked for"; "user created"; "release installed"; "server created"; "termination asked for";
              "server deleted"; "user deleted"; "release deleted"; "kluster deleted"] ∧
  w_stored (cl_world cl) = ∅.
Proof. split; vm_compute; reflexivity. Qed.

(** A reconciliation that began before the kluster was terminated creates its
    server after that; when the ground controller is done before the next
    reconciliation, nothing knows of the server any more. *)
Example demo_orphan :
  let cl := demo_run (demo_up ++ demo_rescale :: demo_ask (RTerminate "k") :: turns [] 10 [6] ++ turns [] 30 [5] ++
                      demo_wake :: turns [] 60 [7] ++ demo_rescale :: turns [demo_server] 30 [8]) in
  story cl = ["creation asked for"; "user created"; "release installed"; "termination asked for"; "server created";
              "user deleted"; "release deleted"; "kluster deleted"] ∧
  w_stored (cl_world cl) = ∅.
Proof. split; vm_compute; reflexivity. Qed.

(** The termination is answered with success while the ground controller sets
    the phase, which overwrites it: the kluster runs and is never terminated. *)
Example demo_lost :
  let cl := demo_run (demo_ask (RCreate demo_body) :: turns [] 10 [0] ++ concat ((λ i, demo_wake :: turns [] 30 [i]) <$> [1; 2]) ++
                      demo_wake :: turns [] 8 [3] ++ demo_ask (RTerminate "k") :: turns [] 10 [4] ++ turns [] 30 [3] ++
                      concat ((λ i, demo_wake :: turns [] 30 [i]) <$> [5; 6])) in
  story cl = ["creation asked for"; "termination asked for"; "user created"; "release installed"] ∧
  (λ k, Phase (Status k)) <$> (w_stored (cl_world cl) !! demo_key) = Some KlusterPhaseRunning.
Proof. split; vm_compute; reflexivity. Qed.
