(* ===== verification/Clientset.v ===== *)
(** [pkg/generated]: the clientset, the lister and the informer factory of the
    custom resource.

    [Handlers], [Ground] and [Launch] call the API server by calls such as
    [HGet] and [GKlusterUpdate].  In the program these are requests that the
    generated client builds on client-go's request builder.  This file
    translates both and proves that, sent to an API server that routes a
    request by its path, they do what the calls stand for. *)
From S2P Require Import Prelude GoStrings Models ApiModels Factory Telemetry Metrics WorkQueue Bootstrap Openstack Handlers Ground Store.

(** * Requests

    The body of a request, before it is encoded *)
Record DeleteOptions := {
  GracePeriodSeconds : option Z; Preconditions : option string; OrphanDependents : option bool;
  PropagationPolicy : option string }.
Inductive RestBody := BodyKluster (k : Kluster) | BodyBytes (data : string) | BodyOptions (o : DeleteOptions).

(** The fields of a request that its methods set; an error is kept until the
    request is sent.
    [Request], src/vendor/k8s.io/client-go/rest/request.go:84-118 *)
Record Request := {
  q_verb : string; q_pathPrefix : string;
  q_namespace : string; q_namespaceSet : bool; q_resource : string; q_resourceName : string; q_subresource : string;
  q_params : list (string * string); q_body : option RestBody; q_err : option error }.

Definition q_fail (err : error) (r : Request) : Request :=
  {| q_verb := q_verb r; q_pathPrefix := q_pathPrefix r; q_namespace := q_namespace r; q_namespaceSet := q_namespaceSet r;
     q_resource := q_resource r; q_resourceName := q_resourceName r; q_subresource := q_subresource r;
     q_params := q_params r; q_body := q_body r; q_err := Some err |}.
(** A method does nothing after an error. *)
Definition unless_failed (r : Request) (r' : Request) : Request := match q_err r with Some _ => r | None => r' end.

(** [IsValidPathSegmentName], src/vendor/k8s.io/client-go/rest/request.go:1213-1228 *)
Definition IsValidPathSegmentName (name : string) : list string :=
  if decide (name = ".") then ["may not be '.'"]
  else if decide (name = "..") then ["may not be '..'"]
  else (if str_has slash name then ["may not contain '/'"] else []) ++
       (if str_has "%"%char name then ["may not contain '%'"] else []).
Definition valid_segment (name : string) : bool := bool_decide (IsValidPathSegmentName name = []).
Definition invalid (what name : string) : error :=
  ErrNew ("invalid " +:+ what +:+ " " +:+ quoted name +:+ ": [" +:+ Join (IsValidPathSegmentName name) " " +:+ "]").

(** [NewRequest], src/vendor/k8s.io/client-go/rest/request.go:121-147 *)
Definition NewRequest (verb basePath versionedAPIPath : string) : Request :=
  {| q_verb := verb; q_pathPrefix := path_Join (path_Join "/" basePath) versionedAPIPath;
     q_namespace := ""; q_namespaceSet := false; q_resource := ""; q_resourceName := ""; q_subresource := "";
     q_params := []; q_body := None; q_err := None |}.

(** [Request.Resource], src/vendor/k8s.io/client-go/rest/request.go:170-184 *)
Definition q_Resource (resource : string) (r : Request) : Request := unless_failed r
  (if decide (q_resource r ≠ "") then
     q_fail (ErrNew ("resource already set to " +:+ quoted (q_resource r) +:+ ", cannot change to " +:+ quoted resource)) r
   else if negb (valid_segment resource) then q_fail (invalid "resource" resource) r
   else {| q_verb := q_verb r; q_pathPrefix := q_pathPrefix r; q_namespace := q_namespace r; q_namespaceSet := q_namespaceSet r;
           q_resource := resource; q_resourceName := q_resourceName r; q_subresource := q_subresource r;
           q_params := q_params r; q_body := q_body r; q_err := None |}).

(** [path.Join] of any number of elements *)
Definition path_Join_all (l : list string) : string :=
  match List.filter (fun w => negb (bool_decide (w = ""))) l with [] => "" | l => path_Clean (Join l "/") end.
(** [Request.SubResource], src/vendor/k8s.io/client-go/rest/request.go:188-205 *)
Definition q_SubResource (subresources : list string) (r : Request) : Request := unless_failed r
  (let subresource := path_Join_all subresources in
   if decide (q_subresource r ≠ "") then
     q_fail (ErrNew ("subresource already set to " +:+ quoted (q_resource r) +:+ ", cannot change to " +:+ quoted subresource)) r
   else match List.find (fun s => negb (valid_segment s)) subresources with
        | Some s => q_fail (invalid "subresource" s) r
        | None =>
            {| q_verb := q_verb r; q_pathPrefix := q_pathPrefix r; q_namespace := q_namespace r;
               q_namespaceSet := q_namespaceSet r; q_resource := q_resource r; q_resourceName := q_resourceName r;
               q_subresource := subresource; q_params := q_params r; q_body := q_body r; q_err := None |}
        end).

(** [Request.Name], src/vendor/k8s.io/client-go/rest/request.go:208-226 *)
Definition q_Name (resourceName : string) (r : Request) : Request := unless_failed r
  (if decide (resourceName = "") then q_fail (ErrNew "resource name may not be empty") r
   else if decide (q_resourceName r ≠ "") then
     q_fail (ErrNew ("resource name already set to " +:+ quoted (q_resourceName r) +:+ ", cannot change to " +:+ quoted resourceName)) r
   else if negb (valid_segment resourceName) then q_fail (invalid "resource name" resourceName) r
   else {| q_verb := q_verb r; q_pathPrefix := q_pathPrefix r; q_namespace := q_namespace r; q_namespaceSet := q_namespaceSet r;
           q_resource := q_resource r; q_resourceName := resourceName; q_subresource := q_subresource r;
           q_params := q_params r; q_body := q_body r; q_err := None |}).

(** [Request.Namespace], src/vendor/k8s.io/client-go/rest/request.go:229-244 *)
Definition q_Namespace (namespace : string) (r : Request) : Request := unless_failed r
  (if q_namespaceSet r then
     q_fail (ErrNew ("namespace already set to " +:+ quoted (q_namespace r) +:+ ", cannot change to " +:+ quoted namespace)) r
   else if negb (valid_segment namespace) then q_fail (invalid "namespace" namespace) r
   else {| q_verb := q_verb r; q_pathPrefix := q_pathPrefix r; q_namespace := namespace; q_namespaceSet := true;
           q_resource := q_resource r; q_resourceName := q_resourceName r; q_subresource := q_subresource r;
           q_params := q_params r; q_body := q_body r; q_err := None |}).

(** [AbsPath] of one segment
    [Request.AbsPath], src/vendor/k8s.io/client-go/rest/request.go:256-266 *)
Definition q_AbsPath (basePath segment : string) (r : Request) : Request := unless_failed r
  {| q_verb := q_verb r;
     q_pathPrefix := path_Join basePath (path_Join_all [segment]) +:+
       (if (1 <? String.length basePath)%nat || (1 <? String.length segment)%nat
        then (if HasSuffix segment "/" then "/" else "") else "");
     q_namespace := q_namespace r; q_namespaceSet := q_namespaceSet r;
     q_resource := q_resource r; q_resourceName := q_resourceName r; q_subresource := q_subresource r;
     q_params := q_params r; q_body := q_body r; q_err := None |}.

(** The parameters are added to those that are there; an empty selector is
    left out.
    [Request.setParam], src/vendor/k8s.io/client-go/rest/request.go:482-492 *)
Definition setParams (params : list (string * string)) (r : Request) : Request :=
  {| q_verb := q_verb r; q_pathPrefix := q_pathPrefix r; q_namespace := q_namespace r; q_namespaceSet := q_namespaceSet r;
     q_resource := q_resource r; q_resourceName := q_resourceName r; q_subresource := q_subresource r;
     q_params := q_params r ++ params; q_body := q_body r; q_err := None |}.
(** The encoding of [body] is the codec's; a nil pointer sets no body.
    [Request.Body], src/vendor/k8s.io/client-go/rest/request.go:520-557 *)
Definition q_Body (body : option RestBody) (r : Request) : Request := unless_failed r
  match body with
  | None => r
  | Some _ =>
      {| q_verb := q_verb r; q_pathPrefix := q_pathPrefix r; q_namespace := q_namespace r; q_namespaceSet := q_namespaceSet r;
         q_resource := q_resource r; q_resourceName := q_resourceName r; q_subresource := q_subresource r;
         q_params := q_params r; q_body := body; q_err := None |}
  end.

(** The path of a request; [Suffix] is not used.
    [Request.URL], src/vendor/k8s.io/client-go/rest/request.go:575-586 *)
Definition URL_path (r : Request) : string :=
  let p := q_pathPrefix r in
  let p := if q_namespaceSet r && negb (bool_decide (q_namespace r = ""))
           then path_Join_all [p; "namespaces"; q_namespace r] else p in
  let p := if decide (q_resource r = "") then p else path_Join_all [p; ToLower (q_resource r)] in
  if decide (q_resourceName r = "" ∧ q_subresource r = "") then p
  else path_Join_all [p; q_resourceName r; q_subresource r].

(** The parameters of options, in the order of their fields; a field with its
    zero value is omitted.
    [Convert], src/vendor/k8s.io/apimachinery/pkg/conversion/queryparams/convert.go:110-121 *)
Record ListOptions := {
  LabelSelector : string; FieldSelector : string; IncludeUninitialized : bool; Watch : bool;
  ResourceVersion : string; TimeoutSeconds : option Z }.
Definition addParam (tag value : string) : list (string * string) := if decide (value = "") then [] else [(tag, value)].
Definition show_bool (b : bool) : string := if b then "true" else "".
Definition list_params (o : ListOptions) : list (string * string) :=
  addParam "labelSelector" (LabelSelector o) ++ addParam "fieldSelector" (FieldSelector o) ++
  addParam "includeUninitialized" (show_bool (IncludeUninitialized o)) ++ addParam "watch" (show_bool (Watch o)) ++
  addParam "resourceVersion" (ResourceVersion o) ++
  match TimeoutSeconds o with None | Some 0%Z => [] | Some t => [("timeoutSeconds", pretty t)] end.
Record GetOptions := { go_ResourceVersion : string; go_IncludeUninitialized : bool }.
Definition get_params (o : GetOptions) : list (string * string) :=
  addParam "resourceVersion" (go_ResourceVersion o) ++ addParam "includeUninitialized" (show_bool (go_IncludeUninitialized o)).

(** * The clients *)

(** What is sent; the reply is an object or a list, or the status of a
    deletion. *)
Inductive RObject := RKluster (k : Kluster) | RList (l : list Kluster) | RStatus.
Inductive RestCall := RDo (verb path : string) (params : list (string * string)) (body : option RestBody).
#[export] Instance rest_iface : Iface RestCall := fun _ => RObject.

Definition zero_Kluster : Kluster := {| Meta := zero_ObjectMeta; Spec := zero_KlusterSpec; Status := zero_KlusterStatus |}.

Section Client.
Context {E : Type} `{!Machine RestCall E}.
(** The parser of field selectors, and what it prints for one *)
Context (ParseSelector : string → reply string).
(** The path of the host, as client-go keeps it with a slash at its end *)
Context (basePath : string).
Abbreviation M := (Go (sys unit E RestCall)).

(** [Request.VersionedParams], src/vendor/k8s.io/client-go/rest/request.go:439-480 *)
Definition q_VersionedParams (params : list (string * string)) (r : Request) : Request := unless_failed r
  ((fix go (l : list (string * string)) (r : Request) : Request :=
    match l with
    | [] => r
    | (k, v) :: l =>
        if decide (k = "labelSelector" ∧ v = "") then go l r
        else if decide (k = "fieldSelector") then
          if decide (v = "") then go l r
          else match ParseSelector v with
               | Bad err => q_fail (ErrNew ("unparsable field selector: " +:+ Error err)) r
               | Ok v => go l (setParams [(k, v)] r)
               end
        else go l (setParams [(k, v)] r)
    end) params r).

(** Retries are the transport's.
    [Request.request], src/vendor/k8s.io/client-go/rest/request.go:774-792 *)
Definition Do (r : Request) : M RObject :=
  match q_err r with
  | Some err => fail err
  | None =>
      if decide (q_verb r ∈ ["GET"; "PUT"; "DELETE"] ∧ q_namespaceSet r = true ∧ q_resourceName r ≠ "" ∧ q_namespace r = "") then
        fail (ErrNew "an empty namespace may not be set when a resource name is provided")
      else if decide (q_verb r = "POST" ∧ q_namespaceSet r = true ∧ q_namespace r = "") then
        fail (ErrNew "an empty namespace may not be set during creation")
      else perform (RDo (q_verb r) (URL_path r) (q_params r) (q_body r))
  end.
(** A status without failure leaves the object as it was made.
    [Result.Into], src/vendor/k8s.io/client-go/rest/request.go:1143-1169 *)
Definition Into_Kluster (o : RObject) : reply Kluster :=
  match o with RKluster k => Ok k | RStatus => Ok zero_Kluster | RList _ => Bad (ErrNew "unable to decode a list into a kluster") end.
Definition Into_KlusterList (o : RObject) : reply (list Kluster) :=
  match o with RList l => Ok l | RStatus => Ok [] | RKluster _ => Bad (ErrNew "unable to decode a kluster into a list") end.
Definition Do_Into {A} (into : RObject → reply A) (r : Request) : M A := o ← Do r; lift_reply (into o).
Definition Do_Error (r : Request) : M unit := _ ← Do r; mret tt.

(** The client of the group: its configuration and its requests
    [setConfigDefaults], src/pkg/generated/clientset/typed/kubernikus/v1/kubernikus_client.go:52-63 *)
Definition versionedAPIPath : string :=
  let APIPath := "/apis" in
  path_Join (path_Join "/" APIPath) (path_Join "kubernikus.sap.cc" "v1").
(** [RESTClient.Verb], src/vendor/k8s.io/client-go/rest/client.go:223-230 *)
Definition RESTClient_Verb (verb : string) : Request := NewRequest verb basePath versionedAPIPath.

(** [klusters], src/pkg/generated/clientset/typed/kubernikus/v1/kluster.go:33-36 *)
Record klusters := { kc_ns : string }.
(** [newKlusters], src/pkg/generated/clientset/typed/kubernikus/v1/kluster.go:39-44 *)
Definition newKlusters (namespace : string) : klusters := {| kc_ns := namespace |}.
(** [KubernikusV1Client.Klusters], src/pkg/generated/clientset/typed/kubernikus/v1/kubernikus_client.go:20-22 *)
Definition Klusters (namespace : string) : klusters := newKlusters namespace.
(** A request for the klusters of the namespace *)
Definition klusters_request (c : klusters) (verb : string) : Request :=
  q_Resource "klusters" (q_Namespace (kc_ns c) (RESTClient_Verb verb)).

(** [klusters.Get], src/pkg/generated/clientset/typed/kubernikus/v1/kluster.go:47-57 *)
Definition klusters_Get (c : klusters) (name : string) (options : GetOptions) : M Kluster :=
  Do_Into Into_Kluster (q_VersionedParams (get_params options) (q_Name name (klusters_request c "GET"))).
(** [klusters.List], src/pkg/generated/clientset/typed/kubernikus/v1/kluster.go:60-69 *)
Definition klusters_List (c : klusters) (opts : ListOptions) : M (list Kluster) :=
  Do_Into Into_KlusterList (q_VersionedParams (list_params opts) (klusters_request c "GET")).
(** What is watched: the request of a watch
    [klusters.Watch], src/pkg/generated/clientset/typed/kubernikus/v1/kluster.go:72-79 *)
Definition klusters_Watch (c : klusters) (opts : ListOptions) : Request :=
  let opts := {| LabelSelector := LabelSelector opts; FieldSelector := FieldSelector opts;
                 IncludeUninitialized := IncludeUninitialized opts; Watch := true;
                 ResourceVersion := ResourceVersion opts; TimeoutSeconds := TimeoutSeconds opts |} in
  q_VersionedParams (list_params opts) (klusters_request c "GET").
(** [klusters.Create], src/pkg/generated/clientset/typed/kubernikus/v1/kluster.go:82-91 *)
Definition klusters_Create (c : klusters) (kluster : Kluster) : M Kluster :=
  Do_Into Into_Kluster (q_Body (Some (BodyKluster kluster)) (klusters_request c "POST")).
(** [klusters.Update], src/pkg/generated/clientset/typed/kubernikus/v1/kluster.go:94-104 *)
Definition klusters_Update (c : klusters) (kluster : Kluster) : M Kluster :=
  Do_Into Into_Kluster (q_Body (Some (BodyKluster kluster)) (q_Name (Name (Meta kluster)) (klusters_request c "PUT"))).
(** [klusters.UpdateStatus], src/pkg/generated/clientset/typed/kubernikus/v1/kluster.go:109-120 *)
Definition klusters_UpdateStatus (c : klusters) (kluster : Kluster) : M Kluster :=
  Do_Into Into_Kluster (q_Body (Some (BodyKluster kluster))
    (q_SubResource ["status"] (q_Name (Name (Meta kluster)) (klusters_request c "PUT")))).
(** [klusters.Delete], src/pkg/generated/clientset/typed/kubernikus/v1/kluster.go:123-131 *)
Definition klusters_Delete (c : klusters) (name : string) (options : option DeleteOptions) : M unit :=
  Do_Error (q_Body (BodyOptions <$> options) (q_Name name (klusters_request c "DELETE"))).
(** [klusters.DeleteCollection], src/pkg/generated/clientset/typed/kubernikus/v1/kluster.go:134-142 *)
Definition klusters_DeleteCollection (c : klusters) (options : option DeleteOptions) (listOptions : ListOptions) : M unit :=
  Do_Error (q_Body (BodyOptions <$> options) (q_VersionedParams (list_params listOptions) (klusters_request c "DELETE"))).
(** The type of the patch is a header.
    [klusters.Patch], src/pkg/generated/clientset/typed/kubernikus/v1/kluster.go:145-156 *)
Definition klusters_Patch (c : klusters) (name data : string) (subresources : list string) : M Kluster :=
  Do_Into Into_Kluster (q_Body (Some (BodyBytes data)) (q_Name name (q_SubResource subresources (klusters_request c "PATCH")))).

(** The deletion of the ground controller goes through the discovery client.
    [terminateKluster], src/pkg/controller/ground.go:435-440 *)
Definition discovery_Delete (ns name : string) : M unit :=
  Do_Error (q_Name name (q_Resource "klusters" (q_Namespace ns
    (q_AbsPath basePath "apis/kubernikus.sap.cc/v1" (NewRequest "DELETE" basePath "/"))))).
End Client.

(** * An API server

    It routes a request by the segments of its path, as the conventions of the
    Kubernetes API document, to the store of [Store]. *)
Definition route (path : string) : option (string * list string) :=
  let l := Split slash path in
  if decide (take 5 l = [""; "apis"; "kubernikus.sap.cc"; "v1"; "namespaces"]) then
    match drop 5 l with
    | ns :: resource :: rest => if decide (resource = "klusters") then Some (ns, rest) else None
    | _ => None
    end
  else None.
Definition reply_map {A B} (f : A → B) (r : reply A) : reply B := match r with Ok a => Ok (f a) | Bad err => Bad err end.
Definition as_object {A} (f : A → RObject) (x : World * reply A) : World * reply RObject := (fst x, reply_map f (snd x)).
Definition label_selector (params : list (string * string)) : option (string * string) :=
  match List.find (fun kv => bool_decide (fst kv = "labelSelector")) params with
  | Some (_, s) => match Split "=" s with [l; v] => Some (l, v) | _ => None end
  | None => None
  end.
Definition bad_request : error := ErrNew "the server rejected our request for an unknown reason".
Definition kube_store (verb path : string) (params : list (string * string)) (body : option RestBody) (w : World) : World * reply RObject :=
  match route path with
  | Some (ns, []) =>
      if decide (verb = "POST") then
        match body with
        | Some (BodyKluster k) => as_object RKluster (api_store (HCreate ns k) w (Ok k))
        | _ => (w, Bad bad_request)
        end
      else if decide (verb = "GET") then as_object RList (api_store (HList ns (label_selector params)) w (Ok []))
      else (w, Bad bad_request)
  | Some (ns, [name]) =>
      if decide (verb = "GET") then as_object RKluster (api_store (HGet ns name) w (Ok zero_Kluster))
      else if decide (verb = "PUT") then
        match body with
        | Some (BodyKluster k) =>
            if decide (Name (Meta k) = name) then as_object RKluster (api_store (HUpdate ns k) w (Ok k))
            else (w, Bad bad_request)
        | _ => (w, Bad bad_request)
        end
      else if decide (verb = "DELETE") then as_object (λ _, RStatus) (ground_store (GKlusterDelete ns name) w (Ok tt))
      else (w, Bad bad_request)
  | _ => (w, Bad not_found)
  end.
#[export] Instance kube_machine : Machine RestCall World := fun c w =>
  match c return World * reply (resp c) with RDo verb path params body => kube_store verb path params body w end.

(** A computation of the client does to the store what [x] says. *)
Definition serves {A} (m : Go (sys unit World RestCall) A) (w : World) (x : World * reply A) : Prop :=
  ∃ t, m (Sys tt w []) = (Sys tt (fst x) t, of_reply (snd x)).
(** It fails without a request. *)
Definition refuses {A} (m : Go (sys unit World RestCall) A) : Prop := ∀ s, ∃ err, m s = (s, Fail err).
Definition names_object (name : string) : Prop := name ≠ "" ∧ valid_segment name = true.

(** ** Paths *)
Lemma valid_segment_plain w : names_object w → plain_element w.
Proof.
  unfold names_object, valid_segment, IsValidPathSegmentName, plain_element. rewrite bool_decide_eq_true.
  intros [Hw Hv]. case_decide; [done|]. case_decide; [done|]. by destruct (str_has slash w).
Qed.
Definition group_segments : list string := ["apis"; "kubernikus.sap.cc"; "v1"; "namespaces"].
Lemma group_plain ns : names_object ns → Forall plain_element (group_segments ++ [ns; "klusters"]).
Proof. intros H%valid_segment_plain. repeat constructor; try done. all: by destruct H as (? & ? & ? & ?). Qed.

Lemma Join_app l ws sep : l ≠ [] → ws ≠ [] → Join (l ++ ws) sep = Join l sep +:+ sep +:+ Join ws sep.
Proof.
  intros Hl Hws. induction l as [|w l IH]; [done|]. destruct l as [|w' l]; [by destruct ws|].
  change (w +:+ sep +:+ Join ((w' :: l) ++ ws) sep = (w +:+ sep +:+ Join (w' :: l) sep) +:+ sep +:+ Join ws sep).
  by rewrite IH, !str_app_assoc.
Qed.
Lemma nonempty_plain ws : Forall plain_element ws → List.filter (fun w => negb (bool_decide (w = ""))) ws = ws.
Proof. induction 1 as [|w ws [Hw _] _ IH]; cbn; [done|]. by rewrite bool_decide_false, IH. Qed.

(** Joining a clean path and elements; a trailing empty one is dropped. *)
Lemma join_all_plain l ws : l ≠ [] → Forall plain_element l → Forall plain_element ws →
  path_Join_all (("/" +:+ Join l "/") :: ws) = "/" +:+ Join (l ++ ws) "/" ∧
  path_Join_all (("/" +:+ Join l "/") :: ws ++ [""]) = "/" +:+ Join (l ++ ws) "/".
Proof.
  intros Hne Hl Hws. unfold path_Join_all. cbn [List.filter app]. rewrite List.filter_app, nonempty_plain by done. cbn [List.filter].
  rewrite app_nil_r. rewrite bool_decide_false by done. cbn [negb].
  assert (path_Clean (Join (("/" +:+ Join l "/") :: ws) "/") = "/" +:+ Join (l ++ ws) "/") as H; [|done].
  destruct ws as [|w ws]; [rewrite app_nil_r; by apply path_Clean_plain|].
  change (Join (("/" +:+ Join l "/") :: w :: ws) "/") with (("/" +:+ Join l "/") +:+ "/" +:+ Join (w :: ws) "/").
  rewrite str_app_assoc, <- Join_app by done. apply path_Clean_plain; [by destruct l|by apply Forall_app].
Qed.

(** The path of a request for the klusters of a namespace *)
Definition klusters_path (ns : string) (rest : list string) : string := "/" +:+ Join (group_segments ++ [ns; "klusters"] ++ rest) "/".
Ltac plains := repeat (constructor; [done|]); constructor.
Lemma URL_klusters r ns rest : names_object ns → Forall plain_element rest →
  q_pathPrefix r = "/apis/kubernikus.sap.cc/v1" → q_namespaceSet r = true → q_namespace r = ns → q_resource r = "klusters" →
  rest = List.filter (fun w => negb (bool_decide (w = ""))) [q_resourceName r] → q_subresource r = "" →
  URL_path r = klusters_path ns rest.
Proof.
  intros Hns Hrest Hp Hs Hn Hr Hname Hsub. unfold URL_path. rewrite Hp, Hs, Hn, Hr, Hsub.
  rewrite bool_decide_false by (by destruct Hns). cbn [andb negb]. rewrite (decide_False (P:="klusters" = "")) by done. change (ToLower "klusters") with "klusters".
  pose proof (group_plain ns Hns) as Hg. unfold klusters_path, group_segments in *.
  change "/apis/kubernikus.sap.cc/v1" with ("/" +:+ Join ["apis"; "kubernikus.sap.cc"; "v1"] "/").
  repeat (apply Forall_cons in Hg as [? Hg]).
  destruct (join_all_plain ["apis"; "kubernikus.sap.cc"; "v1"] ["namespaces"; ns]) as [-> _]; [done|plains..|]. cbn [app].
  destruct (join_all_plain ["apis"; "kubernikus.sap.cc"; "v1"; "namespaces"; ns] ["klusters"]) as [-> _]; [done|plains..|].
  cbn [app List.filter] in *. destruct (decide (q_resourceName r = "")) as [He|He].
  - rewrite decide_True by done. rewrite He in Hname. cbn in Hname. by subst.
  - rewrite decide_False by tauto. rewrite bool_decide_false in Hname by done. cbn in Hname. subst rest.
    destruct (join_all_plain ["apis"; "kubernikus.sap.cc"; "v1"; "namespaces"; ns; "klusters"] [q_resourceName r]) as [_ Hj];
      [done|plains|done|exact Hj].
Qed.
Lemma route_klusters ns rest : names_object ns → Forall plain_element rest → route (klusters_path ns rest) = Some (ns, rest).
Proof.
  intros Hns Hrest. pose proof (group_plain ns Hns) as Hg. unfold route, klusters_path.
  change ("/" +:+ Join (group_segments ++ [ns; "klusters"] ++ rest) "/") with (Join ([""] ++ group_segments ++ [ns; "klusters"] ++ rest) (String slash "")).
  rewrite Split_Join; [|done|].
  - reflexivity.
  - constructor; [done|]. rewrite app_assoc. apply Forall_app. split; (eapply Forall_impl; [eassumption|]); by intros w (_ & _ & _ & ?).
Qed.

(** ** Requests of the client, on a host without a path *)
Definition group_request (ns name verb : string) (params : list (string * string)) (body : option RestBody) : Request :=
  {| q_verb := verb; q_pathPrefix := "/apis/kubernikus.sap.cc/v1"; q_namespace := ns; q_namespaceSet := true;
     q_resource := "klusters"; q_resourceName := name; q_subresource := ""; q_params := params; q_body := body; q_err := None |}.
Lemma namespace_request ns r : names_object ns → q_err r = None → q_namespaceSet r = false → q_resource r = "" →
  q_Resource "klusters" (q_Namespace ns r) =
  {| q_verb := q_verb r; q_pathPrefix := q_pathPrefix r; q_namespace := ns; q_namespaceSet := true;
     q_resource := "klusters"; q_resourceName := q_resourceName r; q_subresource := q_subresource r; q_params := q_params r;
     q_body := q_body r; q_err := None |}.
Proof.
  intros [Hne Hv] He Hs Hr. unfold q_Namespace, unless_failed. rewrite He, Hs, Hv. cbn [negb].
  unfold q_Resource, unless_failed. cbn [q_err q_resource]. rewrite Hr, decide_False by tauto. reflexivity.
Qed.
Lemma klusters_request_eq ns verb : names_object ns → klusters_request "/" (Klusters ns) verb = group_request ns "" verb [] None.
Proof. intros Hns. unfold klusters_request. by rewrite namespace_request. Qed.
Lemma q_Name_eq ns name verb : names_object name → q_Name name (group_request ns "" verb [] None) = group_request ns name verb [] None.
Proof. intros [Hne Hv]. unfold q_Name, unless_failed. cbn. rewrite decide_False by done. rewrite Hv. done. Qed.
Lemma q_Name_refused name r : ¬ names_object name → q_err (q_Name name r) ≠ None.
Proof.
  intros Hn. unfold q_Name, unless_failed. destruct (q_err r) eqn:He; [by rewrite He|]. case_decide as H1; [done|].
  case_decide; [done|]. destruct (valid_segment name) eqn:Hv; [|done]. destruct Hn. by split.
Qed.
Lemma unless_failed_failed r r' : q_err r ≠ None → unless_failed r r' = r.
Proof. unfold unless_failed. by destruct (q_err r). Qed.

Lemma Do_refuses {E} `{!Machine RestCall E} r (s : sys unit E RestCall) : q_err r ≠ None → ∃ err, Do r s = (s, Fail err).
Proof. unfold Do. destruct (q_err r) as [err|]; [|done]. intros _. by exists err. Qed.
Lemma Into_refuses {A} (into : RObject → reply A) r : q_err r ≠ None → refuses (Do_Into into r).
Proof. intros Hr s. destruct (Do_refuses r s Hr) as [err He]. exists err. unfold Do_Into, mbind, go_bind. by rewrite He. Qed.
Lemma Error_refuses r : q_err r ≠ None → refuses (Do_Error r).
Proof. intros Hr s. destruct (Do_refuses r s Hr) as [err He]. exists err. unfold Do_Error, mbind, go_bind. by rewrite He. Qed.

(** A request for a valid namespace is sent to its path. *)
Lemma Do_sends ns name verb params body : names_object ns → name = "" ∨ names_object name →
  ∀ w, Do (group_request ns name verb params body) (Sys tt w []) =
    let path := klusters_path ns (if decide (name = "") then [] else [name]) in
    let x := kube_store verb path params body w in
    (Sys tt (fst x) [RDo verb path params body], of_reply (snd x)).
Proof.
  intros Hns Hname w. unfold Do. cbn [q_err group_request q_verb q_namespaceSet q_resourceName q_namespace].
  destruct Hns as [Hne Hv]. rewrite decide_False by tauto. rewrite decide_False by tauto. unfold perform.
  rewrite (URL_klusters _ ns (if decide (name = "") then [] else [name])); [|by split| |try done..].
  - cbn [answer kube_machine env q_params q_body]. cbn zeta. destruct (kube_store _ _ _ _ _) as [w' r]. by destruct r.
  - case_decide; [constructor|]. constructor; [|constructor]. apply valid_segment_plain. by destruct Hname.
  - cbn. case_decide; [by rewrite bool_decide_true|by rewrite bool_decide_false].
Qed.

Lemma serves_object {A} (into : RObject → reply A) (f : A → RObject) r w t (x : World * reply A) : (∀ a, into (f a) = Ok a) →
  Do r (Sys tt w []) = (Sys tt (fst x) t, of_reply (reply_map f (snd x))) → serves (Do_Into into r) w x.
Proof.
  intros Hf Hr. exists t. unfold Do_Into, mbind, go_bind. rewrite Hr. destruct (snd x) as [a|err]; cbn; [|done].
  unfold lift_reply. by rewrite Hf.
Qed.
Lemma serves_status r w t (x : World * reply unit) :
  Do r (Sys tt w []) = (Sys tt (fst x) t, of_reply (reply_map (λ _, RStatus) (snd x))) → serves (Do_Error r) w x.
Proof. intros Hr. exists t. unfold Do_Error, mbind, go_bind. rewrite Hr. by destruct (snd x) as [[]|err]. Qed.

(** What the server does with the requests of the client *)
Lemma kube_object ns name verb params body w : names_object ns → names_object name →
  kube_store verb (klusters_path ns [name]) params body w =
    if decide (verb = "GET") then as_object RKluster (api_store (HGet ns name) w (Ok zero_Kluster))
    else if decide (verb = "PUT") then
      match body with
      | Some (BodyKluster k) =>
          if decide (Name (Meta k) = name) then as_object RKluster (api_store (HUpdate ns k) w (Ok k)) else (w, Bad bad_request)
      | _ => (w, Bad bad_request)
      end
    else if decide (verb = "DELETE") then as_object (λ _, RStatus) (ground_store (GKlusterDelete ns name) w (Ok tt))
    else (w, Bad bad_request).
Proof. intros Hns Hn. unfold kube_store. rewrite route_klusters; [done|done|]. constructor; [by apply valid_segment_plain|constructor]. Qed.
Lemma kube_collection ns verb params body w : names_object ns →
  kube_store verb (klusters_path ns []) params body w =
    if decide (verb = "POST") then
      match body with
      | Some (BodyKluster k) => as_object RKluster (api_store (HCreate ns k) w (Ok k))
      | _ => (w, Bad bad_request)
      end
    else if decide (verb = "GET") then as_object RList (api_store (HList ns (label_selector params)) w (Ok []))
    else (w, Bad bad_request).
Proof. intros Hns. unfold kube_store. by rewrite route_klusters by (done || constructor). Qed.

Definition no_options : GetOptions := {| go_ResourceVersion := ""; go_IncludeUninitialized := false |}.
Definition selector_options (selector : option (string * string)) : ListOptions :=
  {| LabelSelector := match selector with None => "" | Some (l, v) => l +:+ "=" +:+ v end; FieldSelector := "";
     IncludeUninitialized := false; Watch := false; ResourceVersion := ""; TimeoutSeconds := None |}.
Lemma selector_params selector : list_params (selector_options selector) =
  match selector with None => [] | Some (l, v) => [("labelSelector", l +:+ "=" +:+ v)] end.
Proof.
  destruct selector as [[l v]|]; [|done]. unfold list_params, selector_options, addParam. cbn [LabelSelector].
  by rewrite decide_False by (by destruct l).
Qed.
Lemma selector_read selector : (∀ l v, selector = Some (l, v) → str_has "=" l = false ∧ str_has "=" v = false) →
  label_selector (list_params (selector_options selector)) = selector.
Proof.
  intros Hs. rewrite selector_params. destruct selector as [[l v]|]; [|done]. destruct (Hs l v eq_refl) as [Hl Hv].
  unfold label_selector. cbn [List.find fst]. rewrite bool_decide_true by done.
  change (l +:+ "=" +:+ v) with (l +:+ String "=" v). rewrite Split_app by done. by rewrite Split_no_sep.
Qed.
Lemma selector_request ParseSelector selector ns :
  q_VersionedParams ParseSelector (list_params (selector_options selector)) (group_request ns "" "GET" [] None) =
  group_request ns "" "GET" (list_params (selector_options selector)) None.
Proof.
  rewrite selector_params. unfold q_VersionedParams, unless_failed. destruct selector as [[l v]|]; [|done]. cbn [q_err group_request].
  rewrite decide_False by (intros [_ H]; by destruct l). done.
Qed.

(** * Properties *)

(** C6: against an API server that routes a request by its path, the generated
    client does to the store of klusters what the calls of the handlers and of
    the controllers stand for: it reads, lists, creates, updates and deletes
    exactly the object of the namespace and the name it was given; the deletion
    of the ground controller, which goes through the discovery client, is the
    same request; and for a name that is empty or no segment of a path nothing
    is sent. *)
Theorem klusters_refine ParseSelector ns w : names_object ns →
  let c := Klusters ns in
  (∀ k, serves (klusters_Create "/" c k) w (api_store (HCreate ns k) w (Ok k))) ∧
  (∀ selector, (∀ l v, selector = Some (l, v) → str_has "=" l = false ∧ str_has "=" v = false) →
     serves (klusters_List ParseSelector "/" c (selector_options selector)) w (api_store (HList ns selector) w (Ok []))) ∧
  (∀ name, names_object name →
     serves (klusters_Get ParseSelector "/" c name no_options) w (api_store (HGet ns name) w (Ok zero_Kluster)) ∧
     serves (klusters_Delete "/" c name None) w (ground_store (GKlusterDelete ns name) w (Ok tt)) ∧
     serves (discovery_Delete "/" ns name) w (ground_store (GKlusterDelete ns name) w (Ok tt)) ∧
     ∀ k, Name (Meta k) = name → serves (klusters_Update "/" c k) w (api_store (HUpdate ns k) w (Ok k))) ∧
  (∀ name, ¬ names_object name →
     (∀ o, refuses (klusters_Get ParseSelector "/" c name o)) ∧ (∀ o, refuses (klusters_Delete "/" c name o)) ∧
     refuses (discovery_Delete "/" ns name) ∧
     ∀ k, Name (Meta k) = name → refuses (klusters_Update "/" c k) ∧ refuses (klusters_UpdateStatus "/" c k)).
Proof.
  intros Hns c. unfold klusters_Create, klusters_List, klusters_Get, klusters_Delete, klusters_Update, klusters_UpdateStatus. subst c.
  rewrite !klusters_request_eq by done. split_and!.
  - intros k. refine (serves_object Into_Kluster RKluster _ w _ _ (λ a, eq_refl) _).
    refine (eq_trans (Do_sends ns "" "POST" [] (Some (BodyKluster k)) Hns (or_introl eq_refl) w) _).
    cbn zeta. rewrite (decide_True (P:="" = "")), kube_collection by done. reflexivity.
  - intros selector Hsel. rewrite selector_request. refine (serves_object Into_KlusterList RList _ w _ _ (λ a, eq_refl) _).
    refine (eq_trans (Do_sends ns "" "GET" _ None Hns (or_introl eq_refl) w) _).
    cbn zeta. rewrite (decide_True (P:="" = "")), kube_collection, selector_read by done. reflexivity.
  - intros name Hn. assert (name ≠ "") as Hne by by destruct Hn. rewrite !q_Name_eq by done. split_and!.
    + refine (serves_object Into_Kluster RKluster _ w _ _ (λ a, eq_refl) _).
      refine (eq_trans (Do_sends ns name "GET" [] None Hns (or_intror Hn) w) _).
      cbn zeta. rewrite (decide_False (P:=name = "")), kube_object by done. reflexivity.
    + refine (serves_status _ w _ _ _). refine (eq_trans (Do_sends ns name "DELETE" [] None Hns (or_intror Hn) w) _).
      cbn zeta. rewrite (decide_False (P:=name = "")), kube_object by done. reflexivity.
    + unfold discovery_Delete. rewrite namespace_request by done.
      refine (serves_status _ w _ _ _). refine (eq_trans (f_equal (λ r, Do r _) (q_Name_eq ns name "DELETE" Hn)) _).
      refine (eq_trans (Do_sends ns name "DELETE" [] None Hns (or_intror Hn) w) _).
      cbn zeta. rewrite (decide_False (P:=name = "")), kube_object by done. reflexivity.
    + intros k <-. rewrite q_Name_eq by done. refine (serves_object Into_Kluster RKluster _ w _ _ (λ a, eq_refl) _).
      refine (eq_trans (Do_sends ns _ "PUT" [] (Some (BodyKluster k)) Hns (or_intror Hn) w) _).
      cbn zeta. rewrite (decide_False (P:=Name (Meta k) = "")), kube_object by done.
      rewrite (decide_True (P:=Name (Meta k) = Name (Meta k))) by done. reflexivity.
  - intros name Hn.
    pose proof (λ r, q_Name_refused name r Hn) as Hr. split_and!.
    + intros o. apply Into_refuses. unfold q_VersionedParams. by rewrite unless_failed_failed.
    + intros o. apply Error_refuses. unfold q_Body. by rewrite unless_failed_failed.
    + unfold discovery_Delete. by apply Error_refuses.
    + intros k <-. split; apply Into_refuses; unfold q_Body, q_SubResource; by rewrite ?unless_failed_failed by (rewrite ?unless_failed_failed; done).
Qed.

Definition demo_stored : World :=
  apply_op (Put ("kubernikus", "k-a1") (with_namespace "kubernikus" demo_terminating)) empty_world.
Lemma klusters_refine_witness :
  serves (discovery_Delete "/" "kubernikus" "k-a1") demo_stored (ground_store (GKlusterDelete "kubernikus" "k-a1") demo_stored (Ok tt)) ∧
  w_stored (fst (ground_store (GKlusterDelete "kubernikus" "k-a1") demo_stored (Ok tt))) = ∅ ∧
  refuses (discovery_Delete "/" "kubernikus" "../../x").
Proof.
  destruct (klusters_refine Ok "kubernikus" demo_stored ltac:(done)) as (_ & _ & Hok & Hbad).
  split_and!; [apply (Hok "k-a1"); done|vm_compute; reflexivity|]. apply (Hbad "../../x"). by intros [_ [=]].
Defined.

(** * The lister

    An indexer is a map from keys to objects, which is walked in any order;
    its namespace index holds the objects by their namespace. *)
Section Lister.
Context (range : gmap string Kluster → list (string * Kluster)) (Hrange : ∀ m, range m ≡ₚ map_to_list m).

(** [klusterLister.List], src/pkg/generated/listers/kubernikus/v1/kluster.go:32-37 *)
Definition klusterLister_List (indexer : gmap string Kluster) (selector : gmap string string → bool) : list Kluster :=
  List.filter (fun m => selector (Labels (Meta m))) (snd <$> range indexer).
(** [klusterNamespaceLister], src/pkg/generated/listers/kubernikus/v1/kluster.go:55-58 *)
Record klusterNamespaceLister := { nl_indexer : gmap string Kluster; nl_namespace : string }.
(** [klusterLister.Klusters], src/pkg/generated/listers/kubernikus/v1/kluster.go:40-42 *)
Definition klusterLister_Klusters (indexer : gmap string Kluster) (namespace : string) : klusterNamespaceLister :=
  {| nl_indexer := indexer; nl_namespace := namespace |}.
(** [ListAllByNamespace], src/vendor/k8s.io/client-go/tools/cache/listers.go:46-88 *)
Definition ListAllByNamespace (indexer : gmap string Kluster) (namespace : string) (selector : gmap string string → bool) : list Kluster :=
  if decide (namespace = "") then klusterLister_List indexer selector
  else List.filter (fun m => selector (Labels (Meta m)))
         (List.filter (fun m => bool_decide (Namespace (Meta m) = namespace)) (snd <$> range indexer)).
(** [klusterNamespaceLister.List], src/pkg/generated/listers/kubernikus/v1/kluster.go:61-66 *)
Definition klusterNamespaceLister_List (s : klusterNamespaceLister) (selector : gmap string string → bool) : list Kluster :=
  ListAllByNamespace (nl_indexer s) (nl_namespace s) selector.
(** [klusterNamespaceLister.Get], src/pkg/generated/listers/kubernikus/v1/kluster.go:69-78 *)
Definition klusterNamespaceLister_Get (s : klusterNamespaceLister) (name : string) : reply Kluster :=
  match nl_indexer s !! (nl_namespace s +:+ "/" +:+ name) with
  | None => Bad (ErrStatus ReasonNotFound ("kluster.kubernikus.sap.cc " +:+ quoted name +:+ " not found"))
  | Some k => Ok k
  end.

(** Objects are kept under their key. *)
Definition keyed (indexer : gmap string Kluster) : Prop :=
  map_Forall (λ key k, key = MetaNamespaceKey (Meta k) ∧ Namespace (Meta k) ≠ "" ∧ str_has slash (Namespace (Meta k)) = false) indexer.

(** In an indexer of namespaced objects, getting an object of a namespace
    finds the one that is listed there under the name, if there is one. *)
Lemma Get_listed indexer ns name k : keyed indexer → ns ≠ "" → str_has slash ns = false →
  let s := klusterLister_Klusters indexer ns in
  klusterNamespaceLister_Get s name = Ok k ↔
  k ∈ klusterNamespaceLister_List s (λ _, true) ∧ Name (Meta k) = name.
Proof.
  intros Hk Hne Hsl s. unfold klusterNamespaceLister_Get, klusterNamespaceLister_List, ListAllByNamespace.
  subst s. cbn [nl_indexer nl_namespace klusterLister_Klusters]. rewrite decide_False by done.
  assert (k ∈ List.filter (λ _ : Kluster, true) (List.filter (λ m, bool_decide (Namespace (Meta m) = ns)) (snd <$> range indexer)) ↔
          Namespace (Meta k) = ns ∧ ∃ key, indexer !! key = Some k) as ->.
  { rewrite list_elem_of_In, !filter_In, bool_decide_eq_true, <- list_elem_of_In. split.
    - intros [[(x & -> & Hx)%list_elem_of_fmap Hns] _]. split; [done|]. exists (fst x). rewrite Hrange in Hx.
      apply elem_of_map_to_list. by destruct x.
    - intros [Hns [key Hkey]]. split; [|done]. split; [|done]. apply list_elem_of_fmap. exists (key, k). split; [done|].
      rewrite Hrange. by apply elem_of_map_to_list. }
  split.
  - destruct (indexer !! (ns +:+ "/" +:+ name)) as [k'|] eqn:Hl; [|done]. intros [= ->]. pose proof (Hk _ _ Hl) as (He & Hn & Hs).
    unfold MetaNamespaceKey in He. rewrite decide_False in He by done.
    assert (Split slash (ns +:+ "/" +:+ name) = Split slash (Namespace (Meta k) +:+ "/" +:+ Name (Meta k))) as Hsp by by rewrite He.
    change "/" with (String slash "") in Hsp at 1 2. change (String slash "" +:+ name) with (String slash name) in Hsp.
    change (String slash "" +:+ Name (Meta k)) with (String slash (Name (Meta k))) in Hsp.
    rewrite !Split_app in Hsp by done. injection Hsp as Hns Hrest.
    assert (name = Name (Meta k)) as -> by (rewrite <- (Join_Split slash name), Hrest; by rewrite Join_Split).
    split; [|done]. split; [done|by eexists].
  - intros [[Hns [key Hkey]] Hname]. destruct (Hk _ _ Hkey) as (-> & _ & _). unfold MetaNamespaceKey in Hkey.
    rewrite Hns, decide_False, Hname in Hkey by done. by rewrite Hkey.
Qed.

(** After the informer has caught up with an object, the lister gets what is
    stored, or reports that it is not found. *)
Lemma Get_synced w (key : object_key) : fst key ≠ "" →
  match stored key w with
  | Ok k => klusterNamespaceLister_Get (klusterLister_Klusters (w_cache (sync key w)) (fst key)) (snd key) = Ok k
  | Bad _ => ∃ err, klusterNamespaceLister_Get (klusterLister_Klusters (w_cache (sync key w)) (fst key)) (snd key) = Bad err ∧ IsNotFound err = true
  end.
Proof.
  intros Hne. unfold klusterNamespaceLister_Get, stored, sync, cache_key. cbn [nl_indexer nl_namespace klusterLister_Klusters w_cache].
  rewrite decide_False by done. destruct (w_stored w !! key) as [k|].
  - by rewrite lookup_insert_eq.
  - rewrite lookup_delete_eq. by eexists.
Qed.
End Lister.

(** * The informers *)

(** An informer is known by the number of those made before it.
    [sharedInformerFactory], src/pkg/generated/informers/externalversions/factory.go:17-26 *)
Record sharedInformerFactory := {
  if_informers : gmap string nat; if_startedInformers : gmap string bool; if_made : nat; if_runs : list nat }.
(** [NewSharedInformerFactory], src/pkg/generated/informers/externalversions/factory.go:29-36 *)
Definition NewSharedInformerFactory : sharedInformerFactory :=
  {| if_informers := ∅; if_startedInformers := ∅; if_made := 0; if_runs := [] |}.

Section Factory.
Context (range : gmap string nat → list (string * nat)) (Hrange : ∀ m, range m ≡ₚ map_to_list m).

Definition started (f : sharedInformerFactory) (t : string) : bool := default false (if_startedInformers f !! t).
Definition start_one (f : sharedInformerFactory) (ti : string * nat) : sharedInformerFactory :=
  if started f (fst ti) then f
  else {| if_informers := if_informers f; if_startedInformers := <[fst ti := true]> (if_startedInformers f);
          if_made := if_made f; if_runs := if_runs f ++ [snd ti] |}.
(** [sharedInformerFactory.Start], src/pkg/generated/informers/externalversions/factory.go:39-49 *)
Definition factory_Start (f : sharedInformerFactory) : sharedInformerFactory := fold_left start_one (range (if_informers f)) f.
(** What is waited for: whether each started informer has synchronized
    [sharedInformerFactory.WaitForCacheSync], src/pkg/generated/informers/externalversions/factory.go:52-71 *)
Definition WaitForCacheSync (synced : nat → bool) (f : sharedInformerFactory) : gmap string bool :=
  synced <$> filter (λ ti, started f (fst ti) = true) (if_informers f).
(** [sharedInformerFactory.InformerFor], src/pkg/generated/informers/externalversions/factory.go:75-88 *)
Definition InformerFor (informerType : string) (f : sharedInformerFactory) : sharedInformerFactory * nat :=
  match if_informers f !! informerType with
  | Some informer => (f, informer)
  | None =>
      let informer := if_made f in
      ({| if_informers := <[informerType := informer]> (if_informers f); if_startedInformers := if_startedInformers f;
          if_made := S (if_made f); if_runs := if_runs f |}, informer)
  end.
(** [klusterInformer.Informer], src/pkg/generated/informers/externalversions/kubernikus/v1/kluster.go:51-53 *)
Definition Klusters_Informer : sharedInformerFactory → sharedInformerFactory * nat := InformerFor "*v1.Kluster".
(** [ForResource], src/pkg/generated/informers/externalversions/generic.go:36-45 *)
Definition ForResource (group version resource : string) (f : sharedInformerFactory) : sharedInformerFactory * reply nat :=
  if decide (group = "kubernikus.sap.cc" ∧ version = "v1" ∧ resource = "klusters") then
    let '(f, i) := Klusters_Informer f in (f, Ok i)
  else (f, Bad (ErrNew ("no informer found for " +:+ group +:+ "/" +:+ version +:+ ", Resource=" +:+ resource))).

Inductive factory_op := FInformerFor (t : string) | FForResource (group version resource : string) | FStart.
Definition factory_step (f : sharedInformerFactory) (op : factory_op) : sharedInformerFactory :=
  match op with
  | FInformerFor t => fst (InformerFor t f)
  | FForResource g v r => fst (ForResource g v r f)
  | FStart => factory_Start f
  end.

(** Informers are numbered, each belongs to one type, and those that run are
    those of the started types. *)
Definition factory_ok (f : sharedInformerFactory) : Prop :=
  map_Forall (λ _ i, i < if_made f) (if_informers f) ∧
  (∀ t t' i, if_informers f !! t = Some i → if_informers f !! t' = Some i → t = t') ∧
  NoDup (if_runs f) ∧
  (∀ i, i ∈ if_runs f ↔ ∃ t, if_informers f !! t = Some i ∧ started f t = true) ∧
  (∀ t, started f t = true → is_Some (if_informers f !! t)).

Lemma InformerFor_ok t f : factory_ok f → factory_ok (fst (InformerFor t f)) ∧ if_informers f ⊆ if_informers (fst (InformerFor t f)) ∧
  if_informers (fst (InformerFor t f)) !! t = Some (snd (InformerFor t f)).
Proof.
  intros (Hlt & Hinj & Hnd & Hruns & Hst). unfold InformerFor. destruct (if_informers f !! t) as [i|] eqn:Ht; [done|].
  cbn [fst snd if_informers]. split_and!; [split_and!| |by rewrite lookup_insert_eq]; cbn [if_informers if_made if_runs].
  - apply map_Forall_insert_2; [lia|]. eapply map_Forall_impl; [exact Hlt|]. cbn. lia.
  - intros t1 t2 i H1 H2. apply lookup_insert_Some in H1, H2.
    destruct H1 as [[<- <-]|[_ H1]], H2 as [[<- ?]|[_ H2]]; [done| | |by eapply Hinj]; [apply Hlt in H2|apply Hlt in H1]; subst; lia.
  - done.
  - intros i. rewrite Hruns. change (started (Build_sharedInformerFactory _ _ _ _)) with (started f). split; intros (t' & H1 & H2); exists t'; (split; [|done]).
    + rewrite lookup_insert_ne; [done|]. intros <-. congruence.
    + apply lookup_insert_Some in H1 as [[<- _]|[_ H1]]; [|done]. destruct (Hst _ H2). congruence.
  - intros t' H. destruct (decide (t = t')) as [<-|Hne]; [rewrite lookup_insert_eq; by eexists|]. rewrite lookup_insert_ne by done. by apply Hst.
  - by apply insert_subseteq.
Qed.

Lemma start_one_ok f t i : factory_ok f → if_informers f !! t = Some i →
  factory_ok (start_one f (t, i)) ∧ if_informers (start_one f (t, i)) = if_informers f ∧ started (start_one f (t, i)) t = true ∧
  ∀ t', started f t' = true → started (start_one f (t, i)) t' = true.
Proof.
  intros (Hlt & Hinj & Hnd & Hruns & Hst) Ht. unfold start_one. cbn [fst snd]. destruct (started f t) eqn:Hs; [done|].
  assert (∀ t', started {| if_informers := if_informers f; if_startedInformers := <[t := true]> (if_startedInformers f);
                           if_made := if_made f; if_runs := if_runs f ++ [i] |} t' = true ↔ t' = t ∨ started f t' = true) as Hnew.
  { intros t'. unfold started. cbn. destruct (decide (t' = t)) as [->|Hne]; [rewrite lookup_insert_eq|rewrite lookup_insert_ne by done]; naive_solver. }
  split; [|split_and!; [done|apply Hnew; by left|intros; apply Hnew; by right]]. split_and!; cbn [if_informers if_made if_runs]; [done|done| | |].
  - apply NoDup_app. split; [done|]. split; [|apply NoDup_singleton]. intros j (t' & H1 & H2)%Hruns ->%list_elem_of_singleton.
    rewrite (Hinj _ _ _ H1 Ht) in H2. congruence.
  - intros j. rewrite elem_of_app, list_elem_of_singleton, Hruns. split.
    + intros [(t' & H1 & H2)| ->]; [exists t'|exists t]; (split; [done|apply Hnew]); auto.
    + intros (t' & H1 & [->|H2]%Hnew); [right; congruence|left; by exists t'].
  - intros t' [->|H]%Hnew; [by eexists|by apply Hst].
Qed.
Lemma factory_Start_ok f : factory_ok f →
  factory_ok (factory_Start f) ∧ if_informers (factory_Start f) = if_informers f ∧
  ∀ t, is_Some (if_informers f !! t) → started (factory_Start f) t = true.
Proof.
  intros Hf. unfold factory_Start.
  assert (∀ l g, factory_ok g → if_informers g = if_informers f → (∀ ti, ti ∈ l → ti ∈ range (if_informers f)) →
    factory_ok (fold_left start_one l g) ∧ if_informers (fold_left start_one l g) = if_informers f ∧
    ∀ t, (t ∈ l.*1 ∨ started g t = true) → started (fold_left start_one l g) t = true) as H.
  { induction l as [|[t i] l IH]; intros g Hg Hi Hl; cbn.
    - split_and!; [done|done|]. intros t [Ht|Ht]; [by apply not_elem_of_nil in Ht|done].
    - assert (if_informers g !! t = Some i) as Ht.
      { rewrite Hi. apply elem_of_map_to_list. rewrite <- Hrange. apply Hl. left. }
      destruct (start_one_ok g t i Hg Ht) as (H1 & H2 & H3 & H4).
      destruct (IH (start_one g (t, i)) H1 ltac:(congruence) (λ ti H, Hl ti (list_elem_of_further _ _ _ H))) as (IH1 & IH2 & IH3).
      split_and!; [done|done|]. intros t' [[->|Ht']%elem_of_cons|Ht']; apply IH3; auto. }
  destruct (H (range (if_informers f)) f Hf eq_refl (λ ti H, H)) as (H1 & H2 & H3). split_and!; [done|done|].
  intros t [i Hi]. apply H3. left. apply list_elem_of_fmap. exists (t, i). split; [done|]. rewrite Hrange. by apply elem_of_map_to_list.
Qed.
Lemma factory_step_ok f op : factory_ok f → factory_ok (factory_step f op) ∧ if_informers f ⊆ if_informers (factory_step f op).
Proof.
  intros Hf. destruct op as [t|g v r|]; cbn [factory_step].
  - destruct (InformerFor_ok t f Hf) as (? & ? & _). done.
  - unfold ForResource, Klusters_Informer. case_decide; [|done]. destruct (InformerFor_ok "*v1.Kluster" f Hf) as (? & ? & _).
    by destruct (InformerFor "*v1.Kluster" f).
  - destruct (factory_Start_ok f Hf) as (? & -> & _). done.
Qed.
Lemma factory_run_ok ops : ∀ f, factory_ok f → factory_ok (fold_left factory_step ops f) ∧ if_informers f ⊆ if_informers (fold_left factory_step ops f).
Proof.
  induction ops as [|op ops IH]; intros f Hf; [done|]. destruct (factory_step_ok f op Hf) as [H1 H2].
  destruct (IH _ H1) as [H3 H4]. split; [done|]. by etrans.
Qed.

(** Whatever is asked of the factory and however often it is started: every
    informer runs at most once; a type has one informer for good, which asking
    again returns; and after a start every informer asked for before runs and
    is waited for. *)
Theorem informers_shared ops ops' t :
  let f := fold_left factory_step ops NewSharedInformerFactory in
  let f' := fold_left factory_step ops' (fst (InformerFor t f)) in
  NoDup (if_runs f') ∧ snd (InformerFor t f') = snd (InformerFor t f) ∧
  snd (InformerFor t f) ∈ if_runs (factory_Start f') ∧
  ∀ synced, WaitForCacheSync synced (factory_Start f') !! t = Some (synced (snd (InformerFor t f))).
Proof.
  intros f f'. destruct (factory_run_ok ops NewSharedInformerFactory) as [Hf _].
  { split_and!; [apply map_Forall_empty|done|constructor| |done]. intros i. split; [intros H; by apply not_elem_of_nil in H|]. by intros (? & ? & ?). }
  destruct (InformerFor_ok t f Hf) as (H1 & _ & H2). destruct (factory_run_ok ops' _ H1) as [H3 H4]. fold f' in H3, H4.
  assert (if_informers f' !! t = Some (snd (InformerFor t f))) as H5 by (by eapply lookup_weaken).
  destruct (factory_Start_ok f' H3) as ((_ & _ & _ & Hruns & _) & H7 & H8).
  split_and!.
  - by destruct H3 as (_ & _ & ? & _).
  - unfold InformerFor at 1. by rewrite H5.
  - apply Hruns. exists t. rewrite H7. split; [done|]. apply H8. by eexists.
  - intros synced. unfold WaitForCacheSync. rewrite lookup_fmap.
    assert (filter (λ ti, started (factory_Start f') ti.1 = true) (if_informers (factory_Start f')) !! t = Some (snd (InformerFor t f))) as ->; [|done].
    apply map_lookup_filter_Some. rewrite H7. split; [done|]. cbn. apply H8. by eexists.
Qed.
End Factory.

Lemma informers_shared_witness :
  let f := fold_left (factory_step map_to_list) [FInformerFor "*v1.Kluster"; FStart; FForResource "kubernikus.sap.cc" "v1" "klusters"; FStart]
    NewSharedInformerFactory in
  NoDup (if_runs f) ∧ if_runs f = [0].
Proof.
  split; [|vm_compute; reflexivity].
  apply (informers_shared map_to_list (λ m, reflexivity _) [] [FStart; FForResource "kubernikus.sap.cc" "v1" "klusters"; FStart] "*v1.Kluster").
Defined.
