(* ===== verification/Tunnels.v ===== *)
(** [pkg/cmd/wormhole], [pkg/wormhole], [pkg/client/kubernetes/tunnel.go] and
    [pkg/client/helm]: the tunnels.

    The wormhole client of a node finds the tunnel server of its kluster from
    the kubeconfig of the node, the wormhole server listens for it, and the
    operator reaches Tiller through a forwarded port when it runs outside of the
    cluster.  The traffic itself is the libraries'; which address is dialed,
    which certificates are presented and trusted, which sockets are opened and
    which channels are closed is modelled here. *)
From S2P Require Import Prelude GoStrings Models NetIP Factory Certificates.
From S2P Require Import KubeClient Ground.
Local Open Scope Z_scope.

(** * Kubeconfigs *)
Record KubeContext := { kx_Cluster : string; kx_AuthInfo : string }.
Record KubeCluster := { kl_Server : string; CertificateAuthorityData : option string }.
Record KubeAuthInfo := { ClientCertificateData : string; ClientKeyData : string }.
Record Kubeconfig := { kc_CurrentContext : string; kc_Contexts : gmap string KubeContext;
  kc_Clusters : gmap string KubeCluster; kc_AuthInfos : gmap string KubeAuthInfo }.

(** What [clientcmd.LoadFromFile] makes of a file of the list format *)
Definition kubeconfig_of (c : ClientConfig) : Kubeconfig :=
  {| kc_CurrentContext := KubeClient.CurrentContext c;
     kc_Contexts := list_to_map ((fun '(n, (cl, u)) => (n, {| kx_Cluster := cl; kx_AuthInfo := u |})) <$> KubeClient.Contexts c);
     kc_Clusters := list_to_map ((fun '(n, (s, ca)) =>
       (n, {| kl_Server := s; CertificateAuthorityData := if decide (ca = "") then None else Some ca |})) <$> KubeClient.Clusters c);
     kc_AuthInfos := list_to_map ((fun '(n, (cert, key)) =>
       (n, {| ClientCertificateData := cert; ClientKeyData := key |})) <$> KubeClient.AuthInfos c) |}.

(** * The options of the tunnel library *)
Record GuttleClient := { gc_ServerAddr : string; gc_ListenAddr : string; gc_RootCAs : option string; gc_Certificate : string * string }.
(** [tls.Config]: the pair of files, and the authorities client certificates
    are required and verified against *)
Record TLSConfig := { tc_Certificate : string * string; tc_RequireAndVerifyClientCert : bool; tc_ClientCAs : option string }.
Inductive Listener := LPlain (addr : string) | LTLS (addr : string) (config : TLSConfig).
Record GuttleServer := { gs_Listener : Listener; gs_HijackAddr : string; gs_StaticProxy : string }.

Inductive TunnelCall :=
| TLoadFromFile (path : string)
| TFlattenConfig (c : Kubeconfig)
| TParseURL (url : string)
| TStartClient (c : GuttleClient)
| TDial (address : string) (roots : option string) (certificate : string * string)
| TNewKubeClient (kubeconfig context : string)
| TLoadX509KeyPair (cert key : string)
| TReadFile (path : string)
| TListen (l : Listener)
| TInClusterConfig
| TPodsList (ns selector : string)
| TNewExecutor (ns pod : string)
| TListenAny
| TNewForwarder (ports : string)
| TForwardPorts.
(** A URL is parsed into its host, with the port. *)
#[export] Instance tunnel_iface : Iface TunnelCall := fun c =>
  match c with
  | TLoadFromFile _ | TFlattenConfig _ => Kubeconfig
  | TParseURL _ | TReadFile _ | TListenAny => string
  | TPodsList _ _ => list Pod
  | _ => unit
  end.

(** The tunnel that was made last: its local port and its channels
    [Tunnel], src/pkg/client/kubernetes/tunnel.go:32-42 *)
Record KubeTunnel := { tn_Local : Z; stopChan_closed : bool; readyChan_closed : bool }.

(** [url.Hostname] *)
Definition Hostname (host : string) : string :=
  match IndexByte ":" host with
  | None => host
  | Some i =>
      match IndexByte "]" host with
      | Some j => let h := String.substring 0 j host in if HasPrefix h "[" then str_from 1 h else h
      | None => String.substring 0 i host
      end
  end.

Section Tunnels.
Context {E : Type} `{!Machine TunnelCall E}.
(** X.509, and the environment *)
Context (AppendCertsFromPEM : string -> bool) (X509KeyPair : string -> string -> reply unit) (Getenv : string -> string).
Abbreviation M := (Go (sys KubeTunnel E TunnelCall)).
Definition tcall (c : TunnelCall) : M (resp c) := perform c.
(** * The wormhole client *)

(** [ClientOptions], src/pkg/cmd/wormhole/client.go:42-49 *)
Record ClientOptions := { co_KubeConfig : string; co_Server : string; co_ListenAddr : string; co_Context : string }.
(** [NewClientOptions], src/pkg/cmd/wormhole/client.go:51-56 *)
Definition NewClientOptions : ClientOptions :=
  {| co_KubeConfig := ""; co_Server := ""; co_ListenAddr := "198.18.128.1:6443"; co_Context := "" |}.

(** [Run], src/pkg/cmd/wormhole/client.go:124-134 *)
Definition wormhole_addr (host : string) : string :=
  match Split "." (Hostname host) with
  | c0 :: c => Join ((c0 +:+ "-wormhole") :: c) "." +:+ ":443"
  | [] => ":443"
  end.
(** [Run], src/pkg/cmd/wormhole/client.go:73-164 *)
Definition ClientOptions_Run (o : ClientOptions) : M unit :=
  config ← errorf ("Failed to load kubeconfig file " +:+ quoted (co_KubeConfig o) +:+ ": ") (tcall (TLoadFromFile (co_KubeConfig o)));
  config ← tcall (TFlattenConfig config);
  let contextName := if decide (kc_CurrentContext config = "") then co_Context o else kc_CurrentContext config in
  if decide (contextName = "") then fail (ErrNew "No context given") else
  match kc_Contexts config !! contextName with
  | None => fail (ErrNew ("Context " +:+ contextName +:+ " not found"))
  | Some context =>
  match kc_Clusters config !! kx_Cluster context with
  | None => fail (ErrNew ("Cluster not found " +:+ kx_Cluster context))
  | Some cluster =>
  match kc_AuthInfos config !! kx_AuthInfo context with
  | None => fail (ErrNew ("No auth info found for context " +:+ kx_AuthInfo context))
  | Some authInfo =>
      rootCAs ← match CertificateAuthorityData cluster with
                | None => mret None
                | Some ca => if AppendCertsFromPEM ca then mret (Some ca)
                             else fail (ErrNew ("Failed to load any certs from " +:+ ca))
                end;
      let certificate := (ClientCertificateData authInfo, ClientKeyData authInfo) in
      _ ← errorf "Failed to load certificate/key: " (lift_reply (X509KeyPair (ClientCertificateData authInfo) (ClientKeyData authInfo)));
      serverAddr ← (if decide (co_Server o = "") then wormhole_addr <$> tcall (TParseURL (kl_Server cluster)) else mret (co_Server o));
      tcall (TStartClient {| gc_ServerAddr := serverAddr; gc_ListenAddr := co_ListenAddr o;
                             gc_RootCAs := rootCAs; gc_Certificate := certificate |})
  end end end.
(** How the client opens a connection; the error is logged as well.
    [Dial], src/pkg/cmd/wormhole/client.go:139-151 *)
Definition client_Dial (c : GuttleClient) (address : string) : M unit := tcall (TDial address (gc_RootCAs c) (gc_Certificate c)).

(** * The wormhole server *)

(** [TunnelOptions], src/pkg/wormhole/server/tunnel.go:21-27 *)
Record TunnelOptions := { to_ClientCA : string; to_Certificate : string; to_PrivateKey : string }.

(** The format of the first error has no argument for the error.
    [loadCAFile], src/pkg/wormhole/server/tunnel.go:84-94 *)
Definition loadCAFile (cafile : string) : M string :=
  r ← attempt (tcall (TReadFile cafile));
  match r with
  | Bad _ => fail (ErrNew ("Failed to read file " +:+ cafile +:+ ": %!s(MISSING)"))
  | Ok cas => if AppendCertsFromPEM cas then mret (cas : string) else fail (ErrNew ("No certs found in file " +:+ cafile))
  end.
(** [newTLSConfig], src/pkg/wormhole/server/tunnel.go:96-104 *)
Definition newTLSConfig (cert key : string) : M TLSConfig :=
  _ ← tcall (TLoadX509KeyPair cert key);
  mret {| tc_Certificate := (cert, key); tc_RequireAndVerifyClientCert := false; tc_ClientCAs := None |}.
(** [NewTunnel], src/pkg/wormhole/server/tunnel.go:29-66 *)
Definition NewTunnel (options : TunnelOptions) : M GuttleServer :=
  listener ←
    (if decide (to_Certificate options = "") then
       let l := LPlain "127.0.0.1:8080" in
       _ ← errorf "Failed to listen to 127.0.0.1:8080: " (tcall (TListen l)); mret l
     else
       tlsConfig ← errorf "Failed to load cert or key: " (newTLSConfig (to_Certificate options) (to_PrivateKey options));
       caPool ← errorf ("Faile to load ca file " +:+ to_ClientCA options +:+ ": ") (loadCAFile (to_ClientCA options));
       let tlsConfig := {| tc_Certificate := tc_Certificate tlsConfig; tc_RequireAndVerifyClientCert := true;
                           tc_ClientCAs := Some caPool |} in
       let l := LTLS "0.0.0.0:6553" tlsConfig in
       _ ← errorf "Failed to listen to 0.0.0.0:6553: " (tcall (TListen l)); mret l);
  mret {| gs_Listener := listener; gs_HijackAddr := "127.0.0.1:9191"; gs_StaticProxy := "127.0.0.1:6443" |}.

(** [ServerOptions], src/pkg/wormhole/server.go:20-27 *)
Record ServerOptions := { wo_KubeConfig : string; wo_Context : string; wo_ServiceCIDR : string; wo_Tunnel : TunnelOptions }.
(** [Server], src/pkg/wormhole/server.go:29-36 *)
Record WormholeServer := { ws_serviceCIDR : string; ws_tunnel : GuttleServer }.
(** [NewServer], src/pkg/wormhole/server.go:38-58 *)
Definition NewServer (options : ServerOptions) : M WormholeServer :=
  _ ← tcall (TNewKubeClient (wo_KubeConfig options) (wo_Context options));
  tunnel ← NewTunnel (wo_Tunnel options);
  mret {| ws_serviceCIDR := wo_ServiceCIDR options; ws_tunnel := tunnel |}.
(** [Validate], src/pkg/cmd/wormhole/server.go:56-61 *)
Definition ServerOptions_Validate (o : ServerOptions) : M unit :=
  if decide (wo_ServiceCIDR o = "") then fail (ErrNew "You must specify service-cidr") else mret tt.
(** The command up to the start of the server
    [NewServerCommand], src/pkg/cmd/wormhole/server.go:19-35 *)
Definition server_command (o : ServerOptions) : M WormholeServer :=
  _ ← ServerOptions_Validate o; errorf "Failed to initialize server: " (NewServer o).

(** * The tunnel of the Kubernetes client *)

(** [make(chan struct{}, 1)] twice
    [NewTunnel], src/pkg/client/kubernetes/tunnel.go:45-56 *)
Definition kube_NewTunnel : M unit := set_mem {| tn_Local := 0; stopChan_closed := false; readyChan_closed := false |}.
(** Closing a closed channel panics.
    [Close], src/pkg/client/kubernetes/tunnel.go:59-62 *)
Definition Tunnel_Close : M unit :=
  t ← get_mem;
  if stopChan_closed t then panic "close of closed channel" else
  _ ← set_mem {| tn_Local := tn_Local t; stopChan_closed := true; readyChan_closed := readyChan_closed t |};
  if readyChan_closed t then panic "close of closed channel" else
  set_mem {| tn_Local := tn_Local t; stopChan_closed := true; readyChan_closed := true |}.
(** [getAvailablePort], src/pkg/client/kubernetes/tunnel.go:105-121 *)
Definition getAvailablePort : M Z :=
  addr ← tcall TListenAny;
  hp ← lift_reply (SplitHostPort addr);
  match Atoi (snd hp) with Some port => mret port | None => fail (ErrNew ("strconv.Atoi: parsing " +:+ quoted (snd hp))) end.
(** Nobody sends on the ready channel: receiving from it succeeds when the
    forwarder has closed it.
    [ForwardPort], src/pkg/client/kubernetes/tunnel.go:65-103 *)
Definition ForwardPort (ns podName : string) (remote : Z) : M unit :=
  _ ← tcall (TNewExecutor ns podName);
  local_ ← errorf "could not find an available port: " getAvailablePort;
  t ← get_mem;
  _ ← set_mem {| tn_Local := local_; stopChan_closed := stopChan_closed t; readyChan_closed := readyChan_closed t |};
  _ ← tcall (TNewForwarder (Itoa local_ +:+ ":" +:+ Itoa remote));
  _ ← errorf "forwarding ports: " (tcall TForwardPorts);
  t ← get_mem;
  set_mem {| tn_Local := tn_Local t; stopChan_closed := stopChan_closed t; readyChan_closed := true |}.

(** * The Helm client *)

(** [getPodCondition], src/pkg/client/helm/portforwarder/pod.go:50-60 *)
Definition getPodCondition (status : list PodCondition) (conditionType : string) : option PodCondition :=
  List.find (fun c => bool_decide (pc_Type c = conditionType)) status.
(** [getPodReadyCondition], src/pkg/client/helm/portforwarder/pod.go:43-46 *)
Definition getPodReadyCondition (status : list PodCondition) : option PodCondition := getPodCondition status "Ready".
(** [isPodReadyConditionTrue], src/pkg/client/helm/portforwarder/pod.go:36-39 *)
Definition isPodReadyConditionTrue (status : list PodCondition) : bool :=
  match getPodReadyCondition status with Some c => bool_decide (pc_Status c = "True") | None => false end.
(** [isPodReady], src/pkg/client/helm/portforwarder/pod.go:31-33 *)
Definition isPodReady (pod : Pod) : bool := isPodReadyConditionTrue (Conditions pod).

(** [getFirstRunningPod], src/pkg/client/helm/portforwarder/portforwarder.go:53-68 *)
Definition getFirstRunningPod (ns selector : string) : M Pod :=
  pods ← tcall (TPodsList ns selector);
  if decide (length pods < 1)%nat then fail (ErrNew "could not find tiller")
  else match List.find isPodReady pods with
       | Some p => mret p
       | None => fail (ErrNew "could not find a ready tiller pod")
       end.
(** [getTillerPodName], src/pkg/client/helm/portforwarder/portforwarder.go:43-51 *)
Definition getTillerPodName (ns : string) : M string := pod_Name <$> getFirstRunningPod ns "app=helm,name=tiller".
(** [New], src/pkg/client/helm/portforwarder/portforwarder.go:33-41 *)
Definition portforwarder_New (ns : string) : M unit :=
  podName ← getTillerPodName ns;
  _ ← kube_NewTunnel;
  ForwardPort ns podName 44134.

(** A client: the host it talks to, and whether its finalizer closes the
    tunnel *)
Record HelmClient := { hc_Host : string; hc_finalizer : bool }.
Definition or_env (key default_ : string) : string := if decide (Getenv key = "") then default_ else Getenv key.
(** [NewClient], src/pkg/client/helm/client.go:16-50 *)
Definition helm_NewClient : M HelmClient :=
  let tillerHost := or_env "TILLER_DEPLOY_SERVICE_HOST" "tiller-deploy.kube-system" +:+ ":" +:+
                    or_env "TILLER_DEPLOY_SERVICE_PORT" "44134" in
  r ← attempt (tcall TInClusterConfig);
  match r with
  | Bad _ =>
      _ ← portforwarder_New "kube-system";
      t ← get_mem;
      mret {| hc_Host := "localhost:" +:+ Itoa (tn_Local t); hc_finalizer := true |}
  | Ok _ => mret {| hc_Host := tillerHost; hc_finalizer := false |}
  end.
(** What the garbage collector runs before it frees the client
    [NewClient], src/pkg/client/helm/client.go:40-46 *)
Definition finalize (c : HelmClient) : M unit := if hc_finalizer c then Tunnel_Close else mret tt.
End Tunnels.

(** * The client of a node finds the server of its kluster *)

Lemma IndexByte_none c s : str_has c s = false → IndexByte c s = None.
Proof.
  unfold str_has. rewrite negb_false_iff. induction s as [|d s IH]; [done|]. cbn [str_all IndexByte].
  intros [Hd Hs]%andb_true_iff. rewrite decide_False; [by rewrite IH|].
  intros ->. by rewrite bool_decide_true in Hd.
Qed.

(** The host that is dialed is the server's host with the suffix on its first
    label. *)
Lemma wormhole_addr_of name domain : str_has "." name = false → str_has ":" (name +:+ "." +:+ domain) = false →
  wormhole_addr (name +:+ "." +:+ domain) = (name +:+ "-wormhole." +:+ domain) +:+ ":443".
Proof.
  intros Hn Hc. unfold wormhole_addr, Hostname. rewrite (IndexByte_none _ _ Hc).
  change (name +:+ "." +:+ domain) with (name +:+ String "." domain). rewrite Split_app by done. cbv iota. f_equal.
  pose proof (Join_Split "." domain) as HJ. pose proof (Split_nonempty "." domain) as Hne.
  destruct (Split "." domain) as [|w ws]; [done|].
  change (Join ((name +:+ "-wormhole") :: w :: ws) ".") with ((name +:+ "-wormhole") +:+ "." +:+ Join (w :: ws) ".").
  rewrite HJ. by rewrite !str_app_assoc.
Qed.

Section Meet.
Context {E G : Type} `{!Machine TunnelCall E} `{!Machine GroundCall G}.
Context (AppendCertsFromPEM : string -> bool) (X509KeyPair : string -> string -> reply unit).
Context (now : Z) (EncodeCertPEM : Certificate -> string) (EncodePrivateKeyPEM : nat -> string).

(** The URLs the ground controller sets once *)
Lemma discovered_urls {S} (config : Config) kluster (copy : Kluster) (g : sys S G GroundCall) g1 :
  answer (GKlusterGet (Models.Namespace (Meta kluster)) (Models.Name (Meta kluster))) (env g) = (g1, Ok copy) →
  Apiserver (Status copy) = "" → Wormhole (Status copy) = "" →
  ∃ k', trace (fst (discoverKubernikusInfo config kluster g)) =
      trace g ++ [GKlusterGet (Models.Namespace (Meta kluster)) (Models.Name (Meta kluster)); GKlusterUpdate k'] ∧
    Apiserver (Status k') = "https://" +:+ Models.Name (Meta kluster) +:+ "." +:+ cf_Domain config ∧
    Wormhole (Status k') = "https://" +:+ Models.Name (Meta kluster) +:+ "-wormhole." +:+ cf_Domain config.
Proof.
  intros Hg Ha Hw. unfold discoverKubernikusInfo, gcall.
  erewrite bind_run by (unfold perform; rewrite Hg; reflexivity). cbv zeta.
  rewrite (decide_True _ _ Ha), decide_True by (exact Hw). eexists. split; [|shelve].
  unfold perform. cbn [env trace mem]. destruct (answer (GKlusterUpdate _) g1) as [g2 r]. cbn [fst trace].
  rewrite <- app_assoc. reflexivity.
  Unshelve. split; reflexivity.
Qed.

(** C17: from a kluster to its tunnel. The ground controller publishes the URL
    of the API server of a kluster; the kubeconfig of a node names it as the
    server, with the authority and a certificate from the kluster's secret.
    The wormhole client that is started with such a kubeconfig dials exactly
    the host of the wormhole URL the controller published, on port 443, and
    trusts only the kluster's authority; the secret holds a server certificate
    signed by this authority for exactly that host. *)
Theorem wormhole_meets {S} (config : Config) kluster (copy : Kluster) (g : sys S G GroundCall) g1 ip apiURL authURL n n' m user cert key o
    (s : sys KubeTunnel E TunnelCall) e1 e2 e3 :
  let name := Models.Name (Meta kluster) in
  let host := name +:+ "." +:+ cf_Domain config in
  str_has "." name = false → str_has ":" host = false → name ≠ "" →
  answer (GKlusterGet (Models.Namespace (Meta kluster)) name) (env g) = (g1, Ok copy) →
  Apiserver (Status copy) = "" → Wormhole (Status copy) = "" →
  ApiServiceIP kluster = Ok ip →
  CreateCertificates now EncodeCertPEM EncodePrivateKeyPEM kluster apiURL authURL (cf_Domain config) n = (n', Ret m) →
  (∀ c, EncodeCertPEM c ≠ "" ∧ AppendCertsFromPEM (EncodeCertPEM c) = true) → X509KeyPair cert key = Ok tt →
  ∃ k' ca c, trace (fst (discoverKubernikusInfo config kluster g)) = trace g ++ [GKlusterGet (Models.Namespace (Meta kluster)) name; GKlusterUpdate k'] ∧
    authority EncodeCertPEM EncodePrivateKeyPEM m "tls-ca" kluster ca ∧ Certificates.stored EncodeCertPEM EncodePrivateKeyPEM m "tls-wormhole" c ∧
    SignedBy c = PublicKey ca ∧ ExtKeyUsage c = [ServerAuth] ∧
    let file := kubeconfig_of (NewClientConfigV1 name user (Apiserver (Status k')) key cert (EncodeCertPEM ca)) in
    (answer (TLoadFromFile (co_KubeConfig o)) (env s) = (e1, Ok file) → answer (TFlattenConfig file) e1 = (e2, Ok file) →
     answer (TParseURL (Apiserver (Status k'))) e2 = (e3, Ok host) → co_Server o = "" →
     ∃ peer, "https://" +:+ peer = Wormhole (Status k') ∧ DNSNames c = [peer] ∧
       trace (fst (ClientOptions_Run AppendCertsFromPEM X509KeyPair o s)) =
         trace s ++ [TLoadFromFile (co_KubeConfig o); TFlattenConfig file; TParseURL (Apiserver (Status k'));
           TStartClient {| gc_ServerAddr := peer +:+ ":443"; gc_ListenAddr := co_ListenAddr o;
                           gc_RootCAs := Some (EncodeCertPEM ca); gc_Certificate := (cert, key) |}]).
Proof.
  intros name host Hdot Hcolon Hne Hget Ha Hw Hip Hrun Hpem Hpair.
  destruct (discovered_urls config kluster copy g g1 Hget Ha Hw) as (k' & Ht & Hk & Hkw).
  destruct (wormhole_certificate now EncodeCertPEM EncodePrivateKeyPEM kluster apiURL authURL (cf_Domain config) n ip n' m Hip Hrun)
    as (ca & c & Hca & Hc & Hs & _ & Hdns & Hu).
  exists k', ca, c. split_and!; [done..|]. intros file He1 He2 He3 Hserver.
  exists (name +:+ "-wormhole." +:+ cf_Domain config). split; [by rewrite Hkw|]. split; [done|].
  destruct (Hpem ca) as [Hne' Happ].
  assert (kc_Contexts file !! name = Some {| kx_Cluster := name; kx_AuthInfo := user |}) as Hx by apply lookup_insert_eq.
  assert (kc_Clusters file !! name = Some {| kl_Server := Apiserver (Status k'); CertificateAuthorityData := Some (EncodeCertPEM ca) |}) as Hl.
  { subst file. cbn. by rewrite lookup_insert_eq, decide_False by done. }
  assert (kc_AuthInfos file !! user = Some {| ClientCertificateData := cert; ClientKeyData := key |}) as Hi by apply lookup_insert_eq.
  unfold ClientOptions_Run, tcall, errorf.
  erewrite bind_run by (erewrite bind_run by (unfold attempt, perform; rewrite He1; reflexivity); reflexivity).
  erewrite bind_run by (unfold perform; cbn [env]; rewrite He2; reflexivity).
  change (kc_CurrentContext file) with name. cbv zeta. rewrite (decide_False _ _ Hne), (decide_False _ _ Hne).
  rewrite Hx. cbn [kx_Cluster kx_AuthInfo]. rewrite Hl, Hi. cbn [CertificateAuthorityData ClientCertificateData ClientKeyData kl_Server].
  rewrite Happ, Hpair. erewrite bind_run by reflexivity. erewrite bind_run by reflexivity.
  rewrite (decide_True _ _ Hserver).
  erewrite bind_run by (unfold fmap, go_fmap, perform; cbn [env]; rewrite He3; reflexivity).
  fold host. subst host. rewrite wormhole_addr_of by done.
  unfold perform. cbn [env mem trace]. destruct (answer (TStartClient _) e3) as [e4 r]. cbn. by rewrite <- !app_assoc.
Qed.
End Meet.

(** * What the servers open *)
Section Open.
Context {E : Type} `{!Machine TunnelCall E} (AppendCertsFromPEM : string -> bool) (Getenv : string -> string).
Implicit Types s : sys KubeTunnel E TunnelCall.

(** The socket a tunnel server may listen on *)
Inductive guarded (options : TunnelOptions) : Listener → Prop :=
| guarded_local : to_Certificate options = "" → guarded options (LPlain "127.0.0.1:8080")
| guarded_tls (cas : string) (e e' : E) : to_Certificate options ≠ "" → AppendCertsFromPEM cas = true →
    answer (H:=tunnel_iface) (TReadFile (to_ClientCA options)) e = (e', Ok cas) →
    guarded options (LTLS "0.0.0.0:6553" {| tc_Certificate := (to_Certificate options, to_PrivateKey options);
      tc_RequireAndVerifyClientCert := true; tc_ClientCAs := Some cas |}).

(** C37: the tunnel server is open to the outside only for clients with a
    certificate: whatever fails, the only sockets it ever opens are the one on
    all addresses that requires and verifies client certificates against the
    authorities of the configured file, which holds at least one, and without a
    server certificate the one on the loopback address. It is started on such
    a socket or not at all; what it forwards goes to the local API server. *)
Theorem tunnel_guarded options s : wp (NewTunnel AppendCertsFromPEM options) (λ o s',
  ∃ l, trace s' = trace s ++ l ∧ (∀ li, TListen li ∈ l → guarded options li) ∧
    match o with
    | Ret server => TListen (gs_Listener server) ∈ l ∧ gs_HijackAddr server = "127.0.0.1:9191" ∧ gs_StaticProxy server = "127.0.0.1:6443"
    | Fail _ => True
    | Panic _ => False
    end) s.
Proof.
  unfold NewTunnel, newTLSConfig, loadCAFile, tcall. case_decide as Hc.
  all: wp_run; intros.
  all: eexists; split; [cbn [trace]; by rewrite <- ?app_assoc|].
  all: cbn [gs_Listener gs_HijackAddr gs_StaticProxy tc_Certificate]; split.
  all: try (intros li Hli; rewrite ?elem_of_app, ?list_elem_of_singleton in Hli; destruct_or? Hli; simplify_eq; by econstructor).
  all: rewrite ?elem_of_app, ?list_elem_of_singleton; tauto.
Qed.

End Open.

(** * A node of a concrete kluster *)
Definition demo_wk : Kluster :=
  {| Meta := {| Models.Name := "k-a1"; Models.Namespace := "kubernikus"; UID := ""; Labels := ∅; Annotations := ∅ |};
     Spec := Spec demo_ck; Status := zero_KlusterStatus |}.
Definition demo_ground : Machine GroundCall unit := fun c e =>
  match c with GKlusterGet _ _ => (e, Ok demo_wk) | GKlusterUpdate _ => (e, Ok tt) | _ => (e, Bad (ErrNew "unexpected")) end.
Definition demo_node : Machine TunnelCall Kubeconfig := fun c e =>
  match c with
  | TLoadFromFile _ => (e, Ok e)
  | TFlattenConfig config => (e, Ok config)
  | TParseURL url => (e, Ok (str_from 8 url))
  | TStartClient _ => (e, Ok tt)
  | _ => (e, Bad (ErrNew "unexpected"))
  end.
Definition demo_cert (c : Certificate) : string := "cert " +:+ CommonName (Subject c).
Definition demo_wconfig : Config := {| cf_Domain := "example.com"; cf_AuthURL := ""; cf_ChartDirectory := "" |}.
Definition demo_options : ClientOptions :=
  {| co_KubeConfig := "kubeconfig"; co_Server := ""; co_ListenAddr := "198.18.128.1:6443"; co_Context := "" |}.

Definition demo_file : Kubeconfig :=
  kubeconfig_of (NewClientConfigV1 "k-a1" "node" "https://k-a1.example.com" "key" "cert" "cert TLS").
Definition demo_tunnels : sys KubeTunnel Kubeconfig TunnelCall :=
  Sys {| tn_Local := 0; stopChan_closed := false; readyChan_closed := false |} demo_file [].
Definition demo_created : nat * outcome (gmap string string) := CreateCertificates 0 demo_cert pretty demo_wk "" "" "example.com" 0%nat.
Definition demo_secret_of : gmap string string := match snd demo_created with Ret m => m | _ => ∅ end.
Lemma demo_created_eq : demo_created = (28%nat, Ret demo_secret_of).
Proof. unfold demo_secret_of, demo_created. by rewrite (create_run _ _ _ _ _ _ _ _ [198; 18; 128; 1]) by (vm_compute; reflexivity). Qed.
Lemma demo_authority : demo_secret_of !! ("tls-ca" +:+ ".pem") = Some "cert TLS".
Proof. vm_compute. reflexivity. Qed.

Lemma wormhole_meets_witness :
  ∃ c, DNSNames c = ["k-a1-wormhole.example.com"] ∧
    trace (fst (ClientOptions_Run (Machine0:=demo_node) (fun _ => true) (fun _ _ => Ok tt) demo_options demo_tunnels)) =
    [TLoadFromFile "kubeconfig"; TFlattenConfig demo_file; TParseURL "https://k-a1.example.com";
     TStartClient {| gc_ServerAddr := "k-a1-wormhole.example.com:443"; gc_ListenAddr := "198.18.128.1:6443";
                     gc_RootCAs := Some "cert TLS"; gc_Certificate := ("cert", "key") |}].
Proof.
  destruct (wormhole_meets (Machine0:=demo_node) (Machine1:=demo_ground) (fun _ => true) (fun _ _ => Ok tt) 0 demo_cert pretty
    demo_wconfig demo_wk demo_wk (Sys tt tt []) tt [198; 18; 128; 1] "" "" 0%nat 28%nat demo_secret_of "node" "cert" "key" demo_options
    demo_tunnels demo_file demo_file demo_file) as (k' & ca & c & Ht & [[Hca _] _] & _ & _ & _ & H);
    [vm_compute; reflexivity|vm_compute; reflexivity|done|reflexivity..|vm_compute; reflexivity|exact demo_created_eq|by intros c|reflexivity|].
  - assert (demo_cert ca = "cert TLS") as Hpem.
    { pose proof demo_authority as Hm. congruence. }
    assert (Apiserver (Status k') = "https://k-a1.example.com") as Hk.
    { vm_compute in Ht. injection Ht as <-. reflexivity. }
    rewrite Hpem, Hk in H. destruct H as (peer & Hpeer & Hdns & Hrun); [reflexivity..|].
    assert (Wormhole (Status k') = "https://k-a1-wormhole.example.com") as Hw.
    { vm_compute in Ht. injection Ht as <-. reflexivity. }
    rewrite Hw in Hpeer. injection Hpeer as ->. exists c. split; [exact Hdns|exact Hrun].
Defined.
