(* ===== verification/Operator.v ===== *)
(** [pkg/controller/operator.go] and [pkg/cmd/kubernikus/operator.go]: how the
    operator is put together and started, and the index of pods by release the
    ground controller looks its pods up with, on the store of client-go under
    [vendor].

    Clients, informers and controllers are calls here; what a controller does
    is modelled in the files of the controllers. *)
From stdpp Require Import sorting.
From S2P Require Import Prelude GoStrings Models.
From S2P Require Import Ground.
Local Open Scope Z_scope.

(** * The index of pods *)

(** [MetaLabelReleaseIndexFunc], src/pkg/controller/operator.go:205-214 *)
Definition MetaLabelReleaseIndexFunc (p : Pod) : reply (list string) :=
  match pod_Labels p !! "release" with
  | Some release => Ok [release]
  | None => Bad (ErrNew "object has no release label")
  end.

(** The store of the pod informer with its one index
    [threadSafeMap], src/vendor/k8s.io/client-go/tools/cache/thread_safe_store.go:58-66 *)
Record PodStore := { items : gmap string Pod; indices : gmap string (gset string) }.
(** [initializeCustomInformers], src/pkg/controller/operator.go:230-245 *)
Definition indexers : gmap string (Pod -> reply (list string)) := {["kluster" := MetaLabelReleaseIndexFunc]}.
Definition empty_store : PodStore := {| items := ∅; indices := ∅ |}.

Definition indexed (st : PodStore) (v : string) : gset string := default ∅ (indices st !! v).
(** An error leaves the index as it is.
    [deleteFromIndices], src/vendor/k8s.io/client-go/tools/cache/thread_safe_store.go:274-293 *)
Definition deleteFromIndices (obj : Pod) (key : string) (ix : gmap string (gset string)) : gmap string (gset string) :=
  match MetaLabelReleaseIndexFunc obj with
  | Bad _ => ix
  | Ok vs => fold_left (fun ix v => match ix !! v with Some set => <[v := set ∖ {[key]}]> ix | None => ix end) vs ix
  end.
(** [updateIndices], src/vendor/k8s.io/client-go/tools/cache/thread_safe_store.go:244-270 *)
Definition updateIndices (oldObj : option Pod) (newObj : Pod) (key : string) (ix : gmap string (gset string)) : gmap string (gset string) :=
  let ix := match oldObj with Some o => deleteFromIndices o key ix | None => ix end in
  match MetaLabelReleaseIndexFunc newObj with
  | Bad _ => ix
  | Ok vs => fold_left (fun ix v => <[v := default ∅ (ix !! v) ∪ {[key]}]> ix) vs ix
  end.
(** [Add], src/vendor/k8s.io/client-go/tools/cache/thread_safe_store.go:68-74 *)
Definition store_Add (key : string) (obj : Pod) (st : PodStore) : PodStore :=
  {| items := <[key := obj]> (items st); indices := updateIndices (items st !! key) obj key (indices st) |}.
(** [Update], src/vendor/k8s.io/client-go/tools/cache/thread_safe_store.go:76-82 *)
Definition store_Update (key : string) (obj : Pod) (st : PodStore) : PodStore :=
  {| items := <[key := obj]> (items st); indices := updateIndices (items st !! key) obj key (indices st) |}.
(** [Delete], src/vendor/k8s.io/client-go/tools/cache/thread_safe_store.go:84-91 *)
Definition store_Delete (key : string) (st : PodStore) : PodStore :=
  match items st !! key with
  | Some obj => {| items := delete key (items st); indices := deleteFromIndices obj key (indices st) |}
  | None => st
  end.
(** [Replace], src/vendor/k8s.io/client-go/tools/cache/thread_safe_store.go:122-132 *)
Definition store_Replace (range : gmap string Pod -> list (string * Pod)) (new : gmap string Pod) (st : PodStore) : PodStore :=
  {| items := new; indices := fold_left (fun ix '(key, item) => updateIndices None item key ix) (range new) ∅ |}.
(** The keys of a set are sorted.
    [ByIndex], src/vendor/k8s.io/client-go/tools/cache/thread_safe_store.go:168-186 *)
Definition ByIndex (indexName indexKey : string) (st : PodStore) : reply (list Pod) :=
  match indexers !! indexName with
  | None => Bad (ErrNew ("Index with name " +:+ indexName +:+ " does not exist"))
  | Some _ => Ok (omap (fun key => items st !! key) (merge_sort String.le (elements (indexed st indexKey))))
  end.

(** What the informer does to its store *)
Inductive store_op := SAdd (key : string) (p : Pod) | SUpdate (key : string) (p : Pod) | SDelete (key : string) | SReplace (new : gmap string Pod).
Definition store_step (range : gmap string Pod -> list (string * Pod)) (st : PodStore) (op : store_op) : PodStore :=
  match op with
  | SAdd key p => store_Add key p st
  | SUpdate key p => store_Update key p st
  | SDelete key => store_Delete key st
  | SReplace new => store_Replace range new st
  end.

(** * The operator *)

(** [KubernikusOperatorOptions], src/pkg/controller/operator.go:36-55 *)
Record KubernikusOperatorOptions := {
  op_KubeConfig : string; op_Context : string; op_ChartDirectory : string;
  op_AuthURL : string; op_AuthUsername : string; op_AuthPassword : string; op_AuthDomain : string;
  op_AuthProject : string; op_AuthProjectDomain : string;
  op_KubernikusDomain : string; op_KubernikusProjectID : string; op_KubernikusNetworkID : string;
  op_Namespace : string; op_Controllers : list string; op_MetricPort : Z }.
(** [Config], src/pkg/controller/config/config.go:20-45 *)
Record OperatorConfig := {
  oc_AuthURL : string; oc_AuthUsername : string; oc_AuthPassword : string; oc_AuthDomain : string;
  oc_AuthProject : string; oc_AuthProjectDomain : string; oc_ChartDirectory : string;
  oc_Domain : string; oc_Namespace : string; oc_ProjectID : string; oc_NetworkID : string }.
(** The account of the service user: URL, name, password, domain, project and
    the project's domain *)
Record OpenstackAccount := { oa_AuthURL : string; oa_Username : string; oa_Password : string; oa_Domain : string;
  oa_Project : string; oa_ProjectDomain : string }.
Inductive ControllerKind := GroundController (config : OperatorConfig) | LaunchControllerKind.

Inductive OperatorCall :=
| ONewKubeClient (kubeconfig context : string)
| ONewKubernikusClient (kubeconfig context : string)
| ONewConfig (kubeconfig context : string)
| ONewHelmClient
| ONewApiExtensions
| OEnsureCRD
| OKlusterInformer (ns : string)
| OPodInformer (ns : string)
| ONewOpenstack (account : OpenstackAccount)
| ORecordEvents (ns : string)
| ONewController (k : ControllerKind)
| OWaitForServer
| OStartFactories
| OWaitForCacheSync
| ORunController (k : ControllerKind) (workers : Z).
#[export] Instance operator_iface : Iface OperatorCall := fun _ => unit.

Record KubernikusOperator := { ko_Config : OperatorConfig; ko_Controllers : gmap string ControllerKind }.

Section Operator.
Context {E : Type} `{!Machine OperatorCall E} (range : gmap string ControllerKind -> list (string * ControllerKind)).
Abbreviation M := (Go (sys unit E OperatorCall)).
Definition ocall (c : OperatorCall) : M unit := perform c.

(** The project is the project's domain, and the user's domain stays empty.
    [NewKubernikusOperator], src/pkg/controller/operator.go:80-103 *)
Definition operator_config (options : KubernikusOperatorOptions) : OperatorConfig :=
  {| oc_AuthURL := op_AuthURL options; oc_AuthUsername := op_AuthUsername options; oc_AuthPassword := op_AuthPassword options;
     oc_AuthDomain := ""; oc_AuthProject := op_AuthProjectDomain options; oc_AuthProjectDomain := op_AuthProjectDomain options;
     oc_ChartDirectory := op_ChartDirectory options;
     oc_Domain := op_KubernikusDomain options; oc_Namespace := op_Namespace options;
     oc_ProjectID := op_KubernikusProjectID options; oc_NetworkID := op_KubernikusNetworkID options |}.
(** [initializeCustomInformers], src/pkg/controller/operator.go:216-246 *)
Definition initializeCustomInformers (config : OperatorConfig) : M unit :=
  _ ← attempt (ocall (OKlusterInformer (oc_Namespace config)));
  _ ← attempt (ocall (OPodInformer (oc_Namespace config)));
  mret tt.
(** [NewKubernikusOperator], src/pkg/controller/operator.go:171-179 *)
Definition addController (config : OperatorConfig) (controllers : gmap string ControllerKind) (k : string) : M (gmap string ControllerKind) :=
  if decide (k = "groundctl") then
    _ ← attempt (ocall (ONewController (GroundController config))); mret (<["groundctl" := GroundController config]> controllers)
  else if decide (k = "launchctl") then
    _ ← attempt (ocall (ONewController LaunchControllerKind)); mret (<["launchctl" := LaunchControllerKind]> controllers)
  else mret controllers.
(** [NewKubernikusOperator], src/pkg/controller/operator.go:77-181 *)
Definition NewKubernikusOperator (options : KubernikusOperatorOptions) : M KubernikusOperator :=
  let config := operator_config options in
  _ ← errorf "Failed to create kubernetes clients: " (ocall (ONewKubeClient (op_KubeConfig options) (op_Context options)));
  _ ← errorf "Failed to create kubernikus clients: " (ocall (ONewKubernikusClient (op_KubeConfig options) (op_Context options)));
  _ ← errorf "Failed to create kubernetes config: " (ocall (ONewConfig (op_KubeConfig options) (op_Context options)));
  _ ← errorf "Failed to create helm client: " (ocall ONewHelmClient);
  _ ← errorf "Failed to create apiextenstionsclient: " (ocall ONewApiExtensions);
  _ ← errorf "Couldn't create CRD: " (ocall OEnsureCRD);
  _ ← initializeCustomInformers config;
  _ ← attempt (ocall (ONewOpenstack {| oa_AuthURL := op_AuthURL options; oa_Username := op_AuthUsername options;
        oa_Password := op_AuthPassword options; oa_Domain := op_AuthDomain options;
        oa_Project := op_AuthProject options; oa_ProjectDomain := op_AuthProjectDomain options |}));
  _ ← attempt (ocall (ORecordEvents (oc_Namespace config)));
  controllers ← for_fold (addController config) ∅ (op_Controllers options);
  mret {| ko_Config := config; ko_Controllers := controllers |}.

(** A name that is missing counts as zero.
    [CONTROLLER_OPTIONS], src/pkg/controller/operator.go:69-75 *)
Definition CONTROLLER_OPTIONS (name : string) : Z :=
  if decide (name = "groundctl") then 10 else if decide (name = "launchctl") then 1
  else if decide (name = "wormholegenerator") then 1 else 0.
(** The error of the wait is dropped.
    [Run], src/pkg/controller/operator.go:183-202 *)
Definition Operator_Run (o : KubernikusOperator) : M unit :=
  _ ← attempt (ocall OWaitForServer);
  _ ← attempt (ocall OStartFactories);
  _ ← attempt (ocall OWaitForCacheSync);
  for_each (fun '(name, controller) => _ ← attempt (ocall (ORunController controller (CONTROLLER_OPTIONS name))); mret tt)
    (range (ko_Controllers o)).

(** ** The command *)
(** [NewOperatorOptions], src/pkg/cmd/kubernikus/operator.go:49-60 *)
Definition NewOperatorOptions : KubernikusOperatorOptions :=
  {| op_KubeConfig := ""; op_Context := ""; op_ChartDirectory := "charts/"; op_AuthURL := "http://keystone.monsoon3:5000/v3";
     op_AuthUsername := "kubernikus"; op_AuthPassword := ""; op_AuthDomain := "Default"; op_AuthProject := "";
     op_AuthProjectDomain := ""; op_KubernikusDomain := "kluster.staging.cloud.sap"; op_KubernikusProjectID := "";
     op_KubernikusNetworkID := ""; op_Namespace := "kubernikus"; op_Controllers := ["groundctl"; "launchctl"]; op_MetricPort := 9091 |}.
(** [Validate], src/pkg/cmd/kubernikus/operator.go:81-87 *)
Definition Operator_Validate (o : KubernikusOperatorOptions) : M unit :=
  if decide (op_AuthPassword o = "") then fail (ErrNew "you must specify the auth-password flag") else mret tt.
(** The command until it waits for a signal; the metrics server is left out.
    [Run], src/pkg/cmd/kubernikus/operator.go:93-118 *)
Definition operator_command (o : KubernikusOperatorOptions) : M unit :=
  _ ← Operator_Validate o;
  operator ← NewKubernikusOperator o;
  Operator_Run operator.
End Operator.

(** * The index is right *)

(** The keys of an index value are those of the pods with that release. *)
Definition consistent (st : PodStore) : Prop := ∀ v key,
  key ∈ indexed st v ↔ ∃ p, items st !! key = Some p ∧ pod_Labels p !! "release" = Some v.

Lemma delete_indexed obj key ix v k :
  k ∈ default ∅ (deleteFromIndices obj key ix !! v) ↔
  k ∈ (default ∅ (ix !! v) : gset string) ∧ ¬ (k = key ∧ pod_Labels obj !! "release" = Some v).
Proof.
  unfold deleteFromIndices, MetaLabelReleaseIndexFunc. destruct (pod_Labels obj !! "release") as [w|] eqn:Hw; cbn [fold_left].
  - destruct (ix !! w) as [set|] eqn:Hs.
    + destruct (decide (v = w)) as [->|Hv].
      * rewrite lookup_insert_eq, Hs. cbn. set_solver.
      * rewrite lookup_insert_ne by done. naive_solver.
    + split; [|tauto]. intros Hk. split; [done|]. intros [-> [= ->]]. rewrite Hs in Hk. cbn in Hk. set_solver.
  - naive_solver.
Qed.
Lemma update_indexed old obj key ix v k :
  k ∈ default ∅ (updateIndices old obj key ix !! v) ↔
  (k ∈ (default ∅ (ix !! v) : gset string) ∧ ¬ (k = key ∧ ∃ o, old = Some o ∧ pod_Labels o !! "release" = Some v)) ∨
  (k = key ∧ pod_Labels obj !! "release" = Some v).
Proof.
  assert (∀ ix' : gmap string (gset string), k ∈ default ∅ (match MetaLabelReleaseIndexFunc obj with
      | Bad _ => ix'
      | Ok vs => fold_left (fun ix v => <[v := default ∅ (ix !! v) ∪ {[key]}]> ix) vs ix'
      end !! v) ↔ k ∈ (default ∅ (ix' !! v) : gset string) ∨ (k = key ∧ pod_Labels obj !! "release" = Some v)) as Hadd.
  { intros ix'. unfold MetaLabelReleaseIndexFunc. destruct (pod_Labels obj !! "release") as [w|]; cbn [fold_left]; [|naive_solver].
    destruct (decide (v = w)) as [->|Hv].
    - rewrite lookup_insert_eq. cbn. set_solver.
    - rewrite lookup_insert_ne by done. naive_solver. }
  unfold updateIndices. rewrite Hadd. destruct old as [o|]; [rewrite delete_indexed|]; naive_solver.
Qed.

Lemma put_consistent key p st : consistent st →
  consistent {| items := <[key := p]> (items st); indices := updateIndices (items st !! key) p key (indices st) |}.
Proof.
  intros Hst v k. unfold indexed. cbn [items indices]. rewrite update_indexed. specialize (Hst v k). unfold indexed in Hst. rewrite Hst.
  destruct (decide (k = key)) as [->|Hk].
  - rewrite lookup_insert_eq. naive_solver.
  - rewrite lookup_insert_ne by done. naive_solver.
Qed.

Section Index.
Context (range : gmap string Pod -> list (string * Pod)).
Hypothesis Hrange : ∀ m, range m ≡ₚ map_to_list m.

Lemma rebuild_indexed l ix v k :
  k ∈ default ∅ (fold_left (fun ix '(key, item) => updateIndices None item key ix) l ix !! v) ↔
  k ∈ (default ∅ (ix !! v) : gset string) ∨ ∃ p, (k, p) ∈ l ∧ pod_Labels p !! "release" = Some v.
Proof.
  revert ix. induction l as [|[key item] l IH]; intros ix; cbn [fold_left].
  - split; [by left|]. intros [?|(p & Hp & _)]; [done|]. by apply not_elem_of_nil in Hp.
  - rewrite IH, update_indexed. setoid_rewrite elem_of_cons. naive_solver.
Qed.

Lemma store_step_consistent st op : consistent st → consistent (store_step range st op).
Proof.
  intros Hst. destruct op as [key p|key p|key|new]; cbn [store_step]; [by apply put_consistent..| |].
  - unfold store_Delete. destruct (items st !! key) as [obj|] eqn:Ho; [|done].
    intros v k. unfold indexed. cbn [items indices]. rewrite delete_indexed. specialize (Hst v k). unfold indexed in Hst. rewrite Hst.
    destruct (decide (k = key)) as [->|Hk]; [rewrite lookup_delete_eq|rewrite lookup_delete_ne by done]; naive_solver.
  - intros v k. unfold indexed. cbn [items indices store_Replace]. rewrite rebuild_indexed, lookup_empty. cbn.
    setoid_rewrite Hrange. setoid_rewrite elem_of_map_to_list. set_solver.
Qed.

(** Looking up the keys of a set, in any order *)
Lemma omap_lookup_elements (m : gmap string Pod) (P : string * Pod → Prop) `{!∀ kp, Decision (P kp)} (X : gset string) :
  (∀ k, k ∈ X ↔ ∃ p, m !! k = Some p ∧ P (k, p)) →
  omap (λ k, m !! k) (elements X) ≡ₚ (filter P (map_to_list m)).*2.
Proof.
  intros HX.
  assert (map_to_list (filter P m) ≡ₚ filter P (map_to_list m)) as <-.
  { rewrite map_filter_alt. apply map_to_list_to_map. apply NoDup_fmap_fst.
    - intros k p p' Hp Hp'. apply list_elem_of_filter in Hp as [_ Hp], Hp' as [_ Hp'].
      apply elem_of_map_to_list in Hp, Hp'. congruence.
    - apply NoDup_filter, NoDup_map_to_list. }
  assert (X = dom (filter P m)) as ->.
  { apply set_eq. intros k. rewrite HX, elem_of_dom. unfold is_Some. setoid_rewrite map_lookup_filter_Some. done. }
  assert (elements (dom (filter P m)) ≡ₚ (map_to_list (filter P m)).*1) as ->.
  { apply NoDup_Permutation; [apply NoDup_elements|apply NoDup_fst_map_to_list|]. intros k.
    rewrite elem_of_elements, elem_of_dom, list_elem_of_fmap. split.
    - intros [p Hp]. exists (k, p). split; [done|]. by apply elem_of_map_to_list.
    - intros ([k' p] & -> & Hp). apply elem_of_map_to_list in Hp. by exists p. }
  assert (∀ l : list (string * Pod), (∀ k p, (k, p) ∈ l → m !! k = Some p) → omap (λ k, m !! k) l.*1 = l.*2) as Hl.
  { induction l as [|[k p] l IH]; intros Hl; [done|]. cbn. rewrite (Hl k p) by left. rewrite IH; [done|]. intros; apply Hl; by right. }
  rewrite Hl; [done|]. intros k p Hp. apply elem_of_map_to_list in Hp. by apply map_lookup_filter_Some in Hp as [Hp _].
Qed.

(** C38: whatever the informer does to its store, in any order, the ground
    controller looks up exactly the pods of a release: the index of a release
    name lists every pod with that label once, also when pods were relabelled,
    lost their label or were replaced by a new listing. *)
Theorem pods_of_release ops release :
  let st := fold_left (store_step range) ops empty_store in
  ∃ l, ByIndex "kluster" release st = Ok l ∧
    l ≡ₚ (filter (λ kp, pod_Labels (snd kp) !! "release" = Some release) (map_to_list (items st))).*2.
Proof.
  cbv zeta. set (st := fold_left _ _ _).
  assert (consistent st) as Hst.
  { subst st. assert (consistent empty_store) as H0.
    { intros v k. unfold indexed. cbn. rewrite lookup_empty. cbn. split; [set_solver|]. intros (p & Hp & _). by rewrite lookup_empty in Hp. }
    revert H0. generalize empty_store. induction ops as [|op ops IH]; intros st Hst; [done|]. by apply IH, store_step_consistent. }
  eexists. split; [reflexivity|]. rewrite merge_sort_Permutation. apply omap_lookup_elements. apply Hst.
Qed.
End Index.

(** * Starting the operator *)
Section Started.
Context {E : Type} `{!Machine OperatorCall E} (range : gmap string ControllerKind -> list (string * ControllerKind)).
Hypothesis Hrange : ∀ m, range m ≡ₚ map_to_list m.
Implicit Types s : sys unit E OperatorCall.

(** The clients in the order they are made, with the informers of the one
    namespace *)
Definition setup_calls (o : KubernikusOperatorOptions) : list OperatorCall :=
  [ONewKubeClient (op_KubeConfig o) (op_Context o); ONewKubernikusClient (op_KubeConfig o) (op_Context o);
   ONewConfig (op_KubeConfig o) (op_Context o); ONewHelmClient; ONewApiExtensions; OEnsureCRD].
Definition wiring_calls (o : KubernikusOperatorOptions) : list OperatorCall :=
  [OKlusterInformer (op_Namespace o); OPodInformer (op_Namespace o);
   ONewOpenstack {| oa_AuthURL := op_AuthURL o; oa_Username := op_AuthUsername o; oa_Password := op_AuthPassword o;
     oa_Domain := op_AuthDomain o; oa_Project := op_AuthProject o; oa_ProjectDomain := op_AuthProjectDomain o |};
   ORecordEvents (op_Namespace o)].
Definition is_new (c : OperatorCall) : Prop := match c with ONewController _ => True | _ => False end.

(** A call whose result is ignored *)
Lemma ignored_run c s : ∃ e r, attempt (ocall c) s = (Sys (mem s) e (trace s ++ [c]), Ret r).
Proof. unfold attempt, ocall, perform. destruct (answer c (env s)) as [e [[]|err]]; eauto. Qed.

Definition kind_of (config : OperatorConfig) (k : string) : option ControllerKind :=
  if decide (k = "groundctl") then Some (GroundController config)
  else if decide (k = "launchctl") then Some LaunchControllerKind else None.
Definition register (config : OperatorConfig) (ctl : gmap string ControllerKind) (k : string) : gmap string ControllerKind :=
  match kind_of config k with Some c => <[k := c]> ctl | None => ctl end.

Lemma register_lookup config names ctl n :
  fold_left (register config) names ctl !! n =
  match kind_of config n with Some c => if decide (n ∈ names) then Some c else ctl !! n | None => ctl !! n end.
Proof.
  revert ctl. induction names as [|k names IH]; intros ctl; cbn [fold_left].
  - destruct (kind_of config n); [|done]. rewrite decide_False; [done|]. apply not_elem_of_nil.
  - rewrite IH. unfold register. destruct (decide (n = k)) as [->|Hk].
    + destruct (kind_of config k); [|done]. rewrite (decide_True (P:=k ∈ k :: names)) by left. case_decide; [done|]. by rewrite lookup_insert_eq.
    + assert (∀ ctl, match kind_of config k with Some c => <[k := c]> ctl | None => ctl end !! n = ctl !! n) as ->.
      { intros c. destruct (kind_of config k); [|done]. by rewrite lookup_insert_ne. }
      destruct (kind_of config n); [|done].
      destruct (decide (n ∈ names)) as [Hin|Hin]; [rewrite decide_True by (by right)|rewrite decide_False]; try done.
      by intros [?|?]%elem_of_cons.
Qed.

Lemma wp_ocall c (Q : outcome unit → sys unit E OperatorCall → Prop) s :
  (∀ e, Q (Ret tt) (Sys (mem s) e (trace s ++ [c]))) → (∀ e err, Q (Fail err) (Sys (mem s) e (trace s ++ [c]))) → wp (ocall c) Q s.
Proof. intros H1 H2. refine (wp_perform c Q s _). intros e [[]|err] _; [apply H1|apply H2]. Qed.

Lemma wp_ignored c (Q : outcome (reply unit) → sys unit E OperatorCall → Prop) s :
  (∀ e r, Q (Ret r) (Sys (mem s) e (trace s ++ [c]))) → wp (attempt (ocall c)) Q s.
Proof. intros H. apply wp_attempt, wp_ocall; intros; apply H. Qed.
Lemma wp_of_run {A} (m : Go (sys unit E OperatorCall) A) Q s s' o : m s = (s', o) → Q o s' → wp m Q s.
Proof. intros Hm HQ. apply wp_intro. intros s'' o' Hm'. rewrite Hm in Hm'. by injection Hm' as <- <-. Qed.

Lemma controllers_run config names ctl s : ∃ e created,
  for_fold (addController config) ctl names s = (Sys (mem s) e (trace s ++ created), Ret (fold_left (register config) names ctl)) ∧
  Forall is_new created.
Proof.
  revert ctl s. induction names as [|k names IH]; intros ctl s; cbn [for_fold fold_left].
  - exists (env s), []. rewrite app_nil_r. by destruct s.
  - assert (∃ e new, addController config ctl k s = (Sys (mem s) e (trace s ++ new), Ret (register config ctl k)) ∧ Forall is_new new)
      as (e & new & Hk & Hnew).
    { unfold addController, register, kind_of. repeat case_decide.
      - destruct (ignored_run (ONewController (GroundController config)) s) as (e & r & Hr).
        rewrite (bind_run _ _ _ _ _ Hr). subst. eexists _, _. split; [done|]. by repeat constructor.
      - destruct (ignored_run (ONewController LaunchControllerKind) s) as (e & r & Hr).
        rewrite (bind_run _ _ _ _ _ Hr). subst. eexists _, _. split; [done|]. by repeat constructor.
      - exists (env s), []. rewrite app_nil_r. by destruct s. }
    rewrite (bind_run _ _ _ _ _ Hk). clear Hk.
    destruct (IH (register config ctl k) (Sys (mem s) e (trace s ++ new))) as (e' & created & Hrun & Hc).
    exists e', (new ++ created). split; [rewrite Hrun; cbn [mem trace]; by rewrite app_assoc|]. by apply Forall_app.
Qed.

(** What is started, for the controllers that were made *)
Definition start_of (nc : string * ControllerKind) : OperatorCall := ORunController (snd nc) (CONTROLLER_OPTIONS (fst nc)).
Lemma started_run l s : ∃ e, for_each (fun '(name, controller) =>
    _ ← attempt (ocall (ORunController controller (CONTROLLER_OPTIONS name))); mret tt) l s =
  (Sys (mem s) e (trace s ++ (start_of <$> l)), Ret tt).
Proof.
  revert s. induction l as [|[name c] l IH]; intros s; cbn [for_each].
  - exists (env s). rewrite app_nil_r. by destruct s.
  - destruct (ignored_run (ORunController c (CONTROLLER_OPTIONS name)) s) as (e & r & Hr).
    destruct (IH (Sys (mem s) e (trace s ++ [ORunController c (CONTROLLER_OPTIONS name)]))) as (e' & Hrun).
    exists e'. erewrite bind_run; [|rewrite (bind_run _ _ _ _ _ Hr); reflexivity]. rewrite Hrun. cbn [mem trace].
    by rewrite <- app_assoc.
Qed.

Lemma started_once config names :
  let started := start_of <$> range (fold_left (register config) names ∅) in
  NoDup started ∧ ∀ c, c ∈ started ↔
    (c = ORunController (GroundController config) 10 ∧ "groundctl" ∈ names) ∨ (c = ORunController LaunchControllerKind 1 ∧ "launchctl" ∈ names).
Proof.
  assert (∀ n c, fold_left (register config) names ∅ !! n = Some c ↔
    (n = "groundctl" ∧ c = GroundController config ∧ n ∈ names) ∨ (n = "launchctl" ∧ c = LaunchControllerKind ∧ n ∈ names)) as Hl.
  { intros n c. rewrite register_lookup, lookup_empty. unfold kind_of.
    repeat case_decide; subst; split; intros Hor; try done;
      first [left; split_and!; congruence | right; split_and!; congruence | destruct Hor as [(?&?&?)|(?&?&?)]; congruence]. }
  split.
  - rewrite Hrange. apply NoDup_fmap_2_strong; [|apply NoDup_map_to_list].
    intros [n c] [n' c'] Hc Hc' He. apply elem_of_map_to_list, Hl in Hc, Hc'.
    destruct Hc as [(->&->&_)|(->&->&_)], Hc' as [(->&->&_)|(->&->&_)]; done.
  - intros c. rewrite list_elem_of_fmap. setoid_rewrite Hrange. split.
    + intros ([n k] & -> & [(->&->&?)|(->&->&?)]%elem_of_map_to_list%Hl); [left|right]; done.
    + intros [[-> Hin]|[-> Hin]].
      * exists ("groundctl", GroundController config). split; [done|]. apply elem_of_map_to_list, Hl. by left.
      * exists ("launchctl", LaunchControllerKind). split; [done|]. apply elem_of_map_to_list, Hl. by right.
Qed.

(** One of the clients: the command goes on after a success only. *)
Ltac setup_call :=
  apply wp_bind, wp_errorf, wp_ocall; intros ?; cbn [env trace mem];
  [|intros ? ?; eexists; (split; [cbn [trace]; by rewrite <- ?app_assoc|]); cbn; repeat apply prefix_cons; apply prefix_nil].

(** The operator command starts nothing unless all its clients could be
    built and the resource definition is in place: it fails after an initial
    part of these calls. Otherwise it restricts its informers to its namespace,
    authenticates its OpenStack client with the account of the options, and
    after the caches are filled it starts every known controller of the list
    exactly once, the ground controller with ten workers and the launch
    controller with one, however often they are named and whatever else is. *)
Theorem operator_started o s : op_AuthPassword o ≠ "" →
  wp (operator_command range o) (λ out s', match out with
    | Ret _ => ∃ created started, Forall is_new created ∧
        trace s' = trace s ++ setup_calls o ++ wiring_calls o ++ created ++ [OWaitForServer; OStartFactories; OWaitForCacheSync] ++ started ∧
        NoDup started ∧ ∀ c, c ∈ started ↔
          (c = ORunController (GroundController (operator_config o)) 10 ∧ "groundctl" ∈ op_Controllers o) ∨
          (c = ORunController LaunchControllerKind 1 ∧ "launchctl" ∈ op_Controllers o)
    | Fail _ => ∃ l, trace s' = trace s ++ l ∧ l `prefix_of` setup_calls o
    | Panic _ => False
    end) s.
Proof.
  intros Hp. unfold operator_command, Operator_Validate. rewrite decide_False by done. apply wp_bind, wp_ret, wp_bind.
  unfold NewKubernikusOperator. cbv zeta.
  do 6 setup_call.
  unfold initializeCustomInformers. apply wp_bind.
  do 2 (apply wp_bind, wp_ignored; intros ? ?; cbn [env trace mem]). apply wp_ret.
  do 2 (apply wp_bind, wp_ignored; intros ? ?; cbn [env trace mem]). apply wp_bind.
  match goal with |- wp _ _ ?t => destruct (controllers_run (operator_config o) (op_Controllers o) ∅ t) as (? & created & Hrun & Hnew) end.
  apply (wp_of_run _ _ _ _ _ Hrun), wp_ret. clear Hrun. cbn [trace mem]. unfold Operator_Run.
  do 3 (apply wp_bind, wp_ignored; intros ? ?; cbn [env trace mem]). cbn [ko_Controllers].
  match goal with |- wp (for_each _ ?l) _ ?t => destruct (started_run l t) as (? & Hrun) end.
  apply (wp_of_run _ _ _ _ _ Hrun). cbn [trace mem].
  eexists created, _. split; [done|]. split; [by rewrite <- !app_assoc|]. apply started_once.
Qed.
End Started.

(** * The default options, against services that answer *)
Definition demo_cluster : Machine OperatorCall unit := fun _ e => (e, Ok tt).
Definition demo_operator_options (controllers : list string) : KubernikusOperatorOptions :=
  let o := NewOperatorOptions in
  {| op_KubeConfig := op_KubeConfig o; op_Context := op_Context o; op_ChartDirectory := op_ChartDirectory o;
     op_AuthURL := op_AuthURL o; op_AuthUsername := op_AuthUsername o; op_AuthPassword := "secret"; op_AuthDomain := op_AuthDomain o;
     op_AuthProject := "cloud_admin"; op_AuthProjectDomain := "ccadmin"; op_KubernikusDomain := op_KubernikusDomain o;
     op_KubernikusProjectID := ""; op_KubernikusNetworkID := ""; op_Namespace := op_Namespace o; op_Controllers := controllers;
     op_MetricPort := op_MetricPort o |}.

Lemma operator_started_witness :
  let o := demo_operator_options ["launchctl"; "launchctl"; "unknown"] in
  ∃ created, trace (fst (operator_command (Machine0:=demo_cluster) map_to_list o (Sys tt tt []))) =
    setup_calls o ++ wiring_calls o ++ created ++
    [OWaitForServer; OStartFactories; OWaitForCacheSync; ORunController LaunchControllerKind 1].
Proof.
  intros o.
  pose proof (operator_started (Machine0:=demo_cluster) map_to_list (fun m => reflexivity _) o (Sys tt tt []) ltac:(done)) as H.
  assert (snd (operator_command (Machine0:=demo_cluster) map_to_list o (Sys tt tt [])) = Ret tt) as Hret by (vm_compute; reflexivity).
  apply (λ H, wp_elim _ _ _ _ _ H (surjective_pairing _)) in H.
  rewrite Hret in H. destruct H as (created & started & _ & Ht & Hnd & Hin).
  assert (started = [ORunController LaunchControllerKind 1]) as ->.
  { assert (∀ c, c ∈ started ↔ c = ORunController LaunchControllerKind 1) as Hc.
    { intros c. rewrite Hin. split; [|intros ->; right; split; [done|by left]]. intros [[_ Hg]|[-> _]]; [|done].
      exfalso. revert Hg. apply (bool_decide_unpack _). vm_compute. exact I. }
    apply Permutation_singleton_r, NoDup_Permutation; [done|apply NoDup_singleton|]. intros c. by rewrite Hc, list_elem_of_singleton. }
  exists created. exact Ht.
Defined.

(** Two pods of a release, one of which is relabelled *)
Definition demo_pod (name : string) (labels : gmap string string) : Pod :=
  {| pod_Namespace := "kubernikus"; pod_Name := name; pod_Labels := labels; Conditions := [] |}.
Definition demo_ops : list store_op :=
  [SAdd "a" (demo_pod "a" {["release" := "k-a1"]}); SAdd "b" (demo_pod "b" {["release" := "k-a1"]});
   SUpdate "a" (demo_pod "a" {["release" := "k-a2"]}); SAdd "c" (demo_pod "c" ∅)].
Lemma pods_of_release_witness :
  ∃ l, ByIndex "kluster" "k-a1" (fold_left (store_step map_to_list) demo_ops empty_store) = Ok l ∧ length l = 1%nat.
Proof.
  destruct (pods_of_release map_to_list (fun m => reflexivity _) demo_ops "k-a1") as (l & Hl & Hp).
  exists l. split; [exact Hl|]. rewrite Hp. vm_compute. reflexivity.
Defined.
