(* ===== verification/Server.v ===== *)
(** [pkg/api/rest/server.go], [kubeclient.go], [Configure] and
    [cmd/apiserver]: the process of the API server, from its options and
    environment to the sockets it serves.

    Sockets, files and the graceful server are calls; a served socket is
    recorded with its configuration, and serving ends at once.  [os.Exit] is
    the panic [exit].  Durations are nanoseconds. *)
From S2P Require Import Prelude GoStrings NetIP.
Local Open Scope Z_scope.

Definition schemeHTTP : string := "http".
Definition schemeHTTPS : string := "https".
Definition schemeUnix : string := "unix".
(** [init], src/pkg/api/rest/server.go:35-39 *)
Definition defaultSchemes : list string := [schemeHTTP].

(** How the API's handler was made: by [configureAPI], or by [Serve] itself *)
Inductive server_handler := HConfigured | HDefault.

(** [tls.Config], as far as the options reach *)
Record TLSOptions := { tl_Certificate : option (string * string); tl_ClientCAs : option string; tl_RequireAndVerify : bool }.
(** [graceful.Server] *)
Record GracefulServer := {
  gr_Listener : string; gr_Handler : server_handler; gr_MaxHeaderBytes : Z; gr_ReadTimeout : Z; gr_WriteTimeout : Z;
  gr_KeepAlive : bool; gr_TCPKeepAlive : Z; gr_ListenLimit : Z; gr_Timeout : Z; gr_TLS : option TLSOptions }.

Inductive ServerCall :=
| SNetListen (network addr : string)
| SLoadX509KeyPair (cert key : string)
| SReadFile (path : string)
| SServe (scheme : string) (server : GracefulServer)
| SSpec
| SKubernikusClient (kubeconfig context : string)
| SKubernetesClient (kubeconfig context : string)
| SKubeConfig (kubeconfig context : string)
| SApiExtensions
| SEnsureCRD
| SLoadPolicy
| SPolicyAuthorizer.
(** A listener replies with its address. *)
#[export] Instance server_iface : Iface ServerCall := fun c =>
  match c with SNetListen _ _ | SReadFile _ => string | _ => unit end.

(** [Server], src/pkg/api/rest/server.go:164-194 *)
Record Server := {
  EnabledListeners : list string; CleanupTimeout : Z; MaxHeaderSize : Z;
  SocketPath : string; domainSocketL : option string;
  Host : string; Port : Z; ListenLimit : Z; KeepAlive : Z; ReadTimeout : Z; WriteTimeout : Z; httpServerL : option string;
  TLSHost : string; TLSPort : Z; TLSCertificate : string; TLSCertificateKey : string; TLSCACertificate : string;
  TLSListenLimit : Z; TLSKeepAlive : Z; TLSReadTimeout : Z; TLSWriteTimeout : Z; httpsServerL : option string;
  sv_api : bool; sv_handler : option server_handler; hasListeners : bool }.

Definition seconds (n : Z) : Z := n * 1000000000.
(** The options that are not set on the command line
    [init], src/pkg/api/rest/server.go:66-91 *)
Definition default_flags : Server :=
  {| EnabledListeners := defaultSchemes; CleanupTimeout := seconds 10; MaxHeaderSize := 1000000;
     SocketPath := "/var/run/todo-list.sock"; domainSocketL := None;
     Host := "localhost"; Port := 0; ListenLimit := 0; KeepAlive := seconds 180; ReadTimeout := seconds 30; WriteTimeout := seconds 30;
     httpServerL := None;
     TLSHost := "localhost"; TLSPort := 0; TLSCertificate := ""; TLSCertificateKey := ""; TLSCACertificate := "";
     TLSListenLimit := 0; TLSKeepAlive := seconds 180; TLSReadTimeout := seconds 30; TLSWriteTimeout := seconds 30; httpsServerL := None;
     sv_api := false; sv_handler := None; hasListeners := false |}.

(** [net.JoinHostPort] *)
Definition JoinHostPort (host port : string) : string :=
  if str_has ":" host || str_has "%" host then "[" +:+ host +:+ "]:" +:+ port else host +:+ ":" +:+ port.
(** [SplitHostPort], src/vendor/github.com/go-openapi/swag/net.go:10-24 *)
Definition swag_SplitHostPort (addr : string) : reply (string * Z) :=
  match SplitHostPort addr with
  | Bad e => Bad e
  | Ok (h, p) =>
      if decide (p = "") then Bad (ErrNew ("address " +:+ addr +:+ ": missing port in address"))
      else match Atoi p with
           | Some pi => Ok (h, pi)
           | None => Bad (ErrNew ("strconv.Atoi: parsing " +:+ quoted p +:+ ": invalid syntax"))
           end
  end.

Section Server.
Context {E : Type} `{!Machine ServerCall E} (Getenv : string -> string).
Abbreviation M := (Go (sys Server E ServerCall)).
Definition svcall (c : ServerCall) : M (resp c) := perform c.
Definition exit {A} : M A := panic "exit status 1".

(** [stringEnvOverride], src/pkg/api/rest/server.go:93-103 *)
Definition stringEnvOverride (orig def : string) (keys : list string) : string :=
  match List.find (fun k => negb (bool_decide (Getenv k = ""))) keys with
  | Some k => Getenv k
  | None => if decide (def ≠ "" ∧ orig = "") then def else orig
  end.
(** [intEnvOverride], src/pkg/api/rest/server.go:105-120 *)
Definition intEnvOverride (orig def : Z) (keys : list string) : M Z :=
  match List.find (fun k => negb (bool_decide (Getenv k = ""))) keys with
  | Some k => match Atoi (Getenv k) with Some v => mret v | None => exit end
  | None => mret (if decide (def ≠ 0 ∧ orig = 0) then def else orig)
  end.

(** The options of the command line are the fields of [f].
    [NewServer], src/pkg/api/rest/server.go:123-147 *)
Definition NewServer (f : Server) (api : bool) : M unit :=
  let host := stringEnvOverride (Host f) "" ["HOST"] in
  port ← intEnvOverride (Port f) 0 ["PORT"];
  tlsPort ← intEnvOverride (TLSPort f) 0 ["TLS_PORT"];
  set_mem
    {| EnabledListeners := EnabledListeners f; CleanupTimeout := CleanupTimeout f; MaxHeaderSize := MaxHeaderSize f;
       SocketPath := SocketPath f; domainSocketL := None;
       Host := host; Port := port; ListenLimit := ListenLimit f; KeepAlive := KeepAlive f; ReadTimeout := ReadTimeout f;
       WriteTimeout := WriteTimeout f; httpServerL := None;
       TLSHost := stringEnvOverride (TLSHost f) host ["TLS_HOST"; "HOST"]; TLSPort := tlsPort;
       TLSCertificate := stringEnvOverride (TLSCertificate f) "" ["TLS_CERTIFICATE"];
       TLSCertificateKey := stringEnvOverride (TLSCertificateKey f) "" ["TLS_PRIVATE_KEY"];
       TLSCACertificate := stringEnvOverride (TLSCACertificate f) "" ["TLS_CA_CERTIFICATE"];
       TLSListenLimit := TLSListenLimit f; TLSKeepAlive := TLSKeepAlive f; TLSReadTimeout := TLSReadTimeout f;
       TLSWriteTimeout := TLSWriteTimeout f; httpsServerL := None;
       sv_api := api; sv_handler := None; hasListeners := false |}.

Definition with_handler (h : option server_handler) (s : Server) : Server :=
  {| EnabledListeners := EnabledListeners s; CleanupTimeout := CleanupTimeout s; MaxHeaderSize := MaxHeaderSize s;
     SocketPath := SocketPath s; domainSocketL := domainSocketL s; Host := Host s; Port := Port s; ListenLimit := ListenLimit s;
     KeepAlive := KeepAlive s; ReadTimeout := ReadTimeout s; WriteTimeout := WriteTimeout s; httpServerL := httpServerL s;
     TLSHost := TLSHost s; TLSPort := TLSPort s; TLSCertificate := TLSCertificate s; TLSCertificateKey := TLSCertificateKey s;
     TLSCACertificate := TLSCACertificate s; TLSListenLimit := TLSListenLimit s; TLSKeepAlive := TLSKeepAlive s;
     TLSReadTimeout := TLSReadTimeout s; TLSWriteTimeout := TLSWriteTimeout s; httpsServerL := httpsServerL s;
     sv_api := sv_api s; sv_handler := h; hasListeners := hasListeners s |}.
Definition update (f : Server -> Server) : M unit := s ← get_mem; set_mem (f s).

(** [ConfigureAPI], src/pkg/api/rest/server.go:150-154 *)
Definition ConfigureAPI : M unit :=
  s ← get_mem; if sv_api s then set_mem (with_handler (Some HConfigured) s) else mret tt.
(** [SetHandler], src/pkg/api/rest/server.go:487-489 *)
Definition SetHandler (h : option server_handler) : M unit := update (with_handler h).

(** [hasScheme], src/pkg/api/rest/server.go:229-241 *)
Definition hasScheme (s : Server) (scheme : string) : bool :=
  let schemes := match EnabledListeners s with [] => defaultSchemes | l => l end in
  existsb (fun v => bool_decide (v = scheme)) schemes.

(** [Listen], src/pkg/api/rest/server.go:410-431 *)
Definition tls_defaults (s : Server) : Server :=
  {| EnabledListeners := EnabledListeners s; CleanupTimeout := CleanupTimeout s; MaxHeaderSize := MaxHeaderSize s;
     SocketPath := SocketPath s; domainSocketL := domainSocketL s; Host := Host s; Port := Port s; ListenLimit := ListenLimit s;
     KeepAlive := KeepAlive s; ReadTimeout := ReadTimeout s; WriteTimeout := WriteTimeout s; httpServerL := httpServerL s;
     TLSHost := if decide (TLSHost s = "") then Host s else TLSHost s; TLSPort := TLSPort s;
     TLSCertificate := TLSCertificate s; TLSCertificateKey := TLSCertificateKey s; TLSCACertificate := TLSCACertificate s;
     TLSListenLimit := if decide (TLSListenLimit s = 0) then ListenLimit s else TLSListenLimit s;
     TLSKeepAlive := if decide (TLSKeepAlive s = 0) then KeepAlive s else TLSKeepAlive s;
     TLSReadTimeout := if decide (TLSReadTimeout s = 0) then ReadTimeout s else TLSReadTimeout s;
     TLSWriteTimeout := if decide (TLSWriteTimeout s = 0) then WriteTimeout s else TLSWriteTimeout s;
     httpsServerL := httpsServerL s; sv_api := sv_api s; sv_handler := sv_handler s; hasListeners := hasListeners s |}.
Definition with_sockets (unix http https : option string) (host : string) (port : Z) (tlsHost : string) (tlsPort : Z) (all : bool) (s : Server) : Server :=
  {| EnabledListeners := EnabledListeners s; CleanupTimeout := CleanupTimeout s; MaxHeaderSize := MaxHeaderSize s;
     SocketPath := SocketPath s; domainSocketL := unix; Host := host; Port := port; ListenLimit := ListenLimit s;
     KeepAlive := KeepAlive s; ReadTimeout := ReadTimeout s; WriteTimeout := WriteTimeout s; httpServerL := http;
     TLSHost := tlsHost; TLSPort := tlsPort; TLSCertificate := TLSCertificate s; TLSCertificateKey := TLSCertificateKey s;
     TLSCACertificate := TLSCACertificate s; TLSListenLimit := TLSListenLimit s; TLSKeepAlive := TLSKeepAlive s;
     TLSReadTimeout := TLSReadTimeout s; TLSWriteTimeout := TLSWriteTimeout s; httpsServerL := https;
     sv_api := sv_api s; sv_handler := sv_handler s; hasListeners := all |}.
(** [Listen], src/pkg/api/rest/server.go:433-439 *)
Definition listen_unix : M unit :=
  s ← get_mem;
  l ← svcall (SNetListen "unix" (SocketPath s));
  update (fun s => with_sockets (Some (l : string)) (httpServerL s) (httpsServerL s) (Host s) (Port s) (TLSHost s) (TLSPort s) (hasListeners s) s).
(** [Listen], src/pkg/api/rest/server.go:441-454 *)
Definition listen_http : M unit :=
  s ← get_mem;
  l ← svcall (SNetListen "tcp" (JoinHostPort (Host s) (Itoa (Port s))));
  hp ← lift_reply (swag_SplitHostPort l);
  update (fun s => with_sockets (domainSocketL s) (Some (l : string)) (httpsServerL s) (fst hp) (snd hp) (TLSHost s) (TLSPort s) (hasListeners s) s).
(** [Listen], src/pkg/api/rest/server.go:456-469 *)
Definition listen_https : M unit :=
  s ← get_mem;
  l ← svcall (SNetListen "tcp" (JoinHostPort (TLSHost s) (Itoa (TLSPort s))));
  hp ← lift_reply (swag_SplitHostPort l);
  update (fun s => with_sockets (domainSocketL s) (httpServerL s) (Some (l : string)) (Host s) (Port s) (fst hp) (snd hp) (hasListeners s) s).
Definition when (b : bool) (m : M unit) : M unit := if b then m else mret tt.
(** [Listen], src/pkg/api/rest/server.go:405-473 *)
Definition Listen : M unit :=
  s ← get_mem;
  if hasListeners s then mret tt else
  _ ← when (hasScheme s schemeHTTPS) (update tls_defaults);
  _ ← when (hasScheme s schemeUnix) listen_unix;
  _ ← when (hasScheme s schemeHTTP) listen_http;
  _ ← when (hasScheme s schemeHTTPS) listen_https;
  update (fun s => with_sockets (domainSocketL s) (httpServerL s) (httpsServerL s) (Host s) (Port s) (TLSHost s) (TLSPort s) true s).

Definition handler_of (s : Server) : server_handler := default HDefault (sv_handler s).
(** [Serve], src/pkg/api/rest/server.go:262-274 *)
Definition unix_server (s : Server) : GracefulServer :=
  {| gr_Listener := default "" (domainSocketL s); gr_Handler := handler_of s; gr_MaxHeaderBytes := MaxHeaderSize s;
     gr_ReadTimeout := 0; gr_WriteTimeout := 0; gr_KeepAlive := true; gr_TCPKeepAlive := 0; gr_ListenLimit := 0;
     gr_Timeout := Z.max 0 (CleanupTimeout s); gr_TLS := None |}.
(** [Serve], src/pkg/api/rest/server.go:284-305 *)
Definition http_server (s : Server) : GracefulServer :=
  {| gr_Listener := default "" (httpServerL s); gr_Handler := handler_of s; gr_MaxHeaderBytes := MaxHeaderSize s;
     gr_ReadTimeout := ReadTimeout s; gr_WriteTimeout := WriteTimeout s; gr_KeepAlive := 0 <? KeepAlive s;
     gr_TCPKeepAlive := KeepAlive s; gr_ListenLimit := Z.max 0 (ListenLimit s); gr_Timeout := Z.max 0 (CleanupTimeout s); gr_TLS := None |}.
(** A key pair that does not load is an error only after the authorities were
    read; an authority that cannot be read ends the process.
    [Serve], src/pkg/api/rest/server.go:351-385 *)
Definition tls_options (s : Server) : M TLSOptions :=
  pair ← (if decide (TLSCertificate s ≠ "" ∧ TLSCertificateKey s ≠ "")
          then Some <$> attempt (svcall (SLoadX509KeyPair (TLSCertificate s) (TLSCertificateKey s))) else mret None);
  ca ← (if decide (TLSCACertificate s = "") then mret None else
        r ← attempt (svcall (SReadFile (TLSCACertificate s)));
        match r with Ok cas => mret (Some (cas : string)) | Bad _ => exit end);
  match pair with
  | Some (Bad err) => fail err
  | Some (Ok _) => mret {| tl_Certificate := Some (TLSCertificate s, TLSCertificateKey s); tl_ClientCAs := ca; tl_RequireAndVerify := bool_decide (ca ≠ None) |}
  | None => exit
  end.
(** [Serve], src/pkg/api/rest/server.go:315-328 *)
Definition https_server (s : Server) (t : TLSOptions) : GracefulServer :=
  {| gr_Listener := default "" (httpsServerL s); gr_Handler := handler_of s; gr_MaxHeaderBytes := MaxHeaderSize s;
     gr_ReadTimeout := TLSReadTimeout s; gr_WriteTimeout := TLSWriteTimeout s; gr_KeepAlive := 0 <? TLSKeepAlive s;
     gr_TCPKeepAlive := TLSKeepAlive s; gr_ListenLimit := Z.max 0 (TLSListenLimit s); gr_Timeout := Z.max 0 (CleanupTimeout s); gr_TLS := Some t |}.
(** A server that ends with an error ends the process.
    [Serve], src/pkg/api/rest/server.go:276-281 *)
Definition serve_on (scheme : string) (g : GracefulServer) : M unit :=
  r ← attempt (svcall (SServe scheme g)); match r with Ok _ => mret tt | Bad _ => exit end.
(** [Serve], src/pkg/api/rest/server.go:244-402 *)
Definition Serve : M unit :=
  s ← get_mem;
  _ ← when (negb (hasListeners s)) Listen;
  s ← get_mem;
  _ ← match sv_handler s with
      | Some _ => mret tt
      | None => if sv_api s then SetHandler (Some HDefault)
                else fail (ErrNew "can't create the default handler, as no api is set")
      end;
  s ← get_mem;
  _ ← when (hasScheme s schemeUnix) (serve_on schemeUnix (unix_server s));
  _ ← when (hasScheme s schemeHTTP) (serve_on schemeHTTP (http_server s));
  when (hasScheme s schemeHTTPS) (t ← tls_options s; serve_on schemeHTTPS (https_server s t)).

(** * The process *)
(** [NewKubeClients], src/pkg/api/rest/kubeclient.go:24-50 *)
Definition NewKubeClients (kubeconfig context : string) : M unit :=
  _ ← errorf "Failed to create kubernikus clients: " (svcall (SKubernikusClient kubeconfig context));
  _ ← errorf "Failed to create kubernetes clients: " (svcall (SKubernetesClient kubeconfig context));
  _ ← errorf "Failed to create kubernetes config: " (svcall (SKubeConfig kubeconfig context));
  _ ← errorf "Failed to create apiextenstionsclient: " (svcall SApiExtensions);
  errorf "Couldn't create CRD: " (svcall SEnsureCRD).
(** What can fail of the configuration
    [Configure], src/pkg/api/rest/configure.go:22-52 *)
Definition Configure : M unit := _ ← svcall SLoadPolicy; _ ← svcall SSpec; svcall SPolicyAuthorizer.
(** An error is logged and ends the process.
    [main], src/cmd/apiserver/main.go:33-37 *)
Definition or_exit {A} (m : M A) : M A := r ← attempt m; match r with Ok a => mret a | Bad _ => exit end.
(** [main], src/cmd/apiserver/main.go:26-99 *)
Definition apiserver_main (kubeconfig context : string) (flags : Server) : M unit :=
  _ ← or_exit (svcall SSpec);
  _ ← or_exit (NewKubeClients kubeconfig context);
  _ ← or_exit Configure;
  _ ← NewServer flags true;
  _ ← ConfigureAPI;
  or_exit Serve.
End Server.

(** * What is served *)
Section Served.
Context {E : Type} `{!Machine ServerCall E} (Getenv : string -> string).
Implicit Types s : sys Server E ServerCall.

(** The options that do not change while the server starts *)
Definition same_options (a b : Server) : Prop :=
  EnabledListeners b = EnabledListeners a ∧ sv_handler b = sv_handler a ∧ sv_api b = sv_api a ∧
  TLSCertificate b = TLSCertificate a ∧ TLSCertificateKey b = TLSCertificateKey a ∧ TLSCACertificate b = TLSCACertificate a.
(** The network and the address a scheme is configured for *)
Definition configured (sv : Server) (scheme : string) : string * string :=
  if decide (scheme = schemeUnix) then ("unix", SocketPath sv)
  else if decide (scheme = schemeHTTP) then ("tcp", JoinHostPort (Host sv) (Itoa (Port sv)))
  else ("tcp", JoinHostPort (if decide (TLSHost sv = "") then Host sv else TLSHost sv) (Itoa (TLSPort sv))).
Definition socket (sv : Server) (scheme : string) : option string :=
  if decide (scheme = schemeUnix) then domainSocketL sv else if decide (scheme = schemeHTTP) then httpServerL sv else httpsServerL sv.
(** [a] is the address of a socket that was opened for the scheme. *)
Definition opened (sv : Server) (scheme a : string) : Prop :=
  ∃ e e' : E, answer (H:=server_iface) (SNetListen (fst (configured sv scheme)) (snd (configured sv scheme))) e = (e', Ok a).
Definition known : list string := [schemeUnix; schemeHTTP; schemeHTTPS].
Definition is_listen (c : ServerCall) : Prop := match c with SNetListen _ _ => True | _ => False end.

Lemma Listen_opens s : hasListeners (mem s) = false →
  wp Listen (λ o s', (∃ l, trace s' = trace s ++ l ∧ Forall is_listen l) ∧ same_options (mem s) (mem s') ∧
    match o with
    | Ret _ => hasListeners (mem s') = true ∧ ∀ scheme, scheme ∈ known → hasScheme (mem s) scheme = true →
        ∃ a, socket (mem s') scheme = Some a ∧ opened (mem s) scheme a
    | Fail _ => hasListeners (mem s') = false
    | Panic _ => False
    end) s.
Proof.
  destruct s as [sv e0 t]. cbn [mem]. intros Hl. unfold Listen, listen_unix, listen_http, listen_https, when, update, svcall.
  assert (∀ b, hasScheme (tls_defaults sv) b = hasScheme sv b) as Hsame by done.
  wp_run; try congruence; destruct sv; cbn -[hasScheme] in *; subst.
  all: split; [(eexists; (split; [by rewrite <- ?app_assoc|])) || (exists []; (split; [by rewrite app_nil_r|])); by repeat constructor|].
  all: split; [by split_and!|]; try done.
  all: split; [done|]; intros scheme Hin Hs; unfold known in Hin; set_unfold in Hin; destruct_or! Hin; subst scheme; try congruence.
  all: eexists; (split; [reflexivity|]); eexists _, _; eassumption.
Qed.

(** The schemes that are served, in this order *)
Definition served_schemes (l : list ServerCall) : list string := omap (fun c => match c with SServe scheme _ => Some scheme | _ => None end) l.
(** A server for one of the schemes *)
Definition serves (sv : Server) (scheme : string) (g : GracefulServer) : Prop :=
  scheme ∈ known ∧ hasScheme sv scheme = true ∧ gr_Handler g = handler_of sv ∧ opened sv scheme (gr_Listener g) ∧
  match gr_TLS g with
  | None => scheme ≠ schemeHTTPS
  | Some t => scheme = schemeHTTPS ∧ tl_Certificate t = Some (TLSCertificate sv, TLSCertificateKey sv) ∧
      (∃ e e' : E, answer (H:=server_iface) (SLoadX509KeyPair (TLSCertificate sv) (TLSCertificateKey sv)) e = (e', Ok tt)) ∧
      (TLSCACertificate sv ≠ "" → tl_RequireAndVerify t = true ∧ ∃ (cas : string) (e e' : E),
         tl_ClientCAs t = Some cas ∧ answer (H:=server_iface) (SReadFile (TLSCACertificate sv)) e = (e', Ok cas))
  end.

Lemma served_none l : Forall is_listen l → served_schemes l = [].
Proof. induction 1 as [|c l Hc _ IH]; [done|]. by destruct c. Qed.
Lemma listen_not_served l scheme g : Forall is_listen l → SServe scheme g ∉ l.
Proof. rewrite Forall_forall. by intros H ?%H. Qed.

Lemma tls_options_spec sv s Q :
  (∀ s' o l, trace s' = trace s ++ l → served_schemes l = [] → (∀ scheme g, SServe scheme g ∉ l) →
     match o with
     | Ret t => tl_Certificate t = Some (TLSCertificate sv, TLSCertificateKey sv) ∧
         (∃ e e' : E, answer (H:=server_iface) (SLoadX509KeyPair (TLSCertificate sv) (TLSCertificateKey sv)) e = (e', Ok tt)) ∧
         (TLSCACertificate sv ≠ "" → tl_RequireAndVerify t = true ∧ ∃ (cas : string) (e e' : E),
           tl_ClientCAs t = Some cas ∧ answer (H:=server_iface) (SReadFile (TLSCACertificate sv)) e = (e', Ok cas))
     | _ => True
     end → Q o s') →
  wp (tls_options sv) Q s.
Proof.
  intros HQ. unfold tls_options, exit, svcall. wp_run; eapply HQ; try done.
  all: try (cbn [trace]; first [by rewrite <- ?app_assoc | by rewrite app_nil_r]).
  all: try (intros ? ? Hin; cbn in Hin; repeat (apply elem_of_cons in Hin as [[=]|Hin]); by apply not_elem_of_nil in Hin).
  all: cbn; (split; [done|]); (split; [match goal with u : resp (SLoadX509KeyPair _ _) |- _ => destruct u end; eexists _, _; eassumption|]).
  - done.
  - intros _. split; [done|]. eexists _, _, _. split; [done|]. eassumption.
Qed.

(** The calls [l] serve the enabled ones of the schemes [done]. *)
Definition progress (sv : Server) (done : list string) (l : list ServerCall) : Prop :=
  (∀ scheme g, SServe scheme g ∈ l → serves sv scheme g) ∧ served_schemes l = filter (λ scheme, hasScheme sv scheme = true) done.
Lemma progress_served sv done l scheme g : progress sv done l → hasScheme sv scheme = true → serves sv scheme g →
  progress sv (done ++ [scheme]) (l ++ [SServe scheme g]).
Proof.
  intros [Hl Hd] Hs Hg. split.
  - intros scheme' g' [Hin|[= -> ->]%list_elem_of_singleton]%elem_of_app; [by apply Hl|done].
  - unfold served_schemes in *. rewrite omap_app, Hd, filter_app. cbn. by rewrite decide_True.
Qed.
Lemma progress_skipped sv done l scheme : progress sv done l → hasScheme sv scheme = false → progress sv (done ++ [scheme]) l.
Proof. intros [Hl Hd] Hs. split; [done|]. rewrite Hd, filter_app. cbn. rewrite decide_False by congruence. by rewrite app_nil_r. Qed.
Lemma progress_other sv done l l' : progress sv done l → served_schemes l' = [] → (∀ scheme g, SServe scheme g ∉ l') →
  progress sv done (l ++ l').
Proof.
  intros [Hl Hd] Hs Hn. split; [intros ? ? [?|Hin]%elem_of_app; [by apply Hl|by apply Hn in Hin]|].
  unfold served_schemes in *. by rewrite omap_app, Hd, Hs, app_nil_r.
Qed.

(** Serving one scheme keeps the progress, also when it ends the process. *)
Lemma serve_step sv done scheme g (Q : outcome unit → sys Server E ServerCall → Prop) s t l :
  progress sv done l → trace s = t ++ l → (hasScheme sv scheme = true → serves sv scheme g) →
  (∀ o s' l', progress sv (done ++ [scheme]) l' → trace s' = t ++ l' → mem s' = mem s → (∀ err, o ≠ Fail err) → Q o s') →
  wp (when (hasScheme sv scheme) (serve_on scheme g)) Q s.
Proof.
  intros Hp Ht Hg HQ. unfold when, serve_on, exit, svcall. destruct (hasScheme sv scheme) eqn:Hs; wp_run.
  - eapply HQ; [apply (progress_served _ _ _ _ g Hp Hs); auto|cbn [trace]; by rewrite Ht, <- app_assoc|done|done].
  - eapply HQ; [apply (progress_served _ _ _ _ g Hp Hs); auto|cbn [trace]; by rewrite Ht, <- app_assoc|done|done].
  - eapply HQ; [by apply progress_skipped|done..].
Qed.

(** The options [b] a server listens with, for the options [a] *)
Definition ready (a b : Server) : Prop :=
  (∀ scheme, hasScheme b scheme = hasScheme a scheme) ∧ handler_of b = handler_of a ∧
  TLSCertificate b = TLSCertificate a ∧ TLSCertificateKey b = TLSCertificateKey a ∧ TLSCACertificate b = TLSCACertificate a ∧
  ∀ scheme, scheme ∈ known → hasScheme a scheme = true → ∃ x, socket b scheme = Some x ∧ opened a scheme x.
Lemma unix_serves a b : ready a b → hasScheme a schemeUnix = true → serves a schemeUnix (unix_server b).
Proof.
  intros (_ & Hh & _ & _ & _ & Hs) He. destruct (Hs schemeUnix) as (x & Hx & Ho); [unfold known; in_list|done|].
  split; [unfold known; in_list|]. split_and!; [done|done| |done]. change (domainSocketL b = Some x) in Hx. cbn. by rewrite Hx.
Qed.
Lemma http_serves a b : ready a b → hasScheme a schemeHTTP = true → serves a schemeHTTP (http_server b).
Proof.
  intros (_ & Hh & _ & _ & _ & Hs) He. destruct (Hs schemeHTTP) as (x & Hx & Ho); [unfold known; in_list|done|].
  split; [unfold known; in_list|]. split_and!; [done|done| |done]. change (httpServerL b = Some x) in Hx. cbn. by rewrite Hx.
Qed.

(** Serving the sockets that were opened *)
Lemma serve_all a t l s2 : progress a [] l → ready a (mem s2) → trace s2 = t ++ l →
  wp (sv ← get_mem;
      _ ← when (hasScheme sv schemeUnix) (serve_on schemeUnix (unix_server sv));
      _ ← when (hasScheme sv schemeHTTP) (serve_on schemeHTTP (http_server sv));
      when (hasScheme sv schemeHTTPS) (t ← tls_options sv; serve_on schemeHTTPS (https_server sv t)))
    (λ o s', ∃ l, trace s' = t ++ l ∧ (∀ scheme g, SServe scheme g ∈ l → serves a scheme g) ∧
      match o with Ret _ => served_schemes l = filter (λ scheme, hasScheme a scheme = true) known | _ => True end) s2.
Proof.
  intros Hp Hr Ht. pose proof Hr as (Hhas & Hh & Hc & Hk & Hca & Hso). apply wp_bind, wp_get_mem. rewrite !Hhas.
  apply wp_bind. eapply serve_step; [exact Hp|exact Ht|by apply unix_serves|]. intros [[]|?|?] s3 l3 [Hp3 Hd3] Ht3 _ Hn3;
    [|by destruct (Hn3 e)|by exists l3].
  apply wp_bind. eapply serve_step; [split; [exact Hp3|exact Hd3]|exact Ht3|by apply http_serves|].
  intros [[]|?|?] s4 l4 [Hp4 Hd4] Ht4 _ Hn4; [|by destruct (Hn4 e)|by exists l4].
  destruct (hasScheme a schemeHTTPS) eqn:Hs; unfold when.
  - apply wp_bind, tls_options_spec. intros s5 o l5 Ht5 Hl5 Hn5 Hspec.
    assert (progress a (([] ++ [schemeUnix]) ++ [schemeHTTP]) (l4 ++ l5)) as Hp5 by (by apply progress_other).
    destruct o as [tls|?|?]; [|exists (l4 ++ l5); split; [by rewrite Ht5, Ht4, app_assoc|]; split; [apply Hp5|done]..].
    rewrite Hc, Hk, Hca in Hspec. destruct Hspec as (Ht1 & Ht2 & Ht3').
    pose proof (serve_step a (([] ++ [schemeUnix]) ++ [schemeHTTP]) schemeHTTPS (https_server (mem s2) tls)) as Hstep.
    rewrite Hs in Hstep. unfold when in Hstep. eapply Hstep; [exact Hp5|by rewrite Ht5, Ht4, app_assoc| |].
    + intros _. destruct (Hso schemeHTTPS) as (x & Hx & Ho); [unfold known; in_list|done|].
      split; [unfold known; in_list|]. split_and!; [done|done| |done].
      change (httpsServerL (mem s2) = Some x) in Hx. cbn. by rewrite Hx.
    + intros [[]|?|?] s6 l6 [Hp6 Hd6] Ht6 _ Hn6; [by exists l6|by destruct (Hn6 e)|by exists l6].
  - apply wp_ret. exists l4. split; [done|]. split; [done|]. rewrite Hd4. cbn.
    rewrite (decide_False (P:=hasScheme a schemeHTTPS = true)) by congruence. by rewrite ?app_nil_r.
Qed.

End Served.

(** Without the environment the TLS host is the option, whose default is not
    empty: the host of the other socket is not used for it. *)
Lemma tls_host_kept {E} `{!Machine ServerCall E} f api (s : sys Server E ServerCall) :
  snd (NewServer (fun _ => "") f api s) = Ret tt ∧
  TLSHost (mem (fst (NewServer (fun _ => "") f api s))) = (if decide (TLSHost f = "") then Host f else TLSHost f) ∧
  TLSHost default_flags = "localhost".
Proof.
  split; [done|]. split; [|done].
  transitivity (stringEnvOverride (fun _ => "") (TLSHost f) (stringEnvOverride (fun _ => "") (Host f) "" ["HOST"]) ["TLS_HOST"; "HOST"]);
    [reflexivity|].
  unfold stringEnvOverride. cbn -[decide bool_decide]. rewrite !bool_decide_true by done. cbn -[decide].
  destruct (decide (Host f = "")); repeat case_decide; destruct_and?; try congruence; tauto.
Qed.

(** * A server with all three schemes *)
Definition demo_host : Machine ServerCall unit := fun c e =>
  match c with
  | SNetListen network addr => (e, Ok (if decide (network = "unix") then addr else "127.0.0.1:8443"))
  | SReadFile _ => (e, Ok "authority")
  | SServe _ _ => (e, Ok tt)
  | SLoadX509KeyPair _ _ => (e, Ok tt)
  | _ => (e, Bad (ErrNew "unexpected"))
  end.
Definition demo_server : Server :=
  {| EnabledListeners := ["https"; "unix"]; CleanupTimeout := seconds 10; MaxHeaderSize := 1000000;
     SocketPath := "/run/kubernikus.sock"; domainSocketL := None; Host := "0.0.0.0"; Port := 8080; ListenLimit := 0;
     KeepAlive := seconds 180; ReadTimeout := 0; WriteTimeout := 0; httpServerL := None;
     TLSHost := ""; TLSPort := 8443; TLSCertificate := "cert"; TLSCertificateKey := "key"; TLSCACertificate := "ca";
     TLSListenLimit := 0; TLSKeepAlive := 0; TLSReadTimeout := 0; TLSWriteTimeout := 0; httpsServerL := None;
     sv_api := true; sv_handler := Some HConfigured; hasListeners := false |}.
