(* ===== verification/ApiObject.v ===== *)
(** [operations.KubernikusAPI]: the object the API server is assembled on.

    It is made with a handler for every operation that only says that the
    operation is not implemented; [Configure] puts the handlers of [Handlers]
    in their place; the first [Serve] copies the handlers into a cache, which
    the router asks from then on.  [Rest] is about the API in its final state;
    this file shows how it gets there. *)
From S2P Require Import Prelude GoStrings Models ApiModels Handlers.
From S2P Require Import Http Operations ApiClient Rest.

(** What is registered for an operation: the handler that was there first, or
    the one of [pkg/api/handlers]; also the others that can be replaced *)
Inductive OpHandler := NotImplemented (message : string) | Implemented (o : OpID).
Inductive TokenAuth := AuthNotImplemented (message : string) | AuthKeystone.
Inductive ApiAuthorizer := Authorized | OsloPolicy.
Inductive Codec := JSON.
Inductive Stage := StageAPIHandler | StageGlobalMiddleware.
#[export] Instance OpHandler_eq_dec : EqDecision OpHandler.
Proof. solve_decision. Defined.

Definition operation_name (o : OpID) : string :=
  match o with
  | OpCreateCluster => "CreateCluster" | OpGetClusterCredentials => "GetClusterCredentials"
  | OpGetClusterEvents => "GetClusterEvents" | OpGetClusterInfo => "GetClusterInfo"
  | OpGetOpenstackMetadata => "GetOpenstackMetadata" | OpInfo => "Info" | OpListAPIVersions => "ListAPIVersions"
  | OpListClusters => "ListClusters" | OpShowCluster => "ShowCluster" | OpTerminateCluster => "TerminateCluster"
  | OpUpdateCluster => "UpdateCluster"
  end.

(** The fields that requests depend on; [None] is a nil pointer.  The context
    refers to the object itself, so that it is enough to know that it exists.
    [KubernikusAPI], src/pkg/api/rest/operations/kubernikus_api.go:85-153 *)
Record KubernikusAPI := {
  ka_spec : string; ka_context : bool; ka_handlers : gmap string (gmap string (option OpHandler));
  ka_defaultConsumes : string; ka_defaultProduces : string; ka_Middleware : option Stage;
  ka_JSONConsumer : option Codec; ka_JSONProducer : option Codec; ka_KeystoneAuth : option TokenAuth;
  ka_APIAuthorizer : ApiAuthorizer; ka_Handler : OpID -> option OpHandler }.

(** [NewKubernikusAPI], src/pkg/api/rest/operations/kubernikus_api.go:26-82 *)
Definition NewKubernikusAPI (spec : string) : KubernikusAPI :=
  {| ka_spec := spec; ka_context := false; ka_handlers := ∅;
     ka_defaultConsumes := "application/json"; ka_defaultProduces := "application/json"; ka_Middleware := None;
     ka_JSONConsumer := Some JSON; ka_JSONProducer := Some JSON;
     ka_KeystoneAuth := Some (AuthNotImplemented
       "api key auth (keystone) x-auth-token from header param [x-auth-token] has not yet been implemented");
     ka_APIAuthorizer := Authorized;
     ka_Handler := fun o => Some (NotImplemented ("operation " +:+ operation_name o +:+ " has not yet been implemented")) |}.

(** [SetDefaultProduces], src/pkg/api/rest/operations/kubernikus_api.go:156-158 *)
Definition SetDefaultProduces (mediaType : string) (a : KubernikusAPI) : KubernikusAPI :=
  {| ka_spec := ka_spec a; ka_context := ka_context a; ka_handlers := ka_handlers a;
     ka_defaultConsumes := ka_defaultConsumes a; ka_defaultProduces := mediaType; ka_Middleware := ka_Middleware a;
     ka_JSONConsumer := ka_JSONConsumer a; ka_JSONProducer := ka_JSONProducer a; ka_KeystoneAuth := ka_KeystoneAuth a;
     ka_APIAuthorizer := ka_APIAuthorizer a; ka_Handler := ka_Handler a |}.
(** [SetDefaultConsumes], src/pkg/api/rest/operations/kubernikus_api.go:161-163 *)
Definition SetDefaultConsumes (mediaType : string) (a : KubernikusAPI) : KubernikusAPI :=
  {| ka_spec := ka_spec a; ka_context := ka_context a; ka_handlers := ka_handlers a;
     ka_defaultConsumes := mediaType; ka_defaultProduces := ka_defaultProduces a; ka_Middleware := ka_Middleware a;
     ka_JSONConsumer := ka_JSONConsumer a; ka_JSONProducer := ka_JSONProducer a; ka_KeystoneAuth := ka_KeystoneAuth a;
     ka_APIAuthorizer := ka_APIAuthorizer a; ka_Handler := ka_Handler a |}.
(** [SetSpec], src/pkg/api/rest/operations/kubernikus_api.go:166-168 *)
Definition SetSpec (spec : string) (a : KubernikusAPI) : KubernikusAPI :=
  {| ka_spec := spec; ka_context := ka_context a; ka_handlers := ka_handlers a;
     ka_defaultConsumes := ka_defaultConsumes a; ka_defaultProduces := ka_defaultProduces a; ka_Middleware := ka_Middleware a;
     ka_JSONConsumer := ka_JSONConsumer a; ka_JSONProducer := ka_JSONProducer a; ka_KeystoneAuth := ka_KeystoneAuth a;
     ka_APIAuthorizer := ka_APIAuthorizer a; ka_Handler := ka_Handler a |}.
(** [DefaultProduces], src/pkg/api/rest/operations/kubernikus_api.go:171-173 *)
Definition DefaultProduces (a : KubernikusAPI) : string := ka_defaultProduces a.
(** [DefaultConsumes], src/pkg/api/rest/operations/kubernikus_api.go:176-178 *)
Definition DefaultConsumes (a : KubernikusAPI) : string := ka_defaultConsumes a.

Definition is_set {A} (x : option A) : bool := match x with Some _ => true | None => false end.
(** The check of [Rest.Validate] on the fields of the object *)
Definition api_Validate (a : KubernikusAPI) : option error :=
  Rest.Validate (is_set (ka_JSONConsumer a)) (is_set (ka_JSONProducer a)) (is_set (ka_KeystoneAuth a))
    (fun o => is_set (ka_Handler a o)).

(** An authenticator reads the key from where the scheme says and hands it to
    the function that is registered at that time.
    [AuthenticatorsFor], src/pkg/api/rest/operations/kubernikus_api.go:263-279 *)
Record SecurityScheme := { ss_Name : string; ss_In : string }.
Definition AuthenticatorsFor (schemes : gmap string SecurityScheme) (a : KubernikusAPI) : gmap string (SecurityScheme * option TokenAuth) :=
  (fun s => (s, ka_KeystoneAuth a)) <$> filter (fun ns => fst ns = "keystone") schemes.
(** [Authorizer], src/pkg/api/rest/operations/kubernikus_api.go:282-286 *)
Definition Authorizer (a : KubernikusAPI) : ApiAuthorizer := ka_APIAuthorizer a.
Definition codecs_for (codec : option Codec) (mediaTypes : list string) : gmap string (option Codec) :=
  fold_left (fun result mt => if decide (mt = "application/json") then <["application/json" := codec]> result else result) mediaTypes ∅.
(** [ConsumersFor], src/pkg/api/rest/operations/kubernikus_api.go:289-302 *)
Definition ConsumersFor (mediaTypes : list string) (a : KubernikusAPI) : gmap string (option Codec) :=
  codecs_for (ka_JSONConsumer a) mediaTypes.
(** [ProducersFor], src/pkg/api/rest/operations/kubernikus_api.go:305-318 *)
Definition ProducersFor (mediaTypes : list string) (a : KubernikusAPI) : gmap string (option Codec) :=
  codecs_for (ka_JSONProducer a) mediaTypes.

(** [Context], src/pkg/api/rest/operations/kubernikus_api.go:337-343 *)
Definition Context_ (a : KubernikusAPI) : KubernikusAPI :=
  {| ka_spec := ka_spec a; ka_context := true; ka_handlers := ka_handlers a;
     ka_defaultConsumes := ka_defaultConsumes a; ka_defaultProduces := ka_defaultProduces a; ka_Middleware := ka_Middleware a;
     ka_JSONConsumer := ka_JSONConsumer a; ka_JSONProducer := ka_JSONProducer a; ka_KeystoneAuth := ka_KeystoneAuth a;
     ka_APIAuthorizer := ka_APIAuthorizer a; ka_Handler := ka_Handler a |}.
(** [Rest.initHandlerCache] is the table of operations; each entry keeps the
    handler that is set at that moment.
    [Init], src/pkg/api/rest/operations/kubernikus_api.go:421-425 *)
Definition Init (a : KubernikusAPI) : KubernikusAPI :=
  if decide (ka_handlers a = ∅) then
    let a := Context_ a in
    {| ka_spec := ka_spec a; ka_context := ka_context a;
       ka_handlers := (fun hs : gmap string OpID => ka_Handler a <$> hs) <$> initHandlerCache;
       ka_defaultConsumes := ka_defaultConsumes a; ka_defaultProduces := ka_defaultProduces a; ka_Middleware := ka_Middleware a;
       ka_JSONConsumer := ka_JSONConsumer a; ka_JSONProducer := ka_JSONProducer a; ka_KeystoneAuth := ka_KeystoneAuth a;
       ka_APIAuthorizer := ka_APIAuthorizer a; ka_Handler := ka_Handler a |}
  else a.
(** [Serve], src/pkg/api/rest/operations/kubernikus_api.go:411-418 *)
Definition api_Serve (a : KubernikusAPI) : KubernikusAPI * Stage :=
  let a := Init a in (a, match ka_Middleware a with Some stage => stage | None => StageAPIHandler end).
(** The handler of the cache for a request, as [HandlerFor] looks it up *)
Definition cached_handler (a : KubernikusAPI) (method path : string) : option (option OpHandler) :=
  ka_handlers a !! upper_string method ≫= fun hs => hs !! (if decide (path = "/") then "" else path).

(** What the configuration sets, when it does not fail
    [Configure], src/pkg/api/rest/configure.go:22-72 *)
Definition api_Configure (a : KubernikusAPI) : KubernikusAPI :=
  {| ka_spec := ka_spec a; ka_context := ka_context a; ka_handlers := ka_handlers a;
     ka_defaultConsumes := ka_defaultConsumes a; ka_defaultProduces := ka_defaultProduces a;
     ka_Middleware := Some StageGlobalMiddleware;
     ka_JSONConsumer := Some JSON; ka_JSONProducer := Some JSON; ka_KeystoneAuth := Some AuthKeystone;
     ka_APIAuthorizer := OsloPolicy; ka_Handler := fun o => Some (Implemented o) |}.
(** [configureAPI], src/pkg/api/rest/configure_kubernikus.go:20-24 *)
Definition configureAPI (a : KubernikusAPI) : KubernikusAPI * Stage := api_Serve a.

(** * Properties *)

(** The handlers a request can reach before and after the configuration *)
Definition unimplemented (h : OpHandler) : bool := match h with NotImplemented _ => true | Implemented _ => false end.

Lemma cache_entry a o : cached_handler (Init a) (method_of o) (pattern_of o) =
  if decide (ka_handlers a = ∅) then Some (ka_Handler a o) else cached_handler a (method_of o) (pattern_of o).
Proof.
  unfold Init. case_decide; [|done]. unfold cached_handler. cbn [ka_handlers Context_ ka_Handler]. rewrite lookup_fmap.
  assert (HandlerFor initHandlerCache (method_of o) (pattern_of o) = Some o) as Hh by (destruct o; vm_compute; reflexivity).
  unfold HandlerFor in Hh. destruct (initHandlerCache !! _) as [hs|]; [|done]. cbn in *. by rewrite lookup_fmap, Hh.
Qed.
Lemma Init_filled a : ka_handlers (Init a) ≠ ∅.
Proof.
  unfold Init. case_decide as He; [|done]. cbn [ka_handlers]. intros H. apply (f_equal (λ m, is_set (m !! "PUT"))) in H.
  rewrite lookup_fmap in H. revert H. by vm_compute.
Qed.
Lemma Init_idempotent a : Init (Init a) = Init a.
Proof. unfold Init at 1. rewrite decide_False by apply Init_filled. done. Qed.

(** Every operation is answered by the handler that is registered when the API
    is first served: configured before, as the program does, by its
    implementation; served before it is configured, by "not implemented" for
    good.  The check of the registrations tells the two apart in no state. *)
Theorem handlers_fixed spec o :
  let a := NewKubernikusAPI spec in
  let route a := cached_handler a (method_of o) (pattern_of o) in
  let '(served, stage) := configureAPI (api_Configure a) in
  let late := api_Configure (fst (configureAPI a)) in
  (route served = Some (Some (Implemented o)) ∧ stage = StageGlobalMiddleware ∧
   ∀ a', ka_handlers a' = ka_handlers served → route (fst (api_Serve a')) = Some (Some (Implemented o))) ∧
  (∃ message, route (fst (configureAPI late)) = Some (Some (NotImplemented message))) ∧
  Forall (λ a, api_Validate a = None) [a; api_Configure a; served; late].
Proof.
  intros a route. unfold configureAPI, api_Serve. cbn [fst snd]. split_and!.
  - subst route. cbv beta. rewrite cache_entry. done.
  - unfold Init. by case_decide.
  - intros a' Ha'. subst route. cbv beta. rewrite cache_entry, decide_False by (rewrite Ha'; apply Init_filled).
    unfold cached_handler. rewrite Ha'. fold (cached_handler (Init (api_Configure a)) (method_of o) (pattern_of o)). by rewrite cache_entry.
  - eexists. subst route. cbv beta. rewrite cache_entry, decide_False by (cbn [ka_handlers api_Configure]; apply Init_filled).
    unfold cached_handler. cbn [ka_handlers api_Configure]. fold (cached_handler (Init a) (method_of o) (pattern_of o)). rewrite cache_entry. done.
  - repeat constructor; unfold Init; repeat case_decide; done.
Qed.

(** The document's only security scheme, and what is consumed and produced *)
Definition spec_schemes : gmap string SecurityScheme := {["keystone" := {| ss_Name := "x-auth-token"; ss_In := "header" |}]}.

(** Before the configuration no request is let in or, without authentication,
    answered; afterwards the scheme of the document is checked by Keystone,
    every request is authorized by the policy, and JSON is the only media type
    whatever else is listed. *)
Theorem configuration_secures spec mediaTypes :
  let a := NewKubernikusAPI spec in
  (∃ message, AuthenticatorsFor spec_schemes a = {["keystone" := ({| ss_Name := "x-auth-token"; ss_In := "header" |}, Some (AuthNotImplemented message))]}) ∧
  Authorizer a = Authorized ∧
  AuthenticatorsFor spec_schemes (api_Configure a) = {["keystone" := ({| ss_Name := "x-auth-token"; ss_In := "header" |}, Some AuthKeystone)]} ∧
  Authorizer (api_Configure a) = OsloPolicy ∧
  (∀ mt, ConsumersFor mediaTypes (api_Configure a) !! mt = if decide (mt = "application/json" ∧ mt ∈ mediaTypes) then Some (Some JSON) else None) ∧
  ProducersFor mediaTypes (api_Configure a) = ConsumersFor mediaTypes (api_Configure a).
Proof.
  intros a. unfold AuthenticatorsFor, spec_schemes. split_and!; [|done| |done| |done].
  - eexists. rewrite map_filter_singleton, decide_True by done. by rewrite map_fmap_singleton.
  - rewrite map_filter_singleton, decide_True by done. by rewrite map_fmap_singleton.
  - intros mt. unfold ConsumersFor, codecs_for. cbn [ka_JSONConsumer api_Configure].
    assert (∀ (m : gmap string (option Codec)), fold_left (fun result mt => if decide (mt = "application/json") then <["application/json" := Some JSON]> result else result)
      mediaTypes m !! mt = if decide (mt = "application/json" ∧ mt ∈ mediaTypes) then Some (Some JSON) else m !! mt) as H; [|by rewrite H].
    induction mediaTypes as [|w l IH]; intros m; cbn [fold_left].
    + rewrite decide_False; [done|]. by intros [_ ?%not_elem_of_nil].
    + rewrite IH. destruct (decide (w = "application/json")) as [->|Hw]; [destruct (decide (mt = "application/json")) as [->|Hmt]|].
      * rewrite lookup_insert_eq. rewrite (decide_True (P:="application/json" = _ ∧ _ ∈ _ :: _)) by (split; [done|left]). by case_decide.
      * rewrite lookup_insert_ne by congruence. by rewrite !decide_False by tauto.
      * case_decide as H1; [rewrite decide_True by (destruct H1; split; [done|by right]); done|].
        rewrite decide_False; [done|]. intros [Hm [->|Hl]%elem_of_cons]; [done|by apply H1].
Qed.
