(* ===== verification/Document.v ===== *)
(** [pkg/api/spec]: the document of the API, and what of it the program
    enforces.

    [Rest] has the operations of the document; here are its definitions, as
    schemas, with the defaults the program takes from them, and a check of a
    JSON value against a schema.  The patterns stay the texts of the document
    and are parsed.  The validators that were generated from the document
    ([Models]) are compared with it. *)
From S2P Require Import Prelude GoStrings Regexp Models ApiModels Factory Json Encoding JsonModels.

(** * Patterns

    The part of Go's syntax of regular expressions the document uses:
    alternatives, groups, classes of characters and ranges, escaped
    characters, and the repetitions [?], [*] and [{n}]. *)
Definition in_class (ranges : list (ascii * ascii)) (c : ascii) : bool :=
  existsb (fun '(lo, hi) => (N_of_ascii lo <=? N_of_ascii c)%N && (N_of_ascii c <=? N_of_ascii hi)%N) ranges.
(** The members of a class up to its bracket; a dash at the beginning is
    itself. *)
Fixpoint parse_class (s : string) : option (list (ascii * ascii) * string) :=
  match s with
  | String c s' =>
      if decide (c = "]"%char) then Some ([], s')
      else match s' with
           | String d (String e s'') =>
               if decide (d = "-"%char ∧ e ≠ "]"%char)
               then '(l, rest) ← parse_class s''; Some ((c, e) :: l, rest)
               else '(l, rest) ← parse_class s'; Some ((c, c) :: l, rest)
           | _ => '(l, rest) ← parse_class s'; Some ((c, c) :: l, rest)
           end
  | EmptyString => None
  end.
Definition seq_of (l : list re) : re := match l with [] => REps | r :: l => fold_left RSeq l r end.
Definition alt_of (l : list re) : re := match l with [] => REmp | r :: l => fold_left RAlt l r end.
(** What follows an atom *)
Definition parse_postfix (r : re) (s : string) : list re * string :=
  match s with
  | String c s' =>
      if decide (c = "?"%char) then ([ropt r], s')
      else if decide (c = "*"%char) then ([RStar r], s')
      else match s' with
           | String n (String e s'') =>
               if decide (c = "{"%char ∧ e = "}"%char) then (repeat r (N.to_nat (digit_val n)), s'') else ([r], s)
           | _ => ([r], s)
           end
  | EmptyString => ([r], s)
  end.
(** The alternatives from here, each a sequence; [cur] is the sequence so
    far.  They end at the end of the text or before a bracket. *)
Fixpoint parse_alts (fuel : nat) (cur : list re) (s : string) : option (list re * string) :=
  match fuel with
  | O => None
  | S fuel =>
      match s with
      | EmptyString => Some ([seq_of cur], s)
      | String c s' =>
          if decide (c = ")"%char) then Some ([seq_of cur], s)
          else if decide (c = "|"%char) then '(l, rest) ← parse_alts fuel [] s'; Some (seq_of cur :: l, rest)
          else
            '(atom, s) ← (if decide (c = "("%char) then
                '(l, rest) ← parse_alts fuel [] s';
                match rest with String d rest => if decide (d = ")"%char) then Some (alt_of l, rest) else None | EmptyString => None end
              else if decide (c = "["%char) then '(l, rest) ← parse_class s'; Some (RCls (in_class l), rest)
              else if decide (c = "\"%char) then match s' with String d rest => Some (rchr d, rest) | EmptyString => None end
              else Some (rchr c, s'));
            let '(rs, s) := parse_postfix atom s in
            parse_alts fuel (cur ++ rs) s
      end
  end.
(** A pattern is anchored at both ends. *)
Definition parse_pattern (text : string) : option re :=
  match text with
  | String c s =>
      let n := (String.length s - 1)%nat in
      if decide (c = "^"%char ∧ String.substring n 1 s = "$") then
        match parse_alts (String.length text) [] (String.substring 0 n s) with
        | Some (l, "") => Some (alt_of l)
        | _ => None
        end
      else None
  | EmptyString => None
  end.

(** Patterns that differ only in how their classes are written *)
Fixpoint re_eq (a b : re) : Prop :=
  match a, b with
  | REmp, REmp | REps, REps => True
  | RCls P, RCls Q => ∀ c, P c = Q c
  | RSeq a1 a2, RSeq b1 b2 | RAlt a1 a2, RAlt b1 b2 => re_eq a1 b1 ∧ re_eq a2 b2
  | RStar a, RStar b => re_eq a b
  | _, _ => False
  end.
Definition all_ascii : list ascii := ascii_of_nat <$> seq 0 256.
Arguments all_ascii : simpl never.
Fixpoint re_eqb (a b : re) : bool :=
  match a, b with
  | REmp, REmp | REps, REps => true
  | RCls P, RCls Q => forallb (fun c => eqb (P c) (Q c)) all_ascii
  | RSeq a1 a2, RSeq b1 b2 | RAlt a1 a2, RAlt b1 b2 => re_eqb a1 b1 && re_eqb a2 b2
  | RStar a, RStar b => re_eqb a b
  | _, _ => false
  end.

Lemma all_ascii_complete c : c ∈ all_ascii.
Proof. apply list_elem_of_fmap. exists (nat_of_ascii c). split; [by rewrite ascii_nat_embedding|]. apply elem_of_seq. pose proof (nat_ascii_bounded c). lia. Qed.
Lemma re_eqb_eq a : ∀ b, re_eqb a b = true → re_eq a b.
Proof.
  induction a; intros [| |Q|b1 b2|b1 b2|b]; cbn; try done.
  - intros H c. apply eqb_prop. refine (proj1 (forallb_forall _ all_ascii) H c _). apply list_elem_of_In, all_ascii_complete.
  - intros [? ?]%andb_true_iff. auto.
  - intros [? ?]%andb_true_iff. auto.
  - auto.
Qed.
Lemma re_eq_nullable a : ∀ b, re_eq a b → nullable a = nullable b.
Proof. induction a; intros [| |Q|b1 b2|b1 b2|b]; cbn; try done; intros [? ?]; f_equal; auto. Qed.
Lemma re_eq_deriv c a : ∀ b, re_eq a b → re_eq (deriv c a) (deriv c b).
Proof.
  induction a; intros [| |Q|b1 b2|b1 b2|b]; cbn; try done.
  - intros ->. by destruct (Q c).
  - intros [H1 H2]. rewrite (re_eq_nullable _ _ H1). destruct (nullable b1); cbn; auto.
  - intros [H1 H2]. auto.
  - intros H. auto.
Qed.
Lemma re_eq_MatchString s : ∀ a b, re_eq a b → MatchString a s = MatchString b s.
Proof. induction s as [|c s IH]; intros a b H; cbn; [by apply re_eq_nullable|by apply IH, re_eq_deriv]. Qed.

Definition kluster_name_pattern : string := "^[a-z]([-a-z0-9]*[a-z0-9])?$".
Definition pool_name_pattern : string := "^[a-z]([a-z0-9]*)?$".
Definition cidr_pattern : string :=
  "^(([0-9]|[1-9][0-9]|1[0-9]{2}|2[0-4][0-9]|25[0-5])\.){3}([0-9]|[1-9][0-9]|1[0-9]{2}|2[0-4][0-9]|25[0-5])(\/([0-9]|[1-2][0-9]|3[0-2]))$".

(** The patterns of [Models] are those of the document. *)
Definition same_pattern (text : string) (r : re) : Prop := ∃ r', parse_pattern text = Some r' ∧ ∀ s, MatchString r' s = MatchString r s.
Lemma same_pattern_intro text r : match parse_pattern text with Some r' => re_eqb r' r | None => false end = true → same_pattern text r.
Proof.
  unfold same_pattern. destruct (parse_pattern text) as [r'|]; [|done]. intros H. exists r'. split; [done|].
  intros s. by apply re_eq_MatchString, re_eqb_eq.
Qed.
Lemma kluster_name_same : same_pattern kluster_name_pattern re_kluster_name.
Proof. apply same_pattern_intro. vm_compute. reflexivity. Qed.
Lemma pool_name_same : same_pattern pool_name_pattern re_pool_name.
Proof. apply same_pattern_intro. vm_compute. reflexivity. Qed.
Lemma cidr_same : same_pattern cidr_pattern re_cidr.
Proof. apply same_pattern_intro. vm_compute. reflexivity. Qed.

(** * Schemas

    Descriptions, formats and the names for generators are left out. *)
Inductive schema :=
| SString (pattern : option string) (enum : list string) (default_ : option string)
| SInteger (minimum maximum : option Z) (default_ : option Z)
| SBoolean
| SArray (items : schema)
| SRef (definition : string)
| SObject (required : list string) (properties : list (string * schema)).
Definition text : schema := SString None [] None.
Definition text_default (d : string) : schema := SString None [] (Some d).
Definition number : schema := SInteger None None None.
Definition object (properties : list (string * schema)) : schema := SObject [] properties.

(** [SwaggerJSON], src/pkg/api/spec/embedded_spec.go:265-278 *)
Definition def_ApiVersions : schema := SObject ["versions"] [("versions", SArray text)].
(** [SwaggerJSON], src/pkg/api/spec/embedded_spec.go:279-286 *)
Definition def_Credentials : schema := object [("kubeconfig", text)].
(** [SwaggerJSON], src/pkg/api/spec/embedded_spec.go:287-321 *)
Definition def_Event : schema :=
  object [("count", number); ("firstTimestamp", text); ("lastTimestamp", text); ("message", text); ("reason", text);
          ("type", SString None ["Normal"; "Warning"] None)].
(** [SwaggerJSON], src/pkg/api/spec/embedded_spec.go:322-328 *)
Definition def_Info : schema := object [("version", text)].
(** [SwaggerJSON], src/pkg/api/spec/embedded_spec.go:329-348 *)
Definition def_Kluster : schema :=
  SObject ["name"] [("name", SString (Some kluster_name_pattern) [] None); ("spec", SRef "KlusterSpec"); ("status", SRef "KlusterStatus")].
(** [SwaggerJSON], src/pkg/api/spec/embedded_spec.go:349-384 *)
Definition def_KlusterInfo : schema :=
  object [("binaries", SArray (object [("links", SArray (object [("link", text); ("platform", text)])); ("name", text)]));
          ("setupCommand", text)].
(** [SwaggerJSON], src/pkg/api/spec/embedded_spec.go:385-393 *)
Definition def_KlusterPhase : schema := SString None ["Pending"; "Creating"; "Running"; "Terminating"] None.
(** [SwaggerJSON], src/pkg/api/spec/embedded_spec.go:394-439 *)
Definition def_KlusterSpec : schema :=
  object [("advertiseAddress", text_default "1.1.1.1"); ("clusterCIDR", SString (Some cidr_pattern) [] (Some "198.19.0.0/16"));
          ("dnsAddress", text); ("dnsDomain", text_default "cluster.local"); ("name", text);
          ("nodePools", SArray (SRef "NodePool")); ("openstack", SRef "OpenstackSpec");
          ("serviceCIDR", SString (Some cidr_pattern) [] (Some "198.18.128.0/17"))].
(** [SwaggerJSON], src/pkg/api/spec/embedded_spec.go:440-467 *)
Definition def_KlusterStatus : schema :=
  object [("apiserver", text); ("message", text); ("nodePools", SArray (SRef "NodePoolInfo")); ("phase", SRef "KlusterPhase");
          ("version", text); ("wormhole", text)].
(** [SwaggerJSON], src/pkg/api/spec/embedded_spec.go:468-501 *)
Definition def_NodePool : schema :=
  SObject ["name"; "flavor"]
    [("config", SRef "NodePoolConfig"); ("flavor", text); ("image", text_default "coreos-stable-amd64");
     ("name", SString (Some pool_name_pattern) [] None); ("size", SInteger (Some 0%Z) (Some 127%Z) (Some 0%Z))].
(** [SwaggerJSON], src/pkg/api/spec/embedded_spec.go:502-513 *)
Definition def_NodePoolConfig : schema := object [("repair", SBoolean); ("upgrade", SBoolean)].
(** [SwaggerJSON], src/pkg/api/spec/embedded_spec.go:514-534 *)
Definition def_NodePoolInfo : schema :=
  object [("healthy", number); ("name", text); ("running", number); ("schedulable", number); ("size", number)].
(** [SwaggerJSON], src/pkg/api/spec/embedded_spec.go:535-629 *)
Definition def_OpenstackMetadata : schema :=
  object [("flavors", SArray (object [("id", text); ("name", text)])); ("keyPairs", SArray (object [("name", text)]));
          ("routers", SArray (object [("id", text); ("name", text);
             ("networks", SArray (object [("id", text); ("name", text);
                ("subnets", SArray (object [("CIDR", text); ("id", text); ("name", text)]))]))]));
          ("securityGroups", SArray (object [("id", text); ("name", text)]))].
(** [SwaggerJSON], src/pkg/api/spec/embedded_spec.go:630-651 *)
Definition def_OpenstackSpec : schema :=
  object [("lbSubnetID", text); ("networkID", text); ("projectID", text); ("routerID", text); ("securityGroupID", text)].
(** [SwaggerJSON], src/pkg/api/spec/embedded_spec.go:652-683 *)
Definition def_Principal : schema :=
  object [("account", text); ("authUrl", text); ("domain", text); ("id", text); ("name", text); ("roles", SArray text)].
(** [SwaggerJSON], src/pkg/api/spec/embedded_spec.go:684-706 *)
Definition def_error : schema := SObject ["message"; "code"] [("code", number); ("helpUrl", text); ("message", text)].
(** [SwaggerJSON], src/pkg/api/spec/embedded_spec.go:264-707 *)
Definition definitions : list (string * schema) :=
  [("ApiVersions", def_ApiVersions); ("Credentials", def_Credentials); ("Event", def_Event); ("Info", def_Info);
   ("Kluster", def_Kluster); ("KlusterInfo", def_KlusterInfo); ("KlusterPhase", def_KlusterPhase); ("KlusterSpec", def_KlusterSpec);
   ("KlusterStatus", def_KlusterStatus); ("NodePool", def_NodePool); ("NodePoolConfig", def_NodePoolConfig);
   ("NodePoolInfo", def_NodePoolInfo); ("OpenstackMetadata", def_OpenstackMetadata); ("OpenstackSpec", def_OpenstackSpec);
   ("Principal", def_Principal); ("error", def_error)].

Fixpoint assoc {A} (name : string) (l : list (string * A)) : option A :=
  match l with [] => None | (n, a) :: l => if String.eqb name n then Some a else assoc name l end.

(** ** Defaults *)
Inductive default_value := DString (s : string) | DNumber (z : Z).
(** [lookupDefault], src/pkg/api/spec/document.go:43-61 *)
Definition lookupDefault (definition property : string) : reply default_value :=
  match assoc definition definitions with
  | None => Bad (ErrNew ("definition " +:+ definition +:+ " not found"))
  | Some def =>
      match assoc property match def with SObject _ properties => properties | _ => [] end with
      | None => Bad (ErrNew ("property " +:+ property +:+ " not found in definition " +:+ definition))
      | Some (SString _ _ (Some d)) => Ok (DString d)
      | Some (SInteger _ _ (Some d)) => Ok (DNumber d)
      | Some _ => Bad (ErrNew ("No default found for property " +:+ property))
      end
  end.
(** [DefaultString], src/pkg/api/spec/document.go:31-41 *)
Definition DefaultString (definition property : string) : reply string :=
  match lookupDefault definition property with
  | Bad err => Bad err
  | Ok (DString s) => Ok s
  | Ok (DNumber _) => Bad (ErrNew "default value is not of type string")
  end.
(** [MustDefaultString], src/pkg/api/spec/document.go:23-29 *)
Definition MustDefaultString {S} (definition property : string) : Go S string :=
  match DefaultString definition property with Ok d => mret d | Bad err => panic (Error err) end.

(** * Values against schemas *)

(** A value against a schema; [fuel] bounds the depth of the schema, with the
    references followed. *)
Definition is_some {A} (x : option A) : bool := match x with Some _ => true | None => false end.
Definition matches_pattern (pattern : option string) (s : string) : bool :=
  match pattern with
  | None => true
  | Some p => match parse_pattern p with Some r => MatchString r s | None => false end
  end.
Fixpoint conforms (fuel : nat) (s : schema) (v : json) : bool :=
  match fuel with
  | O => false
  | S fuel =>
      match s, v with
      | SString pattern enum _, JString x => matches_pattern pattern x && (bool_decide (enum = []) || bool_decide (x ∈ enum))
      | SInteger lo hi _, JInt z =>
          match lo with Some lo => (lo <=? z)%Z | None => true end && match hi with Some hi => (z <=? hi)%Z | None => true end
      | SBoolean, JBool _ => true
      | SArray items, JArray l => forallb (conforms fuel items) l
      | SRef name, _ => match assoc name definitions with Some s => conforms fuel s v | None => false end
      | SObject required properties, JObject fields =>
          forallb (fun name => is_some (assoc name fields)) required &&
          forallb (fun '(name, s) => match assoc name fields with Some v => conforms fuel s v | None => true end) properties
      | _, _ => false
      end
  end.

(** ** The encoding of the models

    [omitempty] leaves out an empty string and [false]; a struct is never
    empty. *)
Definition omit (name v : string) : list (string * json) := if decide (v = "") then [] else [(name, JString v)].
Definition omit_false (name : string) (b : bool) : list (string * json) := if b then [(name, JBool b)] else [].
Definition json_NodePoolConfig (m : NodePoolConfig) : json := JObject (omit_false "repair" (Repair m) ++ omit_false "upgrade" (Upgrade m)).
Definition json_NodePool (m : NodePool) : json :=
  JObject ([("config", json_NodePoolConfig (np_Config m)); ("flavor", JString (np_Flavor m))] ++ omit "image" (np_Image m) ++
           [("name", JString (np_Name m)); ("size", JInt (np_Size m))]).
Definition json_OpenstackSpec (m : OpenstackSpec) : json :=
  JObject (omit "lbSubnetID" (LBSubnetID m) ++ omit "networkID" (NetworkID m) ++ omit "projectID" (ProjectID m) ++
           omit "routerID" (RouterID m) ++ omit "securityGroupID" (SecurityGroupID m)).
Definition json_KlusterSpec (m : KlusterSpec) : json :=
  JObject (omit "advertiseAddress" (AdvertiseAddress m) ++ omit "clusterCIDR" (ClusterCIDR m) ++ omit "dnsAddress" (DNSAddress m) ++
           omit "dnsDomain" (DNSDomain m) ++ omit "name" (spec_Name m) ++
           [("nodePools", JArray (json_NodePool <$> NodePools m)); ("openstack", json_OpenstackSpec (Openstack m))] ++
           omit "serviceCIDR" (ServiceCIDR m)).
Definition json_NodePoolInfo (m : NodePoolInfo) : json :=
  JObject ([("healthy", JInt (npi_Healthy m))] ++ omit "name" (npi_Name m) ++
           [("running", JInt (npi_Running m)); ("schedulable", JInt (npi_Schedulable m)); ("size", JInt (npi_Size m))]).
Definition json_KlusterStatus (m : KlusterStatus) : json :=
  JObject (omit "apiserver" (Apiserver m) ++ omit "message" (Message m) ++ [("nodePools", JArray (json_NodePoolInfo <$> st_NodePools m))] ++
           omit "phase" (Phase m) ++ omit "version" (st_Version m) ++ omit "wormhole" (Wormhole m)).
Definition json_Kluster (m : KlusterModel) : json :=
  JObject [("name", JString (mk_Name m)); ("spec", json_KlusterSpec (mk_Spec m)); ("status", json_KlusterStatus (mk_Status m))].
Definition json_Event (m : Event) : json :=
  JObject ([("count", JInt (ev_Count m)); ("firstTimestamp", JString (ev_First m)); ("lastTimestamp", JString (ev_Last m))] ++
           omit "message" (ev_Message m) ++ omit "reason" (ev_Reason m) ++ omit "type" (ev_Type m)).
(** A nil pointer is [null]. *)
Definition json_Error (m : ErrorModel) : json :=
  JObject ([("code", match er_Code m with Some c => JInt c | None => JNull end)] ++ omit "helpUrl" (er_HelpURL m) ++
           [("message", match er_Message m with Some t => JString t | None => JNull end)]).


(** They are what the encoder makes of a record whose slices were made. *)
Lemma omit_encoded name v : (if bool_decide (v = "") then [] else [(name, JString v)]) = omit name v.
Proof. unfold omit. by case_decide; case_bool_decide. Qed.
Ltac encoded := cbn -[omit bool_decide]; rewrite ?omit_encoded, ?app_nil_r; try reflexivity.
Lemma json_NodePoolConfig_encoded m : encode t_NodePoolConfig (NodePoolConfig_val m) = json_NodePoolConfig m.
Proof. by destruct m as [[] []]. Qed.
Lemma json_NodePool_encoded m : encode t_NodePool (NodePool_val m) = json_NodePool m.
Proof. unfold json_NodePool. rewrite <- json_NodePoolConfig_encoded. encoded. Qed.
Lemma json_OpenstackSpec_encoded m : encode t_OpenstackSpec (OpenstackSpec_val m) = json_OpenstackSpec m.
Proof. unfold json_OpenstackSpec. encoded. Qed.
Lemma encode_made {A} t (f : A → goval) (g : A → json) l : (∀ x, encode t (f x) = g x) → encode (TSlice t) (made f l) = JArray (g <$> l).
Proof. intros Hfg. cbn. f_equal. induction l as [|x l IH]; cbn; [done|]. by rewrite Hfg, IH. Qed.
Lemma json_KlusterSpec_encoded m : encode t_KlusterSpec (KlusterSpec_val m) = json_KlusterSpec m.
Proof.
  unfold json_KlusterSpec. rewrite <- json_OpenstackSpec_encoded, <- (encode_made t_NodePool NodePool_val) by apply json_NodePool_encoded. encoded.
Qed.
Lemma json_NodePoolInfo_encoded m : encode t_NodePoolInfo (NodePoolInfo_val m) = json_NodePoolInfo m.
Proof. unfold json_NodePoolInfo. encoded. Qed.
Lemma json_KlusterStatus_encoded m : encode t_KlusterStatus (KlusterStatus_val m) = json_KlusterStatus m.
Proof.
  unfold json_KlusterStatus. rewrite <- (encode_made t_NodePoolInfo NodePoolInfo_val) by apply json_NodePoolInfo_encoded. encoded.
Qed.
Lemma json_Kluster_encoded m : encode t_KlusterModel (KlusterModel_val m) = json_Kluster m.
Proof. unfold json_Kluster. by rewrite <- json_KlusterSpec_encoded, <- json_KlusterStatus_encoded. Qed.
Lemma json_Event_encoded m : encode t_Event (Event_val m) = json_Event m.
Proof. unfold json_Event. encoded. Qed.
Lemma json_Error_encoded m : encode t_ErrorModel (ErrorModel_val m) = json_Error m.
Proof. unfold json_Error. destruct m as [[?|] ? [?|]]; encoded. Qed.

(** * What the generated validators enforce *)
Definition optional_pattern (p v : string) : bool := if decide (v = "") then true else matches_pattern (Some p) v.
Arguments matches_pattern : simpl never.

Lemma conforms_eq fuel s v : conforms (S fuel) s v =
  match s, v with
  | SString pattern enum _, JString x => matches_pattern pattern x && (bool_decide (enum = []) || bool_decide (x ∈ enum))
  | SInteger lo hi _, JInt z =>
      match lo with Some lo => (lo <=? z)%Z | None => true end && match hi with Some hi => (z <=? hi)%Z | None => true end
  | SBoolean, JBool _ => true
  | SArray items, JArray l => forallb (conforms fuel items) l
  | SRef name, _ => match assoc name definitions with Some s => conforms fuel s v | None => false end
  | SObject required properties, JObject fields =>
      forallb (fun name => is_some (assoc name fields)) required &&
      forallb (fun '(name, s) => match assoc name fields with Some v => conforms fuel s v | None => true end) properties
  | _, _ => false
  end.
Proof. reflexivity. Qed.

Lemma text_conforms fuel x d : conforms (S fuel) (SString None [] d) (JString x) = true.
Proof. reflexivity. Qed.
Lemma OpenstackSpec_conforms fuel m : conforms (S (S fuel)) def_OpenstackSpec (json_OpenstackSpec m) = true.
Proof. unfold json_OpenstackSpec, omit. repeat case_decide; reflexivity. Qed.
Lemma NodePoolInfo_conforms fuel m : conforms (S (S fuel)) def_NodePoolInfo (json_NodePoolInfo m) = true.
Proof. unfold json_NodePoolInfo, omit. case_decide; reflexivity. Qed.
Lemma NodePoolConfig_conforms fuel m : conforms (S (S fuel)) def_NodePoolConfig (json_NodePoolConfig m) = true.
Proof. unfold json_NodePoolConfig, omit_false. destruct (Repair m), (Upgrade m); reflexivity. Qed.

Lemma NodePool_conforms fuel m : conforms (S (S (S (S fuel)))) def_NodePool (json_NodePool m) =
  matches_pattern (Some pool_name_pattern) (np_Name m) && (0 <=? np_Size m)%Z && (np_Size m <=? 127)%Z.
Proof.
  unfold json_NodePool. rewrite conforms_eq. unfold def_NodePool, omit.
  assert (conforms (S (S (S fuel))) (SRef "NodePoolConfig") (json_NodePoolConfig (np_Config m)) = true) as Hc by apply (NodePoolConfig_conforms fuel).
  case_decide; cbn [app assoc forallb is_some String.eqb Ascii.eqb eqb andb]; rewrite Hc; rewrite ?conforms_eq; cbn [andb];
    rewrite ?bool_decide_true, ?orb_true_l, ?andb_true_r by done; cbn [andb]; by rewrite ?andb_assoc.
Qed.
Lemma forallb_fmap {A B} (f : A → B) (P : B → bool) l : forallb P (f <$> l) = forallb (λ x, P (f x)) l.
Proof. induction l as [|x l IH]; [done|]. cbn. by rewrite <- IH. Qed.
Lemma forallb_always {A} (P : A → bool) l : (∀ x, P x = true) → forallb P l = true.
Proof. intros H. apply forallb_forall. auto. Qed.

Definition pools_conform (pools : list NodePool) : bool :=
  forallb (fun p => matches_pattern (Some pool_name_pattern) (np_Name p) && (0 <=? np_Size p)%Z && (np_Size p <=? 127)%Z) pools.

Ltac fields := unfold object; cbn [app assoc forallb is_some String.eqb Ascii.eqb eqb andb].
Lemma KlusterSpec_conforms fuel m : conforms (S (S (S (S (S (S (S fuel))))))) def_KlusterSpec (json_KlusterSpec m) =
  optional_pattern cidr_pattern (ClusterCIDR m) && pools_conform (NodePools m) && optional_pattern cidr_pattern (ServiceCIDR m).
Proof.
  unfold json_KlusterSpec. rewrite conforms_eq. unfold def_KlusterSpec, omit, optional_pattern.
  assert (conforms (S (S (S (S (S (S fuel)))))) (SArray (SRef "NodePool")) (JArray (json_NodePool <$> NodePools m)) = pools_conform (NodePools m)) as Hp.
  { rewrite conforms_eq, forallb_fmap. unfold pools_conform. induction (NodePools m) as [|p l IH]; [done|]. cbn [forallb]. rewrite IH. f_equal.
    rewrite conforms_eq. cbn [assoc definitions String.eqb Ascii.eqb eqb]. apply NodePool_conforms. }
  assert (conforms (S (S (S (S (S (S fuel)))))) (SRef "OpenstackSpec") (json_OpenstackSpec (Openstack m)) = true) as Ho by apply (OpenstackSpec_conforms (S (S (S fuel)))).
  destruct (decide (AdvertiseAddress m = "")), (decide (ClusterCIDR m = "")), (decide (DNSAddress m = "")), (decide (DNSDomain m = "")),
    (decide (spec_Name m = "")), (decide (ServiceCIDR m = "")); fields; rewrite Hp, Ho; rewrite ?conforms_eq; cbn [andb];
    rewrite ?bool_decide_true, ?orb_true_l, ?andb_true_r by done; cbn [andb]; by rewrite ?andb_assoc, ?andb_true_r.
Qed.
Lemma KlusterStatus_conforms fuel m : conforms (S (S (S (S (S fuel))))) def_KlusterStatus (json_KlusterStatus m) =
  bool_decide (Phase m = "" ∨ Phase m ∈ klusterPhaseEnum).
Proof.
  unfold json_KlusterStatus. rewrite conforms_eq. unfold def_KlusterStatus, omit.
  assert (conforms (S (S (S (S fuel)))) (SArray (SRef "NodePoolInfo")) (JArray (json_NodePoolInfo <$> st_NodePools m)) = true) as Hp.
  { rewrite conforms_eq, forallb_fmap. apply forallb_always. intros x. apply (NodePoolInfo_conforms fuel). }
  assert (∀ x, conforms (S (S (S (S fuel)))) (SRef "KlusterPhase") (JString x) = bool_decide (x ∈ klusterPhaseEnum)) as Hph by reflexivity.
  destruct (decide (Apiserver m = "")), (decide (Message m = "")), (decide (Phase m = "")), (decide (st_Version m = "")), (decide (Wormhole m = ""));
    fields; rewrite Hp, ?Hph; rewrite ?conforms_eq; cbn [andb];
    rewrite ?bool_decide_true, ?orb_true_l, ?andb_true_r by tauto; cbn [andb]; try done; rewrite ?andb_true_r; apply bool_decide_ext; tauto.
Qed.
Lemma matches_same p r v : same_pattern p r → matches_pattern (Some p) v = MatchString r v.
Proof. intros (r' & Hp & Hm). unfold matches_pattern. by rewrite Hp. Qed.
Lemma Pattern_None name v r : Pattern name v r = None ↔ MatchString r v = true.
Proof. unfold Pattern. by destruct (MatchString r v). Qed.
Lemma ValidateName_None name e : ValidateName name <$> e = None ↔ e = None.
Proof. by destruct e. Qed.

Lemma Kluster_conforms fuel m : conforms (S (S (S (S (S (S (S (S (S (S fuel)))))))))) (SRef "Kluster") (json_Kluster m) =
  matches_pattern (Some kluster_name_pattern) (mk_Name m) &&
  (optional_pattern cidr_pattern (ClusterCIDR (mk_Spec m)) && pools_conform (NodePools (mk_Spec m)) && optional_pattern cidr_pattern (ServiceCIDR (mk_Spec m))) &&
  bool_decide (Phase (mk_Status m) = "" ∨ Phase (mk_Status m) ∈ klusterPhaseEnum).
Proof.
  rewrite conforms_eq. cbn [assoc definitions String.eqb Ascii.eqb eqb]. unfold def_Kluster, json_Kluster. rewrite conforms_eq. fields.
  assert (∀ v, conforms (S (S (S (S (S (S (S (S fuel)))))))) (SRef "KlusterSpec") v = conforms (S (S (S (S (S (S (S fuel))))))) def_KlusterSpec v) as -> by reflexivity.
  assert (∀ v, conforms (S (S (S (S (S (S (S (S fuel)))))))) (SRef "KlusterStatus") v = conforms (S (S (S (S (S (S (S fuel))))))) def_KlusterStatus v) as -> by reflexivity.
  rewrite KlusterSpec_conforms, KlusterStatus_conforms, conforms_eq. rewrite bool_decide_true, orb_true_l, !andb_true_r by done. by rewrite andb_assoc.
Qed.

(** The validators, as conditions *)
Lemma kluster_valid m : KlusterValidate.Validate m = None ↔
  MatchString re_kluster_name (mk_Name m) = true ∧
  (ClusterCIDR (mk_Spec m) = "" ∨ MatchString re_cidr (ClusterCIDR (mk_Spec m)) = true) ∧
  (ServiceCIDR (mk_Spec m) = "" ∨ MatchString re_cidr (ServiceCIDR (mk_Spec m)) = true) ∧
  (Phase (mk_Status m) = "" ∨ Phase (mk_Status m) ∈ klusterPhaseEnum).
Proof.
  assert (∀ v, (if decide (v = "") then None else Pattern "clusterCIDR" v re_cidr) = None ↔ v = "" ∨ MatchString re_cidr v = true) as Hc1.
  { intros v. case_decide; [tauto|]. rewrite Pattern_None. tauto. }
  assert (∀ v, (if decide (v = "") then None else Pattern "serviceCIDR" v re_cidr) = None ↔ v = "" ∨ MatchString re_cidr v = true) as Hc2.
  { intros v. case_decide; [tauto|]. rewrite Pattern_None. tauto. }
  unfold KlusterValidate.Validate. rewrite composite_None, !Forall_cons, Forall_nil.
  unfold KlusterValidate.validateName, KlusterValidate.validateSpec, KlusterValidate.validateStatus, RequiredString.
  assert ((match (if decide (mk_Name m = "") then Some (Validation "name" VRequired) else None) with
           | Some e => Some e | None => Pattern "name" (mk_Name m) re_kluster_name end) = None ↔ MatchString re_kluster_name (mk_Name m) = true) as ->.
  { case_decide as Hn; [rewrite Hn; by vm_compute|apply Pattern_None]. }
  assert ((if decide (mk_Spec m = zero_KlusterSpec) then None else ValidateName "spec" <$> KlusterSpecValidate.Validate (mk_Spec m)) = None ↔
    (ClusterCIDR (mk_Spec m) = "" ∨ MatchString re_cidr (ClusterCIDR (mk_Spec m)) = true) ∧
    (ServiceCIDR (mk_Spec m) = "" ∨ MatchString re_cidr (ServiceCIDR (mk_Spec m)) = true)) as ->.
  { case_decide as Hz; [rewrite Hz; cbn; tauto|]. rewrite ValidateName_None. unfold KlusterSpecValidate.Validate.
    rewrite composite_None, !Forall_cons, Forall_nil. unfold KlusterSpecValidate.validateClusterCIDR, KlusterSpecValidate.validateServiceCIDR.
    rewrite Hc1, Hc2. unfold KlusterSpecValidate.validateNodePools, KlusterSpecValidate.validateOpenstack. tauto. }
  assert ((if decide (mk_Status m = zero_KlusterStatus) then None else ValidateName "status" <$> KlusterStatusValidate.Validate (mk_Status m)) = None ↔
    Phase (mk_Status m) = "" ∨ Phase (mk_Status m) ∈ klusterPhaseEnum) as ->; [|tauto].
  case_decide as Hz; [rewrite Hz; cbn; tauto|]. rewrite ValidateName_None. unfold KlusterStatusValidate.Validate.
  rewrite composite_None, !Forall_cons, Forall_nil.
  unfold KlusterStatusValidate.validateNodePools, KlusterStatusValidate.validatePhase, KlusterStatusValidate.PhaseValidate, KlusterStatusValidate.validateKlusterPhaseEnum.
  case_decide as Hp; [tauto|]. rewrite ValidateName_None. case_decide; [tauto|]. naive_solver.
Qed.
Lemma pool_valid p : NodePoolValidate.Validate p = None ↔
  np_Flavor p ≠ "" ∧ MatchString re_pool_name (np_Name p) = true ∧ (0 <= np_Size p <= 127)%Z.
Proof.
  unfold NodePoolValidate.Validate. rewrite composite_None, !Forall_cons, Forall_nil.
  unfold NodePoolValidate.validateConfig, NodePoolValidate.validateFlavor, NodePoolValidate.validateName, NodePoolValidate.validateSize, RequiredString, MinimumInt, MaximumInt.
  assert ((match (if decide (np_Name p = "") then Some (Validation "name" VRequired) else None) with
           | Some e => Some e | None => Pattern "name" (np_Name p) re_pool_name end) = None ↔ MatchString re_pool_name (np_Name p) = true) as ->.
  { case_decide as Hn; [rewrite Hn; by vm_compute|apply Pattern_None]. }
  case_decide as Hf; [naive_solver|].
  destruct (Z.eqb_spec (np_Size p) 0) as [He|He]; [naive_solver lia|].
  destruct (Z.ltb_spec (np_Size p) 0), (Z.ltb_spec 127 (np_Size p)); naive_solver lia.
Qed.

Lemma optional_same p r v : same_pattern p r → optional_pattern p v = true ↔ v = "" ∨ MatchString r v = true.
Proof. intros Hp. unfold optional_pattern. case_decide; [tauto|]. rewrite (matches_same _ _ _ Hp). tauto. Qed.
Lemma pools_valid pools : Forall (λ p, NodePoolValidate.Validate p = None) pools ↔
  pools_conform pools = true ∧ Forall (λ p, np_Flavor p ≠ "") pools.
Proof.
  induction pools as [|p l IH]; [done|]. unfold pools_conform. cbn [forallb]. rewrite !Forall_cons, IH, pool_valid, (matches_same _ _ _ pool_name_same).
  fold (pools_conform l). rewrite !andb_true_iff, !Z.leb_le. tauto.
Qed.

(** * Properties *)


(** The program accepts a body with a pool of negative size, which the document
    refuses. *)
Example document_not_enforced :
  let pool := {| np_Config := {| Repair := false; Upgrade := false |}; np_Flavor := "m1"; np_Image := ""; np_Name := "p"; np_Size := -1 |} in
  let m := {| mk_Name := "k"; mk_Spec := with_NodePools [pool] zero_KlusterSpec; mk_Status := zero_KlusterStatus |} in
  KlusterValidate.Validate m = None ∧ conforms 10 (SRef "Kluster") (encode t_KlusterModel (KlusterModel_val m)) = false.
Proof. split; vm_compute; reflexivity. Qed.
(** A nil slice is sent as null, which the document admits for no array: a
    cluster that was created without mentioning its pools is answered so. *)
Example null_not_conforming (Cu : Customs) :
  let body := JObject [("name", JString "k"); ("spec", JObject []); ("status", JObject [("nodePools", JArray [])])] in
  ∃ v, decode body t_KlusterModel (zero_value t_KlusterModel) = Decoded v None ∧ KlusterValidate.Validate (of_val v) = None ∧
       conforms 10 (SRef "Kluster") body = true ∧ conforms 10 (SRef "Kluster") (encode t_KlusterModel v) = false.
Proof. eexists. split; [reflexivity|]. vm_compute. done. Qed.
