(* ===== verification/Commands.v ===== *)
(** [pkg/cmd/kubernikus/helm.go], [seed/dns.go] and [pkg/cmd/nanny]: the small
    commands around the components: printing the values of the chart for a
    kluster, seeding the DNS addon alone, and the sidecar that collects routes.

    Flags are read before; the memory of the first command is the random number
    generator, what it prints is its result. *)
From S2P Require Import Prelude GoStrings Models NetIP Factory Certificates Bootstrap RouteGC.
From S2P Require Import Ground CertCommands.
Local Open Scope Z_scope.

(** * Printing the values of the chart *)
Section Helm.
Context {E : Type} `{!Machine GroundCall E} (now : Z) (EncodeCertPEM : Certificate -> string) (EncodePrivateKeyPEM : nat -> string).
Context (GitCommit : string) (Getenv : string -> string).
Abbreviation M := (Go (sys nat E GroundCall)).

(** [HelmOptions], src/pkg/cmd/kubernikus/helm.go:37-47 *)
Record HelmOptions := {
  ho_Name : string; ho_AuthURL : string; ho_AuthUsername : string; ho_AuthPassword : string; ho_AuthDomain : string;
  ho_AuthProject : string; ho_AuthProjectDomain : string; ho_ProjectID : string; ho_KubernikusAPI : string }.
(** [NewHelmOptions], src/pkg/cmd/kubernikus/helm.go:49-56 *)
Definition NewHelmOptions : HelmOptions :=
  {| ho_Name := ""; ho_AuthURL := ""; ho_AuthUsername := Getenv "USER"; ho_AuthPassword := ""; ho_AuthDomain := "ccadmin";
     ho_AuthProject := "cloud_admin"; ho_AuthProjectDomain := "ccadmin"; ho_ProjectID := ""; ho_KubernikusAPI := "" |}.
(** The password may come from the environment.
    [Validate], src/pkg/cmd/kubernikus/helm.go:68-92 *)
Definition Helm_Validate (o : HelmOptions) (args : list string) : reply HelmOptions :=
  match args with
  | [] => Bad (ErrNew "you must specify the cluster's name")
  | name :: _ =>
      if negb (Contains name ".") then Bad (ErrNew "Name must be the fqdn of the apiserver") else
      let password := if decide (ho_AuthPassword o = "") then Getenv "OS_PASSWORD" else ho_AuthPassword o in
      let o' := {| ho_Name := ho_Name o; ho_AuthURL := ho_AuthURL o; ho_AuthUsername := ho_AuthUsername o; ho_AuthPassword := password;
                   ho_AuthDomain := ho_AuthDomain o; ho_AuthProject := ho_AuthProject o; ho_AuthProjectDomain := ho_AuthProjectDomain o;
                   ho_ProjectID := ho_ProjectID o; ho_KubernikusAPI := ho_KubernikusAPI o |} in
      if decide (ho_AuthURL o = "") then
        if decide (ho_KubernikusAPI o = "") then Bad (ErrNew "--api is required") else Ok o
      else if decide (ho_ProjectID o = "") then Bad (ErrNew "project-id is required when specifying an auth-url")
      else if decide (password = "") then Bad (ErrNew "password is required")
      else if decide (ho_KubernikusAPI o = "") then Bad (ErrNew "--api is required")
      else Ok o'
  end.

Definition with_project (id : string) (spec : KlusterSpec) : KlusterSpec :=
  {| AdvertiseAddress := AdvertiseAddress spec; ClusterCIDR := ClusterCIDR spec; DNSAddress := DNSAddress spec;
     DNSDomain := DNSDomain spec; spec_Name := spec_Name spec; NodePools := NodePools spec;
     Openstack := {| LBSubnetID := ""; NetworkID := ""; ProjectID := id; RouterID := ""; SecurityGroupID := "" |};
     ServiceCIDR := ServiceCIDR spec |}.
Definition helm_spec (o : HelmOptions) (name : string) : KlusterSpec := with_project (ho_ProjectID o) (with_spec_Name name zero_KlusterSpec).
Definition helm_account (o : HelmOptions) : OpenstackOptions :=
  {| oo_AuthURL := ho_AuthURL o; oo_Username := ho_AuthUsername o; oo_Password := ho_AuthPassword o; oo_DomainName := ho_AuthDomain o; oo_Region := "" |}.
(** A computation on the random number generator alone *)
Definition with_random {A} (m : Go nat A) : M A := fun s => let '(n, o) := m (mem s) in (Sys n (env s) (trace s), o).
(** The name is split at its first dot.
    [Run], src/pkg/cmd/kubernikus/helm.go:99-133 *)
Definition Helm_Run (o : HelmOptions) : M string :=
  match Split "." (ho_Name o) with
  | name :: rest =>
      kluster ← lift_reply (KlusterFor GitCommit (helm_spec o name));
      match rest with
      | [] => panic "index out of range"
      | _ =>
          certificates ← with_random (CreateCertificates now EncodeCertPEM EncodePrivateKeyPEM kluster (ho_KubernikusAPI o) (ho_AuthURL o) (Join rest "."));
          token ← GenerateBootstrapToken;
          KlusterToHelmValues kluster (helm_account o) certificates token ""
      end
  | [] => panic "index out of range"
  end.
(** [NewHelmCommand], src/pkg/cmd/kubernikus/helm.go:19-35 *)
Definition helm_command (o : HelmOptions) (args : list string) : M string :=
  o ← lift_reply (Helm_Validate o args);
  match args with
  | name :: _ =>
      Helm_Run {| ho_Name := name; ho_AuthURL := ho_AuthURL o; ho_AuthUsername := ho_AuthUsername o; ho_AuthPassword := ho_AuthPassword o;
        ho_AuthDomain := ho_AuthDomain o; ho_AuthProject := ho_AuthProject o; ho_AuthProjectDomain := ho_AuthProjectDomain o;
        ho_ProjectID := ho_ProjectID o; ho_KubernikusAPI := ho_KubernikusAPI o |}
  | [] => panic "index out of range"
  end.
End Helm.

(** * Seeding the DNS addon *)
Section Dns.
Context {St : Type} (seed : ∀ c : SeedCall, Go St (resp c)) (NewClient : string -> string -> Go St unit).

(** [KubeDNSOptions], src/pkg/cmd/kubernikus/seed/dns.go:33-42 *)
Record KubeDNSOptions := { kd_kubeConfig : string; kd_context : string; kd_repository : string; kd_version : string;
  kd_domain : string; kd_clusterIP : string }.
(** [NewKubeDNSOptions], src/pkg/cmd/kubernikus/seed/dns.go:44-51 *)
Definition NewKubeDNSOptions : KubeDNSOptions :=
  {| kd_kubeConfig := ""; kd_context := ""; kd_repository := DEFAULT_REPOSITORY; kd_version := DEFAULT_VERSION;
     kd_domain := Factory.DEFAULT_DOMAIN; kd_clusterIP := "" |}.
(** [Validate], src/pkg/cmd/kubernikus/seed/dns.go:62-67 *)
Definition KubeDNS_Validate (o : KubeDNSOptions) : option error :=
  if decide (kd_clusterIP o = "") then Some (ErrNew "--cluster-ip is required") else None.
(** [Run], src/pkg/cmd/kubernikus/seed/dns.go:73-84 *)
Definition KubeDNS_Run (o : KubeDNSOptions) : Go St unit :=
  _ ← NewClient (kd_kubeConfig o) (kd_context o);
  SeedKubeDNS seed (kd_repository o) (kd_version o) (kd_domain o) (kd_clusterIP o).
(** [NewKubeDNSCommand], src/pkg/cmd/kubernikus/seed/dns.go:15-31 *)
Definition dns_command (o : KubeDNSOptions) : Go St unit :=
  match KubeDNS_Validate o with Some e => fail e | None => KubeDNS_Run o end.
End Dns.

(** * The sidecar *)
Section Nanny.
Context {E : Type} `{!Machine RouteCall E}.

(** [Options], src/pkg/cmd/nanny/nanny.go:44-55 *)
Record NannyOptions := {
  no_AuthURL : string; no_AuthUsername : string; no_AuthPassword : string; no_AuthDomain : string; no_AuthProject : string;
  no_AuthProjectDomain : string; no_AuthProjectID : string; no_RouterID : string; no_ClusterCIDR : string; no_SyncPeriod : Z }.
(** [NewNannyOptions], src/pkg/cmd/nanny/nanny.go:40-42 *)
Definition NewNannyOptions : NannyOptions :=
  {| no_AuthURL := ""; no_AuthUsername := ""; no_AuthPassword := ""; no_AuthDomain := ""; no_AuthProject := "";
     no_AuthProjectDomain := ""; no_AuthProjectID := ""; no_RouterID := ""; no_ClusterCIDR := ""; no_SyncPeriod := 60000000000 |}.
(** The authentication is done with the account of the options; at most
    [fuel] sweeps are considered.
    [run], src/pkg/cmd/nanny/nanny.go:70-105 *)
Definition nanny_run (fuel : nat) (o : NannyOptions) : Go (sys unit E RouteCall) unit :=
  match ParseCIDR (no_ClusterCIDR o) with
  | None => fail (err_parse_cidr (no_ClusterCIDR o))
  | Some cidr => RouteGC.Run (no_RouterID o) cidr fuel
  end.
End Nanny.

(** * The values that are printed *)
Section Values.
Context {E : Type} `{!Machine GroundCall E} (now : Z) (EncodeCertPEM : Certificate -> string) (EncodePrivateKeyPEM : nat -> string).
Context (GitCommit : string) (Getenv : string -> string).
Implicit Types s : sys nat E GroundCall.

Lemma token_run s : ∃ e token, GenerateBootstrapToken s = (Sys (mem s) e (trace s ++ [GBootstrapToken]), Ret token).
Proof. unfold GenerateBootstrapToken, gcall, mbind, go_bind, attempt, perform. destruct (answer _ _) as [e [t|err]]; by eexists _, _. Qed.

(** [kubernikus helm NAME.DOMAIN] with valid options marshals the values of
    one kluster of that name with the certificates made for it, whose tunnel
    server is named in the domain; but the kluster has no URLs yet, so both
    hosts, which the chart requires, are missing from what is printed. *)
Theorem helm_values o o' name domain args s :
  Helm_Validate Getenv o ((name +:+ "." +:+ domain) :: args) = Ok o' → name ≠ "" → str_has "." name = false →
  ∃ k n m values ca c, KlusterFor GitCommit (helm_spec o' name) = Ok k ∧
    CreateCertificates now EncodeCertPEM EncodePrivateKeyPEM k (ho_KubernikusAPI o') (ho_AuthURL o') domain (mem s) = (n, Ret m) ∧
    trace (fst (helm_command now EncodeCertPEM EncodePrivateKeyPEM GitCommit Getenv o ((name +:+ "." +:+ domain) :: args) s)) =
      trace s ++ [GBootstrapToken; GMarshal values] ∧
    hv_certs values = m ∧ ov_projectID (hv_openstack values) = ho_ProjectID o' ∧ hv_version values = GitCommit ∧
    hv_apiserverURL values = "" ∧ hv_wormholeURL values = "" ∧
    authority EncodeCertPEM EncodePrivateKeyPEM m "tls-ca" k ca ∧ Certificates.stored EncodeCertPEM EncodePrivateKeyPEM m "tls-wormhole" c ∧
    SignedBy c = PublicKey ca ∧ DNSNames c = [name +:+ "-wormhole." +:+ domain].
Proof.
  intros Hv Hname Hdot. destruct (default_kluster GitCommit (helm_spec o' name) Hname eq_refl) as (k & ip & Hk & Hip & Hkn & Hos & Ha & Hw & Hver).
  pose proof (create_run now EncodeCertPEM EncodePrivateKeyPEM k (ho_KubernikusAPI o') (ho_AuthURL o') domain (mem s) ip Hip) as Hrun.
  destruct (wormhole_certificate now EncodeCertPEM EncodePrivateKeyPEM k (ho_KubernikusAPI o') (ho_AuthURL o') domain (mem s) ip _ _ Hip Hrun)
    as (ca & c & Hca & Hc & Hs & _ & Hdns & _).
  destruct (token_run (Sys (28 + mem s)%nat (env s) (trace s))) as (e & token & Htok).
  eexists k, _, _, _, ca, c. split; [done|]. split; [exact Hrun|].
  unfold helm_command. erewrite bind_run by (rewrite Hv; reflexivity). unfold Helm_Run. cbn [ho_Name ho_KubernikusAPI ho_AuthURL].
  change (name +:+ "." +:+ domain) with (name +:+ String "." domain). rewrite Split_app by done.
  change (helm_spec _ name) with (helm_spec o' name). rewrite Hk. erewrite bind_run by reflexivity.
  pose proof (Join_Split "." domain) as HJ. destruct (Split "." domain) as [|w ws] eqn:Hsp; [by apply Split_nonempty in Hsp|].
  rewrite HJ. erewrite bind_run by (unfold with_random; rewrite Hrun; reflexivity).
  rewrite (bind_run _ _ _ _ _ Htok). cbn [mem trace]. unfold KlusterToHelmValues, gcall, perform. cbn [env trace].
  split; [destruct (answer (GMarshal _) e) as [e' r]; cbn [fst trace]; rewrite <- app_assoc; reflexivity|].
  cbn [hv_certs ov_projectID hv_openstack hv_version hv_apiserverURL hv_wormholeURL].
  rewrite Hos, Ha, Hw, Hver. split_and!; try done. by rewrite Hdns, Hkn.
Qed.
End Values.

(** * A concrete invocation *)
Definition demo_helm : HelmOptions :=
  {| ho_Name := ""; ho_AuthURL := "https://identity"; ho_AuthUsername := "me"; ho_AuthPassword := ""; ho_AuthDomain := "ccadmin";
     ho_AuthProject := "cloud_admin"; ho_AuthProjectDomain := "ccadmin"; ho_ProjectID := "p1"; ho_KubernikusAPI := "https://api" |}.
Definition demo_printer : Machine GroundCall unit := fun c e =>
  match c with GBootstrapToken => (e, Ok "token") | GMarshal _ => (e, Ok "values") | _ => (e, Bad (ErrNew "unexpected")) end.
Lemma helm_values_witness :
  ∃ values, trace (fst (helm_command (Machine0:=demo_printer) 0 (fun c => CommonName (Subject c)) pretty "git" (fun _ => "secret") demo_helm
      ["k.example.com"] (Sys 0%nat tt []))) = [GBootstrapToken; GMarshal values] ∧
    hv_apiserverURL values = "" ∧ ov_projectID (hv_openstack values) = "p1".
Proof.
  destruct (helm_values (Machine0:=demo_printer) 0 (fun c => CommonName (Subject c)) pretty "git" (fun _ => "secret") demo_helm
    {| ho_Name := ""; ho_AuthURL := "https://identity"; ho_AuthUsername := "me"; ho_AuthPassword := "secret"; ho_AuthDomain := "ccadmin";
       ho_AuthProject := "cloud_admin"; ho_AuthProjectDomain := "ccadmin"; ho_ProjectID := "p1"; ho_KubernikusAPI := "https://api" |}
    "k" "example.com" [] (Sys 0%nat tt [])) as (k & n & m & values & ca & c & _ & _ & Ht & _ & Hp & _ & Ha & _);
    [reflexivity|done|reflexivity|].
  exists values. split; [exact Ht|]. split; [exact Ha|exact Hp].
Defined.
